(* ===== verification/_CoqProject ===== *)
-Q . S2P
Prelude.v
Mem.v
Libc.v
Kmem.v
MemPool.v
Pte.v
Mmu.v
MmuRpi4.v
Stack.v
Uart.v
Kstate.v
Runq.v
Sched.v
Sync.v
SyncInv.v
SyncThms.v
Types.v
Thread.v
Spawn.v
Cache.v
Dma.v
Dev.v
Irq.v
Spinlock.v
MemLab.v
MemDemo.v
Region.v
DmaLab.v
DmaLabThms.v
SelfTest.v
Except.v
StackLab.v
Globals.v
LockLab.v
SyncLab.v
SyncLabThms.v
Boot.v
