(* ===== verification/Prelude.v ===== *)
(** * Verification of the AArch64 micro-kernel: root and prelude

    The program is a single-core, bare-metal AArch64 kernel (QEMU virt and
    Raspberry Pi 4): it builds its translation tables, hands out memory, runs
    preemptive threads under a priority scheduler, offers mutexes with priority
    inheritance and semaphores, and moves memory with a software DMA engine
    behind an explicit cache-maintenance discipline.  This development models
    its C++ sources ([src/src], [src/include]) as executable functions on
    explicit states and proves what each part promises.

    ** Layout

    Each file models one source file (or a part of one) and opens with the name
    of what it models; a definition carries the name of the function it models.

    - foundations: [Prelude] (this file: machine integers, loops, chains of
      pointers, tactics), [Mem] (RAM as bytes, little-endian accesses), [Libc]
      ([memcpy], [memset]);
    - memory: [Kmem] (the bump allocator [kmem.cc]), [MemPool] (the block pool
      [mem_pool.cc]), [MemLab] and [MemDemo] (the first-fit heap of [mem_lab.cc]
      and the report its runs print);
    - translation: [Pte] (descriptors and the architecture's table walk), [Mmu]
      ([mmu.cc]) and [MmuRpi4] ([mmu_rpi4.cc]);
    - the kernel state: [Kstate] (threads, mutexes, semaphores, CPU block,
      statics of [thread.cc]; the control monad [K] in which a function returns,
      switches to another thread and waits to be resumed, halts or is stuck), [Stack] (guard pattern and
      high-water mark), [Runq] (the circular run queue and the priority pick),
      [Sched] (switching, yielding, the tick, blocking, preemption, [preempt.cc],
      [fpsimd.cc]), [Thread] ([sched_init], [thread_create_prio]);
    - synchronisation: [Sync] ([sync.cc]), [SyncInv] (the invariant that ties
      run queue, wait queues and owned mutexes together, preserved by every
      step), [SyncThms] (what lock, unlock, trylock, up and down promise),
      [Spinlock] ([spinlock.cc], [irqflags.h]);
    - devices: [Uart] ([uart_pl011.cc] and every number printer), [Cache]
      ([barrier.cc] over a write-back cache), [Dma] ([dma.cc]), [Dev]
      ([timer.cc], [gicv3.cc], [cpu_local.cc], the two platforms), [Irq] (the
      whole handler of [irq.cc] over timer, interrupt controller, tick and DMA);
    - the kernel's interface: [Spawn] (creating, queueing and starting threads, and
      what holds from [sched_init] to the first switch), [Types] (type safety of
      every service), [Except] (the exception reporter of [except.cc]);
    - demonstrations: [Region], [DmaLab] and [DmaLabThms] ([dma_lab.cc]: six
      experiments with the cache), [SelfTest] (the DMA self-test of [kmain.cc]),
      [StackLab] ([stack_lab.cc] up to the fault on the guard page), [Globals]
      (static variables in RAM), [LockLab] ([lock_lab.cc] and the lab's branch of
      the interrupt handler), [SyncLab] and [SyncLabThms] ([sync_lab.cc]);
    - [Boot]: [kmain.cc], from reset to the first thread, over all of the above,
      the two platforms being instances of the class [Boot.Platform].

    ** How the parts fit

    The components below the scheduler are functions on their own state
    ([kmem], [mem_pool], [mmu_st], [mem]).  [Kstate.kst] gathers the state the
    scheduler, the locks and thread creation share, objects by address, so that
    aliasing is the code's.  [Irq.irq_st] puts the kernel state, the DMA engine
    and the device trace together, and hands the shared console and DAIF
    register back and forth.  RAM occurs twice: [Kstate.ram] is the flat memory
    the kernel sees through its cacheable mapping, [Dma.sys] the memory and cache
    the DMA engine works on through two mappings.  They are kept apart:
    [Cache.cache_transparent] shows that a program with a single cacheable view
    cannot tell the cached machine from a flat memory.

    ** What the theorems show

    - allocation: blocks are disjoint, aligned and inside their region ([Kmem],
      [MemPool], [Dma]); the pool refines a stack of free blocks, the first-fit
      heap a list of blocks, and any client's run keeps them intact; the
      arithmetic that wraps and the double free are shown as such;
    - translation: for every address the walk of the tables the kernel builds
      gives exactly the intended map, and a guard page removes exactly its page;
    - scheduling: the run queue refines a list; the pick takes a ready thread of
      greatest priority, in turn among equals; a quantum lasts its ticks; a
      reschedule switches to the best thread; yields go round the ring;
    - synchronisation: lock and unlock, hand-over to the first waiter of greatest
      priority, inheritance, counting, deadlock detection, each over the
      invariant; spin locks against arbitrary interrupts, including when they
      never return;
    - devices: printing round trips; initialisation sequences; a DMA transfer
      delivers the bytes the program saw whatever lines the cache moves; a timer
      interrupt end to end;
    - type safety: pointers stay null or valid and fields in range, whatever
      service is called and at every switch;
    - the system: [kmain] reaches its first thread with every invariant above
      established ([Boot.kmain_boots]); the demonstrations show what their
      sources say they show, deadlocks and faults included;
    - the places where the code does not do what it means to (a wait queue that
      loses waiters, a lock that never returns, preemption that loses the
      interrupted address, double free) are theorems too.

    ** Bounds and fuel

    Integers are [Z]; the arithmetic of the source wraps explicitly ([wrap64],
    [wrap32], [int32]).  Structural loops are Fixpoints on their bound
    ([for_range]).  Loops over chains of pointers carry as fuel one more than
    the number of objects, so running out means a cycle.  Loops that wait (spin
    locks, the redistributor's wake-up, a blocked mutex, polling) take the fuel
    as an argument and return nothing when it runs out: the theorems give the
    fuel that is enough, or that no fuel is.

    ** Not modelled

    - assembly: boot code, vectors, the context switch itself ([arch_switch] is
      modelled by its contract in [Sched.do_switch]: the callee-saved context and
      stack pointer change hands);
    - memory ordering and more than one core: the kernel runs on one core, and
      barriers are recorded where they are part of a sequence;
    - interrupts between arbitrary instructions: in [Spinlock] they occur at the
      relaxations, in [Cache] the hardware moves lines at every access, elsewhere
      an operation runs to its end (the code masks interrupts or preemption
      around its updates);
    - [Irq] is the build with [LOCK_LAB_MODE=0]; the other branch is
      [LockLab.lab_interrupt], with an interrupt that would preempt not followed;
    - no interrupt is followed between the unmasking in [kmain] and the first
      switch; what interrupts do in the labs' delay loops is a parameter;
    - what the compiler chooses (frame sizes, addresses of functions and
      variables) is a parameter, and so is what a device answers;
    - [cpu_local()] returns the block set up at boot, so its null tests are not
      modelled;
    - the inline accessors of system registers have no definition of their own:
      an access is an event of the device trace, or a field of the state.

    This file: the vocabulary of machine integers, loops and linked structures
    with their lemmas and tactics. *)

From Stdlib Require Export ZArith Lia Bool.
From stdpp Require Export base gmap list option fin_maps.
#[global] Open Scope Z_scope.

(** ** Machine integers *)

(** [uintptr_t], [size_t] and [uint64_t] values are integers in [0, 2^64); the
    arithmetic operators of the source wrap modulo [2^64]. *)
Definition W64 : Z := 2 ^ 64.

Definition W32 : Z := 2 ^ 32.

Definition wrap64 (z : Z) : Z := z mod 2 ^ 64.

Definition wrap32 (z : Z) : Z := z mod 2 ^ 32.

(** A 32-bit two's complement [int] holding the low bits of [z]. *)
Definition int32 (z : Z) : Z := (z + 2 ^ 31) mod 2 ^ 32 - 2 ^ 31.

Declare Scope mk_scope.
Delimit Scope mk_scope with mk.
Notation "a +64 b" := (wrap64 (a + b)) (at level 50, left associativity) : mk_scope.
Notation "a -64 b" := (wrap64 (a - b)) (at level 50, left associativity) : mk_scope.
Notation "~64 a" := (wrap64 (Z.lnot a)) (at level 35, right associativity) : mk_scope.
#[global] Open Scope mk_scope.

Definition is_u64 (z : Z) : Prop := 0 <= z < 2 ^ 64.

(** A pointer value of 0 is [nullptr]. *)
Definition nullptr : Z := 0.

(** ** Loops *)

(** [for (i = lo; i < hi; ++i) body] over a state. *)
Fixpoint for_from {S : Type} (body : Z -> S -> S) (i : Z) (n : nat) (s : S) : S :=
  match n with
  | O => s
  | Datatypes.S n' => for_from body (i + 1) n' (body i s)
  end.

Definition for_range {S : Type} (lo hi : Z) (body : Z -> S -> S) (s : S) : S :=
  for_from body lo (Z.to_nat (hi - lo)) s.

(** ** Linked structures: the abstract list behind a chain of pointers *)

(** [linked nxt l e]: following [nxt] from the head of [l] visits exactly the
    elements of [l] and then reaches [e].  With [e = nullptr] it is a
    null-terminated list, with [e = hd] a circular one. *)
Fixpoint linked (nxt : Z -> Z) (l : list Z) (e : Z) : Prop :=
  match l with
  | [] => True
  | x :: l' => nxt x = hd e l' /\ linked nxt l' e
  end.

(** ** Tactics *)

(** [zlia]: [lia] after the Euclidean equations of every [/] and [mod]. *)
Ltac zlia := Z.div_mod_to_equations; lia.

(** [u64]: unfold the machine-integer vocabulary and decide. *)
Ltac u64 := unfold is_u64, wrap64, wrap32, W64, W32, nullptr in *; zlia.

(** [bdestr]: case analysis on the first integer comparison of the goal. *)
Ltac bdestr :=
  match goal with
  | |- context [Z.eqb ?a ?b] => destruct (Z.eqb_spec a b)
  | |- context [Z.leb ?a ?b] => destruct (Z.leb_spec a b)
  | |- context [Z.ltb ?a ?b] => destruct (Z.ltb_spec a b)
  end.

Ltac bdestr_in H :=
  match type of H with
  | context [Z.eqb ?a ?b] => destruct (Z.eqb_spec a b)
  | context [Z.leb ?a ?b] => destruct (Z.leb_spec a b)
  | context [Z.ltb ?a ?b] => destruct (Z.ltb_spec a b)
  end.

(** ** Machine-integer lemmas *)

Lemma wrap64_small z : 0 <= z < 2 ^ 64 -> wrap64 z = z.
Proof. apply Z.mod_small. Qed.

Lemma wrap64_range z : 0 <= wrap64 z < 2 ^ 64.
Proof. apply Z.mod_pos_bound; lia. Qed.

Lemma wrap64_ones z : wrap64 z = Z.land z (Z.ones 64).
Proof. unfold wrap64. by rewrite Z.land_ones by lia. Qed.

Lemma int32_small z : - 2 ^ 31 <= z < 2 ^ 31 -> int32 z = z.
Proof. unfold int32. zlia. Qed.

(** Masking with the complement of [2^k - 1] clears the low [k] bits. *)
Lemma land_lnot_ones v k :
  0 <= k <= 64 -> 0 <= v < 2 ^ 64 ->
  Z.land v (~64 (2 ^ k - 1)) = v / 2 ^ k * 2 ^ k.
Proof.
  intros Hk Hv.
  assert (Hones : 2 ^ k - 1 = Z.ones k) by (rewrite Z.ones_equiv; lia).
  rewrite Hones, wrap64_ones, <- Z.shiftr_div_pow2, <- Z.shiftl_mul_pow2 by lia.
  apply Z.bits_inj'. intros i Hi.
  rewrite !Z.land_spec, Z.lnot_spec, Z.shiftl_spec by lia.
  destruct (Z.ltb_spec i 64) as [Hlt | Hge].
  - rewrite (Z.ones_spec_low 64), andb_true_r by lia.
    destruct (Z.ltb_spec i k).
    + rewrite Z.ones_spec_low, (Z.testbit_neg_r _ (i - k)) by lia. apply andb_false_r.
    + rewrite Z.ones_spec_high, Z.shiftr_spec by lia. rewrite andb_true_r. f_equal; lia.
  - rewrite (Z.ones_spec_high 64) by lia. rewrite !andb_false_r, Z.shiftr_spec by lia.
    replace (i - k + k) with i by lia. symmetry.
    rewrite <- (Z.mod_small v (2 ^ 64)) by done. apply Z.mod_pow2_bits_high; lia.
Qed.

Lemma pow2_64 k : 0 <= k < 64 -> 0 < 2 ^ k < 2 ^ 64.
Proof.
  split; [apply Z.pow_pos_nonneg; lia | apply Z.pow_lt_mono_r; lia].
Qed.

(** ** Loop lemmas *)

Lemma for_from_ind {S : Type} (P : Z -> S -> Prop) body i n s :
  P i s ->
  (forall j s', i <= j < i + Z.of_nat n -> P j s' -> P (j + 1) (body j s')) ->
  P (i + Z.of_nat n) (for_from body i n s).
Proof.
  revert i s. induction n as [|n IH]; intros i s H0 Hstep; simpl.
  - by rewrite Z.add_0_r.
  - replace (i + Z.of_nat (Datatypes.S n)) with (i + 1 + Z.of_nat n) by lia.
    apply IH; [apply Hstep; [lia | done] |].
    intros j s' Hj. apply Hstep. lia.
Qed.

(** Hoare rule of the counting loop. *)
Lemma for_range_ind {S : Type} (P : Z -> S -> Prop) lo hi body s :
  lo <= hi ->
  P lo s ->
  (forall j s', lo <= j < hi -> P j s' -> P (j + 1) (body j s')) ->
  P hi (for_range lo hi body s).
Proof.
  intros Hle H0 Hstep. unfold for_range.
  replace hi with (lo + Z.of_nat (Z.to_nat (hi - lo))) at 1 by lia.
  apply for_from_ind; [done | intros j s' Hj; apply Hstep; lia].
Qed.

Lemma for_range_empty {S : Type} lo hi (body : Z -> S -> S) s :
  hi <= lo -> for_range lo hi body s = s.
Proof. intros H. unfold for_range. by replace (Z.to_nat (hi - lo)) with O by lia. Qed.

(** ** Linked-structure lemmas *)

Lemma linked_app nxt l1 l2 e :
  linked nxt (l1 ++ l2) e <-> linked nxt l1 (hd e l2) /\ linked nxt l2 e.
Proof.
  induction l1 as [|x l1 IH]; simpl; [tauto |].
  rewrite IH. destruct l1; simpl; tauto.
Qed.

(** Frame rule: pointers of nodes outside the chain do not matter. *)
Lemma linked_ext nxt nxt' l e :
  (forall x, x ∈ l -> nxt x = nxt' x) -> linked nxt l e -> linked nxt' l e.
Proof.
  induction l as [|x l IH]; simpl; intros Hext; [done |].
  intros [Hx Hl]. split; [rewrite <- Hext; [done | left] |].
  apply IH; [intros y Hy; apply Hext; by right | done].
Qed.

Lemma linked_snoc nxt l x e :
  linked nxt (l ++ [x]) e <-> linked nxt l x /\ nxt x = e.
Proof. rewrite linked_app. simpl. tauto. Qed.

Lemma linked_end nxt l e e' : l <> [] -> linked nxt l e -> nxt (List.last l 0) = e' ->
  linked nxt l e'.
Proof.
  intros Hne. destruct (exists_last Hne) as (l' & x & ->).
  rewrite last_last, !linked_snoc. tauto.
Qed.

(** ** Reachability *)

(** A predicate every step preserves holds in every reachable state. *)
Lemma rtc_invariant {A : Type} (R : relation A) (I : A -> Prop) :
  (forall x y, R x y -> I x -> I y) -> forall x y, rtc R x y -> I x -> I y.
Proof. intros Hstep x y Hxy. induction Hxy; eauto. Qed.

Create HintDb mk discriminated.
Create Rewrite HintDb mk.
#[export] Hint Resolve wrap64_range : mk.
#[export] Hint Resolve Z.mod_pos_bound : mk.
