(* ===== verification/Mem.v ===== *)
(** * Byte-addressed physical memory

    The RAM every component shares: bytes indexed by address, with the 64-bit
    little-endian accesses the kernel makes through [void**] and [uint64_t*]
    pointers.  A byte never written reads as 0 (the boot code clears [.bss] and
    the model makes no use of the initial contents of RAM).  Two memories that
    answer every byte read alike are equal for every program ([mem_eq]). *)

From S2P Require Import Prelude.

Abbreviation mem := (gmap Z Z).

Definition ld8 (m : mem) (a : Z) : Z := default 0 (m !! a).

Definition st8 (a v : Z) (m : mem) : mem := <[a := v mod 256]> m.

(** The [n] bytes at [a], least significant first, as one integer. *)
Fixpoint ld_le (n : nat) (m : mem) (a : Z) : Z :=
  match n with
  | O => 0
  | Datatypes.S n' => ld8 m a + 256 * ld_le n' m (a + 1)
  end.

Fixpoint st_le (n : nat) (a v : Z) (m : mem) : mem :=
  match n with
  | O => m
  | Datatypes.S n' => st_le n' (a + 1) (v / 256) (st8 a v m)
  end.

Definition ld64 (m : mem) (a : Z) : Z := ld_le 8 m a.

Definition st64 (a v : Z) (m : mem) : mem := st_le 8 a v m.

(** Observational equality of memories. *)
Definition mem_eq (m1 m2 : mem) : Prop := forall a, ld8 m1 a = ld8 m2 a.

(** [mem_same_outside lo hi m1 m2]: the memories agree outside [lo, hi). *)
Definition mem_same_outside (lo hi : Z) (m1 m2 : mem) : Prop :=
  forall a, ~ (lo <= a < hi) -> ld8 m1 a = ld8 m2 a.

#[export] Instance mem_eq_equiv : Equivalence mem_eq.
Proof. split; [done | intros m1 m2 H a; by rewrite H |]. intros m1 m2 m3 H1 H2 a. by rewrite H1. Qed.

#[export] Instance ld8_proper : Proper (mem_eq ==> eq ==> eq) ld8.
Proof. intros m1 m2 H a ? <-. apply H. Qed.

Lemma ld8_st8 m a v b :
  ld8 (st8 a v m) b = if a =? b then v mod 256 else ld8 m b.
Proof.
  unfold ld8, st8. rewrite lookup_insert. destruct (Z.eqb_spec a b).
  - by rewrite decide_True.
  - by rewrite decide_False.
Qed.

Lemma ld8_st8_eq m a v : ld8 (st8 a v m) a = v mod 256.
Proof. by rewrite ld8_st8, Z.eqb_refl. Qed.

Lemma ld8_st8_ne m a v b : a <> b -> ld8 (st8 a v m) b = ld8 m b.
Proof. intros H. rewrite ld8_st8. by apply Z.eqb_neq in H as ->. Qed.

#[export] Instance st8_proper : Proper (eq ==> eq ==> mem_eq ==> mem_eq) st8.
Proof. intros a ? <- v ? <- m1 m2 H b. rewrite !ld8_st8. by rewrite H. Qed.

#[export] Instance ld_le_proper n : Proper (mem_eq ==> eq ==> eq) (ld_le n).
Proof.
  intros m1 m2 H a ? <-. revert a. induction n as [|n IH]; intros a; simpl; [done |].
  by rewrite IH, H.
Qed.

#[export] Instance ld64_proper : Proper (mem_eq ==> eq ==> eq) ld64.
Proof. apply ld_le_proper. Qed.

#[export] Instance st_le_proper n : Proper (eq ==> eq ==> mem_eq ==> mem_eq) (st_le n).
Proof.
  intros a ? <- v ? <-. revert a v. induction n as [|n IH]; intros a v m1 m2 H; simpl; [done |].
  apply IH. by rewrite H.
Qed.

#[export] Instance st64_proper : Proper (eq ==> eq ==> mem_eq ==> mem_eq) st64.
Proof. apply st_le_proper. Qed.

(** A load depends only on the bytes it covers. *)
Lemma ld_le_ext n m1 m2 a :
  (forall i, a <= i < a + Z.of_nat n -> ld8 m1 i = ld8 m2 i) -> ld_le n m1 a = ld_le n m2 a.
Proof.
  revert a. induction n as [|n IH]; intros a H; cbn [ld_le]; [done |].
  rewrite (IH (a + 1)), (H a); [done | lia |]. intros i Hi. apply H. lia.
Qed.

Lemma ld64_ext m1 m2 a :
  (forall i, a <= i < a + 8 -> ld8 m1 i = ld8 m2 i) -> ld64 m1 a = ld64 m2 a.
Proof. intros H. apply ld_le_ext. simpl. intros i Hi. apply H. lia. Qed.

Lemma ld8_st_le n m a v b :
  b < a \/ a + Z.of_nat n <= b -> ld8 (st_le n a v m) b = ld8 m b.
Proof.
  revert m a v. induction n as [|n IH]; intros m a v Hb; cbn [st_le]; [done |].
  rewrite IH, ld8_st8_ne; [done | lia | lia].
Qed.

Lemma ld8_st64_other m a v b : b < a \/ a + 8 <= b -> ld8 (st64 a v m) b = ld8 m b.
Proof. apply (ld8_st_le 8). Qed.

Lemma ld_le_st_le n m a v : ld_le n (st_le n a v m) a = v mod 256 ^ Z.of_nat n.
Proof.
  revert m a v. induction n as [|n IH]; intros m a v; cbn [ld_le st_le].
  - by rewrite Z.mod_1_r.
  - rewrite IH, ld8_st_le, ld8_st8_eq by lia.
    rewrite Nat2Z.inj_succ, Z.pow_succ_r by lia.
    rewrite Z.rem_mul_r by lia. done.
Qed.

Lemma ld64_st64_eq m a v : ld64 (st64 a v m) a = wrap64 v.
Proof. apply (ld_le_st_le 8). Qed.

Lemma ld64_st64_other m a v b : b + 8 <= a \/ a + 8 <= b -> ld64 (st64 a v m) b = ld64 m b.
Proof. intros H. apply ld64_ext. intros i Hi. apply ld8_st64_other. lia. Qed.

Lemma mem_same_outside_refl lo hi m : mem_same_outside lo hi m m.
Proof. done. Qed.

Lemma mem_same_outside_st64 lo hi m m' a v :
  lo <= a -> a + 8 <= hi -> mem_same_outside lo hi m m' ->
  mem_same_outside lo hi m (st64 a v m').
Proof. intros H1 H2 H b Hb. rewrite ld8_st64_other by lia. by apply H. Qed.

Lemma mem_same_outside_ld64 lo hi m m' a :
  mem_same_outside lo hi m m' -> a + 8 <= lo \/ hi <= a -> ld64 m a = ld64 m' a.
Proof. intros H Ha. apply ld64_ext. intros i Hi. apply H. lia. Qed.

(** Every byte of memory holds a value below 256; all stores keep it so. *)
Definition mem_bytes (m : mem) : Prop := forall a, 0 <= ld8 m a < 256.

Lemma mem_bytes_st8 m a v : mem_bytes m -> mem_bytes (st8 a v m).
Proof. intros H b. rewrite ld8_st8. bdestr; [zlia | apply H]. Qed.

Lemma mem_bytes_st_le n m a v : mem_bytes m -> mem_bytes (st_le n a v m).
Proof. revert m a v. induction n as [|n IH]; intros m a v H; simpl; [done |]. auto using mem_bytes_st8. Qed.

Lemma mem_bytes_st64 m a v : mem_bytes m -> mem_bytes (st64 a v m).
Proof. apply mem_bytes_st_le. Qed.

#[export] Hint Resolve mem_same_outside_refl mem_same_outside_st64 : mk.
