(* ===== verification/Libc.v ===== *)
(** * [src/src/libc.cc]: memset, memcpy, memmove, memcmp

    The four routines as loops over the shared memory.  Pointer arguments are
    addresses; the returned pointer is [dst]. *)

From S2P Require Import Prelude Mem.

Definition memset (dst c n : Z) (m : mem) : Z * mem :=
  (dst, for_range 0 n (fun i m => st8 (dst + i) (c mod 256) m) m).

Definition memcpy (dst src n : Z) (m : mem) : Z * mem :=
  (dst, for_range 0 n (fun i m => st8 (dst + i) (ld8 m (src + i)) m) m).

(** The backward loop [for (i = n; i != 0; --i) d[i-1] = s[i-1]]. *)
Fixpoint copy_down (dst src : Z) (i : nat) (m : mem) : mem :=
  match i with
  | O => m
  | Datatypes.S i' =>
      copy_down dst src i' (st8 (dst + Z.of_nat i') (ld8 m (src + Z.of_nat i')) m)
  end.

Definition memmove (dst src n : Z) (m : mem) : Z * mem :=
  if (dst =? src) || (n =? 0) then (dst, m)
  else if dst <? src then
    (dst, for_range 0 n (fun i m => st8 (dst + i) (ld8 m (src + i)) m) m)
  else (dst, copy_down dst src (Z.to_nat n) m).

Fixpoint memcmp_loop (a b : Z) (i : Z) (n : nat) (m : mem) : Z :=
  match n with
  | O => 0
  | Datatypes.S n' =>
      if negb (ld8 m (a + i) =? ld8 m (b + i))
      then (if ld8 m (a + i) <? ld8 m (b + i) then -1 else 1)
      else memcmp_loop a b (i + 1) n' m
  end.

Definition memcmp (a b n : Z) (m : mem) : Z := memcmp_loop a b 0 (Z.to_nat n) m.

(** The forward copy loop, when no source byte is overwritten before it is read. *)
Lemma copy_up_spec dst src n m :
  0 <= n -> mem_bytes m -> (dst <= src \/ src + n <= dst) ->
  let m' := for_range 0 n (fun i m => st8 (dst + i) (ld8 m (src + i)) m) m in
  (forall i, 0 <= i < n -> ld8 m' (dst + i) = ld8 m (src + i)) /\
  mem_same_outside dst (dst + n) m' m.
Proof.
  intros Hn Hb Hov.
  apply (for_range_ind (fun j m' =>
    (forall i, 0 <= i < j -> ld8 m' (dst + i) = ld8 m (src + i)) /\
    mem_same_outside dst (dst + j) m' m)).
  - done.
  - split; [intros; lia | done].
  - intros j m' Hj [IHin IHout]. split.
    + intros i Hi. rewrite ld8_st8. bdestr.
      * assert (i = j) as -> by lia. rewrite IHout by lia.
        apply Z.mod_small, Hb.
      * apply IHin. lia.
    + intros a Ha. rewrite ld8_st8_ne by lia. apply IHout. lia.
Qed.

Lemma copy_down_spec dst src n m :
  mem_bytes m -> src <= dst ->
  let m' := copy_down dst src n m in
  (forall i, 0 <= i < Z.of_nat n -> ld8 m' (dst + i) = ld8 m (src + i)) /\
  mem_same_outside dst (dst + Z.of_nat n) m' m.
Proof.
  intros Hb Hle. revert m Hb. induction n as [|n IH]; intros m Hb; cbn [copy_down].
  - split; [intros; lia | done].
  - set (m1 := st8 _ _ m). destruct (IH m1 (mem_bytes_st8 _ _ _ Hb)) as [IHin IHout].
    split.
    + intros i Hi. destruct (Z.eq_dec i (Z.of_nat n)) as [-> | Hne].
      * rewrite IHout by lia. unfold m1. rewrite ld8_st8_eq. apply Z.mod_small, Hb.
      * rewrite IHin by lia. unfold m1. apply ld8_st8_ne. lia.
    + intros a Ha. rewrite IHout by lia. unfold m1. apply ld8_st8_ne. lia.
Qed.

(** [memmove] copies the [n] source bytes as they were before the call to
    the destination, whatever the overlap of the two ranges, returns [dst] and
    touches no byte outside the destination. *)
Theorem memmove_correct dst src n m :
  0 <= n -> mem_bytes m ->
  exists m', memmove dst src n m = (dst, m') /\
    (forall i, 0 <= i < n -> ld8 m' (dst + i) = ld8 m (src + i)) /\
    mem_same_outside dst (dst + n) m' m.
Proof.
  intros Hn Hb. unfold memmove.
  destruct (Z.eqb_spec dst src) as [-> |]; [by exists m |].
  destruct (Z.eqb_spec n 0) as [-> |]; [exists m; split; [done | split; [lia | done]] |].
  simpl. destruct (Z.ltb_spec dst src); eexists; (split; [done |]).
  - apply copy_up_spec; [done | done | lia].
  - destruct (copy_down_spec dst src (Z.to_nat n) m Hb) as [H1 H2]; [lia |].
    rewrite Z2Nat.id in H1, H2 by lia. done.
Qed.

Lemma memmove_correct_witness :
  let m := st8 101 8 (st8 100 7 ∅) in
  exists m', memmove 101 100 2 m = (101, m') /\
    (forall i, 0 <= i < 2 -> ld8 m' (101 + i) = ld8 m (100 + i)) /\
    mem_same_outside 101 (101 + 2) m' m.
Proof.
  intros m. apply memmove_correct; [lia |].
  subst m. apply mem_bytes_st8, mem_bytes_st8.
  intros a. unfold ld8. rewrite lookup_empty. simpl. lia.
Defined.

Lemma memcmp_loop_spec a b i n m :
  match memcmp_loop a b i n m with
  | 0 => forall k, i <= k < i + Z.of_nat n -> ld8 m (a + k) = ld8 m (b + k)
  | r => exists k, i <= k < i + Z.of_nat n /\
           (forall j, i <= j < k -> ld8 m (a + j) = ld8 m (b + j)) /\
           (if r <? 0 then ld8 m (a + k) < ld8 m (b + k) else ld8 m (b + k) < ld8 m (a + k))
  end.
Proof.
  revert i. induction n as [|n IH]; intros i; cbn [memcmp_loop]; [intros; lia |].
  destruct (Z.eqb_spec (ld8 m (a + i)) (ld8 m (b + i))) as [Heq | Hne]; simpl negb; cbv iota.
  - specialize (IH (i + 1)). destruct (memcmp_loop a b (i + 1) n m) as [|p|p].
    + intros k Hk. destruct (Z.eq_dec k i) as [-> |]; [done | apply IH; lia].
    + destruct IH as (k & Hk & Hpre & Hlt). exists k. split; [lia | split; [| done]].
      intros j Hj. destruct (Z.eq_dec j i) as [-> |]; [done | apply Hpre; lia].
    + destruct IH as (k & Hk & Hpre & Hlt). exists k. split; [lia | split; [| done]].
      intros j Hj. destruct (Z.eq_dec j i) as [-> |]; [done | apply Hpre; lia].
  - destruct (Z.ltb_spec (ld8 m (a + i)) (ld8 m (b + i)));
      exists i; (split; [lia | split; [intros; lia | simpl; lia]]).
Qed.

Lemma memcmp_loop_sign a b i n m : -1 <= memcmp_loop a b i n m <= 1.
Proof.
  revert i. induction n as [|n IH]; intros i; cbn [memcmp_loop]; [lia |].
  destruct (negb _); [destruct (_ <? _); lia | apply IH].
Qed.

(** [memcpy] agrees with [memmove] as long as the destination does not start
    inside the source range. *)
Lemma memcpy_forward dst src n m :
  0 <= n -> mem_bytes m -> dst <= src \/ src + n <= dst ->
  (memcpy dst src n m).1 = dst /\
  (forall i, 0 <= i < n -> ld8 (memcpy dst src n m).2 (dst + i) = ld8 m (src + i)) /\
  mem_same_outside dst (dst + n) (memcpy dst src n m).2 m.
Proof. intros Hn Hb Hov. split; [done | by apply copy_up_spec]. Qed.

Lemma memset_spec dst c n m :
  0 <= n ->
  (forall i, 0 <= i < n -> ld8 (memset dst c n m).2 (dst + i) = c mod 256) /\
  mem_same_outside dst (dst + n) (memset dst c n m).2 m.
Proof.
  intros Hn. unfold memset; simpl.
  apply (for_range_ind (fun j m' =>
    (forall i, 0 <= i < j -> ld8 m' (dst + i) = c mod 256) /\
    mem_same_outside dst (dst + j) m' m)).
  - lia.
  - split; [lia | done].
  - intros j m' Hj [IHin IHout]. split; intros a Ha.
    + rewrite ld8_st8. bdestr; [by rewrite Z.mod_mod by lia | apply IHin; lia].
    + rewrite ld8_st8_ne by lia. apply IHout. lia.
Qed.

(** [memcmp] decides the lexicographic order of the two byte ranges: 0 when
    all [n] bytes agree, -1 when the first difference is smaller on the left, and
    1 when it is smaller on the right. *)
Theorem memcmp_lexicographic a b n m :
  0 <= n ->
  (memcmp a b n m = 0 /\ forall k, 0 <= k < n -> ld8 m (a + k) = ld8 m (b + k)) \/
  exists k, 0 <= k < n /\
    (forall j, 0 <= j < k -> ld8 m (a + j) = ld8 m (b + j)) /\
    ((memcmp a b n m = -1 /\ ld8 m (a + k) < ld8 m (b + k)) \/
     (memcmp a b n m = 1 /\ ld8 m (b + k) < ld8 m (a + k))).
Proof.
  intros Hn. pose proof (memcmp_loop_spec a b 0 (Z.to_nat n) m) as H.
  pose proof (memcmp_loop_sign a b 0 (Z.to_nat n) m) as Hs.
  unfold memcmp. destruct (memcmp_loop a b 0 (Z.to_nat n) m) as [|p|p].
  - left. split; [done | intros k Hk; apply H; lia].
  - right. destruct H as (k & Hk & Hpre & Hlt). exists k. simpl in Hlt.
    split; [lia | split; [done | right; split; [lia | done]]].
  - right. destruct H as (k & Hk & Hpre & Hlt). exists k. simpl in Hlt.
    split; [lia | split; [done | left; split; [lia | done]]].
Qed.

Lemma memcmp_lexicographic_witness :
  0 <= 2 /\
  let m := st8 201 9 (st8 200 7 (st8 101 8 (st8 100 7 ∅))) in
  (memcmp 100 200 2 m = 0 /\ forall k, 0 <= k < 2 -> ld8 m (100 + k) = ld8 m (200 + k)) \/
  exists k, 0 <= k < 2 /\
    (forall j, 0 <= j < k -> ld8 m (100 + j) = ld8 m (200 + j)) /\
    ((memcmp 100 200 2 m = -1 /\ ld8 m (100 + k) < ld8 m (200 + k)) \/
     (memcmp 100 200 2 m = 1 /\ ld8 m (200 + k) < ld8 m (100 + k))).
Proof. split; [lia |]. intros m. apply (memcmp_lexicographic 100 200 2 m). lia. Defined.
