(* ===== verification/Kmem.v ===== *)
(** * [src/src/kmem.cc]: the early bump allocator

    State: the two file-level variables [cur] and [end].  The linker symbols
    [_heap_start] and [_heap_end] are arguments of [kmem_init]. *)

From S2P Require Import Prelude.

Record kmem := Kmem { cur : Z; kend : Z }.

Definition align_up (v a : Z) : Z := Z.land (v +64 a -64 1) (~64 (a -64 1)).

Definition is_pow2 (a : Z) : bool := negb (a =? 0) && (Z.land a (a -64 1) =? 0).

Definition round_up_pow2 (a : Z) : Z :=
  if a <=? 1 then 1
  else
    let a := a -64 1 in
    let a := Z.lor a (Z.shiftr a 1) in
    let a := Z.lor a (Z.shiftr a 2) in
    let a := Z.lor a (Z.shiftr a 4) in
    let a := Z.lor a (Z.shiftr a 8) in
    let a := Z.lor a (Z.shiftr a 16) in
    let a := Z.lor a (Z.shiftr a 32) in
    a +64 1.

Definition kmem_init (heap_start heap_end : Z) : kmem := Kmem heap_start heap_end.

Definition kmem_alloc_aligned (sz align : Z) (k : kmem) : Z * kmem :=
  let align := if align <? 16 then 16 else align in
  let align := if negb (is_pow2 align) then round_up_pow2 align else align in
  let p := align_up (cur k) align in
  if kend k <? p +64 sz then (nullptr, k)
  else (p, Kmem (p +64 sz) (kend k)).

(** Serve a list of requests [(sz, align)], collecting the blocks handed out. *)
Fixpoint kmem_alloc_all (reqs : list (Z * Z)) (k : kmem) : list (Z * Z) * kmem :=
  match reqs with
  | [] => ([], k)
  | (sz, align) :: reqs' =>
      let '(p, k1) := kmem_alloc_aligned sz align k in
      let '(bs, k2) := kmem_alloc_all reqs' k1 in
      (if p =? nullptr then bs else (p, sz) :: bs, k2)
  end.

(** The alignment actually used for a requested one. *)
Definition eff_align (align : Z) : Z :=
  let align := if align <? 16 then 16 else align in
  if negb (is_pow2 align) then round_up_pow2 align else align.

(** The allocator's invariant: a heap inside the address space. *)
Definition kmem_wf (k : kmem) : Prop := 0 < cur k /\ cur k <= kend k < 2 ^ 62.

(** A request whose arithmetic cannot wrap. *)
Definition req_ok (r : Z * Z) : Prop := 0 <= r.1 < 2 ^ 62 /\ 0 <= r.2 <= 2 ^ 62.

Definition block_in (lo hi : Z) (b : Z * Z) : Prop := lo <= b.1 /\ b.1 + b.2 <= hi.

(** Blocks in increasing, non-overlapping order inside [lo, hi). *)
Fixpoint blocks_tile (lo hi : Z) (bs : list (Z * Z)) : Prop :=
  match bs with
  | [] => lo <= hi
  | (p, sz) :: bs' => lo <= p /\ 0 <= sz /\ blocks_tile (p + sz) hi bs'
  end.

(** ** Alignment arithmetic *)

Lemma align_up_pow2 v k :
  0 <= k < 64 -> 0 <= v -> v + 2 ^ k - 1 < 2 ^ 64 ->
  align_up v (2 ^ k) = (v + 2 ^ k - 1) / 2 ^ k * 2 ^ k.
Proof.
  intros Hk Hv Hov. pose proof (pow2_64 k Hk) as Hp. unfold align_up.
  destruct (Z.eq_dec (v + 2 ^ k) (2 ^ 64)) as [E | E].
  - rewrite (wrap64_small (2 ^ k - 1)) by lia.
    replace (v +64 2 ^ k -64 1) with (v + 2 ^ k - 1) by (rewrite E; reflexivity).
    apply land_lnot_ones; lia.
  - rewrite (wrap64_small (v + 2 ^ k)), (wrap64_small (v + 2 ^ k - 1)),
      (wrap64_small (2 ^ k - 1)) by lia.
    apply land_lnot_ones; lia.
Qed.

Lemma align_up_bounds v k :
  0 <= k < 64 -> 0 <= v -> v + 2 ^ k - 1 < 2 ^ 64 ->
  align_up v (2 ^ k) mod 2 ^ k = 0 /\ v <= align_up v (2 ^ k) < v + 2 ^ k.
Proof.
  intros Hk Hv Hov. pose proof (pow2_64 k Hk). rewrite align_up_pow2 by done.
  split; [apply Z.mod_mul; lia |].
  pose proof (Z.div_mod (v + 2 ^ k - 1) (2 ^ k) ltac:(lia)).
  pose proof (Z.mod_pos_bound (v + 2 ^ k - 1) (2 ^ k) ltac:(lia)). lia.
Qed.

Lemma log2_bit a : 0 < a -> Z.testbit a (Z.log2 a) = true.
Proof. apply Z.bit_log2. Qed.

Lemma is_pow2_spec a : 0 <= a < 2 ^ 64 -> is_pow2 a = true <-> exists k, 0 <= k < 64 /\ a = 2 ^ k.
Proof.
  intros Ha. unfold is_pow2. rewrite andb_true_iff, negb_true_iff, Z.eqb_neq, Z.eqb_eq.
  split.
  - intros [Hnz Hland]. exists (Z.log2 a).
    assert (Hlog : 0 <= Z.log2 a < 64).
    { split; [apply Z.log2_nonneg | apply Z.log2_lt_pow2; lia]. }
    split; [done |]. pose proof (Z.log2_spec a ltac:(lia)) as [Hlo Hhi].
    destruct (Z.eq_dec a (2 ^ Z.log2 a)) as [| Hne]; [done | exfalso].
    rewrite wrap64_small in Hland by lia.
    assert (Hl : Z.log2 (a - 1) = Z.log2 a) by (apply Z.log2_unique; lia).
    assert (Hbit : Z.testbit (Z.land a (a - 1)) (Z.log2 a) = true).
    { rewrite Z.land_spec, log2_bit by lia. rewrite <- Hl at 1. apply log2_bit.
      pose proof (pow2_64 _ Hlog). lia. }
    by rewrite Hland, Z.bits_0 in Hbit.
  - intros (k & Hk & ->). pose proof (pow2_64 k Hk). split; [lia |].
    rewrite wrap64_small by lia.
    replace (2 ^ k - 1) with (Z.ones k) by (rewrite Z.ones_equiv; lia).
    rewrite Z.land_ones by lia. apply Z.mod_same. lia.
Qed.

Lemma mod_pow2_le x i j : 0 <= i <= j -> x mod 2 ^ j = 0 -> x mod 2 ^ i = 0.
Proof.
  intros Hij Hx. pose proof (Z.pow_pos_nonneg 2 j ltac:(lia) ltac:(lia)).
  pose proof (Z.pow_pos_nonneg 2 i ltac:(lia) ltac:(lia)).
  apply Z.mod_divide; [lia |]. apply Z.mod_divide in Hx; [| lia].
  etransitivity; [| exact Hx]. exists (2 ^ (j - i)). rewrite <- Z.pow_add_r by lia. f_equal; lia.
Qed.

(** The bits of [x] are exactly those of the run of [s] ones ending at bit [L]
    that the smearing steps have produced so far. *)
Definition smeared (L s x : Z) : Prop :=
  (forall i, L < i -> Z.testbit x i = false) /\
  (forall i, 0 <= i -> L - s < i <= L -> Z.testbit x i = true).

Lemma smear_step L s t x :
  0 <= s -> t = s + s -> smeared L s x -> smeared L t (Z.lor x (Z.shiftr x s)).
Proof.
  intros Hs -> [Hhi Hrun]. split; intros i Hi.
  - rewrite Z.lor_spec, Hhi by lia. destruct (Z.ltb_spec i 0).
    + by rewrite Z.testbit_neg_r by lia.
    + rewrite Z.shiftr_spec by lia. apply Hhi. lia.
  - intros Hr. rewrite Z.lor_spec, Z.shiftr_spec by lia.
    destruct (Z.le_gt_cases i (L - s)).
    + rewrite (Hrun (i + s)) by lia. apply orb_true_r.
    + by rewrite Hrun by lia.
Qed.

Lemma smeared_ones L s x : 0 <= L < s -> smeared L s x -> x = Z.ones (L + 1).
Proof.
  intros HL [Hhi Hrun]. apply Z.bits_inj'. intros i Hi.
  destruct (Z.le_gt_cases i L).
  - rewrite Hrun, Z.ones_spec_low by lia. done.
  - rewrite Hhi, Z.ones_spec_high by lia. done.
Qed.

Lemma round_up_pow2_log a :
  2 <= a <= 2 ^ 63 -> round_up_pow2 a = 2 ^ (Z.log2 (a - 1) + 1).
Proof.
  intros Ha. unfold round_up_pow2. destruct (Z.leb_spec a 1); [lia |].
  rewrite (wrap64_small (a - 1)) by lia.
  set (L := Z.log2 (a - 1)).
  assert (HL : 0 <= L < 63).
  { split; [apply Z.log2_nonneg | apply Z.log2_lt_pow2; lia]. }
  assert (H1 : smeared L 1 (a - 1)).
  { split; intros i Hi.
    - apply Z.bits_above_log2; lia.
    - intros Hr. replace i with L by lia. apply log2_bit. lia. }
  apply (smear_step L 1 2), (smear_step L 2 4), (smear_step L 4 8), (smear_step L 8 16),
    (smear_step L 16 32), (smear_step L 32 64), (smeared_ones L 64) in H1; [| lia ..].
  cbv zeta. rewrite H1, Z.ones_equiv.
  pose proof (pow2_64 (L + 1) ltac:(lia)).
  rewrite wrap64_small; lia.
Qed.

(** up to [2^63] the bit-smearing [round_up_pow2] returns the least power of
    two that is at least its argument. *)
Theorem round_up_pow2_least a :
  0 <= a <= 2 ^ 63 ->
  exists k, round_up_pow2 a = 2 ^ k /\ 0 <= k < 64 /\ a <= 2 ^ k /\
    forall j, 0 <= j -> a <= 2 ^ j -> 2 ^ k <= 2 ^ j.
Proof.
  intros Ha. destruct (Z.le_gt_cases a 1) as [Hsmall | Hbig].
  - exists 0. unfold round_up_pow2. rewrite (proj2 (Z.leb_le _ _) Hsmall).
    split; [done | split; [lia | split; [simpl; lia |]]].
    intros j Hj _. apply Z.pow_le_mono_r; lia.
  - exists (Z.log2 (a - 1) + 1). rewrite round_up_pow2_log by lia.
    assert (HL : 0 <= Z.log2 (a - 1) < 63).
    { split; [apply Z.log2_nonneg | apply Z.log2_lt_pow2; lia]. }
    pose proof (Z.log2_spec (a - 1) ltac:(lia)) as [Hlo Hhi].
    split; [done | split; [lia | split; [rewrite <- Z.add_1_r in Hhi; lia |]]].
    intros j Hj Haj. apply Z.pow_le_mono_r; [lia |].
    enough (Z.log2 (a - 1) < j) by lia. apply Z.log2_lt_pow2; lia.
Qed.

Lemma round_up_pow2_least_witness :
  0 <= 24 <= 2 ^ 63 /\
  exists k, round_up_pow2 24 = 2 ^ k /\ 0 <= k < 64 /\ 24 <= 2 ^ k /\
    forall j, 0 <= j -> 24 <= 2 ^ j -> 2 ^ k <= 2 ^ j.
Proof. split; [lia | apply (round_up_pow2_least 24); lia]. Defined.

(** ** The allocator *)

Lemma eff_align_spec a :
  0 <= a <= 2 ^ 62 -> exists k, 4 <= k <= 62 /\ eff_align a = 2 ^ k /\ a <= 2 ^ k.
Proof.
  intros Ha. unfold eff_align. destruct (Z.ltb_spec a 16) as [H16 | H16].
  - exists 4. split; [lia | split; [reflexivity | lia]].
  - destruct (is_pow2 a) eqn:Hp; simpl.
    + apply is_pow2_spec in Hp as (k & Hk & ->); [| lia]. exists k.
      assert (4 <= k) by (apply (Z.pow_le_mono_r_iff 2); lia).
      assert (k <= 62) by (apply (Z.pow_le_mono_r_iff 2); lia). done.
    + rewrite round_up_pow2_log by lia. set (L := Z.log2 (a - 1)).
      assert (HL : L < 62) by (apply Z.log2_lt_pow2; lia).
      assert (H3 : 3 <= L) by (apply Z.log2_le_pow2; lia).
      pose proof (Z.log2_spec (a - 1) ltac:(lia)) as [_ Hhi].
      exists (L + 1). rewrite Z.add_1_r. fold L in Hhi. split; [lia | split; [done | lia]].
Qed.

Lemma kmem_alloc_cases sz align k :
  kmem_wf k -> req_ok (sz, align) ->
  let '(p, k') := kmem_alloc_aligned sz align k in
  (p = nullptr /\ k' = k /\ kend k < cur k + eff_align align + sz) \/
  (cur k <= p < cur k + eff_align align /\ p mod eff_align align = 0 /\ p mod 16 = 0 /\
   p + sz <= kend k /\ k' = Kmem (p + sz) (kend k)).
Proof.
  intros [Hpos Hend] [Hsz Hal]. simpl in Hsz, Hal.
  destruct (eff_align_spec align Hal) as (j & Hj & Hea & _).
  unfold kmem_alloc_aligned. fold (eff_align align). rewrite Hea.
  destruct (align_up_bounds (cur k) j) as [Hmod Hb]; [lia | lia | |].
  { assert (2 ^ j <= 2 ^ 62) by (apply Z.pow_le_mono_r; lia). lia. }
  assert (2 ^ j <= 2 ^ 62) by (apply Z.pow_le_mono_r; lia).
  rewrite wrap64_small by lia.
  destruct (Z.ltb_spec (kend k) (align_up (cur k) (2 ^ j) + sz));
    [left; split; [done | split; [done | lia]] | right].
  split; [done | split; [done | split; [| done]]].
  apply (mod_pow2_le _ 4 j); [lia | done].
Qed.

(** The end of the heap never moves. *)
Lemma kmem_alloc_kend sz align k : kend (kmem_alloc_aligned sz align k).2 = kend k.
Proof. unfold kmem_alloc_aligned. cbv zeta. by destruct (_ <? _). Qed.

Lemma kmem_alloc_wf sz align k :
  kmem_wf k -> req_ok (sz, align) -> kmem_wf (kmem_alloc_aligned sz align k).2.
Proof.
  intros Hwf Hr. pose proof (kmem_alloc_cases sz align k Hwf Hr) as H.
  destruct (kmem_alloc_aligned sz align k) as [p k']; simpl.
  destruct Hwf, Hr as [[? ?] ?]; simpl in *.
  destruct H as [(-> & -> & _) | (? & _ & _ & ? & ->)]; split; simpl; lia.
Qed.

(** a successful allocation is aligned as requested (and to 16 bytes), lies
    inside the free part of the heap and advances [cur] to its end; a failed one
    changes nothing and happens only when the aligned request does not fit. *)
Theorem kmem_alloc_aligned_correct sz align k :
  kmem_wf k -> req_ok (sz, align) ->
  let '(p, k') := kmem_alloc_aligned sz align k in
  kmem_wf k' /\
  ((p = nullptr /\ k' = k /\ kend k < cur k + eff_align align + sz) \/
   (cur k <= p < cur k + eff_align align /\ p mod eff_align align = 0 /\ p mod 16 = 0 /\
    p + sz <= kend k /\ k' = Kmem (p + sz) (kend k))).
Proof.
  intros Hwf Hr. pose proof (kmem_alloc_wf sz align k Hwf Hr).
  pose proof (kmem_alloc_cases sz align k Hwf Hr).
  by destruct (kmem_alloc_aligned sz align k) as [p k'].
Qed.

Lemma kmem_alloc_aligned_correct_witness :
  let k := Kmem 1000 5000 in
  let '(p, k') := kmem_alloc_aligned 100 24 k in
  kmem_wf k' /\
  ((p = nullptr /\ k' = k /\ kend k < cur k + eff_align 24 + 100) \/
   (cur k <= p < cur k + eff_align 24 /\ p mod eff_align 24 = 0 /\ p mod 16 = 0 /\
    p + 100 <= kend k /\ k' = Kmem (p + 100) (kend k))).
Proof.
  intros k. apply (kmem_alloc_aligned_correct 100 24 k).
  - unfold kmem_wf, k; simpl; lia.
  - unfold req_ok; simpl; lia.
Defined.

Lemma blocks_tile_weaken lo lo' hi bs : lo' <= lo -> blocks_tile lo hi bs -> blocks_tile lo' hi bs.
Proof. intros Hle. destruct bs as [|[p sz] bs]; simpl; [lia |]. intros (? & ? & ?); split; [lia | done]. Qed.

Lemma kmem_alloc_all_tile reqs k :
  kmem_wf k -> Forall req_ok reqs -> blocks_tile (cur k) (kend k) (kmem_alloc_all reqs k).1.
Proof.
  intros Hwf Hall. revert k Hwf. induction Hall as [|[sz align] reqs Hr Hall IH]; intros k Hwf; simpl.
  { destruct Hwf; lia. }
  pose proof (kmem_alloc_cases sz align k Hwf Hr) as Hc.
  pose proof (kmem_alloc_wf sz align k Hwf Hr) as Hwf'.
  destruct (kmem_alloc_aligned sz align k) as [p k1]; simpl in Hwf'.
  specialize (IH k1 Hwf'). destruct (kmem_alloc_all reqs k1) as [bs k2]; simpl in *.
  destruct Hc as [(-> & -> & _) | ([? ?] & _ & _ & ? & ->)]; simpl in *; [done |].
  destruct Hwf, Hr as [[? ?] ?]. destruct (Z.eqb_spec p nullptr); unfold nullptr in *; [lia |].
  simpl. done.
Qed.

Lemma blocks_tile_disjoint lo hi bs i j b c :
  blocks_tile lo hi bs -> (i < j)%nat -> bs !! i = Some b -> bs !! j = Some c ->
  lo <= b.1 /\ b.1 + b.2 <= c.1 /\ c.1 + c.2 <= hi.
Proof.
  revert lo i j. induction bs as [|[p sz] bs IH]; intros lo i j; [done |].
  intros (Hlo & Hsz & Ht) Hij Hi Hj. destruct j as [|j]; [lia |]. simpl in Hj.
  destruct i as [|i]; simpl in Hi.
  - injection Hi as <-. simpl. clear IH Hij.
    revert j p sz Hlo Hsz Ht Hj. induction bs as [|[q sq] bs IH']; intros j p sz Hlo Hsz Ht Hj; [done |].
    destruct Ht as (Hq & Hsq & Ht). destruct j as [|j]; simpl in Hj.
    + injection Hj as <-. simpl.
      assert (q + sq <= hi); [| lia].
      clear -Ht. revert Ht. generalize (q + sq). clear.
      induction bs as [|[r sr] bs IH]; intros x; simpl; [done |].
      intros (? & ? & Ht). apply IH in Ht. lia.
    + destruct (IH' j q sq ltac:(lia) Hsq Ht Hj) as (? & ? & ?). simpl in *. lia.
  - destruct (IH (p + sz) i j Ht ltac:(lia) Hi Hj) as (? & ? & ?). lia.
Qed.

(** the blocks handed out by any sequence of allocations are pairwise
    disjoint and lie in the heap that was free at the start. *)
Theorem kmem_blocks_disjoint reqs k i j b c :
  kmem_wf k -> Forall req_ok reqs -> (i < j)%nat ->
  (kmem_alloc_all reqs k).1 !! i = Some b -> (kmem_alloc_all reqs k).1 !! j = Some c ->
  cur k <= b.1 /\ b.1 + b.2 <= c.1 /\ c.1 + c.2 <= kend k.
Proof. intros Hwf Hall. by apply blocks_tile_disjoint, kmem_alloc_all_tile. Qed.

Lemma kmem_blocks_disjoint_witness :
  let k := Kmem 1000 100000 in
  exists b c, (kmem_alloc_all [(100, 64); (7, 4096)] k).1 !! 0%nat = Some b /\
    (kmem_alloc_all [(100, 64); (7, 4096)] k).1 !! 1%nat = Some c /\
    cur k <= b.1 /\ b.1 + b.2 <= c.1 /\ c.1 + c.2 <= kend k.
Proof.
  intros k. exists (1024, 100), (4096, 7). split; [reflexivity | split; [reflexivity |]].
  apply (kmem_blocks_disjoint [(100, 64); (7, 4096)] k 0 1).
  - unfold kmem_wf, k; simpl; lia.
  - repeat constructor; simpl; lia.
  - lia.
  - reflexivity.
  - reflexivity.
Defined.

(** the overflow test [p + sz > end] is itself subject to wrap-around: a
    request of [2^64 - 16] bytes succeeds on every heap and moves [cur] back
    behind memory already handed out. *)
Theorem kmem_alloc_huge_succeeds k :
  kmem_wf k -> 32 <= cur k ->
  let '(p, k') := kmem_alloc_aligned (2 ^ 64 - 16) 16 k in
  p <> nullptr /\ cur k' < cur k /\ kend k' = kend k.
Proof.
  intros [Hpos Hend] H32. unfold kmem_alloc_aligned. cbv zeta.
  change (16 <? 16) with false. cbv iota. change (negb (is_pow2 16)) with false. cbv iota.
  destruct (align_up_bounds (cur k) 4) as [Hmod Hb]; [lia | lia | lia |].
  change (2 ^ 4) with 16 in *. set (p := align_up (cur k) 16) in *.
  assert (Hw : p +64 (2 ^ 64 - 16) = p - 16) by u64. rewrite Hw.
  destruct (Z.ltb_spec (kend k) (p - 16)); [lia |]. unfold nullptr; simpl. lia.
Qed.

Lemma kmem_alloc_huge_succeeds_witness :
  let k := Kmem 4096 1048576 in
  let '(p, k') := kmem_alloc_aligned (2 ^ 64 - 16) 16 k in
  p <> nullptr /\ cur k' < cur k /\ kend k' = kend k.
Proof.
  intros k. apply (kmem_alloc_huge_succeeds k); [unfold kmem_wf |]; unfold k; simpl; lia.
Defined.
