(* ===== verification/MemPool.v ===== *)
(** * [src/src/mem_pool.cc], [include/mem_pool.h]: the fixed-size block pool

    The pool record and its operations over the shared memory; the free list is
    threaded through the first eight bytes of the free blocks, as in the source.
    A [mem_pool*] argument is an [option]: [None] is [nullptr].  The functions
    that update the pool return the result, the pool and the memory.  The model
    is the default build, [MEM_POOL_DEBUG = 0]. *)

From S2P Require Import Prelude Mem Kmem.

Record mem_pool := Pool {
  base : Z;
  block_size : Z;
  block_count : Z;
  free_list : Z;
  free_count : Z
}.

Definition align_up (v a : Z) : Z := Z.land (v +64 a -64 1) (~64 (a -64 1)).

Definition is_pow2 (v : Z) : bool := negb (v =? 0) && (Z.land v (v -64 1) =? 0).

(** [while (x < a) x <<= 1]; [None] when the loop does not end ([a > 2^63],
    where [x] becomes 0).  65 iterations see every value [x] can take. *)
Fixpoint clamp_loop (fuel : nat) (x a : Z) : option Z :=
  match fuel with
  | O => None
  | Datatypes.S fuel' => if x <? a then clamp_loop fuel' (wrap64 (Z.shiftl x 1)) a else Some x
  end.

Definition clamp_align (a : Z) : option Z :=
  if a <? 8 then Some 8
  else if negb (is_pow2 a) then clamp_loop 65 1 a
  else Some a.

Definition load_next (m : mem) (p : Z) : Z := ld64 m p.

Definition store_next (p next : Z) (m : mem) : mem := st64 p next m.

(** The loop of [mem_pool_init] that threads the blocks, last block first. *)
Definition thread_blocks (base blk count : Z) (m : mem) : Z * mem :=
  for_range 0 count
    (fun i '(head, m) => let b := base + i * blk in (b, store_next b head m))
    (nullptr, m).

Definition mem_pool_init (pool : option mem_pool) (backing backing_size block_size : Z) (m : mem)
    : option (Z * option mem_pool * mem) :=
  if (match pool with None => true | Some _ => false end) || (backing =? nullptr) || (backing_size =? 0)
     || (block_size =? 0)
  then Some (-1, pool, m)
  else if block_size <? 8 then Some (-1, pool, m)
  else
    align ← clamp_align 16;
    let aligned := align_up backing align in
    if aligned <? backing then Some (-1, pool, m)
    else
      let lost := aligned -64 backing in
      if backing_size <=? lost then Some (-1, pool, m)
      else
        let usable := backing_size -64 lost in
        let blk := align_up block_size align in
        if blk =? 0 then Some (-1, pool, m)
        else
          let count := usable / blk in
          if count =? 0 then Some (-1, pool, m)
          else
            let '(head, m') := thread_blocks aligned blk count m in
            Some (0, Some (Pool aligned blk count head count), m').

Definition mem_pool_alloc (pool : option mem_pool) (m : mem) : Z * option mem_pool * mem :=
  match pool with
  | None => (nullptr, pool, m)
  | Some p =>
      if free_list p =? nullptr then (nullptr, pool, m)
      else
        let b := free_list p in
        let fl := load_next m b in
        let fc := if negb (free_count p =? 0) then free_count p -64 1 else free_count p in
        (b, Some (Pool (base p) (block_size p) (block_count p) fl fc), store_next b nullptr m)
  end.

Definition mem_pool_owns (pool : option mem_pool) (a : Z) : Z :=
  match pool with
  | None => 0
  | Some p =>
      if (base p =? nullptr) || (a =? nullptr) then 0
      else
        let start := base p in
        let stop := start +64 wrap64 (block_count p * block_size p) in
        if (a <? start) || (stop <=? a) then 0
        else
          let off := a -64 start in
          if off mod block_size p =? 0 then 1 else 0
  end.

Definition mem_pool_free (pool : option mem_pool) (a : Z) (m : mem) : Z * option mem_pool * mem :=
  match pool with
  | None => (-1, pool, m)
  | Some p =>
      if a =? nullptr then (-1, pool, m)
      else if mem_pool_owns pool a =? 0 then (-1, pool, m)
      else if block_count p <=? free_count p then (-1, pool, m)
      else
        (0, Some (Pool (base p) (block_size p) (block_count p) a (free_count p +64 1)),
         store_next a (free_list p) m)
  end.

Definition mem_pool_block_size (pool : option mem_pool) : Z :=
  match pool with Some p => block_size p | None => 0 end.

Definition mem_pool_capacity (pool : option mem_pool) : Z :=
  match pool with Some p => block_count p | None => 0 end.

Definition mem_pool_available (pool : option mem_pool) : Z :=
  match pool with Some p => free_count p | None => 0 end.

(** ** Specification vocabulary *)

(** The address of block [i]. *)
Definition block_at (p : mem_pool) (i : Z) : Z := base p + i * block_size p.

Definition is_block (p : mem_pool) (a : Z) : Prop :=
  exists i, 0 <= i < block_count p /\ a = block_at p i.

(** The geometry [mem_pool_init] establishes and nothing changes later. *)
Record pool_geom (p : mem_pool) : Prop := {
  geom_base : 0 < base p /\ base p mod 16 = 0;
  geom_size : 16 <= block_size p /\ block_size p mod 16 = 0;
  geom_count : 1 <= block_count p;
  geom_top : base p + block_count p * block_size p < 2 ^ 64
}.

(** [pool_rep p m l]: the free list of [p] in [m] is exactly [l]. *)
Record pool_rep (p : mem_pool) (m : mem) (l : list Z) : Prop := {
  rep_geom : pool_geom p;
  rep_head : free_list p = hd nullptr l;
  rep_chain : linked (ld64 m) l nullptr;
  rep_nodup : NoDup l;
  rep_blocks : Forall (is_block p) l;
  rep_count : free_count p = Z.of_nat (length l)
}.

(** A client: it allocates, frees blocks it holds, and writes inside them.  The
    state is the pool, the memory and the blocks held. *)
Inductive pool_step : mem_pool * mem * list Z -> mem_pool * mem * list Z -> Prop :=
| ps_alloc p m live a p' m' :
    mem_pool_alloc (Some p) m = (a, Some p', m') -> a <> nullptr ->
    pool_step (p, m, live) (p', m', a :: live)
| ps_free p m l1 a l2 r p' m' :
    mem_pool_free (Some p) a m = (r, Some p', m') ->
    pool_step (p, m, l1 ++ a :: l2) (p', m', l1 ++ l2)
| ps_write p m live a x v :
    a ∈ live -> a <= x < a + block_size p ->
    pool_step (p, m, live) (p, st8 x v m, live).

(** The block addresses from the highest index down, as the init loop links them. *)
Fixpoint blocks_desc (base blk : Z) (n : nat) : list Z :=
  match n with
  | O => []
  | Datatypes.S n' => (base + Z.of_nat n' * blk) :: blocks_desc base blk n'
  end.

(** ** Geometry *)

Lemma block_sep p a b :
  pool_geom p -> is_block p a -> is_block p b -> a <> b ->
  a + block_size p <= b \/ b + block_size p <= a.
Proof.
  intros [_ [Hs _] _ _] (i & Hi & ->) (j & Hj & ->) Hne. unfold block_at in *.
  assert (i < j \/ j < i) as [H | H] by (destruct (Z.lt_total i j) as [|[-> |]]; [lia | done | lia]); nia.
Qed.

Lemma block_bounds p a :
  pool_geom p -> is_block p a ->
  base p <= a /\ a + block_size p <= base p + block_count p * block_size p /\ 0 < a.
Proof. intros [[Hb _] [Hs _] _ _] (i & Hi & ->). unfold block_at. split; [nia | split; nia]. Qed.

Lemma is_block_base p a : is_block p a <-> exists i, 0 <= i < block_count p /\ a = base p + i * block_size p.
Proof. done. Qed.

(** Following the free list is not disturbed by writes outside the listed blocks. *)
Lemma linked_frame m m' l e :
  (forall x, x ∈ l -> forall i, x <= i < x + 8 -> ld8 m i = ld8 m' i) ->
  linked (ld64 m) l e -> linked (ld64 m') l e.
Proof. intros H. apply linked_ext. intros x Hx. by apply ld64_ext, H. Qed.

Lemma elem_of_blocks_desc b blk n x :
  x ∈ blocks_desc b blk n <-> exists i, 0 <= i < Z.of_nat n /\ x = b + i * blk.
Proof.
  induction n as [|n IH]; cbn [blocks_desc].
  - split; [by intros H%elem_of_nil | intros (i & ? & _); lia].
  - rewrite elem_of_cons, IH. split.
    + intros [-> | (i & Hi & ->)]; eexists; (split; [| done]); lia.
    + intros (i & Hi & ->). destruct (Z.eq_dec i (Z.of_nat n)) as [-> |]; [by left |].
      right. exists i. split; [lia | done].
Qed.

Lemma blocks_desc_nodup b blk n : 0 < blk -> NoDup (blocks_desc b blk n).
Proof.
  intros Hblk. induction n as [|n IH]; cbn [blocks_desc]; constructor; [| done].
  rewrite elem_of_blocks_desc. intros (i & Hi & Heq). nia.
Qed.

Lemma blocks_desc_length b blk n : length (blocks_desc b blk n) = n.
Proof. induction n; simpl; congruence. Qed.

Lemma elem_of_blocks_desc_block p x :
  1 <= block_count p ->
  x ∈ blocks_desc (base p) (block_size p) (Z.to_nat (block_count p)) <-> is_block p x.
Proof. intros Hc. rewrite elem_of_blocks_desc, Z2Nat.id by lia. done. Qed.

(** At most [block_count] distinct blocks exist. *)
Lemma nodup_blocks_le p l :
  pool_geom p -> NoDup l -> Forall (is_block p) l -> Z.of_nat (length l) <= block_count p.
Proof.
  intros Hg Hnd Hbl.
  assert (Hsub : l ⊆ blocks_desc (base p) (block_size p) (Z.to_nat (block_count p))).
  { intros x Hx. apply elem_of_blocks_desc_block; [apply Hg |].
    by apply (proj1 (Forall_forall _ _) Hbl). }
  apply (NoDup_submseteq l) in Hsub; [| done]. apply submseteq_length in Hsub.
  rewrite blocks_desc_length in Hsub. destruct Hg. lia.
Qed.

Lemma nodup_blocks_lt p a l :
  pool_geom p -> is_block p a -> a ∉ l -> NoDup l -> Forall (is_block p) l ->
  Z.of_nat (length l) < block_count p.
Proof.
  intros Hg Ha Hni Hnd Hbl.
  pose proof (nodup_blocks_le p (a :: l) Hg) as H. simpl in H.
  specialize (H ltac:(by constructor) ltac:(by constructor)). lia.
Qed.

(** ** Initialisation *)

Lemma thread_blocks_spec b blk count m :
  8 <= blk -> 0 <= count -> 0 <= b -> b + count * blk < 2 ^ 64 ->
  let '(head, m') := thread_blocks b blk count m in
  head = hd nullptr (blocks_desc b blk (Z.to_nat count)) /\
  linked (ld64 m') (blocks_desc b blk (Z.to_nat count)) nullptr /\
  mem_same_outside b (b + count * blk) m m'.
Proof.
  intros Hblk Hc Hb Htop. unfold thread_blocks.
  apply (for_range_ind (fun j '(head, m') =>
    head = hd nullptr (blocks_desc b blk (Z.to_nat j)) /\
    linked (ld64 m') (blocks_desc b blk (Z.to_nat j)) nullptr /\
    mem_same_outside b (b + j * blk) m m')); [done | done |].
  intros j [head m'] Hj (Hhd & Hl & Hout).
  replace (Z.to_nat (j + 1)) with (Datatypes.S (Z.to_nat j)) by lia. cbn [blocks_desc].
  rewrite Z2Nat.id by lia. split; [done |]. split.
  - cbn [linked]. split.
    + unfold store_next. rewrite ld64_st64_eq, Hhd. apply wrap64_small.
      destruct (Z.to_nat j) as [|n] eqn:En; cbn; [unfold nullptr; lia | nia].
    + apply (linked_frame m'); [| done]. intros x Hx i Hi.
      apply elem_of_blocks_desc in Hx as (k & Hk & ->).
      unfold store_next. rewrite ld8_st64_other; [done | nia].
  - apply mem_same_outside_st64; [nia | nia |].
    intros a Ha. apply Hout. nia.
Qed.

Lemma align_up_16 v :
  0 <= v -> v + 15 < 2 ^ 64 ->
  align_up v 16 mod 16 = 0 /\ v <= align_up v 16 < v + 16.
Proof. intros Hv Ho. apply (align_up_bounds v 4); lia. Qed.

Lemma pool_rep_fresh b blk count m :
  0 < b -> b mod 16 = 0 -> 16 <= blk -> blk mod 16 = 0 -> 1 <= count ->
  b + count * blk < 2 ^ 64 ->
  let '(head, m') := thread_blocks b blk count m in
  pool_rep (Pool b blk count head count) m' (blocks_desc b blk (Z.to_nat count)) /\
  mem_same_outside b (b + count * blk) m m'.
Proof.
  intros Hb Hb16 Hblk Hblk16 Hc Htop.
  pose proof (thread_blocks_spec b blk count m ltac:(lia) ltac:(lia) ltac:(lia) Htop) as H.
  destruct (thread_blocks b blk count m) as [head m']. destruct H as (Hhd & Hl & Hout).
  split; [| done]. split; simpl; [by split | done | done | apply blocks_desc_nodup; lia | |].
  - apply Forall_forall. intros x Hx. apply elem_of_blocks_desc in Hx as (i & Hi & ->).
    exists i. split; [simpl; lia | done].
  - rewrite blocks_desc_length. lia.
Qed.

Lemma mem_pool_init_spec p0 backing size blk m :
  0 < backing -> 0 <= size -> backing + size + 16 < 2 ^ 64 -> 0 < blk < 2 ^ 62 -> 0 < size ->
  exists r p m', mem_pool_init (Some p0) backing size blk m = Some (r, Some p, m') /\
  ((r = 0 /\ 8 <= blk /\
    pool_rep p m' (blocks_desc (base p) (block_size p) (Z.to_nat (block_count p))) /\
    backing <= base p < backing + 16 /\ blk <= block_size p < blk + 16 /\
    backing + size - block_size p < base p + block_count p * block_size p <= backing + size /\
    mem_same_outside backing (backing + size) m m') \/
   (r = -1 /\ p = p0 /\ m' = m /\ (blk < 8 \/ size < blk + 32))).
Proof.
  intros Hb Hs0 Htop Hblk Hs. unfold mem_pool_init, nullptr.
  destruct (Z.eqb_spec backing 0); [lia |]. destruct (Z.eqb_spec size 0); [lia |].
  destruct (Z.eqb_spec blk 0); [lia |]. cbn [orb].
  destruct (Z.ltb_spec blk 8); [eexists _, _, _; split; [done |]; right; auto |].
  change (clamp_align 16) with (Some 16). cbn [mbind option_bind].
  destruct (align_up_16 backing) as [Ha16 Ha]; [lia | lia |].
  destruct (align_up_16 blk) as [Hk16 Hk]; [lia | lia |].
  set (al := align_up backing 16) in *. set (bk := align_up blk 16) in *.
  destruct (Z.ltb_spec al backing); [lia |]. rewrite (wrap64_small (al - backing)) by lia.
  destruct (Z.leb_spec size (al - backing)).
  { eexists _, _, _. split; [done |]. right. repeat split; lia. }
  rewrite wrap64_small by lia. destruct (Z.eqb_spec bk 0); [lia |].
  set (count := (size - (al - backing)) / bk).
  assert (Hdiv : bk * count <= size - (al - backing) < bk * count + bk).
  { pose proof (Z.div_mod (size - (al - backing)) bk ltac:(lia)).
    pose proof (Z.mod_pos_bound (size - (al - backing)) bk ltac:(lia)). fold count in H1. lia. }
  destruct (Z.eqb_spec count 0) as [Hc0 | Hc0].
  { eexists _, _, _. split; [done |]. right. rewrite Hc0 in Hdiv. repeat split; lia. }
  assert (Hc1 : 1 <= count) by nia.
  pose proof (pool_rep_fresh al bk count m ltac:(lia) Ha16 ltac:(zlia) Hk16 Hc1 ltac:(nia)) as Hrep.
  destruct (thread_blocks al bk count m) as [head m']. destruct Hrep as [Hrep Hout].
  eexists _, _, _. split; [done |]. left. cbn [base MemPool.block_size block_count].
  split; [done | split; [done | split; [exact Hrep | split; [lia | split; [lia | split; [nia |]]]]]].
  intros a Hna. apply Hout. nia.
Qed.

Lemma mem_pool_init_bytes p backing size blk m r p' m' :
  mem_pool_init p backing size blk m = Some (r, p', m') -> mem_bytes m -> mem_bytes m'.
Proof.
  intros E Hm. unfold mem_pool_init in E. destruct (_ || _ || _ || _); [by inversion E; subst |].
  destruct (blk <? 8); [by inversion E; subst |]. change (clamp_align 16) with (Some 16) in E. cbn [mbind option_bind] in E. cbv zeta in E.
  repeat match type of E with (if ?c then _ else _) = _ => destruct c; [by inversion E; subst |] end.
  assert (G : forall b k n, mem_bytes (thread_blocks b k n m).2).
  { intros b k n. unfold thread_blocks. destruct (Z.le_gt_cases n 0) as [Hn | Hn]; [by rewrite for_range_empty by lia |].
    apply (for_range_ind (fun _ hm => mem_bytes hm.2)); [lia | done |]. intros i [h m0] _ H0. by apply mem_bytes_st64. }
  match type of E with context [thread_blocks ?b ?k ?n m] => pose proof (G b k n); destruct (thread_blocks b k n m) end.
  by inversion E; subst.
Qed.

(** [mem_pool_init] rejects a block size below eight bytes and a region too
    small for one aligned block, changing nothing; otherwise it returns 0 and a
    pool whose 16-byte aligned blocks lie inside the region, are at least as
    large as asked for, and are all free; only the region is written. *)
Theorem mem_pool_init_correct p0 backing size blk m :
  0 < backing -> 0 <= size -> backing + size + 16 < 2 ^ 64 -> 0 < blk < 2 ^ 62 -> 0 < size ->
  exists r p m', mem_pool_init (Some p0) backing size blk m = Some (r, Some p, m') /\
  ((r = 0 /\ 8 <= blk /\
    pool_rep p m' (blocks_desc (base p) (block_size p) (Z.to_nat (block_count p))) /\
    backing <= base p < backing + 16 /\ blk <= block_size p < blk + 16 /\
    backing + size - block_size p < base p + block_count p * block_size p <= backing + size /\
    mem_same_outside backing (backing + size) m m') \/
   (r = -1 /\ p = p0 /\ m' = m /\ (blk < 8 \/ size < blk + 32))).
Proof. apply mem_pool_init_spec. Qed.

Lemma mem_pool_init_correct_witness :
  exists r p m', mem_pool_init (Some (Pool 0 0 0 0 0)) 1000 200 20 ∅ = Some (r, Some p, m') /\
  ((r = 0 /\ 8 <= 20 /\
    pool_rep p m' (blocks_desc (base p) (block_size p) (Z.to_nat (block_count p))) /\
    1000 <= base p < 1000 + 16 /\ 20 <= block_size p < 20 + 16 /\
    1000 + 200 - block_size p < base p + block_count p * block_size p <= 1000 + 200 /\
    mem_same_outside 1000 (1000 + 200) ∅ m') \/
   (r = -1 /\ p = Pool 0 0 0 0 0 /\ m' = ∅ /\ (20 < 8 \/ 200 < 20 + 32))).
Proof. apply (mem_pool_init_correct (Pool 0 0 0 0 0) 1000 200 20 ∅); lia. Defined.

(** ** Allocation and release refine a stack of free blocks *)

Lemma pool_alloc_empty p m : pool_rep p m [] -> mem_pool_alloc (Some p) m = (nullptr, Some p, m).
Proof. intros [_ Hhd _ _ _ _]. unfold mem_pool_alloc. by rewrite Hhd. Qed.

Lemma pool_alloc_cons p m a l :
  pool_rep p m (a :: l) ->
  exists p', mem_pool_alloc (Some p) m = (a, Some p', store_next a nullptr m) /\
    pool_rep p' (store_next a nullptr m) l /\ a <> nullptr /\ is_block p a /\
    base p' = base p /\ block_size p' = block_size p /\ block_count p' = block_count p.
Proof.
  intros [Hg Hhd Hl Hnd Hbl Hfc]. simpl in Hhd, Hl, Hfc. destruct Hl as [Hnext Hl].
  apply NoDup_cons in Hnd as [Hni Hnd]. apply Forall_cons in Hbl as [Hba Hbl].
  destruct (block_bounds p a Hg Hba) as (_ & Hatop & Hpos). pose proof (geom_top p Hg).
  unfold mem_pool_alloc. rewrite Hhd. destruct (Z.eqb_spec a nullptr); [unfold nullptr in *; lia |].
  eexists. split; [done |]. split; [| repeat split; auto].
  split; simpl; [by destruct Hg; split | exact Hnext | | done | exact Hbl |].
  - apply (linked_frame m); [| done]. intros x Hx i Hi. unfold store_next.
    rewrite ld8_st64_other; [done |].
    pose proof (proj1 (Forall_forall _ _) Hbl x Hx) as Hbx.
    destruct (block_sep p x a Hg Hbx Hba) as [|]; [by intros -> | |]; destruct (geom_size p Hg); lia.
  - destruct (Z.eqb_spec (free_count p) 0); [lia |]. simpl. rewrite wrap64_small; [lia |].
    rewrite Hfc. split; [lia |].
    assert (Z.of_nat (length l) < block_count p); [| destruct (geom_size p Hg), (geom_base p Hg); nia].
    apply (nodup_blocks_lt p a l); auto.
Qed.

Lemma mem_pool_owns_block p a : pool_geom p -> 0 <= a < 2 ^ 64 ->
  mem_pool_owns (Some p) a = 1 <-> is_block p a.
Proof.
  intros Hg Ha. destruct (geom_base p Hg) as [Hb _], (geom_size p Hg) as [Hs _].
  pose proof (geom_count p Hg). pose proof (geom_top p Hg). unfold mem_pool_owns, nullptr.
  destruct (Z.eqb_spec (base p) 0); [lia |]. destruct (Z.eqb_spec a 0) as [-> |]; cbn [orb].
  { split; [done | intros Hbl%block_bounds; [lia | done]]. }
  rewrite (wrap64_small (block_count p * _)), wrap64_small by nia.
  destruct (Z.ltb_spec a (base p)); cbn [orb];
    [split; [done | intros Hbl%block_bounds; [lia | done]] |].
  destruct (Z.leb_spec (base p + block_count p * block_size p) a);
    [split; [done | intros Hbl%block_bounds; [lia | done]] |].
  rewrite wrap64_small by lia.
  destruct (Z.eqb_spec ((a - base p) mod block_size p) 0) as [Hm | Hm]; (split; [| try done]).
  - intros _. exists ((a - base p) / block_size p).
    pose proof (Z.div_mod (a - base p) (block_size p) ltac:(lia)). unfold block_at.
    split; [| nia]. split; [apply Z.div_pos; lia | apply Z.div_lt_upper_bound; nia].
  - done.
  - intros (i & Hi & ->). destruct Hm. unfold block_at.
    replace (base p + i * block_size p - base p) with (i * block_size p) by lia.
    apply Z.mod_mul. lia.
Qed.

Lemma mem_pool_owns_01 p a : mem_pool_owns (Some p) a = 0 \/ mem_pool_owns (Some p) a = 1.
Proof.
  unfold mem_pool_owns. destruct (_ || _); [by left |]. cbv zeta.
  destruct (_ || _); [by left |]. destruct (_ =? 0); auto.
Qed.

Lemma pool_free_cons p m a l :
  pool_rep p m l -> is_block p a -> a ∉ l ->
  exists p', mem_pool_free (Some p) a m = (0, Some p', store_next a (free_list p) m) /\
    pool_rep p' (store_next a (free_list p) m) (a :: l) /\
    base p' = base p /\ block_size p' = block_size p /\ block_count p' = block_count p.
Proof.
  intros [Hg Hhd Hl Hnd Hbl Hfc] Ha Hni.
  destruct (block_bounds p a Hg Ha) as (_ & Hatop & Hpos). pose proof (geom_top p Hg).
  destruct (geom_base p Hg) as [Hb0 _], (geom_size p Hg) as [Hs0 _].
  pose proof (nodup_blocks_lt p a l Hg Ha Hni Hnd Hbl) as Hlt.
  unfold mem_pool_free. destruct (Z.eqb_spec a nullptr); [unfold nullptr in *; lia |].
  rewrite (proj2 (mem_pool_owns_block p a Hg ltac:(lia)) Ha). simpl.
  destruct (Z.leb_spec (block_count p) (free_count p)); [lia |].
  eexists. split; [done |]. split; [| by repeat split]. split; simpl.
  - by destruct Hg; split.
  - done.
  - assert (Hhead : 0 <= free_list p < 2 ^ 64).
    { rewrite Hhd. destruct l as [|x l]; simpl; [unfold nullptr; lia |].
      apply Forall_cons in Hbl as [Hx _]. pose proof (block_bounds p x Hg Hx). lia. }
    split; [unfold store_next; rewrite ld64_st64_eq, wrap64_small by done; exact Hhd |].
    apply (linked_frame m); [| done]. intros x Hx i Hi. unfold store_next.
    rewrite ld8_st64_other; [done |].
    pose proof (proj1 (Forall_forall _ _) Hbl x Hx) as Hbx.
    destruct (block_sep p x a Hg Hbx Ha) as [|]; [by intros -> | lia | lia].
  - by constructor.
  - by constructor.
  - rewrite wrap64_small; [lia |]. nia.
Qed.

(** the pool refines a stack of free blocks: allocation pops the head, whose
    block it returns, and returns [nullptr] exactly when the stack is empty;
    freeing a block that is not on the stack pushes it and returns 0.  Each is a
    constant number of memory accesses and keeps the pool well formed. *)
Theorem mem_pool_refines_stack p m l :
  pool_rep p m l ->
  match l with
  | [] => mem_pool_alloc (Some p) m = (nullptr, Some p, m)
  | a :: l' => exists p', mem_pool_alloc (Some p) m = (a, Some p', st64 a nullptr m) /\
                 a <> nullptr /\ pool_rep p' (st64 a nullptr m) l'
  end /\
  forall a, is_block p a -> a ∉ l ->
    exists p', mem_pool_free (Some p) a m = (0, Some p', st64 a (hd nullptr l) m) /\
      pool_rep p' (st64 a (hd nullptr l) m) (a :: l).
Proof.
  intros Hrep. split.
  - destruct l as [|a l].
    + by apply pool_alloc_empty.
    + destruct (pool_alloc_cons p m a l Hrep) as (p' & He & Hr & Hnz & _). by exists p'.
  - intros a Ha Hni. destruct (pool_free_cons p m a l Hrep Ha Hni) as (p' & He & Hr & _).
    rewrite (rep_head _ _ _ Hrep) in *. by exists p'.
Qed.

(** [mem_pool_owns] recognises exactly the addresses of the pool's blocks,
    and [mem_pool_free] rejects every other address, changing nothing. *)
Theorem mem_pool_owns_exact p a m :
  pool_geom p -> 0 <= a < 2 ^ 64 ->
  (mem_pool_owns (Some p) a = 1 <-> is_block p a) /\
  (~ is_block p a -> mem_pool_free (Some p) a m = (-1, Some p, m)).
Proof.
  intros Hg Ha. split; [by apply mem_pool_owns_block |].
  intros Hn. unfold mem_pool_free. destruct (a =? nullptr); [done |].
  destruct (mem_pool_owns_01 p a) as [-> | H1]; [done |].
  destruct Hn. by apply mem_pool_owns_block.
Qed.

(** ** Clients *)

(** The invariant of any client: held and free blocks together are exactly the
    blocks of the pool, each once. *)
Definition pool_inv (st : mem_pool * mem * list Z) : Prop :=
  let '(p, m, live) := st in
  exists free, pool_rep p m free /\
    live ++ free ≡ₚ blocks_desc (base p) (block_size p) (Z.to_nat (block_count p)).

Lemma pool_inv_blocks p live free :
  pool_geom p -> live ++ free ≡ₚ blocks_desc (base p) (block_size p) (Z.to_nat (block_count p)) ->
  NoDup (live ++ free) /\ forall a, a ∈ live ++ free <-> is_block p a.
Proof.
  intros Hg Hp. split.
  - rewrite Hp. apply blocks_desc_nodup. destruct (geom_size p Hg); lia.
  - intros a. rewrite Hp. apply elem_of_blocks_desc_block, Hg.
Qed.

Lemma pool_step_inv st st' : pool_step st st' -> pool_inv st -> pool_inv st'.
Proof.
  intros Hst. destruct Hst as [p m live a p' m' Ha Hnz | p m l1 a l2 r p' m' Hf | p m live a x v Ha Hx];
    intros (free & Hrep & Hperm);
    destruct (pool_inv_blocks p _ _ (rep_geom _ _ _ Hrep) Hperm) as [Hnd Hmem].
  - destruct free as [|b free].
    + rewrite (pool_alloc_empty p m Hrep) in Ha. congruence.
    + destruct (pool_alloc_cons p m b free Hrep) as (q & He & Hr & _ & _ & Hb & Hs & Hc).
      rewrite He in Ha. injection Ha as <- <- <-. exists free. split; [done |].
      rewrite Hb, Hs, Hc, <- Hperm. solve_Permutation.
  - assert (Hbl : is_block p a) by (apply Hmem; set_solver).
    assert (Hni : a ∉ free).
    { rewrite <- (app_assoc l1 (a :: l2)) in Hnd. apply NoDup_app in Hnd as (_ & _ & Hnd).
      simpl in Hnd. apply NoDup_cons in Hnd as [Hnd _]. set_solver. }
    destruct (pool_free_cons p m a free Hrep Hbl Hni) as (q & He & Hr & Hb & Hs & Hc).
    rewrite He in Hf. injection Hf as <- <- <-. exists (a :: free). split; [done |].
    rewrite Hb, Hs, Hc, <- Hperm. solve_Permutation.
  - exists free. split; [| done]. destruct Hrep as [Hg Hhd Hl Hfnd Hbl Hfc]. split; try done.
    apply (linked_frame m); [| done]. intros y Hy i Hi. symmetry. apply ld8_st8_ne.
    destruct (block_sep p a y Hg) as [|]; [apply Hmem; set_solver | apply Hmem; set_solver | | |].
    + intros ->. apply NoDup_app in Hnd as (_ & Hnd & _). by apply (Hnd y).
    + lia.
    + destruct (geom_size p Hg); lia.
Qed.


(** A pool of three 32-byte blocks at 1024, for the witnesses. *)
Definition demo_pool : mem_pool := Pool 1024 32 3 (thread_blocks 1024 32 3 ∅).1 3.

Definition demo_mem : mem := (thread_blocks 1024 32 3 ∅).2.

Lemma demo_pool_rep : pool_rep demo_pool demo_mem (blocks_desc 1024 32 3).
Proof.
  pose proof (pool_rep_fresh 1024 32 3 ∅) as H. unfold demo_pool, demo_mem.
  destruct (thread_blocks 1024 32 3 ∅) as [head m']. apply H; lia || done.
Qed.

Lemma mem_pool_refines_stack_witness :
  mem_pool_alloc (Some demo_pool) demo_mem = (1088, Some (Pool 1024 32 3 1056 2), st64 1088 nullptr demo_mem) /\
  exists p', mem_pool_alloc (Some demo_pool) demo_mem = (1088, Some p', st64 1088 nullptr demo_mem) /\
    1088 <> nullptr /\ pool_rep p' (st64 1088 nullptr demo_mem) [1056; 1024].
Proof.
  split; [vm_compute; reflexivity |].
  exact (proj1 (mem_pool_refines_stack demo_pool demo_mem [1088; 1056; 1024] demo_pool_rep)).
Defined.

Lemma mem_pool_owns_exact_witness :
  (mem_pool_owns (Some demo_pool) 1056 = 1 <-> is_block demo_pool 1056) /\
  (~ is_block demo_pool 1056 -> mem_pool_free (Some demo_pool) 1056 demo_mem = (-1, Some demo_pool, demo_mem)).
Proof.
  apply (mem_pool_owns_exact demo_pool 1056 demo_mem); [exact (rep_geom _ _ _ demo_pool_rep) | lia].
Defined.


Definition demo_pool1 : mem_pool := Pool 1024 32 3 1056 2.

Definition demo_mem1 : mem := st64 1088 nullptr demo_mem.

Lemma demo_pool1_rep : pool_rep demo_pool1 demo_mem1 [1056; 1024].
Proof.
  destruct (pool_alloc_cons demo_pool demo_mem 1088 [1056; 1024] demo_pool_rep) as (p & He & Hr & _).
  assert (Hq : mem_pool_alloc (Some demo_pool) demo_mem = (1088, Some demo_pool1, demo_mem1))
    by (vm_compute; reflexivity).
  rewrite Hq in He. injection He as <-. exact Hr.
Qed.

(** without [MEM_POOL_DEBUG] a double free is accepted while some other
    block is held, and the next two allocations then return the same block. *)
Theorem double_free_aliases p m a l :
  pool_rep p m (a :: l) -> Z.of_nat (length (a :: l)) < block_count p ->
  exists p1 m1, mem_pool_free (Some p) a m = (0, Some p1, m1) /\
  exists p2 m2, mem_pool_alloc (Some p1) m1 = (a, Some p2, m2) /\
  exists p3 m3, mem_pool_alloc (Some p2) m2 = (a, Some p3, m3).
Proof.
  intros [Hg Hhd Hl Hnd Hbl Hfc] Hlt. simpl in Hhd, Hfc.
  apply Forall_cons in Hbl as [Ha _].
  destruct (block_bounds p a Hg Ha) as (_ & Hatop & Hpos). pose proof (geom_top p Hg).
  destruct (geom_size p Hg) as [Hs0 _].
  unfold mem_pool_free. destruct (Z.eqb_spec a nullptr) as [| Hnz]; [unfold nullptr in *; lia |].
  rewrite (proj2 (mem_pool_owns_block p a Hg ltac:(lia)) Ha). simpl Z.eqb. cbv iota.
  simpl in Hlt. destruct (Z.leb_spec (block_count p) (free_count p)); [lia |].
  eexists _, _. split; [done |]. unfold mem_pool_alloc. simpl.
  rewrite (proj2 (Z.eqb_neq _ _) Hnz). eexists _, _. split; [done |]. simpl.
  assert (Hself : load_next (store_next a (free_list p) m) a = a).
  { unfold load_next, store_next. rewrite ld64_st64_eq, Hhd. apply wrap64_small. lia. }
  rewrite Hself, (proj2 (Z.eqb_neq _ _) Hnz). by eexists _, _.
Qed.

Lemma double_free_aliases_witness :
  exists p1 m1, mem_pool_free (Some demo_pool1) 1056 demo_mem1 = (0, Some p1, m1) /\
  exists p2 m2, mem_pool_alloc (Some p1) m1 = (1056, Some p2, m2) /\
  exists p3 m3, mem_pool_alloc (Some p2) m2 = (1056, Some p3, m3).
Proof. apply (double_free_aliases demo_pool1 demo_mem1 1056 [1024]); [exact demo_pool1_rep | simpl; lia]. Defined.
