(* ===== verification/Pte.v ===== *)
(** * Stage-1 translation tables shared by the two MMU back ends

    The descriptor encoders [pte_table], [pte_page] and [pte_block] of
    [src/src/arch/aarch64/mmu.cc] (the copies in [mmu_rpi4.cc] are identical),
    the system registers and barriers the MMU code uses, and, as the ground truth
    the theorems refer to, the architecture's table walk for the 4 KiB granule
    with a 48-bit input address.  A table is an array of 512 descriptors named by
    its base address. *)

From S2P Require Import Prelude.

Definition kPtePxN : Z := Z.shiftl 1 53.

Definition kPteUxN : Z := Z.shiftl 1 54.

Definition kAttrIdxNormal : Z := 0.

Definition kAttrIdxDevice : Z := 1.

Definition kAttrIdxNormalNc : Z := 2.

Definition kMairAttrNormalWbWa : Z := 0xFF.

Definition kMairAttrDevice_nGnRE : Z := 0x04.

Definition kMairAttrNormalNc : Z := 0x44.

Definition kPteAddrMask : Z := 0x0000FFFFFFFFF000.

Definition kAf : Z := Z.shiftl 1 10.

Definition kApKernelRw : Z := Z.shiftl 0 6.

Definition mair_value : Z :=
  Z.lor (Z.lor (Z.shiftl kMairAttrNormalWbWa (8 * kAttrIdxNormal))
               (Z.shiftl kMairAttrDevice_nGnRE (8 * kAttrIdxDevice)))
        (Z.shiftl kMairAttrNormalNc (8 * kAttrIdxNormalNc)).

Definition tcr_value (mmfr0 : Z) : Z :=
  let parange := Z.land mmfr0 0xF in
  let parange := if 6 <? parange then 5 else parange in
  let tcr := 0 in
  let tcr := Z.lor tcr 16 in
  let tcr := Z.lor tcr (Z.shiftl 1 23) in
  let tcr := Z.lor tcr (Z.shiftl 1 8) in
  let tcr := Z.lor tcr (Z.shiftl 1 10) in
  let tcr := Z.lor tcr (Z.shiftl 3 12) in
  let tcr := Z.lor tcr (Z.shiftl 0 14) in
  Z.lor tcr (Z.shiftl parange 32).

Definition pte_table (next_table_phys : Z) : Z :=
  Z.lor (Z.land next_table_phys kPteAddrMask) 3.

Definition pte_page (phys_base attr_index sh : Z) : Z :=
  Z.lor (Z.lor (Z.lor (Z.lor (Z.lor (Z.land phys_base kPteAddrMask) 3)
    (Z.shiftl attr_index 2)) kApKernelRw) (Z.shiftl sh 8)) kAf.

Definition pte_block (phys_base attr_index sh : Z) : Z :=
  Z.lor (Z.lor (Z.lor (Z.lor (Z.lor (Z.land phys_base kPteAddrMask) 1)
    (Z.shiftl attr_index 2)) kApKernelRw) (Z.shiftl sh 8)) kAf.

Definition kL2BlockSize : Z := 2 ^ 21.

Definition kPageSize : Z := 2 ^ 12.

(** ** Table memory *)

(** Descriptors by (table base, index). *)
Abbreviation ptmem := (gmap (Z * Z) Z).

Definition pt_get (t : ptmem) (tbl i : Z) : Z := default 0 (t !! (tbl, i)).

Definition pt_set (tbl i v : Z) (t : ptmem) : ptmem := <[(tbl, i) := v]> t.

(** [for (i = 0; i < 512; ++i) tbl[i] = f(i)]. *)
Definition pt_fill (tbl : Z) (f : Z -> Z) (t : ptmem) : ptmem :=
  for_range 0 512 (fun i t => pt_set tbl i (f i) t) t.

(** ** The architectural walk *)

(** A valid translation: output address, MAIR index, shareability and the two
    execute-never bits. *)
Record leaf := Leaf {
  lf_pa : Z;
  lf_attr : Z;
  lf_sh : Z;
  lf_pxn : bool;
  lf_uxn : bool
}.

Definition desc_addr (e : Z) : Z := (e mod 2 ^ 48) / 2 ^ 12 * 2 ^ 12.

(** A leaf descriptor covering [2^k] bytes; a clear access flag faults. *)
Definition leaf_of (e k va : Z) : option leaf :=
  if (e / 2 ^ 10) mod 2 =? 1 then
    Some (Leaf (desc_addr e / 2 ^ k * 2 ^ k + va mod 2 ^ k) ((e / 2 ^ 2) mod 8)
            ((e / 2 ^ 8) mod 4) ((e / 2 ^ 53) mod 2 =? 1) ((e / 2 ^ 54) mod 2 =? 1))
  else None.

Definition walk_l3 (t : ptmem) (tbl va : Z) : option leaf :=
  let e := pt_get t tbl ((va / 2 ^ 12) mod 512) in
  if e mod 4 =? 3 then leaf_of e 12 va else None.

Definition walk_l2 (t : ptmem) (tbl va : Z) : option leaf :=
  let e := pt_get t tbl ((va / 2 ^ 21) mod 512) in
  if e mod 4 =? 3 then walk_l3 t (desc_addr e) va
  else if e mod 4 =? 1 then leaf_of e 21 va
  else None.

Definition walk_l1 (t : ptmem) (tbl va : Z) : option leaf :=
  let e := pt_get t tbl ((va / 2 ^ 30) mod 512) in
  if e mod 4 =? 3 then walk_l2 t (desc_addr e) va
  else if e mod 4 =? 1 then leaf_of e 30 va
  else None.

Definition walk (t : ptmem) (ttbr va : Z) : option leaf :=
  let e := pt_get t ttbr ((va / 2 ^ 39) mod 512) in
  if e mod 4 =? 3 then walk_l1 t (desc_addr e) va else None.

(** ** Table memory lemmas *)

Lemma pt_get_set t tbl i v tbl' j :
  pt_get (pt_set tbl i v t) tbl' j = if (tbl =? tbl') && (i =? j) then v else pt_get t tbl' j.
Proof.
  unfold pt_get, pt_set. rewrite lookup_insert.
  destruct (Z.eqb_spec tbl tbl'), (Z.eqb_spec i j); simpl;
    [rewrite decide_True by congruence | rewrite decide_False by congruence ..]; done.
Qed.

Lemma pt_get_set_eq t tbl i v : pt_get (pt_set tbl i v t) tbl i = v.
Proof. by rewrite pt_get_set, !Z.eqb_refl. Qed.

Lemma pt_get_set_tbl t tbl i v tbl' j : tbl <> tbl' -> pt_get (pt_set tbl i v t) tbl' j = pt_get t tbl' j.
Proof. intros H. rewrite pt_get_set. by apply Z.eqb_neq in H as ->. Qed.

Lemma pt_get_set_idx t tbl i v j : i <> j -> pt_get (pt_set tbl i v t) tbl j = pt_get t tbl j.
Proof. intros H. rewrite pt_get_set. apply Z.eqb_neq in H as ->. by rewrite andb_false_r. Qed.

Lemma pt_get_fill t tbl f tbl' j :
  pt_get (pt_fill tbl f t) tbl' j =
    if (tbl =? tbl') && (0 <=? j) && (j <? 512) then f j else pt_get t tbl' j.
Proof.
  unfold pt_fill.
  apply (for_range_ind (fun n t' => pt_get t' tbl' j =
    if (tbl =? tbl') && (0 <=? j) && (j <? n) then f j else pt_get t tbl' j)); [lia | |].
  - destruct (tbl =? tbl'); [| done]. simpl. destruct (Z.leb_spec 0 j); [| done].
    simpl. destruct (Z.ltb_spec j 0); [lia | done].
  - intros n t' Hn IH. rewrite pt_get_set, IH.
    destruct (tbl =? tbl'); [| done]. simpl.
    destruct (Z.leb_spec 0 j), (Z.ltb_spec j (n + 1)), (Z.ltb_spec j n), (Z.eqb_spec n j);
      simpl; first [done | lia | congruence].
Qed.

Lemma pt_get_fill_tbl t tbl f tbl' j : tbl <> tbl' -> pt_get (pt_fill tbl f t) tbl' j = pt_get t tbl' j.
Proof. intros H. rewrite pt_get_fill. by apply Z.eqb_neq in H as ->. Qed.

Lemma pt_get_fill_in t tbl f j : 0 <= j < 512 -> pt_get (pt_fill tbl f t) tbl j = f j.
Proof.
  intros H. rewrite pt_get_fill, Z.eqb_refl.
  by rewrite (proj2 (Z.leb_le _ _)), (proj2 (Z.ltb_lt _ _)) by lia.
Qed.

(** ** Descriptor arithmetic *)

Lemma lor_disjoint x y k : 0 <= k -> x mod 2 ^ k = 0 -> 0 <= y < 2 ^ k -> Z.lor x y = x + y.
Proof.
  intros Hk Hx Hy. symmetry. rewrite Z.add_nocarry_lxor.
  - apply Z.bits_inj'. intros i Hi. rewrite Z.lxor_spec, Z.lor_spec.
    destruct (Z.ltb_spec i k).
    + rewrite <- (Z.mod_pow2_bits_low x k) by lia. rewrite Hx, Z.bits_0. done.
    + rewrite <- (Z.mod_small y (2 ^ k)), Z.mod_pow2_bits_high by lia.
      by rewrite xorb_false_r, orb_false_r.
  - apply Z.bits_inj'. intros i Hi. rewrite Z.land_spec, Z.bits_0.
    destruct (Z.ltb_spec i k).
    + rewrite <- (Z.mod_pow2_bits_low x k) by lia. rewrite Hx, Z.bits_0. done.
    + rewrite <- (Z.mod_small y (2 ^ k)), Z.mod_pow2_bits_high by lia. apply andb_false_r.
Qed.

Lemma land_high_low x y k : 0 <= k -> y mod 2 ^ k = 0 -> 0 <= x < 2 ^ k -> Z.land x y = 0.
Proof.
  intros Hk Hy Hx. apply Z.bits_inj'. intros i Hi. rewrite Z.land_spec, Z.bits_0.
  destruct (Z.ltb_spec i k).
  - rewrite <- (Z.mod_pow2_bits_low y k) by lia. rewrite Hy, Z.bits_0. apply andb_false_r.
  - by rewrite <- (Z.mod_small x (2 ^ k)), Z.mod_pow2_bits_high by lia.
Qed.

Lemma land_3 x : Z.land x 3 = x mod 4.
Proof. apply (Z.land_ones x 2). lia. Qed.

Lemma land_7 x : Z.land x 7 = x mod 8.
Proof. apply (Z.land_ones x 3). lia. Qed.

Definition phys_ok (a : Z) : Prop := 0 <= a < 2 ^ 48 /\ a mod 2 ^ 12 = 0.

Lemma addr_mask a : phys_ok a -> Z.land a kPteAddrMask = a.
Proof.
  intros [Ha Hal]. apply Z.bits_inj'. intros i Hi. rewrite Z.land_spec.
  destruct (Z.ltb_spec i 12).
  - rewrite <- (Z.mod_pow2_bits_low a 12) by lia. rewrite Hal, Z.bits_0. done.
  - change kPteAddrMask with (Z.shiftl (Z.ones 36) 12). rewrite Z.shiftl_spec by lia.
    destruct (Z.ltb_spec i 48).
    + rewrite Z.ones_spec_low by lia. apply andb_true_r.
    + rewrite <- (Z.mod_small a (2 ^ 48)), Z.mod_pow2_bits_high by lia. done.
Qed.

Lemma pte_table_val a : phys_ok a -> pte_table a = a + 3.
Proof.
  intros H. unfold pte_table. rewrite addr_mask by done. destruct H.
  apply (lor_disjoint a 3 12); lia.
Qed.

(** Low descriptor bits for the attribute and shareability pairs in use. *)
Definition attrs_ok (attr sh : Z) : Prop := 0 <= attr <= 7 /\ 0 <= sh <= 3.

Lemma pte_low_bits ty attr sh :
  1 <= ty <= 3 -> attrs_ok attr sh ->
  Z.lor (Z.lor (Z.lor (Z.lor ty (Z.shiftl attr 2)) kApKernelRw) (Z.shiftl sh 8)) kAf
    = ty + 4 * attr + 256 * sh + 1024.
Proof.
  intros Hty [Ha Hs]. change kApKernelRw with 0. change kAf with 1024. rewrite Z.lor_0_r.
  rewrite (Z.lor_comm ty), !Z.shiftl_mul_pow2 by lia.
  rewrite (lor_disjoint (attr * 2 ^ 2) ty 2) by (zlia || lia).
  rewrite (Z.lor_comm _ (sh * _)), (lor_disjoint (sh * 2 ^ 8) _ 8) by (zlia || lia).
  rewrite Z.lor_comm, (lor_disjoint 1024 _ 10) by (reflexivity || lia). lia.
Qed.

Lemma pte_page_val a attr sh :
  phys_ok a -> attrs_ok attr sh -> pte_page a attr sh = a + (3 + 4 * attr + 256 * sh + 1024).
Proof.
  intros Ha Hat. unfold pte_page. rewrite addr_mask by done.
  rewrite <- !Z.lor_assoc, (Z.lor_assoc 3), (Z.lor_assoc (Z.lor 3 _)), (Z.lor_assoc (Z.lor (Z.lor 3 _) _)).
  rewrite pte_low_bits by (done || lia). destruct Ha, Hat.
  apply (lor_disjoint a _ 12); lia.
Qed.

Lemma pte_block_val a attr sh :
  phys_ok a -> attrs_ok attr sh -> pte_block a attr sh = a + (1 + 4 * attr + 256 * sh + 1024).
Proof.
  intros Ha Hat. unfold pte_block. rewrite addr_mask by done.
  rewrite <- !Z.lor_assoc, (Z.lor_assoc 1), (Z.lor_assoc (Z.lor 1 _)), (Z.lor_assoc (Z.lor (Z.lor 1 _) _)).
  rewrite pte_low_bits by (done || lia). destruct Ha, Hat.
  apply (lor_disjoint a _ 12); lia.
Qed.

(** The execute-never bits as the code adds them: both or none. *)
Definition xn_bits (xn : bool) : Z := if xn then Z.lor kPtePxN kPteUxN else 0.

Lemma lor_xn e xn : 0 <= e < 2 ^ 48 -> Z.lor e (xn_bits xn) = e + (if xn then 3 * 2 ^ 53 else 0).
Proof.
  intros He. destruct xn; simpl xn_bits; [| by rewrite Z.lor_0_r, Z.add_0_r].
  change (Z.lor kPtePxN kPteUxN) with (3 * 2 ^ 53).
  rewrite Z.lor_comm, (lor_disjoint _ e 48); [lia | lia | reflexivity | done].
Qed.

Lemma low_bits_range ty attr sh :
  1 <= ty <= 3 -> attrs_ok attr sh -> 0 <= ty + 4 * attr + 256 * sh + 1024 < 2 ^ 12.
Proof. intros Hty [Ha Hs]. lia. Qed.

(** Decoding what the encoders produce. *)
Lemma decode_table a : phys_ok a -> pte_table a mod 4 = 3 /\ desc_addr (pte_table a) = a.
Proof. intros H. rewrite pte_table_val by done. destruct H. unfold desc_addr. split; zlia. Qed.

Lemma decode_page a attr sh xn va :
  phys_ok a -> attrs_ok attr sh ->
  let e := Z.lor (pte_page a attr sh) (xn_bits xn) in
  e mod 4 = 3 /\ leaf_of e 12 va = Some (Leaf (a + va mod 2 ^ 12) attr sh xn xn).
Proof.
  intros Ha Hat e. subst e. rewrite pte_page_val by done.
  destruct Ha as [Ha Hal], Hat as [Hattr Hsh].
  rewrite lor_xn by zlia.
  set (c := if xn then _ else _).
  assert (Hc : c = (if xn then 3 else 0) * 2 ^ 53) by (by destruct xn).
  set (e := a + _ + c). assert (He : e = a + (3 + 4 * attr + 256 * sh + 1024) + c) by done.
  clearbody e c. split; [destruct xn; zlia |]. unfold leaf_of, desc_addr.
  replace ((e / 2 ^ 10) mod 2) with 1 by (destruct xn; zlia). simpl.
  f_equal. f_equal; [destruct xn; zlia | destruct xn; zlia | destruct xn; zlia | |];
    destruct xn; (apply Z.eqb_eq || apply Z.eqb_neq); zlia.
Qed.

Lemma pte_block_split a attr sh xn :
  phys_ok a -> attrs_ok attr sh ->
  Z.lor (pte_block a attr sh) (xn_bits xn) =
    a + (1 + 4 * attr + 256 * sh + 1024) + (if xn then 3 else 0) * 2 ^ 53.
Proof.
  intros Ha Hat. rewrite pte_block_val by done. destruct Ha as [Ha Hal], Hat.
  rewrite lor_xn by zlia. destruct xn; lia.
Qed.

Lemma decode_block a attr sh xn va k :
  phys_ok a -> attrs_ok attr sh -> k = 21 \/ k = 30 -> a mod 2 ^ k = 0 ->
  let e := Z.lor (pte_block a attr sh) (xn_bits xn) in
  e mod 4 = 1 /\ leaf_of e k va = Some (Leaf (a + va mod 2 ^ k) attr sh xn xn).
Proof.
  intros Ha Hat Hk Hak e. subst e. rewrite pte_block_split by done.
  destruct Ha as [Ha Hal], Hat as [Hattr Hsh].
  set (e := a + _ + _).
  assert (He : e = a + (1 + 4 * attr + 256 * sh + 1024) + (if xn then 3 else 0) * 2 ^ 53) by done.
  clearbody e. split; [destruct xn; zlia |]. unfold leaf_of, desc_addr.
  replace ((e / 2 ^ 10) mod 2) with 1 by (destruct xn; zlia). simpl.
  f_equal. f_equal; [destruct Hk as [-> | ->], xn; zlia | destruct xn; zlia | destruct xn; zlia | |];
    destruct xn; (apply Z.eqb_eq || apply Z.eqb_neq); zlia.
Qed.

(** The fields [ensure_l3_for_ram_block] extracts from a 2 MiB block. *)
Lemma block_fields a attr sh xn :
  phys_ok a -> attrs_ok attr sh ->
  let e := Z.lor (pte_block a attr sh) (xn_bits xn) in
  Z.land e 3 = 1 /\ Z.land (Z.shiftr e 2) 7 = attr /\ Z.land (Z.shiftr e 8) 3 = sh /\
  Z.land e (Z.lor kPtePxN kPteUxN) = xn_bits xn.
Proof.
  intros Ha Hat e. subst e. rewrite pte_block_split by done.
  destruct Ha as [Ha Hal], Hat as [Hattr Hsh].
  rewrite !land_3, land_7, !Z.shiftr_div_pow2 by lia.
  split; [destruct xn; zlia | split; [destruct xn; zlia | split; [destruct xn; zlia |]]].
  rewrite Z.add_comm. destruct xn; simpl xn_bits.
  - change (Z.lor kPtePxN kPteUxN) with (3 * 2 ^ 53).
    rewrite <- (lor_disjoint (3 * 2 ^ 53) _ 48) by zlia.
    rewrite Z.land_lor_distr_l, Z.land_diag.
    rewrite (land_high_low _ _ 48) by (reflexivity || zlia). apply Z.lor_0_r.
  - rewrite Z.mul_0_l, Z.add_0_l. apply (land_high_low _ _ 48); [lia | reflexivity | zlia].
Qed.

Lemma table_type a : phys_ok a -> Z.land (pte_table a) 3 = 3 /\ Z.land (pte_table a) kPteAddrMask = a.
Proof.
  intros H. split.
  - rewrite land_3. by apply decode_table.
  - unfold pte_table. rewrite Z.land_lor_distr_l, !(addr_mask a) by done.
    change (Z.land 3 kPteAddrMask) with 0. apply Z.lor_0_r.
Qed.

(** ** The MMU state *)

(** System-register writes and barriers, recorded in program order. *)
Inductive sysop :=
| DSB_ISH
| ISB
| TLBI_VMALLE1
| IC_IALLU
| MSR_MAIR (v : Z)
| MSR_TCR (v : Z)
| MSR_TTBR0 (v : Z)
| MSR_SCTLR (v : Z).

Record mmu_st := Mmu {
  pt : ptmem;
  g_l3_extra_next : Z;
  sctlr : Z;
  ops : list sysop
}.

Definition emit (l : list sysop) (s : mmu_st) : mmu_st :=
  Mmu (pt s) (g_l3_extra_next s)
    (fold_left (fun v o => match o with MSR_SCTLR w => w | _ => v end) l (sctlr s)) (ops s ++ l).

(** The linker- and hardware-provided values: table addresses, the DMA window,
    the ID register. *)
Record mmu_layout := Layout {
  g_l0 : Z;
  g_l1 : Z;
  g_l2 : Z;
  g_l3_dma0 : Z;
  g_l3_dma1 : Z;
  g_l3_extra : Z;
  dma_nc_start : Z;
  dma_nc_end : Z;
  id_aa64mmfr0 : Z
}.

Definition extra_tbl (L : mmu_layout) (t : Z) : Z := g_l3_extra L + 4096 * t.

(** [ensure_l3_for_ram_block] / [ensure_l3_for_lowram_block]: the two back ends
    differ in the address the second-level table starts at. *)
Definition ensure_l3 (L : mmu_layout) (ram_base l2_index : Z) (s : mmu_st) : Z * mmu_st :=
  if 512 <=? l2_index then (nullptr, s)
  else
    let e := pt_get (pt s) (g_l2 L) l2_index in
    let type := Z.land e 3 in
    if type =? 3 then (Z.land e kPteAddrMask, s)
    else if negb (type =? 1) then (nullptr, s)
    else if 8 <=? g_l3_extra_next s then (nullptr, s)
    else
      let l3 := extra_tbl L (g_l3_extra_next s) in
      let attr_index := Z.land (Z.shiftr e 2) 7 in
      let sh := Z.land (Z.shiftr e 8) 3 in
      let xn := Z.land e (Z.lor kPtePxN kPteUxN) in
      let block_base := ram_base + l2_index * kL2BlockSize in
      let t1 := pt_fill l3 (fun i => Z.lor (pte_page (block_base + i * kPageSize) attr_index sh) xn) (pt s) in
      let t2 := pt_set (g_l2 L) l2_index (pte_table l3) t1 in
      (l3, Mmu t2 (g_l3_extra_next s + 1) (sctlr s) (ops s)).

(** The body of the per-block loop over the DMA window: the block's 512 pages,
    the window's own pages execute-never and, under the non-cacheable policy,
    Normal Non-cacheable; then the second-level entry. *)
Definition map_dma_block (L : mmu_layout) (nc : bool) (ram_base l3 block_base : Z) (t : ptmem) : ptmem :=
  let l2_index := (block_base - ram_base) / kL2BlockSize in
  let t1 := pt_fill l3 (fun i =>
    let va := block_base + i * kPageSize in
    let inside := (dma_nc_start L <=? va) && (va <? dma_nc_end L) in
    let xn := if inside then Z.lor kPtePxN kPteUxN else 0 in
    let attr := if inside && nc then kAttrIdxNormalNc else kAttrIdxNormal in
    Z.lor (pte_page va attr 3) xn) t in
  pt_set (g_l2 L) l2_index (pte_table l3) t1.

Definition map_dma_window (L : mmu_layout) (nc : bool) (ram_base : Z) (t : ptmem) : ptmem :=
  let dma_first_block := Z.land (dma_nc_start L) (~64 (kL2BlockSize - 1)) in
  let dma_last_block := Z.land (dma_nc_end L - 1) (~64 (kL2BlockSize - 1)) in
  let t1 := map_dma_block L nc ram_base (g_l3_dma0 L) dma_first_block t in
  if dma_first_block =? dma_last_block then t1
  else map_dma_block L nc ram_base (g_l3_dma1 L) dma_last_block t1.

(** Zeroing of every table at the start of the map construction. *)
Definition clear_tables (L : mmu_layout) (t : ptmem) : ptmem :=
  let t := for_range 0 512 (fun i t =>
    pt_set (g_l3_dma1 L) i 0 (pt_set (g_l3_dma0 L) i 0 (pt_set (g_l2 L) i 0
      (pt_set (g_l1 L) i 0 (pt_set (g_l0 L) i 0 t))))) t in
  for_range 0 8 (fun k t => pt_fill (extra_tbl L k) (fun _ => 0) t) t.

(** The common tail of [mmu_guard_page]: split the block of [va] if needed,
    invalidate its page descriptor, and flush the TLB. *)
Definition guard_region (L : mmu_layout) (ram_base va : Z) (s : mmu_st) : Z * mmu_st :=
  let off := va - ram_base in
  let l2_index := off / kL2BlockSize in
  let l3_index := (off mod kL2BlockSize) / kPageSize in
  let '(l3, s1) := ensure_l3 L ram_base l2_index s in
  if l3 =? nullptr then (-1, s1)
  else
    let s2 := Mmu (pt_set l3 l3_index 0 (pt s1)) (g_l3_extra_next s1) (sctlr s1) (ops s1) in
    (0, emit [DSB_ISH; TLBI_VMALLE1; DSB_ISH; ISB] s2).

Definition mmu_enabled (s : mmu_st) : Z := if negb (Z.land (sctlr s) 1 =? 0) then 1 else 0.

(** [mmu_init] of both back ends, after which they differ only in [build]. *)
Definition mmu_enable (L : mmu_layout) (build : mmu_st -> mmu_st) (enable : bool) (s : mmu_st) : mmu_st :=
  if negb enable then s
  else
    let before := sctlr s in
    if negb (Z.land before 1 =? 0) then s
    else
      let s := build s in
      let s := emit [MSR_MAIR mair_value; MSR_TCR (tcr_value (id_aa64mmfr0 L)); MSR_TTBR0 (g_l0 L); ISB] s in
      let s := emit [DSB_ISH; TLBI_VMALLE1; DSB_ISH; ISB] s in
      let s := emit [IC_IALLU; DSB_ISH; ISB] s in
      let v := before in
      let v := Z.lor v (Z.shiftl 1 0) in
      let v := Z.lor v (Z.shiftl 1 2) in
      let v := Z.lor v (Z.shiftl 1 12) in
      emit [MSR_SCTLR v; ISB] s.

Definition align_down (v a : Z) : Z := Z.land v (~64 (a -64 1)).

(** ** The invariant of the RAM gigabyte *)

Definition tbl_ok (a : Z) : Prop := phys_ok a /\ 0 < a.

(** The tables are page-aligned, non-null and distinct. *)
Record layout_ok (L : mmu_layout) : Prop := {
  lo_l0 : tbl_ok (g_l0 L);
  lo_l1 : tbl_ok (g_l1 L);
  lo_l2 : tbl_ok (g_l2 L);
  lo_dma0 : tbl_ok (g_l3_dma0 L);
  lo_dma1 : tbl_ok (g_l3_dma1 L);
  lo_extra : forall t, 0 <= t < 8 -> tbl_ok (extra_tbl L t);
  lo_nodup : NoDup [g_l0 L; g_l1 L; g_l2 L; g_l3_dma0 L; g_l3_dma1 L];
  lo_extra_fresh : forall t, 0 <= t < 8 ->
    extra_tbl L t ∉ [g_l0 L; g_l1 L; g_l2 L; g_l3_dma0 L; g_l3_dma1 L]
}.

(** The third-level tables in use when [next] spare tables have been taken. *)
Definition l3_used (L : mmu_layout) (next T : Z) : Prop :=
  T = g_l3_dma0 L \/ T = g_l3_dma1 L \/ exists t, 0 <= t < next /\ T = extra_tbl L t.

(** Upper levels: entry 0 of the root leads to [g_l1], whose entry for the RAM
    gigabyte leads to [g_l2]; nothing else leads to a table. *)
Record upper_inv (L : mmu_layout) (ram_base : Z) (t : ptmem) : Prop := {
  up_root : pt_get t (g_l0 L) 0 = pte_table (g_l1 L);
  up_root_rest : forall i, 0 < i < 512 -> pt_get t (g_l0 L) i = 0;
  up_ram : pt_get t (g_l1 L) (ram_base / 2 ^ 30) = pte_table (g_l2 L);
  up_rest : forall i, 0 <= i < 512 -> i <> ram_base / 2 ^ 30 -> pt_get t (g_l1 L) i mod 4 <> 3
}.

(** Second level: block [i] is either an identity 2 MiB block or is refined by
    the third-level table [own i], used by no other block. *)
Record region_inv (L : mmu_layout) (ram_base : Z) (t : ptmem) (next : Z) (own : Z -> option Z) : Prop := {
  rg_next : 0 <= next <= 8;
  rg_entry : forall i, 0 <= i < 512 ->
    match own i with
    | None => pt_get t (g_l2 L) i = pte_block (ram_base + i * 2 ^ 21) kAttrIdxNormal 3
    | Some T => pt_get t (g_l2 L) i = pte_table T /\ l3_used L next T
    end;
  rg_inj : forall i j T, 0 <= i < 512 -> 0 <= j < 512 ->
    own i = Some T -> own j = Some T -> i = j
}.

Section Region.

Context (L : mmu_layout) (HL : layout_ok L) (ram_base : Z).
Context (Hbase : 0 <= ram_base /\ ram_base mod 2 ^ 30 = 0 /\ ram_base + 2 ^ 30 <= 2 ^ 39).

Definition in_ram (va : Z) : Prop := ram_base <= va < ram_base + 2 ^ 30.

#[local] Instance in_ram_dec va : Decision (in_ram va).
Proof. unfold in_ram. apply _. Defined.

Lemma l3_used_ok next T : next <= 8 -> l3_used L next T ->
  tbl_ok T /\ T <> g_l0 L /\ T <> g_l1 L /\ T <> g_l2 L.
Proof using HL.
  clear Hbase ram_base.
  intros Hn HT. pose proof (lo_nodup L HL) as Hnd.
  rewrite !NoDup_cons in Hnd. destruct Hnd as (H0 & H1 & H2 & H3 & _).
  destruct HT as [-> | [-> | (t & Ht & ->)]].
  - split; [apply HL | repeat split; intros E; rewrite E in *; set_solver].
  - split; [apply HL | repeat split; intros E; rewrite E in *; set_solver].
  - pose proof (lo_extra_fresh L HL t ltac:(lia)).
    split; [apply HL; lia | repeat split; intros E; rewrite E in *; set_solver].
Qed.

Lemma lo_distinct :
  (g_l0 L <> g_l1 L /\ g_l0 L <> g_l2 L /\ g_l1 L <> g_l2 L) /\
  (g_l0 L <> g_l3_dma0 L /\ g_l1 L <> g_l3_dma0 L /\ g_l2 L <> g_l3_dma0 L) /\
  (g_l0 L <> g_l3_dma1 L /\ g_l1 L <> g_l3_dma1 L /\ g_l2 L <> g_l3_dma1 L) /\
  g_l3_dma0 L <> g_l3_dma1 L.
Proof using HL.
  clear Hbase ram_base.
  pose proof (lo_nodup L HL) as Hnd. rewrite !NoDup_cons, !not_elem_of_cons in Hnd. tauto.
Qed.

Lemma l3_used_mono next next' T : next <= next' -> l3_used L next T -> l3_used L next' T.
Proof.
  intros Hle [H | [H | (t & Ht & H)]]; [by left | by right; left |].
  right; right. exists t. split; [lia | done].
Qed.

Lemma extra_not_used next : 0 <= next < 8 -> ~ l3_used L next (extra_tbl L next).
Proof using HL.
  clear Hbase ram_base.
  intros Hn [H | [H | (t & Ht & H)]].
  - apply (lo_extra_fresh L HL next Hn). rewrite H. set_solver.
  - apply (lo_extra_fresh L HL next Hn). rewrite H. set_solver.
  - unfold extra_tbl in H. lia.
Qed.

(** The walk of a RAM address reaches the second level; other addresses never do. *)
Lemma walk_ram t va : upper_inv L ram_base t -> in_ram va ->
  walk t (g_l0 L) va = walk_l2 t (g_l2 L) va.
Proof.
  intros [Hr _ Hram _] Hva. unfold in_ram in Hva.
  destruct (decode_table (g_l1 L) (proj1 (lo_l1 L HL))) as [Ht1 Ha1].
  destruct (decode_table (g_l2 L) (proj1 (lo_l2 L HL))) as [Ht2 Ha2].
  unfold walk. replace ((va / 2 ^ 39) mod 512) with 0 by zlia.
  rewrite Hr, Ht1, Ha1. simpl Z.eqb. cbv iota. unfold walk_l1.
  replace ((va / 2 ^ 30) mod 512) with (ram_base / 2 ^ 30) by zlia.
  by rewrite Hram, Ht2, Ha2.
Qed.

Lemma walk_elsewhere t t' va :
  upper_inv L ram_base t ->
  (forall i, pt_get t' (g_l0 L) i = pt_get t (g_l0 L) i) ->
  (forall i, pt_get t' (g_l1 L) i = pt_get t (g_l1 L) i) ->
  0 <= va < 2 ^ 48 -> ~ in_ram va -> walk t' (g_l0 L) va = walk t (g_l0 L) va.
Proof.
  intros [Hr Hr' Hram Hrest] H0 H1 Hva Hnin. unfold in_ram in Hnin.
  destruct (decode_table (g_l1 L) (proj1 (lo_l1 L HL))) as [Ht1 Ha1].
  unfold walk. rewrite H0. destruct (Z.eq_dec ((va / 2 ^ 39) mod 512) 0) as [E | E].
  - rewrite E, Hr, Ht1, Ha1. simpl Z.eqb. cbv iota. unfold walk_l1. rewrite H1.
    specialize (Hrest ((va / 2 ^ 30) mod 512) ltac:(zlia) ltac:(zlia)).
    by apply Z.eqb_neq in Hrest as ->.
  - rewrite Hr' by zlia. done.
Qed.

Lemma upper_inv_ext t t' :
  (forall i, pt_get t' (g_l0 L) i = pt_get t (g_l0 L) i) ->
  (forall i, pt_get t' (g_l1 L) i = pt_get t (g_l1 L) i) ->
  upper_inv L ram_base t -> upper_inv L ram_base t'.
Proof.
  intros H0 H1 [Hr Hr' Hram Hrest]. split; rewrite ?H0, ?H1; auto.
  - intros i Hi. rewrite H0. auto.
  - intros i Hi Hne. rewrite H1. auto.
Qed.

(** A RAM address inside an unsplit block, and inside a split one. *)
Lemma walk_l2_own t next own va :
  region_inv L ram_base t next own -> in_ram va ->
  walk_l2 t (g_l2 L) va =
    match own ((va / 2 ^ 21) mod 512) with
    | None => Some (Leaf va kAttrIdxNormal 3 false false)
    | Some T => walk_l3 t T va
    end.
Proof.
  intros [Hn He _] Hva. unfold in_ram in Hva. unfold walk_l2.
  specialize (He ((va / 2 ^ 21) mod 512) ltac:(zlia)). set (i := (va / 2 ^ 21) mod 512) in *.
  destruct (own i) as [T|].
  - destruct He as [-> HT]. apply l3_used_ok in HT as [[HT _] _]; [| lia].
    destruct (decode_table T HT) as [-> ->]. done.
  - rewrite He. destruct (decode_block (ram_base + i * 2 ^ 21) kAttrIdxNormal 3 false va 21) as [Hty Hl];
      [split; subst i; zlia | split; unfold kAttrIdxNormal; lia | by left | subst i; zlia |].
    simpl xn_bits in Hty, Hl. rewrite Z.lor_0_r in Hty, Hl. rewrite Hty. simpl Z.eqb. cbv iota.
    rewrite Hl. do 2 f_equal. subst i; zlia.
Qed.

Lemma walk_l3_page t T va a attr sh xn :
  pt_get t T ((va / 2 ^ 12) mod 512) = Z.lor (pte_page a attr sh) (xn_bits xn) ->
  phys_ok a -> attrs_ok attr sh ->
  walk_l3 t T va = Some (Leaf (a + va mod 2 ^ 12) attr sh xn xn).
Proof.
  intros He Ha Hat. unfold walk_l3. rewrite He.
  destruct (decode_page a attr sh xn va Ha Hat) as [-> ->]. done.
Qed.

Lemma walk_l3_ext t t' T va : (forall i, pt_get t' T i = pt_get t T i) -> walk_l3 t' T va = walk_l3 t T va.
Proof. intros H. unfold walk_l3. by rewrite H. Qed.

(** The memory after splitting block [idx] with the fresh table [l3]. *)
Definition split_tables (t : ptmem) (l3 idx : Z) : ptmem :=
  pt_set (g_l2 L) idx (pte_table l3)
    (pt_fill l3 (fun i =>
       Z.lor (pte_page (ram_base + idx * kL2BlockSize + i * kPageSize) kAttrIdxNormal 3) (xn_bits false)) t).

Lemma split_other t l3 idx tbl i :
  tbl <> l3 -> tbl <> g_l2 L -> pt_get (split_tables t l3 idx) tbl i = pt_get t tbl i.
Proof. intros H1 H2. unfold split_tables. rewrite pt_get_set_tbl, pt_get_fill_tbl by congruence. done. Qed.

Lemma split_inv t next own idx :
  region_inv L ram_base t next own -> 0 <= idx < 512 -> next < 8 -> own idx = None ->
  let l3 := extra_tbl L next in
  let own' := fun j => if j =? idx then Some l3 else own j in
  region_inv L ram_base (split_tables t l3 idx) (next + 1) own' /\
  forall va, in_ram va ->
    walk_l2 (split_tables t l3 idx) (g_l2 L) va = walk_l2 t (g_l2 L) va.
Proof.
  intros Hinv Hidx Hn Hown l3 own'. pose proof Hinv as [Hnext He Hinj].
  assert (Hu : l3_used L (next + 1) l3) by (right; right; exists next; split; [lia | done]).
  destruct (l3_used_ok (next + 1) l3 ltac:(lia) Hu) as ([Hphys _] & Hn0 & Hn1 & Hn2).
  assert (Hfresh : forall j, own j = Some l3 -> 0 <= j < 512 -> False).
  { intros j Hj Hjr. specialize (He j Hjr). rewrite Hj in He. destruct He as [_ He].
    apply (extra_not_used next); [lia | done]. }
  assert (Hinv' : region_inv L ram_base (split_tables t l3 idx) (next + 1) own').
  { split; [lia | |].
    - intros j Hj. unfold own'. destruct (Z.eqb_spec j idx) as [-> | Hne].
      + split; [apply pt_get_set_eq | done].
      + unfold split_tables. rewrite pt_get_set_idx, pt_get_fill_tbl by congruence.
        specialize (He j Hj). destruct (own j) as [T|]; [| done].
        destruct He as [He HT]. split; [done | apply (l3_used_mono next); [lia | done]].
    - intros i j T Hi Hj. unfold own'.
      destruct (Z.eqb_spec i idx), (Z.eqb_spec j idx); try congruence; intros E1 E2.
      + injection E1 as <-. by destruct (Hfresh j).
      + injection E2 as <-. by destruct (Hfresh i).
      + by apply (Hinj i j T). }
  split; [done |]. intros va Hva.
  rewrite (walk_l2_own _ _ _ _ Hinv' Hva), (walk_l2_own _ _ _ _ Hinv Hva). unfold own'.
  set (i := (va / 2 ^ 21) mod 512). destruct (Z.eqb_spec i idx) as [Ei | Hne].
  - rewrite Ei, Hown. unfold in_ram in Hva.
    rewrite (walk_l3_page _ _ _ (ram_base + idx * kL2BlockSize + ((va / 2 ^ 12) mod 512) * kPageSize)
      kAttrIdxNormal 3 false).
    + do 2 f_equal. unfold kL2BlockSize, kPageSize. subst idx i. zlia.
    + unfold split_tables. rewrite pt_get_set_tbl by congruence.
      rewrite pt_get_fill_in by zlia. done.
    + unfold kL2BlockSize, kPageSize. split; zlia.
    + unfold kAttrIdxNormal. split; lia.
  - destruct (own i) as [T|] eqn:HT; [| done]. apply walk_l3_ext. intros k.
    specialize (He i ltac:(subst i; zlia)). rewrite HT in He. destruct He as [_ He].
    apply split_other; [intros -> | apply (l3_used_ok next T); [lia | done]].
    by apply (Hfresh i); [| subst i; zlia].
Qed.

(** [ensure_l3] either finds no spare table, changing nothing, or returns the
    table that refines block [l2_index]; no translation changes. *)
Lemma ensure_l3_spec s own idx :
  upper_inv L ram_base (pt s) -> region_inv L ram_base (pt s) (g_l3_extra_next s) own ->
  0 <= idx < 512 ->
  let '(p, s') := ensure_l3 L ram_base idx s in
  (p = nullptr /\ s' = s /\ own idx = None /\ g_l3_extra_next s = 8) \/
  (p <> nullptr /\ upper_inv L ram_base (pt s') /\ sctlr s' = sctlr s /\ ops s' = ops s /\
   (exists own', own' idx = Some p /\ region_inv L ram_base (pt s') (g_l3_extra_next s') own') /\
   forall va, 0 <= va < 2 ^ 48 -> walk (pt s') (g_l0 L) va = walk (pt s) (g_l0 L) va).
Proof.
  intros Hup Hinv Hidx. unfold ensure_l3. destruct (Z.leb_spec 512 idx); [lia |].
  pose proof Hinv as [Hnext He _]. specialize (He idx Hidx).
  destruct (own idx) as [T|] eqn:Hown.
  - destruct He as [-> HT]. destruct (l3_used_ok (g_l3_extra_next s) T ltac:(lia) HT) as [[HTp HT0] _].
    destruct (table_type T HTp) as [-> ->]. simpl Z.eqb. cbv iota. right.
    split; [unfold nullptr; lia | do 3 (split; [done |])]. split; [by exists own | done].
  - assert (Hphys : phys_ok (ram_base + idx * 2 ^ 21)) by (split; zlia).
    destruct (block_fields _ kAttrIdxNormal 3 false Hphys) as (Hty & Hat & Hsh & Hxn);
      [unfold kAttrIdxNormal; split; lia |].
    simpl xn_bits in Hty, Hat, Hsh, Hxn. rewrite Z.lor_0_r in Hty, Hat, Hsh, Hxn.
    rewrite He, Hty, Hat, Hsh, Hxn. simpl Z.eqb. cbv iota. simpl negb. cbv iota.
    destruct (Z.leb_spec 8 (g_l3_extra_next s)); [left; repeat split; lia |].
    set (l3 := extra_tbl L (g_l3_extra_next s)).
    destruct (split_inv _ _ _ idx Hinv Hidx ltac:(lia) Hown) as [Hinv' Hwalk].
    fold l3 in Hinv', Hwalk. cbn [xn_bits] in *.
    change (pt_set (g_l2 L) idx (pte_table l3) _) with (split_tables (pt s) l3 idx).
    destruct (l3_used_ok (g_l3_extra_next s + 1) l3) as ([_ Hl3] & Hn0 & Hn1 & Hn2);
      [lia | right; right; exists (g_l3_extra_next s); split; [lia | done] |].
    destruct lo_distinct as ((D01 & D02 & D12) & _).
    assert (Heq0 : forall i, pt_get (split_tables (pt s) l3 idx) (g_l0 L) i = pt_get (pt s) (g_l0 L) i)
      by (intros i; apply split_other; congruence).
    assert (Heq1 : forall i, pt_get (split_tables (pt s) l3 idx) (g_l1 L) i = pt_get (pt s) (g_l1 L) i)
      by (intros i; apply split_other; congruence).
    assert (Hup' := upper_inv_ext _ _ Heq0 Heq1 Hup).
    right. split; [unfold nullptr; lia |]. split; [done | split; [done | split; [done |]]].
    split; [eexists; split; [| exact Hinv']; simpl; by rewrite Z.eqb_refl |].
    intros va Hva. simpl. destruct (decide (in_ram va)) as [Hin | Hnin].
    + by rewrite !walk_ram, Hwalk.
    + by apply walk_elsewhere.
Qed.

(** Invalidating one descriptor of a used table unmaps exactly its page. *)
Lemma unmap_inv t next own idx T j :
  region_inv L ram_base t next own -> 0 <= idx < 512 -> 0 <= j < 512 -> own idx = Some T ->
  region_inv L ram_base (pt_set T j 0 t) next own /\
  forall va, in_ram va ->
    walk_l2 (pt_set T j 0 t) (g_l2 L) va =
      if va / 2 ^ 12 =? ram_base / 2 ^ 12 + idx * 512 + j then None else walk_l2 t (g_l2 L) va.
Proof.
  intros Hinv Hidx Hj Hown. pose proof Hinv as [Hnext He Hinj].
  pose proof (He idx Hidx) as HT. rewrite Hown in HT. destruct HT as [_ HT].
  destruct (l3_used_ok _ _ (proj2 Hnext) HT) as (_ & Hn0 & Hn1 & Hn2).
  assert (Hinv' : region_inv L ram_base (pt_set T j 0 t) next own).
  { split; [done | | done]. intros i Hi. rewrite pt_get_set_tbl by done. by apply He. }
  split; [done |]. intros va Hva.
  rewrite (walk_l2_own _ _ _ _ Hinv' Hva), (walk_l2_own _ _ _ _ Hinv Hva). unfold in_ram in Hva.
  set (i := (va / 2 ^ 21) mod 512). destruct (Z.eqb_spec (va / 2 ^ 12) (ram_base / 2 ^ 12 + idx * 512 + j)) as [E | E].
  - assert (i = idx) as -> by (subst i; zlia). rewrite Hown. unfold walk_l3.
    replace ((va / 2 ^ 12) mod 512) with j by zlia. by rewrite pt_get_set_eq.
  - destruct (own i) as [T'|] eqn:HT'; [| done]. destruct (Z.eq_dec T' T) as [-> | HneT].
    + assert (i = idx) as Hi by (apply (Hinj i idx T); subst i; [zlia | done ..]).
      unfold walk_l3. rewrite pt_get_set_idx; [done |]. subst i. zlia.
    + apply walk_l3_ext. intros k. by apply pt_get_set_tbl.
Qed.

(** The guard-page operation on a RAM address. *)
Lemma guard_region_spec s own a :
  upper_inv L ram_base (pt s) -> region_inv L ram_base (pt s) (g_l3_extra_next s) own -> in_ram a ->
  let '(r, s') := guard_region L ram_base a s in
  (r = -1 /\ s' = s /\ own ((a - ram_base) / 2 ^ 21) = None /\ g_l3_extra_next s = 8) \/
  (r = 0 /\ upper_inv L ram_base (pt s') /\ sctlr s' = sctlr s /\
   ops s' = ops s ++ [DSB_ISH; TLBI_VMALLE1; DSB_ISH; ISB] /\
   (exists own', region_inv L ram_base (pt s') (g_l3_extra_next s') own') /\
   forall va, 0 <= va < 2 ^ 48 ->
     walk (pt s') (g_l0 L) va = if va / 2 ^ 12 =? a / 2 ^ 12 then None else walk (pt s) (g_l0 L) va).
Proof.
  intros Hup Hinv Ha. pose proof Ha as Ha'. unfold in_ram in Ha'.
  unfold guard_region, kL2BlockSize, kPageSize. set (idx := (a - ram_base) / 2 ^ 21).
  assert (Hidx : 0 <= idx < 512) by (subst idx; zlia).
  pose proof (ensure_l3_spec s own idx Hup Hinv Hidx) as Hens.
  destruct (ensure_l3 L ram_base idx s) as [l3 s1].
  destruct Hens as [(-> & -> & Hown & Hn) | (Hl3 & Hup1 & Hsc & Hops & (own' & Hown & Hinv') & Hwalk)].
  { left. done. }
  destruct (Z.eqb_spec l3 nullptr); [done |]. right. simpl.
  set (j := ((a - ram_base) mod 2 ^ 21) / 2 ^ 12). assert (Hj : 0 <= j < 512) by (subst j; zlia).
  destruct (unmap_inv _ _ _ _ _ j Hinv' Hidx Hj Hown) as [Hinv2 Hwalk2].
  assert (HT : l3_used L (g_l3_extra_next s1) l3).
  { pose proof (rg_entry _ _ _ _ _ Hinv' idx Hidx) as H. rewrite Hown in H. by apply H. }
  destruct (l3_used_ok _ _ (proj2 (rg_next _ _ _ _ _ Hinv')) HT) as (_ & Hne0 & Hne1 & _).
  assert (Hup2 : upper_inv L ram_base (pt_set l3 j 0 (pt s1))).
  { apply (upper_inv_ext (pt s1)); [| | done]; intros i; by apply pt_get_set_tbl. }
  split; [done | split; [done | split; [done | split; [by rewrite Hops | split; [by exists own' |]]]]].
  intros va Hva. rewrite <- Hwalk by done. destruct (decide (in_ram va)) as [Hin | Hnin].
  - rewrite !walk_ram, Hwalk2 by done.
    replace (ram_base / 2 ^ 12 + idx * 512 + j) with (a / 2 ^ 12) by (subst idx j; zlia). done.
  - rewrite (walk_elsewhere (pt s1)); [| done | intros i; by apply pt_get_set_tbl ..| done | done].
    unfold in_ram in Hnin. destruct (Z.eqb_spec (va / 2 ^ 12) (a / 2 ^ 12)); [zlia | done].
Qed.

(** ** Building the map *)

(** What a RAM page maps to: the DMA window is never executable and, under the
    non-cacheable policy, Normal Non-cacheable. *)
Definition ram_leaf (nc : bool) (va : Z) : leaf :=
  let page := va / 2 ^ 12 * 2 ^ 12 in
  let inside := (dma_nc_start L <=? page) && (page <? dma_nc_end L) in
  Leaf va (if inside && nc then kAttrIdxNormalNc else kAttrIdxNormal) 3 inside inside.

Lemma map_dma_block_inv nc t next own idx l3 :
  region_inv L ram_base t next own -> 0 <= idx < 512 ->
  l3 = g_l3_dma0 L \/ l3 = g_l3_dma1 L -> (forall j, own j <> Some l3) ->
  let t' := map_dma_block L nc ram_base l3 (ram_base + idx * 2 ^ 21) t in
  let own' := fun j => if j =? idx then Some l3 else own j in
  region_inv L ram_base t' next own' /\
  (forall tbl i, tbl <> l3 -> tbl <> g_l2 L -> pt_get t' tbl i = pt_get t tbl i) /\
  forall va, in_ram va ->
    walk_l2 t' (g_l2 L) va =
      if (va / 2 ^ 21) mod 512 =? idx then Some (ram_leaf nc va) else walk_l2 t (g_l2 L) va.
Proof.
  intros Hinv Hidx Hl3 Hfresh t' own'. pose proof Hinv as [Hnext He Hinj].
  assert (Hu : l3_used L next l3) by (destruct Hl3 as [-> | ->]; [by left | by right; left]).
  destruct (l3_used_ok _ _ (proj2 Hnext) Hu) as ([Hphys _] & Hn0 & Hn1 & Hn2).
  assert (Hi : (ram_base + idx * 2 ^ 21 - ram_base) / kL2BlockSize = idx) by (unfold kL2BlockSize; zlia).
  assert (Hinv' : region_inv L ram_base t' next own').
  { split; [done | |].
    - intros j Hj. unfold own', t', map_dma_block. rewrite Hi. destruct (Z.eqb_spec j idx) as [-> | Hne].
      + split; [apply pt_get_set_eq | done].
      + rewrite pt_get_set_idx, pt_get_fill_tbl by congruence. by apply He.
    - intros i j T Hir Hjr. unfold own'.
      destruct (Z.eqb_spec i idx), (Z.eqb_spec j idx); intros E1 E2;
        [congruence | injection E1 as <-; by destruct (Hfresh j)
        | injection E2 as <-; by destruct (Hfresh i) | by apply (Hinj i j T)]. }
  assert (Hother : forall tbl i, tbl <> l3 -> tbl <> g_l2 L -> pt_get t' tbl i = pt_get t tbl i).
  { intros tbl i H1 H2. unfold t', map_dma_block. rewrite pt_get_set_tbl, pt_get_fill_tbl by congruence. done. }
  split; [done | split; [done |]]. intros va Hva.
  rewrite (walk_l2_own _ _ _ _ Hinv' Hva), (walk_l2_own _ _ _ _ Hinv Hva). unfold own'.
  set (i := (va / 2 ^ 21) mod 512). unfold in_ram in Hva. destruct (Z.eqb_spec i idx) as [Ei | Hne].
  - unfold ram_leaf. set (page := va / 2 ^ 12 * 2 ^ 12).
    set (inside := (dma_nc_start L <=? page) && (page <? dma_nc_end L)).
    rewrite (walk_l3_page _ _ _ page (if inside && nc then kAttrIdxNormalNc else kAttrIdxNormal) 3 inside).
    + do 2 f_equal. subst page. zlia.
    + unfold t', map_dma_block. rewrite pt_get_set_tbl, pt_get_fill_in by (congruence || zlia).
      unfold kPageSize. replace (_ + _ * 2 ^ 12) with page by (subst page idx i; zlia).
      fold inside. by destruct inside, nc.
    + subst page. split; zlia.
    + destruct (inside && nc); unfold kAttrIdxNormal, kAttrIdxNormalNc; split; lia.
  - destruct (own i) as [T|] eqn:HT; [| done]. apply walk_l3_ext. intros k.
    specialize (He i ltac:(subst i; zlia)). rewrite HT in He. destruct He as [_ He].
    apply Hother; [intros -> | apply (l3_used_ok next T); [lia | done]].
    by apply (Hfresh i).
Qed.

(** The DMA window lies in the RAM gigabyte and touches at most two blocks. *)
Definition window_ok : Prop :=
  ram_base <= dma_nc_start L < dma_nc_end L /\ dma_nc_end L <= ram_base + 2 ^ 30 /\
  (dma_nc_end L - 1) / 2 ^ 21 <= dma_nc_start L / 2 ^ 21 + 1.

Lemma ram_leaf_outside nc va :
  window_ok -> va / 2 ^ 21 <> dma_nc_start L / 2 ^ 21 -> va / 2 ^ 21 <> (dma_nc_end L - 1) / 2 ^ 21 ->
  ram_leaf nc va = Leaf va kAttrIdxNormal 3 false false.
Proof.
  intros (Hw1 & Hw2 & Hw3) H1 H2. unfold ram_leaf.
  replace ((dma_nc_start L <=? _) && _) with false; [done |]. symmetry.
  apply andb_false_iff. rewrite Z.leb_gt, Z.ltb_ge.
  destruct (Z.lt_ge_cases (va / 2 ^ 21) (dma_nc_start L / 2 ^ 21)); [left; zlia | right; zlia].
Qed.

Lemma block_base_floor x : ram_base <= x < ram_base + 2 ^ 30 ->
  Z.land x (~64 (kL2BlockSize - 1)) = ram_base + ((x - ram_base) / 2 ^ 21) * 2 ^ 21 /\
  0 <= (x - ram_base) / 2 ^ 21 < 512.
Proof.
  intros Hx. unfold kL2BlockSize. rewrite land_lnot_ones by lia. split; [zlia | split; zlia].
Qed.

Lemma block_index_ne va x :
  in_ram va -> ram_base <= x < ram_base + 2 ^ 30 ->
  (va / 2 ^ 21) mod 512 <> (x - ram_base) / 2 ^ 21 -> va / 2 ^ 21 <> x / 2 ^ 21.
Proof. unfold in_ram. intros Hva Hx H E. apply H. zlia. Qed.

Lemma map_dma_window_spec nc t :
  window_ok -> upper_inv L ram_base t -> region_inv L ram_base t 0 (fun _ => None) ->
  let t' := map_dma_window L nc ram_base t in
  upper_inv L ram_base t' /\ (exists own, region_inv L ram_base t' 0 own) /\
  (forall i, pt_get t' (g_l1 L) i = pt_get t (g_l1 L) i) /\
  forall va, in_ram va -> walk_l2 t' (g_l2 L) va = Some (ram_leaf nc va).
Proof.
  intros Hw Hup Hinv t'. pose proof Hw as (Hw1 & Hw2 & Hw3).
  destruct (block_base_floor (dma_nc_start L)) as [Hf Hfi]; [lia |].
  destruct (block_base_floor (dma_nc_end L - 1)) as [Hl Hli]; [lia |].
  set (a := (dma_nc_start L - ram_base) / 2 ^ 21) in *.
  set (b := (dma_nc_end L - 1 - ram_base) / 2 ^ 21) in *.
  destruct lo_distinct as ((D01 & D02 & D12) & (D0a & D1a & D2a) & (D0b & D1b & D2b) & Dab).
  destruct (map_dma_block_inv nc t 0 _ a (g_l3_dma0 L) Hinv Hfi (or_introl eq_refl) (fun _ => ltac:(done)))
    as (Hinv1 & Ho1 & Hwalk1).
  set (t1 := map_dma_block L nc ram_base (g_l3_dma0 L) (ram_base + a * 2 ^ 21) t) in *.
  unfold t', map_dma_window. rewrite Hf, Hl. fold t1.
  destruct (Z.eqb_spec (ram_base + a * 2 ^ 21) (ram_base + b * 2 ^ 21)) as [E | E].
  - split; [apply (upper_inv_ext t); [intros; apply Ho1; congruence .. | done] |].
    split; [by eexists | split; [intros; apply Ho1; congruence |]]. intros va Hva.
    rewrite Hwalk1 by done. destruct (Z.eqb_spec ((va / 2 ^ 21) mod 512) a) as [Ea | Ea]; [done |].
    rewrite (walk_l2_own _ _ _ _ Hinv Hva), ram_leaf_outside; [done | done | |];
      (apply block_index_ne; [done | lia | fold a b; lia]).
  - destruct (map_dma_block_inv nc t1 0 _ b (g_l3_dma1 L) Hinv1 Hli (or_intror eq_refl)) as (Hinv2 & Ho2 & Hwalk2).
    { intros j. destruct (j =? a); [intros [= Heq]; congruence | done]. }
    set (t2 := map_dma_block L nc ram_base (g_l3_dma1 L) (ram_base + b * 2 ^ 21) t1) in *.
    split; [apply (upper_inv_ext t); [intros; rewrite Ho2, Ho1 by done; done .. | done] |].
    split; [by eexists | split; [intros; rewrite Ho2, Ho1 by done; done |]]. intros va Hva.
    rewrite Hwalk2, Hwalk1 by done.
    destruct (Z.eqb_spec ((va / 2 ^ 21) mod 512) b) as [Eb | Eb]; [done |].
    destruct (Z.eqb_spec ((va / 2 ^ 21) mod 512) a) as [Ea | Ea]; [done |].
    rewrite (walk_l2_own _ _ _ _ Hinv Hva), ram_leaf_outside; [done | done | |];
      (apply block_index_ne; [done | lia | fold a b; lia]).
Qed.

(** Clearing leaves zeros in the root and first-level tables. *)
Lemma clear_tables_upper t tbl i :
  tbl = g_l0 L \/ tbl = g_l1 L -> 0 <= i < 512 -> pt_get (clear_tables L t) tbl i = 0.
Proof using HL.
  clear Hbase ram_base.
  intros Htbl Hi. unfold clear_tables.
  apply (for_range_ind (fun _ t' => pt_get t' tbl i = 0)); [lia | |].
  - apply (for_range_ind (fun n t' => i < n -> pt_get t' tbl i = 0)); [lia | lia | | lia].
    intros j t' Hj IH Hij. rewrite !pt_get_set.
    repeat match goal with |- (if ?c then 0 else _) = 0 => destruct c eqn:?; [done |] end.
    apply IH. destruct (Z.eq_dec i j) as [-> |]; [exfalso | lia].
    rewrite !Z.eqb_refl, !andb_true_r in *. repeat match goal with H : (_ =? _) = false |- _ => apply Z.eqb_neq in H end.
    naive_solver.
  - intros k t' Hk IH. rewrite pt_get_fill_tbl; [done |].
    pose proof (lo_extra_fresh L HL k Hk) as Hfresh. intros <-. set_solver.
Qed.

(** Filling the second level with identity blocks. *)
Lemma fill_l2_inv t :
  region_inv L ram_base
    (pt_fill (g_l2 L) (fun i => pte_block (ram_base + i * kL2BlockSize) kAttrIdxNormal 3) t) 0 (fun _ => None).
Proof.
  split; [lia | | done]. intros i Hi. by rewrite pt_get_fill_in by done.
Qed.

End Region.

(** ** The enable sequence *)

Lemma land_1 x : Z.land x 1 = x mod 2.
Proof. apply (Z.land_ones x 1). lia. Qed.

Lemma lor_odd x y : x mod 2 = 1 -> Z.lor x y mod 2 = 1.
Proof.
  intros Hx. rewrite <- land_1. rewrite Z.land_lor_distr_l, !land_1, Hx.
  destruct (Z.mod_pos_bound y 2 ltac:(lia)) as [H0 H2].
  assert (y mod 2 = 0 \/ y mod 2 = 1) as [-> | ->] by lia; reflexivity.
Qed.

(** The sequence around a table construction that issues one barrier and does
    not touch SCTLR. *)
Lemma mmu_enable_spec L build s :
  ops (build s) = ops s ++ [DSB_ISH] -> sctlr (build s) = sctlr s ->
  let s' := mmu_enable L build true s in
  mmu_enabled s' = 1 /\ (mmu_enabled s = 1 -> s' = s) /\
  (mmu_enabled s = 0 ->
     sctlr s' = Z.lor (Z.lor (Z.lor (sctlr s) 1) 4) 4096 /\
     ops s' = ops s ++ [DSB_ISH] ++
       [MSR_MAIR 0x4404FF; MSR_TCR (tcr_value (id_aa64mmfr0 L)); MSR_TTBR0 (g_l0 L); ISB] ++
       [DSB_ISH; TLBI_VMALLE1; DSB_ISH; ISB] ++ [IC_IALLU; DSB_ISH; ISB] ++
       [MSR_SCTLR (Z.lor (Z.lor (Z.lor (sctlr s) 1) 4) 4096); ISB] /\
     pt s' = pt (build s) /\ g_l3_extra_next s' = g_l3_extra_next (build s)).
Proof.
  intros Hops Hsc s'. unfold s', mmu_enable, mmu_enabled. simpl negb at 1. cbv iota zeta.
  assert (Z.land (sctlr s) 1 = 0 \/ Z.land (sctlr s) 1 = 1) as [H | H] by (rewrite land_1; zlia).
  - rewrite H. simpl negb. cbv iota. cbn [emit sctlr ops pt g_l3_extra_next fold_left]. rewrite Hops.
    split; [| split; [done | intros _]].
    + rewrite land_1, lor_odd; [done |]. apply lor_odd. rewrite Z.lor_comm. by apply lor_odd.
    + split; [done | split; [by rewrite <- !app_assoc | done]].
  - rewrite H. simpl negb. cbv iota. rewrite H. done.
Qed.

Lemma align_down_page a : 0 <= a < 2 ^ 64 -> align_down a kPageSize = a / 2 ^ 12 * 2 ^ 12.
Proof.
  intros Ha. unfold align_down, kPageSize. rewrite (wrap64_small (2 ^ 12 - 1)) by lia.
  apply land_lnot_ones; lia.
Qed.
