(* ===== verification/Mmu.v ===== *)
(** * [src/src/arch/aarch64/mmu.cc]: the MMU back end of QEMU virt

    Construction of the translation tables, the enable sequence and the guard
    pages.  [nc] is the build's DMA window policy: [true] for
    [DMA_WINDOW_POLICY_NONCACHEABLE]. *)

From S2P Require Import Prelude Pte.

Definition kRamBase : Z := 0x40000000.

Definition kRamLimit : Z := 0x80000000.

Definition build_identity_map (L : mmu_layout) (nc : bool) (s : mmu_st) : mmu_st :=
  let t := clear_tables L (pt s) in
  let t := pt_set (g_l0 L) 0 (pte_table (g_l1 L)) t in
  let t := pt_set (g_l1 L) 0
    (Z.lor (Z.lor (pte_block 0x00000000 kAttrIdxDevice 0) kPtePxN) kPteUxN) t in
  let t := pt_set (g_l1 L) 1 (pte_table (g_l2 L)) t in
  let t := pt_set (g_l1 L) 2
    (Z.lor (Z.lor (pte_block kRamBase kAttrIdxNormalNc 3) kPtePxN) kPteUxN) t in
  let t := pt_fill (g_l2 L) (fun i => pte_block (kRamBase + i * kL2BlockSize) kAttrIdxNormal 3) t in
  let t :=
    if (kRamBase <=? dma_nc_start L) && (dma_nc_start L <? dma_nc_end L) && (dma_nc_end L <=? kRamLimit)
    then map_dma_window L nc kRamBase t else t in
  emit [DSB_ISH] (Mmu t 0 (sctlr s) (ops s)).

(** [ensure_l3_for_ram_block]. *)
Definition ensure_l3_for_ram_block (L : mmu_layout) : Z -> mmu_st -> Z * mmu_st := ensure_l3 L kRamBase.

Definition mmu_init (L : mmu_layout) (nc enable : bool) : mmu_st -> mmu_st :=
  mmu_enable L (build_identity_map L nc) enable.

Definition mmu_guard_page (L : mmu_layout) (addr : Z) (s : mmu_st) : Z * mmu_st :=
  if addr =? nullptr then (-1, s)
  else if mmu_enabled s =? 0 then (-1, s)
  else
    let va := align_down addr kPageSize in
    if (va <? kRamBase) || (kRamLimit <=? va) then (-1, s)
    else guard_region L kRamBase va s.

(** The invariant of the tables once built. *)
Definition mmu_inv (L : mmu_layout) (s : mmu_st) : Prop :=
  upper_inv L kRamBase (pt s) /\
  exists own, region_inv L kRamBase (pt s) (g_l3_extra_next s) own.

(** The intended address map: MMIO, RAM, the non-cacheable alias, nothing. *)
Definition virt_map (L : mmu_layout) (nc : bool) (va : Z) : option leaf :=
  if va <? 2 ^ 30 then Some (Leaf va kAttrIdxDevice 0 true true)
  else if va <? 2 ^ 31 then Some (ram_leaf L nc va)
  else if va <? 3 * 2 ^ 30 then Some (Leaf (va - 2 ^ 30) kAttrIdxNormalNc 3 true true)
  else None.

(** A concrete layout, as the linker might place the tables, for the witnesses. *)
Definition demo_layout : mmu_layout :=
  Layout 0x40090000 0x40091000 0x40092000 0x40093000 0x40094000 0x40095000
    0x401B0000 0x401D0000 0x5.

Definition mmu_off : mmu_st := Mmu ∅ 0 0x30C50830 [].

Lemma base_ok : 0 <= kRamBase /\ kRamBase mod 2 ^ 30 = 0 /\ kRamBase + 2 ^ 30 <= 2 ^ 39.
Proof. split; [done | split; [done |]]. unfold kRamBase. lia. Qed.

Section Virt.

Context (L : mmu_layout) (HL : layout_ok L).

(** The map construction establishes the invariant and the address map. *)
Lemma upper_build t :
  let t1 := pt_set (g_l1 L) 2 (Z.lor (Z.lor (pte_block kRamBase kAttrIdxNormalNc 3) kPtePxN) kPteUxN)
    (pt_set (g_l1 L) 1 (pte_table (g_l2 L))
      (pt_set (g_l1 L) 0 (Z.lor (Z.lor (pte_block 0x00000000 kAttrIdxDevice 0) kPtePxN) kPteUxN)
        (pt_set (g_l0 L) 0 (pte_table (g_l1 L)) (clear_tables L t)))) in
  pt_get t1 (g_l0 L) 0 = pte_table (g_l1 L) /\ (forall i, 0 < i < 512 -> pt_get t1 (g_l0 L) i = 0) /\
  pt_get t1 (g_l1 L) 0 = Z.lor (pte_block 0 kAttrIdxDevice 0) (xn_bits true) /\
  pt_get t1 (g_l1 L) 1 = pte_table (g_l2 L) /\
  pt_get t1 (g_l1 L) 2 = Z.lor (pte_block kRamBase kAttrIdxNormalNc 3) (xn_bits true) /\
  (forall i, 3 <= i < 512 -> pt_get t1 (g_l1 L) i = 0).
Proof.
  destruct (lo_distinct L HL) as ((D01 & D02 & D12) & _). intros t1. unfold t1.
  rewrite <- !Z.lor_assoc. change (Z.lor kPtePxN kPteUxN) with (xn_bits true).
  split; [by rewrite !(pt_get_set_tbl _ (g_l1 L)), pt_get_set_eq by congruence |].
  split; [intros i Hi; rewrite !(pt_get_set_tbl _ (g_l1 L)), pt_get_set_idx by (congruence || lia);
    apply clear_tables_upper; [done | by left | lia] |].
  split; [by rewrite (pt_get_set_idx _ _ 2), (pt_get_set_idx _ _ 1), pt_get_set_eq by lia |].
  split; [by rewrite (pt_get_set_idx _ _ 2), pt_get_set_eq by lia |].
  split; [by rewrite pt_get_set_eq |].
  intros i Hi. rewrite !pt_get_set_idx, pt_get_set_tbl by (congruence || lia).
  apply clear_tables_upper; [done | by right | lia].
Qed.

(** An address outside RAM, from the first-level entries. *)
Lemma walk_outside t va nc :
  upper_inv L kRamBase t ->
  pt_get t (g_l1 L) 0 = Z.lor (pte_block 0 kAttrIdxDevice 0) (xn_bits true) ->
  pt_get t (g_l1 L) 2 = Z.lor (pte_block kRamBase kAttrIdxNormalNc 3) (xn_bits true) ->
  (forall i, 3 <= i < 512 -> pt_get t (g_l1 L) i = 0) ->
  0 <= va < 2 ^ 48 -> ~ in_ram kRamBase va -> walk t (g_l0 L) va = virt_map L nc va.
Proof.
  intros [Hr Hr' _ _] H0 H2 H3 Hva Hnin. unfold in_ram, kRamBase in Hnin. unfold virt_map.
  destruct (decode_table (g_l1 L) (proj1 (lo_l1 L HL))) as [Ht1 Ha1].
  unfold walk. destruct (Z.eq_dec ((va / 2 ^ 39) mod 512) 0) as [E | E].
  2: { rewrite Hr' by zlia. simpl. repeat bdestr; try zlia. done. }
  rewrite E, Hr, Ht1, Ha1. simpl Z.eqb. cbv iota. unfold walk_l1.
  destruct (decode_block 0 kAttrIdxDevice 0 true va 30) as [Hd Hd'];
    [done | done | by right | done |].
  destruct (decode_block kRamBase kAttrIdxNormalNc 3 true va 30) as [Hn Hn'];
    [done | done | by right | done |].
  destruct (Z.ltb_spec va (2 ^ 30)).
  - replace ((va / 2 ^ 30) mod 512) with 0 by zlia. rewrite H0, Hd, Hd'. simpl Z.eqb. cbv iota.
    do 2 f_equal. zlia.
  - destruct (Z.ltb_spec va (2 ^ 31)); [lia |]. destruct (Z.ltb_spec va (3 * 2 ^ 30)).
    + replace ((va / 2 ^ 30) mod 512) with 2 by zlia. rewrite H2, Hn, Hn'. simpl Z.eqb. cbv iota.
      do 2 f_equal. unfold kRamBase. zlia.
    + rewrite H3 by zlia. done.
Qed.

Lemma build_spec nc s :
  window_ok L kRamBase ->
  let s' := build_identity_map L nc s in
  mmu_inv L s' /\ ops s' = ops s ++ [DSB_ISH] /\ sctlr s' = sctlr s /\
  forall va, 0 <= va < 2 ^ 48 -> walk (pt s') (g_l0 L) va = virt_map L nc va.
Proof.
  intros Hw s'. pose proof Hw as (Hw1 & Hw2 & Hw3).
  destruct (upper_build (pt s)) as (Hr & Hr' & H0 & H1 & H2 & H3).
  unfold s', build_identity_map. set (t1 := pt_set (g_l1 L) 2 _ _) in *.
  set (t2 := pt_fill _ _ _). destruct (lo_distinct L HL) as ((D01 & D02 & D12) & _).
  assert (He0 : forall i, pt_get t2 (g_l0 L) i = pt_get t1 (g_l0 L) i)
    by (intros i; apply pt_get_fill_tbl; congruence).
  assert (He1 : forall i, pt_get t2 (g_l1 L) i = pt_get t1 (g_l1 L) i)
    by (intros i; apply pt_get_fill_tbl; congruence).
  assert (Hup : upper_inv L kRamBase t2).
  { apply (upper_inv_ext L kRamBase t1 t2 He0 He1). split; [done | done | done |].
    intros i Hi Hne. change (kRamBase / 2 ^ 30) with 1 in Hne.
    destruct (Z.eq_dec i 0) as [-> |]; [by rewrite H0 |].
    destruct (Z.eq_dec i 2) as [-> |]; [by rewrite H2 | by rewrite H3 by lia]. }
  rewrite (proj2 (Z.leb_le _ _)), (proj2 (Z.ltb_lt _ _)), (proj2 (Z.leb_le _ _))
    by (unfold kRamBase, kRamLimit in *; lia). cbn [andb].
  destruct (map_dma_window_spec L HL kRamBase base_ok nc t2 Hw Hup (fill_l2_inv L kRamBase _))
    as (Hup' & Hown & Hl1 & Hwalk).
  set (t3 := map_dma_window L nc kRamBase t2) in *.
  split; [by split | split; [done | split; [done |]]]. intros va Hva. cbn [emit pt].
  destruct (decide (in_ram kRamBase va)) as [Hin | Hnin].
  - rewrite (walk_ram L HL kRamBase base_ok), Hwalk by done. unfold in_ram, kRamBase in Hin. unfold virt_map.
    destruct (Z.ltb_spec va (2 ^ 30)); [lia |]. destruct (Z.ltb_spec va (2 ^ 31)); [done | lia].
  - apply walk_outside; [done | by rewrite Hl1, He1 | by rewrite Hl1, He1 | | done | done].
    intros i Hi. rewrite Hl1, He1. by apply H3.
Qed.

End Virt.

(** ** Witness layout *)

Lemma demo_layout_ok : layout_ok demo_layout.
Proof.
  split; try (split; [split; [simpl; lia | reflexivity] | simpl; lia]).
  - intros t Ht. unfold extra_tbl; simpl. split; [split; [lia | zlia] | lia].
  - repeat constructor; rewrite ?not_elem_of_cons; repeat split; (apply not_elem_of_nil || (simpl; lia)).
  - intros t Ht. unfold extra_tbl; simpl. rewrite !not_elem_of_cons.
    repeat split; (apply not_elem_of_nil || lia).
Qed.

Lemma demo_window_ok : window_ok demo_layout kRamBase.
Proof. unfold window_ok, kRamBase; simpl. split; [lia | split; [lia | zlia]]. Qed.

(** ** Theorems *)

(** C7: the tables built by [build_identity_map] realise the intended address
    map at every 48-bit address: MMIO is identity-mapped Device memory and never
    executable; RAM is identity-mapped Normal memory, the DMA window's pages
    never executable and non-cacheable exactly under that policy; the third
    gigabyte aliases RAM non-cacheable and never executable; the rest faults. *)
Theorem build_identity_map_correct L nc s va :
  layout_ok L -> window_ok L kRamBase -> 0 <= va < 2 ^ 48 ->
  walk (pt (build_identity_map L nc s)) (g_l0 L) va = virt_map L nc va.
Proof. intros HL Hw Hva. by apply (build_spec L HL nc s Hw). Qed.

Lemma build_identity_map_correct_witness :
  walk (pt (build_identity_map demo_layout true mmu_off)) (g_l0 demo_layout) 0x401B0123
    = virt_map demo_layout true 0x401B0123 /\
  virt_map demo_layout true 0x401B0123 = Some (Leaf 0x401B0123 kAttrIdxNormalNc 3 true true).
Proof.
  split; [| reflexivity].
  apply (build_identity_map_correct demo_layout true mmu_off 0x401B0123);
    [exact demo_layout_ok | exact demo_window_ok | lia].
Defined.

(** every RAM address and its alias [2^30] above translate to the same
    physical address, the alias non-cacheable: the device view of
    [src/src/dma.cc] reaches the memory the CPU's view caches. *)
Theorem nocache_alias_same_memory L nc s va :
  layout_ok L -> window_ok L kRamBase -> kRamBase <= va < kRamLimit ->
  exists l l', walk (pt (build_identity_map L nc s)) (g_l0 L) va = Some l /\
    walk (pt (build_identity_map L nc s)) (g_l0 L) (va + 0x40000000) = Some l' /\
    lf_pa l = va /\ lf_pa l' = va /\ lf_attr l' = kAttrIdxNormalNc /\ lf_pxn l' = true.
Proof.
  intros HL Hw Hva. unfold kRamBase, kRamLimit in Hva.
  destruct (build_spec L HL nc s Hw) as (_ & _ & _ & Hwalk).
  exists (ram_leaf L nc va), (Leaf va kAttrIdxNormalNc 3 true true).
  rewrite !Hwalk by lia. unfold virt_map. repeat bdestr; try lia.
  split; [done | split; [do 2 f_equal; lia | done]].
Qed.

Lemma nocache_alias_same_memory_witness :
  exists l l', walk (pt (build_identity_map demo_layout false mmu_off)) (g_l0 demo_layout) 0x40100010 = Some l /\
    walk (pt (build_identity_map demo_layout false mmu_off)) (g_l0 demo_layout) (0x40100010 + 0x40000000) = Some l' /\
    lf_pa l = 0x40100010 /\ lf_pa l' = 0x40100010 /\ lf_attr l' = kAttrIdxNormalNc /\ lf_pxn l' = true.
Proof.
  apply (nocache_alias_same_memory demo_layout false mmu_off 0x40100010);
    [exact demo_layout_ok | exact demo_window_ok | unfold kRamBase, kRamLimit; lia].
Defined.

(** [mmu_init] leaves a running MMU alone; otherwise it builds the map,
    programs MAIR, TCR and TTBR0 and flushes the TLB and the instruction cache,
    all before the one write of SCTLR, which adds M, C and I to the bits found
    and is followed by an ISB; afterwards translation is on. *)
Theorem mmu_init_order L nc s :
  layout_ok L -> window_ok L kRamBase ->
  let s' := mmu_init L nc true s in
  mmu_enabled s' = 1 /\
  (mmu_enabled s = 1 -> s' = s) /\
  (mmu_enabled s = 0 ->
     sctlr s' = Z.lor (Z.lor (Z.lor (sctlr s) 1) 4) 4096 /\
     ops s' = ops s ++ [DSB_ISH] ++
       [MSR_MAIR 0x4404FF; MSR_TCR (tcr_value (id_aa64mmfr0 L)); MSR_TTBR0 (g_l0 L); ISB] ++
       [DSB_ISH; TLBI_VMALLE1; DSB_ISH; ISB] ++ [IC_IALLU; DSB_ISH; ISB] ++
       [MSR_SCTLR (Z.lor (Z.lor (Z.lor (sctlr s) 1) 4) 4096); ISB] /\
     mmu_inv L s' /\ forall va, 0 <= va < 2 ^ 48 -> walk (pt s') (g_l0 L) va = virt_map L nc va).
Proof.
  intros HL Hw s'. destruct (build_spec L HL nc s Hw) as (Hinv & Hops & Hsc & Hwalk).
  destruct (mmu_enable_spec L (build_identity_map L nc) s Hops Hsc) as (H1 & H2 & H3).
  split; [done | split; [done | intros H]]. destruct (H3 H) as (Hs & Ho & Hpt & Hn).
  split; [done | split; [done |]]. unfold s', mmu_init, mmu_inv. rewrite Hpt, Hn. by split.
Qed.

Lemma mmu_init_order_witness :
  let s' := mmu_init demo_layout false true mmu_off in
  mmu_enabled s' = 1 /\
  (mmu_enabled mmu_off = 1 -> s' = mmu_off) /\
  (mmu_enabled mmu_off = 0 ->
     sctlr s' = Z.lor (Z.lor (Z.lor (sctlr mmu_off) 1) 4) 4096 /\
     ops s' = ops mmu_off ++ [DSB_ISH] ++
       [MSR_MAIR 0x4404FF; MSR_TCR (tcr_value (id_aa64mmfr0 demo_layout)); MSR_TTBR0 (g_l0 demo_layout); ISB] ++
       [DSB_ISH; TLBI_VMALLE1; DSB_ISH; ISB] ++ [IC_IALLU; DSB_ISH; ISB] ++
       [MSR_SCTLR (Z.lor (Z.lor (Z.lor (sctlr mmu_off) 1) 4) 4096); ISB] /\
     mmu_inv demo_layout s' /\
     forall va, 0 <= va < 2 ^ 48 -> walk (pt s') (g_l0 demo_layout) va = virt_map demo_layout false va).
Proof. apply (mmu_init_order demo_layout false mmu_off demo_layout_ok demo_window_ok). Defined.

Lemma mmu_guard_page_spec L s a :
  layout_ok L -> mmu_inv L s -> 0 <= a < 2 ^ 64 ->
  let '(r, s') := mmu_guard_page L a s in
  (r = -1 /\ s' = s /\
   (mmu_enabled s = 0 \/ ~ (kRamBase <= a < kRamLimit) \/ g_l3_extra_next s = 8)) \/
  (r = 0 /\ mmu_enabled s = 1 /\ kRamBase <= a < kRamLimit /\ mmu_inv L s' /\ sctlr s' = sctlr s /\
   ops s' = ops s ++ [DSB_ISH; TLBI_VMALLE1; DSB_ISH; ISB] /\
   forall va, 0 <= va < 2 ^ 48 ->
     walk (pt s') (g_l0 L) va = if va / 2 ^ 12 =? a / 2 ^ 12 then None else walk (pt s) (g_l0 L) va).
Proof.
  intros HL [Hup [own Hinv]] Ha. unfold mmu_guard_page.
  destruct (Z.eqb_spec a nullptr) as [-> |].
  { left. split; [done | split; [done | right; left]]. unfold nullptr, kRamBase. lia. }
  destruct (Z.eqb_spec (mmu_enabled s) 0); [left; auto |].
  assert (Hen : mmu_enabled s = 1) by (unfold mmu_enabled in *; by destruct (negb _)).
  rewrite align_down_page by done. destruct (Z.ltb_spec (a / 2 ^ 12 * 2 ^ 12) kRamBase) as [Hlo | Hlo].
  { left. split; [done | split; [done | right; left; unfold kRamBase in *; zlia]]. }
  destruct (Z.leb_spec kRamLimit (a / 2 ^ 12 * 2 ^ 12)) as [Hhi | Hhi].
  { left. split; [done | split; [done | right; left; unfold kRamLimit in *; zlia]]. }
  simpl orb. cbv iota.
  assert (Hin : in_ram kRamBase (a / 2 ^ 12 * 2 ^ 12)) by (unfold in_ram, kRamBase, kRamLimit in *; lia).
  pose proof (guard_region_spec L HL kRamBase base_ok s own _ Hup Hinv Hin) as H.
  destruct (guard_region L kRamBase _ s) as [r s'].
  destruct H as [(-> & -> & _ & Hn) | (-> & Hup' & Hsc & Hops & Hown & Hwalk)]; [left; auto |].
  right. split; [done | split; [done | split; [unfold kRamBase, kRamLimit in *; zlia |]]].
  split; [by split | split; [done | split; [done |]]]. intros va Hva. rewrite Hwalk by done.
  replace (a / 2 ^ 12 * 2 ^ 12 / 2 ^ 12) with (a / 2 ^ 12) by zlia. done.
Qed.

(** C33: [mmu_guard_page] either fails, changing nothing (null or non-RAM
    address, translation off, or no spare table), or unmaps exactly the 4 KiB
    page of its argument, leaves every other translation as it was, keeps the
    table invariant and ends with a TLB flush between barriers. *)
Theorem mmu_guard_page_exact L s a :
  layout_ok L -> mmu_inv L s -> 0 <= a < 2 ^ 64 ->
  let '(r, s') := mmu_guard_page L a s in
  (r = -1 /\ s' = s /\
   (mmu_enabled s = 0 \/ ~ (kRamBase <= a < kRamLimit) \/ g_l3_extra_next s = 8)) \/
  (r = 0 /\ mmu_enabled s = 1 /\ kRamBase <= a < kRamLimit /\ mmu_inv L s' /\ sctlr s' = sctlr s /\
   ops s' = ops s ++ [DSB_ISH; TLBI_VMALLE1; DSB_ISH; ISB] /\
   forall va, 0 <= va < 2 ^ 48 ->
     walk (pt s') (g_l0 L) va = if va / 2 ^ 12 =? a / 2 ^ 12 then None else walk (pt s) (g_l0 L) va).
Proof. apply mmu_guard_page_spec. Qed.

Lemma demo_inv : mmu_inv demo_layout (mmu_init demo_layout false true mmu_off).
Proof.
  destruct (build_spec demo_layout demo_layout_ok false mmu_off demo_window_ok) as (Hinv & _). exact Hinv.
Qed.

Lemma mmu_guard_page_exact_witness :
  let s := mmu_init demo_layout false true mmu_off in
  (mmu_guard_page demo_layout 0x40100800 s).1 = 0 /\
  let '(r, s') := mmu_guard_page demo_layout 0x40100800 s in
  (r = -1 /\ s' = s /\
   (mmu_enabled s = 0 \/ ~ (kRamBase <= 0x40100800 < kRamLimit) \/ g_l3_extra_next s = 8)) \/
  (r = 0 /\ mmu_enabled s = 1 /\ kRamBase <= 0x40100800 < kRamLimit /\ mmu_inv demo_layout s' /\
   sctlr s' = sctlr s /\
   ops s' = ops s ++ [DSB_ISH; TLBI_VMALLE1; DSB_ISH; ISB] /\
   forall va, 0 <= va < 2 ^ 48 ->
     walk (pt s') (g_l0 demo_layout) va =
       if va / 2 ^ 12 =? 0x40100800 / 2 ^ 12 then None else walk (pt s) (g_l0 demo_layout) va).
Proof.
  intros s. split; [vm_compute; reflexivity |].
  apply (mmu_guard_page_exact demo_layout s 0x40100800); [exact demo_layout_ok | exact demo_inv | lia].
Defined.
