(* ===== verification/MmuRpi4.v ===== *)
(** * [src/src/arch/aarch64/mmu_rpi4.cc]: the MMU back end of the Raspberry Pi 4

    RAM starts at 0, the non-cacheable alias sits in the second gigabyte and
    the peripherals in the fourth; the rest of the machinery is that of [Pte]. *)

From S2P Require Import Prelude Pte.

Definition kL1BlockSize : Z := 2 ^ 30.

Definition kPeriphL1Base : Z := 0xC0000000.

Definition build_map (L : mmu_layout) (nc : bool) (s : mmu_st) : mmu_st :=
  let t := clear_tables L (pt s) in
  let t := pt_set (g_l0 L) 0 (pte_table (g_l1 L)) t in
  let t := pt_set (g_l1 L) 0 (pte_table (g_l2 L)) t in
  let t := pt_set (g_l1 L) 1
    (Z.lor (Z.lor (pte_block 0x00000000 kAttrIdxNormalNc 3) kPtePxN) kPteUxN) t in
  let t := pt_set (g_l1 L) 3
    (Z.lor (Z.lor (pte_block kPeriphL1Base kAttrIdxDevice 0) kPtePxN) kPteUxN) t in
  let t := pt_fill (g_l2 L) (fun i => pte_block (0 + i * kL2BlockSize) kAttrIdxNormal 3) t in
  let t :=
    if dma_nc_start L <? dma_nc_end L then
      let dma_last := dma_nc_end L - 1 in
      if (dma_nc_start L / kL1BlockSize =? 0) && (dma_last / kL1BlockSize =? 0)
      then map_dma_window L nc 0 t else t
    else t in
  emit [DSB_ISH] (Mmu t 0 (sctlr s) (ops s)).

(** [ensure_l3_for_lowram_block]. *)
Definition ensure_l3_for_lowram_block (L : mmu_layout) : Z -> mmu_st -> Z * mmu_st := ensure_l3 L 0.

Definition mmu_init (L : mmu_layout) (nc enable : bool) : mmu_st -> mmu_st :=
  mmu_enable L (build_map L nc) enable.

Definition mmu_guard_page (L : mmu_layout) (addr : Z) (s : mmu_st) : Z * mmu_st :=
  if addr =? nullptr then (-1, s)
  else if mmu_enabled s =? 0 then (-1, s)
  else
    let va := align_down addr kPageSize in
    if kL1BlockSize <=? va then (-1, s) else guard_region L 0 va s.

Definition mmu_inv (L : mmu_layout) (s : mmu_st) : Prop :=
  upper_inv L 0 (pt s) /\ exists own, region_inv L 0 (pt s) (g_l3_extra_next s) own.

(** The intended address map of the board. *)
Definition rpi4_map (L : mmu_layout) (nc : bool) (va : Z) : option leaf :=
  if va <? 2 ^ 30 then Some (ram_leaf L nc va)
  else if va <? 2 ^ 31 then Some (Leaf (va - 2 ^ 30) kAttrIdxNormalNc 3 true true)
  else if va <? 3 * 2 ^ 30 then None
  else if va <? 2 ^ 32 then Some (Leaf va kAttrIdxDevice 0 true true)
  else None.

Definition demo_layout : mmu_layout :=
  Layout 0x90000 0x91000 0x92000 0x93000 0x94000 0x95000 0x1B0000 0x1D0000 0x4.

Lemma pi4_base_ok : 0 <= 0 /\ 0 mod 2 ^ 30 = 0 /\ 0 + 2 ^ 30 <= 2 ^ 39.
Proof. done. Qed.

Section Rpi4.

Context (L : mmu_layout) (HL : layout_ok L).

Record upper_built (t : ptmem) : Prop := {
  ub_root : pt_get t (g_l0 L) 0 = pte_table (g_l1 L);
  ub_rest : forall i, 0 < i < 512 -> pt_get t (g_l0 L) i = 0;
  ub_ram : pt_get t (g_l1 L) 0 = pte_table (g_l2 L);
  ub_alias : pt_get t (g_l1 L) 1 = Z.lor (pte_block 0 kAttrIdxNormalNc 3) (xn_bits true);
  ub_dev : pt_get t (g_l1 L) 3 = Z.lor (pte_block kPeriphL1Base kAttrIdxDevice 0) (xn_bits true);
  ub_zero : forall i, 2 <= i < 512 -> i <> 3 -> pt_get t (g_l1 L) i = 0
}.

Lemma pi4_upper_build t :
  upper_built (pt_set (g_l1 L) 3 (Z.lor (Z.lor (pte_block kPeriphL1Base kAttrIdxDevice 0) kPtePxN) kPteUxN)
    (pt_set (g_l1 L) 1 (Z.lor (Z.lor (pte_block 0x00000000 kAttrIdxNormalNc 3) kPtePxN) kPteUxN)
      (pt_set (g_l1 L) 0 (pte_table (g_l2 L))
        (pt_set (g_l0 L) 0 (pte_table (g_l1 L)) (clear_tables L t))))).
Proof.
  destruct (lo_distinct L HL) as ((D01 & D02 & D12) & _).
  rewrite <- !Z.lor_assoc. change (Z.lor kPtePxN kPteUxN) with (xn_bits true). split.
  - by rewrite !(pt_get_set_tbl _ (g_l1 L)), pt_get_set_eq by congruence.
  - intros i Hi. rewrite !(pt_get_set_tbl _ (g_l1 L)), pt_get_set_idx by (congruence || lia).
    apply clear_tables_upper; [done | by left | lia].
  - by rewrite (pt_get_set_idx _ _ 3), (pt_get_set_idx _ _ 1), pt_get_set_eq by lia.
  - by rewrite (pt_get_set_idx _ _ 3), pt_get_set_eq by lia.
  - by rewrite pt_get_set_eq.
  - intros i Hi Hne. rewrite !pt_get_set_idx, pt_get_set_tbl by (congruence || lia).
    apply clear_tables_upper; [done | by right | lia].
Qed.

Lemma upper_built_ext t t' :
  (forall i, pt_get t' (g_l0 L) i = pt_get t (g_l0 L) i) ->
  (forall i, pt_get t' (g_l1 L) i = pt_get t (g_l1 L) i) -> upper_built t -> upper_built t'.
Proof. intros E0 E1 []. split; intros; rewrite ?E0, ?E1; auto. Qed.

Lemma upper_built_inv t : upper_built t -> upper_inv L 0 t.
Proof.
  intros []. split; [done | done | done |]. intros i Hi Hne. change (0 / 2 ^ 30) with 0 in Hne.
  destruct (Z.eq_dec i 1) as [-> |]; [by rewrite ub_alias0 |].
  destruct (Z.eq_dec i 3) as [-> |]; [by rewrite ub_dev0 | by rewrite ub_zero0 by lia].
Qed.

(** An address outside RAM, from the first-level entries. *)
Lemma pi4_walk_outside t va nc :
  upper_built t -> 0 <= va < 2 ^ 48 -> ~ in_ram 0 va -> walk t (g_l0 L) va = rpi4_map L nc va.
Proof.
  intros [Hr Hr' _ H1 H3 H0] Hva Hnin. unfold in_ram in Hnin. unfold rpi4_map.
  destruct (decode_table (g_l1 L) (proj1 (lo_l1 L HL))) as [Ht1 Ha1].
  unfold walk. destruct (Z.eq_dec ((va / 2 ^ 39) mod 512) 0) as [E | E].
  2: { rewrite Hr' by zlia. simpl. repeat bdestr; try zlia. done. }
  rewrite E, Hr, Ht1, Ha1. simpl Z.eqb. cbv iota. unfold walk_l1.
  destruct (decode_block kPeriphL1Base kAttrIdxDevice 0 true va 30) as [Hd Hd'];
    [done | done | by right | done |].
  destruct (decode_block 0 kAttrIdxNormalNc 3 true va 30) as [Hn Hn'];
    [done | done | by right | done |].
  destruct (Z.ltb_spec va (2 ^ 30)); [lia |]. destruct (Z.ltb_spec va (2 ^ 31)).
  { replace ((va / 2 ^ 30) mod 512) with 1 by zlia. rewrite H1, Hn, Hn'. simpl Z.eqb. cbv iota.
    do 2 f_equal. zlia. }
  destruct (Z.ltb_spec va (3 * 2 ^ 30)); [rewrite H0 by zlia; done |].
  destruct (Z.ltb_spec va (2 ^ 32)); [| rewrite H0 by zlia; done].
  replace ((va / 2 ^ 30) mod 512) with 3 by zlia. rewrite H3, Hd, Hd'. simpl Z.eqb. cbv iota.
  do 2 f_equal. unfold kPeriphL1Base. zlia.
Qed.

Lemma pi4_build_spec nc s :
  window_ok L 0 ->
  let s' := build_map L nc s in
  mmu_inv L s' /\ ops s' = ops s ++ [DSB_ISH] /\ sctlr s' = sctlr s /\
  forall va, 0 <= va < 2 ^ 48 -> walk (pt s') (g_l0 L) va = rpi4_map L nc va.
Proof.
  intros Hw s'. pose proof Hw as (Hw1 & Hw2 & Hw3).
  pose proof (pi4_upper_build (pt s)) as Hub. unfold s', build_map.
  set (t1 := pt_set (g_l1 L) 3 _ _) in *. set (t2 := pt_fill _ _ _).
  destruct (lo_distinct L HL) as ((D01 & D02 & D12) & _).
  assert (Hub2 : upper_built t2)
    by (apply (upper_built_ext t1); [intros; apply pt_get_fill_tbl; congruence .. | done]).
  rewrite (proj2 (Z.ltb_lt _ _)) by lia. unfold kL1BlockSize. rewrite !(Z.div_small _ (2 ^ 30)) by lia.
  cbn [andb Z.eqb].
  destruct (map_dma_window_spec L HL 0 pi4_base_ok nc t2 Hw (upper_built_inv _ Hub2) (fill_l2_inv L 0 _))
    as (Hup' & Hown & Hl1 & Hwalk).
  set (t3 := map_dma_window L nc 0 t2) in *.
  split; [by split | split; [done | split; [done |]]]. intros va Hva. cbn [emit pt].
  destruct (decide (in_ram 0 va)) as [Hin | Hnin].
  - rewrite (walk_ram L HL 0 pi4_base_ok), Hwalk by done. unfold in_ram in Hin. unfold rpi4_map.
    destruct (Z.ltb_spec va (2 ^ 30)); [done | lia].
  - apply pi4_walk_outside; [| done | done]. destruct Hup' as [R R' _ _], Hub2 as [_ _ U1 U2 U3 U4].
    split; intros; rewrite ?Hl1; auto.
Qed.

Lemma pi4_mmu_guard_page_spec s a :
  mmu_inv L s -> 0 <= a < 2 ^ 64 ->
  let '(r, s') := mmu_guard_page L a s in
  (r = -1 /\ s' = s /\
   (a = 0 \/ mmu_enabled s = 0 \/ 2 ^ 30 <= a \/ g_l3_extra_next s = 8)) \/
  (r = 0 /\ mmu_enabled s = 1 /\ 0 < a < 2 ^ 30 /\ mmu_inv L s' /\ sctlr s' = sctlr s /\
   ops s' = ops s ++ [DSB_ISH; TLBI_VMALLE1; DSB_ISH; ISB] /\
   forall va, 0 <= va < 2 ^ 48 ->
     walk (pt s') (g_l0 L) va = if va / 2 ^ 12 =? a / 2 ^ 12 then None else walk (pt s) (g_l0 L) va).
Proof.
  intros [Hup [own Hinv]] Ha. unfold mmu_guard_page.
  destruct (Z.eqb_spec a nullptr) as [-> |]; [left; auto 8 |]. unfold nullptr in *.
  destruct (Z.eqb_spec (mmu_enabled s) 0); [left; auto 8 |].
  assert (Hen : mmu_enabled s = 1) by (unfold mmu_enabled in *; by destruct (negb _)).
  rewrite align_down_page by done. unfold kL1BlockSize.
  destruct (Z.leb_spec (2 ^ 30) (a / 2 ^ 12 * 2 ^ 12)) as [Hhi | Hhi].
  { left. split; [done | split; [done | right; right; left; zlia]]. }
  assert (Hin : in_ram 0 (a / 2 ^ 12 * 2 ^ 12)) by (unfold in_ram; zlia).
  pose proof (guard_region_spec L HL 0 pi4_base_ok s own _ Hup Hinv Hin) as H.
  destruct (guard_region L 0 _ s) as [r s'].
  destruct H as [(-> & -> & _ & Hn) | (-> & Hup' & Hsc & Hops & Hown & Hwalk)]; [left; auto 8 |].
  right. split; [done | split; [done | split; [zlia |]]].
  split; [by split | split; [done | split; [done |]]]. intros va Hva. rewrite Hwalk by done.
  replace (a / 2 ^ 12 * 2 ^ 12 / 2 ^ 12) with (a / 2 ^ 12) by zlia. done.
Qed.

End Rpi4.

(** ** Witness layout *)

Lemma pi4_demo_layout_ok : layout_ok demo_layout.
Proof.
  split; try (split; [split; [simpl; lia | reflexivity] | simpl; lia]).
  - intros t Ht. unfold extra_tbl; simpl. split; [split; [lia | zlia] | lia].
  - repeat constructor; rewrite ?not_elem_of_cons; repeat split; (apply not_elem_of_nil || (simpl; lia)).
  - intros t Ht. unfold extra_tbl; simpl. rewrite !not_elem_of_cons.
    repeat split; (apply not_elem_of_nil || lia).
Qed.

Lemma pi4_demo_window_ok : window_ok demo_layout 0.
Proof. unfold window_ok; simpl. split; [lia | split; [lia | zlia]]. Qed.

Definition mmu_off : mmu_st := Mmu ∅ 0 0x30C50830 [].

(** ** Theorems *)

(** the tables built by the board's [build_map] and switched on by
    [mmu_init] realise its address map at every 48-bit address: cacheable
    identity-mapped RAM with the DMA window's policy, the non-cacheable alias,
    a hole, the peripherals; and translation is on afterwards. *)
Theorem rpi4_map_correct L nc s va :
  layout_ok L -> window_ok L 0 -> mmu_enabled s = 0 -> 0 <= va < 2 ^ 48 ->
  let s' := mmu_init L nc true s in
  mmu_enabled s' = 1 /\ walk (pt s') (g_l0 L) va = rpi4_map L nc va.
Proof.
  intros HL Hw Hoff Hva s'. destruct (pi4_build_spec L HL nc s Hw) as (_ & Hops & Hsc & Hwalk).
  destruct (mmu_enable_spec L (build_map L nc) s Hops Hsc) as (H1 & _ & H3).
  destruct (H3 Hoff) as (_ & _ & Hpt & _). unfold s', mmu_init. split; [done |]. rewrite Hpt. by apply Hwalk.
Qed.

Lemma rpi4_map_correct_witness :
  let s' := mmu_init demo_layout true true mmu_off in
  (mmu_enabled s' = 1 /\ walk (pt s') (g_l0 demo_layout) 0x1B0123 = rpi4_map demo_layout true 0x1B0123) /\
  rpi4_map demo_layout true 0x1B0123 = Some (Leaf 0x1B0123 kAttrIdxNormalNc 3 true true).
Proof.
  split; [| reflexivity].
  apply (rpi4_map_correct demo_layout true mmu_off 0x1B0123);
    [exact pi4_demo_layout_ok | exact pi4_demo_window_ok | reflexivity | lia].
Defined.

(** the board's [mmu_guard_page] either fails, changing nothing, or unmaps
    exactly the page of its argument, keeps every other translation and the
    table invariant, and flushes the TLB between barriers. *)
Theorem rpi4_guard_page_exact L s a :
  layout_ok L -> mmu_inv L s -> 0 <= a < 2 ^ 64 ->
  let '(r, s') := mmu_guard_page L a s in
  (r = -1 /\ s' = s /\
   (a = 0 \/ mmu_enabled s = 0 \/ 2 ^ 30 <= a \/ g_l3_extra_next s = 8)) \/
  (r = 0 /\ mmu_enabled s = 1 /\ 0 < a < 2 ^ 30 /\ mmu_inv L s' /\ sctlr s' = sctlr s /\
   ops s' = ops s ++ [DSB_ISH; TLBI_VMALLE1; DSB_ISH; ISB] /\
   forall va, 0 <= va < 2 ^ 48 ->
     walk (pt s') (g_l0 L) va = if va / 2 ^ 12 =? a / 2 ^ 12 then None else walk (pt s) (g_l0 L) va).
Proof. intros HL. by apply pi4_mmu_guard_page_spec. Qed.

Lemma pi4_demo_inv : mmu_inv demo_layout (mmu_init demo_layout false true mmu_off).
Proof. destruct (pi4_build_spec demo_layout pi4_demo_layout_ok false mmu_off pi4_demo_window_ok) as (Hinv & _). exact Hinv. Qed.

Lemma rpi4_guard_page_exact_witness :
  let s := mmu_init demo_layout false true mmu_off in
  (mmu_guard_page demo_layout 0x800 s).1 = 0 /\
  let '(r, s') := mmu_guard_page demo_layout 0x800 s in
  (r = -1 /\ s' = s /\
   (0x800 = 0 \/ mmu_enabled s = 0 \/ 2 ^ 30 <= 0x800 \/ g_l3_extra_next s = 8)) \/
  (r = 0 /\ mmu_enabled s = 1 /\ 0 < 0x800 < 2 ^ 30 /\ mmu_inv demo_layout s' /\ sctlr s' = sctlr s /\
   ops s' = ops s ++ [DSB_ISH; TLBI_VMALLE1; DSB_ISH; ISB] /\
   forall va, 0 <= va < 2 ^ 48 ->
     walk (pt s') (g_l0 demo_layout) va =
       if va / 2 ^ 12 =? 0x800 / 2 ^ 12 then None else walk (pt s) (g_l0 demo_layout) va).
Proof.
  intros s. split; [vm_compute; reflexivity |].
  apply (rpi4_guard_page_exact demo_layout s 0x800); [exact pi4_demo_layout_ok | exact pi4_demo_inv | lia].
Defined.
