(* ===== verification/Stack.v ===== *)
(** * [src/src/thread.cc]: the stack guard pattern and the high-water mark

    A new stack gets 64 bytes of a fixed pattern at its low end and a watermark
    byte everywhere else; the pattern is tested at every timer tick and the
    watermark measures the deepest use. *)

From S2P Require Import Prelude Mem.

Definition kStackGuardMagic : Z := 0x737461636b677561.

Definition kStackGuardBytes : Z := 64.

Definition kStackGuardPageBytes : Z := 4096.

Definition kStackWatermark : Z := 0xA5.

Definition guard_len (size : Z) : Z := if kStackGuardBytes <=? size then kStackGuardBytes else size.

(** Byte [i] of the magic word, as the tail loops compute it. *)
Definition magic_byte (i : Z) : Z := Z.land (Z.shiftr kStackGuardMagic (i * 8)) 0xFF.

(** The body of the guard loop at offset [off = 8 * k]. *)
Definition guard_word (p guard k : Z) (m : mem) : mem :=
  let off := 8 * k in
  let remain := guard - off in
  if remain <? 8 then for_range 0 remain (fun i m => st8 (p + off + i) (magic_byte i) m) m
  else st64 (p + off) kStackGuardMagic m.

Definition stack_init_guard_and_watermark (base size : Z) (m : mem) : mem :=
  if (base =? nullptr) || (size =? 0) then m
  else
    let guard := guard_len size in
    let m := for_range 0 ((guard + 7) / 8) (guard_word base guard) m in
    for_range guard size (fun i m => st8 (base + i) kStackWatermark m) m.

Definition guard_word_ok (p guard : Z) (m : mem) (k : Z) : bool :=
  let off := 8 * k in
  let remain := guard - off in
  if remain <? 8
  then forallb (fun i => ld8 m (p + off + i) =? magic_byte i) (seqZ 0 remain)
  else ld64 m (p + off) =? kStackGuardMagic.

Definition stack_guard_ok (base size : Z) (m : mem) : bool :=
  if (base =? nullptr) || (size =? 0) then true
  else let guard := guard_len size in forallb (guard_word_ok base guard m) (seqZ 0 ((guard + 7) / 8)).

(** The counting loop with its [break]. *)
Fixpoint watermark_run (n : nat) (m : mem) (a : Z) : Z :=
  match n with
  | O => 0
  | Datatypes.S n' => if negb (ld8 m a =? kStackWatermark) then 0 else 1 + watermark_run n' m (a + 1)
  end.

Definition stack_high_watermark_bytes (base size : Z) (m : mem) : Z :=
  if (base =? nullptr) || (size =? 0) then 0
  else if size <=? kStackGuardBytes then size
  else
    let unused := watermark_run (Z.to_nat (size - kStackGuardBytes)) m (base + kStackGuardBytes) in
    let usable := size - kStackGuardBytes in
    if unused <=? usable then usable - unused else usable.

(** ** The bytes of the pattern *)

(** The byte that belongs at offset [i] of a fresh stack. *)
Definition fresh_byte (size i : Z) : Z :=
  if i <? guard_len size then magic_byte (i mod 8) else kStackWatermark.

Lemma magic_byte_range i : 0 <= magic_byte i < 256.
Proof. unfold magic_byte. change 0xFF with (Z.ones 8). rewrite Z.land_ones by lia. apply Z.mod_pos_bound. lia. Qed.

Lemma magic_byte_mod i : magic_byte i mod 256 = magic_byte i.
Proof. apply Z.mod_small, magic_byte_range. Qed.

Lemma ld64_bytes m a :
  ld64 m a = ld8 m a + 256 * (ld8 m (a + 1) + 256 * (ld8 m (a + 2) + 256 * (ld8 m (a + 3) +
    256 * (ld8 m (a + 4) + 256 * (ld8 m (a + 5) + 256 * (ld8 m (a + 6) + 256 * ld8 m (a + 7))))))).
Proof.
  unfold ld64. cbn [ld_le]. rewrite <- !Z.add_assoc.
  change (1 + 1) with 2; change (1 + 2) with 3; change (1 + 3) with 4; change (1 + 4) with 5;
    change (1 + 5) with 6; change (1 + 6) with 7. lia.
Qed.

(** Case analysis on a byte index. *)
Ltac byte_cases i :=
  let D := fresh in
  assert (i = 0 \/ i = 1 \/ i = 2 \/ i = 3 \/ i = 4 \/ i = 5 \/ i = 6 \/ i = 7) as D by lia;
  destruct D as [-> | [-> | [-> | [-> | [-> | [-> | [-> | ->]]]]]]].

(** A 64-bit word holds the magic value exactly when its bytes do. *)
Lemma ld64_magic m a : mem_bytes m ->
  ld64 m a = kStackGuardMagic <-> forall i, 0 <= i < 8 -> ld8 m (a + i) = magic_byte i.
Proof.
  intros Hm. rewrite ld64_bytes. split.
  - intros H i Hi.
    pose proof (Hm a). pose proof (Hm (a + 1)). pose proof (Hm (a + 2)). pose proof (Hm (a + 3)).
    pose proof (Hm (a + 4)). pose proof (Hm (a + 5)). pose proof (Hm (a + 6)). pose proof (Hm (a + 7)).
    unfold kStackGuardMagic in H. byte_cases i;
      (match goal with |- _ = ?r => let v := eval vm_compute in r in change r with v end);
      rewrite ?Z.add_0_r; lia.
  - intros H. rewrite <- (Z.add_0_r a) at 1. rewrite !H by lia. reflexivity.
Qed.

Lemma ld8_st64_magic m a i : 0 <= i < 8 -> ld8 (st64 a kStackGuardMagic m) (a + i) = magic_byte i.
Proof.
  intros Hi. unfold st64. cbn [st_le]. rewrite !ld8_st8.
  byte_cases i; repeat bdestr; try lia; reflexivity.
Qed.

Lemma guard_len_bounds size : 0 <= size -> 0 <= guard_len size <= size /\ guard_len size <= 64.
Proof. unfold guard_len, kStackGuardBytes. bdestr; lia. Qed.

(** One iteration of the guard loop writes the pattern of its eight bytes (or
    of the remainder) and nothing else. *)
Lemma guard_word_spec p guard k m b :
  0 <= k -> 8 * k < guard ->
  ld8 (guard_word p guard k m) b =
    if (p + 8 * k <=? b) && (b <? p + Z.min guard (8 * k + 8)) then magic_byte ((b - p) mod 8) else ld8 m b.
Proof.
  intros Hk Hg. unfold guard_word. cbv zeta. destruct (Z.ltb_spec (guard - 8 * k) 8) as [Hlt | Hge].
  - replace (Z.min guard (8 * k + 8)) with guard by lia.
    pose proof (for_range_ind (fun j m' => ld8 m' b =
      if (p + 8 * k <=? b) && (b <? p + 8 * k + j) then magic_byte ((b - p) mod 8) else ld8 m b)
      0 (guard - 8 * k) (fun i m => st8 (p + 8 * k + i) (magic_byte i) m) m) as H.
    rewrite H; [by replace (p + 8 * k + (guard - 8 * k)) with (p + guard) by lia | lia | |]; clear H.
    + destruct (Z.leb_spec (p + 8 * k) b), (Z.ltb_spec b (p + 8 * k + 0)); simpl; try lia; done.
    + intros j m' Hj H. rewrite ld8_st8, H, magic_byte_mod.
      destruct (Z.eqb_spec (p + 8 * k + j) b) as [<- |].
      * replace (p + 8 * k + j - p) with (j + k * 8) by lia. rewrite Z_mod_plus_full, (Z.mod_small j) by lia.
        repeat bdestr; simpl; lia || done.
      * repeat bdestr; simpl; lia || done.
  - replace (Z.min guard (8 * k + 8)) with (8 * k + 8) by lia.
    destruct (Z.leb_spec (p + 8 * k) b); simpl; [| by rewrite ld8_st64_other by lia].
    destruct (Z.ltb_spec b (p + (8 * k + 8))); simpl; [| by rewrite ld8_st64_other by lia].
    replace b with (p + 8 * k + (b - p - 8 * k)) at 1 by lia. rewrite ld8_st64_magic by lia.
    f_equal. zlia.
Qed.

(** The whole initialisation, byte by byte. *)
Lemma stack_init_spec base size m b :
  0 < base -> 0 < size ->
  ld8 (stack_init_guard_and_watermark base size m) b =
    if (base <=? b) && (b <? base + size) then fresh_byte size (b - base) else ld8 m b.
Proof.
  intros Hb Hs. unfold stack_init_guard_and_watermark, nullptr.
  rewrite (proj2 (Z.eqb_neq base 0)), (proj2 (Z.eqb_neq size 0)) by lia. cbn [orb]. cbv zeta.
  pose proof (guard_len_bounds size ltac:(lia)) as Hg. unfold fresh_byte.
  set (g := guard_len size) in *. set (m1 := for_range 0 _ _ m).
  assert (H1 : ld8 m1 b = if (base <=? b) && (b <? base + g) then magic_byte ((b - base) mod 8) else ld8 m b).
  { pose proof (for_range_ind (fun k m' => ld8 m' b =
      if (base <=? b) && (b <? base + Z.min g (8 * k)) then magic_byte ((b - base) mod 8) else ld8 m b)
      0 ((g + 7) / 8) (guard_word base g) m) as H. unfold m1. rewrite H; clear H; [| zlia | |].
    - replace (Z.min g (8 * ((g + 7) / 8))) with g by zlia. done.
    - destruct (Z.leb_spec base b), (Z.ltb_spec b (base + Z.min g (8 * 0))); simpl; try lia; done.
    - intros j m' Hj H. assert (8 * j < g) by zlia. rewrite guard_word_spec, H by lia.
      replace (Z.min g (8 * (j + 1))) with (Z.min g (8 * j + 8)) by lia.
      replace (Z.min g (8 * j)) with (8 * j) by lia.
      repeat bdestr; simpl; try lia; done. }
  pose proof (for_range_ind (fun j m' => ld8 m' b =
    if (base <=? b) && (b <? base + j) then if b - base <? g then magic_byte ((b - base) mod 8) else kStackWatermark
    else ld8 m b) g size (fun i m => st8 (base + i) kStackWatermark m) m1) as H.
  rewrite H; [done | lia | |]; clear H.
  - rewrite H1. repeat bdestr; simpl; try lia; done.
  - intros j m' Hj H. rewrite ld8_st8, H.
    replace (kStackWatermark mod 256) with kStackWatermark by reflexivity.
    repeat bdestr; simpl; try lia; done.
Qed.

Lemma guard_word_ok_spec p guard m k :
  mem_bytes m -> 0 <= k -> 8 * k < guard ->
  guard_word_ok p guard m k = true <->
  forall i, 8 * k <= i < Z.min guard (8 * k + 8) -> ld8 m (p + i) = magic_byte (i mod 8).
Proof.
  intros Hm Hk Hg. unfold guard_word_ok. cbv zeta. destruct (Z.ltb_spec (guard - 8 * k) 8) as [Hlt | Hge].
  - rewrite forallb_forall. split.
    + intros H i Hi. specialize (H (i - 8 * k)). rewrite <- list_elem_of_In, elem_of_seqZ, Z.eqb_eq in H.
      replace (p + i) with (p + 8 * k + (i - 8 * k)) by lia. rewrite H by lia. f_equal. zlia.
    + intros H i Hi. rewrite <- list_elem_of_In, elem_of_seqZ in Hi. apply Z.eqb_eq.
      replace (p + 8 * k + i) with (p + (8 * k + i)) by lia. rewrite H by lia. f_equal. zlia.
  - rewrite Z.eqb_eq, ld64_magic by done. split.
    + intros H i Hi. replace (p + i) with (p + 8 * k + (i - 8 * k)) by lia. rewrite H by lia. f_equal. zlia.
    + intros H i Hi. replace (p + 8 * k + i) with (p + (8 * k + i)) by lia. rewrite H by lia. f_equal. zlia.
Qed.

Lemma stack_guard_ok_spec base size m :
  mem_bytes m -> 0 < base -> 0 < size ->
  stack_guard_ok base size m = true <->
  forall i, 0 <= i < guard_len size -> ld8 m (base + i) = fresh_byte size i.
Proof.
  intros Hm Hb Hs. unfold stack_guard_ok, nullptr, fresh_byte.
  rewrite (proj2 (Z.eqb_neq base 0)), (proj2 (Z.eqb_neq size 0)) by lia. cbn [orb]. cbv zeta.
  pose proof (guard_len_bounds size ltac:(lia)) as Hg. set (g := guard_len size) in *.
  rewrite forallb_forall. split.
  - intros H i Hi. specialize (H (i / 8)). rewrite <- list_elem_of_In, elem_of_seqZ in H.
    rewrite (proj2 (Z.ltb_lt _ _)) by lia.
    rewrite guard_word_ok_spec in H by (done || zlia). apply H; zlia.
  - intros H k Hk. rewrite <- list_elem_of_In, elem_of_seqZ in Hk. apply guard_word_ok_spec; [done | lia | zlia |].
    intros i Hi. rewrite H by lia. rewrite (proj2 (Z.ltb_lt _ _)) by lia. done.
Qed.

(** The watermark run is the length of the longest prefix of watermark bytes. *)
Lemma watermark_run_spec n m a j :
  0 <= j <= Z.of_nat n ->
  (forall i, 0 <= i < j -> ld8 m (a + i) = kStackWatermark) ->
  (j = Z.of_nat n \/ ld8 m (a + j) <> kStackWatermark) -> watermark_run n m a = j.
Proof.
  revert a j. induction n as [|n IH]; intros a j Hj Hin Hout; cbn [watermark_run]; [lia |].
  destruct (Z.eqb_spec (ld8 m a) kStackWatermark) as [E | E]; simpl.
  - assert (j <> 0) by (intros ->; rewrite Z.add_0_r in Hout; destruct Hout; [lia | done]).
    rewrite (IH (a + 1) (j - 1)); [lia | lia | |].
    + intros i Hi. replace (a + 1 + i) with (a + (i + 1)) by lia. apply Hin. lia.
    + replace (a + 1 + (j - 1)) with (a + j) by lia. destruct Hout; [left; lia | by right].
  - destruct (Z.eq_dec j 0) as [-> | Hne]; [done |]. destruct E. rewrite <- (Z.add_0_r a). apply Hin. lia.
Qed.

(** ** Theorems *)

(** a fresh stack passes the guard test, the test afterwards succeeds
    exactly while every byte of the guard region is intact, and so the tick
    handler detects any write that changes a byte of the region. *)
Theorem stack_guard_detects base size m m' :
  mem_bytes m' -> 0 < base -> 0 < size ->
  let fresh := stack_init_guard_and_watermark base size m in
  (mem_bytes m -> stack_guard_ok base size fresh = true) /\
  (stack_guard_ok base size m' = true <->
   forall i, 0 <= i < guard_len size -> ld8 m' (base + i) = ld8 fresh (base + i)).
Proof.
  intros Hm' Hb Hs fresh. pose proof (guard_len_bounds size ltac:(lia)) as Hg.
  assert (Hf : forall i, 0 <= i < guard_len size -> ld8 fresh (base + i) = fresh_byte size i).
  { intros i Hi. unfold fresh. rewrite stack_init_spec by done.
    replace (base + i - base) with i by lia.
    rewrite (proj2 (Z.leb_le _ _)), (proj2 (Z.ltb_lt _ _)) by lia. done. }
  split.
  - intros Hm. apply stack_guard_ok_spec; [| done | done | done]. intros b. unfold fresh.
    rewrite stack_init_spec by done. destruct (_ && _); [| apply Hm].
    unfold fresh_byte. bdestr; [apply magic_byte_range | unfold kStackWatermark; lia].
  - rewrite stack_guard_ok_spec by done. split; intros H i Hi; [by rewrite H, Hf | by rewrite H, Hf].
Qed.

(** the high-water mark after any run is the distance from the top of the
    stack to the lowest byte above the guard region that no longer holds the
    watermark: never more than the usable size, 0 on a fresh stack, and at
    least the depth of any byte whose value changed. *)
Theorem stack_watermark_exact base size m low :
  0 < base -> kStackGuardBytes < size -> kStackGuardBytes <= low <= size ->
  (forall i, kStackGuardBytes <= i < low -> ld8 m (base + i) = kStackWatermark) ->
  (low = size \/ ld8 m (base + low) <> kStackWatermark) ->
  stack_high_watermark_bytes base size m = size - low /\
  (forall i, kStackGuardBytes <= i < size ->
     ld8 m (base + i) <> kStackWatermark -> size - i <= stack_high_watermark_bytes base size m) /\
  stack_high_watermark_bytes base size (stack_init_guard_and_watermark base size m) = 0.
Proof.
  unfold kStackGuardBytes. intros Hb Hs Hl Hin Hout.
  assert (Hval : forall m l, 64 <= l <= size -> (forall i, 64 <= i < l -> ld8 m (base + i) = kStackWatermark) ->
    (l = size \/ ld8 m (base + l) <> kStackWatermark) -> stack_high_watermark_bytes base size m = size - l).
  { clear m low Hl Hin Hout. intros m l Hl Hin Hout. unfold stack_high_watermark_bytes, nullptr, kStackGuardBytes.
    rewrite (proj2 (Z.eqb_neq base 0)), (proj2 (Z.eqb_neq size 0)), (proj2 (Z.leb_gt size 64)) by lia.
    cbn [orb]. cbv zeta. rewrite (watermark_run_spec _ m _ (l - 64)).
    - rewrite (proj2 (Z.leb_le _ _)) by lia. lia.
    - lia.
    - intros i Hi. rewrite <- Z.add_assoc. apply Hin. lia.
    - replace (base + 64 + (l - 64)) with (base + l) by lia. destruct Hout; [left; lia | by right]. }
  rewrite (Hval m low) by done. split; [done | split].
  - intros i Hi Hne. destruct (Z.lt_ge_cases i low); [| lia]. destruct Hne. apply Hin. lia.
  - rewrite (Hval _ size); [lia | lia | | by left]. intros i Hi. rewrite stack_init_spec by lia.
    rewrite (proj2 (Z.leb_le _ _)), (proj2 (Z.ltb_lt _ _)) by lia. cbn [andb].
    unfold fresh_byte, guard_len, kStackGuardBytes. repeat bdestr; lia || done.
Qed.

Lemma stack_guard_detects_witness :
  let fresh := stack_init_guard_and_watermark 4096 100 ∅ in
  let bad := st8 4100 7 fresh in
  stack_guard_ok 4096 100 fresh = true /\ stack_guard_ok 4096 100 bad = false /\
  ((mem_bytes ∅ -> stack_guard_ok 4096 100 fresh = true) /\
   (stack_guard_ok 4096 100 ∅ = true <->
    forall i, 0 <= i < guard_len 100 -> ld8 ∅ (4096 + i) = ld8 fresh (4096 + i))).
Proof.
  intros fresh bad. split; [vm_compute; reflexivity | split; [vm_compute; reflexivity |]].
  apply (stack_guard_detects 4096 100 ∅ ∅); [intros a; unfold ld8; rewrite lookup_empty; simpl; lia | lia | lia].
Defined.

Lemma stack_watermark_exact_witness :
  let m := st8 (4096 + 90) 1 (stack_init_guard_and_watermark 4096 100 ∅) in
  stack_high_watermark_bytes 4096 100 m = 100 - 90 /\
  (forall i, kStackGuardBytes <= i < 100 ->
     ld8 m (4096 + i) <> kStackWatermark -> 100 - i <= stack_high_watermark_bytes 4096 100 m) /\
  stack_high_watermark_bytes 4096 100 (stack_init_guard_and_watermark 4096 100 m) = 0.
Proof.
  intros m. apply (stack_watermark_exact 4096 100 m 90); unfold kStackGuardBytes; [lia | lia | lia | |].
  - intros i Hi. unfold m. rewrite ld8_st8_ne, stack_init_spec by lia.
    rewrite (proj2 (Z.leb_le _ _)), (proj2 (Z.ltb_lt _ _)) by lia. cbn [andb].
    unfold fresh_byte, guard_len, kStackGuardBytes. rewrite (proj2 (Z.ltb_ge _ _)); [done | simpl; lia].
  - right. unfold m. rewrite ld8_st8_eq. done.
Defined.
