(* ===== verification/Uart.v ===== *)
(** * [src/src/drivers/uart_pl011.cc]: the console, and the number printers

    The driver is modelled at two levels.  [putc_bytes], [puts_bytes],
    [print_u64_bytes] and [puthex_bytes] give the bytes each routine sends; the
    rest of the development records console output with them.  [uart_putc] and
    [uart_puts] are the routines against the device: the flag register's future
    readings are a list, a routine that exhausts it is still waiting ([None]).
    The number printers exist in four copies ([uart_print_u64],
    [puthex64] and [puthex32] of [except.cc], [uart_puthex64] of [timer.cc]). *)

From Stdlib Require Import String Ascii.
From S2P Require Import Prelude.

(** ** The bytes sent *)

Definition byte_of (c : ascii) : Z := Z.of_N (N_of_ascii c).

Fixpoint chars (s : string) : list Z :=
  match s with EmptyString => [] | String c s' => byte_of c :: chars s' end.

(** [uart_puts], byte by byte: a carriage return before every newline. *)
Fixpoint puts_bytes (s : list Z) : list Z :=
  match s with
  | [] => []
  | c :: s' => (if c =? 10 then [13] else []) ++ c :: puts_bytes s'
  end.

(** The filling loop of the printers: digits of [v] in the given base, least
    significant first, at most [n] of them. *)
Fixpoint digit_loop (b : Z) (n : nat) (v : Z) : list Z :=
  match n with
  | O => []
  | Datatypes.S n' => if v =? 0 then [] else v mod b :: digit_loop b n' (v / b)
  end.

Definition dec_char (d : Z) : Z := 48 + d.

Definition kHexDigits (d : Z) : Z := if d <? 10 then 48 + d else 87 + d.

(** [uart_print_u64]: [buf] holds 31 digits. *)
Definition print_u64_bytes (v : Z) : list Z :=
  if v =? 0 then [48] else map dec_char (rev (digit_loop 10 31 v)).

(** [puthex64] ([n = 16]) and [puthex32] ([n = 8]). *)
Definition puthex_bytes (n : nat) (v : Z) : list Z :=
  if v =? 0 then [48] else map kHexDigits (rev (digit_loop 16 n v)).

(** ** The device *)

Record uart := Uart {
  g_uart_base : Z;
  g_uart_clock_hz : Z;
  fr_reads : list Z;
  mmio_writes : list (Z * Z)
}.

Definition UARTDR : Z := 0x00.

Definition UARTFR : Z := 0x18.

Definition UARTIBRD : Z := 0x24.

Definition UARTFBRD : Z := 0x28.

Definition UARTLCR_H : Z := 0x2C.

Definition UARTCR : Z := 0x30.

Definition UARTIMSC : Z := 0x38.

Definition mmio_write (addr val : Z) (u : uart) : uart :=
  Uart (g_uart_base u) (g_uart_clock_hz u) (fr_reads u) (mmio_writes u ++ [(addr, wrap32 val)]).

Definition uart_pl011_set_mmio_base (b : Z) (u : uart) : uart :=
  Uart b (g_uart_clock_hz u) (fr_reads u) (mmio_writes u).

Definition uart_pl011_set_clock_hz (hz : Z) (u : uart) : uart :=
  Uart (g_uart_base u) hz (fr_reads u) (mmio_writes u).

Definition bauddiv_x64 (uartclk : Z) : Z := (uartclk * 4 +64 115200 / 2) / 115200.

Definition uart_init (u : uart) : uart :=
  let base := g_uart_base u in
  let uartclk := if g_uart_clock_hz u =? 0 then 24000000 else g_uart_clock_hz u in
  let u := mmio_write (base + UARTCR) 0 u in
  let u := mmio_write (base + UARTIMSC) 0 u in
  let div := bauddiv_x64 uartclk in
  let ibrd := wrap32 (div / 64) in
  let fbrd := wrap32 (div mod 64) in
  let ibrd := if ibrd =? 0 then 1 else ibrd in
  let u := mmio_write (base + UARTIBRD) ibrd u in
  let u := mmio_write (base + UARTFBRD) fbrd u in
  let u := mmio_write (base + UARTLCR_H) (Z.lor (Z.shiftl 1 4) (Z.shiftl 3 5)) u in
  mmio_write (base + UARTCR) (Z.lor (Z.lor (Z.shiftl 1 0) (Z.shiftl 1 8)) (Z.shiftl 1 9)) u.

(** The polling loop: read the flag register until TXFF is clear. *)
Fixpoint wait_txff (frs : list Z) : option (list Z) :=
  match frs with
  | [] => None
  | fr :: frs' => if negb (Z.land fr (Z.shiftl 1 5) =? 0) then wait_txff frs' else Some frs'
  end.

Definition uart_putc (c : Z) (u : uart) : option uart :=
  frs ← wait_txff (fr_reads u);
  Some (mmio_write (g_uart_base u + UARTDR) c
    (Uart (g_uart_base u) (g_uart_clock_hz u) frs (mmio_writes u))).

Fixpoint uart_puts (s : list Z) (u : uart) : option uart :=
  match s with
  | [] => Some u
  | c :: s' =>
      u ← (if c =? 10 then uart_putc 13 u else Some u);
      u ← uart_putc c u;
      uart_puts s' u
  end.

(** ** Number printing *)

(** The value denoted by digits in base [b], most significant first. *)
Definition value (b : Z) (ds : list Z) : Z := fold_left (fun acc d => acc * b + d) ds 0.

Lemma value_snoc b ds d : value b (ds ++ [d]) = value b ds * b + d.
Proof. unfold value. by rewrite fold_left_app. Qed.

Lemma digit_loop_spec b n v :
  1 < b -> 0 <= v < b ^ Z.of_nat n ->
  value b (rev (digit_loop b n v)) = v /\ Forall (fun d => 0 <= d < b) (digit_loop b n v) /\
  (v <> 0 -> last (digit_loop b n v) <> Some 0).
Proof.
  intros Hb. revert v. induction n as [|n IH]; intros v Hv; cbn [digit_loop].
  { rewrite Z.pow_0_r in Hv. assert (v = 0) as -> by lia. done. }
  rewrite Nat2Z.inj_succ, Z.pow_succ_r in Hv by lia.
  destruct (Z.eqb_spec v 0) as [-> | Hne]; [done |].
  assert (Hq : 0 <= v / b < b ^ Z.of_nat n)
    by (split; [apply Z.div_pos; lia | apply Z.div_lt_upper_bound; lia]).
  destruct (IH _ Hq) as (H1 & H2 & H3). pose proof (Z.mod_pos_bound v b ltac:(lia)).
  cbn [rev]. rewrite value_snoc, H1. split; [pose proof (Z.div_mod v b ltac:(lia)); lia |].
  split; [by constructor |]. intros _. destruct (Z.eq_dec (v / b) 0) as [E | E].
  - rewrite E. destruct n; simpl; intros [= E']; pose proof (Z.div_mod v b ltac:(lia)); nia.
  - specialize (H3 E). destruct (digit_loop b n (v / b)) as [|d ds] eqn:D; [| done].
    simpl in H1. by unfold value in H1; simpl in H1.
Qed.

(** Reading a printed number back. *)
Definition parse (b : Z) (of_char : Z -> Z) (s : list Z) : Z := value b (map of_char s).

Definition hex_val (c : Z) : Z := if c <? 58 then c - 48 else c - 87.

Lemma parse_digits b (to fr : Z -> Z) n v :
  1 < b -> 0 <= v < b ^ Z.of_nat n -> (forall d, 0 <= d < b -> fr (to d) = d) ->
  parse b fr (map to (rev (digit_loop b n v))) = v.
Proof.
  intros Hb Hv Hto. destruct (digit_loop_spec b n v Hb Hv) as (H1 & H2 & _).
  unfold parse. rewrite map_map. rewrite <- H1 at 2. f_equal.
  rewrite <- (map_id (rev _)) at 2. apply map_ext_in. intros d Hd. apply Hto.
  rewrite Forall_forall in H2. apply H2. rewrite list_elem_of_In. by apply in_rev.
Qed.

(** The first character is not a zero unless the number is. *)
Lemma head_digit b to n v :
  1 < b -> 0 < v < b ^ Z.of_nat n -> (forall d, 0 <= d < b -> to d = 48 -> d = 0) ->
  head (map to (rev (digit_loop b n v))) <> Some 48.
Proof.
  intros Hb Hv Hto. destruct (digit_loop_spec b n v Hb ltac:(lia)) as (_ & H2 & H3).
  specialize (H3 ltac:(lia)). intros E. destruct (digit_loop b n v) as [|d ds] using rev_ind; [done |].
  rewrite rev_unit in E. simpl in E. injection E as E. rewrite Forall_app in H2.
  destruct H2 as [_ H2]. apply Forall_inv in H2. apply Hto in E as ->; [| done].
  by rewrite last_snoc in H3.
Qed.

(** ** The device routines *)

Definition ready (fr : Z) : Prop := Z.testbit fr 5 = false.

Lemma wait_txff_ready frs1 fr frs2 :
  Forall (fun f => ~ ready f) frs1 -> ready fr -> wait_txff (frs1 ++ fr :: frs2) = Some frs2.
Proof.
  assert (Hbit : forall f, (Z.land f (Z.shiftl 1 5) =? 0) = negb (Z.testbit f 5)).
  { intros f. change (Z.shiftl 1 5) with 32. destruct (Z.eqb_spec (Z.land f 32) 0) as [E | E].
    - apply (f_equal (fun z => Z.testbit z 5)) in E. rewrite Z.land_spec in E. change (Z.testbit 32 5) with true in E.
      rewrite andb_true_r in E. by rewrite E.
    - destruct (Z.testbit f 5) eqn:B; [done |]. destruct E. change 32 with (2 ^ 5).
      apply Z.bits_inj'. intros k Hk. rewrite Z.land_spec, Z.pow2_bits_eqb, Z.bits_0 by lia.
      destruct (Z.eqb_spec 5 k) as [<- |]; [by rewrite B | apply andb_false_r]. }
  unfold ready. induction frs1 as [|f frs1 IH]; intros H Hr; simpl; rewrite Hbit.
  - by rewrite Hr.
  - apply Forall_cons in H as [Hf H]. destruct (Z.testbit f 5); [by apply IH | done].
Qed.

(** A device that, for each of [n] characters, reports the FIFO full any number
    of times and then ready. *)
Inductive drains : nat -> list Z -> list Z -> Prop :=
| drains_O rest : drains 0 rest rest
| drains_S n busy fr frs rest :
    Forall (fun f => ~ ready f) busy -> ready fr -> drains n frs rest ->
    drains (Datatypes.S n) (busy ++ fr :: frs) rest.

Lemma putc_drains c n u rest :
  drains (Datatypes.S n) (fr_reads u) rest ->
  exists u', uart_putc c u = Some u' /\ drains n (fr_reads u') rest /\
    g_uart_base u' = g_uart_base u /\ mmio_writes u' = mmio_writes u ++ [(g_uart_base u + UARTDR, wrap32 c)].
Proof.
  intros H. inversion H as [| ? busy fr frs ? Hb Hr Hd E1 E2]; subst. unfold uart_putc.
  rewrite <- E2, wait_txff_ready by done. eexists. done.
Qed.

Lemma puts_spec s u rest :
  drains (length (puts_bytes s)) (fr_reads u) rest ->
  exists u', uart_puts s u = Some u' /\ fr_reads u' = rest /\ g_uart_base u' = g_uart_base u /\
    mmio_writes u' = mmio_writes u ++ map (fun c => (g_uart_base u + UARTDR, wrap32 c)) (puts_bytes s).
Proof.
  revert u. induction s as [|c s IH]; intros u H; cbn [puts_bytes uart_puts] in *.
  { inversion H; subst. exists u. by rewrite app_nil_r. }
  assert (Hone : forall u1, drains (Datatypes.S (length (puts_bytes s))) (fr_reads u1) rest ->
    exists u', (u ← uart_putc c u1; uart_puts s u) = Some u' /\ fr_reads u' = rest /\
      g_uart_base u' = g_uart_base u1 /\
      mmio_writes u' = mmio_writes u1 ++ map (fun c => (g_uart_base u1 + UARTDR, wrap32 c)) (c :: puts_bytes s)).
  { intros u1 H1. destruct (putc_drains c _ u1 rest H1) as (u2 & E & Hd & Hb & Hw).
    destruct (IH u2 Hd) as (u3 & E3 & Hr & Hb3 & Hw3). exists u3. rewrite E. simpl. rewrite E3, Hr, Hb3, Hw3, Hb, Hw.
    by rewrite <- app_assoc. }
  destruct (c =? 10) eqn:Ec; simpl in H.
  - destruct (putc_drains 13 _ u rest H) as (u1 & E & Hd & Hb & Hw). rewrite E. simpl.
    destruct (Hone u1 Hd) as (u' & E' & Hr & Hb' & Hw'). exists u'. split; [exact E' |].
    rewrite Hr, Hb', Hw', Hb, Hw. by rewrite <- app_assoc.
  - apply Hone. exact H.
Qed.

Lemma puthex_parse n v : 0 <= v < 16 ^ Z.of_nat n -> parse 16 hex_val (puthex_bytes n v) = v.
Proof.
  intros Hv. unfold puthex_bytes. destruct (Z.eqb_spec v 0) as [-> | Hne]; [done |].
  apply parse_digits; [done | done |]. intros d Hd. unfold hex_val, kHexDigits. repeat bdestr; lia.
Qed.

(** ** Theorems *)

(** C34: the printers round-trip: reading back the decimal digits of
    [uart_print_u64] and the hexadecimal digits of [puthex64]/[puthex32] gives
    the number printed, with no leading zero; the buffers never overflow. *)
Theorem print_roundtrip v :
  0 <= v < 2 ^ 64 ->
  (parse 10 (fun c => c - 48) (print_u64_bytes v) = v /\ parse 16 hex_val (puthex_bytes 16 v) = v /\
   (v < 2 ^ 32 -> parse 16 hex_val (puthex_bytes 8 v) = v)) /\
  (v <> 0 -> head (print_u64_bytes v) <> Some 48 /\ head (puthex_bytes 16 v) <> Some 48) /\
  (length (print_u64_bytes v) <= 31 /\ length (puthex_bytes 16 v) <= 16)%nat.
Proof.
  intros Hv. unfold print_u64_bytes, puthex_bytes.
  assert (Hh : forall d, 0 <= d < 16 -> hex_val (kHexDigits d) = d)
    by (intros d Hd; unfold hex_val, kHexDigits; repeat bdestr; lia).
  assert (Hlen : forall b n w, (length (digit_loop b n w) <= n)%nat).
  { intros b n. induction n as [|n IH]; intros w; cbn [digit_loop]; [done |].
    destruct (w =? 0); simpl; [lia |]. specialize (IH (w / b)). lia. }
  destruct (Z.eqb_spec v 0) as [-> | Hne]; [split; [done | split; [done | simpl; lia]] |].
  split; [| split; [intros _ |]].
  - rewrite !parse_digits by (done || (simpl; lia) || (unfold dec_char; intros; lia)).
    split; [done | split; [done |]]. intros Hv'. by rewrite parse_digits by (done || (simpl; lia)).
  - split; apply head_digit; try done; try (simpl; lia).
    + unfold dec_char. intros; lia.
    + unfold kHexDigits. intros d Hd. bdestr; lia.
  - rewrite !length_map, !length_rev. split; apply Hlen.
Qed.

Lemma print_roundtrip_witness :
  print_u64_bytes 1024 = chars "1024" /\ puthex_bytes 16 0x4404FF = chars "4404ff" /\
  ((parse 10 (fun c => c - 48) (print_u64_bytes 1024) = 1024 /\ parse 16 hex_val (puthex_bytes 16 1024) = 1024 /\
    (1024 < 2 ^ 32 -> parse 16 hex_val (puthex_bytes 8 1024) = 1024)) /\
   (1024 <> 0 -> head (print_u64_bytes 1024) <> Some 48 /\ head (puthex_bytes 16 1024) <> Some 48) /\
   (length (print_u64_bytes 1024) <= 31 /\ length (puthex_bytes 16 1024) <= 16)%nat).
Proof. split; [reflexivity | split; [reflexivity |]]. apply (print_roundtrip 1024). lia. Defined.

(** against a transmitter that drains, [uart_puts] terminates having written
    to the data register exactly the bytes of the string, a carriage return
    before each newline, after consuming exactly that many ready readings. *)
Theorem uart_puts_sends s u rest :
  drains (length (puts_bytes s)) (fr_reads u) rest ->
  exists u', uart_puts s u = Some u' /\ fr_reads u' = rest /\ g_uart_base u' = g_uart_base u /\
    mmio_writes u' = mmio_writes u ++ map (fun c => (g_uart_base u + UARTDR, wrap32 c)) (puts_bytes s).
Proof. apply puts_spec. Qed.

Lemma uart_puts_sends_witness :
  let u := Uart 0x9000000 24000000 [0; 32; 32; 16; 64; 7] [] in
  exists u', uart_puts [104; 10] u = Some u' /\ fr_reads u' = [7] /\ g_uart_base u' = g_uart_base u /\
    mmio_writes u' = mmio_writes u ++ map (fun c => (g_uart_base u + UARTDR, wrap32 c)) (puts_bytes [104; 10]).
Proof.
  intros u. apply (uart_puts_sends [104; 10] u [7]). unfold u; simpl.
  apply (drains_S _ [] 0); [constructor | done |].
  apply (drains_S _ [32; 32] 16); [repeat constructor; done | done |].
  apply (drains_S _ [] 64); [constructor | done | constructor].
Defined.

(** the divisor [uart_init] programs is the rounded [64 * clock / (16 * baud)]
    for every 32-bit clock, the fraction register gets less than 64, the integer
    register is never 0, and the port is enabled last, after being disabled first. *)
Theorem uart_init_baud u :
  0 < g_uart_clock_hz u < 2 ^ 32 ->
  exists ibrd fbrd,
    mmio_writes (uart_init u) = mmio_writes u ++
      map (fun w => (g_uart_base u + w.1, w.2))
        [(UARTCR, 0); (UARTIMSC, 0); (UARTIBRD, ibrd); (UARTFBRD, fbrd); (UARTLCR_H, 0x70); (UARTCR, 0x301)] /\
    0 < ibrd < 2 ^ 16 /\ 0 <= fbrd < 64 /\
    (115200 * 16 <= g_uart_clock_hz u ->
      2 * Z.abs (115200 * (64 * ibrd + fbrd) - 4 * g_uart_clock_hz u) <= 115200).
Proof.
  intros Hc. unfold uart_init. rewrite (proj2 (Z.eqb_neq _ _)) by lia. cbv zeta.
  set (c := g_uart_clock_hz u) in *. unfold bauddiv_x64.
  rewrite (wrap64_small (c * 4 + _)) by (change (115200 / 2) with 57600; lia).
  change (115200 / 2) with 57600. set (d := (c * 4 + 57600) / 115200).
  assert (Hd : 115200 * d <= c * 4 + 57600 < 115200 * d + 115200) by (unfold d; zlia).
  assert (Hd' : 0 <= d / 64 < 2 ^ 16 /\ 0 <= d mod 64 < 64) by (zlia). clearbody d.
  assert (W : forall z, 0 <= z < 2 ^ 32 -> wrap32 z = z) by (intros; apply Z.mod_small; done).
  rewrite !(W (d / 64)), !(W (d mod 64)) by lia.
  exists (if d / 64 =? 0 then 1 else d / 64), (d mod 64). unfold mmio_write. cbn [mmio_writes g_uart_base].
  rewrite <- !app_assoc. split.
  - rewrite (W (if d / 64 =? 0 then 1 else d / 64)) by (bdestr; lia). rewrite (W (d mod 64)) by lia. reflexivity.
  - split; [bdestr; lia | split; [lia |]]. intros Hlo. destruct (Z.eqb_spec (d / 64) 0); zlia.
Qed.

Lemma uart_init_baud_witness :
  let u := Uart 0x9000000 24000000 [] [] in
  exists ibrd fbrd,
    mmio_writes (uart_init u) = mmio_writes u ++
      map (fun w => (g_uart_base u + w.1, w.2))
        [(UARTCR, 0); (UARTIMSC, 0); (UARTIBRD, ibrd); (UARTFBRD, fbrd); (UARTLCR_H, 0x70); (UARTCR, 0x301)] /\
    0 < ibrd < 2 ^ 16 /\ 0 <= fbrd < 64 /\
    (115200 * 16 <= g_uart_clock_hz u ->
      2 * Z.abs (115200 * (64 * ibrd + fbrd) - 4 * g_uart_clock_hz u) <= 115200).
Proof. intros u. apply (uart_init_baud u). simpl. lia. Defined.
