(* ===== verification/Kstate.v ===== *)
(** * The kernel state and its control monad

    The data every scheduling component shares: the thread objects
    ([src/include/thread.h]), the mutexes and semaphores ([src/include/sync.h]),
    the CPU-local block ([src/include/arch/cpu_local.h]), the statics of
    [src/src/thread.cc], and what lies below them (heap, RAM, page tables, FP
    registers, interrupt mask, console bytes).  Objects are stored by address, so
    aliasing is the code's: two pointers name one thread exactly when they are
    equal.  Code that may switch threads lives in the monad [K]. *)

From Stdlib Require Import String.
From S2P Require Import Prelude Mem Kmem MemPool Pte Uart.

(** ** Data *)

Record Thread := MkThread {
  t_sp : Z;
  t_entry : Z;
  t_arg : Z;
  t_next : Z;
  t_id : Z;
  t_stack_base : Z;
  t_stack_size : Z;
  t_budget : Z;
  t_base_priority : Z;
  t_effective_priority : Z;
  t_state : Z;
  t_wait_next : Z;
  t_waiting_on : Z;
  t_owned_mutexes : Z;
  t_fpsimd_valid : Z;
  t_fpsimd_vregs : list Z;
  t_fpcr : Z;
  t_fpsr : Z
}.

Record mutex := Mutex {
  owner : Z;
  waiters : Z;
  owner_next : Z;
  pi_enabled : Z
}.

Record semaphore := Semaphore {
  count : Z;
  swaiters : Z
}.

Record cpu_local := CpuLocal {
  irq_stack_top : Z;
  current_thread : Z;
  preempt_cnt : Z;
  need_resched : Z;
  ticks : Z;
  irq_depth : Z
}.

(** The FP/SIMD registers of the core: the 512 bytes of q0..q31, FPCR, FPSR. *)
Record fpregs := FpRegs {
  hw_q : list Z;
  hw_fpcr : Z;
  hw_fpsr : Z
}.

Record kst := Kst {
  threads : gmap Z Thread;
  mutexes : gmap Z mutex;
  sems : gmap Z semaphore;
  rq_head : Z;
  rq_tail : Z;
  next_thread_id : Z;
  g_thread_pool : mem_pool;
  g_thread_pool_inited : Z;
  cpu : cpu_local;
  hw : fpregs;
  heap : kmem;
  ram : mem;
  mmu : mmu_st;
  daif : Z;
  out : list Z
}.

(** The build's configuration: scheduling policy, priority inheritance, lock
    dependency checking, and what the linker places. *)
Record config := Config {
  sched_policy_prio : bool;
  cfg_mutex_pi : bool;
  lockdep_enabled : bool;
  guard_page : Z -> mmu_st -> Z * mmu_st;
  trampoline : Z;
  preempt_return_addr : Z
}.

Definition fp_zeros : list Z := replicate 512 0.

Definition zero_thread : Thread :=
  MkThread 0 0 0 0 0 0 0 0 0 0 0 0 0 0 0 fp_zeros 0 0.

Definition zero_mutex : mutex := Mutex 0 0 0 0.

Definition zero_sem : semaphore := Semaphore 0 0.

(** ** Field updates *)

Definition set_t_next (v : Z) (x : Thread) : Thread :=
  MkThread (t_sp x) (t_entry x) (t_arg x) v (t_id x) (t_stack_base x) (t_stack_size x) (t_budget
    x) (t_base_priority x) (t_effective_priority x) (t_state x) (t_wait_next x) (t_waiting_on x)
    (t_owned_mutexes x) (t_fpsimd_valid x) (t_fpsimd_vregs x) (t_fpcr x) (t_fpsr x).

Definition set_t_budget (v : Z) (x : Thread) : Thread :=
  MkThread (t_sp x) (t_entry x) (t_arg x) (t_next x) (t_id x) (t_stack_base x) (t_stack_size x)
    v (t_base_priority x) (t_effective_priority x) (t_state x) (t_wait_next x) (t_waiting_on x)
    (t_owned_mutexes x) (t_fpsimd_valid x) (t_fpsimd_vregs x) (t_fpcr x) (t_fpsr x).

Definition set_t_base_priority (v : Z) (x : Thread) : Thread :=
  MkThread (t_sp x) (t_entry x) (t_arg x) (t_next x) (t_id x) (t_stack_base x) (t_stack_size x)
    (t_budget x) v (t_effective_priority x) (t_state x) (t_wait_next x) (t_waiting_on x)
    (t_owned_mutexes x) (t_fpsimd_valid x) (t_fpsimd_vregs x) (t_fpcr x) (t_fpsr x).

Definition set_t_effective_priority (v : Z) (x : Thread) : Thread :=
  MkThread (t_sp x) (t_entry x) (t_arg x) (t_next x) (t_id x) (t_stack_base x) (t_stack_size x)
    (t_budget x) (t_base_priority x) v (t_state x) (t_wait_next x) (t_waiting_on x)
    (t_owned_mutexes x) (t_fpsimd_valid x) (t_fpsimd_vregs x) (t_fpcr x) (t_fpsr x).

Definition set_t_state (v : Z) (x : Thread) : Thread :=
  MkThread (t_sp x) (t_entry x) (t_arg x) (t_next x) (t_id x) (t_stack_base x) (t_stack_size x)
    (t_budget x) (t_base_priority x) (t_effective_priority x) v (t_wait_next x) (t_waiting_on x)
    (t_owned_mutexes x) (t_fpsimd_valid x) (t_fpsimd_vregs x) (t_fpcr x) (t_fpsr x).

Definition set_t_wait_next (v : Z) (x : Thread) : Thread :=
  MkThread (t_sp x) (t_entry x) (t_arg x) (t_next x) (t_id x) (t_stack_base x) (t_stack_size x)
    (t_budget x) (t_base_priority x) (t_effective_priority x) (t_state x) v (t_waiting_on x)
    (t_owned_mutexes x) (t_fpsimd_valid x) (t_fpsimd_vregs x) (t_fpcr x) (t_fpsr x).

Definition set_t_waiting_on (v : Z) (x : Thread) : Thread :=
  MkThread (t_sp x) (t_entry x) (t_arg x) (t_next x) (t_id x) (t_stack_base x) (t_stack_size x)
    (t_budget x) (t_base_priority x) (t_effective_priority x) (t_state x) (t_wait_next x) v
    (t_owned_mutexes x) (t_fpsimd_valid x) (t_fpsimd_vregs x) (t_fpcr x) (t_fpsr x).

Definition set_t_owned_mutexes (v : Z) (x : Thread) : Thread :=
  MkThread (t_sp x) (t_entry x) (t_arg x) (t_next x) (t_id x) (t_stack_base x) (t_stack_size x)
    (t_budget x) (t_base_priority x) (t_effective_priority x) (t_state x) (t_wait_next x)
    (t_waiting_on x) v (t_fpsimd_valid x) (t_fpsimd_vregs x) (t_fpcr x) (t_fpsr x).

Definition set_owner (v : Z) (x : mutex) : mutex :=
  Mutex v (waiters x) (owner_next x) (pi_enabled x).

Definition set_waiters (v : Z) (x : mutex) : mutex :=
  Mutex (owner x) v (owner_next x) (pi_enabled x).

Definition set_owner_next (v : Z) (x : mutex) : mutex :=
  Mutex (owner x) (waiters x) v (pi_enabled x).

Definition set_pi_enabled (v : Z) (x : mutex) : mutex :=
  Mutex (owner x) (waiters x) (owner_next x) v.

Definition set_current_thread (v : Z) (x : cpu_local) : cpu_local :=
  CpuLocal (irq_stack_top x) v (preempt_cnt x) (need_resched x) (ticks x) (irq_depth x).

Definition set_preempt_cnt (v : Z) (x : cpu_local) : cpu_local :=
  CpuLocal (irq_stack_top x) (current_thread x) v (need_resched x) (ticks x) (irq_depth x).

Definition set_need_resched (v : Z) (x : cpu_local) : cpu_local :=
  CpuLocal (irq_stack_top x) (current_thread x) (preempt_cnt x) v (ticks x) (irq_depth x).

Definition set_ticks (v : Z) (x : cpu_local) : cpu_local :=
  CpuLocal (irq_stack_top x) (current_thread x) (preempt_cnt x) (need_resched x) v (irq_depth
    x).

Definition set_irq_depth (v : Z) (x : cpu_local) : cpu_local :=
  CpuLocal (irq_stack_top x) (current_thread x) (preempt_cnt x) (need_resched x) (ticks x) v.

Definition set_threads (v : gmap Z Thread) (x : kst) : kst :=
  Kst v (mutexes x) (sems x) (rq_head x) (rq_tail x) (next_thread_id x) (g_thread_pool x)
    (g_thread_pool_inited x) (cpu x) (hw x) (heap x) (ram x) (mmu x) (daif x) (out x).

Definition set_mutexes (v : gmap Z mutex) (x : kst) : kst :=
  Kst (threads x) v (sems x) (rq_head x) (rq_tail x) (next_thread_id x) (g_thread_pool x)
    (g_thread_pool_inited x) (cpu x) (hw x) (heap x) (ram x) (mmu x) (daif x) (out x).

Definition set_sems (v : gmap Z semaphore) (x : kst) : kst :=
  Kst (threads x) (mutexes x) v (rq_head x) (rq_tail x) (next_thread_id x) (g_thread_pool x)
    (g_thread_pool_inited x) (cpu x) (hw x) (heap x) (ram x) (mmu x) (daif x) (out x).

Definition set_rq_head (v : Z) (x : kst) : kst :=
  Kst (threads x) (mutexes x) (sems x) v (rq_tail x) (next_thread_id x) (g_thread_pool x)
    (g_thread_pool_inited x) (cpu x) (hw x) (heap x) (ram x) (mmu x) (daif x) (out x).

Definition set_rq_tail (v : Z) (x : kst) : kst :=
  Kst (threads x) (mutexes x) (sems x) (rq_head x) v (next_thread_id x) (g_thread_pool x)
    (g_thread_pool_inited x) (cpu x) (hw x) (heap x) (ram x) (mmu x) (daif x) (out x).

Definition set_next_thread_id (v : Z) (x : kst) : kst :=
  Kst (threads x) (mutexes x) (sems x) (rq_head x) (rq_tail x) v (g_thread_pool x)
    (g_thread_pool_inited x) (cpu x) (hw x) (heap x) (ram x) (mmu x) (daif x) (out x).

Definition set_g_thread_pool (v : mem_pool) (x : kst) : kst :=
  Kst (threads x) (mutexes x) (sems x) (rq_head x) (rq_tail x) (next_thread_id x) v
    (g_thread_pool_inited x) (cpu x) (hw x) (heap x) (ram x) (mmu x) (daif x) (out x).

Definition set_g_thread_pool_inited (v : Z) (x : kst) : kst :=
  Kst (threads x) (mutexes x) (sems x) (rq_head x) (rq_tail x) (next_thread_id x) (g_thread_pool
    x) v (cpu x) (hw x) (heap x) (ram x) (mmu x) (daif x) (out x).

Definition set_cpu (v : cpu_local) (x : kst) : kst :=
  Kst (threads x) (mutexes x) (sems x) (rq_head x) (rq_tail x) (next_thread_id x) (g_thread_pool
    x) (g_thread_pool_inited x) v (hw x) (heap x) (ram x) (mmu x) (daif x) (out x).

Definition set_hw (v : fpregs) (x : kst) : kst :=
  Kst (threads x) (mutexes x) (sems x) (rq_head x) (rq_tail x) (next_thread_id x) (g_thread_pool
    x) (g_thread_pool_inited x) (cpu x) v (heap x) (ram x) (mmu x) (daif x) (out x).

Definition set_heap (v : kmem) (x : kst) : kst :=
  Kst (threads x) (mutexes x) (sems x) (rq_head x) (rq_tail x) (next_thread_id x) (g_thread_pool
    x) (g_thread_pool_inited x) (cpu x) (hw x) v (ram x) (mmu x) (daif x) (out x).

Definition set_ram (v : mem) (x : kst) : kst :=
  Kst (threads x) (mutexes x) (sems x) (rq_head x) (rq_tail x) (next_thread_id x) (g_thread_pool
    x) (g_thread_pool_inited x) (cpu x) (hw x) (heap x) v (mmu x) (daif x) (out x).

Definition set_mmu (v : mmu_st) (x : kst) : kst :=
  Kst (threads x) (mutexes x) (sems x) (rq_head x) (rq_tail x) (next_thread_id x) (g_thread_pool
    x) (g_thread_pool_inited x) (cpu x) (hw x) (heap x) (ram x) v (daif x) (out x).

Definition set_daif (v : Z) (x : kst) : kst :=
  Kst (threads x) (mutexes x) (sems x) (rq_head x) (rq_tail x) (next_thread_id x) (g_thread_pool
    x) (g_thread_pool_inited x) (cpu x) (hw x) (heap x) (ram x) (mmu x) v (out x).

Definition set_out (v : list Z) (x : kst) : kst :=
  Kst (threads x) (mutexes x) (sems x) (rq_head x) (rq_tail x) (next_thread_id x) (g_thread_pool
    x) (g_thread_pool_inited x) (cpu x) (hw x) (heap x) (ram x) (mmu x) (daif x) v.

(** ** Objects by address *)

Definition thr (s : kst) (a : Z) : Thread := default zero_thread (threads s !! a).

Definition mtx (s : kst) (a : Z) : mutex := default zero_mutex (mutexes s !! a).

Definition sem (s : kst) (a : Z) : semaphore := default zero_sem (sems s !! a).

Definition upd_thr (a : Z) (f : Thread -> Thread) (s : kst) : kst :=
  set_threads (<[a := f (thr s a)]> (threads s)) s.

Definition upd_mtx (a : Z) (f : mutex -> mutex) (s : kst) : kst :=
  set_mutexes (<[a := f (mtx s a)]> (mutexes s)) s.

Definition upd_sem (a : Z) (f : semaphore -> semaphore) (s : kst) : kst :=
  set_sems (<[a := f (sem s a)]> (sems s)) s.

Definition upd_cpu (f : cpu_local -> cpu_local) (s : kst) : kst := set_cpu (f (cpu s)) s.

(** The running thread, as [cpu_local()->current_thread]. *)
Definition cur (s : kst) : Z := current_thread (cpu s).

(** Console output. *)
Definition puts (m : string) (s : kst) : kst := set_out (out s ++ puts_bytes (chars m)) s.

Definition putc (c : Z) (s : kst) : kst := set_out (out s ++ [c]) s.

Definition print_u64 (v : Z) (s : kst) : kst := set_out (out s ++ print_u64_bytes v) s.

Definition newline : string := String (Ascii.ascii_of_nat 10) EmptyString.

(** The state before [sched_init], over a given heap. *)
Definition boot_state (h : kmem) (m : mem) (u : mmu_st) : kst :=
  Kst ∅ ∅ ∅ nullptr nullptr 1 (Pool 0 0 0 0 0) 0 (CpuLocal 0 nullptr 0 0 0 0) (FpRegs fp_zeros 0 0) h m u 0 [].

Definition blank_state : kst := boot_state (Kmem 0 0) ∅ (Mmu ∅ 0 0 []).

(** Fuel of the loops that follow thread or mutex links: more links than there
    are objects means a cycle the loop never leaves. *)
Definition kfuel (s : kst) : nat := size (threads s).

(** ** The control monad *)

(** The outcome of a piece of kernel code: it returns; or it reaches
    [arch_switch(&cur->sp, next->sp)], suspending [cur] with the continuation to
    run when it is switched back in; or it enters its final wait loop; or one of
    its loops never ends ([KStuck]: out of fuel). *)
Inductive kres (A : Type) : Type :=
| KDone (a : A) (s : kst)
| KSwitch (cur next : Z) (s : kst) (k : kst -> kres A)
| KHalt (s : kst)
| KStuck.

Arguments KDone {A} a s.
Arguments KSwitch {A} cur next s k.
Arguments KHalt {A} s.
Arguments KStuck {A}.

Fixpoint kbind {A B : Type} (r : kres A) (f : A -> kst -> kres B) : kres B :=
  match r with
  | KDone a s => f a s
  | KSwitch c n s k => KSwitch c n s (fun s' => kbind (k s') f)
  | KHalt s => KHalt s
  | KStuck => KStuck
  end.

Definition K (A : Type) : Type := kst -> kres A.

#[export] Instance K_ret : MRet K := fun A a s => KDone a s.

#[export] Instance K_bind : MBind K := fun A B f m s => kbind (m s) f.

Definition get : K kst := fun s => KDone s s.

Definition modify (f : kst -> kst) : K unit := fun s => KDone () (f s).

Definition halt {A : Type} : K A := fun s => KHalt s.

(** A loop that ran out of fuel does not return. *)
Definition of_opt {A : Type} (o : option A) : K A := fun s =>
  match o with Some a => KDone a s | None => KStuck end.

Definition modify_opt (f : kst -> option kst) : K unit := fun s =>
  match f s with Some s' => KDone () s' | None => KStuck end.

(** ** Reasoning *)

(** [kwp G R Q r]: the code whose outcome is [r] establishes [Q] when it
    returns; at every switch it establishes the guarantee [G], and it is resumed
    in states that satisfy the rely [R]; it never gets stuck. *)
Fixpoint kwp {A : Type} (G : Z -> Z -> kst -> Prop) (R : Z -> kst -> kst -> Prop)
    (Q : A -> kst -> Prop) (r : kres A) : Prop :=
  match r with
  | KDone a s => Q a s
  | KSwitch c n s k => G c n s /\ forall s', R c s s' -> kwp G R Q (k s')
  | KHalt s => True
  | KStuck => False
  end.

Section Kwp.

Context (G : Z -> Z -> kst -> Prop) (R : Z -> kst -> kst -> Prop).

Lemma kwp_bind {A B} (Q : B -> kst -> Prop) (r : kres A) f :
  kwp G R (fun a s => kwp G R Q (f a s)) r -> kwp G R Q (kbind r f).
Proof.
  induction r as [a s | c n s k IH | s |]; simpl; [done | | done | done].
  intros [HG H]. split; [done |]. intros s' Hs'. apply IH, H, Hs'.
Qed.

Lemma kwp_mono {A} (Q Q' : A -> kst -> Prop) (r : kres A) :
  (forall a s, Q a s -> Q' a s) -> kwp G R Q r -> kwp G R Q' r.
Proof.
  intros HQ. induction r as [a s | c n s k IH | s |]; simpl; [auto | | done | done].
  intros [HG H]. split; [done |]. intros s' Hs'. apply IH, H, Hs'.
Qed.

End Kwp.

Lemma thr_upd a f s b : thr (upd_thr a f s) b = if a =? b then f (thr s b) else thr s b.
Proof.
  unfold thr, upd_thr. cbn [threads set_threads]. rewrite lookup_insert.
  destruct (Z.eqb_spec a b) as [-> |]; [by rewrite decide_True | by rewrite decide_False].
Qed.

Lemma thr_upd_eq a f s : thr (upd_thr a f s) a = f (thr s a).
Proof. by rewrite thr_upd, Z.eqb_refl. Qed.

Lemma thr_upd_ne a f s b : a <> b -> thr (upd_thr a f s) b = thr s b.
Proof. intros H. rewrite thr_upd. by apply Z.eqb_neq in H as ->. Qed.

Lemma mtx_upd a f s b : mtx (upd_mtx a f s) b = if a =? b then f (mtx s b) else mtx s b.
Proof.
  unfold mtx, upd_mtx. cbn [mutexes set_mutexes]. rewrite lookup_insert.
  destruct (Z.eqb_spec a b) as [-> |]; [by rewrite decide_True | by rewrite decide_False].
Qed.

Lemma mtx_upd_eq a f s : mtx (upd_mtx a f s) a = f (mtx s a).
Proof. by rewrite mtx_upd, Z.eqb_refl. Qed.

Lemma mtx_upd_ne a f s b : a <> b -> mtx (upd_mtx a f s) b = mtx s b.
Proof. intros H. rewrite mtx_upd. by apply Z.eqb_neq in H as ->. Qed.

Lemma sem_upd_eq a f s : sem (upd_sem a f s) a = f (sem s a).
Proof. unfold sem, upd_sem. cbn [sems set_sems]. by rewrite lookup_insert_eq. Qed.

Lemma kfuel_upd a f s : threads s !! a <> None -> kfuel (upd_thr a f s) = kfuel s.
Proof.
  intros H. unfold kfuel, upd_thr. cbn [threads set_threads].
  destruct (threads s !! a) eqn:E; [| done]. rewrite map_size_insert, E. done.
Qed.

#[export] Hint Rewrite thr_upd_eq mtx_upd_eq sem_upd_eq : mk.
