(* ===== verification/Runq.v ===== *)
(** * [src/src/thread.cc]: the run queue and the choice of the next thread

    The run queue is a singly linked circular list threaded through
    [Thread::next] with head and tail pointers.  [rq_rep s l] states that it
    holds exactly the threads [l], in order; every operation is shown to be the
    corresponding operation on [l]. *)

From S2P Require Import Prelude Kstate.

Definition kThreadReady : Z := 0.

Definition kThreadBlocked : Z := 1.

Definition is_ready (s : kst) (t : Z) : bool :=
  negb (t =? nullptr) && (t_state (thr s t) =? kThreadReady).

Definition nxt (s : kst) (a : Z) : Z := t_next (thr s a).

Definition set_next (t v : Z) : kst -> kst := upd_thr t (set_t_next v).

Definition rq_append (t : Z) (s : kst) : kst :=
  if t =? nullptr then s
  else if rq_head s =? nullptr then set_next t t (set_rq_tail t (set_rq_head t s))
  else
    let s := set_next t (rq_head s) s in
    let s := set_next (rq_tail s) t s in
    set_rq_tail t s.

(** [while (prev->next != t && prev->next != rq_head) prev = prev->next;] *)
Fixpoint find_prev (n : nat) (nx : Z -> Z) (t head prev : Z) : option Z :=
  match n with
  | O => None
  | Datatypes.S n' =>
      if negb (nx prev =? t) && negb (nx prev =? head) then find_prev n' nx t head (nx prev)
      else Some prev
  end.

Definition rq_remove (t : Z) (s : kst) : option kst :=
  if (rq_head s =? nullptr) || (t =? nullptr) then Some s
  else if (rq_head s =? t) && (rq_tail s =? t) then
    Some (set_next t nullptr (set_rq_tail nullptr (set_rq_head nullptr s)))
  else
    prev ← find_prev (kfuel s) (nxt s) t (rq_head s) (rq_head s);
    if negb (nxt s prev =? t) then Some s
    else
      let s := set_next prev (nxt s t) s in
      let s := if rq_head s =? t then set_rq_head (nxt s t) s else s in
      let s := if rq_tail s =? t then set_rq_tail prev s else s in
      Some (set_next t nullptr s).

(** The [do .. while (t && t != start)] loops over the ring; the body either
    goes on with a new accumulator or returns. *)
Fixpoint ring_loop {A R : Type} (nx : Z -> Z) (body : Z -> A -> A + R) (n : nat) (start t : Z) (a : A)
  : option (A + R) :=
  match n with
  | O => None
  | Datatypes.S n' =>
      match body t a with
      | inr r => Some (inr r)
      | inl a' =>
          let t' := nx t in
          if (t' =? nullptr) || (t' =? start) then Some (inl a') else ring_loop nx body n' start t' a'
      end
  end.

Definition max_body (s : kst) (t best : Z) : Z + Empty_set :=
  inl (if is_ready s t && (best <? t_effective_priority (thr s t)) then t_effective_priority (thr s t) else best).

Definition rq_max_ready_priority (s : kst) : option Z :=
  if rq_head s =? nullptr then Some (-1)
  else
    r ← @ring_loop Z Empty_set (nxt s) (max_body s) (kfuel s) (rq_head s) (rq_head s) (-1);
    match r with inl best => Some best | inr e => match (e : Empty_set) with end end.

Definition gt_body (s : kst) (prio t : Z) (_ : unit) : unit + bool :=
  if is_ready s t && (prio <? t_effective_priority (thr s t)) then inr true else inl ().

Definition rq_has_ready_prio_gt (prio : Z) (s : kst) : option bool :=
  if rq_head s =? nullptr then Some false
  else
    r ← ring_loop (nxt s) (gt_body s prio) (kfuel s) (rq_head s) (rq_head s) ();
    match r with inl _ => Some false | inr b => Some b end.

Definition pick_body (s : kst) (cur best_prio : Z) (exclude_current : bool) (t : Z) (_ : unit) : unit + Z :=
  if is_ready s t && (t_effective_priority (thr s t) =? best_prio) && (negb exclude_current || negb (t =? cur))
  then inr t else inl ().

Definition prio_pick_next (cur : Z) (exclude_current rotate_equal : bool) (s : kst) : option Z :=
  if rq_head s =? nullptr then Some cur
  else
    best_prio ← rq_max_ready_priority s;
    if best_prio <? 0 then Some cur
    else if negb exclude_current && negb rotate_equal && negb (cur =? nullptr) && is_ready s cur &&
            (t_effective_priority (thr s cur) =? best_prio) then Some cur
    else
      let start :=
        if (exclude_current || rotate_equal) && negb (cur =? nullptr) && negb (nxt s cur =? nullptr)
        then nxt s cur else rq_head s in
      r ← ring_loop (nxt s) (pick_body s cur best_prio exclude_current) (kfuel s) start start ();
      match r with
      | inr t => Some t
      | inl _ =>
          if negb (cur =? nullptr) && is_ready s cur && (t_effective_priority (thr s cur) =? best_prio)
          then Some cur else Some (rq_head s)
      end.

(** ** Representation *)

(** The queue holds exactly [l]; threads outside it have a null link. *)
Record rq_rep (s : kst) (l : list Z) : Prop := {
  rq_hd : rq_head s = hd nullptr l;
  rq_tl : rq_tail s = List.last l nullptr;
  rq_linked : linked (nxt s) l (hd nullptr l);
  rq_nodup : NoDup l;
  rq_nonnull : nullptr ∉ l;
  rq_known : forall t, t ∈ l -> threads s !! t <> None;
  rq_off : forall t, t ∉ l -> nxt s t = nullptr
}.

Lemma rq_rep_length s l : rq_rep s l -> (length l <= kfuel s)%nat.
Proof.
  intros H. unfold kfuel. rewrite <- size_dom.
  rewrite <- (size_list_to_set (C := gset Z) l) by apply H.
  apply subseteq_size. intros x Hx. apply elem_of_list_to_set in Hx.
  apply elem_of_dom. apply (rq_known s l H) in Hx. by destruct (threads s !! x); [eexists |].
Qed.

Lemma nxt_set_next t v s b : nxt (set_next t v s) b = if t =? b then v else nxt s b.
Proof. unfold nxt, set_next. rewrite thr_upd. by destruct (t =? b). Qed.

Lemma nxt_set_next_ne t v s b : t <> b -> nxt (set_next t v s) b = nxt s b.
Proof. intros H. rewrite nxt_set_next. by apply Z.eqb_neq in H as ->. Qed.

Lemma known_set_next t v s b : threads s !! b <> None -> threads (set_next t v s) !! b <> None.
Proof.
  intros H. unfold set_next, upd_thr. simpl. rewrite lookup_insert. by destruct (decide (t = b)).
Qed.

(** [s'] differs from [s] in the queue only: the links and the two pointers. *)
Definition same_but_queue (s s' : kst) : Prop :=
  exists nx, (forall t, thr s' t = set_t_next (nx t) (thr s t)) /\
  (forall t, threads s !! t <> None -> threads s' !! t <> None) /\
  s' = set_rq_tail (rq_tail s') (set_rq_head (rq_head s') (set_threads (threads s') s)).

Lemma same_but_queue_refl s : same_but_queue s s.
Proof. exists (nxt s). split; [intros t; unfold nxt; by destruct (thr s t) | split; [done | by destruct s]]. Qed.

Lemma same_but_queue_next s s' t v : same_but_queue s s' -> same_but_queue s (set_next t v s').
Proof.
  intros (nx & Hnx & Hk & E). exists (fun b => if t =? b then v else nx b). split; [| split].
  - intros b. unfold set_next. rewrite thr_upd, Hnx. by destruct (t =? b).
  - intros b Hb. by apply known_set_next, Hk.
  - rewrite E at 1. done.
Qed.

Lemma same_but_queue_head s s' v : same_but_queue s s' -> same_but_queue s (set_rq_head v s').
Proof. intros (nx & Hnx & Hk & E). exists nx. split; [done | split; [done |]]. rewrite E at 1. done. Qed.

Lemma same_but_queue_tail s s' v : same_but_queue s s' -> same_but_queue s (set_rq_tail v s').
Proof. intros (nx & Hnx & Hk & E). exists nx. split; [done | split; [done |]]. rewrite E at 1. done. Qed.

#[export] Hint Resolve same_but_queue_refl same_but_queue_next same_but_queue_head same_but_queue_tail : mk.

Lemma hd_app_ne {A} (d : A) l1 l2 : l1 <> [] -> hd d (l1 ++ l2) = hd d l1.
Proof. by destruct l1. Qed.

Lemma last_In l : l <> [] -> List.last l nullptr ∈ l.
Proof.
  intros H. destruct (exists_last H) as (l' & x & ->). rewrite last_last. apply elem_of_app. right. by left.
Qed.

Lemma last_app_ne l1 l2 : l2 <> [] -> List.last (l1 ++ l2) nullptr = List.last l2 nullptr.
Proof. intros H. destruct (exists_last H) as (l' & x & ->). by rewrite app_assoc, !last_last. Qed.

(** ** Operations *)

Lemma rq_append_spec s l t :
  rq_rep s l -> t <> nullptr -> t ∉ l -> threads s !! t <> None ->
  rq_rep (rq_append t s) (l ++ [t]) /\ same_but_queue s (rq_append t s).
Proof.
  intros H Ht Hnin Hk. pose proof H as [Hh Htl Hl Hnd Hnn Hkn Hoff]. unfold rq_append.
  apply Z.eqb_neq in Ht as Ht'. rewrite Ht'. split; [| destruct (rq_head s =? nullptr); cbv zeta; eauto 6 with mk].
  rewrite Hh. destruct (decide (l = [])) as [-> | Hne].
  - simpl. split; simpl; try done.
    + split; [by rewrite nxt_set_next, Z.eqb_refl | done].
    + apply NoDup_singleton.
    + intros Ht0%list_elem_of_singleton. congruence.
    + intros x ->%list_elem_of_singleton.
      by apply (known_set_next t t (set_rq_tail t (set_rq_head t s))).
    + intros x Hx. rewrite list_elem_of_singleton in Hx. rewrite nxt_set_next_ne by congruence. apply (Hoff x).
      apply not_elem_of_nil.
  - destruct (exists_last Hne) as (l' & z & El).
    assert (Hhn : hd nullptr l <> nullptr)
      by (intros E; apply Hnn; rewrite <- E; destruct l; [done | by left]).
    rewrite (proj2 (Z.eqb_neq _ _)) by done. cbn [rq_tail set_next upd_thr set_threads]. rewrite Htl.
    assert (Hz : List.last l nullptr = z) by by rewrite El, last_last. rewrite Hz.
    assert (Hzl : z ∈ l) by (rewrite El; apply elem_of_app; right; by left).
    assert (Hzt : z <> t) by congruence. set (h := hd nullptr l) in *.
    set (s1 := set_next z t (set_next t h s)).
    assert (Hnx : forall b, nxt s1 b = if z =? b then t else if t =? b then h else nxt s b)
      by (intros b; unfold s1; by rewrite !nxt_set_next).
    split; change (nxt (set_rq_tail t s1)) with (nxt s1); change (threads (set_rq_tail t s1)) with (threads s1);
      cbn [rq_head rq_tail set_rq_tail]; rewrite ?hd_app_ne by done.
    + done.
    + by rewrite last_last.
    + fold h. rewrite El, linked_snoc, linked_snoc. rewrite !Hnx, !Z.eqb_refl, (proj2 (Z.eqb_neq z t)) by done.
      split; [split; [| done] | done]. rewrite El, linked_snoc in Hl. destruct Hl as [Hl _].
      eapply linked_ext; [| exact Hl]. intros x Hx. rewrite Hnx.
      rewrite El in Hnd. apply NoDup_app in Hnd as (_ & Hd & _).
      rewrite (proj2 (Z.eqb_neq z x)), (proj2 (Z.eqb_neq t x)); [done | ..].
      * intros ->. apply Hnin. rewrite El. apply elem_of_app. by left.
      * intros ->. apply (Hd x Hx). by left.
    + apply NoDup_app. split; [done | split; [| apply NoDup_singleton]].
      intros x Hx ->%list_elem_of_singleton. done.
    + rewrite elem_of_app, list_elem_of_singleton. intros [? | ?]; [done | congruence].
    + intros x Hx. unfold s1. do 2 apply known_set_next.
      apply elem_of_app in Hx as [Hx | ->%list_elem_of_singleton]; auto.
    + intros x Hx. rewrite elem_of_app, list_elem_of_singleton in Hx.
      rewrite Hnx, (proj2 (Z.eqb_neq z x)), (proj2 (Z.eqb_neq t x)); [apply Hoff; tauto | |];
        intros ->; tauto.
Qed.

(** Every link of a chain but the last leads to one of its later nodes. *)
Lemma linked_next_in nx a p x : linked nx a p -> x ∈ a -> nx x ∈ tl (a ++ [p]).
Proof.
  induction a as [|y a IH]; simpl; [by intros _ ?%not_elem_of_nil |].
  intros [Hy Ha] [-> | Hx]%elem_of_cons.
  - rewrite Hy. destruct a; [by left | by left].
  - specialize (IH Ha Hx). destruct a; [by apply not_elem_of_nil in Hx | by right].
Qed.

Lemma find_prev_spec nx t h a p n :
  linked nx a p -> (forall x, x ∈ a -> nx x <> t /\ nx x <> h) -> nx p = t \/ nx p = h ->
  (length a < n)%nat -> find_prev n nx t h (hd p a) = Some p.
Proof.
  revert n. induction a as [|x a IH]; intros n Hl Ha Hp Hn; (destruct n as [|n]; simpl in *; [lia |]).
  - destruct Hp as [-> | ->]; rewrite Z.eqb_refl; simpl; [done | by rewrite andb_false_r].
  - destruct (Ha x ltac:(left)) as [H1 H2].
    rewrite (proj2 (Z.eqb_neq _ _) H1), (proj2 (Z.eqb_neq _ _) H2). simpl. destruct Hl as [-> Hl].
    apply IH; [done | intros y Hy; apply Ha; by right | done | lia].
Qed.

(** The queue without [t]. *)
Definition rq_del (t : Z) (l : list Z) : list Z := filter (fun x => x <> t) l.

Lemma rq_del_notin t l : t ∉ l -> rq_del t l = l.
Proof.
  intros H. induction l as [|x l IH]; [done |]. apply not_elem_of_cons in H as [H1 H2].
  unfold rq_del in *. by rewrite filter_cons_True, IH by done.
Qed.

Lemma rq_del_split t l1 l2 : t ∉ l1 -> t ∉ l2 -> rq_del t (l1 ++ t :: l2) = l1 ++ l2.
Proof.
  intros H1 H2. unfold rq_del. rewrite filter_app, filter_cons_False by naive_solver.
  change (rq_del t l1 ++ rq_del t l2 = l1 ++ l2). by rewrite !rq_del_notin.
Qed.

Lemma rq_known_mono s s' l l' :
  rq_rep s l -> (forall t, threads s !! t <> None -> threads s' !! t <> None) -> l' ⊆ l ->
  forall t, t ∈ l' -> threads s' !! t <> None.
Proof. intros H Hs Hl t Ht. apply Hs, (rq_known s l H), Hl, Ht. Qed.

(** Taking a node out of a ring by redirecting its predecessor. *)
Lemma ring_unlink nx l1 p t l2 h :
  linked nx (l1 ++ p :: t :: l2) h -> NoDup (l1 ++ p :: t :: l2) ->
  linked (fun b => if p =? b then nx t else nx b) (l1 ++ p :: l2) h.
Proof.
  intros Hl Hnd. rewrite !linked_app in *. simpl in *. destruct Hl as (H1 & Hp & Ht & H2).
  apply NoDup_app in Hnd as (_ & Hd & Hnd). apply NoDup_cons in Hnd as [Hp2 Hnd].
  rewrite Z.eqb_refl. split; [| split; [done |]].
  - eapply linked_ext; [| exact H1]. intros x Hx. destruct (Z.eqb_spec p x) as [-> |]; [| done].
    exfalso. apply (Hd x Hx). by left.
  - eapply linked_ext; [| exact H2]. intros x Hx. destruct (Z.eqb_spec p x) as [-> |]; [| done].
    exfalso. apply Hp2. by right.
Qed.

Lemma linked_hd_ext nx l e e' : l <> [] -> linked nx l e -> (nx (List.last l nullptr) = e -> e = e') -> linked nx l e'.
Proof.
  intros Hne H He. destruct (exists_last Hne) as (l' & x & ->). rewrite last_last in He.
  apply linked_snoc in H as [H1 H2]. apply linked_snoc. split; [done | rewrite H2; auto].
Qed.

(** The redirection [rq_remove] performs once it has found [prev]. *)
Definition unlink (prev t : Z) (s : kst) : kst :=
  let s := set_next prev (nxt s t) s in
  let s := if rq_head s =? t then set_rq_head (nxt s t) s else s in
  let s := if rq_tail s =? t then set_rq_tail prev s else s in
  set_next t nullptr s.

Lemma unlink_facts prev t s :
  prev <> t ->
  let s' := unlink prev t s in
  rq_head s' = (if rq_head s =? t then nxt s t else rq_head s) /\
  rq_tail s' = (if rq_tail s =? t then prev else rq_tail s) /\
  (forall b, nxt s' b = if t =? b then nullptr else if prev =? b then nxt s t else nxt s b) /\
  (forall b, threads s !! b <> None -> threads s' !! b <> None) /\ same_but_queue s s'.
Proof.
  intros Hpt s'. unfold s', unlink. set (s1 := set_next prev (nxt s t) s).
  change (rq_head s1) with (rq_head s).
  assert (E : nxt s1 t = nxt s t) by (unfold s1; by rewrite nxt_set_next_ne). rewrite E. cbv zeta.
  assert (Hk : forall b s2, threads s2 = threads s1 ->
    threads s !! b <> None -> threads (set_next t nullptr s2) !! b <> None).
  { intros b s2 E2 Hb. apply known_set_next. rewrite E2. unfold s1. by apply known_set_next. }
  assert (Hn : forall b s2, threads s2 = threads s1 ->
    nxt (set_next t nullptr s2) b = if t =? b then nullptr else if prev =? b then nxt s t else nxt s b).
  { intros b s2 E2. rewrite nxt_set_next. destruct (t =? b); [done |].
    transitivity (nxt s1 b); [unfold nxt, thr; by rewrite E2 | unfold s1; by rewrite nxt_set_next]. }
  destruct (rq_head s =? t); cbn [rq_tail set_rq_head]; change (rq_tail s1) with (rq_tail s);
    destruct (rq_tail s =? t); repeat split; intros; auto; unfold s1; eauto 8 with mk.
Qed.

Lemma rq_remove_absent s l t : rq_rep s l -> t <> nullptr -> t ∉ l -> rq_remove t s = Some s.
Proof.
  intros H Ht Hnin. pose proof H as [Hh Htl Hl Hnd Hnn Hkn Hoff]. unfold rq_remove.
  rewrite (proj2 (Z.eqb_neq t nullptr) Ht), orb_false_r.
  destruct (Z.eqb_spec (rq_head s) nullptr) as [| Hh0]; [done |].
  destruct (exists_last (l := l)) as (a & z & El); [by intros -> |].
  assert (Hhl : rq_head s ∈ l) by (rewrite Hh; destruct l; [by destruct a | by left]).
  rewrite (proj2 (Z.eqb_neq (rq_head s) t)) by congruence. cbn [andb].
  set (h := rq_head s) in *. rewrite <- Hh, El in Hl. apply linked_snoc in Hl as [Ha Hz].
  assert (Hhd : hd z a = h) by (rewrite Hh, El; by destruct a).
  assert (Hf : find_prev (kfuel s) (nxt s) t h (hd z a) = Some z).
  { apply find_prev_spec; [done | | by right |].
    - intros x Hx. pose proof (linked_next_in _ _ _ _ Ha Hx) as Hin. rewrite <- El in Hin.
      destruct l as [|y l']; [by apply not_elem_of_nil in Hin |]. simpl in Hin, Hh. subst y. split.
      + intros E. rewrite E in Hin. apply Hnin. by right.
      + intros E. rewrite E in Hin. by apply NoDup_cons in Hnd as [? _].
    - apply rq_rep_length in H. rewrite El, length_app in H. simpl in H. lia. }
  rewrite Hhd in Hf. rewrite Hf. simpl. rewrite Hz, (proj2 (Z.eqb_neq h t)) by congruence. done.
Qed.

Lemma rq_remove_inner s l1 p t l2 :
  rq_rep s (l1 ++ p :: t :: l2) ->
  rq_remove t s = Some (unlink p t s) /\ rq_rep (unlink p t s) (l1 ++ p :: l2).
Proof.
  intros H. pose proof H as [Hh Htl Hl Hnd Hnn Hkn Hoff].
  assert (Hpt : p <> t).
  { intros ->. apply NoDup_app in Hnd as (_ & _ & Hnd). apply NoDup_cons in Hnd as [Hnd _]. apply Hnd. by left. }
  assert (Ht1 : t ∉ l1).
  { intros Hx. apply NoDup_app in Hnd as (_ & Hd & _). apply (Hd t Hx). right. by left. }
  set (l := l1 ++ p :: t :: l2) in *. set (h := rq_head s) in *.
  assert (Hhd : hd p l1 = h) by (rewrite Hh; unfold l; by destruct l1).
  assert (Hh0 : h <> nullptr) by (intros E; apply Hnn; rewrite <- E, <- Hhd; unfold l; destruct l1; simpl;
    [by left | by left]).
  assert (Hht : h <> t) by (rewrite <- Hhd; destruct l1; simpl; [done | intros ->; apply Ht1; by left]).
  assert (Htin : t ∈ l) by (unfold l; apply elem_of_app; right; right; by left).
  assert (Hnp : nxt s p = t) by (unfold l in Hl; apply linked_app in Hl as [_ Hl]; simpl in Hl; tauto).
  split.
  - unfold rq_remove. fold h.
    rewrite (proj2 (Z.eqb_neq h _) Hh0), (proj2 (Z.eqb_neq t nullptr)) by (intros ->; done).
    rewrite (proj2 (Z.eqb_neq h t) Hht). cbn [andb orb].
    assert (Hf : find_prev (kfuel s) (nxt s) t h (hd p l1) = Some p).
    { apply find_prev_spec; [| | by left |].
      - unfold l in Hl. by apply linked_app in Hl as [Hl _].
      - intros x Hx. unfold l in Hl. apply linked_app in Hl as [Hl _].
        pose proof (linked_next_in _ _ _ _ Hl Hx) as Hin.
        assert (Hnd' : NoDup (l1 ++ [p]) /\ t ∉ l1 ++ [p]).
        { unfold l in Hnd. replace (l1 ++ p :: t :: l2) with ((l1 ++ [p]) ++ t :: l2) in Hnd by by rewrite <- app_assoc.
          apply NoDup_app in Hnd as (Hnd & Hd & _). split; [done |]. intros Hx'. apply (Hd t Hx'). by left. }
        destruct Hnd' as [Hnd' Htn]. destruct l1 as [|y l1]; [by apply not_elem_of_nil in Hin |]. simpl in Hin, Hhd.
        subst y. split; intros E; rewrite E in Hin; [apply Htn; by right |].
        by apply NoDup_cons in Hnd' as [? _].
      - apply rq_rep_length in H. unfold l in H. rewrite length_app in H. simpl in H. lia. }
    rewrite Hhd in Hf. rewrite Hf. simpl. rewrite Hnp, Z.eqb_refl. done.
  - destruct (unlink_facts p t s Hpt) as (Uh & Ut & Un & Uk & _). fold h in Uh.
    rewrite (proj2 (Z.eqb_neq h t) Hht) in Uh.
    assert (Hsub : l1 ++ p :: l2 ⊆ l) by (intros x; unfold l; rewrite !elem_of_app, !elem_of_cons; tauto).
    assert (Hnt : t ∉ l1 ++ p :: l2).
    { rewrite elem_of_app, elem_of_cons. intros [? | [? | Ht2]]; [done | by apply Hpt |].
      unfold l in Hnd. apply NoDup_app in Hnd as (_ & _ & Hnd). apply NoDup_cons in Hnd as [_ Hnd].
      by apply NoDup_cons in Hnd as [? _]. }
    assert (Hhd2 : hd nullptr (l1 ++ p :: l2) = h) by (rewrite <- Hhd; by destruct l1).
    split.
    + by rewrite Uh, Hhd2.
    + rewrite Ut, Htl. unfold l. rewrite !last_app_ne by done. destruct l2 as [|y l2]; simpl.
      * by rewrite Z.eqb_refl.
      * rewrite (proj2 (Z.eqb_neq _ t)); [done |]. intros E. apply Hnt. rewrite <- E.
        apply elem_of_app. right. right. by apply (last_In (y :: l2)).
    + rewrite Hhd2. replace (hd nullptr l) with h in Hl by by rewrite <- Hhd; unfold l; destruct l1.
      pose proof (ring_unlink _ _ _ _ _ _ Hl Hnd) as Hr. eapply linked_ext; [| exact Hr].
      intros x Hx. rewrite Un. rewrite (proj2 (Z.eqb_neq t x)) by (intros ->; done). done.
    + eapply sublist_NoDup; [exact Hnd |]. unfold l. apply sublist_app; [done |].
      apply sublist_skip, sublist_cons. done.
    + intros Hx. by apply Hnn, Hsub.
    + eapply rq_known_mono; eauto.
    + intros x Hx. rewrite Un. destruct (Z.eqb_spec t x) as [-> |]; [done |].
      destruct (Z.eqb_spec p x) as [-> |].
      { exfalso. apply Hx, elem_of_app. right. by left. }
      apply Hoff. unfold l. rewrite elem_of_app, !elem_of_cons in *. naive_solver.
Qed.

Lemma rq_remove_head s t y l2 :
  rq_rep s (t :: y :: l2) ->
  exists p, p <> t /\ rq_remove t s = Some (unlink p t s) /\ rq_rep (unlink p t s) (y :: l2).
Proof.
  intros H. pose proof H as [Hh Htl Hl Hnd Hnn Hkn Hoff].
  apply NoDup_cons in Hnd as [Htn Hnd']. simpl in Hh.
  destruct (exists_last (l := y :: l2)) as (a & p & El); [done |].
  assert (Hpin : p ∈ y :: l2) by (rewrite El; apply elem_of_app; right; by left).
  assert (Hpt : p <> t) by (intros ->; done).
  assert (Ht0 : t <> nullptr) by (intros ->; apply Hnn; by left).
  rewrite El in Hl. cbn [hd] in Hl. change (t :: a ++ [p]) with ((t :: a) ++ [p]) in Hl.
  apply linked_snoc in Hl as [Ha Hz].
  assert (Hnt : nxt s t = y).
  { destruct Ha as [Ha _]. rewrite Ha. by destruct a; injection El. }
  exists p. split; [done | split].
  - unfold rq_remove. rewrite Hh, Htl, (proj2 (Z.eqb_neq t nullptr)), Z.eqb_refl by done.
    rewrite (proj2 (Z.eqb_neq (List.last _ _) t)).
    2: { intros E. apply Htn. rewrite <- E. by apply (last_In (y :: l2)). }
    cbn [andb orb].
    assert (Hf : find_prev (kfuel s) (nxt s) t t (hd p (t :: a)) = Some p).
    { apply find_prev_spec; [done | | by left |].
      - intros x Hx. pose proof (linked_next_in _ _ _ _ Ha Hx) as Hin. simpl in Hin. rewrite <- El in Hin.
        split; intros E; rewrite E in Hin; done.
      - apply rq_rep_length in H. rewrite El in H. simpl in *. rewrite length_app in H. simpl in H. lia. }
    simpl in Hf. rewrite Hf. simpl. rewrite Hz, Z.eqb_refl. unfold unlink.
    change (rq_head (set_next p (nxt s t) s)) with (rq_head s). by rewrite Hh, Z.eqb_refl.
  - destruct (unlink_facts p t s Hpt) as (Uh & Ut & Un & Uk & _). rewrite Hh, Z.eqb_refl in Uh. split.
    + by rewrite Uh, Hnt.
    + rewrite Ut, Htl. change (List.last (t :: y :: l2) nullptr) with (List.last (y :: l2) nullptr).
      rewrite (proj2 (Z.eqb_neq _ t)); [done |]. intros E. apply Htn. rewrite <- E. by apply last_In.
    + simpl hd. rewrite El. apply linked_snoc. split.
      * destruct Ha as [_ Ha]. eapply linked_ext; [| exact Ha]. intros x Hx. rewrite Un.
        rewrite El in Hnd'. apply NoDup_app in Hnd' as (_ & Hd & _).
        rewrite (proj2 (Z.eqb_neq t x)), (proj2 (Z.eqb_neq p x)); [done | |].
        -- intros ->. apply (Hd x Hx). by left.
        -- intros ->. apply Htn. rewrite El. apply elem_of_app. by left.
      * rewrite Un, Z.eqb_refl, (proj2 (Z.eqb_neq t p)) by congruence. done.
    + done.
    + intros Hx. apply Hnn. by right.
    + apply (rq_known_mono s _ (t :: y :: l2)); [done | done |]. intros x Hx. by right.
    + intros x Hx. rewrite Un. destruct (Z.eqb_spec t x) as [-> |]; [done |].
      destruct (Z.eqb_spec p x) as [-> |]; [done |]. apply Hoff. rewrite elem_of_cons. naive_solver.
Qed.

Lemma rq_remove_spec s l t :
  rq_rep s l -> t <> nullptr ->
  exists s', rq_remove t s = Some s' /\ same_but_queue s s' /\ rq_rep s' (rq_del t l).
Proof.
  intros H Ht. destruct (decide (t ∈ l)) as [Hin | Hnin].
  2: { exists s. rewrite rq_del_notin by done. split; [by apply (rq_remove_absent s l) | eauto with mk]. }
  pose proof (rq_nodup s l H) as Hnd. apply list_elem_of_split in Hin as (l1 & l2 & El). subst l.
  assert (Hdel : rq_del t (l1 ++ t :: l2) = l1 ++ l2).
  { apply NoDup_app in Hnd as (_ & Hd & Hnd). apply NoDup_cons in Hnd as [Hnd _].
    apply rq_del_split; [intros Hx; apply (Hd t Hx); by left | done]. }
  rewrite Hdel. clear Hdel. destruct l1 as [|p l1 _] using rev_ind.
  - destruct l2 as [|y l2].
    + pose proof H as [Hh Htl _ _ _ Hkn Hoff]. simpl in Hh, Htl.
      exists (set_next t nullptr (set_rq_tail nullptr (set_rq_head nullptr s))).
      unfold rq_remove. rewrite Hh, Htl, Z.eqb_refl, (proj2 (Z.eqb_neq t nullptr)) by done.
      split; [done | split; [eauto with mk |]]. split; try done; [apply NoDup_nil_2 | apply not_elem_of_nil | |].
      * by intros x ?%not_elem_of_nil.
      * intros x _. rewrite nxt_set_next. destruct (Z.eqb_spec t x) as [-> |]; [done |].
        apply (Hoff x). by intros ?%list_elem_of_singleton.
    + destruct (rq_remove_head s t y l2 H) as (p & Hpt & E & Hr). exists (unlink p t s).
      split; [done | split; [by apply unlink_facts | done]].
  - rewrite <- app_assoc in H |- *. simpl in H |- *. destruct (rq_remove_inner s l1 p t l2 H) as [E Hr].
    exists (unlink p t s). split; [done | split; [apply unlink_facts | done]].
    intros ->. pose proof (rq_nodup _ _ H) as Hn. apply NoDup_app in Hn as (_ & _ & Hn).
    apply NoDup_cons in Hn as [Hn _]. apply Hn. by left.
Qed.

(** ** The ring loops *)

Fixpoint list_loop {A R : Type} (body : Z -> A -> A + R) (l : list Z) (a : A) : A + R :=
  match l with
  | [] => inl a
  | t :: l' => match body t a with inr r => inr r | inl a' => list_loop body l' a' end
  end.

Lemma ring_loop_spec {A R} nx (body : Z -> A -> A + R) n start t l a :
  linked nx (t :: l) start -> start ∉ l -> nullptr ∉ l -> (length (t :: l) <= n)%nat ->
  ring_loop nx body n start t a = Some (list_loop body (t :: l) a).
Proof.
  revert n t a. induction l as [|u l IH]; intros n t a Hl Hs H0 Hn; (destruct n as [|n]; simpl in Hn; [lia |]).
  - simpl in *. destruct Hl as [-> _]. rewrite Z.eqb_refl, orb_true_r. by destruct (body t a).
  - destruct Hl as [Hu Hl]. simpl in Hu. apply not_elem_of_cons in Hs as [Hs1 Hs2].
    apply not_elem_of_cons in H0 as [H1 H2]. cbn [ring_loop list_loop].
    destruct (body t a) as [a' | r]; [| done]. rewrite Hu.
    rewrite (proj2 (Z.eqb_neq _ _)), (proj2 (Z.eqb_neq _ _)) by congruence. cbn [orb].
    apply IH; [done | done | done | simpl; lia].
Qed.

(** A ring may be entered anywhere. *)
Lemma linked_rotate nx l1 l2 :
  linked nx (l1 ++ l2) (hd nullptr (l1 ++ l2)) -> linked nx (l2 ++ l1) (hd nullptr (l2 ++ l1)).
Proof.
  rewrite !linked_app. destruct l1 as [|x l1], l2 as [|y l2]; simpl; tauto.
Qed.

Lemma ring_loop_rep {A R} s l l1 l2 t (body : Z -> A -> A + R) a :
  rq_rep s l -> l = l1 ++ t :: l2 ->
  ring_loop (nxt s) body (kfuel s) t t a = Some (list_loop body (t :: l2 ++ l1) a).
Proof.
  intros H ->. pose proof (rq_rep_length _ _ H) as Hlen. destruct H as [_ _ Hl Hnd Hnn _ _].
  apply linked_rotate in Hl. simpl in Hl. apply ring_loop_spec; [done | | |].
  - apply NoDup_app in Hnd as (_ & Hd & Hnd). apply NoDup_cons in Hnd as [Hnd _].
    rewrite elem_of_app. intros [? | Hx]; [done |]. apply (Hd t Hx). by left.
  - rewrite elem_of_app in *. rewrite elem_of_cons in Hnn. tauto.
  - rewrite length_app in Hlen. simpl in *. rewrite length_app. lia.
Qed.

Lemma ring_loop_head {A R} s l (body : Z -> A -> A + R) a :
  rq_rep s l -> rq_head s <> nullptr ->
  ring_loop (nxt s) body (kfuel s) (rq_head s) (rq_head s) a = Some (list_loop body l a).
Proof.
  intros H Hh. pose proof (rq_hd s l H) as E. destruct l as [|t l]; [done |].
  simpl in E. rewrite E, (ring_loop_rep s (t :: l) [] l t) by done. by rewrite app_nil_r.
Qed.

(** Threads the scheduler may choose from: the ready ones of greatest priority. *)
Definition best_of (s : kst) (l : list Z) (t : Z) : Prop :=
  t ∈ l /\ is_ready s t = true /\
  forall u, u ∈ l -> is_ready s u = true -> t_effective_priority (thr s u) <= t_effective_priority (thr s t).

Lemma max_loop s l b :
  exists m, list_loop (max_body s) l b = inl m /\ b <= m /\
    (forall t, t ∈ l -> is_ready s t = true -> t_effective_priority (thr s t) <= m) /\
    (m = b \/ exists t, t ∈ l /\ is_ready s t = true /\ t_effective_priority (thr s t) = m).
Proof.
  revert b. induction l as [|t l IH]; intros b; simpl.
  { exists b. split; [done | split; [done | split; [| by left]]]. by intros t ?%not_elem_of_nil. }
  set (b' := if _ && _ then _ else _). destruct (IH b') as (m & E & Hb & Hle & Hm). exists m.
  split; [done |]. assert (Hbb : b <= b' /\ (is_ready s t = true -> t_effective_priority (thr s t) <= b') /\
    (b' = b \/ is_ready s t = true /\ t_effective_priority (thr s t) = b')).
  { unfold b'. destruct (is_ready s t); simpl; [bdestr; (split; [lia | split; [lia | tauto]]) |].
    split; [lia | split; [done | by left]]. }
  destruct Hbb as (H1 & H2 & H3). split; [lia | split].
  - intros u [-> | Hu]%elem_of_cons Hr; [specialize (H2 Hr); lia | by apply Hle].
  - destruct Hm as [-> | (u & Hu & Hr & <-)]; [| right; exists u; split; [by right | done]].
    destruct H3 as [-> | [Hr <-]]; [by left |]. right. exists t. split; [by left | done].
Qed.

Lemma rq_max_ready_priority_spec s l :
  rq_rep s l ->
  exists m, rq_max_ready_priority s = Some m /\ -1 <= m /\
    (forall t, t ∈ l -> is_ready s t = true -> t_effective_priority (thr s t) <= m) /\
    (m = -1 \/ exists t, t ∈ l /\ is_ready s t = true /\ t_effective_priority (thr s t) = m).
Proof.
  intros H. unfold rq_max_ready_priority. destruct (Z.eqb_spec (rq_head s) nullptr) as [Hh | Hh].
  - exists (-1). split; [done | split; [lia | split; [| by left]]]. rewrite (rq_hd s l H) in Hh.
    destruct l as [|t l]; [by intros t ?%not_elem_of_nil |]. simpl in Hh. destruct (rq_nonnull _ _ H). rewrite <- Hh. by left.
  - rewrite (ring_loop_head s l) by done. destruct (max_loop s l (-1)) as (m & E & Hm). exists m.
    simpl. rewrite E. done.
Qed.

Lemma gt_loop s prio l :
  exists b, match list_loop (gt_body s prio) l () with inl _ => false | inr b => b end = b /\
    (b = true <-> exists t, t ∈ l /\ is_ready s t = true /\ prio < t_effective_priority (thr s t)).
Proof.
  induction l as [|t l (b & E & IH)]; simpl.
  - exists false. split; [done |]. split; [done |]. by intros (t & ?%not_elem_of_nil & _).
  - unfold gt_body at 1. destruct (is_ready s t && (prio <? t_effective_priority (thr s t))) eqn:Eb.
    + exists true. split; [done |]. split; [intros _ | done]. apply andb_true_iff in Eb as [Hr Hp%Z.ltb_lt].
      exists t. split; [by left | done].
    + exists b. split; [done |]. rewrite IH. split; intros (u & Hu & Hr & Hp); exists u.
      * split; [by right | done].
      * apply elem_of_cons in Hu as [-> | Hu]; [| done]. apply Z.ltb_lt in Hp. by rewrite Hr, Hp in Eb.
Qed.

Lemma rq_has_ready_prio_gt_spec s l prio :
  rq_rep s l ->
  exists b, rq_has_ready_prio_gt prio s = Some b /\
    (b = true <-> exists t, t ∈ l /\ is_ready s t = true /\ prio < t_effective_priority (thr s t)).
Proof.
  intros H. unfold rq_has_ready_prio_gt. destruct (Z.eqb_spec (rq_head s) nullptr) as [Hh | Hh].
  - exists false. split; [done |]. split; [done |]. intros (t & Ht & _). rewrite (rq_hd s l H) in Hh.
    destruct l as [|u l]; [by apply not_elem_of_nil in Ht |]. simpl in Hh. destruct (rq_nonnull _ _ H). rewrite <- Hh. by left.
  - rewrite (ring_loop_head s l) by done. destruct (gt_loop s prio l) as (b & E & Hb). exists b.
    simpl. split; [| done]. rewrite <- E. by destruct (list_loop _ l ()).
Qed.

(** ** The choice *)

Lemma pick_loop s cur best ex l :
  match list_loop (pick_body s cur best ex) l () with
  | inr t => exists a b, l = a ++ t :: b /\ is_ready s t = true /\ t_effective_priority (thr s t) = best /\
      (ex = true -> t <> cur) /\
      forall u, u ∈ a -> is_ready s u = true -> t_effective_priority (thr s u) = best -> ex = true /\ u = cur
  | inl _ => forall u, u ∈ l -> is_ready s u = true -> t_effective_priority (thr s u) = best -> ex = true /\ u = cur
  end.
Proof.
  induction l as [|t l IH]; cbn [list_loop]; [by intros u ?%not_elem_of_nil |].
  destruct (pick_body s cur best ex t ()) as [[] | r] eqn:E; unfold pick_body in E.
  - assert (Hskip : is_ready s t = true -> t_effective_priority (thr s t) = best -> ex = true /\ t = cur).
    { intros Hr Hp. apply Z.eqb_eq in Hp. rewrite Hr, Hp in E. cbn [andb] in E.
      destruct ex; [| done]. simpl in E. by destruct (Z.eqb_spec t cur). }
    destruct (list_loop _ l ()) as [[] | u].
    + intros v [-> | Hv]%elem_of_cons; [done | by apply IH].
    + destruct IH as (a & b & -> & H1 & H2 & H3 & H4). exists (t :: a), b.
      split; [done | split; [done | split; [done | split; [done |]]]].
      intros v [-> | Hv]%elem_of_cons; [done | by apply H4].
  - destruct (is_ready s t) eqn:Hr; [| done]. cbn [andb] in E.
    destruct (Z.eqb_spec (t_effective_priority (thr s t)) best) as [Hp |]; [| done]. cbn [andb] in E.
    destruct (negb ex || negb (t =? cur)) eqn:Hx; [| done]. injection E as <-.
    exists [], l. split; [done | split; [done | split; [done | split]]]; [| by intros u ?%not_elem_of_nil].
    intros -> ->. by rewrite Z.eqb_refl in Hx.
Qed.

(** The order in which the ring is searched. *)
Lemma pick_search s l cur best ex rot :
  rq_rep s l -> rq_head s <> nullptr -> (cur = nullptr -> ex || rot = false) ->
  exists v, v ≡ₚ l /\
    (forall l1 l2, ex || rot = true -> l = l1 ++ cur :: l2 -> v = l2 ++ l1 ++ [cur]) /\
    (let start := if (ex || rot) && negb (cur =? nullptr) && negb (nxt s cur =? nullptr) then nxt s cur else rq_head s in
     ring_loop (nxt s) (pick_body s cur best ex) (kfuel s) start start () =
     Some (list_loop (pick_body s cur best ex) v ())).
Proof.
  intros H Hh Hc. destruct (ex || rot) eqn:Hxr; simpl.
  2: { exists l. split; [done | split; [done |]]. by apply ring_loop_head. }
  assert (Hc0 : cur <> nullptr) by (intros E; by specialize (Hc E)).
  rewrite (proj2 (Z.eqb_neq _ _) Hc0). cbn [negb].
  destruct (decide (cur ∈ l)) as [Hin | Hnin].
  - apply list_elem_of_split in Hin as (l1 & l2 & El). exists (l2 ++ l1 ++ [cur]).
    pose proof (rq_linked s l H) as Hl. rewrite El in Hl. apply linked_rotate in Hl.
    pose proof (rq_nonnull s l H) as Hnn. pose proof (rq_nodup s l H) as Hnd.
    assert (Hnx : nxt s cur = hd nullptr (l2 ++ l1 ++ [cur]) /\ nxt s cur <> nullptr).
    { destruct Hl as [Hl _]. rewrite Hl. split; [by destruct l2, l1 |].
      intros E. apply Hnn. rewrite <- E, El. destruct l2 as [|y l2]; simpl.
      - destruct l1; simpl; by left.
      - apply elem_of_app. right. right. by left. }
    destruct Hnx as [Hnx Hn0]. rewrite (proj2 (Z.eqb_neq _ _) Hn0). cbn [negb].
    split; [rewrite El; solve_Permutation | split].
    + intros m1 m2 _ E. rewrite El in E. rewrite El in Hnd.
      assert (l1 = m1 /\ l2 = m2) as [-> ->]; [| done].
      apply NoDup_app in Hnd as (_ & Hd & Hnd2). apply NoDup_cons in Hnd2 as [Hnd2 _].
      clear -E Hd Hnd2. revert m1 E. induction l1 as [|x l1 IH]; intros [|y m1] E; simpl in E; injection E.
      * by intros ->.
      * intros E1 E2. subst. exfalso. apply Hnd2, elem_of_app. right. by left.
      * intros E1 E2. subst. exfalso. apply (Hd cur); by left.
      * intros E1 ->. destruct (IH (fun z Hz => Hd z (list_elem_of_further _ _ _ Hz)) m1 E1) as [-> ->]. done.
    + destruct l2 as [|y l2]; [destruct l1 as [|y l1] |]; simpl in Hnx; rewrite Hnx.
      * by rewrite (ring_loop_rep s l [] [] cur) by (done || by rewrite El).
      * by rewrite (ring_loop_rep s l [] (l1 ++ [cur]) y), app_nil_r by (done || by rewrite El).
      * rewrite (ring_loop_rep s l (l1 ++ [cur]) l2 y); [done | done | by rewrite El, <- app_assoc].
  - rewrite (rq_off s l H cur Hnin). exists l. split; [done | split; [| by apply ring_loop_head]].
    intros l1 l2 _ ->. destruct Hnin. apply elem_of_app. right. by left.
Qed.

Lemma prio_pick_next_spec s l cur ex rot :
  rq_rep s l -> (cur = nullptr -> ex || rot = false) ->
  (is_ready s cur = true -> cur ∈ l) ->
  (forall t, t ∈ l -> is_ready s t = true -> 0 <= t_effective_priority (thr s t)) ->
  exists t, prio_pick_next cur ex rot s = Some t /\
    ((forall u, u ∈ l -> is_ready s u = false) -> t = cur) /\
    ((exists u, u ∈ l /\ is_ready s u = true) ->
      best_of s l t /\
      (ex = false -> rot = false -> best_of s l cur -> t = cur) /\
      (ex = true -> forall u, best_of s l u -> u <> cur -> t <> cur) /\
      (ex || rot = true -> forall l1 l2, l = l1 ++ cur :: l2 -> t <> cur ->
        exists a b, l2 ++ l1 = a ++ t :: b /\ forall u, u ∈ a -> ~ best_of s l u)).
Proof.
  intros H Hnull Hcur Hpos. unfold prio_pick_next.
  destruct (Z.eqb_spec (rq_head s) nullptr) as [Hh | Hh].
  { exists cur. split; [done | split; [done |]]. intros (u & Hu & _). rewrite (rq_hd s l H) in Hh.
    destruct l as [|x l]; [by apply not_elem_of_nil in Hu |]. destruct (rq_nonnull _ _ H). simpl in Hh.
    rewrite <- Hh. by left. }
  destruct (rq_max_ready_priority_spec s l H) as (m & -> & Hm0 & Hmax & Hm). simpl.
  destruct (Z.ltb_spec m 0) as [Hneg | Hge].
  { exists cur. split; [done | split; [done |]]. intros (u & Hu & Hr).
    specialize (Hmax u Hu Hr). specialize (Hpos u Hu Hr). lia. }
  destruct Hm as [Hm | (w & Hw & Hwr & Hwm)]; [lia |].
  assert (Hbest : forall u, best_of s l u <-> u ∈ l /\ is_ready s u = true /\ t_effective_priority (thr s u) = m).
  { intros u. split.
    - intros (Hu & Hr & Hle). split; [done | split; [done |]]. specialize (Hle w Hw Hwr).
      specialize (Hmax u Hu Hr). lia.
    - intros (Hu & Hr & E). split; [done | split; [done |]]. rewrite E. apply Hmax. }
  assert (Hno : ~ forall u, u ∈ l -> is_ready s u = false) by (intros Hn; rewrite Hn in Hwr; done).
  set (keep := negb ex && _ && _ && _ && _). destruct keep eqn:Ek.
  { unfold keep in Ek. rewrite !andb_true_iff, !negb_true_iff in Ek. destruct Ek as ((((E1 & E2) & E3) & E4) & E5).
    apply Z.eqb_eq in E5. exists cur. split; [done | split; [done |]]. intros _.
    split; [apply Hbest; auto | split; [done | split; [by rewrite E1 | by rewrite E1, E2]]]. }
  destruct (pick_search s l cur m ex rot H Hh Hnull) as (v & Hv & Hord & Hloop). cbv zeta in Hloop. rewrite Hloop. simpl.
  pose proof (pick_loop s cur m ex v) as Hpick.
  destruct (list_loop (pick_body s cur m ex) v ()) as [[] | t].
  - destruct (Hpick w) as [Hex Hwc]; [by rewrite Hv | done | done |]. subst w.
    assert (Hc0 : (cur =? nullptr) = false) by (unfold is_ready in Hwr; by destruct (cur =? nullptr)).
    rewrite Hc0, Hwr, (proj2 (Z.eqb_eq _ _) Hwm). cbn [negb andb]. exists cur. split; [done | split; [done |]]. intros _.
    split; [by apply Hbest | split; [by rewrite Hex | split; [| done]]].
    intros _ u Hu Huc. destruct Huc. apply Hbest in Hu as (Hu & Hr & E). by apply (Hpick u); [rewrite Hv |..].
  - destruct Hpick as (a & b & Hab & Hr & E & Hex & Ha). exists t. split; [done | split; [done |]]. intros _.
    assert (Ht : t ∈ l) by (rewrite <- Hv, Hab; apply elem_of_app; right; by left).
    split; [by apply Hbest | split; [| split]].
    + intros -> -> (Hc1 & Hc2 & Hc3). exfalso.
      assert (Hcm : t_effective_priority (thr s cur) = m) by (apply Hbest; done).
      unfold keep in Ek. assert (cur <> nullptr) by (intros ->; by apply (rq_nonnull s l H)).
      rewrite Hc2, (proj2 (Z.eqb_neq cur nullptr)), (proj2 (Z.eqb_eq _ _) Hcm) in Ek by done. done.
    + intros Hx _ _ _. by apply Hex.
    + intros Hxr l1 l2 El Htc. rewrite (Hord l1 l2 Hxr El) in Hab. rewrite app_assoc in Hab.
      destruct b as [|z b] using rev_ind; [| clear IHb].
      * apply app_inj_tail in Hab as [_ Hab]. congruence.
      * rewrite app_comm_cons, app_assoc in Hab. apply app_inj_tail in Hab as [Hab _].
        exists a, b. split; [done |]. intros u Hu Hb. apply Hbest in Hb as (Hul & Hur & Hue).
        destruct (Ha u Hu Hur Hue) as [_ ->]. pose proof (rq_nodup s l H) as Hnd. rewrite El in Hnd.
        apply NoDup_app in Hnd as (_ & Hd & Hnd). apply NoDup_cons in Hnd as [Hnd _].
        assert (Hin : cur ∈ l2 ++ l1) by (rewrite Hab; apply elem_of_app; by left).
        apply elem_of_app in Hin as [? | Hin]; [done |]. apply (Hd cur Hin). by left.
Qed.

(** With no running thread and equal priorities the pick is the head. *)
Lemma pick_first s t l p :
  rq_rep s (t :: l) -> (forall u, u ∈ t :: l -> is_ready s u = true /\ t_effective_priority (thr s u) = p) -> 0 <= p ->
  prio_pick_next nullptr false false s = Some t.
Proof.
  intros H Hall Hp. pose proof (rq_nonnull _ _ H) as Hnn. pose proof (rq_hd _ _ H) as Hh. cbn [hd] in Hh.
  assert (Ht0 : t <> nullptr) by (intros ->; apply Hnn; by left). destruct (Hall t) as [Hr Hpt]; [by left |].
  unfold prio_pick_next. rewrite Hh, (proj2 (Z.eqb_neq _ _) Ht0).
  destruct (rq_max_ready_priority_spec s (t :: l) H) as (m & -> & Hm1 & Hle & Hm). cbn [mbind option_bind].
  assert (Em : m = p).
  { pose proof (Hle t ltac:(by left) Hr). destruct Hm as [-> | (u & Hu & _ & <-)]; [lia | apply (Hall u Hu)]. }
  subst m. rewrite (proj2 (Z.ltb_ge _ _)) by lia. rewrite Z.eqb_refl. cbn [negb andb orb].
  pose proof (ring_loop_head s (t :: l) (pick_body s nullptr p false) () H) as E. rewrite Hh in E. rewrite E by done.
  cbn [list_loop]. unfold pick_body. by rewrite Hr, Hpt, Z.eqb_refl.
Qed.

(** ** A concrete queue, for the witnesses *)

Lemma rq_rep_empty s : rq_head s = nullptr -> rq_tail s = nullptr ->
  (forall t, nxt s t = nullptr) -> rq_rep s [].
Proof.
  intros H1 H2 H3. split; try done; [apply NoDup_nil_2 | apply not_elem_of_nil |].
  by intros x ?%not_elem_of_nil.
Qed.

(** A thread of priority [p], not linked to anything. *)
Definition demo_thread (p : Z) : Thread :=
  MkThread 0 0 0 0 0 0 0 5 p p 0 0 0 0 0 fp_zeros 0 0.

Definition demo_base : kst :=
  set_threads {[ 4096 := demo_thread 10; 8192 := demo_thread 20; 12288 := demo_thread 20 ]}
    blank_state.

(** Three threads queued, the first of priority 10, the others of priority 20. *)
Definition demo_queue : kst := rq_append 12288 (rq_append 8192 (rq_append 4096 demo_base)).

Lemma demo_base_rep : rq_rep demo_base [].
Proof.
  apply rq_rep_empty; [done | done |]. intros t. unfold nxt, thr, demo_base. cbn [threads set_threads].
  rewrite !lookup_insert, lookup_singleton. repeat case_decide; done.
Qed.

Lemma demo_queue_rep : rq_rep demo_queue [4096; 8192; 12288].
Proof.
  assert (H1 : rq_rep (rq_append 4096 demo_base) [4096])
    by (apply (rq_append_spec _ []); [apply demo_base_rep | done | apply not_elem_of_nil | done]).
  assert (H2 : rq_rep (rq_append 8192 (rq_append 4096 demo_base)) [4096; 8192])
    by (apply (rq_append_spec _ [4096]); [done | done | by intros ?%list_elem_of_singleton | done]).
  apply (rq_append_spec _ [4096; 8192]); [done | done | | done].
  rewrite elem_of_cons, list_elem_of_singleton. lia.
Qed.

(** ** Theorems *)

(** C3: the pointer manipulations of [rq_append] and [rq_remove] are exactly
    append and deletion on the list of queued threads, on every branch (empty
    queue, single thread, head, tail, middle, absent thread): the ring stays
    well formed, the search loop ends, and nothing but the links changes. *)
Theorem rq_ops_refine_list s l t :
  rq_rep s l -> t <> nullptr ->
  (t ∉ l -> threads s !! t <> None ->
     rq_rep (rq_append t s) (l ++ [t]) /\ same_but_queue s (rq_append t s)) /\
  exists s', rq_remove t s = Some s' /\ rq_rep s' (rq_del t l) /\ same_but_queue s s'.
Proof.
  intros H Ht. split; [intros Hn Hk; by apply rq_append_spec |].
  destruct (rq_remove_spec s l t H Ht) as (s' & E & Hs & Hr). by exists s'.
Qed.

(** C2: [prio_pick_next] always returns, and chooses a ready thread of the
    greatest effective priority in the queue: the current one when it is such
    and neither exclusion nor rotation is asked for; another one, if there is
    one, under exclusion; and under exclusion or rotation the first such in
    ring order after the current thread.  With no ready thread it returns the
    current one. *)
Theorem prio_pick_next_correct s l cur ex rot :
  rq_rep s l -> (cur = nullptr -> ex || rot = false) ->
  (is_ready s cur = true -> cur ∈ l) ->
  (forall t, t ∈ l -> is_ready s t = true -> 0 <= t_effective_priority (thr s t)) ->
  exists t, prio_pick_next cur ex rot s = Some t /\
    ((forall u, u ∈ l -> is_ready s u = false) -> t = cur) /\
    ((exists u, u ∈ l /\ is_ready s u = true) ->
      best_of s l t /\
      (ex = false -> rot = false -> best_of s l cur -> t = cur) /\
      (ex = true -> forall u, best_of s l u -> u <> cur -> t <> cur) /\
      (ex || rot = true -> forall l1 l2, l = l1 ++ cur :: l2 -> t <> cur ->
        exists a b, l2 ++ l1 = a ++ t :: b /\ forall u, u ∈ a -> ~ best_of s l u)).
Proof. apply prio_pick_next_spec. Qed.

Lemma rq_ops_refine_list_witness :
  (12288 ∉ [4096; 8192; 12288] -> threads demo_queue !! 12288 <> None ->
     rq_rep (rq_append 12288 demo_queue) ([4096; 8192; 12288] ++ [12288]) /\
     same_but_queue demo_queue (rq_append 12288 demo_queue)) /\
  exists s', rq_remove 12288 demo_queue = Some s' /\ rq_rep s' (rq_del 12288 [4096; 8192; 12288]) /\
    same_but_queue demo_queue s'.
Proof. apply (rq_ops_refine_list demo_queue [4096; 8192; 12288] 12288); [exact demo_queue_rep | done]. Defined.

Lemma prio_pick_next_correct_witness :
  prio_pick_next 8192 true true demo_queue = Some 12288 /\
  exists t, prio_pick_next 8192 true true demo_queue = Some t /\
    ((forall u, u ∈ [4096; 8192; 12288] -> is_ready demo_queue u = false) -> t = 8192) /\
    ((exists u, u ∈ [4096; 8192; 12288] /\ is_ready demo_queue u = true) ->
      best_of demo_queue [4096; 8192; 12288] t /\
      (true = false -> true = false -> best_of demo_queue [4096; 8192; 12288] 8192 -> t = 8192) /\
      (true = true -> forall u, best_of demo_queue [4096; 8192; 12288] u -> u <> 8192 -> t <> 8192) /\
      (true || true = true -> forall l1 l2, [4096; 8192; 12288] = l1 ++ 8192 :: l2 -> t <> 8192 ->
        exists a b, l2 ++ l1 = a ++ t :: b /\ forall u, u ∈ a -> ~ best_of demo_queue [4096; 8192; 12288] u)).
Proof.
  split; [vm_compute; reflexivity |].
  apply (prio_pick_next_correct demo_queue [4096; 8192; 12288] 8192 true true).
  - exact demo_queue_rep.
  - done.
  - intros _. right. by left.
  - intros t Ht _. rewrite !elem_of_cons in Ht.
    destruct Ht as [-> | [-> | [-> | Ht%not_elem_of_nil]]]; vm_compute; [done | done | done | done].
Defined.

(** the two scans of the queue always end; [rq_max_ready_priority] returns
    the greatest effective priority of a queued ready thread, or -1 when there
    is none, and [rq_has_ready_prio_gt] tells whether some queued ready thread
    is above the given priority. *)
Theorem rq_scans_correct s l prio :
  rq_rep s l ->
  (exists m, rq_max_ready_priority s = Some m /\ -1 <= m /\
    (forall t, t ∈ l -> is_ready s t = true -> t_effective_priority (thr s t) <= m) /\
    (m = -1 \/ exists t, t ∈ l /\ is_ready s t = true /\ t_effective_priority (thr s t) = m)) /\
  (exists b, rq_has_ready_prio_gt prio s = Some b /\
    (b = true <-> exists t, t ∈ l /\ is_ready s t = true /\ prio < t_effective_priority (thr s t))).
Proof. intros H. split; [by apply rq_max_ready_priority_spec | by apply rq_has_ready_prio_gt_spec]. Qed.

Lemma rq_scans_correct_witness :
  rq_max_ready_priority demo_queue = Some 20 /\
  (exists m, rq_max_ready_priority demo_queue = Some m /\ -1 <= m /\
    (forall t, t ∈ [4096; 8192; 12288] -> is_ready demo_queue t = true ->
      t_effective_priority (thr demo_queue t) <= m) /\
    (m = -1 \/ exists t, t ∈ [4096; 8192; 12288] /\ is_ready demo_queue t = true /\
      t_effective_priority (thr demo_queue t) = m)) /\
  (exists b, rq_has_ready_prio_gt 10 demo_queue = Some b /\
    (b = true <-> exists t, t ∈ [4096; 8192; 12288] /\ is_ready demo_queue t = true /\
      10 < t_effective_priority (thr demo_queue t))).
Proof.
  split; [vm_compute; reflexivity |].
  apply (rq_scans_correct demo_queue [4096; 8192; 12288] 10). exact demo_queue_rep.
Defined.
