(* ===== verification/Sched.v ===== *)
(** * Switching, yielding, ticking, blocking, preemption

    [src/src/thread.cc] (from [do_switch] on, thread creation excepted),
    [src/src/preempt.cc] and [src/src/arch/aarch64/fpsimd.cc].  [cpu_local()]
    returns the CPU block set up at boot, so its null tests are not modelled. *)

From Stdlib Require Import String.
From S2P Require Import Prelude Mem Uart Kstate Runq Stack.

Definition kDefaultPriority : Z := 10.

Definition kMaxPriority : Z := 31.

Definition kQuantumTicks : Z := 5.

Definition kNeedReschedNone : Z := 0.

Definition kNeedReschedNormal : Z := 1.

Definition kNeedReschedRotate : Z := 2.

Definition clamp_priority (prio : Z) : Z :=
  if prio <? 0 then 0 else if kMaxPriority <? prio then kMaxPriority else prio.

(** ** FP/SIMD context *)

Definition fpsimd_save (s : kst) : kst :=
  if cur s =? nullptr then s
  else
    upd_thr (cur s) (fun t => MkThread (t_sp t) (t_entry t) (t_arg t) (t_next t) (t_id t) (t_stack_base t)
      (t_stack_size t) (t_budget t) (t_base_priority t) (t_effective_priority t) (t_state t) (t_wait_next t)
      (t_waiting_on t) (t_owned_mutexes t) 1 (hw_q (hw s)) (hw_fpcr (hw s)) (hw_fpsr (hw s))) s.

Definition fpsimd_load (s : kst) : kst :=
  if cur s =? nullptr then s
  else
    let t := thr s (cur s) in
    set_hw (FpRegs (if t_fpsimd_valid t =? 0 then fp_zeros else t_fpsimd_vregs t) (t_fpcr t) (t_fpsr t)) s.

(** ** Switching *)

(** [arch_switch]: the continuation is what runs when [c] is switched back in. *)
Definition arch_switch (c n : Z) : K unit := fun s => KSwitch c n s (fun s' => KDone () s').

Definition do_switch (c next : Z) : K unit :=
  modify fpsimd_save ≫= fun _ =>
  modify (upd_cpu (set_current_thread next)) ≫= fun _ =>
  arch_switch c next ≫= fun _ =>
  modify fpsimd_load.

Definition set_resched (v : Z) : kst -> kst := upd_cpu (set_need_resched v).

Section Policy.

Context (prio : bool).

Definition sched_start : K unit :=
  get ≫= fun s =>
  c ← (if prio then of_opt (prio_pick_next nullptr false false s) else mret (rq_head s));
  if c =? nullptr then modify (puts ("[sched] no threads" ++ newline)) ≫= fun _ => halt
  else
    modify (upd_thr c (set_t_budget kQuantumTicks)) ≫= fun _ =>
    modify (upd_cpu (set_current_thread c)) ≫= fun _ =>
    arch_switch nullptr c ≫= fun _ =>
    modify (puts ("[BUG] returned to sched_start" ++ newline)) ≫= fun _ => halt.

Definition thread_yield : K unit :=
  get ≫= fun s =>
  if negb (preempt_cnt (cpu s) =? 0) then mret ()
  else
    let c := cur s in
    if c =? nullptr then mret ()
    else
      next ← (if prio then of_opt (prio_pick_next c true true s)
              else mret (if negb (nxt s c =? nullptr) then nxt s c else c));
      if negb (next =? nullptr) && negb (next =? c) then do_switch c next else mret ().

Definition thread_exit : K unit :=
  modify (puts ("[thread] exit" ++ newline)) ≫= fun _ => halt.

(** [stack_guard_ok] on the thread's own stack. *)
Definition thread_guard_ok (s : kst) (t : Z) : bool :=
  if t =? nullptr then true else stack_guard_ok (t_stack_base (thr s t)) (t_stack_size (thr s t)) (ram s).

(** The quantum: one tick off the budget, a request when it is used up. *)
Definition tick_budget (c : Z) (s : kst) : kst :=
  let s := if 0 <? t_budget (thr s c) then upd_thr c (set_t_budget (t_budget (thr s c) - 1)) s else s in
  if t_budget (thr s c) <=? 0 then
    let s := set_resched (if prio then kNeedReschedRotate else kNeedReschedNormal) s in
    upd_thr c (set_t_budget kQuantumTicks) s
  else s.

Definition sched_on_tick : K unit :=
  get ≫= fun s =>
  let c := cur s in
  if c =? nullptr then mret ()
  else if negb (thread_guard_ok s c) then
    modify (fun s => puts newline (print_u64 (wrap64 (t_id (thr s c))) (puts "[stack] overflow detected tid=" s)))
      ≫= fun _ => halt
  else if negb (preempt_cnt (cpu s) =? 0) then mret ()
  else if prio && negb (is_ready s c) then modify (set_resched kNeedReschedNormal)
  else
    gt ← (if prio then of_opt (rq_has_ready_prio_gt (t_effective_priority (thr s c)) s) else mret false);
    if (gt : bool) then modify (set_resched kNeedReschedNormal) else modify (tick_budget c).

Definition sched_resched_from_irq_tail : K unit :=
  get ≫= fun s =>
  let c := cur s in
  if negb (preempt_cnt (cpu s) =? 0) then mret ()
  else
    let rotate := need_resched (cpu s) =? kNeedReschedRotate in
    next ← (if prio then of_opt (prio_pick_next c rotate rotate s)
            else mret (if negb (c =? nullptr) && is_ready s c && negb (nxt s c =? nullptr) then nxt s c else rq_head s));
    if (c =? nullptr) || (next =? nullptr) || (next =? c) then modify (set_resched kNeedReschedNone)
    else do_switch c next ≫= fun _ => modify (set_resched kNeedReschedNone).

(** [preempt.cc]. *)
Definition preempt_disable : K unit :=
  modify (fun s => upd_cpu (set_preempt_cnt (wrap32 (preempt_cnt (cpu s) + 1))) s).

Definition preempt_enable : K unit :=
  get ≫= fun s =>
  if preempt_cnt (cpu s) =? 0 then mret ()
  else
    modify (upd_cpu (set_preempt_cnt (wrap32 (preempt_cnt (cpu s) - 1)))) ≫= fun _ =>
    get ≫= fun s =>
    if (preempt_cnt (cpu s) =? 0) && negb (need_resched (cpu s) =? 0) && (irq_depth (cpu s) =? 0)
    then sched_resched_from_irq_tail else mret ().

Definition preempt_return : K unit :=
  get ≫= fun s =>
  if (preempt_cnt (cpu s) =? 0) && negb (need_resched (cpu s) =? 0) then sched_resched_from_irq_tail else mret ().

End Policy.

(** ** The queue side of blocking *)

Definition sched_add (t : Z) (s : kst) : kst :=
  if t =? nullptr then s
  else
    let s := if negb (t_state (thr s t) =? kThreadReady) then upd_thr t (set_t_state kThreadReady) s else s in
    rq_append t s.

Definition sched_block_current (s : kst) : option kst :=
  if cur s =? nullptr then Some s
  else if t_state (thr s (cur s)) =? kThreadBlocked then Some s
  else
    s ← rq_remove (cur s) s;
    Some (upd_thr (cur s) (set_t_wait_next nullptr) (upd_thr (cur s) (set_t_state kThreadBlocked) s)).

Definition sched_make_runnable (t : Z) (s : kst) : kst :=
  if t =? nullptr then s
  else if t_state (thr s t) =? kThreadReady then s
  else
    let s := upd_thr t (set_t_state kThreadReady) s in
    let s := upd_thr t (set_t_wait_next nullptr) s in
    let s := upd_thr t (set_t_budget kQuantumTicks) s in
    rq_append t s.

(** ** Priorities *)

Definition thread_base_priority (s : kst) (t : Z) : Z :=
  if t =? nullptr then 0 else t_base_priority (thr s t).

Definition thread_effective_priority (s : kst) (t : Z) : Z :=
  if t =? nullptr then 0 else t_effective_priority (thr s t).

Definition thread_set_base_priority (t prio : Z) (s : kst) : kst :=
  if t =? nullptr then s
  else
    let p := clamp_priority prio in
    let s := upd_thr t (set_t_base_priority p) s in
    if t_effective_priority (thr s t) <? p then upd_thr t (set_t_effective_priority p) s else s.

Definition thread_set_effective_priority (t prio : Z) (s : kst) : kst :=
  if t =? nullptr then s
  else
    let p := clamp_priority prio in
    let p := if p <? t_base_priority (thr s t) then t_base_priority (thr s t) else p in
    upd_thr t (set_t_effective_priority p) s.

Definition thread_stack_guard_ok (s : kst) (t : Z) : Z := if thread_guard_ok s t then 1 else 0.

Definition thread_stack_high_watermark_bytes (s : kst) (t : Z) : Z :=
  if t =? nullptr then 0
  else stack_high_watermark_bytes (t_stack_base (thr s t)) (t_stack_size (thr s t)) (ram s).

(** ** Frame lemmas *)

(** The queue depends on the links, the two pointers and the set of threads. *)
Lemma rq_rep_ext s s' l :
  rq_head s' = rq_head s -> rq_tail s' = rq_tail s -> (forall t, nxt s' t = nxt s t) ->
  (forall t, threads s !! t <> None -> threads s' !! t <> None) -> rq_rep s l -> rq_rep s' l.
Proof.
  intros Hh Ht Hn Hk []. split; rewrite ?Hh, ?Ht; auto.
  - eapply linked_ext; [| done]. intros x _. by rewrite Hn.
  - intros t Htl. rewrite Hn. auto.
Qed.

Lemma known_upd a f s t : threads s !! t <> None -> threads (upd_thr a f s) !! t <> None.
Proof. intros H. unfold upd_thr. simpl. rewrite lookup_insert. by destruct (decide (a = t)). Qed.

(** Updates of a thread that keep its link do not touch the queue. *)
Lemma rq_rep_upd a f s l :
  (forall t, t_next (f t) = t_next t) -> rq_rep s l -> rq_rep (upd_thr a f s) l.
Proof.
  intros Hf. apply rq_rep_ext; [done | done | | intros t; apply known_upd].
  intros t. unfold nxt. rewrite thr_upd. by destruct (a =? t).
Qed.

Lemma rq_rep_cpu f s l : rq_rep s l -> rq_rep (upd_cpu f s) l.
Proof. by apply rq_rep_ext. Qed.

Lemma rq_rep_save s l : rq_rep s l -> rq_rep (fpsimd_save s) l.
Proof. intros H. unfold fpsimd_save. destruct (_ =? _); [done |]. by apply rq_rep_upd. Qed.

Lemma rq_rep_load s l : rq_rep s l -> rq_rep (fpsimd_load s) l.
Proof. intros H. unfold fpsimd_load. destruct (_ =? _); [done |]. by apply (rq_rep_ext s). Qed.

#[export] Hint Resolve rq_rep_cpu rq_rep_save rq_rep_load known_upd : mk.

(** The priority fields. *)
Definition prio_ok (t : Thread) : Prop :=
  0 <= t_base_priority t <= kMaxPriority /\ t_base_priority t <= t_effective_priority t <= kMaxPriority.

(** The scheduler's invariant, [l] being the queue in order. *)
Record sched_inv (s : kst) (l : list Z) : Prop := {
  si_rep : rq_rep s l;
  si_ready : forall t, t ∈ l -> t_state (thr s t) = kThreadReady;
  si_prio : forall t, prio_ok (thr s t);
  si_cur : cur s <> nullptr -> t_state (thr s (cur s)) = kThreadReady -> cur s ∈ l
}.

(** The invariant depends on threads and queue only. *)
Lemma sched_inv_same s s' l :
  threads s' = threads s -> rq_head s' = rq_head s -> rq_tail s' = rq_tail s -> cur s' = cur s -> sched_inv s l -> sched_inv s' l.
Proof.
  intros Et Eh El Ec [R1 R2 R3 R4]. assert (E : forall t, thr s' t = thr s t) by (intros t; unfold thr; by rewrite Et).
  split; [| intros t ?; rewrite E; auto | intros t; rewrite E; auto | rewrite Ec, E; auto].
  apply (rq_rep_ext s); try done; [intros t; unfold nxt; by rewrite E | intros t; by rewrite Et].
Qed.

Lemma sched_inv_ready s l t : sched_inv s l -> t ∈ l -> is_ready s t = true.
Proof.
  intros H Ht. unfold is_ready. rewrite (si_ready s l H t Ht), (proj2 (Z.eqb_neq t nullptr)); [done |].
  intros ->. by apply (rq_nonnull s l (si_rep s l H)).
Qed.

Lemma sched_inv_cur_in s l : sched_inv s l -> is_ready s (cur s) = true -> cur s ∈ l.
Proof.
  intros H [Hn%negb_true_iff%Z.eqb_neq Hr%Z.eqb_eq]%andb_true_iff. by apply (si_cur s l H).
Qed.

Lemma sched_inv_prio_pos s l t : sched_inv s l -> 0 <= t_effective_priority (thr s t).
Proof. intros H. destruct (si_prio s l H t). lia. Qed.

(** The state [do_switch] hands to the next thread, and the code that runs when
    the old one comes back. *)
Definition switched (n : Z) (s : kst) : kst := upd_cpu (set_current_thread n) (fpsimd_save s).

Lemma do_switch_eq c n s :
  do_switch c n s = KSwitch c n (switched n s) (fun s' => KDone () (fpsimd_load s')).
Proof. reflexivity. Qed.

Lemma thr_save s t :
  thr (fpsimd_save s) t =
    if cur s =? nullptr then thr s t
    else if cur s =? t then
      (fun x => MkThread (t_sp x) (t_entry x) (t_arg x) (t_next x) (t_id x) (t_stack_base x)
        (t_stack_size x) (t_budget x) (t_base_priority x) (t_effective_priority x) (t_state x) (t_wait_next x)
        (t_waiting_on x) (t_owned_mutexes x) 1 (hw_q (hw s)) (hw_fpcr (hw s)) (hw_fpsr (hw s))) (thr s t)
    else thr s t.
Proof. unfold fpsimd_save. destruct (cur s =? nullptr); [done |]. apply thr_upd. Qed.

Lemma cpu_save s : cpu (fpsimd_save s) = cpu s.
Proof. unfold fpsimd_save. by destruct (cur s =? nullptr). Qed.

Lemma thr_switched n s t : thr (switched n s) t = thr (fpsimd_save s) t.
Proof. done. Qed.

Lemma save_fields s t :
  t_state (thr (fpsimd_save s) t) = t_state (thr s t) /\ prio_ok (thr (fpsimd_save s) t) = prio_ok (thr s t) /\
  t_effective_priority (thr (fpsimd_save s) t) = t_effective_priority (thr s t).
Proof. rewrite thr_save. by destruct (cur s =? nullptr), (cur s =? t). Qed.

Lemma switched_inv n s l : sched_inv s l -> n ∈ l -> sched_inv (switched n s) l.
Proof.
  intros H Hn. pose proof (fun t => save_fields s t) as F. split.
  - apply rq_rep_cpu, rq_rep_save, H.
  - intros t Ht. rewrite thr_switched. destruct (F t) as (-> & _ & _). by apply (si_ready s l H).
  - intros t. rewrite thr_switched. destruct (F t) as (_ & -> & _). apply (si_prio s l H).
  - done.
Qed.

(** ** Outcomes *)

(** What one call of a scheduling routine may do in state [s] with queue [l]:
    return, or suspend the running thread and switch to a queued one, resuming
    with the FP registers reloaded and [need_resched] as [fin] leaves it. *)
Definition switches_to (fin : kst -> kst) (s : kst) (n : Z) (r : kres unit) : Prop :=
  exists k, r = KSwitch (cur s) n (switched n s) k /\ forall s', k s' = KDone () (fin (fpsimd_load s')).

Lemma resched_spec s l :
  sched_inv s l -> cur s <> nullptr ->
  let r := sched_resched_from_irq_tail true s in
  (preempt_cnt (cpu s) <> 0 -> r = KDone () s) /\
  (preempt_cnt (cpu s) = 0 -> l = [] -> r = KDone () (set_resched kNeedReschedNone s)) /\
  (preempt_cnt (cpu s) = 0 -> l <> [] ->
    exists n, best_of s l n /\
      (need_resched (cpu s) = kNeedReschedRotate -> forall u, best_of s l u -> u <> cur s -> n <> cur s) /\
      (need_resched (cpu s) <> kNeedReschedRotate -> best_of s l (cur s) -> n = cur s) /\
      if n =? cur s then r = KDone () (set_resched kNeedReschedNone s)
      else switches_to (set_resched kNeedReschedNone) s n r).
Proof.
  intros H Hc r. unfold r, sched_resched_from_irq_tail, get, modify, of_opt, mbind, K_bind, mret, K_ret. cbn [kbind].
  set (rot := need_resched (cpu s) =? kNeedReschedRotate).
  destruct (prio_pick_next_spec s l (cur s) rot rot (si_rep s l H)) as (n & E & Hno & Hyes);
    [done | by apply sched_inv_cur_in | intros; by apply (sched_inv_prio_pos s l) |].
  rewrite E. cbn [kbind]. split; [| split].
  - intros Hp. by rewrite (proj2 (Z.eqb_neq _ _) Hp).
  - intros Hp ->. rewrite Hp, (proj2 (Z.eqb_neq _ _) Hc). cbn [Z.eqb negb orb].
    rewrite (Hno ltac:(by intros u ?%not_elem_of_nil)), Z.eqb_refl, orb_true_r. done.
  - intros Hp Hl. rewrite Hp, (proj2 (Z.eqb_neq _ _) Hc). cbn [Z.eqb negb orb].
    destruct Hyes as (Hb & H1 & H2 & _).
    { destruct l as [|u l]; [done |]. exists u. split; [by left |]. apply (sched_inv_ready s (u :: l)); [done | by left]. }
    exists n. split; [done | split; [| split]].
    + intros Er. apply Z.eqb_eq in Er. fold rot in Er. by apply H2.
    + intros Er. apply Z.eqb_neq in Er. fold rot in Er. by apply H1.
    + assert (Hn0 : n <> nullptr) by (intros ->; destruct Hb as [Hb _]; by apply (rq_nonnull s l (si_rep s l H))).
      rewrite (proj2 (Z.eqb_neq _ _) Hn0). cbn [orb]. destruct (n =? cur s); [done |].
      rewrite do_switch_eq. cbn [kbind]. eexists. split; [done |]. intros s'. done.
Qed.

(** Both policies: the rescheduling point returns, or switches to another
    queued thread; a thread that is no longer ready gives way whenever there is
    a queued one. *)
Lemma resched_any prio s l :
  sched_inv s l -> cur s <> nullptr -> preempt_cnt (cpu s) = 0 ->
  let r := sched_resched_from_irq_tail prio s in
  (r = KDone () (set_resched kNeedReschedNone s) /\ (l = [] \/ cur s ∈ l)) \/
  exists n, n ∈ l /\ n <> cur s /\ switches_to (set_resched kNeedReschedNone) s n r.
Proof.
  intros H Hc Hp r. destruct prio.
  - destruct (resched_spec s l H Hc) as (_ & H1 & H2). destruct (decide (l = [])) as [Hl | Hl].
    + left. split; [by apply H1 | by left].
    + destruct (H2 Hp Hl) as (n & Hb & _ & _ & Hr). destruct (Z.eqb_spec n (cur s)) as [E | E].
      * left. split; [done | right]. rewrite <- E. apply Hb.
      * right. exists n. split; [apply Hb | done].
  - pose proof (si_rep s l H) as Hrep. unfold r, sched_resched_from_irq_tail, get, modify, mbind, K_bind, mret, K_ret.
    cbn [kbind]. rewrite Hp, (proj2 (Z.eqb_neq _ _) Hc). cbn [Z.eqb negb orb andb].
    set (n := if is_ready s (cur s) && negb (nxt s (cur s) =? nullptr) then nxt s (cur s) else rq_head s).
    assert (Hn : n = nullptr /\ l = [] \/ n ∈ l).
    { unfold n. destruct (is_ready s (cur s) && negb (nxt s (cur s) =? nullptr)) eqn:E.
      - right. apply andb_true_iff in E as [Hr _]. apply (sched_inv_cur_in s l H) in Hr.
        apply list_elem_of_split in Hr as (l1 & l2 & El). pose proof (rq_linked s l Hrep) as Hl. rewrite El in Hl.
        apply linked_rotate in Hl. destruct Hl as [Hl _]. rewrite Hl, El.
        destruct l2 as [|y l2]; [destruct l1 as [|y l1] |]; simpl; rewrite ?elem_of_app, ?elem_of_cons; tauto.
      - rewrite (rq_hd s l Hrep). destruct l as [|y l]; [by left | right; by left]. }
    destruct (Z.eqb_spec n nullptr) as [En | En].
    + left. cbn [orb]. split; [done | left]. destruct Hn as [[_ ->] | Hn]; [done |]. rewrite En in Hn.
      by apply (rq_nonnull s l Hrep) in Hn.
    + destruct Hn as [[? _] | Hn]; [done |]. destruct (Z.eqb_spec n (cur s)) as [Ec | Ec]; cbn [orb].
      * left. split; [done | right]. by rewrite <- Ec.
      * right. exists n. split; [done | split; [done |]]. rewrite do_switch_eq. cbn [kbind]. eexists. split; [done |]. done.
Qed.

(** Round robin: one yield from a thread in the ring. *)
Lemma yield_rr_spec s l1 l2 :
  sched_inv s (l1 ++ cur s :: l2) -> preempt_cnt (cpu s) = 0 ->
  let n := hd (cur s) (l2 ++ l1) in
  if n =? cur s then thread_yield false s = KDone () s else switches_to id s n (thread_yield false s).
Proof.
  intros H Hp n. unfold thread_yield, get, mbind, K_bind, mret, K_ret. cbn [kbind]. rewrite Hp. cbn [Z.eqb negb].
  pose proof (si_rep _ _ H) as Hrep.
  assert (Hc : cur s <> nullptr).
  { intros E. apply (rq_nonnull _ _ Hrep). rewrite <- E at 1. apply elem_of_app. right. by left. }
  rewrite (proj2 (Z.eqb_neq _ _) Hc).
  assert (Hn : nxt s (cur s) = n).
  { pose proof (rq_linked _ _ Hrep) as Hl. apply linked_rotate in Hl. destruct Hl as [Hl _]. rewrite Hl. unfold n.
    by destruct l2, l1. }
  assert (Hn0 : n <> nullptr).
  { intros E. apply (rq_nonnull _ _ Hrep). rewrite <- E. unfold n.
    destruct l2 as [|y l2]; [destruct l1 as [|y l1] |]; simpl; rewrite ?elem_of_app, ?elem_of_cons; tauto. }
  rewrite Hn, (proj2 (Z.eqb_neq _ _) Hn0). cbn [negb kbind].
  rewrite (proj2 (Z.eqb_neq _ _) Hn0). cbn [negb andb].
  destruct (n =? cur s); [done |]. cbn [negb]. rewrite do_switch_eq. eexists. split; [done |]. done.
Qed.

(** The state in which the chosen thread goes on after a yield. *)
Definition after_yield (prio : bool) (s : kst) : kst :=
  match thread_yield prio s with KSwitch _ _ s' _ => s' | KDone _ s' => s' | _ => s end.

Lemma after_yield_rr s l i :
  sched_inv s l -> preempt_cnt (cpu s) = 0 -> 0 <= i < Z.of_nat (length l) -> l !! Z.to_nat i = Some (cur s) ->
  let s' := after_yield false s in
  sched_inv s' l /\ preempt_cnt (cpu s') = 0 /\
  l !! Z.to_nat ((i + 1) mod Z.of_nat (length l)) = Some (cur s').
Proof.
  intros H Hp Hi Hl s'. pose proof (list_elem_of_split_length _ _ _ Hl) as (l1 & l2 & El & Hi').
  pose proof H as H'. rewrite El in H'. pose proof (yield_rr_spec s l1 l2 H' Hp) as Hy. cbv zeta in Hy.
  assert (Hnth : l !! Z.to_nat ((i + 1) mod Z.of_nat (length l)) = Some (hd (cur s) (l2 ++ l1))).
  { assert (Hlen : length l = (length l1 + Datatypes.S (length l2))%nat) by (rewrite El; by rewrite length_app).
    destruct l2 as [|y l2].
    - replace ((i + 1) mod Z.of_nat (length l)) with 0 by (rewrite Hlen in *; simpl in *;
        replace (i + 1) with (Z.of_nat (length l1 + 1)) by lia; rewrite Z.mod_same; lia).
      rewrite El. by destruct l1.
    - rewrite Z.mod_small by (rewrite Hlen; simpl; lia). rewrite El.
      rewrite lookup_app_r by lia. replace (Z.to_nat (i + 1) - length l1)%nat with 1%nat by lia. done. }
  unfold s', after_yield. set (n := hd (cur s) (l2 ++ l1)) in *.
  destruct (Z.eqb_spec n (cur s)) as [E | E].
  - rewrite Hy, Hnth. split; [done | split; [done |]]. by rewrite E.
  - destruct Hy as (k & -> & _). rewrite Hnth. split; [| split; [simpl; by rewrite cpu_save | done]].
    apply switched_inv; [done |]. by apply list_elem_of_lookup_2 in Hnth.
Qed.

(** ** Blocking and waking *)

Lemma rq_del_elem t l x : x ∈ rq_del t l <-> x ∈ l /\ x <> t.
Proof. unfold rq_del. rewrite list_elem_of_filter. tauto. Qed.

(** Nothing but threads and queue pointers differs, and no thread is lost. *)
Definition same_but_threads (s s' : kst) : Prop :=
  cpu s' = cpu s /\ mutexes s' = mutexes s /\ sems s' = sems s /\ hw s' = hw s /\ ram s' = ram s /\ out s' = out s /\
  forall t, threads s !! t <> None -> threads s' !! t <> None.

Lemma same_thr s s' : same_but_queue s s' ->
  (forall t, t_state (thr s' t) = t_state (thr s t) /\ prio_ok (thr s' t) = prio_ok (thr s t)) /\
  same_but_threads s s'.
Proof.
  intros (nx & Hn & Hk & E). split; [intros t; by rewrite Hn |]. unfold same_but_threads.
  rewrite E at 1 2 3 4 5 6. done.
Qed.

(** Blocking: the running thread leaves the queue, is marked blocked and loses
    its wait link. *)
Lemma sched_block_spec s l :
  sched_inv s l -> cur s <> nullptr ->
  exists s', sched_block_current s = Some s' /\
    (t_state (thr s (cur s)) = kThreadBlocked -> s' = s) /\
    (t_state (thr s (cur s)) <> kThreadBlocked ->
      sched_inv s' (rq_del (cur s) l) /\
      (forall t, exists v, thr s' t = set_t_next v
         (if t =? cur s then set_t_wait_next nullptr (set_t_state kThreadBlocked (thr s t)) else thr s t))) /\
    same_but_threads s s'.
Proof.
  intros H Hc. unfold sched_block_current. rewrite (proj2 (Z.eqb_neq _ _) Hc).
  destruct (Z.eqb_spec (t_state (thr s (cur s))) kThreadBlocked) as [Hb | Hb].
  { by exists s. }
  destruct (rq_remove_spec s l (cur s) (si_rep s l H) Hc) as (s1 & E & Hsame & Hrep). rewrite E. simpl.
  destruct (same_thr s s1 Hsame) as [F Hst]. destruct Hst as (Hcpu & Hrest).
  assert (Hcur : cur s1 = cur s) by (unfold cur; by rewrite Hcpu). rewrite !Hcur. set (c := cur s) in *.
  set (s' := upd_thr c _ (upd_thr c _ s1)).
  assert (Ht : forall t, thr s' t =
    if t =? c then set_t_wait_next nullptr (set_t_state kThreadBlocked (thr s1 t)) else thr s1 t).
  { intros t. unfold s'. rewrite !thr_upd, (Z.eqb_sym c t). by destruct (t =? c). }
  exists s'. split; [done | split; [done | split]].
  2: { destruct Hrest as (H1 & H2 & H3 & H4 & H5 & H6). repeat (split; [done |]). intros t Hk. unfold s'. auto with mk. }
  intros _. split; [split |].
  - unfold s'. by apply rq_rep_upd, rq_rep_upd.
  - intros t [Htl Htn]%rq_del_elem. rewrite Ht, (proj2 (Z.eqb_neq t c)) by done. destruct (F t) as (-> & _).
    by apply (si_ready s l H).
  - intros t. rewrite Ht. destruct (t =? c); [change (prio_ok (thr s1 t)) |];
      destruct (F t) as (_ & ->); apply (si_prio s l H).
  - change (cur s') with (cur s1). rewrite Hcur. intros _ Hr. by rewrite Ht, Z.eqb_refl in Hr.
  - intros t. destruct Hsame as (nx & Hn & _). exists (nx t). rewrite Ht, Hn. by destruct (t =? c).
Qed.

Lemma sched_make_runnable_spec s l t :
  sched_inv s l -> t <> nullptr -> t_state (thr s t) <> kThreadReady -> threads s !! t <> None ->
  let s' := sched_make_runnable t s in
  sched_inv s' (l ++ [t]) /\ same_but_threads s s' /\
  (forall u, exists v, thr s' u = set_t_next v
     (if u =? t then set_t_budget kQuantumTicks (set_t_wait_next nullptr (set_t_state kThreadReady (thr s u)))
      else thr s u)).
Proof.
  intros H Ht Hst Hk s'. unfold s', sched_make_runnable.
  rewrite (proj2 (Z.eqb_neq _ _) Ht), (proj2 (Z.eqb_neq _ _) Hst).
  set (s1 := upd_thr t _ (upd_thr t _ (upd_thr t _ s))).
  assert (Htn : t ∉ l) by (intros Htl; by apply Hst, (si_ready s l H)).
  assert (Hrep : rq_rep s1 l) by (unfold s1; by repeat apply rq_rep_upd; [.. | apply H]).
  assert (Hk1 : forall u, threads s !! u <> None -> threads s1 !! u <> None) by (intros; unfold s1; auto with mk).
  destruct (rq_append_spec s1 l t Hrep Ht Htn (Hk1 t Hk)) as [Hrep' Hsame].
  destruct (same_thr _ _ Hsame) as [F Hsbt]. destruct Hsbt as (Hcpu & H1 & H2 & H3 & H4 & H5 & H6).
  assert (H1u : forall u, thr s1 u =
    if u =? t then set_t_budget kQuantumTicks (set_t_wait_next nullptr (set_t_state kThreadReady (thr s u))) else thr s u).
  { intros u. unfold s1. rewrite !thr_upd, (Z.eqb_sym t u). by destruct (u =? t). }
  destruct Hsame as (nx & Hn & _). split; [split | split].
  - done.
  - intros u Hu. destruct (F u) as (-> & _). rewrite H1u. destruct (Z.eqb_spec u t) as [-> | Hne]; [done |].
    apply elem_of_app in Hu as [Hu | ->%list_elem_of_singleton]; [by apply (si_ready s l H) | done].
  - intros u. destruct (F u) as (_ & ->). rewrite H1u.
    destruct (u =? t); [change (prio_ok (thr s u)) |]; apply (si_prio s l H).
  - unfold cur. rewrite Hcpu. change (current_thread (cpu s1)) with (cur s). intros Hc Hr.
    apply elem_of_app. destruct (Z.eq_dec (cur s) t) as [-> | Hne]; [right; by left | left].
    destruct (F (cur s)) as (E & _). rewrite E, H1u, (proj2 (Z.eqb_neq _ _) Hne) in Hr. by apply (si_cur s l H).
  - repeat (split; [done |]). intros u Hu. by apply H6, Hk1.
  - intros u. exists (nx u). by rewrite Hn, H1u.
Qed.

(** ** The tick *)

Lemma tick_budget_spec prio c s :
  let s' := tick_budget prio c s in
  let b := t_budget (thr s c) in
  (1 < b -> s' = upd_thr c (set_t_budget (b - 1)) s) /\
  (b <= 1 -> need_resched (cpu s') = (if prio then kNeedReschedRotate else kNeedReschedNormal) /\
    t_budget (thr s' c) = kQuantumTicks) /\
  ram s' = ram s /\ cur s' = cur s /\ preempt_cnt (cpu s') = preempt_cnt (cpu s) /\
  forall t, thr s' t = set_t_budget (t_budget (thr s' t)) (thr s t).
Proof.
  intros s' b. unfold s', tick_budget. fold b. cbv zeta.
  assert (Hid : forall t, thr s t = set_t_budget (t_budget (thr s t)) (thr s t)) by (intros t; by destruct (thr s t)).
  destruct (Z.ltb_spec 0 b) as [Hb | Hb].
  - rewrite thr_upd_eq. cbn [t_budget set_t_budget].
    destruct (Z.leb_spec (b - 1) 0) as [Hb1 | Hb1].
    + split; [lia | split; [intros _ | split; [done | split; [done | split; [done |]]]]].
      * split; [done | by rewrite thr_upd_eq].
      * intros t. rewrite thr_upd. change (thr (set_resched ?v ?x)) with (thr x). rewrite thr_upd.
        by destruct (c =? t).
    + split; [done | split; [lia | split; [done | split; [done | split; [done |]]]]].
      intros t. rewrite thr_upd. by destruct (c =? t).
  - fold b. rewrite (proj2 (Z.leb_le b 0)) by lia.
    split; [lia | split; [intros _ | split; [done | split; [done | split; [done |]]]]].
    + split; [done | by rewrite thr_upd_eq].
    + intros t. rewrite thr_upd. change (thr (set_resched ?v ?x)) with (thr x). by destruct (c =? t).
Qed.

(** The tick of a running thread whose stack is intact. *)
Lemma sched_on_tick_rr s :
  cur s <> nullptr -> thread_guard_ok s (cur s) = true -> preempt_cnt (cpu s) = 0 ->
  sched_on_tick false s = KDone () (tick_budget false (cur s) s).
Proof.
  intros Hc Hg Hp. unfold sched_on_tick, get, modify, mbind, K_bind, mret, K_ret. cbn [kbind].
  by rewrite (proj2 (Z.eqb_neq _ _) Hc), Hg, Hp.
Qed.

Lemma sched_on_tick_prio s l :
  sched_inv s l -> cur s <> nullptr -> thread_guard_ok s (cur s) = true -> preempt_cnt (cpu s) = 0 ->
  exists s', sched_on_tick true s = KDone () s' /\
    ((is_ready s (cur s) = false \/
      exists t, t ∈ l /\ t_effective_priority (thr s (cur s)) < t_effective_priority (thr s t)) ->
     s' = set_resched kNeedReschedNormal s) /\
    (is_ready s (cur s) = true ->
     (forall t, t ∈ l -> t_effective_priority (thr s t) <= t_effective_priority (thr s (cur s))) ->
     s' = tick_budget true (cur s) s).
Proof.
  intros H Hc Hg Hp. unfold sched_on_tick, get, modify, of_opt, mbind, K_bind, mret, K_ret. cbn [kbind].
  rewrite (proj2 (Z.eqb_neq _ _) Hc), Hg, Hp. cbn [Z.eqb negb andb].
  destruct (is_ready s (cur s)) eqn:Hr; cbn [negb].
  2: { eexists. split; [done |]. by split. }
  destruct (rq_has_ready_prio_gt_spec s l (t_effective_priority (thr s (cur s))) (si_rep s l H)) as (b & -> & Hb).
  cbn [kbind]. destruct b; eexists; (split; [done |]); split; try done.
  - intros _ Hle. destruct (proj1 Hb eq_refl) as (t & Ht & _ & Hlt). specialize (Hle t Ht). lia.
  - intros [? | (t & Ht & Hlt)]; [done |]. assert (false = true) as Hx; [| done]. apply Hb. exists t.
    split; [done | split; [by apply (sched_inv_ready s l) | done]].
Qed.

(** [n] ticks in a row. *)
Fixpoint ticks_rr (n : nat) (s : kst) : kres unit :=
  match n with
  | O => KDone () s
  | Datatypes.S n' => kbind (sched_on_tick false s) (fun _ => ticks_rr n')
  end.

(** ** Preemption *)

(** The end of a critical section entered with preemption enabled: the counter
    returns to zero, and a pending reschedule happens outside interrupts. *)
Lemma preempt_enable_one prio s :
  preempt_cnt (cpu s) = 1 ->
  let s0 := upd_cpu (set_preempt_cnt 0) s in
  preempt_enable prio s =
    if negb (need_resched (cpu s) =? 0) && (irq_depth (cpu s) =? 0)
    then sched_resched_from_irq_tail prio s0 else KDone () s0.
Proof.
  intros Hp s0. unfold preempt_enable, get, modify, mbind, K_bind, mret, K_ret. cbn [kbind]. rewrite Hp. cbn [Z.eqb kbind].
  change (upd_cpu (set_preempt_cnt (wrap32 (1 - 1))) s) with s0. cbn [s0 upd_cpu set_cpu cpu set_preempt_cnt preempt_cnt].
  change (need_resched (cpu s0)) with (need_resched (cpu s)). change (irq_depth (cpu s0)) with (irq_depth (cpu s)).
  cbn [Z.eqb andb]. by destruct (_ && _).
Qed.

(** ** Theorems *)

(** the FP/SIMD registers survive a switch: whatever the other threads do
    to the registers meanwhile, when the thread is resumed with its saved
    context untouched, [do_switch] returns with the registers it was called with
    and has changed nothing else. *)
Theorem do_switch_preserves_fp s n :
  cur s <> nullptr ->
  let c := cur s in
  exists s1 k, do_switch c n s = KSwitch c n s1 k /\ cur s1 = n /\
    forall s', cur s' = c -> t_fpsimd_valid (thr s' c) = t_fpsimd_valid (thr s1 c) ->
      t_fpsimd_vregs (thr s' c) = t_fpsimd_vregs (thr s1 c) ->
      t_fpcr (thr s' c) = t_fpcr (thr s1 c) -> t_fpsr (thr s' c) = t_fpsr (thr s1 c) ->
      k s' = KDone () (set_hw (hw s) s').
Proof.
  intros Hc c. exists (switched n s), (fun s' => KDone () (fpsimd_load s')). split; [done | split; [done |]].
  intros s' Hcur. unfold c in *. clear c. rewrite !thr_switched, thr_save, Z.eqb_refl. rewrite (proj2 (Z.eqb_neq _ _) Hc).
  cbn [t_fpsimd_valid t_fpsimd_vregs t_fpcr t_fpsr]. intros E1 E2 E3 E4. unfold fpsimd_load.
  rewrite Hcur, (proj2 (Z.eqb_neq _ _) Hc), E1, E2, E3, E4. simpl. by destruct (hw s).
Qed.

(** nothing loads a context on a thread's first run: the registers it finds
    are those of the thread that switched to it, although its own saved
    context is marked invalid and [fpsimd_load] would have cleared them. *)
Theorem first_run_inherits_fp s n :
  t_fpsimd_valid (thr s n) = 0 -> n <> cur s ->
  exists s1 k, do_switch (cur s) n s = KSwitch (cur s) n s1 k /\ cur s1 = n /\
    hw s1 = hw s /\ (n <> nullptr -> hw_q (hw (fpsimd_load s1)) = fp_zeros).
Proof.
  intros Hv Hn. exists (switched n s), (fun s' => KDone () (fpsimd_load s')). split; [done | split; [done |]].
  assert (Hh : hw (switched n s) = hw s) by (unfold switched, fpsimd_save; simpl; by destruct (_ =? _)).
  split; [done |]. intros Hn0. unfold fpsimd_load. change (cur (switched n s)) with n.
  rewrite (proj2 (Z.eqb_neq _ _) Hn0), thr_switched, thr_save, (proj2 (Z.eqb_neq (cur s) n)) by congruence.
  destruct (cur s =? nullptr); by rewrite Hv.
Qed.

(** C32: under round robin, [k] yields in a row from position [i] of the ring
    leave position [i + k] (modulo the length) running, with the invariant
    intact: every queued thread runs within one turn of the ring. *)
Theorem yield_round_robin k s l i :
  sched_inv s l -> preempt_cnt (cpu s) = 0 -> 0 <= i < Z.of_nat (length l) -> l !! Z.to_nat i = Some (cur s) ->
  let s' := Nat.iter k (after_yield false) s in
  sched_inv s' l /\ preempt_cnt (cpu s') = 0 /\
  l !! Z.to_nat ((i + Z.of_nat k) mod Z.of_nat (length l)) = Some (cur s').
Proof.
  intros H Hp Hi Hl. induction k as [|k IH].
  - simpl. rewrite Z.add_0_r, Z.mod_small by done. done.
  - destruct IH as (IH1 & IH2 & IH3). simpl Nat.iter.
    destruct (after_yield_rr _ l ((i + Z.of_nat k) mod Z.of_nat (length l)) IH1 IH2) as (J1 & J2 & J3);
      [apply Z.mod_pos_bound; lia | done |].
    split; [done | split; [done |]]. rewrite <- J3. f_equal. f_equal.
    rewrite Z.add_mod_idemp_l by lia. f_equal. lia.
Qed.

(** C8: the rescheduling point of the priority build runs a ready thread of
    the greatest effective priority: it does nothing while preemption is
    disabled; otherwise it leaves the current thread running only when that is
    such a thread (and, on a rotation request, the only one) or nothing is
    queued, else it switches to another such; [need_resched] ends cleared. *)
Theorem resched_runs_best s l :
  sched_inv s l -> cur s <> nullptr ->
  let r := sched_resched_from_irq_tail true s in
  (preempt_cnt (cpu s) <> 0 -> r = KDone () s) /\
  (preempt_cnt (cpu s) = 0 -> l = [] -> r = KDone () (set_resched kNeedReschedNone s)) /\
  (preempt_cnt (cpu s) = 0 -> l <> [] ->
    exists n, best_of s l n /\
      (need_resched (cpu s) = kNeedReschedRotate -> forall u, best_of s l u -> u <> cur s -> n <> cur s) /\
      (need_resched (cpu s) <> kNeedReschedRotate -> best_of s l (cur s) -> n = cur s) /\
      if n =? cur s then r = KDone () (set_resched kNeedReschedNone s)
      else switches_to (set_resched kNeedReschedNone) s n r).
Proof. apply resched_spec. Qed.

(** C22: blocking takes the running thread out of the queue and marks it
    blocked, a second block does nothing; waking a blocked thread marks it
    ready, refills its quantum and appends it to the queue; both keep the
    scheduler invariant and every other field of every thread but the links. *)
Theorem block_and_wake s l t :
  sched_inv s l -> cur s <> nullptr ->
  (exists s', sched_block_current s = Some s' /\
    (t_state (thr s (cur s)) = kThreadBlocked -> s' = s) /\
    (t_state (thr s (cur s)) <> kThreadBlocked ->
      sched_inv s' (rq_del (cur s) l) /\
      (forall t, exists v, thr s' t = set_t_next v
         (if t =? cur s then set_t_wait_next nullptr (set_t_state kThreadBlocked (thr s t)) else thr s t)))) /\
  (t <> nullptr -> t_state (thr s t) <> kThreadReady -> threads s !! t <> None ->
    let s' := sched_make_runnable t s in
    sched_inv s' (l ++ [t]) /\
    (forall u, exists v, thr s' u = set_t_next v
       (if u =? t then set_t_budget kQuantumTicks (set_t_wait_next nullptr (set_t_state kThreadReady (thr s u)))
        else thr s u))).
Proof.
  intros H Hc. split.
  - destruct (sched_block_spec s l H Hc) as (s' & E & H1 & H2 & _). by exists s'.
  - intros Ht Hst Hk. by destruct (sched_make_runnable_spec s l t H Ht Hst Hk) as (H1 & _ & H2).
Qed.

(** a round-robin quantum lasts exactly its budget: with the stack guard
    intact and preemption enabled, the ticks before the last only count the
    budget down, and the tick that uses it up requests a reschedule and refills
    the budget. *)
Theorem quantum_expires s (n : nat) :
  cur s <> nullptr -> thread_guard_ok s (cur s) = true -> preempt_cnt (cpu s) = 0 ->
  let b := t_budget (thr s (cur s)) in
  0 < b ->
  (Z.of_nat n < b -> exists s', ticks_rr n s = KDone () s' /\ need_resched (cpu s') = need_resched (cpu s) /\
    t_budget (thr s' (cur s)) = b - Z.of_nat n) /\
  (Z.of_nat n = b -> exists s', ticks_rr n s = KDone () s' /\ need_resched (cpu s') = kNeedReschedNormal /\
    t_budget (thr s' (cur s)) = kQuantumTicks).
Proof.
  revert s. induction n as [|n IH]; intros s Hc Hg Hp b Hb; cbn [ticks_rr].
  { split; intros Hn; [| lia]. exists s. split; [done | split; [done |]]. fold b. lia. }
  rewrite sched_on_tick_rr by done. cbn [kbind].
  destruct (tick_budget_spec false (cur s) s) as (H1 & H2 & H3 & H4 & H5 & H6). fold b in H1, H2.
  set (s1 := tick_budget false (cur s) s) in *. destruct (Z.eq_dec b 1) as [E | E].
  - split; [lia |]. intros Hn. destruct n; [| lia]. cbn [ticks_rr]. exists s1. split; [done |]. apply H2. lia.
  - assert (Hbud : t_budget (thr s1 (cur s)) = b - 1) by (rewrite (H1 ltac:(lia)); by rewrite thr_upd_eq).
    assert (Hg1 : thread_guard_ok s1 (cur s1) = true).
    { rewrite H4. unfold thread_guard_ok in *. rewrite H3, H6. done. }
    specialize (IH s1). rewrite H4, Hbud in IH. specialize (IH Hc (eq_ind _ (fun x => thread_guard_ok s1 x = true) Hg1 _ H4)).
    rewrite H5 in IH. specialize (IH Hp ltac:(lia)). destruct IH as [IH1 IH2].
    assert (Hnr : need_resched (cpu s1) = need_resched (cpu s)) by by rewrite (H1 ltac:(lia)).
    split; intros Hn.
    + destruct (IH1 ltac:(lia)) as (s' & Ht & Hr & Hbd). exists s'. rewrite Ht, Hr, Hnr, Hbd.
      split; [done | split; [done | lia]].
    + destruct (IH2 ltac:(lia)) as (s' & Ht & Hr & Hbd). by exists s'.
Qed.

(** in the priority build a tick requests a reschedule at once when the
    running thread is no longer ready or a queued thread outranks it, and counts
    its quantum down otherwise; in both builds a tick that finds the guard
    pattern of the running thread's stack damaged halts the machine, and does
    nothing while preemption is disabled. *)
Theorem tick_branches s l :
  sched_inv s l -> cur s <> nullptr ->
  (forall p, thread_guard_ok s (cur s) = false -> exists s', sched_on_tick p s = KHalt s' /\ threads s' = threads s) /\
  (forall p, thread_guard_ok s (cur s) = true -> preempt_cnt (cpu s) <> 0 -> sched_on_tick p s = KDone () s) /\
  (thread_guard_ok s (cur s) = true -> preempt_cnt (cpu s) = 0 ->
    exists s', sched_on_tick true s = KDone () s' /\
    ((is_ready s (cur s) = false \/
      exists t, t ∈ l /\ t_effective_priority (thr s (cur s)) < t_effective_priority (thr s t)) ->
     s' = set_resched kNeedReschedNormal s) /\
    (is_ready s (cur s) = true ->
     (forall t, t ∈ l -> t_effective_priority (thr s t) <= t_effective_priority (thr s (cur s))) ->
     s' = tick_budget true (cur s) s)).
Proof.
  intros H Hc. split; [| split].
  - intros p Hg. unfold sched_on_tick, get, modify, mbind, K_bind, mret, K_ret, halt. cbn [kbind].
    rewrite (proj2 (Z.eqb_neq _ _) Hc), Hg. cbn [negb kbind]. by eexists.
  - intros p Hg Hp. unfold sched_on_tick, get, modify, mbind, K_bind, mret, K_ret, halt. cbn [kbind].
    by rewrite (proj2 (Z.eqb_neq _ _) Hc), Hg, (proj2 (Z.eqb_neq _ _) Hp).
  - by apply sched_on_tick_prio.
Qed.

(** [preempt_disable] and [preempt_enable] nest: a balanced pair leaves
    the counter as it was; the reschedule runs exactly when the counter returns
    to zero with a request pending outside interrupt handling; an unmatched
    [preempt_enable] at zero does nothing. *)
Theorem preempt_balanced prio s :
  0 <= preempt_cnt (cpu s) < 2 ^ 32 - 1 ->
  let s1 := upd_cpu (set_preempt_cnt (preempt_cnt (cpu s) + 1)) s in
  preempt_disable s = KDone () s1 /\
  preempt_enable prio s1 =
    (if (preempt_cnt (cpu s) =? 0) && negb (need_resched (cpu s) =? 0) && (irq_depth (cpu s) =? 0)
     then sched_resched_from_irq_tail prio s else KDone () s) /\
  (preempt_cnt (cpu s) = 0 -> preempt_enable prio s = KDone () s).
Proof.
  intros Hp s1. assert (Hw : forall z, 0 <= z < 2 ^ 32 -> wrap32 z = z) by (intros; by apply Z.mod_small).
  split; [| split].
  - unfold preempt_disable, modify. by rewrite Hw by lia.
  - unfold preempt_enable, get, modify, mbind, K_bind, mret, K_ret. cbn [kbind].
    change (preempt_cnt (cpu s1)) with (preempt_cnt (cpu s) + 1).
    rewrite (proj2 (Z.eqb_neq (preempt_cnt (cpu s) + 1) 0)) by lia. cbn [kbind].
    replace (preempt_cnt (cpu s) + 1 - 1) with (preempt_cnt (cpu s)) by lia. rewrite Hw by lia.
    replace (upd_cpu (set_preempt_cnt (preempt_cnt (cpu s))) s1) with s; [by cbn [kbind]; destruct (_ && _ && _) |].
    unfold s1.
    destruct s as [? ? ? ? ? ? ? ? c ? ? ? ? ? ?]. by destruct c.
  - intros E. unfold preempt_enable, get, mbind, K_bind, mret, K_ret. cbn [kbind]. by rewrite E.
Qed.

(** the priority setters keep the two priorities in range and ordered
    (0 <= base <= effective <= 31) for every argument; the base setter gives the
    clamped value and never lowers the effective priority, the effective setter
    gives the clamped value but never less than the base. *)
Theorem priority_setters_wf t p s :
  prio_ok (thr s t) -> t <> nullptr ->
  let b := thr (thread_set_base_priority t p s) t in
  let e := thr (thread_set_effective_priority t p s) t in
  prio_ok b /\ t_base_priority b = clamp_priority p /\
  t_effective_priority b = Z.max (t_effective_priority (thr s t)) (clamp_priority p) /\
  prio_ok e /\ t_base_priority e = t_base_priority (thr s t) /\
  t_effective_priority e = Z.max (clamp_priority p) (t_base_priority (thr s t)).
Proof.
  intros [Hb He] Ht b e. unfold b, e, thread_set_base_priority, thread_set_effective_priority.
  rewrite (proj2 (Z.eqb_neq _ _) Ht). cbv zeta. rewrite !thr_upd_eq.
  assert (Hc : 0 <= clamp_priority p <= kMaxPriority) by (unfold clamp_priority, kMaxPriority; repeat bdestr; lia).
  unfold prio_ok in *. cbn [t_effective_priority t_base_priority set_t_base_priority set_t_effective_priority].
  destruct (Z.ltb_spec (t_effective_priority (thr s t)) (clamp_priority p)),
    (Z.ltb_spec (clamp_priority p) (t_base_priority (thr s t)));
    rewrite ?thr_upd_eq; cbn [t_effective_priority t_base_priority set_t_base_priority set_t_effective_priority]; lia.
Qed.

(** ** Witnesses *)

(** The queue of [Runq] with its second thread running. *)
Definition demo_run : kst := upd_cpu (set_current_thread 8192) demo_queue.

Lemma demo_run_thr t : thr demo_run t = zero_thread \/ t ∈ [4096; 8192; 12288].
Proof.
  destruct (decide (t ∈ [4096; 8192; 12288])) as [| Hn]; [by right | left].
  rewrite !elem_of_cons in Hn. change (thr demo_queue t = zero_thread). unfold thr.
  assert (E : threads demo_queue !! t = None); [| by rewrite E].
  apply eq_None_not_Some. intros Hs. apply elem_of_dom in Hs.
  assert (Hd : dom (threads demo_queue) = {[4096; 8192; 12288]}) by (vm_compute; reflexivity).
  rewrite Hd in Hs. apply Hn. rewrite !elem_of_union, !elem_of_singleton in Hs. tauto.
Qed.

Lemma demo_run_inv : sched_inv demo_run [4096; 8192; 12288].
Proof.
  split.
  - apply rq_rep_cpu, demo_queue_rep.
  - intros t Ht. rewrite !elem_of_cons in Ht.
    destruct Ht as [-> | [-> | [-> | Ht%not_elem_of_nil]]]; by vm_compute.
  - intros t. destruct (demo_run_thr t) as [-> | Ht]; [by unfold prio_ok, kMaxPriority; simpl |].
    rewrite !elem_of_cons in Ht.
    destruct Ht as [-> | [-> | [-> | Ht%not_elem_of_nil]]]; [by vm_compute .. | done].
  - intros _ _. right. by left.
Qed.

Lemma do_switch_preserves_fp_witness :
  exists s1 k, do_switch 8192 12288 demo_run = KSwitch 8192 12288 s1 k /\ cur s1 = 12288 /\
    forall s', cur s' = 8192 -> t_fpsimd_valid (thr s' 8192) = t_fpsimd_valid (thr s1 8192) ->
      t_fpsimd_vregs (thr s' 8192) = t_fpsimd_vregs (thr s1 8192) ->
      t_fpcr (thr s' 8192) = t_fpcr (thr s1 8192) -> t_fpsr (thr s' 8192) = t_fpsr (thr s1 8192) ->
      k s' = KDone () (set_hw (hw demo_run) s').
Proof. apply (do_switch_preserves_fp demo_run 12288). done. Defined.

(** A thread leaves a secret in the first byte of q0. *)
Definition demo_fp : kst := set_hw (FpRegs (0x53 :: replicate 511 0) 0 0) demo_run.

Lemma first_run_inherits_fp_witness :
  head (hw_q (hw demo_fp)) = Some 0x53 /\
  exists s1 k, do_switch (cur demo_fp) 12288 demo_fp = KSwitch (cur demo_fp) 12288 s1 k /\ cur s1 = 12288 /\
    hw s1 = hw demo_fp /\ (12288 <> nullptr -> hw_q (hw (fpsimd_load s1)) = fp_zeros).
Proof. split; [reflexivity |]. apply (first_run_inherits_fp demo_fp 12288); [vm_compute; reflexivity | done]. Defined.

Lemma yield_round_robin_witness :
  let s' := Nat.iter 5 (after_yield false) demo_run in
  sched_inv s' [4096; 8192; 12288] /\ preempt_cnt (cpu s') = 0 /\
  [4096; 8192; 12288] !! Z.to_nat ((1 + Z.of_nat 5) mod Z.of_nat 3) = Some (cur s').
Proof.
  apply (yield_round_robin 5 demo_run [4096; 8192; 12288] 1); [exact demo_run_inv | done | simpl; lia | done].
Defined.

Lemma resched_runs_best_witness :
  let r := sched_resched_from_irq_tail true demo_run in
  (preempt_cnt (cpu demo_run) <> 0 -> r = KDone () demo_run) /\
  (preempt_cnt (cpu demo_run) = 0 -> [4096; 8192; 12288] = [] -> r = KDone () (set_resched kNeedReschedNone demo_run)) /\
  (preempt_cnt (cpu demo_run) = 0 -> [4096; 8192; 12288] <> [] ->
    exists n, best_of demo_run [4096; 8192; 12288] n /\
      (need_resched (cpu demo_run) = kNeedReschedRotate ->
        forall u, best_of demo_run [4096; 8192; 12288] u -> u <> cur demo_run -> n <> cur demo_run) /\
      (need_resched (cpu demo_run) <> kNeedReschedRotate ->
        best_of demo_run [4096; 8192; 12288] (cur demo_run) -> n = cur demo_run) /\
      if n =? cur demo_run then r = KDone () (set_resched kNeedReschedNone demo_run)
      else switches_to (set_resched kNeedReschedNone) demo_run n r).
Proof. apply (resched_runs_best demo_run [4096; 8192; 12288]); [exact demo_run_inv | done]. Defined.

Lemma block_and_wake_witness :
  (exists s', sched_block_current demo_run = Some s' /\
    (t_state (thr demo_run (cur demo_run)) = kThreadBlocked -> s' = demo_run) /\
    (t_state (thr demo_run (cur demo_run)) <> kThreadBlocked ->
      sched_inv s' (rq_del (cur demo_run) [4096; 8192; 12288]) /\
      (forall t, exists v, thr s' t = set_t_next v
         (if t =? cur demo_run then set_t_wait_next nullptr (set_t_state kThreadBlocked (thr demo_run t)) else thr demo_run t)))) /\
  (4096 <> nullptr -> t_state (thr demo_run 4096) <> kThreadReady -> threads demo_run !! 4096 <> None ->
    let s' := sched_make_runnable 4096 demo_run in
    sched_inv s' ([4096; 8192; 12288] ++ [4096]) /\
    (forall u, exists v, thr s' u = set_t_next v
       (if u =? 4096 then set_t_budget kQuantumTicks (set_t_wait_next nullptr (set_t_state kThreadReady (thr demo_run u)))
        else thr demo_run u))).
Proof. apply (block_and_wake demo_run [4096; 8192; 12288] 4096); [exact demo_run_inv | done]. Defined.

Lemma quantum_expires_witness :
  (Z.of_nat 5 < 5 -> exists s', ticks_rr 5 demo_run = KDone () s' /\
    need_resched (cpu s') = need_resched (cpu demo_run) /\ t_budget (thr s' (cur demo_run)) = 5 - Z.of_nat 5) /\
  (Z.of_nat 5 = 5 -> exists s', ticks_rr 5 demo_run = KDone () s' /\ need_resched (cpu s') = kNeedReschedNormal /\
    t_budget (thr s' (cur demo_run)) = kQuantumTicks).
Proof.
  apply (quantum_expires demo_run 5); [done | vm_compute; reflexivity | reflexivity | vm_compute; reflexivity].
Defined.

Lemma tick_branches_witness :
  (forall p, thread_guard_ok demo_run (cur demo_run) = false ->
    exists s', sched_on_tick p demo_run = KHalt s' /\ threads s' = threads demo_run) /\
  (forall p, thread_guard_ok demo_run (cur demo_run) = true -> preempt_cnt (cpu demo_run) <> 0 ->
    sched_on_tick p demo_run = KDone () demo_run) /\
  (thread_guard_ok demo_run (cur demo_run) = true -> preempt_cnt (cpu demo_run) = 0 ->
    exists s', sched_on_tick true demo_run = KDone () s' /\
    ((is_ready demo_run (cur demo_run) = false \/
      exists t, t ∈ [4096; 8192; 12288] /\
        t_effective_priority (thr demo_run (cur demo_run)) < t_effective_priority (thr demo_run t)) ->
     s' = set_resched kNeedReschedNormal demo_run) /\
    (is_ready demo_run (cur demo_run) = true ->
     (forall t, t ∈ [4096; 8192; 12288] ->
        t_effective_priority (thr demo_run t) <= t_effective_priority (thr demo_run (cur demo_run))) ->
     s' = tick_budget true (cur demo_run) demo_run)).
Proof. apply (tick_branches demo_run [4096; 8192; 12288]); [exact demo_run_inv | done]. Defined.

Lemma preempt_balanced_witness :
  let s1 := upd_cpu (set_preempt_cnt (preempt_cnt (cpu demo_run) + 1)) demo_run in
  preempt_disable demo_run = KDone () s1 /\
  preempt_enable true s1 =
    (if (preempt_cnt (cpu demo_run) =? 0) && negb (need_resched (cpu demo_run) =? 0) && (irq_depth (cpu demo_run) =? 0)
     then sched_resched_from_irq_tail true demo_run else KDone () demo_run) /\
  (preempt_cnt (cpu demo_run) = 0 -> preempt_enable true demo_run = KDone () demo_run).
Proof. apply (preempt_balanced true demo_run). simpl. lia. Defined.

Lemma priority_setters_wf_witness :
  let b := thr (thread_set_base_priority 8192 99 demo_run) 8192 in
  let e := thr (thread_set_effective_priority 8192 (-4) demo_run) 8192 in
  t_effective_priority b = 31 /\ t_effective_priority e = 20 /\
  (let b := thr (thread_set_base_priority 8192 99 demo_run) 8192 in
   let e := thr (thread_set_effective_priority 8192 99 demo_run) 8192 in
   prio_ok b /\ t_base_priority b = clamp_priority 99 /\
   t_effective_priority b = Z.max (t_effective_priority (thr demo_run 8192)) (clamp_priority 99) /\
   prio_ok e /\ t_base_priority e = t_base_priority (thr demo_run 8192) /\
   t_effective_priority e = Z.max (clamp_priority 99) (t_base_priority (thr demo_run 8192))).
Proof.
  split; [vm_compute; reflexivity | split; [vm_compute; reflexivity |]].
  apply (priority_setters_wf 8192 99 demo_run); [apply (si_prio _ _ demo_run_inv) | done].
Defined.
