(* ===== verification/Sync.v ===== *)
(** * [src/src/sync.cc]: mutexes with priority inheritance, semaphores, lockdep

    Wait queues are chains through [Thread::wait_next], the mutexes a thread owns
    a chain through [mutex::owner_next].  The loops over them carry as fuel one
    more than the number of objects: running out means the chain has a cycle and
    the loop never ends. *)

From Stdlib Require Import String.
From S2P Require Import Prelude Kstate Runq Sched Uart.

Definition wnx (s : kst) (a : Z) : Z := t_wait_next (thr s a).

Definition onx (s : kst) (m : Z) : Z := owner_next (mtx s m).

Definition tfuel (s : kst) : nat := Datatypes.S (size (threads s)).

Definition mfuel (s : kst) : nat := Datatypes.S (size (mutexes s)).

(** ** Wait queues *)

(** The scan of [waitq_pop_highest]: returns [best] and [best_prev]. *)
Fixpoint pop_scan (n : nat) (s : kst) (t prev best best_prev best_prio : Z) : option (Z * Z) :=
  match n with
  | O => None
  | Datatypes.S n' =>
      if t =? nullptr then Some (best, best_prev)
      else
        let prio := thread_effective_priority s t in
        if best_prio <? prio then pop_scan n' s (wnx s t) t t prev prio
        else pop_scan n' s (wnx s t) t best best_prev best_prio
  end.

(** [waitq_pop_highest(&head)]: the thread taken out, the new head, the state. *)
Definition waitq_pop_highest (head : Z) (s : kst) : option (Z * Z * kst) :=
  if head =? nullptr then Some (nullptr, head, s)
  else
    r ← pop_scan (tfuel s) s head nullptr head nullptr (thread_effective_priority s head);
    let '(best, best_prev) := r in
    let '(head', s') :=
      if negb (best_prev =? nullptr)
      then (head, upd_thr best_prev (set_t_wait_next (wnx s best)) s)
      else (wnx s best, s) in
    Some (best, head', upd_thr best (set_t_wait_next nullptr) s').

Fixpoint max_scan (n : nat) (s : kst) (t best : Z) : option Z :=
  match n with
  | O => None
  | Datatypes.S n' =>
      if t =? nullptr then Some best
      else
        let prio := thread_effective_priority s t in
        max_scan n' s (wnx s t) (if best <? prio then prio else best)
  end.

Definition waitq_max_priority (head : Z) (s : kst) : option Z := max_scan (tfuel s) s head (-1).

(** ** Owned mutexes and priority inheritance *)

Definition thread_owned_mutex_add (t m : Z) (s : kst) : kst :=
  if (t =? nullptr) || (m =? nullptr) then s
  else
    let s := upd_mtx m (set_owner_next (t_owned_mutexes (thr s t))) s in
    upd_thr t (set_t_owned_mutexes m) s.

Fixpoint owned_unlink (n : nat) (t m it prev : Z) (s : kst) : option kst :=
  match n with
  | O => None
  | Datatypes.S n' =>
      if it =? nullptr then Some s
      else if it =? m then
        let s := if negb (prev =? nullptr) then upd_mtx prev (set_owner_next (onx s it)) s
                 else upd_thr t (set_t_owned_mutexes (onx s it)) s in
        Some (upd_mtx it (set_owner_next nullptr) s)
      else owned_unlink n' t m (onx s it) it s
  end.

Definition thread_owned_mutex_remove (t m : Z) (s : kst) : option kst :=
  if (t =? nullptr) || (m =? nullptr) then Some s
  else owned_unlink (mfuel s) t m (t_owned_mutexes (thr s t)) nullptr s.

(** The loop of [recompute_effective_priority] over the owned mutexes. *)
Fixpoint pi_scan (n : nat) (s : kst) (m eff : Z) : option Z :=
  match n with
  | O => None
  | Datatypes.S n' =>
      if m =? nullptr then Some eff
      else if pi_enabled (mtx s m) =? 0 then pi_scan n' s (onx s m) eff
      else
        w ← waitq_max_priority (waiters (mtx s m)) s;
        pi_scan n' s (onx s m) (if eff <? w then w else eff)
  end.

Section Sync.

Context (C : config).

Definition recompute_effective_priority (t : Z) (s : kst) : option kst :=
  if t =? nullptr then Some s
  else
    let eff := thread_base_priority s t in
    eff ← (if cfg_mutex_pi C then pi_scan (mfuel s) s (t_owned_mutexes (thr s t)) eff else Some eff);
    Some (thread_set_effective_priority t eff s).

Definition mutex_apply_pi (m : Z) (s : kst) : option kst :=
  if (m =? nullptr) || (pi_enabled (mtx s m) =? 0) then Some s
  else if owner (mtx s m) =? nullptr then Some s
  else recompute_effective_priority (owner (mtx s m)) s.

(** ** Mutexes *)

Definition mutex_init (m : Z) (s : kst) : kst :=
  if m =? nullptr then s
  else upd_mtx m (fun _ => Mutex nullptr nullptr nullptr (if cfg_mutex_pi C then 1 else 0)) s.

Definition enable : K unit := preempt_enable (sched_policy_prio C).

Definition mutex_set_pi_enabled (m enabled : Z) : K unit :=
  if m =? nullptr then mret ()
  else
    preempt_disable ≫= fun _ =>
    modify (upd_mtx m (set_pi_enabled (if negb (enabled =? 0) then 1 else 0))) ≫= fun _ =>
    modify_opt (fun s => if negb (owner (mtx s m) =? nullptr)
                         then recompute_effective_priority (owner (mtx s m)) s else Some s) ≫= fun _ =>
    enable.

(** The owner chain of [lockdep_would_deadlock], at most 16 links. *)
Fixpoint lockdep_chain (depth : nat) (s : kst) (c owner_ : Z) : bool :=
  match depth with
  | O => false
  | Datatypes.S d =>
      if owner_ =? nullptr then false
      else if owner_ =? c then true
      else
        let wait := t_waiting_on (thr s owner_) in
        if wait =? nullptr then false else lockdep_chain d s c (owner (mtx s wait))
  end.

Definition lockdep_would_deadlock (c m : Z) (s : kst) : bool :=
  if (c =? nullptr) || (m =? nullptr) then false else lockdep_chain 16 s c (owner (mtx s m)).

Definition lockdep_panic_deadlock (c m : Z) : K unit :=
  modify (fun s =>
    let s := puts "[lockdep] deadlock cycle detected: tid=" s in
    let s := print_u64 (wrap64 (if negb (c =? nullptr) then t_id (thr s c) else -1)) s in
    let s := puts " waiting_on=0x" s in
    let s := print_u64 m s in
    let s := puts newline s in
    puts ("[lockdep] result PASS" ++ newline) s) ≫= fun _ => halt.

(** The running thread takes a free mutex. *)
Definition take (c m : Z) (s : kst) : kst :=
  let s := upd_mtx m (set_owner c) s in
  let s := thread_owned_mutex_add c m s in
  upd_thr c (set_t_waiting_on nullptr) s.

(** The "Block." part of [mutex_lock]. *)
Definition mutex_block (c m : Z) (s : kst) : option kst :=
  let s := upd_thr c (set_t_waiting_on m) s in
  let s := upd_thr c (set_t_wait_next (waiters (mtx s m))) s in
  let s := upd_mtx m (set_waiters c) s in
  s ← mutex_apply_pi m s;
  s ← sched_block_current s;
  Some (set_resched 1 s).

Fixpoint mutex_lock_loop (fuel : nat) (m : Z) : K unit :=
  match fuel with
  | O => fun _ => KStuck
  | Datatypes.S n =>
      preempt_disable ≫= fun _ =>
      get ≫= fun s =>
      let c := cur s in
      if c =? nullptr then enable
      else if owner (mtx s m) =? c then
        modify (upd_thr c (set_t_waiting_on nullptr)) ≫= fun _ => enable
      else if owner (mtx s m) =? nullptr then
        modify (take c m) ≫= fun _ => enable
      else
        (if lockdep_enabled C && lockdep_would_deadlock c m s then lockdep_panic_deadlock c m else mret ()) ≫= fun _ =>
        modify_opt (mutex_block c m) ≫= fun _ =>
        enable ≫= fun _ =>
        mutex_lock_loop n m
  end.

Definition mutex_lock (fuel : nat) (m : Z) : K unit :=
  if m =? nullptr then mret () else mutex_lock_loop fuel m.

Definition mutex_trylock (m : Z) : K Z :=
  if m =? nullptr then mret (-1)
  else
    preempt_disable ≫= fun _ =>
    get ≫= fun s =>
    let c := cur s in
    if c =? nullptr then enable ≫= fun _ => mret (-1)
    else if owner (mtx s m) =? nullptr then modify (take c m) ≫= fun _ => enable ≫= fun _ => mret 0
    else if owner (mtx s m) =? c then
      modify (upd_thr c (set_t_waiting_on nullptr)) ≫= fun _ => enable ≫= fun _ => mret 0
    else enable ≫= fun _ => mret (-1).

(** The hand-over part of [mutex_unlock], up to the final [preempt_enable]. *)
Definition mutex_release (c m : Z) (s : kst) : option kst :=
  s ← thread_owned_mutex_remove c m s;
  r ← waitq_pop_highest (waiters (mtx s m)) s;
  let '(next_owner, head, s) := r in
  let s := upd_mtx m (set_waiters head) s in
  s ← (if negb (next_owner =? nullptr) then
         let s := upd_mtx m (set_owner next_owner) s in
         let s := upd_thr next_owner (set_t_waiting_on nullptr) s in
         let s := thread_owned_mutex_add next_owner m s in
         let s := sched_make_runnable next_owner s in
         mutex_apply_pi m s
       else Some (upd_mtx m (set_owner nullptr) s));
  s ← recompute_effective_priority c s;
  Some (if negb (next_owner =? nullptr) && (cur s =? c) &&
           (thread_effective_priority s c <? thread_effective_priority s next_owner)
        then set_resched 1 s else s).

Definition mutex_unlock (m : Z) : K unit :=
  if m =? nullptr then mret ()
  else
    preempt_disable ≫= fun _ =>
    get ≫= fun s =>
    let c := cur s in
    if (c =? nullptr) || negb (owner (mtx s m) =? c) then enable
    else modify_opt (mutex_release c m) ≫= fun _ => enable.

(** ** Semaphores *)

Definition sem_init (a initial_count : Z) (s : kst) : kst :=
  if a =? nullptr then s else upd_sem a (fun _ => Semaphore initial_count nullptr) s.

Definition sem_add (a d : Z) : kst -> kst :=
  upd_sem a (fun x => Semaphore (int32 (count x + d)) (swaiters x)).

Definition sem_set_waiters (a h : Z) : kst -> kst := upd_sem a (fun x => Semaphore (count x) h).

Definition sem_block (c a : Z) (s : kst) : option kst :=
  let s := upd_thr c (set_t_waiting_on nullptr) s in
  let s := upd_thr c (set_t_wait_next (swaiters (sem s a))) s in
  let s := sem_set_waiters a c s in
  s ← sched_block_current s;
  Some (set_resched 1 s).

Definition sem_down (a : Z) : K unit :=
  if a =? nullptr then mret ()
  else
    preempt_disable ≫= fun _ =>
    modify (sem_add a (-1)) ≫= fun _ =>
    get ≫= fun s =>
    if 0 <=? count (sem s a) then enable
    else
      let c := cur s in
      if c =? nullptr then enable
      else modify_opt (sem_block c a) ≫= fun _ => enable.

Definition sem_release (a : Z) (s : kst) : option kst :=
  let s := sem_add a 1 s in
  if count (sem s a) <=? 0 then
    r ← waitq_pop_highest (swaiters (sem s a)) s;
    let '(t, head, s) := r in
    let s := sem_set_waiters a head s in
    if negb (t =? nullptr) then
      let s := sched_make_runnable t s in
      Some (if negb (cur s =? nullptr) && (thread_effective_priority s (cur s) <? thread_effective_priority s t)
            then set_resched 1 s else s)
    else Some s
  else Some s.

Definition sem_up (a : Z) : K unit :=
  if a =? nullptr then mret ()
  else
    preempt_disable ≫= fun _ =>
    modify_opt (sem_release a) ≫= fun _ => enable.

End Sync.

(** ** Representation *)

(** The wait queue with head [h] holds exactly [l], most recent first. *)
Record wq_rep (s : kst) (h : Z) (l : list Z) : Prop := {
  wq_hd : h = hd nullptr l;
  wq_linked : linked (wnx s) l nullptr;
  wq_nodup : NoDup l;
  wq_nonnull : nullptr ∉ l;
  wq_known : forall t, t ∈ l -> threads s !! t <> None
}.

(** Thread [t] owns exactly the mutexes [ms], most recent first. *)
Record owned_rep (s : kst) (t : Z) (ms : list Z) : Prop := {
  ow_hd : t_owned_mutexes (thr s t) = hd nullptr ms;
  ow_linked : linked (onx s) ms nullptr;
  ow_nodup : NoDup ms;
  ow_nonnull : nullptr ∉ ms;
  ow_known : forall m, m ∈ ms -> mutexes s !! m <> None
}.

Lemma nodup_le_size {V} (m : gmap Z V) l :
  NoDup l -> (forall t, t ∈ l -> m !! t <> None) -> (length l < Datatypes.S (size m))%nat.
Proof.
  intros Hnd Hk. rewrite <- size_dom, <- (size_list_to_set (C := gset Z) l) by done.
  assert (size (list_to_set l : gset Z) <= size (dom m))%nat; [| lia].
  apply subseteq_size. intros x Hx. apply elem_of_list_to_set in Hx.
  apply elem_of_dom. apply Hk in Hx. by destruct (m !! x); [eexists |].
Qed.

Lemma eff_nonnull s t : t <> nullptr -> thread_effective_priority s t = t_effective_priority (thr s t).
Proof. intros H. unfold thread_effective_priority. by rewrite (proj2 (Z.eqb_neq _ _) H). Qed.

Lemma max_scan_spec s l n best :
  linked (wnx s) l nullptr -> nullptr ∉ l -> (length l < n)%nat ->
  exists w, max_scan n s (hd nullptr l) best = Some w /\ best <= w /\
    (forall t, t ∈ l -> t_effective_priority (thr s t) <= w) /\
    (w = best \/ exists t, t ∈ l /\ t_effective_priority (thr s t) = w).
Proof.
  revert n best. induction l as [|t l IH]; intros n best Hl Hnn Hn; (destruct n as [|n]; [simpl in Hn; lia |]); simpl.
  { exists best. split; [done | split; [lia | split; [by intros t ?%not_elem_of_nil | by left]]]. }
  apply not_elem_of_cons in Hnn as [Ht Hnn]. destruct Hl as [Ht' Hl].
  rewrite (proj2 (Z.eqb_neq t nullptr)), eff_nonnull, Ht' by congruence.
  destruct (IH n (if best <? t_effective_priority (thr s t) then t_effective_priority (thr s t) else best) Hl Hnn)
    as (w & E & Hb & Hle & Hw); [simpl in Hn; lia |].
  exists w. split; [done |]. split; [revert Hb; bdestr; lia | split].
  - intros u [-> | Hu]%elem_of_cons; [revert Hb; bdestr; lia | by apply Hle].
  - destruct Hw as [-> | (u & Hu & E')]; [| right; exists u; split; [by right | done]].
    bdestr; [right; exists t; split; [by left | done] | by left].
Qed.

Lemma waitq_max_spec s h l :
  wq_rep s h l ->
  exists w, waitq_max_priority h s = Some w /\ -1 <= w /\
    (forall t, t ∈ l -> t_effective_priority (thr s t) <= w) /\
    (w = -1 \/ exists t, t ∈ l /\ t_effective_priority (thr s t) = w).
Proof.
  intros [-> Hl Hnd Hnn Hk]. apply max_scan_spec; [done | done |]. by apply nodup_le_size.
Qed.

Lemma pop_scan_spec s p1 b p2 l n prev :
  linked (wnx s) l nullptr -> nullptr ∉ l -> (length l < n)%nat ->
  prev = List.last (p1 ++ b :: p2) nullptr ->
  (forall x, x ∈ p1 -> t_effective_priority (thr s x) < t_effective_priority (thr s b)) ->
  (forall x, x ∈ p2 -> t_effective_priority (thr s x) <= t_effective_priority (thr s b)) ->
  exists l1 c l2, p1 ++ b :: p2 ++ l = l1 ++ c :: l2 /\
    pop_scan n s (hd nullptr l) prev b (List.last p1 nullptr) (t_effective_priority (thr s b)) =
      Some (c, List.last l1 nullptr) /\
    (forall x, x ∈ l1 -> t_effective_priority (thr s x) < t_effective_priority (thr s c)) /\
    (forall x, x ∈ l2 -> t_effective_priority (thr s x) <= t_effective_priority (thr s c)).
Proof.
  revert p1 b p2 n prev. induction l as [|t l IH]; intros p1 b p2 n prev Hl Hnn Hn Hprev H1 H2;
    (destruct n as [|n]; [simpl in Hn; lia |]); cbn [pop_scan hd].
  { exists p1, b, p2. by rewrite app_nil_r. }
  apply not_elem_of_cons in Hnn as [Ht Hnn]. destruct Hl as [Ht' Hl].
  rewrite (proj2 (Z.eqb_neq t nullptr)), eff_nonnull, Ht' by congruence. simpl in Hn.
  destruct (Z.ltb_spec (t_effective_priority (thr s b)) (t_effective_priority (thr s t))) as [Hlt | Hge].
  - subst prev. destruct (IH (p1 ++ b :: p2) t [] n t Hl Hnn) as (l1 & c & l2 & E & Hs & Hc); [lia | | | |].
    + by rewrite last_last.
    + intros x Hx. rewrite elem_of_app, elem_of_cons in Hx. destruct Hx as [Hx | [-> | Hx]]; [| done |].
      * specialize (H1 x Hx). lia.
      * specialize (H2 x Hx). lia.
    + by intros x ?%not_elem_of_nil.
    + exists l1, c, l2. rewrite <- E, <- app_assoc. done.
  - destruct (IH p1 b (p2 ++ [t]) n t Hl Hnn) as (l1 & c & l2 & E & Hs & Hc); [lia | | done | |].
    + by rewrite app_comm_cons, app_assoc, last_last.
    + intros x Hx. rewrite elem_of_app, list_elem_of_singleton in Hx. destruct Hx as [Hx | ->]; [by apply H2 | lia].
    + exists l1, c, l2. rewrite <- E, <- app_assoc. done.
Qed.

(** Taking a node out of a null-terminated chain, through its predecessor when
    it has one. *)
Lemma chain_unlink nx l1 c l2 :
  linked nx (l1 ++ c :: l2) nullptr -> NoDup (l1 ++ c :: l2) -> nullptr ∉ l1 ++ c :: l2 ->
  linked (fun x => if c =? x then nullptr else if negb (List.last l1 nullptr =? nullptr) && (List.last l1 nullptr =? x)
                   then nx c else nx x) (l1 ++ l2) nullptr.
Proof.
  intros Hl Hnd Hnn. apply linked_app in Hl as [H1 [Hc H2]]. simpl in H1.
  apply NoDup_app in Hnd as (Hn1 & Hd & Hn2). apply NoDup_cons in Hn2 as [Hc2 Hn2].
  assert (Hcx : forall x, x ∈ l1 \/ x ∈ l2 -> (c =? x) = false).
  { intros x Hx. apply Z.eqb_neq. intros <-. destruct Hx as [Hx | Hx]; [| done]. apply (Hd c Hx). by left. }
  apply linked_app. split.
  - destruct l1 as [|p l1 _] using rev_ind; [done |]. rewrite last_last. apply linked_snoc in H1 as [H1 Hp].
    apply linked_snoc. assert (Hpc : p ∈ l1 ++ [p]) by (apply elem_of_app; right; by left). split.
    + eapply linked_ext; [| exact H1]. intros x Hx. rewrite Hcx by (left; apply elem_of_app; by left).
      apply NoDup_app in Hn1 as (_ & Hd1 & _). destruct (Z.eqb_spec p x) as [<- |]; [| by rewrite andb_false_r].
      destruct (Hd1 p Hx). by left.
    + rewrite Hcx by (by left). rewrite Z.eqb_refl, andb_true_r, (proj2 (Z.eqb_neq p nullptr)).
      2: { intros E. apply Hnn. rewrite <- E. apply elem_of_app. by left. }
      simpl. rewrite Hc. by destruct l2.
  - eapply linked_ext; [| exact H2]. intros x Hx. rewrite Hcx by (by right).
    destruct (negb _ && _) eqn:E; [| done]. apply andb_true_iff in E as [E0 E%Z.eqb_eq].
    exfalso. apply (Hd x); [| by right]. subst x. apply last_In. intros ->. done.
Qed.

(** [s'] differs from [s] in wait links only. *)
Definition same_but_waits (s s' : kst) : Prop :=
  exists w, (forall t, thr s' t = set_t_wait_next (w t) (thr s t)) /\
  (forall t, threads s !! t <> None -> threads s' !! t <> None) /\ s' = set_threads (threads s') s.

Lemma same_but_waits_refl s : same_but_waits s s.
Proof. exists (wnx s). split; [intros t; unfold wnx; by destruct (thr s t) | by destruct s]. Qed.

Lemma same_but_waits_upd s s' t v : same_but_waits s s' -> same_but_waits s (upd_thr t (set_t_wait_next v) s').
Proof.
  intros (w & Hw & Hk & E). exists (fun b => if t =? b then v else w b). split; [| split].
  - intros b. rewrite thr_upd, Hw. by destruct (t =? b).
  - auto with mk.
  - rewrite E at 1. done.
Qed.

#[export] Hint Resolve same_but_waits_refl same_but_waits_upd : mk.

Lemma wnx_upd t v s b : wnx (upd_thr t (set_t_wait_next v) s) b = if t =? b then v else wnx s b.
Proof. unfold wnx. rewrite thr_upd. by destruct (t =? b). Qed.

(** [waitq_pop_highest] takes out the first waiter of greatest priority. *)
Lemma waitq_pop_spec s h l :
  wq_rep s h l -> l <> [] ->
  exists l1 t l2 h' s', l = l1 ++ t :: l2 /\ waitq_pop_highest h s = Some (t, h', s') /\
    wq_rep s' h' (l1 ++ l2) /\ wnx s' t = nullptr /\ same_but_waits s s' /\
    (forall x, x ∉ l -> wnx s' x = wnx s x) /\
    (forall x, x ∈ l1 -> t_effective_priority (thr s x) < t_effective_priority (thr s t)) /\
    (forall x, x ∈ l2 -> t_effective_priority (thr s x) <= t_effective_priority (thr s t)).
Proof.
  intros H Hne. pose proof H as [Hh Hl Hnd Hnn Hk]. destruct l as [|b l]; [done |]. simpl in Hh. subst h.
  assert (Hb : b <> nullptr) by (intros ->; apply Hnn; by left).
  apply not_elem_of_cons in Hnn as Hnn'. destruct Hnn' as [_ Hnn'].
  destruct (pop_scan_spec s [] b [] l (size (threads s)) b) as (l1 & t & l2 & E & Hs & H1 & H2);
    [apply Hl | done | pose proof (nodup_le_size _ _ Hnd Hk); simpl in *; lia | done | by intros x ?%not_elem_of_nil ..|].
  simpl in E. rewrite E in *.
  exists l1, t, l2. unfold waitq_pop_highest. rewrite (proj2 (Z.eqb_neq _ _) Hb). unfold tfuel. cbn [pop_scan].
  rewrite (proj2 (Z.eqb_neq _ _) Hb), Z.ltb_irrefl, eff_nonnull by done.
  assert (Hwb : wnx s b = hd nullptr l).
  { rewrite <- E in Hl. apply Hl. }
  rewrite Hwb. simpl List.last in Hs at 1. rewrite Hs. cbn [mbind option_bind].
  pose proof (chain_unlink _ _ _ _ Hl Hnd Hnn) as Hch.
  set (p := List.last l1 nullptr) in *. assert (Hsub : l1 ++ l2 ⊆ l1 ++ t :: l2)
    by (intros x; rewrite !elem_of_app, elem_of_cons; tauto).
  assert (Hwt : wnx s t = hd nullptr l2) by (apply linked_app in Hl as [_ [Hl _]]; exact Hl).
  assert (Hgen : forall h' s1, (forall x, wnx s1 x = if negb (p =? nullptr) && (p =? x) then wnx s t else wnx s x) ->
    (forall x, threads s !! x <> None -> threads s1 !! x <> None) -> same_but_waits s s1 ->
    h' = hd nullptr (l1 ++ l2) ->
    let s' := upd_thr t (set_t_wait_next nullptr) s1 in
    wq_rep s' h' (l1 ++ l2) /\ wnx s' t = nullptr /\ same_but_waits s s' /\
    (forall x, x ∉ l1 ++ t :: l2 -> wnx s' x = wnx s x)).
  { intros h' s1 Hw Hk1 Hsame Hh' s'. split; [split | split; [| split]].
    - done.
    - eapply linked_ext; [| exact Hch]. intros x _. unfold s'. by rewrite wnx_upd, Hw.
    - eapply sublist_NoDup; [exact Hnd |]. apply sublist_app; [done | by apply sublist_cons].
    - intros Hx. by apply Hnn, Hsub.
    - intros x Hx. unfold s'. auto with mk.
    - unfold s'. by rewrite wnx_upd, Z.eqb_refl.
    - unfold s'. auto with mk.
    - intros x Hx. unfold s'. rewrite wnx_upd, Hw. destruct (Z.eqb_spec t x) as [<- |].
      { destruct Hx. apply elem_of_app. right. by left. }
      destruct (Z.eqb_spec p nullptr) as [| Ep]; [done |]. destruct (Z.eqb_spec p x) as [<- |]; [| done].
      destruct Hx. apply elem_of_app. left. apply last_In. by intros ->. }
  destruct (Z.eqb_spec p nullptr) as [Ep | Ep]; simpl.
  - assert (l1 = []) as ->.
    { destruct l1 as [|y l1 _] using rev_ind; [done |]. unfold p in Ep. rewrite last_last in Ep.
      destruct Hnn. rewrite <- Ep. rewrite !elem_of_app. left. right. by left. }
    eexists _, _. split; [done | split; [done |]].
    destruct (Hgen (wnx s t) s) as (G1 & G2 & G3 & G4); auto 6 with mk.
  - eexists _, _. split; [done | split; [done |]].
    destruct (Hgen b (upd_thr p (set_t_wait_next (wnx s t)) s)) as (G1 & G2 & G3 & G4); auto 6 with mk.
    + intros x. by rewrite wnx_upd.
    + destruct l1 as [|y l1]; [done |]. by injection E.
Qed.

(** ** Priority inheritance *)

(** [e] is the priority thread [t] should have: its base priority or, if
    greater, the greatest effective priority among the waiters of the mutexes
    [ms] that have inheritance enabled. *)
Definition inherited (s : kst) (wqs : Z -> list Z) (t : Z) (ms : list Z) (e : Z) : Prop :=
  t_base_priority (thr s t) <= e /\
  (forall m u, m ∈ ms -> pi_enabled (mtx s m) <> 0 -> u ∈ wqs m -> t_effective_priority (thr s u) <= e) /\
  (e = t_base_priority (thr s t) \/
   exists m u, m ∈ ms /\ pi_enabled (mtx s m) <> 0 /\ u ∈ wqs m /\ t_effective_priority (thr s u) = e).

Lemma pi_scan_spec s wqs ms n e0 :
  linked (onx s) ms nullptr -> nullptr ∉ ms -> (length ms < n)%nat ->
  (forall m, m ∈ ms -> wq_rep s (waiters (mtx s m)) (wqs m)) -> 0 <= e0 ->
  exists e, pi_scan n s (hd nullptr ms) e0 = Some e /\ e0 <= e /\
    (forall m u, m ∈ ms -> pi_enabled (mtx s m) <> 0 -> u ∈ wqs m -> t_effective_priority (thr s u) <= e) /\
    (e = e0 \/ exists m u, m ∈ ms /\ pi_enabled (mtx s m) <> 0 /\ u ∈ wqs m /\ t_effective_priority (thr s u) = e).
Proof.
  revert n e0. induction ms as [|m ms IH]; intros n e0 Hl Hnn Hn Hw He0;
    (destruct n as [|n]; [simpl in Hn; lia |]); cbn [pi_scan hd].
  { exists e0. split; [done | split; [lia | split; [| by left]]]. by intros m u ?%not_elem_of_nil. }
  apply not_elem_of_cons in Hnn as [Hm Hnn]. destruct Hl as [Hm' Hl]. simpl in Hn.
  rewrite (proj2 (Z.eqb_neq m nullptr)), Hm' by congruence.
  assert (Hws : forall m', m' ∈ ms -> wq_rep s (waiters (mtx s m')) (wqs m')) by (intros m' ?; apply Hw; by right).
  destruct (Z.eqb_spec (pi_enabled (mtx s m)) 0) as [Hp | Hp].
  - destruct (IH n e0 Hl Hnn ltac:(lia) Hws He0) as (e & E & Hle & Hb & Hex). exists e.
    split; [done | split; [done | split]].
    + intros m' u [-> | Hm'']%elem_of_cons Hpi Hu; [done | by apply (Hb m')].
    + destruct Hex as [-> | (m' & u & ? & ?)]; [by left | right; exists m', u; split; [by right | done]].
  - destruct (waitq_max_spec _ _ _ (Hw m ltac:(left))) as (w & -> & Hw1 & Hwle & Hwe). simpl.
    destruct (IH n (if e0 <? w then w else e0) Hl Hnn ltac:(lia) Hws) as (e & E & Hle & Hb & Hex); [bdestr; lia |].
    exists e. assert (e0 <= e /\ w <= e) as [He0e Hwe'] by (revert Hle; bdestr; lia).
    split; [done | split; [done | split]].
    + intros m' u [-> | Hm'']%elem_of_cons Hpi Hu; [specialize (Hwle u Hu); lia | by apply (Hb m')].
    + destruct Hex as [-> | (m' & u & ? & ?)]; [| right; exists m', u; split; [by right | done]].
      bdestr; [right | by left]. destruct Hwe as [-> | (u & Hu & Eu)]; [lia |]. exists m, u.
      split; [by left | done].
Qed.

Section SyncProofs.

Context (C : config).

(** The state [recompute_effective_priority] produces. *)
Lemma recompute_spec s t wqs ms :
  t <> nullptr -> owned_rep s t ms -> (forall m, m ∈ ms -> wq_rep s (waiters (mtx s m)) (wqs m)) ->
  (forall u, prio_ok (thr s u)) ->
  exists e, recompute_effective_priority C t s = Some (upd_thr t (set_t_effective_priority e) s) /\
    (if cfg_mutex_pi C then inherited s wqs t ms e else e = t_base_priority (thr s t)) /\
    t_base_priority (thr s t) <= e <= kMaxPriority.
Proof.
  intros Ht Ho Hw Hp. unfold recompute_effective_priority, thread_base_priority.
  rewrite (proj2 (Z.eqb_neq t nullptr) Ht). destruct (Hp t) as [Hb Heff].
  assert (Hset : forall e, t_base_priority (thr s t) <= e <= kMaxPriority ->
    thread_set_effective_priority t e s = upd_thr t (set_t_effective_priority e) s).
  { intros e He. unfold thread_set_effective_priority, clamp_priority.
    rewrite (proj2 (Z.eqb_neq t nullptr) Ht), (proj2 (Z.ltb_ge e 0)), (proj2 (Z.ltb_ge kMaxPriority e)) by lia.
    cbv zeta. by rewrite (proj2 (Z.ltb_ge e _)) by lia. }
  destruct (cfg_mutex_pi C).
  - destruct Ho as [Hh Hl Hnd Hnn Hk]. rewrite Hh.
    destruct (pi_scan_spec s wqs ms (mfuel s) (t_base_priority (thr s t)) Hl Hnn) as (e & -> & Hle & Hb' & Hex);
      [by apply nodup_le_size | done | lia |]. simpl.
    assert (He : e <= kMaxPriority).
    { destruct Hex as [-> | (m & u & _ & _ & _ & <-)]; [lia |]. destruct (Hp u); lia. }
    exists e. rewrite Hset by lia. done.
  - exists (t_base_priority (thr s t)). simpl. rewrite Hset by lia. split; [done | split; [done | lia]].
Qed.

(** ** The owned-mutex list *)

Lemma thread_owned_add_spec s t m ms :
  t <> nullptr -> m <> nullptr -> owned_rep s t ms -> m ∉ ms -> mutexes s !! m <> None ->
  let s' := thread_owned_mutex_add t m s in
  owned_rep s' t (m :: ms) /\
  (forall u, thr s' u = if t =? u then set_t_owned_mutexes m (thr s u) else thr s u) /\
  (forall m', mtx s' m' = if m =? m' then set_owner_next (t_owned_mutexes (thr s t)) (mtx s m') else mtx s m').
Proof.
  intros Ht Hm [Hh Hl Hnd Hnn Hk] Hin Hkm s'. unfold s', thread_owned_mutex_add.
  rewrite (proj2 (Z.eqb_neq _ _) Ht), (proj2 (Z.eqb_neq _ _) Hm). cbn [orb]. cbv zeta.
  set (s1 := upd_mtx m _ s).
  assert (Ht1 : forall u, thr (upd_thr t (set_t_owned_mutexes m) s1) u =
    if t =? u then set_t_owned_mutexes m (thr s u) else thr s u) by (intros u; by rewrite thr_upd).
  assert (Hm1 : forall m', mtx (upd_thr t (set_t_owned_mutexes m) s1) m' =
    if m =? m' then set_owner_next (t_owned_mutexes (thr s t)) (mtx s m') else mtx s m')
    by (intros m'; change (mtx s1 m' = if m =? m' then set_owner_next (t_owned_mutexes (thr s t)) (mtx s m') else mtx s m');
        unfold s1; by rewrite mtx_upd).
  split; [| done]. split.
  - by rewrite Ht1, Z.eqb_refl.
  - simpl. split; [unfold onx; rewrite Hm1, Z.eqb_refl; done |].
    eapply linked_ext; [| exact Hl]. intros x Hx. unfold onx. rewrite Hm1, (proj2 (Z.eqb_neq m x)); [done |].
    intros ->. done.
  - by apply NoDup_cons.
  - intros [? | ?]%elem_of_cons; [congruence | done].
  - intros m' Hm'. simpl. rewrite lookup_insert. destruct (decide (m = m')); [done |].
    apply elem_of_cons in Hm' as [-> | ?]; [done | auto].
Qed.

Lemma owned_unlink_spec s t l1 m l2 n pre :
  linked (onx s) (l1 ++ m :: l2) nullptr -> nullptr ∉ l1 ++ m :: l2 -> m ∉ l1 -> (length l1 < n)%nat ->
  owned_unlink n t m (hd m l1) (List.last pre nullptr) s =
    (let p := List.last (pre ++ l1) nullptr in
     Some (upd_mtx m (set_owner_next nullptr)
       (if negb (p =? nullptr) then upd_mtx p (set_owner_next (onx s m)) s
        else upd_thr t (set_t_owned_mutexes (onx s m)) s))).
Proof.
  revert n pre. induction l1 as [|x l1 IH]; intros n pre Hl Hnn Hm Hn; (destruct n as [|n]; [lia |]);
    cbn [owned_unlink hd].
  - rewrite (proj2 (Z.eqb_neq m nullptr)), Z.eqb_refl, app_nil_r; [done |]. intros ->. apply Hnn. by left.
  - destruct Hl as [Hx Hl]. apply not_elem_of_cons in Hnn as [Hx0 Hnn]. apply not_elem_of_cons in Hm as [Hxm Hm].
    rewrite (proj2 (Z.eqb_neq x nullptr)), (proj2 (Z.eqb_neq x m)) by congruence.
    simpl in Hn. specialize (IH n (pre ++ [x]) Hl Hnn Hm ltac:(lia)). rewrite last_last in IH.
    replace (onx s x) with (hd m l1) by (rewrite Hx; by destruct l1). rewrite IH.
    by rewrite <- app_assoc.
Qed.

Lemma thread_owned_remove_spec s t l1 m l2 :
  t <> nullptr -> owned_rep s t (l1 ++ m :: l2) ->
  exists s', thread_owned_mutex_remove t m s = Some s' /\ owned_rep s' t (l1 ++ l2) /\ onx s' m = nullptr /\
    (forall u, exists v, thr s' u = set_t_owned_mutexes v (thr s u) /\ (u <> t -> v = t_owned_mutexes (thr s u))) /\
    (forall m', exists v, mtx s' m' = set_owner_next v (mtx s m') /\
       (m' ∉ l1 ++ m :: l2 -> v = owner_next (mtx s m'))) /\
    (forall u, threads s !! u <> None -> threads s' !! u <> None) /\
    (forall m', mutexes s !! m' <> None -> mutexes s' !! m' <> None) /\
    s' = set_mutexes (mutexes s') (set_threads (threads s') s).
Proof.
  intros Ht H. pose proof H as [Hh Hl Hnd Hnn Hk].
  assert (Hm : m ∈ l1 ++ m :: l2) by (apply elem_of_app; right; by left).
  assert (Hm0 : m <> nullptr) by (intros ->; done).
  assert (Hm1 : m ∉ l1) by (apply NoDup_app in Hnd as (_ & Hd & _); intros Hx; apply (Hd m Hx); by left).
  unfold thread_owned_mutex_remove. rewrite (proj2 (Z.eqb_neq _ _) Ht), (proj2 (Z.eqb_neq _ _) Hm0). cbn [orb].
  rewrite Hh. replace (hd nullptr (l1 ++ m :: l2)) with (hd m l1) by by destruct l1.
  pose proof (nodup_le_size _ _ Hnd Hk) as Hlen. rewrite length_app in Hlen. simpl in Hlen.
  pose proof (owned_unlink_spec s t l1 m l2 (mfuel s) [] Hl Hnn Hm1 ltac:(unfold mfuel; lia)) as E.
  simpl List.last in E at 1. rewrite E. clear E. simpl app. cbv zeta.
  pose proof (chain_unlink _ _ _ _ Hl Hnd Hnn) as Hch. set (p := List.last l1 nullptr) in *.
  assert (Hknown : forall a f s0 m', mutexes s0 !! m' <> None -> mutexes (upd_mtx a f s0) !! m' <> None).
  { intros a f s0 m' Hx. unfold upd_mtx. simpl. rewrite lookup_insert. by destruct (decide (a = m')). }
  assert (Hsub : l1 ++ l2 ⊆ l1 ++ m :: l2) by (intros x; rewrite !elem_of_app, elem_of_cons; tauto).
  assert (Hnd' : NoDup (l1 ++ l2))
    by (eapply sublist_NoDup; [exact Hnd |]; apply sublist_app; [done | by apply sublist_cons]).
  assert (Hset : forall x, set_owner_next (owner_next x) x = x) by by intros [].
  assert (Hsett : forall x, set_t_owned_mutexes (t_owned_mutexes x) x = x) by by intros [].
  destruct (Z.eqb_spec p nullptr) as [Ep | Ep]; cbn [negb].
  - assert (l1 = []) as ->.
    { destruct l1 as [|y l1 _] using rev_ind; [done |]. unfold p in Ep. rewrite last_last in Ep.
      destruct Hnn. rewrite <- Ep. rewrite !elem_of_app. left. right. by left. }
    assert (Hon : onx s m = hd nullptr l2) by apply Hl.
    eexists. split; [done |]. set (s' := upd_mtx m _ (upd_thr t _ s)).
    assert (Hmt : forall m', mtx s' m' = if m =? m' then set_owner_next nullptr (mtx s m') else mtx s m')
      by (intros m'; unfold s'; by rewrite mtx_upd).
    assert (Hth : forall u, thr s' u = if t =? u then set_t_owned_mutexes (onx s m) (thr s u) else thr s u)
      by (intros u; change (thr s' u) with (thr (upd_thr t (set_t_owned_mutexes (onx s m)) s) u); by rewrite thr_upd).
    split; [split | split; [| split; [| split; [| split; [| split]]]]].
    + by rewrite Hth, Z.eqb_refl.
    + eapply linked_ext; [| exact Hch]. intros x _. unfold onx. rewrite Hmt, Ep. by destruct (m =? x).
    + done.
    + intros Hx. by apply Hnn, Hsub.
    + intros x Hx. unfold s'. by apply Hknown, Hk, Hsub.
    + unfold onx. by rewrite Hmt, Z.eqb_refl.
    + intros u. rewrite Hth. destruct (Z.eqb_spec t u) as [-> | Hne]; [by eexists |].
      exists (t_owned_mutexes (thr s u)). by rewrite Hsett.
    + intros m'. rewrite Hmt. destruct (Z.eqb_spec m m') as [-> | Hne]; [by eexists |].
      exists (owner_next (mtx s m')). by rewrite Hset.
    + intros u Hu. unfold s'. simpl. by apply known_upd.
    + intros m' Hx. unfold s'. by apply Hknown.
    + done.
  - assert (Hpl : p ∈ l1) by (apply last_In; by intros ->).
    assert (Hpm : p <> m) by (intros E; apply Hm1; by rewrite <- E).
    eexists. split; [done |]. set (s' := upd_mtx m _ (upd_mtx p _ s)).
    assert (Hmt : forall m', mtx s' m' = if m =? m' then set_owner_next nullptr (mtx s m')
      else if p =? m' then set_owner_next (onx s m) (mtx s m') else mtx s m').
    { intros m'. unfold s'. rewrite !mtx_upd. destruct (Z.eqb_spec m m') as [<- |]; [| done].
      by rewrite (proj2 (Z.eqb_neq p m)). }
    assert (Hth : forall u, thr s' u = thr s u) by done.
    split; [split | split; [| split; [| split; [| split; [| split]]]]].
    + rewrite Hth, Hh. by destruct l1.
    + eapply linked_ext; [| exact Hch]. intros x _. unfold onx. rewrite Hmt.
      cbn [negb andb]. by destruct (m =? x), (p =? x).
    + done.
    + intros Hx. by apply Hnn, Hsub.
    + intros x Hx. unfold s'. by apply Hknown, Hknown, Hk, Hsub.
    + unfold onx. by rewrite Hmt, Z.eqb_refl.
    + intros u. rewrite Hth. exists (t_owned_mutexes (thr s u)). by rewrite Hsett.
    + intros m'. rewrite Hmt. destruct (Z.eqb_spec m m') as [-> | Hne]; [by eexists |].
      destruct (Z.eqb_spec p m') as [<- | Hne']; [eexists; split; [done |] |].
      * intros []. apply elem_of_app. by left.
      * exists (owner_next (mtx s m')). by rewrite Hset.
    + done.
    + intros m' Hx. unfold s'. by apply Hknown, Hknown.
    + done.
Qed.

End SyncProofs.
