(* ===== verification/SyncInv.v ===== *)
(** * The invariant of the blocking primitives, and the step each one takes

    [sync_inv] ties the run queue, the wait queues and the lists of owned
    mutexes together; every part of [src/src/sync.cc] that changes state is shown
    to take the invariant to the invariant, with its effect on the queues. *)

From S2P Require Import Prelude Kstate Runq Sched Sync.

Section SyncProofs.

Context (C : config).

(** ** The invariant of the blocking primitives *)

(** [l]: the run queue; [wqs m]: the waiters of mutex [m]; [sq a]: those of
    semaphore [a]; [own t]: the mutexes thread [t] owns. *)
Record sync_inv (s : kst) (l : list Z) (wqs sq own : Z -> list Z) : Prop := {
  yi_sched : sched_inv s l;
  yi_wq : forall m, wq_rep s (waiters (mtx s m)) (wqs m);
  yi_sq : forall a, wq_rep s (swaiters (sem s a)) (sq a);
  yi_wait : forall m t, t ∈ wqs m ->
    t_state (thr s t) = kThreadBlocked /\ t_waiting_on (thr s t) = m /\ m <> nullptr /\ owner (mtx s m) <> nullptr;
  yi_swait : forall a t, t ∈ sq a -> t_state (thr s t) = kThreadBlocked /\ t_waiting_on (thr s t) = nullptr;
  yi_sq_disj : forall a b t, t ∈ sq a -> t ∈ sq b -> a = b;
  yi_own : forall t, t <> nullptr -> owned_rep s t (own t);
  yi_owner : forall m t, t <> nullptr -> m ∈ own t <-> owner (mtx s m) = t
}.

Lemma wq_rep_ext s s' h l :
  (forall t, t ∈ l -> wnx s' t = wnx s t) -> (forall t, threads s !! t <> None -> threads s' !! t <> None) ->
  wq_rep s h l -> wq_rep s' h l.
Proof.
  intros Hw Hk []. split; auto. eapply linked_ext; [| done]. intros x Hx. by rewrite Hw.
Qed.

Lemma owned_rep_ext s s' t ms :
  t_owned_mutexes (thr s' t) = t_owned_mutexes (thr s t) -> (forall m, onx s' m = onx s m) ->
  (forall m, mutexes s !! m <> None -> mutexes s' !! m <> None) -> owned_rep s t ms -> owned_rep s' t ms.
Proof.
  intros Ht Ho Hk []. split; rewrite ?Ht; auto. eapply linked_ext; [| done]. intros x Hx. by rewrite Ho.
Qed.

Lemma sync_inv_same s s' l wqs sq own :
  threads s' = threads s -> mutexes s' = mutexes s -> sems s' = sems s -> rq_head s' = rq_head s -> rq_tail s' = rq_tail s -> cur s' = cur s ->
  sync_inv s l wqs sq own -> sync_inv s' l wqs sq own.
Proof.
  intros Et Em Ee Eh El Ec [H1 H2 H3 H4 H5 H6 H7 H8].
  assert (T : forall t, thr s' t = thr s t) by (intros t; unfold thr; by rewrite Et).
  assert (M : forall m, mtx s' m = mtx s m) by (intros m; unfold mtx; by rewrite Em).
  assert (S : forall a, sem s' a = sem s a) by (intros a; unfold sem; by rewrite Ee).
  split.
  - by apply (sched_inv_same s).
  - intros m. rewrite M. apply (wq_rep_ext s); [intros t _; unfold wnx; by rewrite T | by rewrite Et | apply H2].
  - intros a. rewrite S. apply (wq_rep_ext s); [intros t _; unfold wnx; by rewrite T | by rewrite Et | apply H3].
  - intros m t Ht. rewrite T, M. by apply H4.
  - intros a t Ht. rewrite T. by apply (H5 a).
  - done.
  - intros t Ht. apply (owned_rep_ext s); [by rewrite T | intros m; unfold onx; by rewrite M | by rewrite Em | by apply H7].
  - intros m t Ht. rewrite M. by apply H8.
Qed.

(** Updates of one thread that keep what the queues are made of. *)
Definition keeps_links (f : Thread -> Thread) : Prop :=
  forall x, t_next (f x) = t_next x /\ t_state (f x) = t_state x /\ t_wait_next (f x) = t_wait_next x /\
    t_owned_mutexes (f x) = t_owned_mutexes x.

Lemma sched_inv_upd s l c f :
  keeps_links f -> prio_ok (f (thr s c)) -> sched_inv s l -> sched_inv (upd_thr c f s) l.
Proof.
  intros Hf Hp [H1 H2 H3 H4].
  assert (Hst : forall t, t_state (thr (upd_thr c f s) t) = t_state (thr s t)).
  { intros t. rewrite thr_upd. destruct (c =? t); [apply Hf | done]. }
  split.
  - apply rq_rep_upd; [intros x; apply Hf | done].
  - intros t Ht. rewrite Hst. by apply H2.
  - intros t. rewrite thr_upd. destruct (Z.eqb_spec c t) as [<- |]; [done | apply H3].
  - intros Hc. rewrite Hst. by apply H4.
Qed.

Lemma sync_inv_upd s l wqs sq own c f :
  keeps_links f -> prio_ok (f (thr s c)) ->
  (t_waiting_on (f (thr s c)) = t_waiting_on (thr s c) \/ t_state (thr s c) = kThreadReady) ->
  sync_inv s l wqs sq own -> sync_inv (upd_thr c f s) l wqs sq own.
Proof.
  intros Hf Hp Hw [H1 H2 H3 H4 H5 H6 H7 H8].
  assert (Hst : forall t, t_state (thr (upd_thr c f s) t) = t_state (thr s t)).
  { intros t. rewrite thr_upd. destruct (c =? t); [apply Hf | done]. }
  assert (Hwn : forall t, wnx (upd_thr c f s) t = wnx s t).
  { intros t. unfold wnx. rewrite thr_upd. destruct (c =? t); [apply Hf | done]. }
  assert (Hwo : forall t, t_state (thr s t) = kThreadBlocked ->
    t_waiting_on (thr (upd_thr c f s) t) = t_waiting_on (thr s t)).
  { intros t Ht. rewrite thr_upd. destruct (Z.eqb_spec c t) as [<- |]; [| done]. destruct Hw as [-> | Hr]; [done |].
    by rewrite Hr in Ht. }
  split.
  - by apply sched_inv_upd.
  - intros m. apply (wq_rep_ext s); [intros t _; apply Hwn | intros t; apply known_upd | apply H2].
  - intros a. apply (wq_rep_ext s); [intros t _; apply Hwn | intros t; apply known_upd | apply H3].
  - intros m t Ht. destruct (H4 m t Ht) as (J1 & J2 & J3). rewrite Hst, Hwo by done. done.
  - intros a t Ht. destruct (H5 a t Ht) as (J1 & J2). rewrite Hst, Hwo by done. done.
  - done.
  - intros t Ht. apply (owned_rep_ext s); [| done | done | by apply H7].
    rewrite thr_upd. destruct (c =? t); [apply Hf | done].
  - apply H8.
Qed.

Lemma sync_inv_cpu s l wqs sq own f :
  current_thread (f (cpu s)) = cur s -> sync_inv s l wqs sq own -> sync_inv (upd_cpu f s) l wqs sq own.
Proof.
  intros Hf [[G1 G2 G3 G4] H2 H3 H4 H5 H6 H7 H8]. split; try done.
  - split; [by apply rq_rep_cpu | done | done |]. change (cur (upd_cpu f s)) with (current_thread (f (cpu s))).
    rewrite Hf. done.
  - intros m. eapply (wq_rep_ext s); [done | done | apply H2].
  - intros a. eapply (wq_rep_ext s); [done | done | apply H3].
  - intros t Ht. eapply (owned_rep_ext s); [done | done | done | by apply H7].
Qed.

(** What the inheritance code relies on: well-formed queues and ownership. *)
Definition pi_ready (s : kst) (wqs own : Z -> list Z) : Prop :=
  (forall m, wq_rep s (waiters (mtx s m)) (wqs m)) /\ (forall t, t <> nullptr -> owned_rep s t (own t)) /\
  forall u, prio_ok (thr s u).

Lemma sync_pi_ready s l wqs sq own : sync_inv s l wqs sq own -> pi_ready s wqs own.
Proof. intros H. split; [apply H | split; [apply H | apply (yi_sched _ _ _ _ _ H)]]. Qed.

(** [s'] is [s] with the effective priority of [t] recomputed. *)
Definition reprioritised (s : kst) (wqs own : Z -> list Z) (t : Z) (s' : kst) : Prop :=
  exists e, s' = upd_thr t (set_t_effective_priority e) s /\ prio_ok (set_t_effective_priority e (thr s t)) /\
  if cfg_mutex_pi C then inherited s wqs t (own t) e else e = t_base_priority (thr s t).

Lemma recompute_ready s wqs own t :
  pi_ready s wqs own -> t <> nullptr ->
  exists s', recompute_effective_priority C t s = Some s' /\ reprioritised s wqs own t s'.
Proof.
  intros (Hw & Ho & Hp) Ht.
  destruct (recompute_spec C s t wqs (own t) Ht) as (e & E & Hi & He); [by apply Ho | intros; apply Hw | done |].
  eexists. split; [exact E |]. exists e. split; [done | split; [| done]].
  destruct (Hp t) as [Hb _]. unfold prio_ok. simpl. lia.
Qed.

Lemma reprioritised_inv s l wqs sq own W t s' :
  sync_inv s l wqs sq own -> reprioritised s W own t s' -> sync_inv s' l wqs sq own.
Proof. intros H (e & -> & Hp & _). by apply sync_inv_upd; [| | left |]. Qed.

Lemma mutex_apply_pi_ready s wqs own m :
  pi_ready s wqs own -> m <> nullptr -> owner (mtx s m) <> nullptr ->
  exists s', mutex_apply_pi C m s = Some s' /\
    (pi_enabled (mtx s m) = 0 /\ s' = s \/
     pi_enabled (mtx s m) <> 0 /\ reprioritised s wqs own (owner (mtx s m)) s').
Proof.
  intros H Hm Ho. unfold mutex_apply_pi. rewrite (proj2 (Z.eqb_neq m nullptr) Hm). cbn [orb].
  destruct (Z.eqb_spec (pi_enabled (mtx s m)) 0) as [Hpi | Hpi].
  { exists s. auto. }
  rewrite (proj2 (Z.eqb_neq _ _) Ho). destruct (recompute_ready s wqs own _ H Ho) as (s' & E & Hr).
  exists s'. auto.
Qed.

(** ** Taking a free mutex *)

Definition fupd {A} (f : Z -> A) (k : Z) (v : A) : Z -> A := fun i => if i =? k then v else f i.

Lemma fupd_eq {A} (f : Z -> A) k v : fupd f k v k = v.
Proof. unfold fupd. by rewrite Z.eqb_refl. Qed.

Lemma fupd_ne {A} (f : Z -> A) k v i : i <> k -> fupd f k v i = f i.
Proof. intros H. unfold fupd. by rewrite (proj2 (Z.eqb_neq _ _) H). Qed.

Lemma known_mtx a f s m : mutexes s !! m <> None -> mutexes (upd_mtx a f s) !! m <> None.
Proof. intros H. unfold upd_mtx. simpl. rewrite lookup_insert. by destruct (decide (a = m)). Qed.

(** Nothing but threads and mutexes differs, and none is lost. *)
Definition same_but_objects (s s' : kst) : Prop :=
  cpu s' = cpu s /\ sems s' = sems s /\ rq_head s' = rq_head s /\ rq_tail s' = rq_tail s /\
  (forall t, threads s !! t <> None -> threads s' !! t <> None) /\
  (forall m, mutexes s !! m <> None -> mutexes s' !! m <> None).

(** Making [c] the owner of [m]: [take], and the hand-over of [mutex_unlock]. *)
Lemma own_add_spec s t m ms :
  t <> nullptr -> m <> nullptr -> owned_rep s t ms -> m ∉ ms -> mutexes s !! m <> None ->
  let s' := thread_owned_mutex_add t m (upd_mtx m (set_owner t) s) in
  owned_rep s' t (m :: ms) /\
  (forall u, thr s' u = if t =? u then set_t_owned_mutexes m (thr s u) else thr s u) /\
  (forall m', mtx s' m' = if m =? m' then set_owner_next (t_owned_mutexes (thr s t)) (set_owner t (mtx s m')) else mtx s m') /\
  same_but_objects s s'.
Proof.
  intros Ht Hm Ho Hin Hk s'. set (s1 := upd_mtx m (set_owner t) s).
  assert (Hon : forall m', mtx s1 m' = if m =? m' then set_owner t (mtx s m') else mtx s m')
    by (intros m'; unfold s1; by rewrite mtx_upd).
  assert (Ho1 : owned_rep s1 t ms).
  { apply (owned_rep_ext s); [done | | intros; by apply known_mtx | done].
    intros m'. unfold onx. rewrite Hon. by destruct (m =? m'). }
  destruct (thread_owned_add_spec s1 t m ms Ht Hm Ho1 Hin) as (H1 & H2 & H3); [by apply known_mtx |].
  split; [done | split; [done | split]].
  - intros m'. unfold s'. fold s1. rewrite H3, Hon. by destruct (m =? m').
  - unfold same_but_objects, s', thread_owned_mutex_add. rewrite (proj2 (Z.eqb_neq _ _) Ht), (proj2 (Z.eqb_neq _ _) Hm).
    cbn [orb]. repeat (split; [done |]). split; intros x Hx; [by apply (known_upd t) | by apply known_mtx, known_mtx].
Qed.

Lemma take_inv s l wqs sq own c m :
  sync_inv s l wqs sq own -> c <> nullptr -> t_state (thr s c) = kThreadReady ->
  m <> nullptr -> mutexes s !! m <> None -> owner (mtx s m) = nullptr ->
  sync_inv (take c m s) l wqs sq (fupd own c (m :: own c)) /\ owner (mtx (take c m s) m) = c /\
  cpu (take c m s) = cpu s.
Proof.
  intros H Hc Hr Hm Hk Hfree. pose proof H as [H1 H2 H3 H4 H5 H6 H7 H8].
  assert (Hnown : forall t, t <> nullptr -> m ∉ own t) by (intros t Ht Hin; apply (H8 m t Ht) in Hin; congruence).
  unfold take. set (s2 := thread_owned_mutex_add c m _).
  destruct (own_add_spec s c m (own c) Hc Hm (H7 c Hc) (Hnown c Hc) Hk) as (A1 & A2 & A3 & Hcpu & Hsem & Hq1 & Hq2 & Hk2 & Hkm).
  fold s2 in A1, A2, A3, Hcpu, Hsem, Hq1, Hq2, Hk2, Hkm.
  assert (Hf : forall u, exists v, thr s2 u = set_t_owned_mutexes v (thr s u)).
  { intros u. rewrite A2. destruct (c =? u); [by eexists |]. exists (t_owned_mutexes (thr s u)). by destruct (thr s u). }
  assert (Hwn : forall u, wnx s2 u = wnx s u) by (intros u; unfold wnx; by destruct (Hf u) as [v ->]).
  assert (Hwt : forall m', waiters (mtx s2 m') = waiters (mtx s m')) by (intros m'; rewrite A3; by destruct (m =? m')).
  assert (Hinv2 : sync_inv s2 l wqs sq (fupd own c (m :: own c))).
  { split.
    - destruct H1 as [G1 G2 G3 G4]. split.
      + apply (rq_rep_ext s); [done | done | | done | done]. intros u. unfold nxt. by destruct (Hf u) as [v ->].
      + intros u Hu. destruct (Hf u) as [v ->]. by apply G2.
      + intros u. destruct (Hf u) as [v ->]. apply G3.
      + unfold cur. rewrite Hcpu. destruct (Hf (current_thread (cpu s))) as [v ->]. apply G4.
    - intros m'. rewrite Hwt. apply (wq_rep_ext s); auto.
    - intros a. unfold sem. rewrite Hsem. apply (wq_rep_ext s); auto. apply H3.
    - intros m' t Ht. destruct (H4 m' t Ht) as (J1 & J2 & J3 & J4). destruct (Hf t) as [v ->].
      split; [done | split; [done | split; [done |]]]. rewrite A3. destruct (m =? m'); [done | done].
    - intros a t Ht. destruct (Hf t) as [v ->]. by apply (H5 a t).
    - done.
    - intros t Ht. destruct (Z.eq_dec t c) as [-> | Hne]; [by rewrite fupd_eq |]. rewrite fupd_ne by done.
      destruct (H7 t Ht) as [O1 O2 O3 O4 O5]. split; [| | done | done | auto].
      + by rewrite A2, (proj2 (Z.eqb_neq c t)) by congruence.
      + eapply linked_ext; [| exact O2]. intros x Hx. unfold onx. rewrite A3, (proj2 (Z.eqb_neq m x)); [done |].
        intros <-. by apply (Hnown t Ht).
    - intros m' t Ht. rewrite A3. destruct (Z.eqb_spec m m') as [<- | Hne].
      + simpl. destruct (Z.eq_dec t c) as [-> | Hne]; [rewrite fupd_eq; split; [done | by left] |].
        rewrite fupd_ne by done. split; [intros Hin; by apply (Hnown t Ht) in Hin | congruence].
      + destruct (Z.eq_dec t c) as [-> | Hne']; [rewrite fupd_eq | rewrite fupd_ne by done; by apply H8].
        rewrite elem_of_cons, (H8 m' c Hc). split; [intros [-> | ?]; done | by right]. }
  split; [| split; [| done]].
  - apply sync_inv_upd; [done | destruct (Hf c) as [v ->]; apply H1 | | done]. right. by destruct (Hf c) as [v ->].
  - change (owner (mtx s2 m) = c). rewrite A3, Z.eqb_refl. done.
Qed.


(** ** Blocking on a mutex *)

Lemma ready_not_waiting s l wqs sq own c :
  sync_inv s l wqs sq own -> t_state (thr s c) = kThreadReady ->
  (forall m, c ∉ wqs m) /\ (forall a, c ∉ sq a).
Proof.
  intros H Hr. split; intros x Hx.
  - destruct (yi_wait _ _ _ _ _ H x c Hx) as [Hb _]. by rewrite Hr in Hb.
  - destruct (yi_swait _ _ _ _ _ H x c Hx) as [Hb _]. by rewrite Hr in Hb.
Qed.

(** The state in which the waiter is queued and inheritance is applied. *)
Lemma enqueue_spec s l wqs sq own c m :
  sync_inv s l wqs sq own -> c <> nullptr -> t_state (thr s c) = kThreadReady ->
  m <> nullptr -> threads s !! c <> None ->
  let sA := upd_mtx m (set_waiters c)
    (upd_thr c (set_t_wait_next (waiters (mtx s m))) (upd_thr c (set_t_waiting_on m) s)) in
  (forall u, thr sA u = if c =? u then set_t_wait_next (waiters (mtx s m)) (set_t_waiting_on m (thr s u)) else thr s u) /\
  (forall m', mtx sA m' = if m =? m' then set_waiters c (mtx s m') else mtx s m') /\
  pi_ready sA (fupd wqs m (c :: wqs m)) own /\ sched_inv sA l.
Proof.
  intros H Hc Hr Hm Hk sA. destruct (ready_not_waiting _ _ _ _ _ _ H Hr) as [Hnw _].
  assert (T : forall u, thr sA u =
    if c =? u then set_t_wait_next (waiters (mtx s m)) (set_t_waiting_on m (thr s u)) else thr s u).
  { intros u. change (thr sA u) with
      (thr (upd_thr c (set_t_wait_next (waiters (mtx s m))) (upd_thr c (set_t_waiting_on m) s)) u).
    rewrite !thr_upd. by destruct (c =? u). }
  assert (M : forall m', mtx sA m' = if m =? m' then set_waiters c (mtx s m') else mtx s m')
    by (intros m'; unfold sA; by rewrite mtx_upd).
  assert (K : forall u, threads s !! u <> None -> threads sA !! u <> None)
    by (intros u Hu; by apply (known_upd c), (known_upd c)).
  split; [done | split; [done | split]].
  - split; [| split].
    + intros m'. rewrite M. destruct (Z.eqb_spec m m') as [<- | Hne].
      * rewrite fupd_eq. destruct (yi_wq _ _ _ _ _ H m) as [W1 W2 W3 W4 W5]. split; simpl; auto.
        -- split; [unfold wnx; rewrite T, Z.eqb_refl; done |]. eapply linked_ext; [| exact W2].
           intros x Hx. unfold wnx. rewrite T, (proj2 (Z.eqb_neq c x)); [done |]. intros <-. by apply (Hnw m).
        -- apply NoDup_cons. auto.
        -- intros [? | ?]%elem_of_cons; [congruence | done].
        -- intros x [-> | Hx]%elem_of_cons; auto.
      * rewrite fupd_ne by congruence. apply (wq_rep_ext s); [| done | apply (yi_wq _ _ _ _ _ H)].
        intros x Hx. unfold wnx. rewrite T, (proj2 (Z.eqb_neq c x)); [done |]. intros <-. by apply (Hnw m').
    + intros t Ht. apply (owned_rep_ext s); [| | | by apply (yi_own _ _ _ _ _ H)].
      * rewrite T. by destruct (c =? t).
      * intros m'. unfold onx. rewrite M. by destruct (m =? m').
      * intros m' Hx. unfold sA. by apply known_mtx.
    + intros u. rewrite T. destruct (c =? u); [change (prio_ok (thr s u)) |]; apply (yi_sched _ _ _ _ _ H).
  - destruct (yi_sched _ _ _ _ _ H) as [G1 G2 G3 G4]. split.
    + apply (rq_rep_ext s); [done | done | | done | done]. intros u. unfold nxt. rewrite T. by destruct (c =? u).
    + intros u Hu. rewrite T. destruct (c =? u); by apply G2.
    + intros u. rewrite T. destruct (c =? u); [change (prio_ok (thr s u)) |]; apply G3.
    + change (cur sA) with (cur s). rewrite T. by destruct (c =? cur s).
Qed.

Lemma mutex_block_spec s l wqs sq own m :
  let c := cur s in let o := owner (mtx s m) in
  sync_inv s l wqs sq own -> c <> nullptr -> t_state (thr s c) = kThreadReady ->
  m <> nullptr -> threads s !! c <> None -> o <> nullptr -> o <> c ->
  exists s', mutex_block C c m s = Some s' /\
    sync_inv s' (rq_del c l) (fupd wqs m [c]) sq own /\
    cpu s' = set_need_resched 1 (cpu s) /\ (forall m', mtx s' m' = if m =? m' then set_waiters c (mtx s m') else mtx s m') /\
    t_state (thr s' c) = kThreadBlocked /\ t_waiting_on (thr s' c) = m /\ wnx s' c = nullptr /\
    (forall u, u <> c -> t_state (thr s' u) = t_state (thr s u) /\ t_waiting_on (thr s' u) = t_waiting_on (thr s u)) /\
    (cfg_mutex_pi C = true -> pi_enabled (mtx s m) <> 0 ->
       forall u, u ∈ c :: wqs m -> t_effective_priority (thr s u) <= t_effective_priority (thr s' o)).
Proof.
  intros c o H Hc Hr Hm Hk Ho Hoc.
  destruct (enqueue_spec s l wqs sq own c m H Hc Hr Hm Hk) as (T & M & HpiA & HschA).
  destruct (ready_not_waiting _ _ _ _ _ _ H Hr) as [Hnw Hnsq].
  unfold mutex_block. set (sA := upd_mtx m _ _) in *.
  assert (HoA : owner (mtx sA m) = o) by (rewrite M, Z.eqb_refl; done).
  destruct (mutex_apply_pi_ready sA _ own m HpiA Hm ltac:(by rewrite HoA)) as (sB & EB & HB).
  change (mtx (upd_thr c (set_t_waiting_on m) s) m) with (mtx s m). fold sA. rewrite EB. cbn [mbind option_bind].
  assert (HtB : forall u, exists e, thr sB u = set_t_effective_priority e (thr sA u) /\
    (u <> o -> e = t_effective_priority (thr sA u)) /\ prio_ok (thr sB u)).
  { assert (Hid : forall u, exists e, thr sA u = set_t_effective_priority e (thr sA u) /\
      (u <> o -> e = t_effective_priority (thr sA u)) /\ prio_ok (thr sA u)).
    { intros u. exists (t_effective_priority (thr sA u)). split; [by destruct (thr sA u) | split; [done | apply HschA]]. }
    destruct HB as [[_ ->] | (_ & e & -> & Hp & _)]; [done |]. intros u. rewrite thr_upd, HoA in *.
    destruct (Z.eqb_spec o u) as [<- |]; [| apply Hid]. exists e. split; [done | split; [done | done]]. }
  assert (HmB : forall m', mtx sB m' = mtx sA m') by (destruct HB as [[_ ->] | (_ & e & -> & _)]; done).
  assert (HcB : cpu sB = cpu s) by (destruct HB as [[_ ->] | (_ & e & -> & _)]; done).
  assert (HsB : sems sB = sems s) by (destruct HB as [[_ ->] | (_ & e & -> & _)]; done).
  assert (HkB : forall u, threads s !! u <> None -> threads sB !! u <> None).
  { intros u Hu. destruct HB as [[_ ->] | (_ & e & -> & _)]; [| apply known_upd]; by apply (known_upd c), (known_upd c). }
  assert (HmkB : forall m', mutexes s !! m' <> None -> mutexes sB !! m' <> None).
  { intros m' Hu. destruct HB as [[_ ->] | (_ & e & -> & _)]; by apply known_mtx. }
  assert (HschB : sched_inv sB l).
  { destruct HB as [[_ ->] | (_ & e & -> & Hp & _)]; [done | by apply sched_inv_upd]. }
  assert (HcurB : cur sB = c) by (unfold cur; by rewrite HcB).
  destruct (sched_block_spec sB l HschB) as (sC & EC & _ & HC & HsbtC); [by rewrite HcurB |].
  rewrite EC. cbn [mbind option_bind]. rewrite HcurB in HC.
  assert (HstB : t_state (thr sB c) = kThreadReady).
  { destruct (HtB c) as (e & -> & _). rewrite T, Z.eqb_refl. done. }
  destruct HC as [HschC HtC]; [by rewrite HstB |].
  destruct HsbtC as (HcC & HmC & HsC & _ & _ & _ & HkC).
  assert (HmtC : forall m', mtx sC m' = if m =? m' then set_waiters c (mtx s m') else mtx s m').
  { intros m'. rewrite <- M, <- HmB. unfold mtx. by rewrite HmC. }
  set (s' := set_resched 1 sC).
  assert (Hth : forall u, exists v e, thr s' u = set_t_next v
    (if u =? c then set_t_wait_next nullptr (set_t_state kThreadBlocked
       (set_t_effective_priority e (set_t_waiting_on m (thr s u)))) else set_t_effective_priority e (thr s u)) /\
    (u <> o -> e = t_effective_priority (thr s u))).
  { intros u. destruct (HtC u) as [v Hv]. destruct (HtB u) as (e & He & Hne & _). exists v, e.
    change (thr s' u) with (thr sC u). rewrite Hv, He, T, (Z.eqb_sym c u) in *.
    destruct (u =? c); split; try done; intros Hu; by rewrite Hne. }
  assert (Hwn : forall u, u <> c -> wnx s' u = wnx s u /\ t_state (thr s' u) = t_state (thr s u) /\
    t_waiting_on (thr s' u) = t_waiting_on (thr s u)).
  { intros u Hu. unfold wnx. destruct (Hth u) as (v & e & -> & _). by rewrite (proj2 (Z.eqb_neq _ _) Hu). }
  assert (Hcs : t_state (thr s' c) = kThreadBlocked /\ t_waiting_on (thr s' c) = m /\ wnx s' c = nullptr).
  { unfold wnx. destruct (Hth c) as (v & e & -> & _). by rewrite Z.eqb_refl. }
  assert (Hkn : forall u, threads s !! u <> None -> threads s' !! u <> None) by (intros u Hu; apply HkC, HkB, Hu).
  exists s'. split; [done | split; [| split; [unfold s', set_resched, upd_cpu; simpl; by rewrite HcC, HcB | split; [done |]]]].
  - destruct H as [H1 H2 H3 H4 H5 H6 H7 H8]. split.
    + destruct HschC as [G1 G2 G3 G4]. by split; [apply rq_rep_cpu | ..].
    + intros m'. change (mtx s' m') with (mtx sC m'). rewrite HmtC. destruct (Z.eqb_spec m m') as [<- | Hne].
      * rewrite fupd_eq. destruct Hcs as (_ & _ & Hw). split; simpl; [done | done | apply NoDup_singleton | |].
        -- intros Hx%list_elem_of_singleton. congruence.
        -- intros x ->%list_elem_of_singleton. auto.
      * rewrite fupd_ne by congruence. apply (wq_rep_ext s); [| done | apply H2].
        intros x Hx. apply Hwn. intros ->. by apply (Hnw m').
    + intros a. unfold sem. change (sems s') with (sems sC). rewrite HsC, HsB. apply (wq_rep_ext s); [| done | apply H3].
      intros x Hx. apply Hwn. intros ->. by apply (Hnsq a).
    + intros m' t Ht. change (mtx s' m') with (mtx sC m'). rewrite HmtC.
      destruct (Z.eq_dec m' m) as [-> | Hne].
      * rewrite fupd_eq in Ht. apply list_elem_of_singleton in Ht as ->. rewrite Z.eqb_refl.
        split; [apply Hcs | split; [apply Hcs | done]].
      * rewrite fupd_ne in Ht by done. destruct (H4 m' t Ht) as (J1 & J2 & J3 & J4).
        destruct (Hwn t) as (_ & -> & ->); [intros ->; by apply (Hnw m') |].
        rewrite (proj2 (Z.eqb_neq m m')) by congruence. done.
    + intros a t Ht. destruct (H5 a t Ht). by destruct (Hwn t) as (_ & -> & ->); [intros ->; by apply (Hnsq a) |].
    + done.
    + intros t Ht. apply (owned_rep_ext s); [| | | by apply H7].
      * destruct (Hth t) as (v & e & -> & _). by destruct (t =? c).
      * intros m'. unfold onx. change (mtx s' m') with (mtx sC m'). rewrite HmtC. by destruct (m =? m').
      * intros m' Hx. change (mutexes s') with (mutexes sC). rewrite HmC. auto.
    + intros m' t Ht. change (mtx s' m') with (mtx sC m'). rewrite HmtC. rewrite H8 by done. by destruct (m =? m').
  - destruct Hcs as (J1 & J2 & J3). split; [done | split; [done | split; [done | split; [apply Hwn |]]]]. intros Hcfg Hpi.
    destruct HB as [[Hpi0 _] | (_ & e & EsB & _ & Hinh)].
    { rewrite M, Z.eqb_refl in Hpi0. done. }
    rewrite Hcfg, HoA in Hinh. destruct Hinh as (_ & Hle & _).
    assert (Hmo : m ∈ own o) by (apply (yi_owner _ _ _ _ _ H); done).
    assert (Heo : t_effective_priority (thr s' o) = e).
    { destruct (HtC o) as [v Hv]. change (thr s' o) with (thr sC o). rewrite Hv, (proj2 (Z.eqb_neq _ _) Hoc), EsB, HoA.
      by rewrite thr_upd_eq. }
    assert (Hall : forall u, u ∈ c :: wqs m -> t_effective_priority (thr s u) <= e).
    { intros u Hu. specialize (Hle m u Hmo). rewrite M, Z.eqb_refl, fupd_eq, T in Hle. specialize (Hle Hpi Hu).
      by destruct (c =? u). }
    by rewrite Heo.
Qed.


(** ** Releasing a mutex *)

Definition own_del (m : Z) (ms : list Z) : list Z := filter (fun x => x <> m) ms.

Lemma own_del_split m l1 l2 : NoDup (l1 ++ m :: l2) -> own_del m (l1 ++ m :: l2) = l1 ++ l2.
Proof.
  intros Hnd. apply NoDup_app in Hnd as (_ & Hd & Hnd). apply NoDup_cons in Hnd as [Hn _].
  apply (rq_del_split m l1 l2); [| done]. intros Hx. apply (Hd m Hx). by left.
Qed.

Lemma own_del_elem m ms x : x ∈ own_del m ms <-> x ∈ ms /\ x <> m.
Proof. apply rq_del_elem. Qed.

(** After [thread_owned_mutex_remove]: ownership has lost [m], nothing else. *)
Lemma remove_step s l wqs sq own c m :
  sync_inv s l wqs sq own -> c <> nullptr -> owner (mtx s m) = c ->
  exists s1, thread_owned_mutex_remove c m s = Some s1 /\
    (forall u, exists v, thr s1 u = set_t_owned_mutexes v (thr s u)) /\
    (forall m', exists v, mtx s1 m' = set_owner_next v (mtx s m')) /\
    same_but_objects s s1 /\
    (forall t, t <> nullptr -> owned_rep s1 t (fupd own c (own_del m (own c)) t)) /\ mutexes s !! m <> None /\ m <> nullptr.
Proof.
  intros H Hc Hm. assert (Hin : m ∈ own c) by by apply (yi_owner _ _ _ _ _ H).
  pose proof (yi_own _ _ _ _ _ H c Hc) as Ho.
  apply list_elem_of_split in Hin as (l1 & l2 & E). rewrite E in Ho.
  destruct (thread_owned_remove_spec s c l1 m l2 Hc Ho) as (s1 & Es & Ho1 & Hon & T & M & K1 & K2 & F).
  exists s1. split; [done | split; [| split; [| split; [| split]]]].
  - intros u. destruct (T u) as (v & Hv & _). by exists v.
  - intros m'. destruct (M m') as (v & Hv & _). by exists v.
  - unfold same_but_objects. rewrite F at 1 2 3 4. done.
  - intros t Ht. destruct (Z.eq_dec t c) as [-> | Hne].
    + rewrite fupd_eq, E, own_del_split; [done | apply Ho].
    + rewrite fupd_ne by done. pose proof (yi_own _ _ _ _ _ H t Ht) as [O1 O2 O3 O4 O5]. split; auto.
      * destruct (T t) as (v & -> & Hv). simpl. by rewrite Hv.
      * eapply linked_ext; [| exact O2]. intros x Hx. unfold onx. destruct (M x) as (v & -> & Hv). simpl. rewrite Hv; [done |].
        rewrite <- E. intros Hxc. apply (yi_owner _ _ _ _ _ H x c Hc) in Hxc.
        apply (yi_owner _ _ _ _ _ H x t Ht) in Hx. congruence.
  - split; [apply (ow_known _ _ _ Ho) | intros ->; apply (ow_nonnull _ _ _ Ho)]; apply elem_of_app; right; by left.
Qed.

(** Steps that only touch ownership keep the queues. *)
Lemma sched_inv_own s s' l :
  (forall u, exists v, thr s' u = set_t_owned_mutexes v (thr s u)) -> same_but_objects s s' ->
  sched_inv s l -> sched_inv s' l.
Proof.
  intros T (Hcpu & _ & Hq1 & Hq2 & Hk & _) [G1 G2 G3 G4]. split.
  - apply (rq_rep_ext s); [done | done | | done | done]. intros u. unfold nxt. by destruct (T u) as [v ->].
  - intros u Hu. destruct (T u) as [v ->]. by apply G2.
  - intros u. destruct (T u) as [v ->]. apply G3.
  - unfold cur. rewrite Hcpu. destruct (T (current_thread (cpu s))) as [v ->]. apply G4.
Qed.

(** No waiter: the mutex becomes free. *)
Lemma release_free s l wqs sq own c m s1 :
  sync_inv s l wqs sq own -> owner (mtx s m) = c -> c <> nullptr -> wqs m = [] -> m <> nullptr ->
  (forall u, exists v, thr s1 u = set_t_owned_mutexes v (thr s u)) ->
  (forall m', exists v, mtx s1 m' = set_owner_next v (mtx s m')) ->
  same_but_objects s s1 ->
  (forall t, t <> nullptr -> owned_rep s1 t (fupd own c (own_del m (own c)) t)) ->
  sync_inv (upd_mtx m (set_owner nullptr) s1) l wqs sq (fupd own c (own_del m (own c))).
Proof.
  intros H Hm Hc Hw Hm0 T M F Ho. pose proof H as [H1 H2 H3 H4 H5 H6 H7 H8].
  pose proof F as (Hcpu & Hsem & Hq1 & Hq2 & Hk1 & Hk2). set (s2 := upd_mtx m (set_owner nullptr) s1).
  assert (Mt : forall m', exists v, mtx s2 m' =
    set_owner_next v (if m =? m' then set_owner nullptr (mtx s m') else mtx s m')).
  { intros m'. unfold s2. rewrite mtx_upd. destruct (M m') as [v ->]. exists v. by destruct (m =? m'). }
  assert (Hwn : forall u, wnx s2 u = wnx s u) by (intros u; change (wnx s1 u = wnx s u); unfold wnx; by destruct (T u) as [v ->]).
  split.
  - apply (sched_inv_own s); [done | | done]. repeat (split; [done |]). intros x Hx. by apply known_mtx, Hk2.
  - intros m'. destruct (Mt m') as [v ->]. apply (wq_rep_ext s); [auto | done |]. simpl. destruct (m =? m'); apply H2.
  - intros a. unfold sem. change (sems s2) with (sems s1). rewrite Hsem. apply (wq_rep_ext s); [auto | done | apply H3].
  - intros m' t Ht. destruct (H4 m' t Ht) as (J1 & J2 & J3 & J4). change (thr s2 t) with (thr s1 t). destruct (T t) as [v ->].
    split; [done | split; [done | split; [done |]]]. destruct (Mt m') as [w ->]. simpl.
    destruct (Z.eqb_spec m m') as [<- |]; [| done]. rewrite Hw in Ht. by apply not_elem_of_nil in Ht.
  - intros a t Ht. change (thr s2 t) with (thr s1 t). destruct (T t) as [v ->]. by apply (H5 a t).
  - done.
  - intros t Ht. apply (owned_rep_ext s1); [done | | intros; by apply known_mtx | by apply Ho].
    intros m'. unfold onx, s2. rewrite mtx_upd. by destruct (m =? m').
  - intros m' t Ht. destruct (Mt m') as [v ->]. simpl. destruct (Z.eqb_spec m m') as [<- | Hne].
    + simpl. destruct (Z.eq_dec t c) as [-> | Hne]; [rewrite fupd_eq, own_del_elem | rewrite fupd_ne by done].
      * split; [by intros [_ ?] | congruence].
      * rewrite H8, Hm by done. split; congruence.
    + destruct (Z.eq_dec t c) as [-> | Hne']; [rewrite fupd_eq, own_del_elem | rewrite fupd_ne by done; by apply H8].
      rewrite H8 by done. naive_solver.
Qed.


(** What the hand-over changes in a thread, before it is made runnable. *)
Definition handed (n : Z) (s s' : kst) : Prop :=
  forall u, exists v w x, thr s' u = set_t_owned_mutexes v (set_t_waiting_on x (set_t_wait_next w (thr s u))) /\
    (u <> n -> x = t_waiting_on (thr s u)) /\ (u = n -> x = nullptr).

(** The hand-over of [mutex_unlock] to the chosen waiter [n], before it is made
    runnable. *)
Lemma handover_step s l wqs sq own c m s1 p1 n p2 h' s2 :
  sync_inv s l wqs sq own -> owner (mtx s m) = c -> c <> nullptr -> n <> c -> m <> nullptr -> mutexes s !! m <> None ->
  wqs m = p1 ++ n :: p2 ->
  (forall u, exists v, thr s1 u = set_t_owned_mutexes v (thr s u)) ->
  (forall m', exists v, mtx s1 m' = set_owner_next v (mtx s m')) ->
  same_but_objects s s1 ->
  (forall t, t <> nullptr -> owned_rep s1 t (fupd own c (own_del m (own c)) t)) ->
  wq_rep s2 h' (p1 ++ p2) -> wnx s2 n = nullptr -> same_but_waits s1 s2 ->
  (forall x, x ∉ wqs m -> wnx s2 x = wnx s1 x) ->
  let s2' := upd_thr n (set_t_waiting_on nullptr) (upd_mtx m (set_waiters h') s2) in
  let sD := thread_owned_mutex_add n m (upd_mtx m (set_owner n) s2') in
  handed n s sD /\ same_but_objects s sD /\ (forall u, wnx sD u = wnx s2 u) /\
  (forall m', waiters (mtx sD m') = if m =? m' then h' else waiters (mtx s m')) /\
  (forall m', owner (mtx sD m') = if m =? m' then n else owner (mtx s m')) /\
  (forall m', pi_enabled (mtx sD m') = pi_enabled (mtx s m')) /\
  (forall t, t <> nullptr -> owned_rep sD t (fupd (fupd own c (own_del m (own c))) n (m :: own n) t)).
Proof.
  intros H Hm Hc Hnc Hm0 Hkm Hwq T M F Ho W2 Wn (w & HwT & HwK & HwE) Wo s2' sD.
  assert (Hnin : n ∈ wqs m) by (rewrite Hwq; apply elem_of_app; right; by left).
  assert (Hn0 : n <> nullptr) by (intros ->; by apply (wq_nonnull _ _ _ (yi_wq _ _ _ _ _ H m))).
  assert (Hmown : forall t, t <> nullptr -> m ∉ fupd own c (own_del m (own c)) t).
  { intros t Ht. destruct (Z.eq_dec t c) as [-> | Hne]; [rewrite fupd_eq, own_del_elem; tauto |].
    rewrite fupd_ne, (yi_owner _ _ _ _ _ H) by done. congruence. }
  pose proof F as (Hcpu & Hsem & Hq1 & Hq2 & Hk1 & Hk2).
  assert (Mt2 : forall m', mtx s2 m' = mtx s1 m') by (intros m'; by rewrite HwE).
  assert (M2 : forall m', mtx s2' m' = if m =? m' then set_waiters h' (mtx s1 m') else mtx s1 m').
  { intros m'. change (mtx s2' m') with (mtx (upd_mtx m (set_waiters h') s2) m'). rewrite mtx_upd, Mt2. done. }
  assert (T2 : forall u, thr s2' u = if n =? u then set_t_waiting_on nullptr (thr s2 u) else thr s2 u)
    by (intros u; unfold s2'; by rewrite thr_upd).
  assert (Km2 : forall m', mutexes s !! m' <> None -> mutexes s2' !! m' <> None).
  { intros m' Hx. change (mutexes (upd_mtx m (set_waiters h') s2) !! m' <> None). apply known_mtx. rewrite HwE. by apply Hk2. }
  assert (Ho2 : forall t, t <> nullptr -> owned_rep s2' t (fupd own c (own_del m (own c)) t)).
  { intros t Ht. apply (owned_rep_ext s1); [| | | by apply Ho].
    - rewrite T2, HwT. by destruct (n =? t).
    - intros m'. unfold onx. rewrite M2. by destruct (m =? m').
    - intros m' Hx. change (mutexes (upd_mtx m (set_waiters h') s2) !! m' <> None). apply known_mtx. by rewrite HwE. }
  destruct (own_add_spec s2' n m (fupd own c (own_del m (own c)) n) Hn0 Hm0 (Ho2 n Hn0) (Hmown n Hn0) (Km2 m Hkm))
    as (A1 & A2 & A3 & FD).
  fold sD in A1, A2, A3, FD. destruct FD as (Dcpu & Dsem & Dq1 & Dq2 & Dk1 & Dk2).
  assert (Hwn : forall u, wnx sD u = wnx s2 u).
  { intros u. unfold wnx. rewrite A2, T2. by destruct (n =? u). }
  split; [| split; [| split; [done | split; [| split; [| split]]]]].
  - intros u. destruct (T u) as [v Hv]. rewrite A2, T2, HwT, Hv. destruct (Z.eqb_spec n u) as [<- | Hne].
    + exists m, (w n), nullptr. done.
    + exists v, (w u), (t_waiting_on (thr s u)). split; [by destruct (thr s u) | split; [done | congruence]].
  - split; [rewrite Dcpu; unfold s2'; simpl; by rewrite HwE |].
    split; [rewrite Dsem; unfold s2'; simpl; by rewrite HwE |].
    split; [rewrite Dq1; unfold s2'; simpl; by rewrite HwE |].
    split; [rewrite Dq2; unfold s2'; simpl; by rewrite HwE |].
    split; [| intros m' Hx; by apply Dk2, Km2]. intros t Hx. apply Dk1. apply known_upd. by apply HwK, Hk1.
  - intros m'. rewrite A3, M2. destruct (M m') as [v Hv]. rewrite Hv. by destruct (m =? m').
  - intros m'. rewrite A3, M2. destruct (M m') as [v Hv]. rewrite Hv. by destruct (m =? m').
  - intros m'. rewrite A3, M2. destruct (M m') as [v Hv]. rewrite Hv. by destruct (m =? m').
  - intros t Ht. destruct (Z.eq_dec t n) as [-> | Hne].
    + rewrite fupd_eq. rewrite fupd_ne in A1 by done. exact A1.
    + rewrite fupd_ne by done. destruct (Ho2 t Ht) as [O1 O2 O3 O4 O5]. split; [| | done | done | auto].
      * by rewrite A2, (proj2 (Z.eqb_neq n t)) by congruence.
      * eapply linked_ext; [| exact O2]. intros x Hx. unfold onx. rewrite A3, (proj2 (Z.eqb_neq m x)); [done |].
        intros <-. by apply (Hmown t Ht).
Qed.

(** Making the new owner runnable restores the invariant. *)
Lemma handover_inv s l wqs sq own c m sD p1 n p2 h' :
  sync_inv s l wqs sq own -> owner (mtx s m) = c -> c <> nullptr -> n <> c -> m <> nullptr ->
  wqs m = p1 ++ n :: p2 ->
  handed n s sD -> same_but_objects s sD -> wq_rep sD h' (p1 ++ p2) ->
  (forall x, x ∉ wqs m -> wnx sD x = wnx s x) ->
  (forall m', waiters (mtx sD m') = if m =? m' then h' else waiters (mtx s m')) ->
  (forall m', owner (mtx sD m') = if m =? m' then n else owner (mtx s m')) ->
  (forall t, t <> nullptr -> owned_rep sD t (fupd (fupd own c (own_del m (own c))) n (m :: own n) t)) ->
  let sE := sched_make_runnable n sD in
  sync_inv sE (l ++ [n]) (fupd wqs m (p1 ++ p2)) sq (fupd (fupd own c (own_del m (own c))) n (m :: own n)) /\
  same_but_threads sD sE /\ t_state (thr sE n) = kThreadReady /\ t_waiting_on (thr sE n) = nullptr.
Proof.
  intros H Hm Hc Hnc Hm0 Hwq HT HF Hw Hwo HW HO Hown sE. pose proof H as [H1 H2 H3 H4 H5 H6 H7 H8].
  destruct HF as (Fcpu & Fsem & Fq1 & Fq2 & Fk1 & Fk2).
  assert (Hnin : n ∈ wqs m) by (rewrite Hwq; apply elem_of_app; right; by left).
  assert (Hn0 : n <> nullptr) by (intros ->; by apply (wq_nonnull _ _ _ (H2 m))).
  destruct (H4 m n Hnin) as (Hnb & Hnw & _).
  assert (Hsch : sched_inv sD l).
  { destruct H1 as [G1 G2 G3 G4]. split.
    - apply (rq_rep_ext s); [done | done | | done | done]. intros u. unfold nxt. by destruct (HT u) as (? & ? & ? & -> & _).
    - intros u Hu. destruct (HT u) as (? & ? & ? & -> & _). by apply G2.
    - intros u. destruct (HT u) as (? & ? & ? & -> & _). apply G3.
    - unfold cur. rewrite Fcpu. destruct (HT (current_thread (cpu s))) as (? & ? & ? & -> & _). apply G4. }
  assert (HnD : t_state (thr sD n) = kThreadBlocked) by (destruct (HT n) as (? & ? & ? & -> & _); done).
  destruct (sched_make_runnable_spec sD l n Hsch Hn0 ltac:(by rewrite HnD)) as (Esch & Ebt & ET);
    [by apply Fk1, (wq_known _ _ _ (H2 m)) |]. fold sE in Esch, Ebt, ET.
  pose proof Ebt as (Ecpu & Em & Es & _ & _ & _ & Ek).
  assert (Hmx : forall m', mtx sE m' = mtx sD m') by (intros m'; unfold mtx; by rewrite Em).
  assert (HEf : forall u, u <> n -> wnx sE u = wnx sD u /\ t_state (thr sE u) = t_state (thr s u) /\
    t_waiting_on (thr sE u) = t_waiting_on (thr s u)).
  { intros u Hu. unfold wnx. destruct (ET u) as [v ->]. rewrite (proj2 (Z.eqb_neq _ _) Hu).
    destruct (HT u) as (a & b & x & -> & Hx & _). simpl. by rewrite Hx. }
  assert (Hnq : forall m', m' <> m -> n ∉ wqs m') by (intros m' Hne Hx; destruct (H4 m' n Hx) as (_ & J & _); congruence).
  assert (Hnsq : forall a, n ∉ sq a) by (intros a Hx; destruct (H5 a n Hx) as (_ & J); congruence).
  assert (Hnp : n ∉ p1 ++ p2).
  { pose proof (wq_nodup _ _ _ (H2 m)) as Hnd. rewrite Hwq in Hnd. apply NoDup_app in Hnd as (_ & Hd & Hnd).
    apply NoDup_cons in Hnd as [Hnd _]. rewrite elem_of_app. intros [Hx | ?]; [| done]. apply (Hd n Hx). by left. }
  assert (Hdisj : forall x m', m' <> m -> x ∈ wqs m' -> x ∉ wqs m).
  { intros x m' Hne Hx Hx'. destruct (H4 m' x Hx) as (_ & J & _), (H4 m x Hx') as (_ & J' & _). congruence. }
  assert (Hdisj' : forall x a, x ∈ sq a -> x ∉ wqs m).
  { intros x a Hx Hx'. destruct (H5 a x Hx) as (_ & J), (H4 m x Hx') as (_ & J' & Jm & _). congruence. }
  split; [split | split; [done |]].
  - done.
  - intros m'. rewrite Hmx, HW. destruct (Z.eqb_spec m m') as [<- | Hne].
    + rewrite fupd_eq. apply (wq_rep_ext sD); [| done | done]. intros x Hx. apply HEf. by intros ->.
    + rewrite fupd_ne by congruence. apply (wq_rep_ext s); [| auto | apply H2]. intros x Hx.
      destruct (HEf x) as (-> & _); [intros ->; by apply (Hnq m') |]. apply Hwo. by apply (Hdisj x m').
  - intros a. unfold sem. rewrite Es, Fsem. apply (wq_rep_ext s); [| auto | apply H3]. intros x Hx.
    destruct (HEf x) as (-> & _); [intros ->; by apply (Hnsq a) |]. apply Hwo. by apply (Hdisj' x a).
  - intros m' t Ht. rewrite Hmx, HO. destruct (Z.eq_dec m' m) as [-> | Hne].
    + rewrite fupd_eq in Ht. destruct (H4 m t) as (J1 & J2 & J3 & J4).
      { rewrite Hwq. rewrite elem_of_app, elem_of_cons in *. tauto. }
      destruct (HEf t) as (_ & -> & ->); [by intros -> |]. rewrite Z.eqb_refl. done.
    + rewrite fupd_ne in Ht by done. destruct (H4 m' t Ht) as (J1 & J2 & J3 & J4).
      destruct (HEf t) as (_ & -> & ->); [intros ->; by apply (Hnq m') |]. by rewrite (proj2 (Z.eqb_neq m m')).
  - intros a t Ht. destruct (H5 a t Ht). by destruct (HEf t) as (_ & -> & ->); [intros ->; by apply (Hnsq a) |].
  - done.
  - intros t Ht. apply (owned_rep_ext sD); [| | | by apply Hown].
    + destruct (ET t) as [v ->]. by destruct (t =? n).
    + intros m'. unfold onx. by rewrite Hmx.
    + by rewrite Em.
  - intros m' t Ht. rewrite Hmx, HO. destruct (Z.eq_dec t n) as [-> | Hne].
    + rewrite fupd_eq, elem_of_cons, H8 by done. destruct (Z.eqb_spec m m') as [<- |]; [tauto |].
      split; [intros [? | ?]; congruence | tauto].
    + rewrite fupd_ne by done. destruct (Z.eq_dec t c) as [-> | Hne'].
      * rewrite fupd_eq, own_del_elem, H8 by done. destruct (Z.eqb_spec m m') as [<- |]; [split; [tauto | congruence] | naive_solver].
      * rewrite fupd_ne, H8 by done. destruct (Z.eqb_spec m m') as [<- |]; [split; congruence | done].
  - destruct (ET n) as [v ->]. rewrite Z.eqb_refl. destruct (HT n) as (a & b & x & -> & _ & Hx). simpl. auto.
Qed.


(** The end of [mutex_unlock]: both recomputations, then the request. *)
Lemma reprioritised_thr s W own t s' :
  reprioritised s W own t s' ->
  cpu s' = cpu s /\ mutexes s' = mutexes s /\ sems s' = sems s /\
  forall u, exists e, thr s' u = set_t_effective_priority e (thr s u).
Proof.
  intros (e & -> & _). split; [done | split; [done | split; [done |]]]. intros u. rewrite thr_upd.
  destruct (t =? u); [by eexists | exists (t_effective_priority (thr s u))]. by destruct (thr s u).
Qed.

Lemma recompute_final s l wqs sq own c :
  sync_inv s l wqs sq own -> c <> nullptr ->
  exists s', recompute_effective_priority C c s = Some s' /\ sync_inv s' l wqs sq own /\
    reprioritised s wqs own c s' /\
    (own c = [] -> t_effective_priority (thr s' c) = t_base_priority (thr s' c)).
Proof.
  intros H Hc. destruct (recompute_ready s wqs own c (sync_pi_ready _ _ _ _ _ H) Hc) as (s' & E & Hr).
  exists s'. split; [done | split; [by apply (reprioritised_inv s _ _ _ _ wqs c) | split; [done |]]].
  destruct Hr as (e & -> & Hp & Hi). intros Hnil. rewrite thr_upd_eq. simpl. rewrite Hnil in Hi.
  destruct (cfg_mutex_pi C); [| done]. destruct Hi as (_ & _ & [-> | (m & u & Hm & _)]); [done |].
  by apply not_elem_of_nil in Hm.
Qed.

(** Which waiter the mutex goes to. *)
Definition first_best (s : kst) (l1 : list Z) (n : Z) (l2 : list Z) : Prop :=
  (forall x, x ∈ l1 -> t_effective_priority (thr s x) < t_effective_priority (thr s n)) /\
  (forall x, x ∈ l2 -> t_effective_priority (thr s x) <= t_effective_priority (thr s n)).

Lemma upd_waiters_id m v f s :
  waiters (mtx s m) = v -> upd_mtx m f (upd_mtx m (set_waiters v) s) = upd_mtx m f s.
Proof.
  intros E. unfold upd_mtx at 1. rewrite mtx_upd_eq. replace (set_waiters v (mtx s m)) with (mtx s m).
  2: { destruct (mtx s m). simpl in *. by subst. }
  unfold upd_mtx. simpl. by rewrite insert_insert_eq.
Qed.

Lemma wq_rep_links s s' h l :
  (forall t, t ∈ l -> wnx s' t = wnx s t) -> (forall t, t ∈ l -> threads s' !! t <> None) ->
  wq_rep s h l -> wq_rep s' h l.
Proof. intros Hw Hk []. split; auto. eapply linked_ext; [| done]. intros x Hx. by rewrite Hw. Qed.

Lemma mutex_release_spec s l wqs sq own m :
  let c := cur s in
  sync_inv s l wqs sq own -> c <> nullptr -> t_state (thr s c) = kThreadReady -> owner (mtx s m) = c ->
  exists s', mutex_release C c m s = Some s' /\
    ((wqs m = [] /\ owner (mtx s' m) = nullptr /\ cpu s' = cpu s /\
      sync_inv s' l wqs sq (fupd own c (own_del m (own c)))) \/
     (exists l1 n l2, wqs m = l1 ++ n :: l2 /\ first_best s l1 n l2 /\ owner (mtx s' m) = n /\
      t_state (thr s' n) = kThreadReady /\ t_waiting_on (thr s' n) = nullptr /\
      sync_inv s' (l ++ [n]) (fupd wqs m (l1 ++ l2)) sq (fupd (fupd own c (own_del m (own c))) n (m :: own n)) /\
      cpu s' = if t_effective_priority (thr s' c) <? t_effective_priority (thr s' n)
               then set_need_resched 1 (cpu s) else cpu s)) /\
    (own c = [m] -> t_effective_priority (thr s' c) = t_base_priority (thr s' c)).
Proof.
  intros c H Hc Hr Hm. unfold mutex_release.
  destruct (remove_step s l wqs sq own c m H Hc Hm) as (s1 & -> & T & M & F & Ho & Hkm & Hm0). cbn [mbind option_bind].
  pose proof F as (Hcpu1 & Hsem1 & _ & _ & Hk1 & _).
  assert (Hown1 : own c = [m] -> own_del m (own c) = []) by (intros ->; unfold own_del; by rewrite filter_cons_False by tauto).
  assert (W1 : wq_rep s1 (waiters (mtx s1 m)) (wqs m)).
  { destruct (M m) as [v ->]. apply (wq_rep_ext s); [| done | apply (yi_wq _ _ _ _ _ H)].
    intros x _. unfold wnx. by destruct (T x) as [? ->]. }
  destruct (decide (wqs m = [])) as [Hnil | Hne].
  - pose proof (wq_hd _ _ _ W1) as Hh. rewrite Hnil in Hh. simpl in Hh.
    unfold waitq_pop_highest. rewrite Hh, Z.eqb_refl. cbn [mbind option_bind negb].
    pose proof (release_free s l wqs sq own c m s1 H Hm Hc Hnil Hm0 T M F Ho) as Hinv.
    rewrite ?Z.eqb_refl. cbn [mbind option_bind negb]. rewrite upd_waiters_id by done.
    set (s2 := upd_mtx m (set_owner nullptr) s1) in *.
    destruct (recompute_final s2 _ _ _ _ c Hinv Hc) as (s3 & -> & Hinv3 & Hr3 & Hpi). cbn [mbind option_bind andb].
    destruct (reprioritised_thr _ _ _ _ _ Hr3) as (R1 & R2 & R3 & R4).
    exists s3. split; [done | split; [left | intros E; apply Hpi; rewrite fupd_eq; auto]].
    split; [done | split; [| split; [rewrite R1; exact Hcpu1 | done]]].
    unfold mtx at 1. rewrite R2. change (owner (mtx s2 m) = nullptr). unfold s2. by rewrite mtx_upd_eq.
  - destruct (waitq_pop_spec s1 _ _ W1 Hne) as (l1 & n & l2 & h' & s2 & Hwq & -> & W2 & Wn & Wsame & Wo & B1 & B2).
    cbn [mbind option_bind].
    assert (Hnin : n ∈ wqs m) by (rewrite Hwq; apply elem_of_app; right; by left).
    assert (Hn0 : n <> nullptr) by (intros ->; by apply (wq_nonnull _ _ _ W1)).
    assert (Hnc : n <> c).
    { intros ->. destruct (yi_wait _ _ _ _ _ H m c Hnin) as [Hb _]. by rewrite Hr in Hb. }
    rewrite (proj2 (Z.eqb_neq _ _) Hn0). cbn [negb].
    destruct (handover_step s l wqs sq own c m s1 l1 n l2 h' s2 H Hm Hc Hnc Hm0 Hkm Hwq T M F Ho W2 Wn Wsame Wo)
      as (D1 & D2 & D3 & D4 & D5 & D6 & D7).
    set (sD := thread_owned_mutex_add n m _) in *.
    change (thread_owned_mutex_add n m _) with sD.
    assert (Hsub : forall x, x ∈ l1 ++ l2 -> x ∈ wqs m) by (intros x; rewrite Hwq, !elem_of_app, elem_of_cons; tauto).
    assert (WD : wq_rep sD h' (l1 ++ l2)).
    { apply (wq_rep_links s2); [intros x _; apply D3 | | done]. intros x Hx. apply D2.
      by apply (wq_known _ _ _ (yi_wq _ _ _ _ _ H m)), Hsub. }
    assert (Hwo : forall x, x ∉ wqs m -> wnx sD x = wnx s x).
    { intros x Hx. rewrite D3, Wo by done. unfold wnx. by destruct (T x) as [? ->]. }
    destruct (handover_inv s l wqs sq own c m sD l1 n l2 h' H Hm Hc Hnc Hm0 Hwq D1 D2 WD Hwo D4 D5 D7) as (HE & FE & E1 & E2).
    set (sE := sched_make_runnable n sD) in *. destruct FE as (FE1 & FE2 & _).
    assert (HmE : forall m', mtx sE m' = mtx sD m') by (intros m'; unfold mtx; by rewrite FE2).
    assert (HoE : owner (mtx sE m) = n) by (rewrite HmE, D5, Z.eqb_refl; done).
    set (wqs' := fupd wqs m (l1 ++ l2)) in *. set (own' := fupd (fupd own c _) n _) in *.
    destruct (mutex_apply_pi_ready sE wqs' own' m (sync_pi_ready _ _ _ _ _ HE) Hm0 ltac:(by rewrite HoE)) as (sF & -> & HF).
    cbn [mbind option_bind].
    assert (HFinv : sync_inv sF (l ++ [n]) wqs' sq own').
    { destruct HF as [[_ ->] | [_ HF]]; [done | by apply (reprioritised_inv sE _ _ _ _ wqs' (owner (mtx sE m)))]. }
    assert (HFt : cpu sF = cpu sE /\ mutexes sF = mutexes sE /\ forall u, exists e, thr sF u = set_t_effective_priority e (thr sE u)).
    { destruct HF as [[_ ->] | [_ HF]].
      - split; [done | split; [done |]]. intros u. exists (t_effective_priority (thr sE u)). by destruct (thr sE u).
      - by destruct (reprioritised_thr _ _ _ _ _ HF) as (R1 & R2 & _ & R4). }
    destruct (recompute_final sF _ _ _ _ c HFinv Hc) as (sG & -> & HGinv & HrG & Hpi). cbn [mbind option_bind].
    destruct (reprioritised_thr _ _ _ _ _ HrG) as (R1 & R2 & _ & R4). destruct HFt as (F1 & F2 & F3).
    assert (Hcpu : cpu sG = cpu s) by (rewrite R1, F1, FE1; apply D2).
    assert (HcG : (cur sG =? c) = true) by (apply Z.eqb_eq; unfold cur; by rewrite Hcpu).
    rewrite HcG. unfold thread_effective_priority. rewrite (proj2 (Z.eqb_neq _ _) Hc), (proj2 (Z.eqb_neq _ _) Hn0).
    cbn [andb]. set (b := t_effective_priority (thr sG c) <? t_effective_priority (thr sG n)).
    set (sH := if b then set_resched 1 sG else sG).
    assert (HthH : forall u, thr sH u = thr sG u) by (intros u; unfold sH; by destruct b).
    exists sH. split; [done | split; [right | intros E; rewrite HthH; apply Hpi]].
    2: { unfold own'. rewrite fupd_ne by congruence. rewrite fupd_eq. auto. }
    exists l1, n, l2. assert (Hs1 : forall x, t_effective_priority (thr s1 x) = t_effective_priority (thr s x))
      by (intros x; by destruct (T x) as [? ->]).
    split; [done | split; [| split; [| split; [| split; [| split]]]]].
    + split; intros x Hx; rewrite <- !Hs1; auto.
    + transitivity (owner (mtx sG m)); [unfold sH; by destruct b |]. unfold mtx. rewrite R2, F2. exact HoE.
    + rewrite HthH. destruct (R4 n) as [? ->], (F3 n) as [? ->]. done.
    + rewrite HthH. destruct (R4 n) as [? ->], (F3 n) as [? ->]. done.
    + unfold sH. destruct b; [by apply sync_inv_cpu | done].
    + rewrite !HthH. fold b. unfold sH. destruct b; [unfold set_resched, upd_cpu; simpl; by rewrite Hcpu | done].
Qed.


(** ** Semaphores *)

Lemma sem_upd a f s b : sem (upd_sem a f s) b = if a =? b then f (sem s b) else sem s b.
Proof.
  unfold sem, upd_sem. cbn [sems set_sems]. rewrite lookup_insert.
  destruct (Z.eqb_spec a b) as [-> |]; [by rewrite decide_True | by rewrite decide_False].
Qed.

Lemma sem_add_inv s l wqs sq own a d :
  sync_inv s l wqs sq own -> sync_inv (sem_add a d s) l wqs sq own.
Proof.
  intros [[G1 G2 G3 G4] H2 H3 H4 H5 H6 H7 H8]. split; try done.
  - split; [by apply (rq_rep_ext s) | done | done | done].
  - intros m. apply (wq_rep_ext s); [done | done | apply H2].
  - intros b. unfold sem_add. rewrite sem_upd. replace (swaiters (if a =? b then _ else _)) with (swaiters (sem s b))
      by by destruct (a =? b).
    apply (wq_rep_ext s); [done | done | apply H3].
  - intros t Ht. apply (owned_rep_ext s); [done | done | done | by apply H7].
Qed.

Lemma sem_block_spec s l wqs sq own a :
  let c := cur s in
  sync_inv s l wqs sq own -> c <> nullptr -> t_state (thr s c) = kThreadReady -> threads s !! c <> None ->
  exists s', sem_block c a s = Some s' /\
    sync_inv s' (rq_del c l) wqs (fupd sq a [c]) own /\
    cpu s' = set_need_resched 1 (cpu s) /\ count (sem s' a) = count (sem s a) /\
    t_state (thr s' c) = kThreadBlocked /\ wnx s' c = nullptr.
Proof.
  intros c H Hc Hr Hk. destruct (ready_not_waiting _ _ _ _ _ _ H Hr) as [Hnw Hnsq].
  pose proof H as [H1 H2 H3 H4 H5 H6 H7 H8]. unfold sem_block.
  set (sA := sem_set_waiters a c _).
  assert (T : forall u, thr sA u =
    if c =? u then set_t_wait_next (swaiters (sem s a)) (set_t_waiting_on nullptr (thr s u)) else thr s u).
  { intros u. change (thr sA u) with
      (thr (upd_thr c (set_t_wait_next (swaiters (sem s a))) (upd_thr c (set_t_waiting_on nullptr) s)) u).
    rewrite !thr_upd. by destruct (c =? u). }
  assert (HA : sched_inv sA l).
  { destruct H1 as [G1 G2 G3 G4]. split.
    - apply (rq_rep_ext s); [done | done | | | done].
      + intros u. unfold nxt. rewrite T. by destruct (c =? u).
      + intros u Hu. by apply (known_upd c), (known_upd c).
    - intros u Hu. rewrite T. destruct (c =? u); by apply G2.
    - intros u. rewrite T. destruct (c =? u); [change (prio_ok (thr s u)) |]; apply G3.
    - change (cur sA) with (cur s). rewrite T. by destruct (c =? cur s). }
  destruct (sched_block_spec sA l HA Hc) as (sC & -> & _ & HC & FC). cbn [mbind option_bind].
  destruct HC as [HschC TC]; [change (cur sA) with c; rewrite T, Z.eqb_refl; simpl; by rewrite Hr |].
  change (cur sA) with c in TC. destruct FC as (FC1 & FC2 & FC3 & _ & _ & _ & FC4).
  set (s' := set_resched 1 sC).
  assert (Hth : forall u, exists v, thr s' u = set_t_next v
    (if u =? c then set_t_wait_next nullptr (set_t_state kThreadBlocked (set_t_waiting_on nullptr (thr s u))) else thr s u)).
  { intros u. destruct (TC u) as [v Hv]. exists v. change (thr s' u) with (thr sC u). rewrite Hv, T, (Z.eqb_sym c u).
    by destruct (u =? c). }
  assert (Hwn : forall u, u <> c -> wnx s' u = wnx s u /\ t_state (thr s' u) = t_state (thr s u) /\
    t_waiting_on (thr s' u) = t_waiting_on (thr s u)).
  { intros u Hu. unfold wnx. destruct (Hth u) as (v & ->). by rewrite (proj2 (Z.eqb_neq _ _) Hu). }
  assert (Hcs : t_state (thr s' c) = kThreadBlocked /\ t_waiting_on (thr s' c) = nullptr /\ wnx s' c = nullptr).
  { unfold wnx. destruct (Hth c) as (v & ->). by rewrite Z.eqb_refl. }
  assert (Hkn : forall u, threads s !! u <> None -> threads s' !! u <> None)
    by (intros u Hu; apply FC4; by apply (known_upd c), (known_upd c)).
  assert (Hsm : forall b, sem s' b = if a =? b then Semaphore (count (sem s b)) c else sem s b).
  { intros b. unfold sem. change (sems s') with (sems sC). rewrite FC3.
    change (sem sA b = if a =? b then Semaphore (count (sem s b)) c else sem s b). unfold sA, sem_set_waiters.
    rewrite sem_upd. done. }
  assert (Hmt : forall m, mtx s' m = mtx s m) by (intros m; unfold mtx; change (mutexes s') with (mutexes sC); by rewrite FC2).
  exists s'. split; [done | split; [split | split; [| split; [| split; apply Hcs]]]].
  - destruct HschC as [G1 G2 G3 G4]. by split; [apply rq_rep_cpu | ..].
  - intros m. rewrite Hmt. apply (wq_rep_ext s); [| done | apply H2]. intros x Hx. apply Hwn. intros ->. by apply (Hnw m).
  - intros b. rewrite Hsm. destruct (Z.eqb_spec a b) as [<- | Hne].
    + rewrite fupd_eq. split; simpl; [done | | apply NoDup_singleton | |].
      * split; [apply Hcs | done].
      * intros Hx%list_elem_of_singleton. congruence.
      * intros x ->%list_elem_of_singleton. auto.
    + rewrite fupd_ne by congruence. apply (wq_rep_ext s); [| done | apply H3]. intros x Hx. apply Hwn. intros ->. by apply (Hnsq b).
  - intros m t Ht. rewrite Hmt. destruct (Hwn t) as (_ & -> & ->); [intros ->; by apply (Hnw m) | by apply H4].
  - intros b t Ht. destruct (Z.eq_dec b a) as [-> | Hne].
    + rewrite fupd_eq in Ht. apply list_elem_of_singleton in Ht as ->. split; apply Hcs.
    + rewrite fupd_ne in Ht by done. destruct (Hwn t) as (_ & -> & ->); [intros ->; by apply (Hnsq b) | by apply (H5 b)].
  - intros x y t. destruct (Z.eq_dec x a) as [-> | Hx], (Z.eq_dec y a) as [-> | Hy];
      rewrite ?fupd_eq, ?(fupd_ne sq a [c] x), ?(fupd_ne sq a [c] y) by done; rewrite ?list_elem_of_singleton; [done | | | by apply H6].
    + intros -> Hy'. destruct (Hnsq y Hy').
    + intros Hx' ->. destruct (Hnsq x Hx').
  - intros t Ht. apply (owned_rep_ext s); [| | | by apply H7].
    + destruct (Hth t) as (v & ->). by destruct (t =? c).
    + intros m. unfold onx. by rewrite Hmt.
    + intros m. change (mutexes s') with (mutexes sC). by rewrite FC2.
  - intros m t Ht. rewrite Hmt. by apply H8.
  - unfold s', set_resched, upd_cpu. simpl. by rewrite FC1.
  - by rewrite Hsm, Z.eqb_refl.
Qed.


(** Taking a waiter off a semaphore's queue and making it runnable. *)
Lemma sem_wake_inv s l wqs sq own a l1 n l2 h' s2 :
  sync_inv s l wqs sq own -> sq a = l1 ++ n :: l2 ->
  wq_rep s2 h' (l1 ++ l2) -> same_but_waits s s2 -> (forall x, x ∉ sq a -> wnx s2 x = wnx s x) ->
  let sD := sem_set_waiters a h' s2 in
  let sE := sched_make_runnable n sD in
  sync_inv sE (l ++ [n]) wqs (fupd sq a (l1 ++ l2)) own /\ cpu sE = cpu s /\
  t_state (thr sE n) = kThreadReady /\ count (sem sE a) = count (sem s a) /\
  (forall u, t_effective_priority (thr sE u) = t_effective_priority (thr s u)).
Proof.
  intros H Hq W2 (w & HwT & HwK & HwE) Wo sD sE. pose proof H as [H1 H2 H3 H4 H5 H6 H7 H8].
  assert (Hnin : n ∈ sq a) by (rewrite Hq; apply elem_of_app; right; by left).
  assert (Hn0 : n <> nullptr) by (intros ->; by apply (wq_nonnull _ _ _ (H3 a))).
  destruct (H5 a n Hnin) as [Hnb Hnw].
  assert (TD : forall u, thr sD u = set_t_wait_next (w u) (thr s u)) by (intros u; apply HwT).
  assert (HsD : sched_inv sD l).
  { destruct H1 as [G1 G2 G3 G4]. split.
    - apply (rq_rep_ext s); [by unfold sD; simpl; rewrite HwE .. | | exact HwK | done].
      intros u. unfold nxt. by rewrite TD.
    - intros u Hu. rewrite TD. by apply G2.
    - intros u. rewrite TD. apply G3.
    - change (cur sD) with (cur s2). rewrite HwE. change (cur (set_threads _ s)) with (cur s). rewrite TD. apply G4. }
  destruct (sched_make_runnable_spec sD l n HsD Hn0) as (Esch & FE & TE);
    [by rewrite TD; simpl; rewrite Hnb | by apply HwK, (wq_known _ _ _ (H3 a)) |].
  fold sE in Esch, FE, TE. destruct FE as (F1 & F2 & F3 & _ & _ & _ & F4).
  assert (Hmt : forall m, mtx sE m = mtx s m).
  { intros m. unfold mtx. rewrite F2. change (mutexes sD) with (mutexes s2). by rewrite HwE. }
  assert (Hsm : forall b, sem sE b = if a =? b then Semaphore (count (sem s b)) h' else sem s b).
  { intros b. unfold sem at 1. rewrite F3. change (sem sD b = if a =? b then Semaphore (count (sem s b)) h' else sem s b).
    unfold sD, sem_set_waiters. rewrite sem_upd. assert (Es : sem s2 b = sem s b) by (by rewrite HwE). by rewrite Es. }
  assert (HEf : forall u, u <> n -> wnx sE u = wnx s2 u /\ t_state (thr sE u) = t_state (thr s u) /\
    t_waiting_on (thr sE u) = t_waiting_on (thr s u)).
  { intros u Hu. unfold wnx. destruct (TE u) as [v ->]. by rewrite (proj2 (Z.eqb_neq _ _) Hu), TD, HwT. }
  assert (Hnm : forall m, n ∉ wqs m) by (intros m Hx; destruct (H4 m n Hx) as (_ & J & J' & _); congruence).
  assert (Hnq : forall b, b <> a -> n ∉ sq b) by (intros b Hb Hx; by apply Hb, (H6 b a n)).
  assert (Hnp : n ∉ l1 ++ l2).
  { pose proof (wq_nodup _ _ _ (H3 a)) as Hnd. rewrite Hq in Hnd. apply NoDup_app in Hnd as (_ & Hd & Hnd).
    apply NoDup_cons in Hnd as [Hnd _]. rewrite elem_of_app. intros [Hx | ?]; [| done]. apply (Hd n Hx). by left. }
  assert (Hsub : forall x, x ∈ l1 ++ l2 -> x ∈ sq a) by (intros x; rewrite Hq, !elem_of_app, elem_of_cons; tauto).
  assert (HkE : forall t, threads s !! t <> None -> threads sE !! t <> None) by (intros t Ht; apply F4, HwK, Ht).
  split; [split | split; [| split; [| split]]].
  - done.
  - intros m. rewrite Hmt. apply (wq_rep_ext s); [| done | apply H2]. intros x Hx.
    destruct (HEf x) as (-> & _); [intros ->; by apply (Hnm m) |]. apply Wo. intros Hx'.
    destruct (H4 m x Hx) as (_ & J & J' & _), (H5 a x Hx') as (_ & J''). congruence.
  - intros b. rewrite Hsm. destruct (Z.eqb_spec a b) as [<- | Hne].
    + rewrite fupd_eq. simpl. apply (wq_rep_links s2); [| | done].
      * intros x Hx. apply HEf. by intros ->.
      * intros x Hx. by apply HkE, (wq_known _ _ _ (H3 a)), Hsub.
    + rewrite fupd_ne by congruence. apply (wq_rep_ext s); [| done | apply H3]. intros x Hx.
      destruct (HEf x) as (-> & _); [intros ->; by apply (Hnq b) |]. apply Wo. intros Hx'. by apply Hne, (H6 a b x).
  - intros m t Ht. rewrite Hmt. destruct (HEf t) as (_ & -> & ->); [intros ->; by apply (Hnm m) | by apply H4].
  - intros b t Ht. assert (Hts : t <> n /\ t ∈ sq b).
    { destruct (Z.eq_dec b a) as [-> | Hne]; [rewrite fupd_eq in Ht | rewrite fupd_ne in Ht by done].
      - split; [by intros -> | by apply Hsub].
      - split; [intros ->; by apply (Hnq b) | done]. }
    destruct Hts as [Htn Hts]. destruct (HEf t Htn) as (_ & -> & ->). by apply (H5 b).
  - intros x y t Hx Hy. apply (H6 x y t).
    + destruct (Z.eq_dec x a) as [-> | Hne]; [rewrite fupd_eq in Hx; by apply Hsub | by rewrite fupd_ne in Hx].
    + destruct (Z.eq_dec y a) as [-> | Hne]; [rewrite fupd_eq in Hy; by apply Hsub | by rewrite fupd_ne in Hy].
  - intros t Ht. apply (owned_rep_ext s); [| | | by apply H7].
    + destruct (TE t) as (v & ->). rewrite TD. by destruct (t =? n).
    + intros m. unfold onx. by rewrite Hmt.
    + intros m. rewrite F2. change (mutexes sD) with (mutexes s2). by rewrite HwE.
  - intros m t Ht. rewrite Hmt. by apply H8.
  - rewrite F1. change (cpu sD) with (cpu s2). by rewrite HwE.
  - destruct (TE n) as [v ->]. by rewrite Z.eqb_refl.
  - by rewrite Hsm, Z.eqb_refl.
  - intros u. destruct (TE u) as [v ->]. rewrite TD. by destruct (u =? n).
Qed.

Lemma sem_release_spec s l wqs sq own a :
  sync_inv s l wqs sq own -> cur s <> nullptr -> - 2 ^ 31 <= count (sem s a) < 2 ^ 31 - 1 ->
  exists s', sem_release a s = Some s' /\ count (sem s' a) = count (sem s a) + 1 /\
    ((0 <= count (sem s a) \/ sq a = []) /\ sync_inv s' l wqs sq own /\ cpu s' = cpu s \/
     count (sem s a) < 0 /\ exists l1 n l2, sq a = l1 ++ n :: l2 /\ first_best s l1 n l2 /\
       t_state (thr s' n) = kThreadReady /\ sync_inv s' (l ++ [n]) wqs (fupd sq a (l1 ++ l2)) own /\
       cpu s' = if t_effective_priority (thr s (cur s)) <? t_effective_priority (thr s n)
                then set_need_resched 1 (cpu s) else cpu s).
Proof.
  intros H Hc Hcount. unfold sem_release. set (s1 := sem_add a 1 s).
  assert (Hs1 : sem s1 a = Semaphore (count (sem s a) + 1) (swaiters (sem s a))).
  { unfold s1, sem_add. rewrite sem_upd, Z.eqb_refl. by rewrite int32_small by lia. }
  pose proof (sem_add_inv s l wqs sq own a 1 H) as H1. fold s1 in H1. rewrite Hs1. cbn [count swaiters].
  destruct (Z.leb_spec (count (sem s a) + 1) 0) as [Hle | Hgt].
  2: { exists s1. rewrite Hs1. split; [done | split; [done | left]]. split; [left; lia | done]. }
  pose proof (yi_sq _ _ _ _ _ H1 a) as W. rewrite Hs1 in W. simpl in W.
  destruct (decide (sq a = [])) as [Hnil | Hne].
  - pose proof (wq_hd _ _ _ W) as Hh. rewrite Hnil in Hh. simpl in Hh. unfold waitq_pop_highest. rewrite Hh, Z.eqb_refl.
    cbn [mbind option_bind negb]. rewrite Z.eqb_refl. cbn [negb].
    assert (E : sem_set_waiters a nullptr s1 = s1).
    { unfold sem_set_waiters, upd_sem. rewrite Hs1, Hh. simpl. unfold s1, sem_add, upd_sem. simpl.
      rewrite insert_insert_eq. rewrite int32_small by lia. by rewrite Hh. }
    exists s1. rewrite E, Hs1. split; [done | split; [done | left]]. split; [by right | done].
  - destruct (waitq_pop_spec s1 _ _ W Hne) as (l1 & n & l2 & h' & s2 & Hwq & -> & W2 & Wn & Wsame & Wo & B1 & B2).
    cbn [mbind option_bind].
    assert (Hn0 : n <> nullptr).
    { intros ->. apply (wq_nonnull _ _ _ W). rewrite Hwq. apply elem_of_app. right. by left. }
    rewrite (proj2 (Z.eqb_neq _ _) Hn0). cbn [negb].
    destruct (sem_wake_inv s1 l wqs sq own a l1 n l2 h' s2 H1 Hwq W2 Wsame Wo) as (E1 & E2 & E3 & E4 & E5).
    set (sE := sched_make_runnable n (sem_set_waiters a h' s2)) in *.
    assert (HcE : cur sE = cur s) by (unfold cur; by rewrite E2).
    unfold thread_effective_priority. rewrite HcE, (proj2 (Z.eqb_neq _ _) Hc), (proj2 (Z.eqb_neq _ _) Hn0), !E5. cbn [negb andb].
    change (thr s1) with (thr s). set (b := _ <? _).
    exists (if b then set_resched 1 sE else sE). rewrite Hs1 in E4. cbn [count] in E4.
    split; [done | split; [by destruct b | right]]. split; [lia |].
    exists l1, n, l2. split; [done | split; [split; assumption | split; [by destruct b | split]]].
    + destruct b; [by apply sync_inv_cpu | done].
    + fold b. destruct b; [change (set_need_resched 1 (cpu sE) = set_need_resched 1 (cpu s)); rewrite E2; done | exact E2].
Qed.


(** ** The code around switches *)

Lemma sync_inv_switched s l wqs sq own n :
  sync_inv s l wqs sq own -> n ∈ l -> sync_inv (switched n s) l wqs sq own.
Proof.
  intros H Hn. pose proof (switched_inv n s l (yi_sched _ _ _ _ _ H) Hn) as Hs.
  assert (Hsave : sync_inv (fpsimd_save s) l wqs sq own).
  { unfold fpsimd_save. destruct (_ =? _); [done |]. apply sync_inv_upd; [done | apply (yi_sched _ _ _ _ _ H) | by left | done]. }
  destruct Hsave as [_ H2 H3 H4 H5 H6 H7 H8]. split; try done.
  - intros m. apply (wq_rep_ext (fpsimd_save s)); [done | done | apply H2].
  - intros a. apply (wq_rep_ext (fpsimd_save s)); [done | done | apply H3].
  - intros t Ht. apply (owned_rep_ext (fpsimd_save s)); [done | done | done | by apply H7].
Qed.

(** What holds whenever a primitive called by thread [c] lets another thread
    run: all the queues are in order and preemption is enabled. *)
Definition switch_ok (c : Z) (c' n : Z) (s : kst) : Prop :=
  c' = c /\ n <> c /\ cur s = n /\ preempt_cnt (cpu s) = 0 /\ exists l wqs sq own, sync_inv s l wqs sq own.

(** How a thread that waits for, or owns, mutex [m] is resumed: as its owner,
    with preemption enabled. *)
Definition resumed_owning (m : Z) (c : Z) (_ s' : kst) : Prop :=
  cur s' = c /\ owner (mtx s' m) = c /\ preempt_cnt (cpu s') = 0.

Lemma mtx_load s m : mtx (fpsimd_load s) m = mtx s m.
Proof. unfold fpsimd_load. by destruct (_ =? _). Qed.

Lemma cpu_load s : cpu (fpsimd_load s) = cpu s.
Proof. unfold fpsimd_load. by destruct (_ =? _). Qed.

Lemma cur_load s : cur (fpsimd_load s) = cur s.
Proof. unfold cur. by rewrite cpu_load. Qed.

(** The end of a critical section, for any resumption condition [R]. *)
Lemma enable_kwp (R : Z -> kst -> kst -> Prop) (Q : unit -> kst -> Prop) s l wqs sq own :
  sync_inv s l wqs sq own -> cur s <> nullptr -> preempt_cnt (cpu s) = 1 ->
  let s0 := upd_cpu (set_preempt_cnt 0) s in
  (l = [] \/ cur s ∈ l \/ need_resched (cpu s) = 0 \/ irq_depth (cpu s) <> 0 ->
     Q () s0 /\ Q () (set_resched kNeedReschedNone s0)) ->
  (forall n s', R (cur s) (switched n s0) s' -> Q () (set_resched kNeedReschedNone (fpsimd_load s'))) ->
  kwp (switch_ok (cur s)) R Q (enable C s).
Proof.
  intros H Hc Hp s0 Hstay Hres. unfold enable. rewrite preempt_enable_one by done. fold s0.
  assert (H0 : sync_inv s0 l wqs sq own) by by apply sync_inv_cpu.
  destruct (Z.eqb_spec (need_resched (cpu s)) 0) as [En | En]; cbn [negb andb]; [apply Hstay; auto |].
  destruct (Z.eqb_spec (irq_depth (cpu s)) 0) as [Ei | Ei]; [| apply Hstay; auto].
  destruct (resched_any (sched_policy_prio C) s0 l (yi_sched _ _ _ _ _ H0) Hc eq_refl)
    as [[-> Hl] | (n & Hn & Hnc & k & -> & Hk)].
  - apply Hstay. destruct Hl; auto.
  - split.
    + split; [done | split; [done | split; [done | split]]].
      * simpl. by rewrite cpu_save.
      * exists l, wqs, sq, own. by apply sync_inv_switched.
    + intros s' Hs'. rewrite Hk. by apply (Hres n).
Qed.

(** Entering a critical section from a state with preemption enabled. *)
Definition entered (s : kst) : kst := upd_cpu (set_preempt_cnt 1) s.

Lemma disable_eq s : preempt_cnt (cpu s) = 0 -> preempt_disable s = KDone () (entered s).
Proof. intros Hp. unfold preempt_disable, modify. by rewrite Hp. Qed.

Lemma entered_inv s l wqs sq own : sync_inv s l wqs sq own -> sync_inv (entered s) l wqs sq own.
Proof. by apply sync_inv_cpu. Qed.

Lemma lock_owner_kwp s n m l wqs sq own :
  sync_inv s l wqs sq own -> cur s <> nullptr -> t_state (thr s (cur s)) = kThreadReady ->
  preempt_cnt (cpu s) = 0 -> owner (mtx s m) = cur s ->
  kwp (switch_ok (cur s)) (resumed_owning m)
    (fun _ s' => cur s' = cur s /\ owner (mtx s' m) = cur s /\ preempt_cnt (cpu s') = 0)
    (mutex_lock_loop C (Datatypes.S n) m s).
Proof.
  intros H Hc Hr Hp Ho. cbn [mutex_lock_loop]. unfold get, modify, mbind, K_bind, mret, K_ret.
  rewrite disable_eq by done. cbn [kbind]. change (cur (entered s)) with (cur s).
  rewrite (proj2 (Z.eqb_neq _ _) Hc). change (mtx (entered s) m) with (mtx s m). rewrite Ho, Z.eqb_refl. cbn [kbind].
  set (s1 := upd_thr (cur s) (set_t_waiting_on nullptr) (entered s)).
  apply (enable_kwp _ _ s1 l wqs sq own).
  - apply sync_inv_upd; [done | apply (yi_sched _ _ _ _ _ H) | by right | by apply entered_inv].
  - done.
  - done.
  - intros _. by split.
  - intros k s' (R1 & R2 & R3). change (cur s1) with (cur s) in *.
    split; [| split]; [exact (eq_trans (cur_load s') R1) | | exact (eq_trans (f_equal preempt_cnt (cpu_load s')) R3)].
    change (owner (mtx (fpsimd_load s') m) = cur s). by rewrite mtx_load.
Qed.

(** When a thread switched back in owns the mutex, one more turn of the loop
    returns; the registers it reloads are its own. *)
Lemma lock_resumed_kwp s s' n m c :
  c <> nullptr -> resumed_owning m c s s' ->
  kwp (switch_ok c) (resumed_owning m) (fun _ s'' => cur s'' = c /\ owner (mtx s'' m) = c /\ preempt_cnt (cpu s'') = 0)
    (mutex_lock_loop C (Datatypes.S n) m (set_resched kNeedReschedNone (fpsimd_load s'))).
Proof.
  intros Hc (R1 & R2 & R3). set (s1 := set_resched kNeedReschedNone (fpsimd_load s')).
  assert (E1 : cur s1 = c) by (exact (eq_trans (cur_load s') R1)).
  assert (E2 : owner (mtx s1 m) = c) by (change (owner (mtx (fpsimd_load s') m) = c); by rewrite mtx_load).
  assert (E3 : preempt_cnt (cpu s1) = 0) by (exact (eq_trans (f_equal preempt_cnt (cpu_load s')) R3)).
  cbn [mutex_lock_loop]. unfold get, modify, mbind, K_bind, mret, K_ret.
  rewrite disable_eq by done. cbn [kbind]. change (cur (entered s1)) with (cur s1).
  change (mtx (entered s1) m) with (mtx s1 m). rewrite E1, E2, (proj2 (Z.eqb_neq _ _) Hc), Z.eqb_refl. cbn [kbind].
  unfold enable. rewrite preempt_enable_one by done. cbn [need_resched]. simpl Z.eqb. cbn [negb andb]. by split.
Qed.

(** [mutex_lock] ends owning the mutex. *)
Lemma mutex_lock_kwp s n m l wqs sq own :
  sync_inv s l wqs sq own -> cur s <> nullptr -> t_state (thr s (cur s)) = kThreadReady ->
  threads s !! cur s <> None -> mutexes s !! m <> None -> m <> nullptr ->
  preempt_cnt (cpu s) = 0 -> irq_depth (cpu s) = 0 ->
  (owner (mtx s m) = nullptr \/ owner (mtx s m) = cur s \/
   rq_del (cur s) l <> [] /\ (lockdep_enabled C && lockdep_would_deadlock (cur s) m s = false)) ->
  kwp (switch_ok (cur s)) (resumed_owning m)
    (fun _ s' => cur s' = cur s /\ owner (mtx s' m) = cur s /\ preempt_cnt (cpu s') = 0)
    (mutex_lock C (2 + n) m s).
Proof.
  intros H Hc Hr Hk Hkm Hm Hp Hi Hcase. unfold mutex_lock. rewrite (proj2 (Z.eqb_neq _ _) Hm).
  destruct (Z.eq_dec (owner (mtx s m)) (cur s)) as [Ho | Ho].
  { by apply (lock_owner_kwp s (Datatypes.S n) m l wqs sq own). }
  change (2 + n)%nat with (Datatypes.S (Datatypes.S n)).
  cbn [mutex_lock_loop]. unfold get, modify, modify_opt, mbind, K_bind, mret, K_ret.
  rewrite disable_eq by done. cbn [kbind]. change (cur (entered s)) with (cur s).
  rewrite (proj2 (Z.eqb_neq _ _) Hc). change (mtx (entered s) m) with (mtx s m). rewrite (proj2 (Z.eqb_neq _ _) Ho).
  pose proof (entered_inv _ _ _ _ _ H) as He. destruct (Z.eqb_spec (owner (mtx s m)) nullptr) as [Hfree | Hbusy].
  - cbn [kbind]. destruct (take_inv (entered s) l wqs sq own (cur s) m He Hc Hr Hm Hkm Hfree) as (Ht & Hown & Hcpu).
    set (s1 := take (cur s) m (entered s)) in *.
    assert (Hcur1 : cur s1 = cur s) by (unfold cur; by rewrite Hcpu). rewrite <- Hcur1.
    apply (enable_kwp _ _ s1 l wqs sq (fupd own (cur s) (m :: own (cur s)))); [done | by rewrite Hcur1 | by rewrite Hcpu | |].
    + intros _. change (mtx (set_resched ?a ?b) m) with (mtx b m). change (mtx (upd_cpu ?a ?b) m) with (mtx b m).
      rewrite Hown, <- Hcur1. by split.
    + intros k s' (R1 & R2 & R3).
      split; [exact (eq_trans (cur_load s') R1) | split; [| exact (eq_trans (f_equal preempt_cnt (cpu_load s')) R3)]].
      change (owner (mtx (fpsimd_load s') m) = cur s1). by rewrite mtx_load.
  - destruct Hcase as [? | [? | [Hl Hld]]]; [done | done |].
    change (lockdep_would_deadlock (cur s) m (entered s)) with (lockdep_would_deadlock (cur s) m s). rewrite Hld. cbn [kbind].
    destruct (mutex_block_spec (entered s) l wqs sq own m He Hc Hr Hm Hk Hbusy Ho) as (s1 & E & Hinv & Hcpu & _).
    change (cur (entered s)) with (cur s) in *. rewrite E. cbn [kbind].
    assert (Hcur1 : cur s1 = cur s) by (unfold cur; by rewrite Hcpu).
    apply kwp_bind. rewrite <- Hcur1. rewrite <- Hcur1 in Hinv, Hl.
    apply (enable_kwp _ _ s1 _ _ _ _ Hinv); [by rewrite Hcur1 | by rewrite Hcpu | |].
    + rewrite Hcpu. simpl. intros [? | [Hx | [? | ?]]]; [done | | done | done].
      apply rq_del_elem in Hx as [_ ?]. done.
    + intros k s' Hres. apply (lock_resumed_kwp (switched k (upd_cpu (set_preempt_cnt 0) s1)) s' n m (cur s1)); [by rewrite Hcur1 | done].
Qed.


(** ** Blocking with nobody else to run *)

Lemma resched_alone prio s :
  rq_head s = nullptr -> cur s <> nullptr -> is_ready s (cur s) = false -> preempt_cnt (cpu s) = 0 ->
  sched_resched_from_irq_tail prio s = KDone () (set_resched kNeedReschedNone s).
Proof.
  intros Hq Hc Hr Hp. unfold sched_resched_from_irq_tail, get, modify, of_opt, mbind, K_bind, mret, K_ret. cbn [kbind].
  rewrite Hp. cbn [Z.eqb negb]. destruct prio.
  - unfold prio_pick_next. rewrite Hq. simpl. by rewrite Z.eqb_refl, orb_true_r.
  - rewrite Hr, andb_false_r. simpl. rewrite Hq. by rewrite orb_true_r.
Qed.

(** A thread that is marked blocked, and queued on [m], but still runs. *)
Record blocked_running (s : kst) (c m : Z) : Prop := {
  br_cur : cur s = c;
  br_nonnull : c <> nullptr;
  br_state : t_state (thr s c) = kThreadBlocked;
  br_owner : owner (mtx s m) <> nullptr /\ owner (mtx s m) <> c;
  br_queue : rq_head s = nullptr;
  br_cpu : preempt_cnt (cpu s) = 0
}.

Lemma recompute_shape t s s' :
  recompute_effective_priority C t s = Some s' -> s' = s \/ exists e, s' = upd_thr t (set_t_effective_priority e) s.
Proof.
  unfold recompute_effective_priority. destruct (t =? nullptr) eqn:Et; [intros [= <-]; by left |].
  destruct (if cfg_mutex_pi C then _ else _) as [e |]; simpl; [| done]. intros [= <-]. right.
  unfold thread_set_effective_priority. rewrite Et. by eexists.
Qed.

Lemma apply_pi_shape m s s' :
  mutex_apply_pi C m s = Some s' -> s' = s \/ exists t e, s' = upd_thr t (set_t_effective_priority e) s.
Proof.
  unfold mutex_apply_pi. destruct (_ || _); [intros [= <-]; by left |].
  destruct (_ =? _); [intros [= <-]; by left |]. intros [-> | [e ->]]%recompute_shape; [by left | right; by eexists _, _].
Qed.

Lemma blocked_running_step s c m s' :
  blocked_running s c m -> mutex_block C c m (entered s) = Some s' ->
  blocked_running (set_resched kNeedReschedNone (upd_cpu (set_preempt_cnt 0) s')) c m /\ cur s' = c /\
  preempt_cnt (cpu s') = 1 /\ rq_head s' = nullptr /\ is_ready s' c = false.
Proof.
  intros [B1 B2 B3 [B4 B5] B6 B7] E. unfold mutex_block in E.
  set (sA := upd_mtx m _ _) in E. destruct (mutex_apply_pi C m sA) as [sB |] eqn:EB; [| done]. cbn [mbind option_bind] in E.
  assert (HA : cur sA = c /\ t_state (thr sA c) = kThreadBlocked /\ rq_head sA = nullptr /\ preempt_cnt (cpu sA) = 1 /\
    owner (mtx sA m) = owner (mtx s m)).
  { split; [done | split; [| split; [done | split; [done |]]]].
    - change (thr sA c) with (thr (upd_thr c (set_t_wait_next (waiters (mtx s m))) (upd_thr c (set_t_waiting_on m) s)) c).
      by rewrite !thr_upd_eq.
    - unfold sA. by rewrite mtx_upd_eq. }
  assert (HB : cur sB = c /\ t_state (thr sB c) = kThreadBlocked /\ rq_head sB = nullptr /\ preempt_cnt (cpu sB) = 1 /\
    owner (mtx sB m) = owner (mtx s m)).
  { apply apply_pi_shape in EB as [-> | (t & e & ->)]; [done |]. rewrite thr_upd. by destruct (t =? c). }
  destruct HB as (G1 & G2 & G3 & G4 & G5). unfold sched_block_current in E.
  rewrite G1, (proj2 (Z.eqb_neq _ _) B2), G2, Z.eqb_refl in E. cbn [mbind option_bind] in E. injection E as <-.
  split; [split; [done | done | done | | done | done];
    change (owner (mtx sB m) <> nullptr /\ owner (mtx sB m) <> c); by rewrite G5 | split; [done | split; [done | split; [done |]]]].
  unfold is_ready. change (thr (set_resched 1 sB) c) with (thr sB c). rewrite G2. apply andb_false_r.
Qed.

Lemma blocked_running_stuck n s c m :
  lockdep_enabled C = false -> blocked_running s c m -> mutex_lock_loop C n m s = KStuck.
Proof.
  intros Hld. revert s. induction n as [|n IH]; intros s B; [done |]. cbn [mutex_lock_loop].
  unfold get, modify, modify_opt, mbind, K_bind, mret, K_ret. pose proof B as [B1 B2 B3 [B4 B5] B6 B7].
  rewrite disable_eq by done. cbn [kbind]. change (cur (entered s)) with (cur s). rewrite B1.
  change (mtx (entered s) m) with (mtx s m).
  rewrite (proj2 (Z.eqb_neq _ _) B2), (proj2 (Z.eqb_neq _ _) B4), (proj2 (Z.eqb_neq _ _) B5), Hld. cbn [andb kbind].
  destruct (mutex_block C c m (entered s)) as [s1 |] eqn:E; [| done]. cbn [kbind].
  destruct (blocked_running_step s c m s1 B E) as (B' & E1 & E2 & E3 & E4).
  unfold enable. rewrite preempt_enable_one by done. destruct (negb _ && _).
  - rewrite resched_alone; [cbn [kbind]; by apply IH | done | by rewrite <- E1 in B2 | | done].
    change (is_ready s1 (cur s1) = false). by rewrite E1.
  - cbn [kbind]. apply IH. destruct B' as [H1 H2 H3 H4 H5 H6]. by split.
Qed.

Lemma mutex_lock_alone s n m l wqs sq own :
  sync_inv s l wqs sq own -> cur s <> nullptr -> t_state (thr s (cur s)) = kThreadReady -> threads s !! cur s <> None ->
  m <> nullptr -> preempt_cnt (cpu s) = 0 -> lockdep_enabled C = false ->
  owner (mtx s m) <> nullptr -> owner (mtx s m) <> cur s -> rq_del (cur s) l = [] ->
  mutex_lock C n m s = KStuck.
Proof.
  intros H Hc Hr Hk Hm Hp Hld Hb Ho Hl. unfold mutex_lock. rewrite (proj2 (Z.eqb_neq _ _) Hm).
  destruct n as [|n]; [done |]. cbn [mutex_lock_loop]. unfold get, modify, modify_opt, mbind, K_bind, mret, K_ret.
  rewrite disable_eq by done. cbn [kbind]. change (cur (entered s)) with (cur s). change (mtx (entered s) m) with (mtx s m).
  rewrite (proj2 (Z.eqb_neq _ _) Hc), (proj2 (Z.eqb_neq _ _) Hb), (proj2 (Z.eqb_neq _ _) Ho), Hld. cbn [andb kbind].
  destruct (mutex_block_spec (entered s) l wqs sq own m (entered_inv _ _ _ _ _ H) Hc Hr Hm Hk Hb Ho)
    as (s1 & E & Hinv & Hcpu & Hmt & Hst & _).
  change (cur (entered s)) with (cur s) in *. rewrite E. cbn [kbind].
  assert (Hcur1 : cur s1 = cur s) by (unfold cur; by rewrite Hcpu). rewrite Hl in Hinv.
  assert (Hq : rq_head s1 = nullptr) by apply (rq_hd _ _ (si_rep _ _ (yi_sched _ _ _ _ _ Hinv))).
  assert (Hnr : is_ready s1 (cur s) = false) by (unfold is_ready; rewrite Hst; apply andb_false_r).
  assert (Hp1 : preempt_cnt (cpu s1) = 1) by by rewrite Hcpu.
  assert (HB : forall f, current_thread (f (cpu s1)) = cur s1 -> preempt_cnt (f (cpu s1)) = 0 ->
    blocked_running (upd_cpu f s1) (cur s) m).
  { intros f Hf1 Hf2. split; [exact (eq_trans Hf1 Hcur1) | done | done | | done | done].
    change (mtx (upd_cpu f s1) m) with (mtx s1 m). by rewrite Hmt, Z.eqb_refl. }
  unfold enable. rewrite preempt_enable_one by done. destruct (negb _ && _).
  - rewrite resched_alone; [| done | by rewrite <- Hcur1 in Hc | | done].
    + cbn [kbind]. apply (blocked_running_stuck n _ (cur s)); [done |].
      by apply (HB (fun x => set_need_resched kNeedReschedNone (set_preempt_cnt 0 x))).
    + change (is_ready s1 (cur s1) = false). by rewrite Hcur1.
  - cbn [kbind]. apply (blocked_running_stuck n _ (cur s)); [done |]. by apply HB.
Qed.

End SyncProofs.
