(* ===== verification/SyncThms.v ===== *)
(** * What the blocking primitives guarantee

    The theorems on [src/src/sync.cc], over the invariant of [SyncInv]; each is
    instantiated on a concrete kernel state at the end. *)

From Stdlib Require Import String.
From S2P Require Import Prelude Mem Uart Kstate Runq Stack Sched Sync SyncInv.

(** The CPU block and everything else when a section without a pending request
    is left. *)
Lemma enable_quiet C s :
  preempt_cnt (cpu s) = 1 -> need_resched (cpu s) = 0 -> enable C s = KDone () (upd_cpu (set_preempt_cnt 0) s).
Proof. intros Hp Hn. unfold enable. rewrite preempt_enable_one by done. by rewrite Hn. Qed.

Lemma leave_entered s : preempt_cnt (cpu s) = 0 -> upd_cpu (set_preempt_cnt 0) (entered s) = s.
Proof.
  intros Hp. unfold entered, upd_cpu. destruct s as [? ? ? ? ? ? ? ? c ? ? ? ? ? ?]. destruct c. simpl in *. by subst.
Qed.

(** ** Deadlock detection *)

(** The owner reached from [o] after [k] hops owner -> mutex it waits for ->
    owner of that mutex. *)
Fixpoint owner_hop (s : kst) (k : nat) (o : Z) : option Z :=
  if o =? nullptr then None
  else match k with
       | O => Some o
       | Datatypes.S k' =>
           if t_waiting_on (thr s o) =? nullptr then None else owner_hop s k' (owner (mtx s (t_waiting_on (thr s o))))
       end.

Lemma lockdep_chain_spec s c d o :
  c <> nullptr -> lockdep_chain d s c o = true <-> exists k, (k < d)%nat /\ owner_hop s k o = Some c.
Proof.
  intros Hc. revert o. induction d as [|d IH]; intros o; cbn [lockdep_chain].
  { split; [done | intros (k & Hk & _); lia]. }
  destruct (Z.eqb_spec o nullptr) as [-> | Ho].
  { split; [done |]. intros ([|k] & _ & E); done. }
  destruct (Z.eqb_spec o c) as [-> | Hoc].
  { split; [| done]. intros _. exists O. split; [lia |]. simpl. by rewrite (proj2 (Z.eqb_neq _ _) Hc). }
  destruct (Z.eqb_spec (t_waiting_on (thr s o)) nullptr) as [Ew | Ew].
  - split; [done |]. intros ([|k] & Hk & E); simpl in E; rewrite (proj2 (Z.eqb_neq _ _) Ho) in E; [congruence |].
    by rewrite Ew in E.
  - rewrite IH. split.
    + intros (k & Hk & E). exists (Datatypes.S k). split; [lia |]. simpl.
      by rewrite (proj2 (Z.eqb_neq _ _) Ho), (proj2 (Z.eqb_neq _ _) Ew).
    + intros ([|k] & Hk & E); simpl in E; rewrite (proj2 (Z.eqb_neq _ _) Ho) in E; [congruence |].
      rewrite (proj2 (Z.eqb_neq _ _) Ew) in E. exists k. split; [lia | done].
Qed.

(** ** Theorems *)


(** C1: [mutex_unlock] by the owner frees a mutex nobody is queued on, and
    otherwise hands it directly to the first queued waiter of greatest effective
    priority, which becomes ready and joins the run queue; a caller that owned
    nothing else falls back to its base priority; a reschedule is requested
    exactly when the new owner outranks the caller; every queue stays in order.
    A caller that is not the owner changes nothing. *)
Theorem mutex_unlock_hands_over C s m l wqs sq own :
  sync_inv s l wqs sq own -> cur s <> nullptr -> t_state (thr s (cur s)) = kThreadReady ->
  preempt_cnt (cpu s) = 0 -> m <> nullptr -> need_resched (cpu s) = 0 ->
  let c := cur s in
  (owner (mtx s m) <> c -> mutex_unlock C m s = KDone () s) /\
  (owner (mtx s m) = c -> exists s', mutex_unlock C m s = enable C s' /\ preempt_cnt (cpu s') = 1 /\
    ((wqs m = [] /\ owner (mtx s' m) = nullptr /\ need_resched (cpu s') = 0 /\
      sync_inv s' l wqs sq (fupd own c (own_del m (own c)))) \/
     (exists l1 n l2, wqs m = l1 ++ n :: l2 /\ first_best s l1 n l2 /\ owner (mtx s' m) = n /\
      t_state (thr s' n) = kThreadReady /\ t_waiting_on (thr s' n) = nullptr /\
      sync_inv s' (l ++ [n]) (fupd wqs m (l1 ++ l2)) sq (fupd (fupd own c (own_del m (own c))) n (m :: own n)) /\
      need_resched (cpu s') = if t_effective_priority (thr s' c) <? t_effective_priority (thr s' n) then 1 else 0)) /\
    (own c = [m] -> t_effective_priority (thr s' c) = t_base_priority (thr s' c))).
Proof.
  intros H Hc Hr Hp Hm Hn c. subst c. unfold mutex_unlock. rewrite (proj2 (Z.eqb_neq _ _) Hm).
  unfold get, modify_opt, mbind, K_bind, mret, K_ret. rewrite disable_eq by done. cbn [kbind].
  change (cur (entered s)) with (cur s). change (mtx (entered s) m) with (mtx s m).
  rewrite (proj2 (Z.eqb_neq _ _) Hc). cbn [orb]. split; intros Ho.
  - rewrite (proj2 (Z.eqb_neq _ _) Ho). cbn [negb]. rewrite enable_quiet by done. by rewrite leave_entered.
  - destruct (mutex_release_spec C (entered s) l wqs sq own m (entered_inv _ _ _ _ _ H) Hc Hr Ho) as (s' & E & Hcase & Hb).
    change (cur (entered s)) with (cur s) in *. rewrite Ho, Z.eqb_refl. cbn [negb]. rewrite E. cbn [kbind]. exists s'. split; [done |].
    destruct Hcase as [(W1 & W2 & W3 & W4) | (l1 & n & l2 & W1 & W2 & W3 & W4 & W5 & W6 & W7)].
    + rewrite W3. split; [done | split; [left | done]].
      split; [done | split; [done | split; [exact Hn | done]]].
    + rewrite W7. split; [by destruct (_ <? _) | split; [right | done]]. exists l1, n, l2.
      repeat (split; [done |]). by destruct (_ <? _).
Qed.

(** [mutex_trylock] never blocks: it takes a free mutex, succeeds on one the
    caller owns, and fails on another thread's with nothing changed. *)
Theorem mutex_trylock_correct C s m l wqs sq own :
  sync_inv s l wqs sq own -> cur s <> nullptr -> t_state (thr s (cur s)) = kThreadReady ->
  preempt_cnt (cpu s) = 0 -> need_resched (cpu s) = 0 -> m <> nullptr -> mutexes s !! m <> None ->
  let c := cur s in
  (owner (mtx s m) = nullptr -> exists s', mutex_trylock C m s = KDone 0 s' /\ owner (mtx s' m) = c /\ cpu s' = cpu s /\
     sync_inv s' l wqs sq (fupd own c (m :: own c))) /\
  (owner (mtx s m) = c -> exists s', mutex_trylock C m s = KDone 0 s' /\ mutexes s' = mutexes s /\
     sync_inv s' l wqs sq own) /\
  (owner (mtx s m) <> nullptr -> owner (mtx s m) <> c -> mutex_trylock C m s = KDone (-1) s).
Proof.
  intros H Hc Hr Hp Hn Hm Hk c. subst c. unfold mutex_trylock. rewrite (proj2 (Z.eqb_neq _ _) Hm).
  unfold get, modify, mbind, K_bind, mret, K_ret. rewrite disable_eq by done. cbn [kbind].
  change (cur (entered s)) with (cur s). change (mtx (entered s) m) with (mtx s m).
  rewrite (proj2 (Z.eqb_neq _ _) Hc). pose proof (entered_inv _ _ _ _ _ H) as He.
  assert (Hcpu0 : set_preempt_cnt 0 (cpu (entered s)) = cpu s).
  { simpl. destruct (cpu s). simpl in *. by subst. }
  split; [| split].
  - intros Ho. rewrite Ho, Z.eqb_refl. cbn [kbind].
    destruct (take_inv (entered s) l wqs sq own (cur s) m He Hc Hr Hm Hk Ho) as (Ht & Hown & Hcpu).
    rewrite enable_quiet by (by rewrite Hcpu). cbn [kbind]. eexists. split; [done | split; [done | split]].
    + change (set_preempt_cnt 0 (cpu (take (cur s) m (entered s))) = cpu s). by rewrite Hcpu.
    + by apply sync_inv_cpu.
  - intros Ho. rewrite Ho, (proj2 (Z.eqb_neq _ _) Hc), Z.eqb_refl. cbn [kbind]. rewrite enable_quiet by done. cbn [kbind].
    eexists. split; [done | split; [done |]]. apply sync_inv_cpu; [done |].
    apply sync_inv_upd; [done | apply (yi_sched _ _ _ _ _ H) | by right | done].
  - intros Ho1 Ho2. rewrite (proj2 (Z.eqb_neq _ _) Ho1), (proj2 (Z.eqb_neq _ _) Ho2). rewrite enable_quiet by done.
    cbn [kbind]. by rewrite leave_entered.
Qed.

(** C28: priority inheritance: when a thread blocks on a mutex with inheritance
    enabled, the owner's effective priority becomes at least that of every
    thread queued on it, the new one included. *)
Theorem mutex_block_boosts_owner C s m l wqs sq own :
  let c := cur s in let o := owner (mtx s m) in
  sync_inv s l wqs sq own -> c <> nullptr -> t_state (thr s c) = kThreadReady ->
  m <> nullptr -> threads s !! c <> None -> o <> nullptr -> o <> c ->
  cfg_mutex_pi C = true -> pi_enabled (mtx s m) <> 0 ->
  exists s', mutex_block C c m s = Some s' /\ owner (mtx s' m) = o /\
    forall u, u ∈ c :: wqs m -> t_effective_priority (thr s u) <= t_effective_priority (thr s' o).
Proof.
  intros c o H Hc Hr Hm Hk Ho Hoc Hcfg Hpi.
  destruct (mutex_block_spec C s l wqs sq own m H Hc Hr Hm Hk Ho Hoc) as (s' & E & _ & _ & Hmt & _ & _ & _ & _ & Hb).
  exists s'. split; [done | split; [by rewrite Hmt, Z.eqb_refl |]]. by apply Hb.
Qed.

(** C29: blocking on a mutex forgets the threads already queued on it:
    [sched_block_current] clears the wait link just set, so the queue ends as the
    new waiter alone, and every earlier waiter stays blocked on the mutex while
    in no wait queue and not in the run queue. *)
Theorem mutex_block_loses_waiters C s m l wqs sq own u :
  let c := cur s in let o := owner (mtx s m) in
  sync_inv s l wqs sq own -> c <> nullptr -> t_state (thr s c) = kThreadReady ->
  m <> nullptr -> threads s !! c <> None -> o <> nullptr -> o <> c -> u ∈ wqs m ->
  exists s' l' wqs', mutex_block C c m s = Some s' /\ sync_inv s' l' wqs' sq own /\
    wqs' m = [c] /\ wq_rep s' (waiters (mtx s' m)) [c] /\
    t_state (thr s' u) = kThreadBlocked /\ t_waiting_on (thr s' u) = m /\
    (u ∉ l') /\ (forall m', u ∉ wqs' m') /\ (forall a, u ∉ sq a).
Proof.
  intros c o H Hc Hr Hm Hk Ho Hoc Hu.
  destruct (yi_wait _ _ _ _ _ H m u Hu) as (Hub & Huw & _).
  assert (Huc : u <> c) by (intros ->; by rewrite Hr in Hub).
  destruct (mutex_block_spec C s l wqs sq own m H Hc Hr Hm Hk Ho Hoc) as (s' & E & Hinv & _ & Hmt & _ & _ & _ & Hf & _).
  exists s', (rq_del c l), (fupd wqs m [c]). split; [done | split; [done | split; [apply fupd_eq |]]].
  pose proof (yi_wq _ _ _ _ _ Hinv m) as Hwq. rewrite fupd_eq in Hwq. split; [done |].
  destruct (Hf u Huc) as [-> ->]. split; [done | split; [done | split; [| split]]].
  - intros [Hul _]%rq_del_elem. apply (si_ready _ _ (yi_sched _ _ _ _ _ H)) in Hul. by rewrite Hul in Hub.
  - intros m' Hx. destruct (Z.eq_dec m' m) as [-> | Hne].
    + rewrite fupd_eq in Hx. by apply list_elem_of_singleton in Hx.
    + rewrite fupd_ne in Hx by done. destruct (yi_wait _ _ _ _ _ H m' u Hx) as (_ & J & _). congruence.
  - intros a Hx. destruct (yi_swait _ _ _ _ _ H a u Hx) as [_ J]. congruence.
Qed.

(** a thread that blocks on a held mutex while no other thread is ready
    never leaves [mutex_lock]: with nothing to switch to it keeps running,
    queues itself a second time, and either spins forever or follows its own
    wait link in a circle inside the inheritance code, preemption disabled. *)
Theorem mutex_lock_alone_never_returns C s n m l wqs sq own :
  sync_inv s l wqs sq own -> cur s <> nullptr -> t_state (thr s (cur s)) = kThreadReady -> threads s !! cur s <> None ->
  m <> nullptr -> preempt_cnt (cpu s) = 0 -> lockdep_enabled C = false ->
  owner (mtx s m) <> nullptr -> owner (mtx s m) <> cur s -> rq_del (cur s) l = [] ->
  mutex_lock C n m s = KStuck.
Proof. apply mutex_lock_alone. Qed.

(** C31: [lockdep_would_deadlock] answers yes exactly when the caller is found
    among the first sixteen owners on the chain owner, mutex it waits for,
    owner of that, and so on, from the mutex asked for; in particular it catches
    the AB/BA deadlock. *)
Theorem lockdep_exact s c m :
  c <> nullptr -> m <> nullptr ->
  (lockdep_would_deadlock c m s = true <-> exists k, (k < 16)%nat /\ owner_hop s k (owner (mtx s m)) = Some c) /\
  (forall o, o <> nullptr -> owner (mtx s m) = o -> t_waiting_on (thr s o) <> nullptr ->
     owner (mtx s (t_waiting_on (thr s o))) = c -> lockdep_would_deadlock c m s = true).
Proof.
  intros Hc Hm.
  assert (Hspec : lockdep_would_deadlock c m s = true <->
    exists k, (k < 16)%nat /\ owner_hop s k (owner (mtx s m)) = Some c).
  { unfold lockdep_would_deadlock. rewrite (proj2 (Z.eqb_neq _ _) Hc), (proj2 (Z.eqb_neq _ _) Hm).
    by apply lockdep_chain_spec. }
  split; [exact Hspec |]. intros o Ho E Ew E'. apply Hspec. exists 1%nat. split; [lia |].
  rewrite E. cbn [owner_hop]. rewrite (proj2 (Z.eqb_neq _ _) Ho), (proj2 (Z.eqb_neq _ _) Ew), E'.
  by rewrite (proj2 (Z.eqb_neq _ _) Hc).
Qed.

(** C30: [sem_up] adds one to the count and, when it was negative, wakes the
    first queued waiter of greatest effective priority; [sem_down] subtracts one
    and returns when the result is not negative; otherwise it blocks the caller
    (alone on the queue) and requests a reschedule. All queues stay in order. *)
Theorem semaphore_correct C s a l wqs sq own :
  sync_inv s l wqs sq own -> cur s <> nullptr -> t_state (thr s (cur s)) = kThreadReady ->
  threads s !! cur s <> None -> preempt_cnt (cpu s) = 0 -> a <> nullptr -> need_resched (cpu s) = 0 ->
  - 2 ^ 31 + 1 <= count (sem s a) < 2 ^ 31 - 1 ->
  (exists s', sem_up C a s = enable C s' /\ preempt_cnt (cpu s') = 1 /\ count (sem s' a) = count (sem s a) + 1 /\
    ((0 <= count (sem s a) \/ sq a = []) /\ sync_inv s' l wqs sq own /\ need_resched (cpu s') = 0 \/
     count (sem s a) < 0 /\ exists l1 n l2, sq a = l1 ++ n :: l2 /\ first_best s l1 n l2 /\
       t_state (thr s' n) = kThreadReady /\ sync_inv s' (l ++ [n]) wqs (fupd sq a (l1 ++ l2)) own /\
       need_resched (cpu s') =
         if t_effective_priority (thr s (cur s)) <? t_effective_priority (thr s n) then 1 else 0)) /\
  (0 < count (sem s a) -> exists s', sem_down C a s = KDone () s' /\ count (sem s' a) = count (sem s a) - 1 /\
    cpu s' = cpu s /\ sync_inv s' l wqs sq own) /\
  (count (sem s a) <= 0 -> exists s', sem_down C a s = enable C s' /\ count (sem s' a) = count (sem s a) - 1 /\
    preempt_cnt (cpu s') = 1 /\ need_resched (cpu s') = 1 /\ t_state (thr s' (cur s)) = kThreadBlocked /\
    sync_inv s' (rq_del (cur s) l) wqs (fupd sq a [cur s]) own).
Proof.
  intros H Hc Hr Hk Hp Ha Hn Hcount. pose proof (entered_inv _ _ _ _ _ H) as He. split; [| split].
  - unfold sem_up. rewrite (proj2 (Z.eqb_neq _ _) Ha). unfold modify_opt, mbind, K_bind. rewrite disable_eq by done. cbn [kbind].
    destruct (sem_release_spec (entered s) l wqs sq own a He Hc) as (s' & E & E1 & Hcase).
    { change (sem (entered s) a) with (sem s a). lia. }
    rewrite E. cbn [kbind]. exists s'. split; [done |].
    change (sem (entered s) a) with (sem s a) in *. change (cur (entered s)) with (cur s) in *. change (thr (entered s)) with (thr s) in *.
    destruct Hcase as [(W1 & W2 & W3) | (W1 & l1 & n & l2 & W2 & W3 & W4 & W5 & W6)].
    + rewrite W3. split; [done | split; [done | left]]. by split.
    + rewrite W6. split; [by destruct (_ <? _) | split; [done | right]]. split; [done |]. exists l1, n, l2.
      repeat (split; [done |]). by destruct (_ <? _).
  - intros Hpos. unfold sem_down. rewrite (proj2 (Z.eqb_neq _ _) Ha). unfold modify, get, mbind, K_bind. rewrite disable_eq by done.
    cbn [kbind]. set (s1 := sem_add a (-1) (entered s)).
    assert (E : sem s1 a = Semaphore (count (sem s a) - 1) (swaiters (sem s a))).
    { unfold s1, sem_add. rewrite sem_upd, Z.eqb_refl. change (sem (entered s) a) with (sem s a). f_equal. apply int32_small. lia. }
    rewrite E. cbn [count]. rewrite (proj2 (Z.leb_le 0 _)) by lia. rewrite enable_quiet by done. eexists. split; [done |].
    split; [change (count (sem s1 a) = count (sem s a) - 1); by rewrite E | split].
    + simpl. destruct (cpu s). simpl in *. by subst.
    + apply sync_inv_cpu; [done |]. by apply sem_add_inv.
  - intros Hle. unfold sem_down. rewrite (proj2 (Z.eqb_neq _ _) Ha). unfold modify, modify_opt, get, mbind, K_bind. rewrite disable_eq by done.
    cbn [kbind]. set (s1 := sem_add a (-1) (entered s)).
    assert (E : sem s1 a = Semaphore (count (sem s a) - 1) (swaiters (sem s a))).
    { unfold s1, sem_add. rewrite sem_upd, Z.eqb_refl. change (sem (entered s) a) with (sem s a). f_equal. apply int32_small. lia. }
    rewrite E. cbn [count]. rewrite (proj2 (Z.leb_gt 0 _)) by lia.
    change (cur s1) with (cur s). rewrite (proj2 (Z.eqb_neq _ _) Hc).
    destruct (sem_block_spec s1 l wqs sq own a (sem_add_inv _ _ _ _ _ a (-1) He) Hc Hr Hk) as (s' & Eb & B1 & B2 & B3 & B4 & _).
    change (cur s1) with (cur s) in *. rewrite Eb. cbn [kbind]. exists s'. split; [done |].
    rewrite B3, E, B2. by repeat (split; [done |]).
Qed.

(** a thread that calls [sem_down] on an empty semaphore while no other
    thread is ready is not held back: the call returns, marked blocked and out
    of the run queue but running, without any unit having been released. *)
Theorem sem_down_alone_returns C s a l wqs sq own :
  sync_inv s l wqs sq own -> cur s <> nullptr -> t_state (thr s (cur s)) = kThreadReady ->
  threads s !! cur s <> None -> preempt_cnt (cpu s) = 0 -> irq_depth (cpu s) = 0 -> a <> nullptr ->
  - 2 ^ 31 + 1 <= count (sem s a) <= 0 -> rq_del (cur s) l = [] ->
  exists s', sem_down C a s = KDone () s' /\ count (sem s' a) < 0 /\ cur s' = cur s /\
    t_state (thr s' (cur s)) = kThreadBlocked.
Proof.
  intros H Hc Hr Hk Hp Hi Ha Hcount Hl. pose proof (entered_inv _ _ _ _ _ H) as He.
  unfold sem_down. rewrite (proj2 (Z.eqb_neq _ _) Ha). unfold modify, modify_opt, get, mbind, K_bind. rewrite disable_eq by done.
  cbn [kbind]. set (s1 := sem_add a (-1) (entered s)).
  assert (E : sem s1 a = Semaphore (count (sem s a) - 1) (swaiters (sem s a))).
  { unfold s1, sem_add. rewrite sem_upd, Z.eqb_refl. change (sem (entered s) a) with (sem s a). f_equal. apply int32_small. lia. }
  rewrite E. cbn [count]. rewrite (proj2 (Z.leb_gt 0 _)) by lia. change (cur s1) with (cur s). rewrite (proj2 (Z.eqb_neq _ _) Hc).
  destruct (sem_block_spec s1 l wqs sq own a (sem_add_inv _ _ _ _ _ a (-1) He) Hc Hr Hk) as (s' & Eb & B1 & B2 & B3 & B4 & _).
  change (cur s1) with (cur s) in *. rewrite Eb. cbn [kbind]. rewrite Hl in B1.
  assert (Hcur : cur s' = cur s) by (unfold cur; by rewrite B2).
  unfold enable. rewrite preempt_enable_one by (by rewrite B2). rewrite B2. cbn [need_resched irq_depth set_need_resched].
  change (irq_depth (cpu s1)) with (irq_depth (cpu s)). rewrite Hi. cbn [Z.eqb negb andb].
  rewrite resched_alone; [| apply (rq_hd _ _ (si_rep _ _ (yi_sched _ _ _ _ _ B1))) | by rewrite <- Hcur in Hc | | done].
  - eexists. split; [done |]. change (sem (set_resched ?v ?x) a) with (sem x a). change (sem (upd_cpu ?f ?x) a) with (sem x a).
    rewrite B3, E. cbn [count]. split; [lia | split; [exact Hcur | exact B4]].
  - unfold is_ready. change (t_state (thr (upd_cpu (set_preempt_cnt 0) s') (cur (upd_cpu (set_preempt_cnt 0) s'))))
      with (t_state (thr s' (cur s'))). rewrite Hcur, B4. apply andb_false_r.
Qed.

(** ** Concrete states *)

Definition demo_cfg : config := Config true true false (fun _ u => (-1, u)) 0 0.

(** The queue of [Runq] with 8192 running, and one free mutex. *)
Definition demo_free : kst := set_mutexes {[ 20480 := Mutex 0 0 0 1 ]} demo_run.

(** The same with the mutex owned by 4096 (priority 10). *)
Definition demo_held : kst := take 4096 20480 demo_free.

(** 8192 has blocked on it, and 12288 runs. *)
Definition demo_wait : kst :=
  match mutex_block demo_cfg 8192 20480 demo_held with
  | Some s => upd_cpu (fun c => set_need_resched 0 (set_current_thread 12288 c)) s
  | None => demo_held
  end.

(** 4096 runs again and is about to unlock. *)
Definition demo_unlock : kst := upd_cpu (set_current_thread 4096) demo_wait.

(** Only 8192 is queued; 4096 owns the mutex. *)
Definition demo_alone : kst :=
  take 4096 20480 (set_mutexes {[ 20480 := Mutex 0 0 0 1 ]} (upd_cpu (set_current_thread 8192) (rq_append 8192 demo_base))).

Lemma sync_inv_idle s l :
  sched_inv s l -> (forall m, owner (mtx s m) = nullptr /\ waiters (mtx s m) = nullptr) ->
  (forall a, swaiters (sem s a) = nullptr) -> (forall t, t_owned_mutexes (thr s t) = nullptr) ->
  sync_inv s l (fun _ => []) (fun _ => []) (fun _ => []).
Proof.
  intros H Hm Ha Ht. split; try done.
  - intros m. destruct (Hm m) as [_ ->]. split; [done | done | apply NoDup_nil_2 | apply not_elem_of_nil |]. by intros t ?%not_elem_of_nil.
  - intros a. rewrite Ha. split; [done | done | apply NoDup_nil_2 | apply not_elem_of_nil |]. by intros t ?%not_elem_of_nil.
  - by intros m t ?%not_elem_of_nil.
  - by intros a t ?%not_elem_of_nil.
  - by intros a b t ?%not_elem_of_nil.
  - intros t _. split; [apply Ht | done | apply NoDup_nil_2 | apply not_elem_of_nil |]. by intros m ?%not_elem_of_nil.
  - intros m t Hn. destruct (Hm m) as [-> _]. split; [by intros ?%not_elem_of_nil | congruence].
Qed.

Lemma demo_mtx s m : let s' := set_mutexes {[ 20480 := Mutex 0 0 0 1 ]} s in
  owner (mtx s' m) = nullptr /\ waiters (mtx s' m) = nullptr.
Proof.
  unfold mtx. cbn [mutexes set_mutexes]. rewrite lookup_singleton. by case_decide.
Qed.

Lemma demo_base_thr s : dom (threads s) = {[4096; 8192; 12288]} -> forall t, thr s t = zero_thread \/ t ∈ [4096; 8192; 12288].
Proof.
  intros Hd t. destruct (decide (t ∈ [4096; 8192; 12288])) as [| Hn]; [by right | left].
  rewrite !elem_of_cons in Hn. unfold thr. assert (E : threads s !! t = None); [| by rewrite E].
  apply eq_None_not_Some. intros Hs. apply elem_of_dom in Hs. rewrite Hd in Hs. apply Hn.
  rewrite !elem_of_union, !elem_of_singleton in Hs. tauto.
Qed.

(** Evaluate a closed side condition. *)
Ltac conc := vm_compute; first [reflexivity | discriminate | done].

(** Decide a property of every thread of a concrete state. *)
Ltac all_threads t :=
  let H := fresh in
  match goal with |- context [thr ?s t] =>
    destruct (demo_base_thr s ltac:(vm_compute; reflexivity) t) as [-> | H];
    [by vm_compute | rewrite !elem_of_cons in H;
     destruct H as [-> | [-> | [-> | H%not_elem_of_nil]]]; [by vm_compute .. | done]] end.

Lemma demo_free_inv : sync_inv demo_free [4096; 8192; 12288] (fun _ => []) (fun _ => []) (fun _ => []).
Proof.
  apply sync_inv_idle; [| apply demo_mtx | done |].
  - destruct demo_run_inv as [G1 G2 G3 G4]. split; [by apply (rq_rep_ext demo_run) | done | done | done].
  - intros t. all_threads t.
Qed.

Definition demo_own : Z -> list Z := fupd (fun _ => []) 4096 [20480].

Lemma demo_held_inv : sync_inv demo_held [4096; 8192; 12288] (fun _ => []) (fun _ => []) demo_own.
Proof.
  apply (take_inv demo_free _ _ _ (fun _ => []) 4096 20480); [exact demo_free_inv | conc ..].
Qed.

Definition demo_wqs : Z -> list Z := fupd (fun _ => []) 20480 [8192].

Lemma demo_wait_inv : sync_inv demo_wait [4096; 12288] demo_wqs (fun _ => []) demo_own.
Proof.
  destruct (mutex_block_spec demo_cfg demo_held [4096; 8192; 12288] (fun _ => []) (fun _ => []) demo_own 20480)
    as (s' & E & Hinv & _); [exact demo_held_inv | conc .. |].
  unfold demo_wait. change 8192 with (cur demo_held) at 1. rewrite E. clear E.
  change (rq_del (cur demo_held) [4096; 8192; 12288]) with [4096; 12288] in Hinv.
  change (fupd (fun _ => []) 20480 [cur demo_held]) with demo_wqs in Hinv.
  destruct Hinv as [[G1 G2 G3 G4] H2 H3 H4 H5 H6 H7 H8]. split; try done.
  - split; [by apply rq_rep_cpu | done | done |]. intros _ _. right. by left.
  - intros m. apply (wq_rep_ext s'); [done | done | apply H2].
  - intros a. apply (wq_rep_ext s'); [done | done | apply H3].
  - intros t Ht. apply (owned_rep_ext s'); [done | done | done | by apply H7].
Qed.

Lemma demo_unlock_inv : sync_inv demo_unlock [4096; 12288] demo_wqs (fun _ => []) demo_own.
Proof.
  destruct demo_wait_inv as [[G1 G2 G3 G4] H2 H3 H4 H5 H6 H7 H8]. split; [| | | exact H4 | exact H5 | exact H6 | | exact H8].
  - split; [by apply rq_rep_cpu | exact G2 | exact G3 |]. intros _ _. by left.
  - intros m. apply (wq_rep_ext demo_wait); [done | done | exact (H2 m)].
  - intros a. apply (wq_rep_ext demo_wait); [done | done | exact (H3 a)].
  - intros t Ht. apply (owned_rep_ext demo_wait); [done | done | done | by apply H7].
Qed.

Lemma demo_alone_inv : sync_inv demo_alone [8192] (fun _ => []) (fun _ => []) demo_own.
Proof.
  assert (Hrep : rq_rep (rq_append 8192 demo_base) [8192])
    by (apply (rq_append_spec _ []); [apply demo_base_rep | done | apply not_elem_of_nil | conc]).
  apply (take_inv _ _ _ _ (fun _ => []) 4096 20480); [| conc ..].
  apply sync_inv_idle; [| apply demo_mtx | by intros a; vm_compute |].
  - split.
    + by apply (rq_rep_ext (rq_append 8192 demo_base)).
    + intros t ->%list_elem_of_singleton. by vm_compute.
    + intros t. change (thr _ t) with (thr (rq_append 8192 demo_base) t). all_threads t.
    + intros _ _. by left.
  - intros t. change (thr _ t) with (thr (rq_append 8192 demo_base) t). all_threads t.
Qed.


Lemma mutex_unlock_hands_over_witness :
  let s := demo_unlock in let c := cur s in let m := 20480 in
  let l := [4096; 12288] in let sq := fun _ : Z => [] : list Z in
  (owner (mtx s m) <> c -> mutex_unlock demo_cfg m s = KDone () s) /\
  (owner (mtx s m) = c -> exists s', mutex_unlock demo_cfg m s = enable demo_cfg s' /\ preempt_cnt (cpu s') = 1 /\
    ((demo_wqs m = [] /\ owner (mtx s' m) = nullptr /\ need_resched (cpu s') = 0 /\
      sync_inv s' l demo_wqs sq (fupd demo_own c (own_del m (demo_own c)))) \/
     (exists l1 n l2, demo_wqs m = l1 ++ n :: l2 /\ first_best s l1 n l2 /\ owner (mtx s' m) = n /\
      t_state (thr s' n) = kThreadReady /\ t_waiting_on (thr s' n) = nullptr /\
      sync_inv s' (l ++ [n]) (fupd demo_wqs m (l1 ++ l2)) sq
        (fupd (fupd demo_own c (own_del m (demo_own c))) n (m :: demo_own n)) /\
      need_resched (cpu s') = if t_effective_priority (thr s' c) <? t_effective_priority (thr s' n) then 1 else 0)) /\
    (demo_own c = [m] -> t_effective_priority (thr s' c) = t_base_priority (thr s' c))).
Proof.
  apply (mutex_unlock_hands_over demo_cfg demo_unlock 20480 [4096; 12288] demo_wqs (fun _ => []) demo_own);
    [exact demo_unlock_inv | conc ..].
Defined.

Lemma mutex_trylock_correct_witness :
  let s := demo_free in let c := cur s in let m := 20480 in
  let l := [4096; 8192; 12288] in let e := fun _ : Z => [] : list Z in
  (owner (mtx s m) = nullptr -> exists s', mutex_trylock demo_cfg m s = KDone 0 s' /\ owner (mtx s' m) = c /\
     cpu s' = cpu s /\ sync_inv s' l e e (fupd e c (m :: e c))) /\
  (owner (mtx s m) = c -> exists s', mutex_trylock demo_cfg m s = KDone 0 s' /\ mutexes s' = mutexes s /\
     sync_inv s' l e e e) /\
  (owner (mtx s m) <> nullptr -> owner (mtx s m) <> c -> mutex_trylock demo_cfg m s = KDone (-1) s).
Proof.
  apply (mutex_trylock_correct demo_cfg demo_free 20480 [4096; 8192; 12288] (fun _ => []) (fun _ => []) (fun _ => []));
    [exact demo_free_inv | conc ..].
Defined.

Lemma mutex_block_boosts_owner_witness :
  t_effective_priority (thr demo_held 4096) = 10 /\ t_effective_priority (thr demo_wait 4096) = 20 /\
  exists s', mutex_block demo_cfg (cur demo_held) 20480 demo_held = Some s' /\
    owner (mtx s' 20480) = owner (mtx demo_held 20480) /\
    forall u, u ∈ [cur demo_held] ->
      t_effective_priority (thr demo_held u) <= t_effective_priority (thr s' (owner (mtx demo_held 20480))).
Proof.
  split; [vm_compute; reflexivity | split; [vm_compute; reflexivity |]].
  apply (mutex_block_boosts_owner demo_cfg demo_held 20480 [4096; 8192; 12288] (fun _ => []) (fun _ => []) demo_own);
    [exact demo_held_inv | conc ..].
Defined.

Lemma mutex_block_loses_waiters_witness :
  exists s' l' wqs', mutex_block demo_cfg (cur demo_wait) 20480 demo_wait = Some s' /\
    sync_inv s' l' wqs' (fun _ => []) demo_own /\
    wqs' 20480 = [cur demo_wait] /\ wq_rep s' (waiters (mtx s' 20480)) [cur demo_wait] /\
    t_state (thr s' 8192) = kThreadBlocked /\ t_waiting_on (thr s' 8192) = 20480 /\
    (8192 ∉ l') /\ (forall m', 8192 ∉ wqs' m') /\ (forall a : Z, 8192 ∉ ([] : list Z)).
Proof.
  apply (mutex_block_loses_waiters demo_cfg demo_wait 20480 [4096; 12288] demo_wqs (fun _ => []) demo_own 8192);
    [exact demo_wait_inv | conc .. | by left].
Defined.

Lemma mutex_lock_alone_never_returns_witness :
  cur demo_alone = 8192 /\ owner (mtx demo_alone 20480) = 4096 /\ mutex_lock demo_cfg 1000 20480 demo_alone = KStuck.
Proof.
  split; [vm_compute; reflexivity | split; [vm_compute; reflexivity |]].
  apply (mutex_lock_alone_never_returns demo_cfg demo_alone 1000 20480 [8192] (fun _ => []) (fun _ => []) demo_own);
    [exact demo_alone_inv | conc ..].
Defined.

(** The AB/BA deadlock: 4096 owns the mutex and waits for one owned by 8192. *)
Definition demo_abba : kst :=
  upd_thr 4096 (set_t_waiting_on 24576) (upd_mtx 24576 (fun _ => Mutex 8192 0 0 1) demo_held).

Lemma lockdep_exact_witness :
  lockdep_would_deadlock 8192 20480 demo_abba = true /\ lockdep_would_deadlock 8192 20480 demo_held = false /\
  ((lockdep_would_deadlock 8192 20480 demo_abba = true <->
    exists k, (k < 16)%nat /\ owner_hop demo_abba k (owner (mtx demo_abba 20480)) = Some 8192) /\
   (forall o, o <> nullptr -> owner (mtx demo_abba 20480) = o -> t_waiting_on (thr demo_abba o) <> nullptr ->
      owner (mtx demo_abba (t_waiting_on (thr demo_abba o))) = 8192 -> lockdep_would_deadlock 8192 20480 demo_abba = true)).
Proof.
  split; [vm_compute; reflexivity | split; [vm_compute; reflexivity |]].
  apply (lockdep_exact demo_abba 8192 20480); done.
Defined.

Lemma semaphore_correct_witness :
  let s := demo_free in let a := 28672 in let l := [4096; 8192; 12288] in let e := fun _ : Z => [] : list Z in
  (exists s', sem_up demo_cfg a s = enable demo_cfg s' /\ preempt_cnt (cpu s') = 1 /\
    count (sem s' a) = count (sem s a) + 1 /\
    ((0 <= count (sem s a) \/ e a = []) /\ sync_inv s' l e e e /\ need_resched (cpu s') = 0 \/
     count (sem s a) < 0 /\ exists l1 n l2, e a = l1 ++ n :: l2 /\ first_best s l1 n l2 /\
       t_state (thr s' n) = kThreadReady /\ sync_inv s' (l ++ [n]) e (fupd e a (l1 ++ l2)) e /\
       need_resched (cpu s') =
         if t_effective_priority (thr s (cur s)) <? t_effective_priority (thr s n) then 1 else 0)) /\
  (0 < count (sem s a) -> exists s', sem_down demo_cfg a s = KDone () s' /\ count (sem s' a) = count (sem s a) - 1 /\
    cpu s' = cpu s /\ sync_inv s' l e e e) /\
  (count (sem s a) <= 0 -> exists s', sem_down demo_cfg a s = enable demo_cfg s' /\
    count (sem s' a) = count (sem s a) - 1 /\
    preempt_cnt (cpu s') = 1 /\ need_resched (cpu s') = 1 /\ t_state (thr s' (cur s)) = kThreadBlocked /\
    sync_inv s' (rq_del (cur s) l) e (fupd e a [cur s]) e).
Proof.
  apply (semaphore_correct demo_cfg demo_free 28672 [4096; 8192; 12288] (fun _ => []) (fun _ => []) (fun _ => []));
    [exact demo_free_inv | conc .. | split; [conc | conc]].
Defined.

Lemma sem_down_alone_returns_witness :
  exists s', sem_down demo_cfg 28672 demo_alone = KDone () s' /\ count (sem s' 28672) < 0 /\ cur s' = cur demo_alone /\
    t_state (thr s' (cur demo_alone)) = kThreadBlocked.
Proof.
  apply (sem_down_alone_returns demo_cfg demo_alone 28672 [8192] (fun _ => []) (fun _ => []) demo_own);
    [exact demo_alone_inv | conc .. | split; [conc | conc] | conc].
Defined.
