(* ===== verification/Types.v ===== *)
(** * Type safety of the kernel's services

    The kernel's objects point to one another: run queue, wait queues, owners,
    the lists of owned mutexes.  [typed T M S s] says that in [s] exactly the
    objects at the addresses [T], [M] and [S] exist (what is written through a
    null thread pointer lands at null), that every pointer field is
    null or the address of an object of the right kind, and that every field
    stays in the range its use assumes.  Each service preserves this, at every
    point where it may switch included: no service makes a wild pointer, follows
    one, or creates an object.  Types do not exclude null: that the queues' links
    are not null where they are followed is part of [sched_inv] and [sync_inv]. *)

From S2P Require Import Prelude Kstate Runq Stack Sched Sync.

(** A pointer to one of the objects [X]. *)
Definition ptr (X : gset Z) (a : Z) : Prop := a = nullptr \/ a ∈ X.

Record thread_ok (T M : gset Z) (x : Thread) : Prop := {
  to_next : ptr T (t_next x);
  to_wait : ptr T (t_wait_next x);
  to_waiting : ptr M (t_waiting_on x);
  to_owned : ptr M (t_owned_mutexes x);
  to_budget : 0 <= t_budget x <= kQuantumTicks;
  to_prio : prio_ok x;
  to_state : t_state x = kThreadReady \/ t_state x = kThreadBlocked;
  to_valid : t_fpsimd_valid x = 0 \/ t_fpsimd_valid x = 1;
  to_fp : length (t_fpsimd_vregs x) = 512%nat
}.

Record mutex_ok (T M : gset Z) (x : mutex) : Prop := {
  mo_owner : ptr T (owner x);
  mo_waiters : ptr T (waiters x);
  mo_next : ptr M (owner_next x);
  mo_pi : pi_enabled x = 0 \/ pi_enabled x = 1
}.

Record sem_ok (T : gset Z) (x : semaphore) : Prop := {
  so_count : - 2 ^ 31 <= count x < 2 ^ 31;
  so_waiters : ptr T (swaiters x)
}.

Record cpu_ok (T : gset Z) (x : cpu_local) : Prop := {
  co_cur : ptr T (current_thread x);
  co_preempt : 0 <= preempt_cnt x < 2 ^ 32;
  co_resched : need_resched x = kNeedReschedNone \/ need_resched x = kNeedReschedNormal \/ need_resched x = kNeedReschedRotate
}.

Record typed (T M S : gset Z) (s : kst) : Prop := {
  ty_threads : T ⊆ dom (threads s) ⊆ T ∪ {[nullptr]};
  ty_mutexes : dom (mutexes s) = M;
  ty_sems : dom (sems s) = S;
  ty_thread : forall a x, threads s !! a = Some x -> thread_ok T M x;
  ty_mutex : forall a x, mutexes s !! a = Some x -> mutex_ok T M x;
  ty_sem : forall a x, sems s !! a = Some x -> sem_ok T x;
  ty_head : ptr T (rq_head s);
  ty_tail : ptr T (rq_tail s);
  ty_cpu : cpu_ok T (cpu s);
  ty_hw : length (hw_q (hw s)) = 512%nat
}.

(** Every state an outcome goes through is typed: the one returned, with a result
    that satisfies [Q]; the one handed to another thread, which exists; and those
    after the thread is resumed in any typed state. *)
Fixpoint outcome_ok {A : Type} (T M S : gset Z) (Q : A -> Prop) (r : kres A) : Prop :=
  match r with
  | KDone a s => typed T M S s /\ Q a
  | KSwitch c n s k => typed T M S s /\ n ∈ T /\ cur s = n /\ ptr T c /\ forall s', typed T M S s' -> outcome_ok T M S Q (k s')
  | KHalt s => typed T M S s
  | KStuck => True
  end.

Create HintDb ty.

(** Decide the first test of the goal. *)
Ltac test := match goal with |- context [if ?b then _ else _] => destruct b end.

Section Types.

Context (T M S : gset Z).

Abbreviation ty := (typed T M S).

(** ** Reading and writing objects *)

Lemma ptr_null X : ptr X nullptr.
Proof. by left. Qed.

Lemma ptr_in X a : a ∈ X -> ptr X a.
Proof. by right. Qed.

Lemma ptr_nonnull X a : ptr X a -> a <> nullptr -> a ∈ X.
Proof. by intros [-> |]. Qed.

Lemma ptr_nonnull_b X a : ptr X a -> (a =? nullptr) = false -> a ∈ X.
Proof. intros H E%Z.eqb_neq. by apply ptr_nonnull. Qed.

Hint Resolve ptr_null ptr_in : ty.

Lemma zero_thread_ok : thread_ok T M zero_thread.
Proof. split; try (by left); [cbn; unfold kQuantumTicks; lia | unfold prio_ok, kMaxPriority; cbn; lia | done]. Qed.

Lemma thr_ok s a : ty s -> thread_ok T M (thr s a).
Proof.
  intros H. unfold thr. destruct (threads s !! a) as [x |] eqn:E; [by apply (ty_thread _ _ _ _ H a) | apply zero_thread_ok].
Qed.

Lemma mtx_ok s a : ty s -> mutex_ok T M (mtx s a).
Proof.
  intros H. unfold mtx. destruct (mutexes s !! a) as [x |] eqn:E; [by apply (ty_mutex _ _ _ _ H a) |].
  split; cbn; by left.
Qed.

Lemma sem_ok_at s a : ty s -> sem_ok T (sem s a).
Proof.
  intros H. unfold sem. destruct (sems s !! a) as [x |] eqn:E; [by apply (ty_sem _ _ _ _ H a) |].
  split; cbn; [lia | by left].
Qed.

Lemma ty_upd_thr a f s : ty s -> ptr T a -> thread_ok T M (f (thr s a)) -> ty (upd_thr a f s).
Proof.
  intros [] Ha Hf. split; try done; unfold upd_thr; cbn [threads set_threads].
  - rewrite dom_insert_L. destruct Ha as [-> | Ha]; set_solver.
  - intros b x. rewrite lookup_insert. destruct (decide (a = b)); [intros [= <-]; exact Hf | eauto].
Qed.

Lemma ty_upd_mtx a f s : ty s -> a ∈ M -> mutex_ok T M (f (mtx s a)) -> ty (upd_mtx a f s).
Proof.
  intros [] Ha Hf. split; try done; unfold upd_mtx; cbn [mutexes set_mutexes].
  - rewrite dom_insert_L. set_solver.
  - intros b x. rewrite lookup_insert. destruct (decide (a = b)); [intros [= <-]; exact Hf | eauto].
Qed.

Lemma ty_upd_sem a f s : ty s -> a ∈ S -> sem_ok T (f (sem s a)) -> ty (upd_sem a f s).
Proof.
  intros [] Ha Hf. split; try done; unfold upd_sem; cbn [sems set_sems].
  - rewrite dom_insert_L. set_solver.
  - intros b x. rewrite lookup_insert. destruct (decide (a = b)); [intros [= <-]; exact Hf | eauto].
Qed.

Lemma ty_upd_cpu f s : ty s -> cpu_ok T (f (cpu s)) -> ty (upd_cpu f s).
Proof. intros []. by split. Qed.

Lemma ty_out o s : ty s -> ty (set_out o s).
Proof. intros []. by split. Qed.

Lemma ty_resched v s : ty s -> v = kNeedReschedNone \/ v = kNeedReschedNormal \/ v = kNeedReschedRotate -> ty (set_resched v s).
Proof. intros H Hv. apply ty_upd_cpu; [done |]. by destruct (ty_cpu _ _ _ _ H); split. Qed.

Lemma ty_set_head v s : ty s -> ptr T v -> ty (set_rq_head v s).
Proof. intros []. by split. Qed.

Lemma ty_set_tail v s : ty s -> ptr T v -> ty (set_rq_tail v s).
Proof. intros []. by split. Qed.


Lemma ty_next a v s : ty s -> ptr T a -> ptr T v -> ty (set_next a v s).
Proof. intros H Ha Hv. apply ty_upd_thr; [done.. |]. by destruct (thr_ok s a H). Qed.

Lemma ty_wait a v s : ty s -> ptr T a -> ptr T v -> ty (upd_thr a (set_t_wait_next v) s).
Proof. intros H Ha Hv. apply ty_upd_thr; [done.. |]. by destruct (thr_ok s a H). Qed.

Lemma ty_waiting a v s : ty s -> ptr T a -> ptr M v -> ty (upd_thr a (set_t_waiting_on v) s).
Proof. intros H Ha Hv. apply ty_upd_thr; [done.. |]. by destruct (thr_ok s a H). Qed.

Lemma ty_owned a v s : ty s -> ptr T a -> ptr M v -> ty (upd_thr a (set_t_owned_mutexes v) s).
Proof. intros H Ha Hv. apply ty_upd_thr; [done.. |]. by destruct (thr_ok s a H). Qed.

Lemma ty_budget a v s : ty s -> ptr T a -> 0 <= v <= kQuantumTicks -> ty (upd_thr a (set_t_budget v) s).
Proof. intros H Ha Hv. apply ty_upd_thr; [done.. |]. by destruct (thr_ok s a H). Qed.

Lemma ty_state a v s : ty s -> ptr T a -> v = kThreadReady \/ v = kThreadBlocked -> ty (upd_thr a (set_t_state v) s).
Proof. intros H Ha Hv. apply ty_upd_thr; [done.. |]. by destruct (thr_ok s a H). Qed.

Lemma ty_owner a v s : ty s -> a ∈ M -> ptr T v -> ty (upd_mtx a (set_owner v) s).
Proof. intros H Ha Hv. apply ty_upd_mtx; [done.. |]. by destruct (mtx_ok s a H). Qed.

Lemma ty_waiters a v s : ty s -> a ∈ M -> ptr T v -> ty (upd_mtx a (set_waiters v) s).
Proof. intros H Ha Hv. apply ty_upd_mtx; [done.. |]. by destruct (mtx_ok s a H). Qed.

Lemma ty_owner_next a v s : ty s -> a ∈ M -> ptr M v -> ty (upd_mtx a (set_owner_next v) s).
Proof. intros H Ha Hv. apply ty_upd_mtx; [done.. |]. by destruct (mtx_ok s a H). Qed.

Lemma nxt_ptr s a : ty s -> ptr T (nxt s a).
Proof. intros H. apply (to_next _ _ _ (thr_ok s a H)). Qed.

Lemma wnx_ptr s a : ty s -> ptr T (wnx s a).
Proof. intros H. apply (to_wait _ _ _ (thr_ok s a H)). Qed.

Lemma onx_ptr s a : ty s -> ptr M (onx s a).
Proof. intros H. apply (mo_next _ _ _ (mtx_ok s a H)). Qed.

Lemma cur_ptr s : ty s -> ptr T (cur s).
Proof. intros H. apply (co_cur _ _ (ty_cpu _ _ _ _ H)). Qed.

Hint Resolve ty_out ty_resched ty_set_head ty_set_tail ty_next ty_wait ty_waiting ty_owned ty_budget ty_state ty_owner ty_waiters ty_owner_next
  nxt_ptr wnx_ptr onx_ptr cur_ptr ptr_nonnull_b : ty.

(** ** The run queue *)

Lemma ty_rq_append t s : ty s -> ptr T t -> ty (rq_append t s).
Proof.
  intros H Ht. unfold rq_append. destruct (t =? nullptr); [done |]. destruct (rq_head s =? nullptr); [auto 10 with ty |]. cbv zeta.
  pose proof (ty_head _ _ _ _ H). pose proof (ty_tail _ _ _ _ H). auto 10 with ty.
Qed.

Lemma find_prev_ptr s n t head prev p : ty s -> ptr T prev -> find_prev n (nxt s) t head prev = Some p -> ptr T p.
Proof.
  intros H. revert prev. induction n as [| n IH]; intros prev Hp; cbn [find_prev]; [done |].
  test; [apply IH; auto with ty | by intros [= <-]].
Qed.

Lemma ty_rq_remove t s s' : ty s -> ptr T t -> rq_remove t s = Some s' -> ty s'.
Proof.
  intros H Ht. unfold rq_remove. pose proof (ty_head _ _ _ _ H) as Hh. test; [by intros [= <-] |].
  test; [intros [= <-]; auto 10 with ty |]. destruct (find_prev _ _ _ _ _) as [p |] eqn:E; cbn [mbind option_bind]; [| done].
  pose proof (find_prev_ptr _ _ _ _ _ _ H Hh E) as Hp. test; [by intros [= <-] |]. cbv zeta. intros [= <-].
  assert (H1 : ty (set_next p (nxt s t) s)) by auto with ty. set (s1 := set_next p (nxt s t) s) in *. clearbody s1.
  assert (H2 : ty (if rq_head s =? t then set_rq_head (nxt s1 t) s1 else s1)) by (test; auto with ty).
  set (s2 := if rq_head s =? t then set_rq_head (nxt s1 t) s1 else s1) in *. clearbody s2. destruct (rq_tail s2 =? t); auto 10 with ty.
Qed.

(** The scans stay among the threads. *)
Lemma ring_loop_ptr {A R} s (body : Z -> A -> A + R) (Q : R -> Prop) n start t a r :
  ty s -> (forall t a r, ptr T t -> body t a = inr r -> Q r) -> ptr T t -> ring_loop (nxt s) body n start t a = Some (inr r) -> Q r.
Proof.
  intros H HQ. revert t a. induction n as [| n IH]; intros t a Ht; cbn [ring_loop]; [done |].
  destruct (body t a) as [a' | r'] eqn:E; [| intros [= <-]; eauto]. cbv zeta. test; [done |]. apply IH. auto with ty.
Qed.

Lemma pick_ptr c ex ro s n : ty s -> ptr T c -> prio_pick_next c ex ro s = Some n -> ptr T n.
Proof.
  intros H Hc. pose proof (ty_head _ _ _ _ H) as Hh. unfold prio_pick_next. test; [by intros [= <-] |].
  destruct (rq_max_ready_priority s) as [p |]; cbn [mbind option_bind]; [| done]. destruct (p <? 0); [by intros [= <-] |].
  test; [by intros [= <-] |]. cbv zeta. match goal with |- context [ring_loop _ _ _ ?x _ _] => set (st := x) end.
  assert (Hst : ptr T st) by (unfold st; test; auto with ty).
  destruct (ring_loop _ _ _ _ _ _) as [[[] | t] |] eqn:E; cbn [mbind option_bind]; [| intros [= <-] | done].
  - test; by intros [= <-].
  - refine (ring_loop_ptr s _ (ptr T) _ _ _ _ _ H _ Hst E). intros u a r Hu. unfold pick_body. test; [by intros [= <-] | done].
Qed.

(** ** Blocking, waking, priorities *)

Lemma ty_sched_add t s : ty s -> ptr T t -> ty (sched_add t s).
Proof.
  intros H Ht. unfold sched_add. test; [done |]. cbv zeta. apply ty_rq_append; [| done]. test; auto with ty.
Qed.

Lemma ty_block s s' : ty s -> sched_block_current s = Some s' -> ty s'.
Proof.
  intros H. unfold sched_block_current. test; [by intros [= <-] |]. test; [by intros [= <-] |].
  destruct (rq_remove _ _) as [s1 |] eqn:E; cbn [mbind option_bind]; [| done]. apply ty_rq_remove in E; [| auto with ty ..]. intros [= <-].
  apply ty_wait; auto with ty.
Qed.

Lemma ty_runnable t s : ty s -> ptr T t -> ty (sched_make_runnable t s).
Proof.
  intros H Ht. unfold sched_make_runnable. test; [done |]. test; [done |]. cbv zeta.
  apply ty_rq_append; [| done]. apply ty_budget; [| done | unfold kQuantumTicks; lia]. auto with ty.
Qed.

Lemma upd_thr_twice a f g s : upd_thr a f (upd_thr a g s) = upd_thr a (fun x => f (g x)) s.
Proof. unfold upd_thr at 1. rewrite thr_upd_eq. unfold upd_thr. cbn [threads set_threads]. by rewrite insert_insert_eq. Qed.

Lemma clamp_ok p : 0 <= clamp_priority p <= kMaxPriority.
Proof. unfold clamp_priority, kMaxPriority. repeat bdestr; lia. Qed.

Lemma ty_set_base t p s : ty s -> ptr T t -> ty (thread_set_base_priority t p s).
Proof.
  intros H Ht. unfold thread_set_base_priority. test; [done |]. cbv zeta. pose proof (clamp_ok p) as Hp. set (p' := clamp_priority p) in *. clearbody p'.
  pose proof (thr_ok s t H) as Hx. destruct (to_prio _ _ _ Hx) as [B1 B2]. rewrite thr_upd_eq. cbn [t_effective_priority set_t_base_priority].
  destruct (Z.ltb_spec (t_effective_priority (thr s t)) p'); rewrite ?upd_thr_twice;
    (apply ty_upd_thr; [done | done | destruct Hx; split; try done; unfold prio_ok; cbn; lia]).
Qed.

Lemma ty_set_eff t p s : ty s -> ptr T t -> ty (thread_set_effective_priority t p s).
Proof.
  intros H Ht. unfold thread_set_effective_priority. test; [done |]. cbv zeta. pose proof (clamp_ok p) as Hp. set (p' := clamp_priority p) in *. clearbody p'.
  pose proof (thr_ok s t H) as Hx. destruct (to_prio _ _ _ Hx) as [B1 B2].
  destruct (Z.ltb_spec p' (t_base_priority (thr s t))); (apply ty_upd_thr; [done | done | destruct Hx; split; try done; unfold prio_ok; cbn; lia]).
Qed.

(** ** Wait queues, owned mutexes, inheritance *)

Lemma pop_scan_ptr s n t prev b bp p b' bp' : ty s -> ptr T t -> ptr T prev -> ptr T b -> ptr T bp ->
  pop_scan n s t prev b bp p = Some (b', bp') -> ptr T b' /\ ptr T bp'.
Proof.
  intros H. revert t prev b bp p. induction n as [| n IH]; intros t prev b bp p Ht Hv Hb Hbp; cbn [pop_scan]; [done |].
  destruct (t =? nullptr); [by intros [= <- <-] |]. cbv zeta. destruct (p <? _); apply IH; auto with ty.
Qed.

Lemma ty_pop h s t h' s' : ty s -> ptr T h -> waitq_pop_highest h s = Some (t, h', s') -> ptr T t /\ ptr T h' /\ ty s'.
Proof.
  intros H Hh. unfold waitq_pop_highest. destruct (h =? nullptr); [intros [= <- <- <-]; auto with ty |].
  destruct (pop_scan _ _ _ _ _ _ _) as [[b bp] |] eqn:E; cbn [mbind option_bind]; [| done].
  destruct (pop_scan_ptr _ _ _ _ _ _ _ _ _ H Hh (ptr_null T) Hh (ptr_null T) E) as [Hb Hbp].
  destruct (negb (bp =? nullptr)); intros [= <- <- <-]; auto 10 with ty.
Qed.

Lemma ty_owned_add t m s : ty s -> ptr T t -> ptr M m -> ty (thread_owned_mutex_add t m s).
Proof.
  intros H Ht Hm. unfold thread_owned_mutex_add. destruct (_ || _) eqn:E; [done |]. apply orb_false_iff in E as [_ E]. cbv zeta.
  pose proof (to_owned _ _ _ (thr_ok s t H)). apply ty_owned; [| done | done]. apply ty_owner_next; eauto with ty.
Qed.

Lemma ty_unlink n t m it prev s s' : ty s -> ptr T t -> ptr M it -> ptr M prev -> owned_unlink n t m it prev s = Some s' -> ty s'.
Proof.
  intros H Ht. revert it prev. induction n as [| n IH]; intros it prev Hi Hp; cbn [owned_unlink]; [done |].
  destruct (it =? nullptr) eqn:Ei; [by intros [= <-] |]. destruct (it =? m); [| apply IH; auto with ty]. cbv zeta. intros [= <-].
  apply ty_owner_next; [| eauto with ty ..]. destruct (prev =? nullptr) eqn:Ep; cbn [negb]; [auto with ty |]. apply ty_owner_next; eauto with ty.
Qed.

Lemma ty_owned_remove t m s s' : ty s -> ptr T t -> thread_owned_mutex_remove t m s = Some s' -> ty s'.
Proof.
  intros H Ht. unfold thread_owned_mutex_remove. test; [by intros [= <-] |].
  apply ty_unlink; auto with ty. apply (to_owned _ _ _ (thr_ok s t H)).
Qed.

Section Services.

Context (C : config).

Lemma ty_recompute t s s' : ty s -> ptr T t -> recompute_effective_priority C t s = Some s' -> ty s'.
Proof.
  intros H Ht. unfold recompute_effective_priority. test; [by intros [= <-] |]. cbv zeta.
  destruct (if cfg_mutex_pi C then _ else _) as [e |]; cbn [mbind option_bind]; [| done]. intros [= <-]. by apply ty_set_eff.
Qed.

Lemma owner_ptr s m : ty s -> ptr T (owner (mtx s m)).
Proof. intros H. apply (mo_owner _ _ _ (mtx_ok s m H)). Qed.

Lemma waiters_ptr s m : ty s -> ptr T (waiters (mtx s m)).
Proof. intros H. apply (mo_waiters _ _ _ (mtx_ok s m H)). Qed.

Lemma swaiters_ptr s a : ty s -> ptr T (swaiters (sem s a)).
Proof. intros H. apply (so_waiters _ _ (sem_ok_at s a H)). Qed.

Hint Resolve owner_ptr waiters_ptr swaiters_ptr ty_owned_add ty_runnable : ty.

Lemma ty_apply_pi m s s' : ty s -> mutex_apply_pi C m s = Some s' -> ty s'.
Proof.
  intros H. unfold mutex_apply_pi. test; [by intros [= <-] |]. test; [by intros [= <-] |].
  apply ty_recompute; auto with ty.
Qed.

Lemma ty_take c m s : ty s -> ptr T c -> m ∈ M -> ty (take c m s).
Proof. intros H Hc Hm. unfold take. auto 10 with ty. Qed.

Lemma ty_mutex_block c m s s' : ty s -> ptr T c -> m ∈ M -> mutex_block C c m s = Some s' -> ty s'.
Proof.
  intros H Hc Hm. unfold mutex_block. cbv zeta. set (s1 := upd_mtx m _ _). assert (H1 : ty s1).
  { unfold s1. apply ty_waiters; [| done | done]. apply ty_wait; [auto with ty | done |]. apply waiters_ptr. auto with ty. }
  clearbody s1. destruct (mutex_apply_pi C m s1) as [s2 |] eqn:E2; cbn [mbind option_bind]; [| done]. apply ty_apply_pi in E2; [| done].
  destruct (sched_block_current s2) as [s3 |] eqn:E3; cbn [mbind option_bind]; [| done]. apply ty_block in E3; [| done].
  intros [= <-]. apply ty_resched; [done |]. right. by left.
Qed.

Lemma ty_release c m s s' : ty s -> ptr T c -> m ∈ M -> mutex_release C c m s = Some s' -> ty s'.
Proof.
  intros H Hc Hm. unfold mutex_release. destruct (thread_owned_mutex_remove c m s) as [s1 |] eqn:E1; cbn [mbind option_bind]; [| done].
  apply ty_owned_remove in E1; [| done ..]. destruct (waitq_pop_highest (waiters (mtx s1 m)) s1) as [[[o h] s2] |] eqn:E2; cbn [mbind option_bind]; [| done].
  apply ty_pop in E2 as (Ho & Hh & H2); [| auto with ty ..]. assert (H3 : ty (upd_mtx m (set_waiters h) s2)) by auto with ty.
  set (s3 := upd_mtx m (set_waiters h) s2) in *. clearbody s3.
  destruct (if negb (o =? nullptr) then _ else _) as [s4 |] eqn:E4; cbn [mbind option_bind]; [| done]. assert (H4 : ty s4).
  { destruct (negb (o =? nullptr)); [apply ty_apply_pi in E4; [done | auto 10 with ty] | injection E4 as <-; auto with ty]. }
  destruct (recompute_effective_priority C c s4) as [s5 |] eqn:E5; cbn [mbind option_bind]; [| done]. apply ty_recompute in E5; [| done ..].
  intros [= <-]. test; [apply ty_resched; [done |]; right; by left | done].
Qed.

Lemma ty_sem_add a d s : ty s -> a ∈ S -> ty (sem_add a d s).
Proof.
  intros H Ha. apply ty_upd_sem; [done | done |]. destruct (sem_ok_at s a H). split; cbn [count swaiters]; [unfold int32; zlia | done].
Qed.

Lemma ty_sem_waiters a h s : ty s -> a ∈ S -> ptr T h -> ty (sem_set_waiters a h s).
Proof. intros H Ha Hh. apply ty_upd_sem; [done | done |]. by destruct (sem_ok_at s a H). Qed.

Hint Resolve ty_sem_add ty_sem_waiters : ty.

Lemma ty_sem_block c a s s' : ty s -> ptr T c -> a ∈ S -> sem_block c a s = Some s' -> ty s'.
Proof.
  intros H Hc Ha. unfold sem_block. cbv zeta. set (s1 := sem_set_waiters a c _). assert (H1 : ty s1).
  { unfold s1. apply ty_sem_waiters; [| done | done]. apply ty_wait; [auto with ty | done |]. apply swaiters_ptr. auto with ty. }
  clearbody s1. destruct (sched_block_current s1) as [s3 |] eqn:E3; cbn [mbind option_bind]; [| done]. apply ty_block in E3; [| done].
  intros [= <-]. apply ty_resched; [done |]. right. by left.
Qed.

Lemma ty_sem_release a s s' : ty s -> a ∈ S -> sem_release a s = Some s' -> ty s'.
Proof.
  intros H Ha. unfold sem_release. assert (H1 : ty (sem_add a 1 s)) by auto with ty. set (s1 := sem_add a 1 s) in *. clearbody s1.
  test; [| by intros [= <-]].
  destruct (waitq_pop_highest (swaiters (sem s1 a)) s1) as [[[t h] s2] |] eqn:E2; cbn [mbind option_bind]; [| done].
  apply ty_pop in E2 as (Ho & Hh & H2); [| auto with ty ..]. assert (H3 : ty (sem_set_waiters a h s2)) by auto with ty.
  set (s3 := sem_set_waiters a h s2) in *. clearbody s3. test; intros [= <-]; [| done].
  test; [| auto with ty]. apply ty_resched; [auto with ty |]. right. by left.
Qed.

(** ** Code that may switch *)

(** Started in a typed state, [m] goes through typed states only. *)
Definition keeps_types {A : Type} (Q : A -> Prop) (m : K A) : Prop := forall s, ty s -> outcome_ok T M S Q (m s).

Lemma outcome_bind {A B} (Q : A -> Prop) (R : B -> Prop) (r : kres A) f :
  outcome_ok T M S Q r -> (forall a s, ty s -> Q a -> outcome_ok T M S R (f a s)) -> outcome_ok T M S R (kbind r f).
Proof.
  intros Hr Hf. induction r as [a s | c n s k IH | s |]; cbn [kbind outcome_ok] in *; [destruct Hr; auto | | done | done].
  destruct Hr as (H1 & H2 & H3 & H4 & H5). repeat (split; [done |]). intros s' Hs'. apply IH, H5, Hs'.
Qed.

Lemma keeps_bind {A B} (Q : A -> Prop) (R : B -> Prop) (m : K A) f :
  keeps_types Q m -> (forall a, Q a -> keeps_types R (f a)) -> keeps_types R (m ≫= f).
Proof. intros Hm Hf s Hs. apply (outcome_bind Q); [by apply Hm | intros a s' Hs' Ha; by apply Hf]. Qed.

Lemma keeps_ret {A} (Q : A -> Prop) a : Q a -> keeps_types Q (mret a).
Proof. by intros Ha s Hs. Qed.

Lemma keeps_get {A} (Q : A -> Prop) f : (forall s, ty s -> outcome_ok T M S Q (f s s)) -> keeps_types Q (get ≫= f).
Proof. intros Hf s Hs. by apply Hf. Qed.

Abbreviation keeps := (keeps_types (fun _ : unit => True)).

Lemma keeps_modify f : (forall s, ty s -> ty (f s)) -> keeps (modify f).
Proof. intros Hf s Hs. split; auto. Qed.

Lemma keeps_modify_opt f : (forall s s', ty s -> f s = Some s' -> ty s') -> keeps (modify_opt f).
Proof. intros Hf s Hs. unfold modify_opt. destruct (f s) as [s' |] eqn:E; [split; [eauto | done] | done]. Qed.

Lemma keeps_of_opt {A} (Q : A -> Prop) (o : option A) s : ty s -> (forall a, o = Some a -> Q a) -> outcome_ok T M S Q (of_opt o s).
Proof. intros Hs HQ. unfold of_opt. destruct o; [split; auto | done]. Qed.

Lemma keeps_halt : keeps (@halt unit).
Proof. by intros s Hs. Qed.

Lemma keeps_seq (m1 m2 : K unit) : keeps m1 -> keeps m2 -> keeps (m1 ≫= fun _ => m2).
Proof. intros H1 H2. by apply (keeps_bind (fun _ => True)). Qed.

Lemma keeps_seq_ret {A} (Q : A -> Prop) (m : K unit) a : keeps m -> Q a -> keeps_types Q (m ≫= fun _ => mret a).
Proof. intros H1 H2. apply (keeps_bind (fun _ => True)); [done | intros _ _; by apply keeps_ret]. Qed.

Lemma ty_save s : ty s -> ty (fpsimd_save s).
Proof.
  intros H. unfold fpsimd_save. test; [done |]. apply ty_upd_thr; [done | auto with ty |].
  destruct (thr_ok s (cur s) H). split; try done; [by right | apply (ty_hw _ _ _ _ H)].
Qed.

Lemma ty_load s : ty s -> ty (fpsimd_load s).
Proof.
  intros H. unfold fpsimd_load. test; [done |]. pose proof (to_fp _ _ _ (thr_ok s (cur s) H)) as Hl. destruct H. split; try done.
  cbn [hw set_hw hw_q]. by destruct (_ =? 0).
Qed.

Lemma keeps_switch c n : ptr T c -> n ∈ T -> keeps (do_switch c n).
Proof.
  intros Hc Hn s Hs. rewrite do_switch_eq. assert (H : ty (switched n s)).
  { unfold switched. apply ty_upd_cpu; [by apply ty_save |]. rewrite cpu_save. destruct (ty_cpu _ _ _ _ Hs). split; try done. by right. }
  repeat (split; [done |]). intros s' Hs'. split; [by apply ty_load | done].
Qed.

Section Sched.

Context (prio : bool).

Lemma keeps_resched v : v = kNeedReschedNone \/ v = kNeedReschedNormal \/ v = kNeedReschedRotate -> keeps (modify (set_resched v)).
Proof. intros Hv. apply keeps_modify. intros s Hs. by apply ty_resched. Qed.

Lemma keeps_irq_tail : keeps (sched_resched_from_irq_tail prio).
Proof.
  apply keeps_get. intros s Hs. cbv zeta. test; [done |].
  apply (outcome_bind (ptr T)).
  - destruct prio; [apply keeps_of_opt; [done |]; intros n; apply pick_ptr; auto with ty |]. split; [done |].
    test; [auto with ty | apply (ty_head _ _ _ _ Hs)].
  - intros n s' Hs' Hn. destruct (_ || _) eqn:E; [by apply keeps_resched; [left |] |].
    apply orb_false_iff in E as [[_ E]%orb_false_iff _]. apply keeps_seq; [apply keeps_switch; eauto with ty | apply keeps_resched; by left | done].
Qed.

Lemma keeps_yield : keeps (thread_yield prio).
Proof.
  apply keeps_get. intros s Hs. cbv zeta. test; [done |]. test; [done |]. apply (outcome_bind (ptr T)).
  - destruct prio; [apply keeps_of_opt; [done |]; intros n; apply pick_ptr; auto with ty |]. split; [done |]. test; auto with ty.
  - intros n s' Hs' Hn. destruct (_ && _) eqn:E; [| done]. apply andb_true_iff in E as [E%negb_true_iff _].
    apply keeps_switch; eauto with ty.
Qed.

Lemma keeps_disable : keeps preempt_disable.
Proof.
  apply keeps_modify. intros s Hs. apply ty_upd_cpu; [done |]. destruct (ty_cpu _ _ _ _ Hs). split; try done. cbn [preempt_cnt set_preempt_cnt]; unfold wrap32; zlia.
Qed.

Lemma keeps_enable : keeps (preempt_enable prio).
Proof.
  apply keeps_get. intros s Hs. test; [done |]. apply (keeps_seq (modify _)); [| | done].
  - apply keeps_modify. intros s' Hs'. apply ty_upd_cpu; [done |]. destruct (ty_cpu _ _ _ _ Hs'). split; try done. cbn [preempt_cnt set_preempt_cnt]; unfold wrap32; zlia.
  - apply keeps_get. intros s' Hs'. test; [by apply keeps_irq_tail | done].
Qed.

Lemma ty_tick c s : ty s -> ptr T c -> ty (tick_budget prio c s).
Proof.
  intros H Hc. unfold tick_budget. cbv zeta. pose proof (to_budget _ _ _ (thr_ok s c H)) as Hb. unfold kQuantumTicks in *.
  match goal with |- context [set_resched _ ?x] => set (s1 := x) end. assert (H1 : ty s1).
  { unfold s1. destruct (Z.ltb_spec 0 (t_budget (thr s c))); [| done]. apply ty_budget; [done | done | unfold kQuantumTicks; lia]. }
  clearbody s1. test; [| done]. apply ty_budget; [| done | unfold kQuantumTicks; lia]. apply ty_resched; [done |]. destruct prio; auto.
Qed.

Lemma keeps_tick : keeps (sched_on_tick prio).
Proof.
  apply keeps_get. intros s Hs. cbv zeta. test; [done |]. test.
  - apply keeps_seq; [| apply keeps_halt | done]. apply keeps_modify. intros s' Hs'. by repeat apply ty_out.
  - test; [done |]. test; [apply keeps_resched; [right; by left | done] |].
    apply (outcome_bind (fun _ => True)); [destruct prio; [by apply keeps_of_opt | done] |]. intros gt s' Hs' _.
    destruct gt; [apply keeps_resched; [right; by left | done] |]. apply keeps_modify; [| done]. intros s2 Hs2. apply ty_tick; auto with ty.
Qed.

Lemma keeps_return : keeps (preempt_return prio).
Proof. apply keeps_get. intros s Hs. test; [by apply keeps_irq_tail | done]. Qed.

End Sched.

(** ** The locks *)

Lemma keeps_panic c m : keeps (lockdep_panic_deadlock c m).
Proof. apply keeps_seq; [apply keeps_modify; intros s Hs; cbv zeta; by repeat apply ty_out | apply keeps_halt]. Qed.

Lemma keeps_enable_here s : ty s -> outcome_ok T M S (fun _ : unit => True) (enable C s).
Proof. apply keeps_enable. Qed.

Hint Resolve keeps_disable keeps_enable : ty.

Lemma keeps_owned c : ptr T c -> keeps (modify (upd_thr c (set_t_waiting_on nullptr)) ≫= fun _ => enable C).
Proof. intros Hc. apply keeps_seq; [apply keeps_modify; auto with ty | apply keeps_enable]. Qed.

Lemma keeps_take c m : ptr T c -> m ∈ M -> keeps (modify (take c m) ≫= fun _ => enable C).
Proof. intros Hc Hm. apply keeps_seq; [apply keeps_modify; intros s Hs; by apply ty_take | apply keeps_enable]. Qed.

Lemma keeps_lock_loop n m : m ∈ M -> keeps (mutex_lock_loop C n m).
Proof.
  intros Hm. induction n as [| n IH]; [by intros s Hs |]. cbn [mutex_lock_loop].
  apply keeps_seq; [apply keeps_disable |]. apply keeps_get. intros s Hs. cbv zeta. pose proof (cur_ptr s Hs) as Hc. set (c := cur s) in *. clearbody c.
  test; [by apply keeps_enable |]. test; [by apply keeps_owned |]. test; [by apply keeps_take |].
  apply keeps_seq; [test; [apply keeps_panic | by apply keeps_ret] | | done].
  apply keeps_seq; [apply keeps_modify_opt; intros s1 s2 H1; by apply ty_mutex_block |]. apply keeps_seq; [apply keeps_enable | exact IH].
Qed.

Lemma keeps_lock n m : ptr M m -> keeps (mutex_lock C n m).
Proof. intros Hm. unfold mutex_lock. destruct (m =? nullptr) eqn:E; [by apply keeps_ret | apply keeps_lock_loop; eauto with ty]. Qed.

Lemma keeps_trylock m : ptr M m -> keeps_types (fun _ => True) (mutex_trylock C m).
Proof.
  intros Hm. unfold mutex_trylock. destruct (m =? nullptr) eqn:E; [by apply keeps_ret |]. assert (Hin : m ∈ M) by eauto with ty.
  apply (keeps_bind (fun _ => True)); [apply keeps_disable | intros _ _]. apply keeps_get. intros s Hs. cbv zeta.
  pose proof (cur_ptr s Hs) as Hc. set (c := cur s) in *. clearbody c.
  test; [by apply keeps_seq_ret; [apply keeps_enable | |] |].
  test; [apply (keeps_bind (fun _ => True)); [apply keeps_modify; intros s' Hs'; by apply ty_take | intros _ _; by apply keeps_seq_ret; [apply keeps_enable |] | done] |].
  test; [apply (keeps_bind (fun _ => True)); [apply keeps_modify; auto with ty | intros _ _; by apply keeps_seq_ret; [apply keeps_enable |] | done] |].
  by apply keeps_seq_ret; [apply keeps_enable | |].
Qed.

Lemma keeps_unlock m : ptr M m -> keeps (mutex_unlock C m).
Proof.
  intros Hm. unfold mutex_unlock. destruct (m =? nullptr) eqn:E; [by apply keeps_ret |].
  apply keeps_seq; [apply keeps_disable |]. apply keeps_get. intros s Hs. cbv zeta. pose proof (cur_ptr s Hs) as Hc. set (c := cur s) in *. clearbody c.
  test; [by apply keeps_enable |]. apply keeps_seq; [| apply keeps_enable | done]. apply keeps_modify_opt. intros s1 s2 H1. apply ty_release; eauto with ty.
Qed.

Lemma keeps_set_pi m e : ptr M m -> keeps (mutex_set_pi_enabled C m e).
Proof.
  intros Hm. unfold mutex_set_pi_enabled. destruct (m =? nullptr) eqn:E; [by apply keeps_ret |].
  apply keeps_seq; [apply keeps_disable |]. apply keeps_seq.
  { apply keeps_modify. intros s Hs. apply ty_upd_mtx; [done | eauto with ty |]. destruct (mtx_ok s m Hs). split; try done.
    cbn [pi_enabled set_pi_enabled]. test; auto. }
  apply keeps_seq; [| apply keeps_enable]. apply keeps_modify_opt. intros s1 s2 H1. test; [apply ty_recompute; auto with ty | by intros [= <-]].
Qed.

Lemma keeps_down a : ptr S a -> keeps (sem_down C a).
Proof.
  intros Ha. unfold sem_down. destruct (a =? nullptr) eqn:E; [by apply keeps_ret |].
  apply keeps_seq; [apply keeps_disable |]. apply keeps_seq; [apply keeps_modify; intros; apply ty_sem_add; eauto with ty |].
  apply keeps_get. intros s Hs. test; [by apply keeps_enable |]. cbv zeta. pose proof (cur_ptr s Hs) as Hc. set (c := cur s) in *. clearbody c.
  test; [by apply keeps_enable |]. apply keeps_seq; [| apply keeps_enable | done]. apply keeps_modify_opt. intros s1 s2 H1. apply ty_sem_block; eauto with ty.
Qed.

Lemma keeps_up a : ptr S a -> keeps (sem_up C a).
Proof.
  intros Ha. unfold sem_up. destruct (a =? nullptr) eqn:E; [by apply keeps_ret |].
  apply keeps_seq; [apply keeps_disable |]. apply keeps_seq; [| apply keeps_enable]. apply keeps_modify_opt. intros s1 s2 H1. apply ty_sem_release; eauto with ty.
Qed.

Lemma ty_mutex_init m s : ty s -> ptr M m -> ty (mutex_init C m s).
Proof.
  intros H Hm. unfold mutex_init. destruct (m =? nullptr) eqn:E; [done |]. apply ty_upd_mtx; [done | eauto with ty |].
  split; try (by left). cbn. destruct (cfg_mutex_pi C); auto.
Qed.

Lemma ty_sem_init a n s : ty s -> ptr S a -> - 2 ^ 31 <= n < 2 ^ 31 -> ty (sem_init a n s).
Proof.
  intros H Ha Hn. unfold sem_init. destruct (a =? nullptr) eqn:E; [done |]. apply ty_upd_sem; [done | eauto with ty |]. split; [done | by left].
Qed.

End Services.

End Types.

(** ** The services as a whole *)

(** What a thread or the interrupt handler can ask of the kernel. *)
Inductive service :=
| Yield | PreemptDisable | PreemptEnable | PreemptReturn | IrqTail | Tick
| Add (t : Z) | SetBase (t p : Z)
| Init (m : Z) | SetPi (m e : Z) | Lock (fuel : nat) (m : Z) | TryLock (m : Z) | Unlock (m : Z)
| SemInit (a n : Z) | Down (a : Z) | Up (a : Z).

Definition serve (C : config) (x : service) : K unit :=
  let prio := sched_policy_prio C in
  match x with
  | Yield => thread_yield prio
  | PreemptDisable => preempt_disable
  | PreemptEnable => preempt_enable prio
  | PreemptReturn => preempt_return prio
  | IrqTail => sched_resched_from_irq_tail prio
  | Tick => sched_on_tick prio
  | Add t => modify (sched_add t)
  | SetBase t p => modify (thread_set_base_priority t p)
  | Init m => modify (mutex_init C m)
  | SetPi m e => mutex_set_pi_enabled C m e
  | Lock n m => mutex_lock C n m
  | TryLock m => mutex_trylock C m ≫= fun _ => mret ()
  | Unlock m => mutex_unlock C m
  | SemInit a n => modify (sem_init a n)
  | Down a => sem_down C a
  | Up a => sem_up C a
  end.

(** The caller's part: arguments of the declared types. *)
Definition arguments_ok (T M S : gset Z) (x : service) : Prop :=
  match x with
  | Add t | SetBase t _ => ptr T t
  | Init m | SetPi m _ | Lock _ m | TryLock m | Unlock m => ptr M m
  | SemInit a n => ptr S a /\ - 2 ^ 31 <= n < 2 ^ 31
  | Down a | Up a => ptr S a
  | _ => True
  end.

(** C10: the kernel's services are type safe.  Called in a typed state with
    arguments of their declared types, under either policy and with or without
    inheritance and lock checking, every service returns, halts and switches in
    typed states only, whatever typed states it is resumed in: all pointers stay
    null or valid, priorities stay within 0..31 and above their base, budgets
    within the quantum, counters within their machine width, a switch goes to an
    existing thread that has become the current one, and no object appears. *)
Theorem services_type_safe C T M S s x :
  typed T M S s -> arguments_ok T M S x -> outcome_ok T M S (fun _ => True) (serve C x s).
Proof.
  intros Hs Hx. destruct x; cbn [serve arguments_ok] in *.
  - by apply keeps_yield.
  - by apply keeps_disable.
  - by apply keeps_enable.
  - by apply keeps_return.
  - by apply keeps_irq_tail.
  - by apply keeps_tick.
  - split; [by apply ty_sched_add | done].
  - split; [by apply ty_set_base | done].
  - split; [by apply ty_mutex_init | done].
  - by apply keeps_set_pi.
  - by apply keeps_lock.
  - apply (keeps_bind T M S (fun _ => True)); [by apply keeps_trylock | intros _ _; by apply keeps_ret | done].
  - by apply keeps_unlock.
  - split; [apply ty_sem_init; tauto | done].
  - by apply keeps_down.
  - by apply keeps_up.
Qed.

(** Two threads, a mutex held by the one that does not run, a semaphore. *)
Definition typed_demo : kst :=
  let th n own := MkThread 0 0 0 n 0 0 0 5 10 10 kThreadReady 0 0 own 0 fp_zeros 0 0 in
  Kst {[4096 := th 8192 0; 8192 := th 4096 12288]} {[12288 := Mutex 8192 0 0 1]} {[16384 := Semaphore 1 0]}
    4096 8192 3 (MemPool.Pool 0 0 0 0 0) 0 (CpuLocal 0 4096 0 0 0 0) (FpRegs fp_zeros 0 0) (Kmem.Kmem 0 0) ∅ (Pte.Mmu ∅ 0 0 []) 0 [].

Lemma typed_demo_ok : typed {[4096; 8192]} {[12288]} {[16384]} typed_demo.
Proof.
  assert (P : forall x, x = 0 \/ x = 4096 \/ x = 8192 -> ptr {[4096; 8192]} x) by (unfold ptr, nullptr; set_solver).
  split; cbn [threads mutexes sems rq_head rq_tail cpu hw typed_demo].
  - rewrite dom_insert_L, dom_singleton_L. set_solver.
  - by rewrite dom_singleton_L.
  - by rewrite dom_singleton_L.
  - assert (Q : forall n own, n = 4096 \/ n = 8192 -> own = 0 \/ own = 12288 ->
      thread_ok {[4096; 8192]} {[12288]} (MkThread 0 0 0 n 0 0 0 5 10 10 kThreadReady 0 0 own 0 fp_zeros 0 0)).
    { intros n own Hn Ho. split; cbn; try (by left); [apply P; tauto | destruct Ho as [-> | ->]; [by left | right; set_solver] | unfold kQuantumTicks; lia | unfold prio_ok, kMaxPriority; cbn; lia | done]. }
    intros a x [[_ <-] | [_ [_ <-]%lookup_singleton_Some]]%lookup_insert_Some; apply Q; auto.
  - intros a x [_ <-]%lookup_singleton_Some. split; cbn; [apply P; auto | apply P; auto | by left | by right].
  - intros a x [_ <-]%lookup_singleton_Some. split; cbn; [lia | by left].
  - apply P. auto.
  - apply P. auto.
  - split; cbn; [apply P; auto | lia | by left].
  - done.
Qed.

(** Locking the held mutex blocks the caller and switches to the owner. *)
Lemma services_type_safe_witness :
  outcome_ok {[4096; 8192]} {[12288]} {[16384]} (fun _ => True) (serve (Config true true false (fun _ m => (0, m)) 0 0) (Lock 2 12288) typed_demo).
Proof.
  apply (services_type_safe (Config true true false (fun _ m => (0, m)) 0 0) {[4096; 8192]} {[12288]} {[16384]} typed_demo (Lock 2 12288)).
  - exact typed_demo_ok.
  - right. by apply elem_of_singleton.
Defined.
