(* ===== verification/Thread.v ===== *)
(** * [src/src/thread.cc]: [sched_init] and thread creation

    The meeting point of the heap, the thread pool, the page tables, the stack
    guard and the scheduler state.  A [Thread] occupies 640 bytes of RAM
    ([sizeof(Thread)], from the layout in [src/include/thread.h]); its fields are
    kept in [threads], under the same address. *)

From Stdlib Require Import String.
From S2P Require Import Prelude Mem Kmem MemPool Pte Uart Kstate Runq Stack Sched.

Definition sizeof_Thread : Z := 640.

Definition alignof_Thread : Z := 16.

Definition kThreadPoolAlign : Z := 16.

Definition kThreadPoolBlockSize : Z := Z.land (sizeof_Thread + (kThreadPoolAlign - 1)) (~64 (kThreadPoolAlign - 1)).

Definition kThreadPoolCount : Z := 32.

Definition kThreadPoolBytes : Z := kThreadPoolBlockSize * kThreadPoolCount + kThreadPoolAlign.

(** [None] only if the alignment loop of [mem_pool_init] ran out of fuel. *)
Definition sched_init (s : kst) : option kst :=
  let s := set_next_thread_id 1 (set_rq_tail nullptr (set_rq_head nullptr s)) in
  let s := set_g_thread_pool_inited 0 s in
  let '(backing, h) := kmem_alloc_aligned kThreadPoolBytes kThreadPoolAlign (heap s) in
  let s := set_heap h s in
  if backing =? nullptr then Some s
  else
    r ← mem_pool_init (Some (g_thread_pool s)) backing kThreadPoolBytes kThreadPoolBlockSize (ram s);
    let '(rc, p, m) := r in
    let s := set_ram m (set_g_thread_pool (default (g_thread_pool s) p) s) in
    Some (if rc =? 0 then set_g_thread_pool_inited 1 s else s).

(** Memory for the [Thread] object: the pool first, then the heap. *)
Definition alloc_thread (s : kst) : Z * kst :=
  let '(t, s) :=
    if negb (g_thread_pool_inited s =? 0) then
      let '(t, p, m) := mem_pool_alloc (Some (g_thread_pool s)) (ram s) in
      (t, set_ram m (set_g_thread_pool (default (g_thread_pool s) p) s))
    else (nullptr, s) in
  if t =? nullptr then
    let '(t, h) := kmem_alloc_aligned sizeof_Thread alignof_Thread (heap s) in (t, set_heap h s)
  else (t, s).

(** Giving it back on the error paths. *)
Definition free_thread (t : Z) (s : kst) : kst :=
  if negb (g_thread_pool_inited s =? 0) && negb (mem_pool_owns (Some (g_thread_pool s)) t =? 0) then
    let '(_, p, m) := mem_pool_free (Some (g_thread_pool s)) t (ram s) in
    set_ram m (set_g_thread_pool (default (g_thread_pool s) p) s)
  else s.

(** The byte loop that clears the object. *)
Definition zero_object (t : Z) (s : kst) : kst :=
  upd_thr t (fun _ => zero_thread)
    (set_ram (for_range 0 sizeof_Thread (fun i m => st8 (t + i) 0 m) (ram s)) s).

(** [push_pair]. *)
Definition push_pair (first second : Z) (x : Z * mem) : Z * mem :=
  let '(sp_words, m) := x in
  let sp_words := sp_words -64 16 in
  (sp_words, st64 (sp_words +64 8) second (st64 sp_words first m)).

(** The initial frame popped by the first [arch_switch] to the thread: x19..x28
    and the frame pointer are zero, the link register is the trampoline. *)
Definition initial_frame (trampoline stack_top : Z) (m : mem) : Z * mem :=
  push_pair 0 trampoline (push_pair 0 0 (push_pair 0 0 (push_pair 0 0 (push_pair 0 0 (push_pair 0 0 (stack_top, m)))))).

Section Create.

Context (C : config).

(** The guard page, the stack's pattern, the initial frame and the fields. *)
Definition init_thread (t entry arg stack_size base_priority stack_alloc : Z) (s : kst) : kst :=
  let s := set_mmu (guard_page C stack_alloc (mmu s)).2 s in
  let stack := stack_alloc +64 kStackGuardPageBytes in
  let s := set_ram (stack_init_guard_and_watermark stack stack_size (ram s)) s in
  let stack_top := Z.land (stack +64 stack_size) (~64 0xF) in
  let '(sp_words, m) := initial_frame (trampoline C) stack_top (ram s) in
  let s := set_ram m s in
  let prio := clamp_priority base_priority in
  let s := upd_thr t (fun x =>
    MkThread sp_words entry arg nullptr (next_thread_id s) stack stack_size kQuantumTicks prio prio
      kThreadReady nullptr nullptr nullptr (t_fpsimd_valid x) (t_fpsimd_vregs x) (t_fpcr x) (t_fpsr x)) s in
  set_next_thread_id (int32 (next_thread_id s + 1)) s.

(** The messages of a successful creation. *)
Definition log_created (t : Z) (s : kst) : kst :=
  let s := print_u64 (wrap64 (t_id (thr s t))) (puts "[sched][diag] thread created id=" s) in
  let s := print_u64 (t_sp (thr s t)) (puts " sp=" s) in
  let s := print_u64 (t_stack_base (thr s t)) (puts " stack=" s) in
  puts ("[diag] thread_create exit" ++ newline) (puts newline s).

Definition thread_create_prio (entry arg stack_size base_priority : Z) (s : kst) : Z * kst :=
  let s := puts ("[diag] thread_create enter" ++ newline) s in
  if (entry =? nullptr) || (stack_size =? 0) then
    (nullptr, puts ("[sched][err] invalid thread params" ++ newline) s)
  else
    let '(t, s) := alloc_thread s in
    if t =? nullptr then (nullptr, puts ("[sched][err] no memory for Thread struct" ++ newline) s)
    else
      let s := zero_object t s in
      if 2 ^ 64 - 1 -64 kStackGuardPageBytes <? stack_size then
        (nullptr, free_thread t (puts ("[sched][err] stack too large" ++ newline) s))
      else
        let '(stack_alloc, h) := kmem_alloc_aligned (stack_size +64 kStackGuardPageBytes) kStackGuardPageBytes (heap s) in
        let s := set_heap h s in
        if stack_alloc =? nullptr then
          (nullptr, free_thread t (puts ("[sched][err] no memory for thread stack" ++ newline) s))
        else
          let s := init_thread t entry arg stack_size base_priority stack_alloc s in
          (t, log_created t s).

Definition thread_create (entry arg stack_size : Z) : kst -> Z * kst :=
  thread_create_prio entry arg stack_size kDefaultPriority.

End Create.

(** ** Memory of threads *)

(** Room for a [Thread] at [a] and at every address of [l] does not overlap. *)
Definition objs_apart (a : Z) (l : list Z) : Prop :=
  forall x, x ∈ l -> a + sizeof_Thread <= x \/ x + sizeof_Thread <= a.

Lemma objs_apart_not_in a l : objs_apart a l -> a ∉ l.
Proof. intros H Ha. destruct (H a Ha); unfold sizeof_Thread in *; lia. Qed.

Lemma objs_apart_nil a : objs_apart a [].
Proof. by intros x ?%not_elem_of_nil. Qed.

Lemma objs_apart_cons a b l : objs_apart a (b :: l) <-> objs_apart a [b] /\ objs_apart a l.
Proof.
  split.
  - intros H. split; intros x Hx; apply H; [apply list_elem_of_singleton in Hx as ->; by left | by right].
  - intros [H1 H2] x [-> | Hx]%elem_of_cons; [apply H1; by left | by apply H2].
Qed.

Lemma objs_apart_sym a b : objs_apart a [b] -> objs_apart b [a].
Proof. intros H x ->%list_elem_of_singleton. destruct (H b); [by left | lia | lia]. Qed.

(** [free]: the pool's free blocks; [live]: the thread objects handed out. *)
Record create_inv (s : kst) (free live : list Z) : Prop := {
  ci_heap : kmem_wf (heap s);
  ci_pool : g_thread_pool_inited s <> 0 ->
    pool_rep (g_thread_pool s) (ram s) free /\ sizeof_Thread <= block_size (g_thread_pool s) /\
    base (g_thread_pool s) + block_count (g_thread_pool s) * block_size (g_thread_pool s) <= Kmem.cur (heap s);
  ci_nopool : g_thread_pool_inited s = 0 -> free = [];
  ci_live : forall a, a ∈ live -> objs_apart a free /\ 0 < a /\ a + sizeof_Thread <= Kmem.cur (heap s)
}.

Lemma pool_rep_mem p m m' l :
  (forall x, x ∈ l -> forall i, x <= i < x + 8 -> ld8 m i = ld8 m' i) -> pool_rep p m l -> pool_rep p m' l.
Proof. intros H []. split; auto. by apply (linked_frame m). Qed.

(** Writes above the heap mark, or inside a thread object that is not free,
    leave the pool alone. *)
Lemma create_inv_write s free live lo hi m' :
  create_inv s free live -> mem_same_outside lo hi (ram s) m' ->
  (Kmem.cur (heap s) <= lo \/
   forall x, x ∈ free -> x + 8 <= lo \/ hi <= x) ->
  create_inv (set_ram m' s) free live.
Proof.
  intros [H1 H2 H3 H4] Hm Hout. split; try done. intros Hi. destruct (H2 Hi) as (Hr & Hs & Ht).
  split; [| done]. cbn [g_thread_pool ram set_ram]. apply (pool_rep_mem _ (ram s)); [| done]. intros x Hx i Hix. apply Hm.
  pose proof (proj1 (Forall_forall _ _) (rep_blocks _ _ _ Hr) x Hx) as Hb.
  apply block_bounds in Hb as (Hb1 & Hb2 & _); [| apply Hr]. unfold sizeof_Thread in Hs.
  destruct Hout as [Hlo | Hout]; [lia | destruct (Hout x Hx); lia].
Qed.

(** A new block of the heap. *)
Lemma create_inv_heap s free live sz align :
  create_inv s free live -> req_ok (sz, align) ->
  let '(p, h) := kmem_alloc_aligned sz align (heap s) in
  create_inv (set_heap h s) free live /\ kend h = kend (heap s) /\ kend h < 2 ^ 62 /\
  (p = nullptr /\ h = heap s /\ kend h < Kmem.cur h + eff_align align + sz \/
   Kmem.cur (heap s) <= p < Kmem.cur (heap s) + eff_align align /\ p + sz = Kmem.cur h /\ Kmem.cur h <= kend h /\
   p mod eff_align align = 0 /\ 0 < p).
Proof.
  intros [H1 H2 H3 H4] Hr. pose proof (kmem_alloc_cases sz align _ H1 Hr) as Hc. pose proof (kmem_alloc_wf sz align _ H1 Hr) as Hw.
  destruct (kmem_alloc_aligned sz align (heap s)) as [p h]. simpl in Hw. destruct Hr as [Hsz _]. simpl in Hsz.
  assert (Hle : Kmem.cur (heap s) <= Kmem.cur h) by (destruct Hc as [(_ & -> & _) | (? & _ & _ & ? & ->)]; simpl; lia).
  split; [| split; [| split]].
  - split; [done | | done |].
    + intros Hi. destruct (H2 Hi) as (? & ? & ?). cbn [g_thread_pool ram heap set_heap]. split; [done | split; [done | lia]].
    + intros a Ha. destruct (H4 a Ha) as (? & ? & ?). cbn [heap set_heap]. split; [done | split; [done | lia]].
  - destruct Hc as [(_ & -> & _) | (_ & _ & _ & _ & ->)]; done.
  - apply Hw.
  - destruct Hc as [(-> & -> & ?) | (Hp & Hmod & _ & Hend & ->)]; [by left | right]. destruct H1. cbn [Kmem.cur kend].
    split; [lia | split; [done | split; [done | split; [done | lia]]]].
Qed.

(** What creating a thread leaves alone. *)
Definition creation_frame (s s' : kst) : Prop :=
  rq_head s' = rq_head s /\ rq_tail s' = rq_tail s /\ cpu s' = cpu s /\ hw s' = hw s /\
  mutexes s' = mutexes s /\ sems s' = sems s /\ kend (heap s') = kend (heap s).

Lemma creation_frame_trans s1 s2 s3 : creation_frame s1 s2 -> creation_frame s2 s3 -> creation_frame s1 s3.
Proof.
  intros (A1 & A2 & A3 & A4 & A5 & A6 & A7) (B1 & B2 & B3 & B4 & B5 & B6 & B7).
  split; [| split; [| split; [| split; [| split; [| split]]]]]; congruence.
Qed.

(** A freshly allocated object, disjoint from every other and from the free blocks. *)
Definition fresh_object (s : kst) (free live : list Z) (t : Z) : Prop :=
  0 < t /\ objs_apart t live /\ objs_apart t free /\ t + sizeof_Thread <= Kmem.cur (heap s).

(** Where [t] came from: the pool, or the heap. *)
Definition from_pool (s : kst) (t : Z) : Prop := is_block (g_thread_pool s) t /\ g_thread_pool_inited s <> 0.

Definition from_heap (s : kst) (t : Z) : Prop :=
  g_thread_pool_inited s = 0 \/ mem_pool_owns (Some (g_thread_pool s)) t = 0.

(** Bytes a heap-allocated [Thread] can take, alignment included. *)
Definition thread_cost : Z := sizeof_Thread + alignof_Thread.

Lemma heap_thread_spec s free live :
  create_inv s free live -> free = [] ->
  let '(t, h) := kmem_alloc_aligned sizeof_Thread alignof_Thread (heap s) in
  let s2 := set_heap h s in
  Kmem.cur (heap s) <= Kmem.cur h <= Kmem.cur (heap s) + thread_cost /\ creation_frame s s2 /\ create_inv s2 free live /\
  (t = nullptr /\ kend (heap s) < Kmem.cur (heap s) + thread_cost \/
   fresh_object s2 free live t /\ from_heap s2 t /\ Kmem.cur (heap s) <= t).
Proof.
  intros Hs Hnil. pose proof (create_inv_heap s free live sizeof_Thread alignof_Thread Hs) as Hh.
  destruct (kmem_alloc_aligned sizeof_Thread alignof_Thread (heap s)) as [t h]. unfold thread_cost.
  destruct Hh as (Hi & Hk & Hend & Ht); [unfold req_ok, sizeof_Thread, alignof_Thread; simpl; lia |].
  change (eff_align alignof_Thread) with alignof_Thread in Ht.
  assert (Hle : Kmem.cur (heap s) <= Kmem.cur h <= Kmem.cur (heap s) + (sizeof_Thread + alignof_Thread))
    by (destruct Ht as [(_ & -> & _) | (? & ? & _)]; unfold sizeof_Thread, alignof_Thread in *; lia).
  split; [done | split; [done | split; [done |]]].
  destruct Ht as [(-> & -> & ?) | (Ht1 & Ht2 & Ht3 & _ & Ht4)]; [left; split; [done | lia] | right]. split; [| split; [| apply Ht1]].
  - split; [done | split; [| split; [rewrite Hnil; apply objs_apart_nil |]]].
    + intros x Hin. destruct (ci_live _ _ _ Hs x Hin) as (_ & _ & Hx). lia.
    + cbn [heap set_heap]. lia.
  - unfold from_heap. cbn [g_thread_pool g_thread_pool_inited set_heap].
    destruct (Z.eq_dec (g_thread_pool_inited s) 0) as [| Hne]; [by left | right].
    destruct (ci_pool _ _ _ Hs Hne) as (Hr & Hsz & Htop).
    destruct (mem_pool_owns_01 (g_thread_pool s) t) as [| Ho]; [done |].
    apply mem_pool_owns_block in Ho; [| apply Hr | unfold sizeof_Thread in *; lia]. apply block_bounds in Ho; [| apply Hr].
    unfold sizeof_Thread in Hsz. lia.
Qed.

(** What [alloc_thread] promises of its result and final state. *)
Definition alloc_post (s : kst) (free live : list Z) (t : Z) (s1 : kst) : Prop :=
  creation_frame s s1 /\ threads s1 = threads s /\ next_thread_id s1 = next_thread_id s /\
  Kmem.cur (heap s) <= Kmem.cur (heap s1) <= Kmem.cur (heap s) + thread_cost /\ (mem_bytes (ram s) -> mem_bytes (ram s1)) /\
  mem_same_outside t (t + sizeof_Thread) (ram s) (ram s1) /\
  (t = nullptr /\ create_inv s1 free live /\ kend (heap s) < Kmem.cur (heap s) + thread_cost /\ ram s1 = ram s \/
   exists free', create_inv s1 free' live /\ fresh_object s1 free' live t /\
     (free = t :: free' /\ from_pool s1 t \/ free = free' /\ from_heap s1 t /\ Kmem.cur (heap s) <= t)).

Lemma alloc_thread_spec s free live :
  create_inv s free live -> let '(t, s1) := alloc_thread s in alloc_post s free live t s1.
Proof.
  intros H. pose proof H as [H1 H2 H3 H4]. unfold alloc_thread.
  assert (Hheap : free = [] -> let '(t, s1) := (let '(t, h) := kmem_alloc_aligned sizeof_Thread alignof_Thread (heap s) in (t, set_heap h s)) in
    alloc_post s free live t s1).
  { intros Hnil. pose proof (heap_thread_spec s free live H Hnil) as Hh.
    destruct (kmem_alloc_aligned sizeof_Thread alignof_Thread (heap s)) as [t h]. destruct Hh as (A1 & A2 & A3 & A4).
    split; [done | split; [done | split; [done | split; [done | split; [done | split; [done |]]]]]].
    destruct A4 as [[? ?] | (? & ? & ?)]; [by left | right]. exists free. split; [done | split; [done | by right]]. }
  destruct (Z.eqb_spec (g_thread_pool_inited s) 0) as [Hi | Hi]; cbn [negb].
  - rewrite Z.eqb_refl. apply Hheap, H3, Hi.
  - destruct (H2 Hi) as (Hr & Hs & Htop). destruct free as [|a free].
    + rewrite (pool_alloc_empty _ _ Hr). cbn [default id]. rewrite Z.eqb_refl.
      replace (set_ram (ram s) (set_g_thread_pool (g_thread_pool s) s)) with s by by destruct s.
      by apply Hheap.
    + clear Hheap. destruct (pool_alloc_cons _ _ _ _ Hr) as (p' & -> & Hr' & Ha0 & Hab & E1 & E2 & E3). cbn [default id].
      rewrite (proj2 (Z.eqb_neq _ _) Ha0). pose proof (rep_nodup _ _ _ Hr) as Hnd. apply NoDup_cons in Hnd as [Hna Hnd].
      pose proof (block_bounds _ _ (rep_geom _ _ _ Hr) Hab) as (Hb1 & Hb2 & Hb3).
      split; [done | split; [done | split; [done | split; [cbn; unfold thread_cost, sizeof_Thread, alignof_Thread; lia | split; [| split]]]]].
      { intros Hm. by apply mem_bytes_st64. }
      { cbn [ram set_ram]. apply mem_same_outside_st64; [lia | unfold sizeof_Thread; lia | done]. }
      right. exists free. split; [| split].
      * split; [done | | done |].
        -- intros _. cbn [g_thread_pool ram heap set_ram set_g_thread_pool]. by rewrite E1, E2, E3.
        -- intros x Hx. destruct (H4 x Hx) as (Hxf & ? & ?). split; [| done]. by apply objs_apart_cons in Hxf as [_ ?].
      * split; [done | split; [| split]].
        -- intros x Hx. destruct (H4 x Hx) as (Hxf & _). apply objs_apart_cons in Hxf as [Hxf _].
           apply objs_apart_sym in Hxf. apply Hxf. by left.
        -- intros x Hx. pose proof (proj1 (Forall_forall _ _) (rep_blocks _ _ _ Hr)) as Hbl.
           destruct (block_sep _ x a (rep_geom _ _ _ Hr)) as [? | ?]; [apply Hbl; by right | done | by intros -> | |];
             unfold sizeof_Thread in *; lia.
        -- cbn [heap set_ram set_g_thread_pool]. lia.
      * left. split; [done | split; [| done]]. unfold is_block, block_at in *. cbn [g_thread_pool set_ram set_g_thread_pool].
        by rewrite E1, E2, E3.
Qed.

Lemma alloc_thread_mmu s : mmu (alloc_thread s).2 = mmu s.
Proof.
  unfold alloc_thread. destruct (negb _).
  - destruct (mem_pool_alloc _ _) as [[t p] m]. destruct (t =? nullptr); [| done].
    by destruct (kmem_alloc_aligned _ _ _).
  - rewrite Z.eqb_refl. by destruct (kmem_alloc_aligned _ _ _).
Qed.

(** Giving the object back undoes the allocation. *)
Lemma free_thread_spec s free live t :
  create_inv s free live -> fresh_object s free live t -> from_pool s t \/ from_heap s t ->
  let s' := free_thread t s in
  creation_frame s s' /\ threads s' = threads s /\ heap s' = heap s /\
  mem_same_outside t (t + sizeof_Thread) (ram s) (ram s') /\
  create_inv s' (if decide (from_heap s t) then free else t :: free) live.
Proof.
  intros H (F1 & F2 & F3 & F4) Hfrom. unfold free_thread. destruct (decide (from_heap s t)) as [Hh | Hh].
  - replace (negb (g_thread_pool_inited s =? 0) && negb (mem_pool_owns (Some (g_thread_pool s)) t =? 0)) with false; [done |].
    destruct Hh as [-> | ->]; cbn [Z.eqb negb andb]; [done | by rewrite andb_false_r].
  - destruct Hfrom as [[Hb Hi] |]; [| done]. destruct (ci_pool _ _ _ H Hi) as (Hr & Hs & Htop).
    assert (Ht : 0 <= t < 2 ^ 64) by (pose proof (ci_heap _ _ _ H) as [? ?]; unfold sizeof_Thread in *; lia).
    rewrite (proj2 (mem_pool_owns_block _ _ (rep_geom _ _ _ Hr) Ht) Hb).
    rewrite (proj2 (Z.eqb_neq _ _) Hi). cbn [negb andb Z.eqb].
    destruct (pool_free_cons _ _ t _ Hr Hb (objs_apart_not_in _ _ F3)) as (p' & -> & Hr' & E1 & E2 & E3). cbn [default id].
    split; [done | split; [done | split; [done | split]]].
    { cbn [ram set_ram set_g_thread_pool]. apply mem_same_outside_st64; [lia | unfold sizeof_Thread; lia | done]. }
    destruct H as [H1 H2 H3 H4]. split; [done | | done |].
    + intros _. cbn [g_thread_pool ram heap set_ram set_g_thread_pool]. by rewrite E1, E2, E3.
    + intros x Hx. destruct (H4 x Hx) as (? & ? & ?). split; [| done]. apply objs_apart_cons. split; [| done].
      apply objs_apart_sym. intros y ->%list_elem_of_singleton. by apply F2.
Qed.

(** A block the pool gave is one [mem_pool_owns] recognises. *)
Lemma back_where_taken s free' live t free (P : Prop) :
  create_inv s free' live -> fresh_object s free' live t ->
  (free = t :: free' /\ from_pool s t \/ free = free' /\ from_heap s t /\ P) ->
  (if decide (from_heap s t) then free' else t :: free') = free.
Proof.
  intros Hi (Hpos & _ & _ & Htop) [[-> [Hb Hn]] | (-> & Hh & _)]; [| by rewrite decide_True].
  rewrite decide_False; [done |]. destruct (ci_pool _ _ _ Hi Hn) as (Hr & _). intros [| Ho]; [done |].
  assert (Ht : 0 <= t < 2 ^ 64) by (pose proof (ci_heap _ _ _ Hi) as [? ?]; unfold sizeof_Thread in *; lia).
  by rewrite (proj2 (mem_pool_owns_block _ _ (rep_geom _ _ _ Hr) Ht) Hb) in Ho.
Qed.

(** ** Writes of a creation *)

Lemma zero_loop_outside t n m : 0 <= n -> mem_same_outside t (t + n) m (for_range 0 n (fun i m => st8 (t + i) 0 m) m).
Proof.
  intros Hn. apply (for_range_ind (fun j m' => mem_same_outside t (t + n) m m')); [done | done |].
  intros j m' Hj H b Hb. rewrite ld8_st8_ne by lia. by apply H.
Qed.

Lemma zero_loop_bytes t n m : 0 <= n -> mem_bytes m -> mem_bytes (for_range 0 n (fun i m => st8 (t + i) 0 m) m).
Proof. intros Hn Hm. apply (for_range_ind (fun j m' => mem_bytes m')); auto using mem_bytes_st8. Qed.

Lemma push_pair_eq a b sp m :
  16 <= sp < 2 ^ 64 -> push_pair a b (sp, m) = (sp - 16, st64 (sp - 16 + 8) b (st64 (sp - 16) a m)).
Proof. intros H. unfold push_pair. rewrite (wrap64_small (sp - 16)) by lia. by rewrite wrap64_small by lia. Qed.

Lemma ld64_st64_at m a b v : a = b -> ld64 (st64 a v m) b = wrap64 v.
Proof. intros ->. apply ld64_st64_eq. Qed.

(** The memory after the six pushes. *)
Lemma initial_frame_spec tr top m :
  96 <= top < 2 ^ 64 -> 0 <= tr < 2 ^ 64 ->
  let '(sp, m') := initial_frame tr top m in
  sp = top - 96 /\ mem_same_outside (top - 96) top m m' /\ (mem_bytes m -> mem_bytes m') /\
  forall i, 0 <= i < 12 -> ld64 m' (sp + 8 * i) = if i =? 1 then tr else 0.
Proof.
  intros Ht Htr. unfold initial_frame. rewrite !push_pair_eq by lia.
  split; [lia | split; [| split]].
  - repeat (apply mem_same_outside_st64; [lia | lia |]). done.
  - auto 20 using mem_bytes_st64.
  - intros i Hi. destruct (elem_of_seqZ 0 12 i) as [_ Hin]. specialize (Hin ltac:(lia)). revert Hin.
    change (seqZ 0 12) with [0; 1; 2; 3; 4; 5; 6; 7; 8; 9; 10; 11]. rewrite !elem_of_cons, elem_of_nil.
    intros Hin. repeat destruct Hin as [-> | Hin]; try done;
      repeat first [rewrite ld64_st64_at by lia; cbn [Z.eqb Pos.eqb]; first [done | by apply wrap64_small] | rewrite ld64_st64_other by lia].
Qed.

(** The invariant reads the heap, the pool and its memory only. *)
Lemma create_inv_ext s s' free live :
  heap s' = heap s -> g_thread_pool s' = g_thread_pool s -> g_thread_pool_inited s' = g_thread_pool_inited s ->
  ram s' = ram s -> create_inv s free live -> create_inv s' free live.
Proof. intros E1 E2 E3 E4 []. split; rewrite ?E1, ?E2, ?E3, ?E4; done. Qed.

Lemma create_inv_live s free live t :
  create_inv s free live -> fresh_object s free live t -> create_inv s free (t :: live).
Proof.
  intros [] (? & _ & ? & ?). split; [done | done | done |]. intros a [-> | Ha]%elem_of_cons; [done | auto].
Qed.

Lemma zero_object_spec s free live t :
  create_inv s free live -> fresh_object s free live t ->
  create_inv (zero_object t s) free live /\ (mem_bytes (ram s) -> mem_bytes (ram (zero_object t s))) /\
  mem_same_outside t (t + sizeof_Thread) (ram s) (ram (zero_object t s)) /\
  thr (zero_object t s) t = zero_thread /\ (forall u, u <> t -> thr (zero_object t s) u = thr s u) /\
  creation_frame s (zero_object t s) /\ heap (zero_object t s) = heap s /\
  next_thread_id (zero_object t s) = next_thread_id s /\ g_thread_pool (zero_object t s) = g_thread_pool s /\
  g_thread_pool_inited (zero_object t s) = g_thread_pool_inited s.
Proof.
  intros H (_ & _ & Hf & _). assert (Hz : 0 <= sizeof_Thread) by done. split; [| split; [| split; [| split; [| split; [| done]]]]].
  - set (m := for_range 0 sizeof_Thread (fun i m => st8 (t + i) 0 m) (ram s)).
    apply (create_inv_ext (set_ram m s)); [done | done | done | done |].
    apply (create_inv_write _ _ _ t (t + sizeof_Thread)); [done | by apply zero_loop_outside |].
    right. intros x Hx. destruct (Hf x Hx); unfold sizeof_Thread in *; lia.
  - intros Hm. by apply zero_loop_bytes.
  - by apply zero_loop_outside.
  - unfold zero_object. by rewrite thr_upd_eq.
  - intros u Hu. unfold zero_object. by rewrite thr_upd_ne by auto.
Qed.

(** The object as creation leaves it. *)
Definition initial_thread (C : config) (s : kst) (sp entry arg stack size prio : Z) : Thread :=
  MkThread sp entry arg nullptr (next_thread_id s) stack size 5 (clamp_priority prio) (clamp_priority prio)
    kThreadReady nullptr nullptr nullptr 0 fp_zeros 0 0.

(** Memory and objects below the heap mark, outside the new object, are untouched. *)
Definition only_touches (t : Z) (s s' : kst) : Prop :=
  (forall a, a < Kmem.cur (heap s) -> ~ (t <= a < t + sizeof_Thread) -> ld8 (ram s) a = ld8 (ram s') a) /\
  (forall u, u <> t -> thr s' u = thr s u).

Lemma guard_after_frame stack size tr m sp m' :
  96 <= size -> stack mod 4096 = 0 -> 4096 <= stack -> stack + size < 2 ^ 62 -> mem_bytes m ->
  mem_same_outside sp (sp + 96) (stack_init_guard_and_watermark stack size m) m' -> mem_bytes m' ->
  sp = stack + size / 16 * 16 - 96 ->
  (forall i, 0 <= i < 12 -> ld64 m' (sp + 8 * i) = if i =? 1 then tr else 0) ->
  stack_guard_ok stack size m' = (160 <=? size).
Proof.
  intros Hsz Hmod Hst Htop Hm Hout Hm' Hsp Hw.
  assert (Hg : guard_len size = 64) by (unfold guard_len, kStackGuardBytes; destruct (Z.leb_spec 64 size); lia).
  assert (Hfresh : forall i, 0 <= i < 64 -> ~ (sp <= stack + i < sp + 96) -> ld8 m' (stack + i) = fresh_byte size i).
  { intros i Hi Hni. rewrite <- Hout by lia. rewrite stack_init_spec by lia.
    rewrite (proj2 (Z.leb_le _ _)), (proj2 (Z.ltb_lt _ _)) by lia. cbn [andb]. f_equal. lia. }
  destruct (Z.leb_spec 160 size).
  - apply stack_guard_ok_spec; [done | lia | lia |]. rewrite Hg. intros i Hi. apply Hfresh; [done |].
    assert (10 <= size / 16) by (apply Z.div_le_lower_bound; lia). lia.
  - apply not_true_iff_false. rewrite stack_guard_ok_spec by (done || lia). rewrite Hg. intros Hall.
    assert (Hq : 6 <= size / 16 <= 9) by (split; [apply Z.div_le_lower_bound | apply Z.lt_succ_r, Z.div_lt_upper_bound]; lia).
    specialize (Hall (size / 16 * 16 - 96) ltac:(lia)).
    replace (stack + (size / 16 * 16 - 96)) with (sp + 8 * 0) in Hall by lia.
    specialize (Hw 0 ltac:(lia)). rewrite ld64_bytes in Hw. cbn [Z.eqb] in Hw.
    assert (Hz : ld8 m' (sp + 8 * 0) = 0).
    { pose proof (Hm' (sp + 8 * 0)). pose proof (Hm' (sp + 8 * 0 + 1)). pose proof (Hm' (sp + 8 * 0 + 2)).
      pose proof (Hm' (sp + 8 * 0 + 3)). pose proof (Hm' (sp + 8 * 0 + 4)). pose proof (Hm' (sp + 8 * 0 + 5)).
      pose proof (Hm' (sp + 8 * 0 + 6)). pose proof (Hm' (sp + 8 * 0 + 7)). lia. }
    rewrite Hz in Hall. unfold fresh_byte in Hall. rewrite Hg in Hall.
    rewrite (proj2 (Z.ltb_lt _ _)) in Hall by lia.
    replace (size / 16 * 16 - 96) with ((size / 16 * 2 - 12) * 8) in Hall by lia. rewrite Z_mod_mult in Hall. done.
Qed.

Lemma stack_init_outside base size m : 0 < base -> 0 < size ->
  mem_same_outside base (base + size) m (stack_init_guard_and_watermark base size m).
Proof.
  intros Hb Hs a Ha. rewrite stack_init_spec by done. repeat bdestr; simpl; lia || done.
Qed.

Lemma stack_init_bytes base size m : 0 < base -> 0 < size -> mem_bytes m ->
  mem_bytes (stack_init_guard_and_watermark base size m).
Proof.
  intros Hb Hs Hm a. rewrite stack_init_spec by done. destruct (_ && _); [| apply Hm].
  unfold fresh_byte. destruct (_ <? _); [apply magic_byte_range | unfold kStackWatermark; lia].
Qed.

Lemma stack_top_eq stack size : stack mod 4096 = 0 -> 0 < stack -> 0 < size -> stack + size < 2 ^ 62 ->
  Z.land (stack +64 size) (~64 0xF) = stack + size / 16 * 16.
Proof.
  intros Hm Hs Hz Ht. rewrite wrap64_small by lia. change 15 with (2 ^ 4 - 1). rewrite land_lnot_ones by lia.
  change (2 ^ 4) with 16. zlia.
Qed.

Lemma init_thread_spec C t entry arg size prio sa s free live :
  create_inv s free live -> fresh_object s free live t -> thr s t = zero_thread ->
  0 <= trampoline C < 2 ^ 64 -> 0 < size -> 0 < sa -> sa mod 4096 = 0 -> sa + 4096 + size = Kmem.cur (heap s) ->
  t + sizeof_Thread <= sa -> (forall x, x ∈ free -> x + 8 <= sa) ->
  let s' := init_thread C t entry arg size prio sa s in
  let stack := sa + 4096 in
  let sp := stack + size / 16 * 16 - 96 in
  creation_frame s s' /\ create_inv s' free live /\ heap s' = heap s /\ mem_same_outside sa (Kmem.cur (heap s)) (ram s) (ram s') /\
  (forall u, u <> t -> thr s' u = thr s u) /\
  thr s' t = initial_thread C s sp entry arg stack size prio /\ next_thread_id s' = int32 (next_thread_id s + 1) /\
  (forall i, 0 <= i < 12 -> ld64 (ram s') (sp + 8 * i) = if i =? 1 then trampoline C else 0) /\
  (96 <= size -> mem_bytes (ram s) -> stack_guard_ok stack size (ram s') = (160 <=? size)) /\
  (mem_bytes (ram s) -> mem_bytes (ram s')) /\ mmu s' = (guard_page C sa (mmu s)).2.
Proof.
  intros Hi Hf Hz Htr Hs Hsa Hmod Hcur Ht Hfree. destruct (ci_heap _ _ _ Hi) as [_ Hend].
  unfold init_thread. cbn [ram set_ram set_mmu]. unfold kStackGuardPageBytes. rewrite (wrap64_small (sa + 4096)) by lia.
  set (stack := sa + 4096) in *. assert (Hsm : stack mod 4096 = 0) by (unfold stack; zlia).
  assert (Hge : 4096 < stack) by lia. rewrite stack_top_eq by lia.
  set (m1 := stack_init_guard_and_watermark stack size (ram s)).
  assert (Hq : 0 <= size / 16 * 16 <= size) by zlia.
  pose proof (initial_frame_spec (trampoline C) (stack + size / 16 * 16) m1 ltac:(lia) Htr) as Hfr.
  destruct (initial_frame _ _ _) as [sp m2]. destruct Hfr as (Hsp & Hout & Hbytes & Hwords). rewrite <- Hsp.
  assert (Hall : mem_same_outside sa (Kmem.cur (heap s)) (ram s) m2).
  { intros a Ha. rewrite <- Hout by lia. apply stack_init_outside; lia. }
  split; [done | split; [| split; [done | split; [done | split; [| split; [| split; [done | split; [done | split]]]]]]]].
  - apply (create_inv_ext (set_ram m2 s)); [done | done | done | done |].
    apply (create_inv_write _ _ _ sa (Kmem.cur (heap s))); [done | done |]. right. intros x Hx. left. by apply Hfree.
  - intros u Hu. cbn [threads]. exact (thr_upd_ne t _ _ u (not_eq_sym Hu)).
  - etrans; [apply (thr_upd_eq t) |]. unfold initial_thread.
    match goal with |- context [t_fpsimd_valid ?x] => change x with (thr s t) end. rewrite Hz. done.
  - intros H96 Hm. apply (guard_after_frame _ _ (trampoline C) (ram s) sp m2); try (done || lia).
    + replace (sp + 96) with (stack + size / 16 * 16) by lia. by rewrite Hsp.
    + apply Hbytes, stack_init_bytes; done || lia.
  - split; [| done]. intros Hm. apply Hbytes, stack_init_bytes; done || lia.
Qed.

Lemma free_below s free live x : create_inv s free live -> x ∈ free -> x + 8 <= Kmem.cur (heap s).
Proof.
  intros H Hx. destruct (Z.eq_dec (g_thread_pool_inited s) 0) as [Hi | Hi].
  - rewrite (ci_nopool _ _ _ H Hi) in Hx. by apply not_elem_of_nil in Hx.
  - destruct (ci_pool _ _ _ H Hi) as (Hr & Hs & Ht). unfold sizeof_Thread in Hs.
    pose proof (proj1 (Forall_forall _ _) (rep_blocks _ _ _ Hr) x Hx) as Hb.
    apply block_bounds in Hb as (_ & Hb & _); [lia | apply Hr].
Qed.

(** The last part of a creation: the stack, or the error path without one. *)
Definition stack_part (C : config) (t entry arg size prio : Z) (s : kst) : Z * kst :=
  let '(sa, h) := kmem_alloc_aligned (size + 4096) 4096 (heap s) in
  let s := set_heap h s in
  if sa =? nullptr then (nullptr, free_thread t (puts ("[sched][err] no memory for thread stack" ++ newline) s))
  else (t, log_created t (init_thread C t entry arg size prio sa s)).

(** Creation past the argument checks and the allocation of the object. *)
Lemma thread_create_prio_eq C entry arg size prio s :
  entry <> 0 -> 0 < size -> size + 4096 < 2 ^ 62 ->
  thread_create_prio C entry arg size prio s =
  let '(t, s) := alloc_thread (puts ("[diag] thread_create enter" ++ newline) s) in
  if t =? nullptr then (nullptr, puts ("[sched][err] no memory for Thread struct" ++ newline) s)
  else
    stack_part C t entry arg size prio (zero_object t s).
Proof.
  intros He Hs Ht. unfold thread_create_prio, nullptr. rewrite !(proj2 (Z.eqb_neq _ 0)) by lia. cbn [orb].
  destruct (alloc_thread _) as [t s1]. destruct (t =? 0); [done |]. cbv zeta. unfold kStackGuardPageBytes.
  rewrite (wrap64_small (size + 4096)) by lia. change (2 ^ 64 - 1 -64 4096) with 18446744073709547519.
  destruct (Z.ltb_spec 18446744073709547519 size); [lia |]. done.
Qed.

Lemma only_touches_intro t s s' lo hi :
  mem_same_outside lo hi (ram s) (ram s') ->
  (forall a, lo <= a < hi -> a < Kmem.cur (heap s) -> t <= a < t + sizeof_Thread) ->
  (forall u, u <> t -> thr s' u = thr s u) -> only_touches t s s'.
Proof. intros Hm Hin Ht. split; [| done]. intros a Ha Hna. apply Hm. intros Hx. apply Hna, Hin; lia. Qed.

Lemma only_touches_trans t s1 s2 s3 :
  Kmem.cur (heap s1) <= Kmem.cur (heap s2) -> only_touches t s1 s2 -> only_touches t s2 s3 -> only_touches t s1 s3.
Proof.
  intros Hc [A1 A2] [B1 B2]. split.
  - intros a Ha Hna. rewrite A1 by done. apply B1; [lia | done].
  - intros u Hu. by rewrite B2, A2.
Qed.

(** A creation from [s] that returned [t]: the object, its stack above the heap
    mark [mark], and the initial frame; [nullptr] only for want of memory, the free list
    then being [back]. *)
Definition result_post (C : config) (s : kst) (back live : list Z) (entry arg size prio t0 mark : Z) (t : Z) (s' : kst) : Prop :=
    if decide (t = nullptr)
    then create_inv s' back live /\ kend (heap s) < mark + 4096 + (size + 4096)
    else
      t = t0 /\ (exists free', (back = free' \/ back = t :: free') /\ create_inv s' free' (t :: live)) /\ (mem_bytes (ram s) -> mem_bytes (ram s')) /\
      exists stack, let sp := stack + size / 16 * 16 - 96 in
        mmu s' = (guard_page C (stack - 4096) (mmu s)).2 /\
        stack mod 4096 = 0 /\ mark + 4096 <= stack < mark + 8192 /\ stack + size = Kmem.cur (heap s') /\
        thr s' t = initial_thread C s sp entry arg stack size prio /\ next_thread_id s' = int32 (next_thread_id s + 1) /\
        (forall i, 0 <= i < 12 -> ld64 (ram s') (sp + 8 * i) = if i =? 1 then trampoline C else 0) /\
        (96 <= size -> mem_bytes (ram s) -> stack_guard_ok stack size (ram s') = (160 <=? size)).

Lemma stack_part_spec C t entry arg size prio s free live :
  create_inv s free live -> fresh_object s free live t -> from_pool s t \/ from_heap s t -> thr s t = zero_thread ->
  0 < size -> size + 4096 < 2 ^ 62 -> 0 <= trampoline C < 2 ^ 64 ->
  let '(t', s') := stack_part C t entry arg size prio s in
  creation_frame s s' /\ only_touches t s s' /\
  result_post C s (if decide (from_heap s t) then free else t :: free) live entry arg size prio t (Kmem.cur (heap s)) t' s'.
Proof.
  intros Hi Hf Hfrom Hz Hs Hmax Htr. unfold stack_part.
  pose proof (create_inv_heap s free live (size + 4096) 4096 Hi) as Hh. pose proof Hf as (Hpos & Hlive & Hfree & Htop).
  destruct (kmem_alloc_aligned (size + 4096) 4096 (heap s)) as [sa h]. change (eff_align 4096) with 4096 in Hh.
  destruct Hh as (Hi3 & Hk & Hend & Hcase); [unfold req_ok; simpl; lia |].
  destruct Hcase as [(-> & -> & Hno) | (Hsa & Hsum & Hle & Hmod & Hsa0)].
  - rewrite Z.eqb_refl. set (s3 := puts _ _).
    destruct (free_thread_spec s3 free live t) as (G1 & G2 & G3 & G4 & G5); [by apply (create_inv_ext s) | done | done |].
    split; [by apply (creation_frame_trans _ s3) | split; [| unfold result_post]].
    + apply (only_touches_intro t s _ t (t + sizeof_Thread)); [done | done |]. intros u _. unfold thr. by rewrite G2.
    + rewrite decide_True by done. split; [exact G5 | done].
  - rewrite (proj2 (Z.eqb_neq sa nullptr)) by (unfold nullptr; lia). set (s3 := set_heap h s) in *.
    destruct (init_thread_spec C t entry arg size prio sa s3 free live)
      as (I1 & I2 & I3 & I4 & I5 & I6 & I7 & I8 & I9 & I10);
      [done | | done | done | lia | lia | done | cbn [heap s3 set_heap]; lia | lia | |].
    { split; [done | split; [done | split; [done |]]]. cbn [heap s3 set_heap]. lia. }
    { intros x Hx. pose proof (free_below s free live x Hi Hx). lia. }
    set (s4 := init_thread C t entry arg size prio sa s3) in *. clearbody s4.
    split; [by apply (creation_frame_trans _ s3) | split; [| unfold result_post]].
    + apply (only_touches_intro t s _ sa (Kmem.cur h)); [exact I4 | intros a; lia | exact I5].
    + unfold nullptr. rewrite decide_False by lia. split; [done | split; [| split; [apply I10 |]]].
      * exists free. split; [destruct (decide _); auto |]. apply (create_inv_ext s4); [done | done | done | done |]. apply create_inv_live; [done |].
        unfold fresh_object. rewrite I3. cbn [heap s3 set_heap]. split; [done | split; [done | split; [done | lia]]].
      * exists (sa + 4096). cbv zeta. change (heap (log_created t s4)) with (heap s4). rewrite I3. cbn [heap s3 set_heap]. replace (sa + 4096 - 4096) with sa by lia.
        split; [apply I10 |]. split; [zlia | split; [lia | split; [lia | done]]].
Qed.

Lemma thread_create_spec C s free live entry arg size prio :
  create_inv s free live -> entry <> 0 -> 0 < size -> size + 4096 < 2 ^ 62 -> 0 <= trampoline C < 2 ^ 64 ->
  let '(t, s') := thread_create_prio C entry arg size prio s in
  exists t0 mark, (t0 ∈ free \/ Kmem.cur (heap s) <= t0) /\ Kmem.cur (heap s) <= mark <= Kmem.cur (heap s) + thread_cost /\
    creation_frame s s' /\ only_touches t0 s s' /\ (t <> nullptr -> objs_apart t live) /\
    result_post C s free live entry arg size prio t0 mark t s'.
Proof.
  intros Hi He Hs Hmax Htr. rewrite thread_create_prio_eq by done. set (s0 := puts _ s).
  assert (Hi0 : create_inv s0 free live) by (by apply (create_inv_ext s)).
  pose proof (alloc_thread_spec s0 free live Hi0) as Ha. pose proof (alloc_thread_mmu s0) as Hmm. destruct (alloc_thread s0) as [t s1]. cbn [snd] in Hmm. change (mmu s0) with (mmu s) in Hmm.
  destruct Ha as (Hf1 & Ht1 & Hid1 & Hc1 & Hb1 & Hm1 & Ha).
  change (creation_frame s s1) in Hf1. change (threads s1 = threads s) in Ht1. change (next_thread_id s1 = next_thread_id s) in Hid1.
  change (heap s0) with (heap s) in *. change (ram s0) with (ram s) in *. clearbody s0.
  destruct Ha as [(-> & Hi1 & Hend & Hram) | (free' & Hi1 & Hf & Hfrom)].
  - exists (Kmem.cur (heap s)), (Kmem.cur (heap s)). split; [right; lia | split; [unfold thread_cost, sizeof_Thread, alignof_Thread; lia | split; [done | split; [| split; [done |]]]]].
    + split; [intros a _ _; cbn [ram puts set_out]; by rewrite Hram | intros u _; unfold thr; cbn [threads puts set_out]; by rewrite Ht1].
    + unfold result_post. rewrite decide_True by done. split; [by apply (create_inv_ext s1) | unfold thread_cost, sizeof_Thread, alignof_Thread in *; lia].
  - pose proof Hf as (Hpos & Hlive & Hfree & Htop). unfold nullptr. rewrite (proj2 (Z.eqb_neq t 0)) by lia. cbv zeta.
    destruct (zero_object_spec s1 free' live t Hi1 Hf) as (Hi2 & Hb2 & Hm2 & Hz & Hu2 & Hf2 & Hh2 & Hid2 & Hp2 & Hg2).
    assert (Hm2' : mmu (zero_object t s1) = mmu s) by exact Hmm.
    set (s2 := zero_object t s1) in *. clearbody s2.
    assert (Ht0 : t ∈ free \/ Kmem.cur (heap s) <= t).
    { destruct Hfrom as [[-> _] | (_ & _ & ?)]; [left; by left | by right]. }
    assert (Ho2 : only_touches t s s2).
    { apply (only_touches_trans t s s1); [lia | |].
      - apply (only_touches_intro t s s1 t (t + sizeof_Thread)); [done | done | intros u _; unfold thr; by rewrite Ht1].
      - by apply (only_touches_intro t s1 s2 t (t + sizeof_Thread)). }
    assert (Hfrom' : from_pool s1 t \/ from_heap s1 t) by (destruct Hfrom as [[_ ?] | (_ & ? & _)]; auto).
    pose proof (back_where_taken s1 free' live t free (Kmem.cur (heap s) <= t) Hi1 Hf Hfrom) as Hback.
    pose proof (stack_part_spec C t entry arg size prio s2 free' live Hi2) as Hsp.
    unfold fresh_object, from_pool, from_heap in *. rewrite Hh2, Hp2, Hg2 in Hsp.
    specialize (Hsp Hf Hfrom' Hz Hs Hmax Htr). destruct (stack_part _ _ _ _ _ _ _) as [t' s'].
    destruct Hsp as (P1 & P2 & P3).
    exists t, (Kmem.cur (heap s1)). split; [done | split; [lia | split; [| split; [| split]]]].
    + apply (creation_frame_trans _ s1); [done |]. by apply (creation_frame_trans _ s2).
    + by apply (only_touches_trans t s s2); [rewrite Hh2; lia | |].
    + intros Hne. unfold result_post in P3. rewrite decide_False in P3 by done. by destruct P3 as (-> & _).
    + unfold result_post in *. destruct (decide (t' = nullptr)).
      * destruct P3. split; [by rewrite <- Hback |]. assert (kend (heap s1) = kend (heap s)) by apply Hf1. by rewrite Hh2 in *; lia.
      * unfold initial_thread in *. rewrite Hid2, Hid1 in P3. rewrite Hm2' in P3. destruct P3 as (-> & P4 & Pb & stack & A0 & A1 & A2 & A3 & A4 & A5 & A6 & A7).
        rewrite Hback in P4.
        split; [done | split; [done | split; [auto |]]]. exists stack. split; [exact A0 |]. repeat (split; [done |]). intros H96 Hm. by apply A7, Hb2, Hb1.
Qed.


(** ** The thread pool *)

Lemma sched_init_bytes s s' : sched_init s = Some s' -> mem_bytes (ram s) -> mem_bytes (ram s').
Proof.
  unfold sched_init. cbv zeta. cbn [heap set_heap set_g_thread_pool_inited set_rq_head set_rq_tail set_next_thread_id].
  destruct (kmem_alloc_aligned _ _ _) as [b h]. destruct (b =? nullptr); [by intros [= <-] |].
  cbn [ram g_thread_pool set_heap set_g_thread_pool_inited set_rq_head set_rq_tail set_next_thread_id].
  destruct (mem_pool_init _ _ _ _ _) as [[[r p] m] |] eqn:E; [| discriminate]. cbn [mbind option_bind]. intros Hs Hm.
  pose proof (mem_pool_init_bytes _ _ _ _ _ _ _ _ E Hm). injection Hs as <-. by destruct (r =? 0).
Qed.

(** What [sched_init] leaves alone. *)
Lemma sched_init_frame s s' : sched_init s = Some s' ->
  threads s' = threads s /\ cpu s' = cpu s /\ mmu s' = mmu s /\ daif s' = daif s /\ out s' = out s /\ hw s' = hw s /\ kend (heap s') = kend (heap s).
Proof.
  unfold sched_init. cbv zeta. cbn [heap set_heap set_g_thread_pool_inited set_rq_head set_rq_tail set_next_thread_id].
  pose proof (kmem_alloc_kend kThreadPoolBytes kThreadPoolAlign (heap s)) as Hk.
  destruct (kmem_alloc_aligned _ _ _) as [b h]. cbn [snd] in Hk. destruct (b =? nullptr); [by intros [= <-] |].
  destruct (mem_pool_init _ _ _ _ _) as [[[r p] m] |]; [| discriminate]. cbn [mbind option_bind]. intros [= <-]. by destruct (r =? 0).
Qed.

Lemma sched_init_spec s :
  kmem_wf (heap s) ->
  exists s', sched_init s = Some s' /\ rq_head s' = nullptr /\ rq_tail s' = nullptr /\ next_thread_id s' = 1 /\
    threads s' = threads s /\ cpu s' = cpu s /\
    exists backing,
      if decide (g_thread_pool_inited s' = 0)
      then create_inv s' [] [] /\ heap s' = heap s /\ kend (heap s) < Kmem.cur (heap s) + 16 + 20496
      else create_inv s' (blocks_desc backing 640 32) [] /\
           Kmem.cur (heap s) <= backing < Kmem.cur (heap s) + 16 /\ Kmem.cur (heap s') = backing + 20496.
Proof.
  intros Hwf. unfold sched_init. cbv zeta. cbn [heap set_heap set_g_thread_pool_inited set_rq_head set_rq_tail set_next_thread_id].
  change kThreadPoolBytes with 20496. change kThreadPoolAlign with 16. change kThreadPoolBlockSize with 640.
  assert (Hr : req_ok (20496, 16)) by (unfold req_ok; simpl; lia).
  pose proof (kmem_alloc_cases 20496 16 _ Hwf Hr) as Hc. pose proof (kmem_alloc_wf 20496 16 _ Hwf Hr) as Hw.
  destruct (kmem_alloc_aligned 20496 16 (heap s)) as [b h]. change (eff_align 16) with 16 in Hc. cbn [snd] in Hw.
  destruct Hc as [(-> & -> & Hno) | (Hb & Hmod & _ & Hend & ->)].
  - eexists. split; [done |]. repeat (split; [done |]). exists 0. rewrite decide_True by done. split; [| split; [done | lia]].
    split; [done | done | done |]. by intros a ?%not_elem_of_nil.
  - destruct Hwf as [Hpos Hmax]. unfold nullptr. rewrite (proj2 (Z.eqb_neq b 0)) by lia.
    cbn [ram g_thread_pool set_heap set_g_thread_pool_inited set_rq_head set_rq_tail set_next_thread_id].
    destruct (mem_pool_init_spec (g_thread_pool s) b 20496 640 (ram s)) as (r & p & m & -> & Hcase); [lia | lia | lia | lia | lia |].
    cbn [mbind option_bind default id]. destruct Hcase as [(-> & _ & Hrep & Hbase & Hbs & Hcount & _) | (_ & _ & _ & [?|?])]; [| lia | lia].
    pose proof (rep_geom _ _ _ Hrep) as Hg. destruct (geom_base _ Hg) as [_ Hb16], (geom_size _ Hg) as [_ Hs16].
    assert (Ebs : block_size p = 640) by zlia. assert (Eb : base p = b) by zlia. rewrite Ebs, Eb in *.
    assert (Ec : block_count p = 32) by lia. rewrite Ec in Hrep.
    eexists. split; [done |]. repeat (split; [done |]). exists b. rewrite decide_False by done.
    cbn [Z.eqb heap set_heap set_g_thread_pool_inited set_ram set_g_thread_pool Kmem.cur]. split; [| lia].
    split; [done | | done | by intros a ?%not_elem_of_nil]. intros _.
    cbn [heap ram g_thread_pool set_heap set_g_thread_pool_inited set_ram set_g_thread_pool Kmem.cur]. rewrite Ebs, Eb, Ec.
    split; [exact Hrep | unfold sizeof_Thread; lia].
Qed.

(** [sched_init] on a well-formed heap returns with an empty run queue and
    thread ids starting at 1; if the heap has room for it the pool holds 32
    free blocks of 640 bytes at the old heap mark, rounded up to 16, and
    otherwise the pool stays unused; either way threads can be created. *)
Theorem sched_init_correct s :
  kmem_wf (heap s) ->
  exists s', sched_init s = Some s' /\ rq_head s' = nullptr /\ rq_tail s' = nullptr /\ next_thread_id s' = 1 /\
    threads s' = threads s /\ cpu s' = cpu s /\
    exists backing,
      if decide (g_thread_pool_inited s' = 0)
      then create_inv s' [] [] /\ heap s' = heap s /\ kend (heap s) < Kmem.cur (heap s) + 16 + 20496
      else create_inv s' (blocks_desc backing 640 32) [] /\
           Kmem.cur (heap s) <= backing < Kmem.cur (heap s) + 16 /\ Kmem.cur (heap s') = backing + 20496.
Proof. apply sched_init_spec. Qed.

(** ** Concrete runs *)

Definition demo_create_cfg : config := Config true true false (fun _ u => (0, u)) 0x40081000 0x40082000.

Definition demo_boot : kst := boot_state (Kmem 0x41000000 0x42000000) ∅ (Mmu ∅ 0 0 []).

Lemma demo_boot_inv : create_inv demo_boot [] [].
Proof. split; [done | done | done |]. by intros a ?%not_elem_of_nil. Qed.

Lemma sched_init_correct_witness :
  exists s', sched_init demo_boot = Some s' /\ rq_head s' = nullptr /\ rq_tail s' = nullptr /\ next_thread_id s' = 1 /\
    threads s' = threads demo_boot /\ cpu s' = cpu demo_boot /\
    exists backing,
      if decide (g_thread_pool_inited s' = 0)
      then create_inv s' [] [] /\ heap s' = heap demo_boot /\
           kend (heap demo_boot) < Kmem.cur (heap demo_boot) + 16 + 20496
      else create_inv s' (blocks_desc backing 640 32) [] /\
           Kmem.cur (heap demo_boot) <= backing < Kmem.cur (heap demo_boot) + 16 /\ Kmem.cur (heap s') = backing + 20496.
Proof. apply (sched_init_correct demo_boot). vm_compute. done. Defined.

