(* ===== verification/Spawn.v ===== *)
(** * Starting threads

    [thread_create_prio] followed by [sched_add] is how the kernel and every
    demonstration start their threads, and [sched_start] is how the first of them
    gets the processor.  [booting] is what holds from [sched_init] on: heap, pool,
    run queue and the stacks of the threads created so far fit together. *)

From Stdlib Require Import String.
From S2P Require Import Prelude Mem Kmem MemPool Pte Uart Kstate Runq Stack Sched Thread.

(** A thread that has not run: its stack is above the pool and below the heap
    mark, the guard pattern is intact, and the frame [arch_switch] pops leads to
    the trampoline. *)
Record unstarted (C : config) (s : kst) (free : list Z) (t : Z) : Prop := {
  us_size : 160 <= t_stack_size (thr s t);
  us_base : 0 < t_stack_base (thr s t);
  us_top : t_stack_base (thr s t) + t_stack_size (thr s t) <= Kmem.cur (heap s);
  us_free : forall x, x ∈ free -> x + sizeof_Thread <= t_stack_base (thr s t);
  us_guard : thread_guard_ok s t = true;
  us_sp : t_stack_base (thr s t) <= t_sp (thr s t) /\ t_sp (thr s t) + 96 <= t_stack_base (thr s t) + t_stack_size (thr s t);
  us_frame : forall i, 0 <= i < 12 -> ld64 (ram s) (t_sp (thr s t) + 8 * i) = if i =? 1 then trampoline C else 0
}.

(** [live]: the threads created; [l]: those queued, in order. *)
Record booting (C : config) (s : kst) (free live l : list Z) : Prop := {
  bt_create : create_inv s free live;
  bt_sched : sched_inv s l;
  bt_idle : cur s = nullptr;
  bt_sub : forall t, t ∈ l -> t ∈ live;
  bt_bytes : mem_bytes (ram s);
  bt_stacks : forall t, t ∈ live -> unstarted C s free t
}.

Lemma guard_ok_frame base size m m' :
  mem_bytes m -> mem_bytes m' -> 0 < base -> 0 < size -> (forall a, base <= a < base + size -> ld8 m a = ld8 m' a) ->
  stack_guard_ok base size m = true -> stack_guard_ok base size m' = true.
Proof.
  intros Hm Hm' Hb Hs E. rewrite !stack_guard_ok_spec by done. intros H i Hi. rewrite <- E; [by apply H |].
  pose proof (guard_len_bounds size). lia.
Qed.

Lemma guard_ok_thread s t : t <> nullptr ->
  thread_guard_ok s t = stack_guard_ok (t_stack_base (thr s t)) (t_stack_size (thr s t)) (ram s).
Proof. intros Ht. unfold thread_guard_ok. by rewrite (proj2 (Z.eqb_neq _ _) Ht). Qed.

(** A thread keeps waiting when its fields and the bytes of its stack stay. *)
Lemma unstarted_frame C s s' free free' t :
  unstarted C s free t -> mem_bytes (ram s) -> mem_bytes (ram s') -> t <> nullptr ->
  t_stack_base (thr s' t) = t_stack_base (thr s t) -> t_stack_size (thr s' t) = t_stack_size (thr s t) -> t_sp (thr s' t) = t_sp (thr s t) ->
  Kmem.cur (heap s) <= Kmem.cur (heap s') -> (forall x, x ∈ free' -> x ∈ free) ->
  (forall a, t_stack_base (thr s t) <= a < t_stack_base (thr s t) + t_stack_size (thr s t) -> ld8 (ram s) a = ld8 (ram s') a) ->
  unstarted C s' free' t.
Proof.
  intros [] Hm Hm' Ht Eb Es Ep Hc Hf E. rewrite guard_ok_thread in us_guard0 by done.
  split; rewrite ?guard_ok_thread, ?Eb, ?Es, ?Ep by done; try done.
  - lia.
  - auto.
  - apply (guard_ok_frame _ _ (ram s)); done || lia.
  - intros i Hi. rewrite <- us_frame0 by done. symmetry. apply ld64_ext. intros j Hj. apply E. lia.
Qed.

(** Steps that touch neither memory nor the heap nor the threads' stacks. *)
Lemma booting_frame C s s' free live l l' :
  booting C s free live l -> sched_inv s' l' -> cur s' = nullptr -> (forall t, t ∈ l' -> t ∈ live) ->
  ram s' = ram s -> heap s' = heap s -> g_thread_pool s' = g_thread_pool s -> g_thread_pool_inited s' = g_thread_pool_inited s ->
  (forall t, t_stack_base (thr s' t) = t_stack_base (thr s t) /\ t_stack_size (thr s' t) = t_stack_size (thr s t) /\ t_sp (thr s' t) = t_sp (thr s t)) ->
  booting C s' free live l'.
Proof.
  intros [] Hs Hcur Hsub Er Eh Ep Ei Et. split; try done.
  - by apply (create_inv_ext s).
  - by rewrite Er.
  - intros t Ht. pose proof (ci_live _ _ _ bt_create0 t Ht) as (_ & Hpos & _). destruct (Et t) as (E1 & E2 & E3).
    apply (unstarted_frame C s s' free free t); rewrite ?Er, ?Eh; unfold nullptr; try done; auto; lia.
Qed.

Lemma pool_blocks_below s free live x : create_inv s free live -> x ∈ free -> x + sizeof_Thread <= Kmem.cur (heap s).
Proof.
  intros H Hx. destruct (Z.eq_dec (g_thread_pool_inited s) 0) as [Hi | Hi].
  - rewrite (ci_nopool _ _ _ H Hi) in Hx. by apply not_elem_of_nil in Hx.
  - destruct (ci_pool _ _ _ H Hi) as (Hr & Hs & Ht).
    pose proof (proj1 (Forall_forall _ _) (rep_blocks _ _ _ Hr) x Hx) as Hb.
    apply block_bounds in Hb as (_ & Hb & _); [lia | apply Hr].
Qed.

Lemma booting_out C s free live l o : booting C s free live l -> booting C (set_out o s) free live l.
Proof.
  intros HB. pose proof HB as [_ HS Hi Hsub _ _]. apply (booting_frame C s _ _ _ _ _ HB); try done. by apply (sched_inv_same s).
Qed.

(** Heap a creation may take, with its alignments and the guard page. *)
Definition spawn_cost (size : Z) : Z := thread_cost + 8192 + size.

(** The thread a creation leaves. *)
Definition created (s s' : kst) (t entry arg size prio : Z) : Prop :=
  let x := thr s' t in
  t_entry x = entry /\ t_arg x = arg /\ t_stack_size x = size /\ t_id x = next_thread_id s /\
  t_base_priority x = clamp_priority prio /\ t_effective_priority x = clamp_priority prio /\
  t_state x = kThreadReady /\ t_budget x = kQuantumTicks.

Lemma clamp_range p : 0 <= clamp_priority p <= kMaxPriority.
Proof. unfold clamp_priority, kMaxPriority. destruct (Z.ltb_spec p 0), (Z.ltb_spec 31 p); lia. Qed.

(** Creating a thread when the heap has room. *)
Lemma spawn_spec C s free live l entry arg size prio :
  booting C s free live l -> entry <> 0 -> 160 <= size -> size + 4096 < 2 ^ 62 -> 0 <= trampoline C < 2 ^ 64 ->
  Kmem.cur (heap s) + spawn_cost size <= kend (heap s) ->
  exists t s' free', thread_create_prio C entry arg size prio s = (t, s') /\ t <> nullptr /\ (t ∉ live) /\
    booting C s' free' (t :: live) l /\ created s s' t entry arg size prio /\ creation_frame s s' /\
    (forall u, u <> t -> thr s' u = thr s u) /\ threads s' !! t <> None /\
    Kmem.cur (heap s') <= Kmem.cur (heap s) + spawn_cost size /\
    mmu s' = (guard_page C (t_stack_base (thr s' t) - 4096) (mmu s)).2 /\
    t_stack_base (thr s' t) mod 4096 = 0 /\ Kmem.cur (heap s) + 4096 <= t_stack_base (thr s' t) /\ t_stack_base (thr s' t) + size <= Kmem.cur (heap s') /\
    (forall x, x ∈ free' -> x ∈ free) /\ (t ∈ free \/ Kmem.cur (heap s) <= t) /\ only_touches t s s'.
Proof.
  intros [Hci Hsi Hidle Hsub Hm Hst] He Hsz Hmax Htr Hroom.
  pose proof (thread_create_spec C s free live entry arg size prio Hci He ltac:(lia) Hmax Htr) as H.
  destruct (thread_create_prio C entry arg size prio s) as [t s']. destruct H as (t0 & mark & Ht0 & Hmark & Hfr & [Hmem Hthr] & Hap & Hres).
  unfold result_post in Hres. unfold spawn_cost in *. destruct (decide (t = nullptr)) as [-> | Hne].
  { destruct Hres as (_ & Hno). lia. }
  destruct Hres as (-> & (free' & Hfree & Hci') & Hb' & stack & Hmmu & Hsm & Hs1 & Hs2 & Hth & _ & Hw & Hg).
  specialize (Hb' Hm). specialize (Hg ltac:(lia) Hm). rewrite (proj2 (Z.leb_le _ _)) in Hg by lia.
  set (sp := stack + size / 16 * 16 - 96) in *. assert (Hq : 160 <= size / 16 * 16 <= size) by zlia.
  pose proof (ci_heap _ _ _ Hci) as [Hc0 Hc1].
  assert (Hsub' : forall x, x ∈ free' -> x ∈ free) by (destruct Hfree as [-> | ->]; [done | intros x Hx; by right]).
  assert (Hnl : t0 ∉ live) by (by apply objs_apart_not_in, Hap).
  assert (Hk : threads s' !! t0 <> None) by (intros E; unfold thr in Hth; rewrite E in Hth; apply (f_equal t_entry) in Hth; by cbn in Hth).
  exists t0, s', free'. split; [done | split; [done | split; [done |]]].
  assert (Hx : t_stack_base (thr s' t0) = stack /\ t_stack_size (thr s' t0) = size /\ t_sp (thr s' t0) = sp) by (by rewrite Hth).
  destruct Hx as (Xb & Xs & Xp). split.
  { split.
    - done.
    - pose proof Hfr as (F1 & F2 & F3 & _). destruct Hsi as [R1 R2 R3 R4]. assert (Hcur : cur s' = cur s) by (unfold cur; by rewrite F3).
      assert (Hnext : forall u, nxt s' u = nxt s u).
      { intros u. unfold nxt. destruct (Z.eq_dec u t0) as [-> | Hu]; [| by rewrite Hthr]. rewrite Hth. symmetry. apply (rq_off _ _ R1). by intros ?%Hsub. }
      split.
      + destruct R1. split; rewrite ?F1, ?F2; try done.
        * by apply (linked_ext (nxt s)).
        * intros u Hu E. pose proof (us_size _ _ _ _ (Hst u (Hsub u Hu))) as Hz.
          rewrite <- Hthr in Hz by (intros ->; by apply Hnl, Hsub). unfold thr in Hz. by rewrite E in Hz.
        * intros u Hu. rewrite Hnext. auto.
      + intros u Hu. rewrite Hthr; [by apply R2 |]. intros ->. by apply Hnl, Hsub.
      + intros u. destruct (Z.eq_dec u t0) as [-> | Hu]; [| rewrite Hthr by done; apply R3].
        rewrite Hth. unfold prio_ok, initial_thread. cbn. pose proof (clamp_range prio). lia.
      + by rewrite Hcur, Hidle.
    - unfold cur. by rewrite (proj1 (proj2 (proj2 Hfr))).
    - intros u Hu. right. by apply Hsub.
    - done.
    - intros u [-> | Hu]%elem_of_cons.
      + split; rewrite ?guard_ok_thread, ?Xb, ?Xs, ?Xp by done; try done; try lia.
        intros x Hxf. pose proof (pool_blocks_below s free live x Hci (Hsub' x Hxf)). lia.
      + pose proof (Hst u Hu) as Hus. pose proof Hus as []. assert (Hut : u <> t0) by (by intros ->).
        apply (unstarted_frame C s s' free free' u); rewrite ?Hthr by done; try done; [pose proof (ci_live _ _ _ Hci u Hu) as (_ & Hu0 & _); unfold nullptr; lia | lia |].
        intros a Ha. apply Hmem; [lia |]. destruct Ht0 as [Ht0 | Ht0]; [pose proof (us_free0 t0 Ht0); lia | lia]. }
  split; [unfold created; by rewrite Hth | split; [done | split; [done | split; [done |]]]]. rewrite Xb.
  split; [lia | split; [done | split; [done | split; [lia | split; [lia | split; [done | split; [done | by split]]]]]]].
Qed.

(** Queueing a thread that waits. *)
Lemma sched_add_spec C s free live l t :
  booting C s free live l -> t ∈ live -> t ∉ l -> t <> nullptr -> threads s !! t <> None -> t_state (thr s t) = kThreadReady ->
  booting C (sched_add t s) free live (l ++ [t]) /\ same_but_queue s (sched_add t s).
Proof.
  intros Hb Hl Hnl Hne Hk Hr. pose proof Hb as [Hci [R1 R2 R3 R4] Hidle Hsub Hm Hst].
  unfold sched_add. rewrite (proj2 (Z.eqb_neq _ _) Hne), Hr, Z.eqb_refl. cbn [negb]. cbv zeta.
  destruct (rq_append_spec s l t R1 Hne Hnl Hk) as [Q1 Q2]. split; [| exact Q2]. destruct Q2 as (nx & Q2 & Q3 & Q4).
  assert (E : forall u, t_state (thr (rq_append t s) u) = t_state (thr s u) /\ prio_ok (thr (rq_append t s) u) = prio_ok (thr s u)) by (intros u; by rewrite Q2).
  apply (booting_frame C s _ free live l (l ++ [t]) Hb).
  - split; [exact Q1 | | |].
    + intros u Hu. rewrite (proj1 (E u)). apply elem_of_app in Hu as [Hu | ->%list_elem_of_singleton]; auto.
    + intros u. rewrite (proj2 (E u)). apply R3.
    + intros Hc. exfalso. apply Hc. rewrite Q4. exact Hidle.
  - rewrite Q4. exact Hidle.
  - intros u [Hu | ->%list_elem_of_singleton]%elem_of_app; auto.
  - by rewrite Q4.
  - by rewrite Q4.
  - by rewrite Q4.
  - by rewrite Q4.
  - intros u. by rewrite Q2.
Qed.

(** ** The first thread *)

(** The state [sched_start] hands to the thread it picks. *)
Definition started (t : Z) (s : kst) : kst := upd_cpu (set_current_thread t) (upd_thr t (set_t_budget kQuantumTicks) s).

Lemma sched_start_spec prio s t :
  (if prio : bool then prio_pick_next nullptr false false s = Some t else rq_head s = t) -> t <> nullptr ->
  exists k, sched_start prio s = KSwitch nullptr t (started t s) k.
Proof.
  intros Hp Hne. unfold sched_start, get, of_opt, mbind, K_bind, mret, K_ret, modify, arch_switch. cbn [kbind].
  destruct prio; rewrite Hp; cbn [kbind]; rewrite (proj2 (Z.eqb_neq _ _) Hne); cbn [kbind]; by eexists.
Qed.

(** The first thread runs in a state the scheduler and the interrupt handler
    can work with. *)
Lemma started_spec C s free live l t :
  booting C s free live l -> t ∈ l -> t <> nullptr ->
  sched_inv (started t s) l /\ cur (started t s) = t /\ thread_guard_ok (started t s) t = true /\
  (forall u, u ∈ live -> u <> nullptr -> unstarted C (started t s) free u).
Proof.
  intros [Hci [R1 R2 R3 R4] Hidle Hsub Hm Hst] Ht Hne. unfold started.
  set (s1 := upd_thr t (set_t_budget kQuantumTicks) s).
  assert (E : forall u, t_state (thr s1 u) = t_state (thr s u) /\ prio_ok (thr s1 u) = prio_ok (thr s u) /\
    t_stack_base (thr s1 u) = t_stack_base (thr s u) /\ t_stack_size (thr s1 u) = t_stack_size (thr s u) /\ t_sp (thr s1 u) = t_sp (thr s u)).
  { intros u. unfold s1. rewrite thr_upd. by destruct (t =? u). }
  assert (U : forall u, u ∈ live -> u <> nullptr -> unstarted C (upd_cpu (set_current_thread t) s1) free u).
  { intros u Hu Hu0. destruct (E u) as (_ & _ & E1 & E2 & E3). by apply (unstarted_frame C s _ free free u (Hst u Hu) Hm). }
  split; [| split; [done | split; [| exact U]]].
  - split; [by apply rq_rep_cpu, rq_rep_upd | | |].
    + intros u Hu. change (thr (upd_cpu _ s1) u) with (thr s1 u). rewrite (proj1 (E u)). by apply R2.
    + intros u. change (thr (upd_cpu _ s1) u) with (thr s1 u). rewrite (proj1 (proj2 (E u))). apply R3.
    + done.
  - apply (us_guard _ _ _ _ (U t (Hsub t Ht) Hne)).
Qed.

(** [sched_init] starts it all. *)
Lemma booting_init C s :
  kmem_wf (heap s) -> threads s = ∅ -> cur s = nullptr -> mem_bytes (ram s) ->
  Kmem.cur (heap s) + 20512 <= kend (heap s) ->
  exists s' free, sched_init s = Some s' /\ booting C s' free [] [] /\ threads s' = ∅ /\ next_thread_id s' = 1 /\
    cpu s' = cpu s /\ mmu s' = mmu s /\ daif s' = daif s /\ out s' = out s /\ kend (heap s') = kend (heap s) /\
    Kmem.cur (heap s) <= Kmem.cur (heap s') <= Kmem.cur (heap s) + 20512.
Proof.
  intros Hwf Ht Hc Hm Hroom.
  destruct (sched_init_spec s Hwf) as (s' & E & H1 & H2 & H3 & H4 & H5 & b & Hb).
  destruct (sched_init_frame s s' E) as (_ & _ & F1 & F2 & F3 & _ & F5). pose proof (sched_init_bytes s s' E Hm) as Hm'.
  assert (Hz : forall t, thr s' t = zero_thread) by (intros t; unfold thr; by rewrite H4, Ht).
  assert (Hci : exists free, create_inv s' free [] /\ Kmem.cur (heap s) <= Kmem.cur (heap s') <= Kmem.cur (heap s) + 20512).
  { destruct (decide _) as [| _]; [destruct Hb as (? & -> & ?); eexists; split; [done | lia] | destruct Hb as (? & ? & ?); eexists; split; [done | lia]]. }
  destruct Hci as (free & Hci & Hle). exists s', free. split; [done | split; [| by rewrite H4]].
  assert (Hcur : cur s' = nullptr) by (unfold cur; by rewrite H5).
  split; [exact Hci | | exact Hcur | by intros t ?%not_elem_of_nil | exact Hm' | by intros t ?%not_elem_of_nil].
  split; [apply rq_rep_empty; [done | done |]; intros t; unfold nxt; by rewrite Hz | by intros t ?%not_elem_of_nil | | by rewrite Hcur].
  intros t. rewrite Hz. unfold prio_ok, kMaxPriority. cbn. lia.
Qed.
