(* ===== verification/Cache.v ===== *)
(** * [src/src/arch/aarch64/barrier.cc]: cache maintenance over a write-back data cache

    The kernel's other components see memory through one view and need no cache;
    DMA is about two views of one memory.  Here memory is the point of coherency
    [pmem] with a write-back, write-allocate data cache in front of it: loads and
    stores through a cacheable mapping go to the line, through any other mapping
    to [pmem]; [dc cvac] writes a dirty line back, [dc ivac] drops it.  Between
    any two accesses the hardware may fetch any line or evict any line
    ([noise], over which every theorem quantifies). *)

From Stdlib Require Import Sorting.Sorted.
From S2P Require Import Prelude Mem.

(** ** The machine *)

(** A cached line: the bytes of the line within [bytes]. *)
Record cline := CLine {
  dirty : bool;
  bytes : mem
}.

Inductive hwev :=
| HFill (n : Z)
| HEvict (n : Z).

(** Barriers and maintenance instructions, in program order. *)
Inductive bop :=
| DMB_ISH
| DSB_ISH
| DMB_OSHST
| DMB_OSHLD
| DC_CVAC (a : Z)
| DC_CIVAC (a : Z)
| DC_IVAC (a : Z).

Record msys := Msys {
  pmem : mem;
  cache : gmap Z cline;
  now : nat;
  blog : list bop
}.

(** What the program reads from the hardware ([ctr_el0], [sctlr_el1]), the
    address map (physical address, Normal write-back or not), and the lines the
    hardware moves before access number [n]. *)
Record hwcfg := Hw {
  ctr_el0 : Z;
  sctlr_el1 : Z;
  xlate : Z -> Z * bool;
  noise : nat -> list hwev
}.

Definition align_down (value alignment : Z) : Z := Z.land value (~64 (alignment -64 1)).

Definition align_up (value alignment : Z) : Z := Z.land (value +64 alignment -64 1) (~64 (alignment -64 1)).

Section Cache.

Context (H : hwcfg).

Definition dcache_line_size : Z :=
  let dminline := Z.land (Z.shiftr (ctr_el0 H) 16) 0xF in
  let line_size := wrap32 (Z.shiftl 4 dminline) in
  if line_size =? 0 then 64 else line_size.

Definition dcache_enabled : bool := negb (Z.land (sctlr_el1 H) (Z.shiftl 1 2) =? 0).

Definition line_of (a : Z) : Z := a / dcache_line_size.

Definition put_line (n : Z) (l : cline) (s : msys) : msys := Msys (pmem s) (<[n := l]> (cache s)) (now s) (blog s).

Definition drop_line (n : Z) (s : msys) : msys := Msys (pmem s) (delete n (cache s)) (now s) (blog s).

Definition set_pmem (m : mem) (s : msys) : msys := Msys m (cache s) (now s) (blog s).

Definition log (o : bop) (s : msys) : msys := Msys (pmem s) (cache s) (now s) (blog s ++ [o]).

Definition fill (n : Z) (s : msys) : msys :=
  match cache s !! n with
  | Some _ => s
  | None => put_line n (CLine false (pmem s)) s
  end.

Definition copy_line (n : Z) (src dst : mem) : mem :=
  for_range 0 dcache_line_size (fun i m => st8 (n * dcache_line_size + i) (ld8 src (n * dcache_line_size + i)) m) dst.

Definition writeback (n : Z) (s : msys) : msys :=
  match cache s !! n with
  | Some (CLine true b) => put_line n (CLine false b) (set_pmem (copy_line n b (pmem s)) s)
  | _ => s
  end.

Definition evict (n : Z) (s : msys) : msys := drop_line n (writeback n s).

Definition hw_event (s : msys) (e : hwev) : msys :=
  match e with
  | HFill n => fill n s
  | HEvict n => evict n s
  end.

(** The hardware moves before an access. *)
Definition tick (s : msys) : msys :=
  let s' := fold_left hw_event (noise H (now s)) s in
  Msys (pmem s') (cache s') (Datatypes.S (now s)) (blog s').

(** Whether an access at virtual address [a] goes through the cache. *)
Definition cacheable (a : Z) : bool := dcache_enabled && (xlate H a).2.

Definition line_bytes (n : Z) (s : msys) : mem :=
  match cache s !! n with Some l => bytes l | None => pmem s end.

(** The value a load through the cache returns. *)
Definition view (s : msys) (pa : Z) : Z := ld8 (line_bytes (line_of pa) s) pa.

Definition load8 (a : Z) (s : msys) : Z * msys :=
  let s := tick s in
  let pa := (xlate H a).1 in
  if cacheable a then let s := fill (line_of pa) s in (view s pa, s) else (ld8 (pmem s) pa, s).

Definition store8 (a v : Z) (s : msys) : msys :=
  let s := tick s in
  let pa := (xlate H a).1 in
  if cacheable a
  then let s := fill (line_of pa) s in
       put_line (line_of pa) (CLine true (st8 pa v (line_bytes (line_of pa) s))) s
  else set_pmem (st8 pa v (pmem s)) s.

(** ** Maintenance instructions *)

Definition dc_cvac_line (a : Z) (s : msys) : msys := log (DC_CVAC a) (writeback (line_of (xlate H a).1) (tick s)).

Definition dc_civac_line (a : Z) (s : msys) : msys := log (DC_CIVAC a) (evict (line_of (xlate H a).1) (tick s)).

Definition dc_ivac_line (a : Z) (s : msys) : msys := log (DC_IVAC a) (drop_line (line_of (xlate H a).1) (tick s)).

Definition dc_range_common (p len : Z) (op : Z -> msys -> msys) (s : msys) : msys :=
  let s := log DMB_ISH s in
  if (len =? 0) || negb dcache_enabled then log DSB_ISH s
  else
    let line := dcache_line_size in
    let line := if line =? 0 then 64 else line in
    let start := align_down p line in
    let end_ := align_up (p +64 len) line in
    let s := for_range 0 ((end_ - start + line - 1) / line) (fun k s => op (start + k * line) s) s in
    log DSB_ISH s.

Definition dc_cvac_range (p len : Z) : msys -> msys := dc_range_common p len dc_cvac_line.

Definition dc_civac_range (p len : Z) : msys -> msys := dc_range_common p len dc_civac_line.

Definition dc_ivac_range (p len : Z) : msys -> msys := dc_range_common p len dc_ivac_line.

Definition dma_wmb (s : msys) : msys := log DMB_OSHST s.

Definition dma_rmb (s : msys) : msys := log DMB_OSHLD s.

(** ** States of a line *)

(** No stale copy: a clean cached line holds what memory holds. *)
Definition line_good (s : msys) (n : Z) : Prop :=
  forall l, cache s !! n = Some l -> dirty l = false -> forall a, line_of a = n -> ld8 (bytes l) a = ld8 (pmem s) a.

(** Nothing to write back. *)
Definition line_clean (s : msys) (n : Z) : Prop := forall l, cache s !! n = Some l -> dirty l = false.

(** Both: the cached and the memory view agree. *)
Definition line_fresh (s : msys) (n : Z) : Prop := line_good s n /\ line_clean s n.

(** ** The line size *)

Lemma line_size_pow2 : exists k, 2 <= k <= 17 /\ dcache_line_size = 2 ^ k.
Proof.
  unfold dcache_line_size. change 0xF with (Z.ones 4). rewrite Z.land_ones by lia.
  set (d := Z.shiftr (ctr_el0 H) 16 mod 2 ^ 4). assert (Hd : 0 <= d < 16) by (apply Z.mod_pos_bound; lia).
  exists (d + 2). split; [lia |]. rewrite Z.shiftl_mul_pow2 by lia. change 4 with (2 ^ 2). rewrite <- Z.pow_add_r by lia.
  rewrite (Z.add_comm 2 d). assert (2 ^ 2 <= 2 ^ (d + 2)) by (apply Z.pow_le_mono_r; lia).
  assert (2 ^ (d + 2) < 2 ^ 32) by (apply Z.pow_lt_mono_r; lia).
  unfold wrap32. rewrite Z.mod_small by lia. destruct (Z.eqb_spec (2 ^ (d + 2)) 0); lia.
Qed.

Lemma line_size_pos : 4 <= dcache_line_size <= 2 ^ 17.
Proof.
  destruct line_size_pow2 as (k & Hk & ->). change 4 with (2 ^ 2). split; apply Z.pow_le_mono_r; lia.
Qed.

Lemma line_of_iff a n : line_of a = n <-> n * dcache_line_size <= a < n * dcache_line_size + dcache_line_size.
Proof. pose proof line_size_pos. unfold line_of. generalize dcache_line_size H0. intros L HL. split; [intros <- |]; [zlia |].
  intros Ha. symmetry. apply (Z.div_unique a L n (a - n * L)); lia.
Qed.

Lemma ld8_copy_line n src dst a :
  ld8 (copy_line n src dst) a = if line_of a =? n then ld8 src a mod 256 else ld8 dst a.
Proof.
  pose proof line_size_pos as HL. unfold copy_line. set (L := dcache_line_size) in *.
  assert (Hl : line_of a = n <-> n * L <= a < n * L + L) by apply line_of_iff.
  pose proof (for_range_ind (fun j m => ld8 m a = if (n * L <=? a) && (a <? n * L + j) then ld8 src a mod 256 else ld8 dst a)
    0 L (fun i m => st8 (n * L + i) (ld8 src (n * L + i)) m) dst) as Hf. rewrite Hf; clear Hf; [| lia | |].
  - destruct (Z.eqb_spec (line_of a) n); repeat bdestr; simpl; try done; lia.
  - repeat bdestr; simpl; lia || done.
  - intros j m Hj IH. rewrite ld8_st8, IH. repeat bdestr; simpl; subst; try lia; done.
Qed.

(** ** What the hardware may do on its own *)

Lemma view_good s a : line_good s (line_of a) -> line_clean s (line_of a) -> view s a = ld8 (pmem s) a.
Proof.
  intros Hg Hc. unfold view, line_bytes. destruct (cache s !! line_of a) as [l |] eqn:E; [| done].
  apply (Hg l E (Hc l E)). done.
Qed.

(** Bytes are bytes, in memory and in the cache. *)
Definition msys_bytes (s : msys) : Prop :=
  mem_bytes (pmem s) /\ forall n l, cache s !! n = Some l -> mem_bytes (bytes l).

Lemma fill_keeps n s : msys_bytes s ->
  msys_bytes (fill n s) /\ pmem (fill n s) = pmem s /\ blog (fill n s) = blog s /\
  (forall a, view (fill n s) a = view s a) /\
  (forall k, line_good s k -> line_good (fill n s) k) /\ (forall k, line_clean s k -> line_clean (fill n s) k).
Proof.
  intros [Hm Hb]. unfold fill. destruct (cache s !! n) as [l |] eqn:E; [done |]. unfold put_line.
  split; [| split; [done | split; [done | split; [| split]]]].
  - split; [done |]. cbn [cache]. intros k l. rewrite lookup_insert. case_decide; [intros [= <-]; done | apply Hb].
  - intros a. unfold view, line_bytes. cbn [cache pmem]. rewrite lookup_insert.
    destruct (decide (n = line_of a)) as [<- |]; [by rewrite E | done].
  - intros k Hk l. cbn [cache pmem]. rewrite lookup_insert. case_decide; [by intros [= <-] | apply Hk].
  - intros k Hk l. cbn [cache]. rewrite lookup_insert. case_decide; [by intros [= <-] | apply Hk].
Qed.

Lemma writeback_keeps n s : msys_bytes s ->
  msys_bytes (writeback n s) /\ blog (writeback n s) = blog s /\
  (forall a, view (writeback n s) a = view s a) /\
  (forall k, line_good s k -> line_good (writeback n s) k) /\ (forall k, line_clean s k -> line_clean (writeback n s) k) /\
  line_clean (writeback n s) n /\
  (forall a, line_clean s (line_of a) -> ld8 (pmem (writeback n s)) a = ld8 (pmem s) a).
Proof.
  intros [Hm Hb]. unfold writeback. destruct (cache s !! n) as [[[] b] |] eqn:E.
  2, 3: split; [done | split; [done | split; [done | split; [done | split; [done | split; [| done]]]]]];
    intros l E'; rewrite E in E'; by inversion E'.
  pose proof (Hb n _ E) as Hbb. cbn [bytes] in Hbb.
  assert (Hmod : forall a, ld8 b a mod 256 = ld8 b a) by (intros a; apply Z.mod_small, Hbb).
  unfold put_line, set_pmem. split; [split | split; [done | split; [| split; [| split; [| split]]]]]; cbn [pmem cache blog].
  - intros a. rewrite ld8_copy_line. case_match; [| apply Hm]. rewrite Hmod. apply Hbb.
  - intros k l. rewrite lookup_insert. case_decide; [intros [= <-]; done | apply Hb].
  - intros a. unfold view, line_bytes. cbn [cache pmem]. rewrite lookup_insert.
    destruct (decide (n = line_of a)) as [<- | Hne]; [by rewrite E |].
    destruct (cache s !! line_of a); [done |]. rewrite ld8_copy_line.
    by rewrite (proj2 (Z.eqb_neq _ _)) by congruence.
  - intros k Hk l. cbn [cache pmem]. rewrite lookup_insert. case_decide.
    + intros [= <-] _ a Ha. cbn [bytes]. rewrite ld8_copy_line, (proj2 (Z.eqb_eq _ _)) by congruence. by rewrite Hmod.
    + intros El Hd a Ha. rewrite ld8_copy_line, (proj2 (Z.eqb_neq _ _)) by congruence. by apply (Hk l).
  - intros k Hk l. cbn [cache]. rewrite lookup_insert. case_decide; [by intros [= <-] | apply Hk].
  - intros l. cbn [cache]. rewrite lookup_insert, decide_True by done. by intros [= <-].
  - intros a Ha. rewrite ld8_copy_line. destruct (Z.eqb_spec (line_of a) n) as [El |]; [| done].
    rewrite <- El in E. by specialize (Ha _ E).
Qed.

(** [quiet s s']: nothing a program can rely on changed: memory under clean
    lines, the view of lines without a stale copy, and those two properties. *)
Record quiet (s s' : msys) : Prop := {
  qt_log : blog s' = blog s;
  qt_good : forall k, line_good s k -> line_good s' k;
  qt_clean : forall k, line_clean s k -> line_clean s' k;
  qt_view : forall a, line_good s (line_of a) -> view s' a = view s a;
  qt_mem : forall a, line_clean s (line_of a) -> ld8 (pmem s') a = ld8 (pmem s) a
}.

Lemma quiet_refl s : quiet s s.
Proof. by split. Qed.

Lemma quiet_trans s1 s2 s3 : quiet s1 s2 -> quiet s2 s3 -> quiet s1 s3.
Proof.
  intros A B. split; intros.
  - by rewrite (qt_log _ _ B), (qt_log _ _ A).
  - by apply (qt_good _ _ B), (qt_good _ _ A).
  - by apply (qt_clean _ _ B), (qt_clean _ _ A).
  - rewrite (qt_view _ _ B); [by apply (qt_view _ _ A) | by apply (qt_good _ _ A)].
  - rewrite (qt_mem _ _ B); [by apply (qt_mem _ _ A) | by apply (qt_clean _ _ A)].
Qed.

Lemma drop_quiet n s : msys_bytes s -> line_clean s n ->
  msys_bytes (drop_line n s) /\ quiet s (drop_line n s).
Proof.
  intros [Hm Hb] Hn. unfold drop_line. split; [split; [done |] | split; cbn [blog pmem cache]; try done].
  - cbn [cache]. intros k l El. apply lookup_delete_Some in El as [_ El]. by apply (Hb k).
  - intros k Hk l El. cbn [cache pmem] in *. apply lookup_delete_Some in El as [_ El]. by apply Hk.
  - intros k Hk l El. cbn [cache] in *. apply lookup_delete_Some in El as [_ El]. by apply Hk.
  - intros a Hg. unfold view at 1, line_bytes. cbn [cache pmem]. rewrite lookup_delete.
    destruct (decide (n = line_of a)) as [-> |]; [| done]. symmetry. by apply view_good.
Qed.

Lemma event_quiet s e : msys_bytes s -> msys_bytes (hw_event s e) /\ quiet s (hw_event s e).
Proof.
  intros Hs. destruct e as [n | n]; cbn [hw_event].
  - destruct (fill_keeps n s Hs) as (H1 & H2 & H3 & H4 & H5 & H6). split; [done |].
    split; [done | done | done | by intros a _ | intros a _; by rewrite H2].
  - destruct (writeback_keeps n s Hs) as (H1 & H2 & H3 & H4 & H5 & H6 & H7).
    destruct (drop_quiet n _ H1 H6) as [H8 H9]. split; [done |]. apply (quiet_trans _ (writeback n s)); [| done].
    by split.
Qed.

Lemma tick_quiet s : msys_bytes s -> msys_bytes (tick s) /\ quiet s (tick s).
Proof.
  intros Hs. unfold tick. set (l := noise H (now s)). clearbody l.
  assert (G : forall s0, msys_bytes s0 -> msys_bytes (fold_left hw_event l s0) /\ quiet s0 (fold_left hw_event l s0)).
  { induction l as [|e l IH]; intros s0 H0; simpl; [split; [done | apply quiet_refl] |].
    destruct (event_quiet s0 e H0) as [H1 H2]. destruct (IH _ H1) as [H3 H4]. split; [done |]. by apply (quiet_trans _ (hw_event s0 e)). }
  destruct (G s Hs) as [[B1 B2] [Q1 Q2 Q3 Q4 Q5]]. split; [by split | by split].
Qed.

(** ** Accesses *)

Lemma load8_nc a s : msys_bytes s -> cacheable a = false ->
  let '(v, s') := load8 a s in
  msys_bytes s' /\ quiet s s' /\ (line_clean s (line_of (xlate H a).1) -> v = ld8 (pmem s) (xlate H a).1).
Proof.
  intros Hs Hc. unfold load8. rewrite Hc. destruct (tick_quiet s Hs) as [H1 H2]. split; [done | split; [done |]].
  intros Hl. by apply (qt_mem _ _ H2).
Qed.

Lemma load8_c a s : msys_bytes s -> cacheable a = true ->
  let '(v, s') := load8 a s in
  msys_bytes s' /\ quiet s s' /\ (line_good s (line_of (xlate H a).1) -> v = view s (xlate H a).1).
Proof.
  intros Hs Hc. unfold load8. rewrite Hc. destruct (tick_quiet s Hs) as [H1 H2].
  destruct (fill_keeps (line_of (xlate H a).1) _ H1) as (F1 & F2 & F3 & F4 & F5 & F6). split; [done |].
  assert (Hq : quiet (tick s) (fill (line_of (xlate H a).1) (tick s))).
  { split; [done | done | done | by intros b _ | intros b _; by rewrite F2]. }
  split; [by apply (quiet_trans _ (tick s)) |]. intros Hl. rewrite F4. by apply (qt_view _ _ H2).
Qed.

(** A store past the cache changes one byte of memory; the view of it too,
    unless the line is cached. *)
Lemma store8_nc a v s : msys_bytes s -> cacheable a = false ->
  let s' := store8 a v s in let pa := (xlate H a).1 in
  msys_bytes s' /\ blog s' = blog s /\ (forall k, line_clean s k -> line_clean s' k) /\
  (forall k, k <> line_of pa -> line_good s k -> line_good s' k) /\
  (forall b, line_clean s (line_of b) -> ld8 (pmem s') b = if pa =? b then v mod 256 else ld8 (pmem s) b) /\
  (forall b, line_of b <> line_of pa -> line_good s (line_of b) -> view s' b = view s b).
Proof.
  intros Hs Hc s' pa. unfold s', store8. rewrite Hc. destruct (tick_quiet s Hs) as [[B1 B2] Q]. unfold set_pmem.
  split; [| split; [| split; [| split; [| split]]]].
  - split; [by apply mem_bytes_st8 | done].
  - by apply (qt_log _ _ Q).
  - intros k Hk. apply (qt_clean _ _ Q _ Hk).
  - intros k Hne Hk l. cbn [cache pmem]. intros El Hd b Hb. rewrite ld8_st8_ne; [| unfold pa in *; congruence].
    by apply (qt_good _ _ Q _ Hk l).
  - intros b Hb. cbn [pmem]. rewrite ld8_st8. rewrite (qt_mem _ _ Q) by done. done.
  - intros b Hne Hb. rewrite <- (qt_view _ _ Q) by done. unfold view, line_bytes. cbn [cache pmem].
    destruct (cache (tick s) !! line_of b); [done |]. rewrite ld8_st8_ne; [done | unfold pa in *; congruence].
Qed.

(** A store through the cache behaves like a store to a flat memory, for the
    program, whatever the hardware does; memory under other lines keeps. *)
Lemma store8_c a v s : msys_bytes s -> cacheable a = true ->
  let s' := store8 a v s in let pa := (xlate H a).1 in
  msys_bytes s' /\ blog s' = blog s /\ (forall k, line_good s k -> line_good s' k) /\
  (forall k, k <> line_of pa -> line_clean s k -> line_clean s' k) /\
  (forall b, line_clean s (line_of b) -> ld8 (pmem s') b = ld8 (pmem s) b) /\
  (forall b, line_good s (line_of b) -> view s' b = if pa =? b then v mod 256 else view s b).
Proof.
  intros Hs Hc s' pa. unfold s', store8. rewrite Hc. destruct (tick_quiet s Hs) as [HT Q]. fold pa.
  destruct (fill_keeps (line_of pa) _ HT) as (F1 & F2 & F3 & F4 & F5 & F6).
  set (t := fill (line_of pa) (tick s)) in *. unfold put_line.
  split; [| split; [| split; [| split; [| split]]]]; cbn [pmem cache blog].
  - destruct F1 as [B1 B2]. split; [done |]. cbn [cache]. intros k l. rewrite lookup_insert. case_decide; [intros [= <-] | apply B2].
    cbn [bytes]. apply mem_bytes_st8. unfold line_bytes. destruct (cache t !! line_of pa) eqn:E; [by apply (B2 _ _ E) | done].
  - by rewrite F3, (qt_log _ _ Q).
  - intros k Hk l. cbn [cache pmem]. rewrite lookup_insert. case_decide; [by intros [= <-] |].
    apply F5, (qt_good _ _ Q), Hk.
  - intros k Hne Hk l. cbn [cache]. rewrite lookup_insert, decide_False by congruence. by apply F6, (qt_clean _ _ Q).
  - intros b Hb. rewrite F2. by apply (qt_mem _ _ Q).
  - intros b Hb. rewrite <- (qt_view _ _ Q), <- F4 by done. unfold view at 1, line_bytes at 1. cbn [cache pmem].
    rewrite lookup_insert. case_decide as Hd.
    + cbn [bytes]. rewrite ld8_st8. case_match; [done |]. unfold view. by rewrite Hd.
    + destruct (Z.eqb_spec pa b) as [-> |]; [done |]. done.
Qed.

(** ** Maintenance *)

Lemma cvac_spec a s : msys_bytes s ->
  let s' := dc_cvac_line a s in let n := line_of (xlate H a).1 in
  msys_bytes s' /\ blog s' = blog s ++ [DC_CVAC a] /\ (forall k, line_good s k -> line_good s' k) /\
  (forall k, line_clean s k \/ k = n -> line_clean s' k) /\
  (forall b, line_good s (line_of b) -> view s' b = view s b) /\
  (forall b, line_clean s (line_of b) -> ld8 (pmem s') b = ld8 (pmem s) b).
Proof.
  intros Hs s' n. destruct (tick_quiet s Hs) as [HT Q]. destruct (writeback_keeps n _ HT) as (W1 & W2 & W3 & W4 & W5 & W6 & W7).
  unfold s', dc_cvac_line, log. fold n. split; [done | split; [| split; [| split; [| split]]]].
  - cbn [blog]. by rewrite W2, (qt_log _ _ Q).
  - intros k Hk. apply W4, (qt_good _ _ Q), Hk.
  - intros k [Hk | ->]; [apply W5, (qt_clean _ _ Q), Hk | exact W6].
  - intros b Hb. etrans; [apply W3 |]. by apply (qt_view _ _ Q).
  - intros b Hb. etrans; [apply W7, (qt_clean _ _ Q), Hb |]. by apply (qt_mem _ _ Q).
Qed.

(** Invalidation discards the line, dirty or not: the view becomes memory's. *)
Lemma ivac_spec a s : msys_bytes s ->
  let s' := dc_ivac_line a s in let n := line_of (xlate H a).1 in
  msys_bytes s' /\ blog s' = blog s ++ [DC_IVAC a] /\ (forall k, line_good s k \/ k = n -> line_good s' k) /\
  (forall k, line_clean s k \/ k = n -> line_clean s' k) /\
  (forall b, line_of b <> n -> line_good s (line_of b) -> view s' b = view s b) /\
  (forall b, line_clean s (line_of b) -> ld8 (pmem s') b = ld8 (pmem s) b).
Proof.
  intros Hs s' n. destruct (tick_quiet s Hs) as [[B1 B2] Q]. unfold s', dc_ivac_line, log, drop_line. fold n.
  split; [| split; [| split; [| split; [| split]]]]; cbn [pmem cache blog].
  - split; [done |]. cbn [cache]. intros k l El. apply lookup_delete_Some in El as [_ El]. by apply (B2 k).
  - by rewrite (qt_log _ _ Q).
  - intros k Hk l El. cbn [cache pmem] in *. apply lookup_delete_Some in El as [Hne El].
    destruct Hk as [Hk | ->]; [| done]. by apply (qt_good _ _ Q _ Hk).
  - intros k Hk l El. cbn [cache] in *. apply lookup_delete_Some in El as [Hne El].
    destruct Hk as [Hk | ->]; [| done]. by apply (qt_clean _ _ Q _ Hk).
  - intros b Hne Hb. rewrite <- (qt_view _ _ Q) by done. unfold view, line_bytes. cbn [cache pmem].
    by rewrite lookup_delete_ne by congruence.
  - intros b Hb. by apply (qt_mem _ _ Q).
Qed.

(** ** Ranges *)

(** Addresses of the lines that overlap [p, p + len). *)
Definition lines_of (p len : Z) : list Z :=
  map (fun n => n * dcache_line_size) (seqZ (line_of p) (line_of (p + len - 1) - line_of p + 1)).

Definition range_ok (p len : Z) : Prop := 0 <= p /\ 0 < len /\ p + len + dcache_line_size <= 2 ^ 64.

Lemma elem_of_lines p len a : range_ok p len ->
  a ∈ lines_of p len <-> a mod dcache_line_size = 0 /\ a < p + len /\ p < a + dcache_line_size.
Proof.
  intros (Hp & Hl & _). pose proof line_size_pos as HL. unfold lines_of, line_of in *. set (L := dcache_line_size) in *.
  rewrite list_elem_of_In, in_map_iff. split.
  - intros (n & <- & Hn). rewrite <- list_elem_of_In, elem_of_seqZ in Hn. split; [apply Z.mod_mul; lia |].
    assert (n * L <= (p + len - 1) / L * L) by nia. pose proof (Z.mul_div_le (p + len - 1) L ltac:(lia)).
    pose proof (Z.mod_pos_bound p L ltac:(lia)). pose proof (Z.div_mod p L ltac:(lia)). nia.
  - intros (Hm & H1 & H2). exists (a / L). split; [zlia |]. rewrite <- list_elem_of_In, elem_of_seqZ.
    pose proof (Z.div_mod a L ltac:(lia)).
    assert (p / L <= a / L) by (apply Z.lt_succ_r, Z.div_lt_upper_bound; nia).
    assert (a / L <= (p + len - 1) / L) by (apply Z.div_le_mono; lia). lia.
Qed.

Lemma align_line v : 0 <= v < 2 ^ 64 -> align_down v dcache_line_size = line_of v * dcache_line_size.
Proof.
  intros Hv. unfold align_down, line_of. destruct line_size_pow2 as (k & Hk & ->).
  assert (2 ^ k <= 2 ^ 17) by (apply Z.pow_le_mono_r; lia). assert (2 ^ 2 <= 2 ^ k) by (apply Z.pow_le_mono_r; lia).
  rewrite (wrap64_small (2 ^ k - 1)) by lia. apply land_lnot_ones; lia.
Qed.

Lemma align_up_line v : 0 < v -> v + dcache_line_size <= 2 ^ 64 ->
  align_up v dcache_line_size = (line_of (v - 1) + 1) * dcache_line_size.
Proof.
  intros Hv Ht. pose proof line_size_pos as HL. unfold align_up.
  assert (E : v +64 dcache_line_size -64 1 = v + dcache_line_size - 1) by (unfold wrap64; zlia).
  rewrite E. change (align_down (v + dcache_line_size - 1) dcache_line_size = (line_of (v - 1) + 1) * dcache_line_size).
  rewrite align_line by lia. f_equal. unfold line_of.
  replace (v + dcache_line_size - 1) with (v - 1 + 1 * dcache_line_size) by lia. by rewrite Z.div_add by lia.
Qed.

(** The loop runs [op] once on each of those lines, between the barriers. *)
Lemma dc_range_eq p len op s : range_ok p len -> dcache_enabled = true ->
  dc_range_common p len op s = log DSB_ISH (foldl (fun s a => op a s) (log DMB_ISH s) (lines_of p len)).
Proof.
  intros (Hp & Hl & Ht) Hon. pose proof line_size_pos as HL. unfold dc_range_common. rewrite Hon, (proj2 (Z.eqb_neq len 0)) by lia.
  cbn [orb negb]. rewrite (proj2 (Z.eqb_neq dcache_line_size 0)) by lia. f_equal.
  rewrite wrap64_small by lia. rewrite align_line, align_up_line by lia.
  unfold lines_of. set (L := dcache_line_size) in *. set (n0 := line_of p). set (n1 := line_of (p + len - 1)).
  replace (((n1 + 1) * L - n0 * L + L - 1) / L) with (n1 - n0 + 1).
  2: { replace ((n1 + 1) * L - n0 * L + L - 1) with (L - 1 + (n1 - n0 + 1) * L) by lia.
       rewrite Z.div_add, (Z.div_small (L - 1)) by lia. lia. }
  assert (Hn : 0 <= n1 - n0 + 1).
  { unfold n0, n1, line_of. fold L. assert (p / L <= (p + len - 1) / L) by (apply Z.div_le_mono; lia). lia. }
  unfold for_range. replace (Z.to_nat (n1 - n0 + 1 - 0)) with (Z.to_nat (n1 - n0 + 1)) by lia.
  rewrite <- (Z2Nat.id (n1 - n0 + 1)) at 2 by done. generalize (Z.to_nat (n1 - n0 + 1)); intros k.
  generalize (log DMB_ISH s); intros s0.
  assert (G : forall i s0, for_from (fun k s => op (n0 * L + k * L) s) i k s0 =
    foldl (fun s a => op a s) s0 (map (fun n => n * L) (seqZ (n0 + i) (Z.of_nat k)))).
  { induction k as [|k IH]; intros i s1; [done |]. cbn [for_from]. rewrite IH.
    rewrite (seqZ_cons (n0 + i)) by lia. cbn [map foldl].
    replace (Z.succ (n0 + i)) with (n0 + (i + 1)) by lia. replace (Z.pred (Z.of_nat (Datatypes.S k))) with (Z.of_nat k) by lia.
    do 2 f_equal. lia. }
  rewrite G. by rewrite Z.add_0_r.
Qed.

Lemma dc_range_off p len op s : len = 0 \/ dcache_enabled = false ->
  dc_range_common p len op s = log DSB_ISH (log DMB_ISH s).
Proof.
  intros Hd. unfold dc_range_common. destruct Hd as [-> | ->]; [done |]. by rewrite orb_true_r.
Qed.

(** The lines of a buffer, and a buffer mapped at its own addresses. *)
Definition covers (p len k : Z) : Prop := line_of p <= k <= line_of (p + len - 1).

Definition identity_mapped (p len : Z) : Prop := forall k, covers p len k -> (xlate H (k * dcache_line_size)).1 = k * dcache_line_size.

Lemma covers_byte p len a : p <= a < p + len -> covers p len (line_of a).
Proof.
  intros Ha. pose proof line_size_pos. unfold covers, line_of. split; apply Z.div_le_mono; lia.
Qed.

Lemma line_of_base k : line_of (k * dcache_line_size) = k.
Proof. pose proof line_size_pos. unfold line_of. apply Z.div_mul. lia. Qed.

Lemma lines_covered p len a : a ∈ lines_of p len -> covers p len (line_of a) /\ a = line_of a * dcache_line_size.
Proof.
  unfold lines_of. rewrite list_elem_of_In, in_map_iff. intros (n & <- & Hn). rewrite <- list_elem_of_In, elem_of_seqZ in Hn.
  rewrite line_of_base. unfold covers. split; [lia | done].
Qed.

Lemma covered_line p len k : covers p len k -> exists a, a ∈ lines_of p len /\ line_of a = k.
Proof.
  intros Hk. exists (k * dcache_line_size). rewrite line_of_base. split; [| done]. unfold lines_of.
  apply list_elem_of_In, in_map_iff. exists k. split; [done |]. rewrite <- list_elem_of_In, elem_of_seqZ. unfold covers in Hk. lia.
Qed.

Lemma log_bytes o s : msys_bytes s -> msys_bytes (log o s).
Proof. intros [? ?]. by split. Qed.

Lemma lines_sorted p len : StronglySorted Z.lt (lines_of p len).
Proof.
  unfold lines_of. pose proof line_size_pos as HL. generalize (line_of p) (line_of (p + len - 1) - line_of p + 1).
  intros n c. destruct (Z.le_gt_cases 0 c) as [Hc |]; [| rewrite seqZ_nil by lia; constructor].
  rewrite <- (Z2Nat.id c Hc). generalize (Z.to_nat c); intros k. revert n. induction k as [|k IH]; intros n; [constructor |].
  rewrite seqZ_cons by lia. cbn [map]. replace (Z.pred (Z.of_nat (Datatypes.S k))) with (Z.of_nat k) by lia.
  constructor; [apply IH |]. apply List.Forall_forall. intros x Hx. apply in_map_iff in Hx as (j & <- & Hj).
  rewrite <- list_elem_of_In, elem_of_seqZ in Hj. nia.
Qed.

(** Cleaning a buffer: its lines end clean, nothing the program sees changes,
    and memory changes only under lines that were dirty. *)
Lemma cvac_fold ls s : msys_bytes s -> (forall a, a ∈ ls -> (xlate H a).1 = a) ->
  let s' := foldl (fun s a => dc_cvac_line a s) s ls in
  msys_bytes s' /\ blog s' = blog s ++ map DC_CVAC ls /\ (forall k, line_good s k -> line_good s' k) /\
  (forall k, line_clean s k \/ k ∈ map line_of ls -> line_clean s' k) /\
  (forall b, line_good s (line_of b) -> view s' b = view s b) /\
  (forall b, line_clean s (line_of b) -> ld8 (pmem s') b = ld8 (pmem s) b).
Proof.
  revert s. induction ls as [|a ls IH]; intros s Hs Hid; cbn [foldl map].
  { rewrite app_nil_r. split; [done | split; [done | split; [done | split; [| done]]]]. intros k [? | []%elem_of_nil]. done. }
  destruct (cvac_spec a s Hs) as (C1 & C2 & C3 & C4 & C5 & C6). rewrite (Hid a) in C4 by by left.
  destruct (IH _ C1) as (D1 & D2 & D3 & D4 & D5 & D6); [intros b Hb; apply Hid; by right |].
  split; [done | split; [| split; [| split; [| split]]]].
  - rewrite D2, C2, <- app_assoc. done.
  - auto.
  - intros k Hk. apply D4. destruct Hk as [Hk | Hk]; [left; by apply C4; left |].
    apply elem_of_cons in Hk as [-> | Hk]; [left; by apply C4; right | by right].
  - intros b Hb. rewrite D5 by auto. auto.
  - intros b Hb. rewrite D6 by auto. auto.
Qed.

Lemma cvac_range_spec p len s : msys_bytes s -> dcache_enabled = true -> range_ok p len -> identity_mapped p len ->
  let s' := dc_cvac_range p len s in
  msys_bytes s' /\ blog s' = blog s ++ DMB_ISH :: map DC_CVAC (lines_of p len) ++ [DSB_ISH] /\
  (forall k, line_good s k -> line_good s' k) /\ (forall k, line_clean s k \/ covers p len k -> line_clean s' k) /\
  (forall b, line_good s (line_of b) -> view s' b = view s b) /\
  (forall b, line_clean s (line_of b) -> ld8 (pmem s') b = ld8 (pmem s) b).
Proof.
  intros Hs Hon Hok Hid. unfold dc_cvac_range. rewrite dc_range_eq by done.
  destruct (cvac_fold (lines_of p len) (log DMB_ISH s)) as (D1 & D2 & D3 & D4 & D5 & D6); [by apply log_bytes | |].
  { intros a Ha. destruct (lines_covered _ _ _ Ha) as [Hc ->]. by apply Hid. }
  split; [by apply log_bytes | split; [| split; [exact D3 | split; [| split; [exact D5 | exact D6]]]]].
  - cbn [blog log]. rewrite D2. cbn [blog log]. by rewrite <- !app_assoc.
  - intros k [Hk | Hk]; apply D4; [by left | right]. destruct (covered_line _ _ _ Hk) as (a & Ha & <-).
    by apply list_elem_of_In, in_map, list_elem_of_In.
Qed.

(** Invalidating a buffer: its lines end fresh, the view of other lines and all
    memory under clean lines unchanged; dirty bytes of its lines are lost. *)
Lemma ivac_fold ls s : msys_bytes s -> (forall a, a ∈ ls -> (xlate H a).1 = a) ->
  let s' := foldl (fun s a => dc_ivac_line a s) s ls in
  msys_bytes s' /\ blog s' = blog s ++ map DC_IVAC ls /\ (forall k, line_good s k \/ k ∈ map line_of ls -> line_good s' k) /\
  (forall k, line_clean s k \/ k ∈ map line_of ls -> line_clean s' k) /\
  (forall b, line_of b ∉ map line_of ls -> line_good s (line_of b) -> view s' b = view s b) /\
  (forall b, line_clean s (line_of b) -> ld8 (pmem s') b = ld8 (pmem s) b).
Proof.
  revert s. induction ls as [|a ls IH]; intros s Hs Hid; cbn [foldl map].
  { rewrite app_nil_r. split; [done | split; [done |]].
    split; [intros k [? | []%elem_of_nil]; done | split; [intros k [? | []%elem_of_nil]; done | done]]. }
  destruct (ivac_spec a s Hs) as (C1 & C2 & C3 & C4 & C5 & C6). rewrite (Hid a) in C3, C4, C5 by by left.
  destruct (IH _ C1) as (D1 & D2 & D3 & D4 & D5 & D6); [intros b Hb; apply Hid; by right |].
  split; [done | split; [| split; [| split; [| split]]]].
  - rewrite D2, C2, <- app_assoc. done.
  - intros k Hk. apply D3. destruct Hk as [Hk | Hk]; [left; by apply C3; left |].
    apply elem_of_cons in Hk as [-> | Hk]; [left; by apply C3; right | by right].
  - intros k Hk. apply D4. destruct Hk as [Hk | Hk]; [left; by apply C4; left |].
    apply elem_of_cons in Hk as [-> | Hk]; [left; by apply C4; right | by right].
  - intros b Hb Hg. apply not_elem_of_cons in Hb as [Hb1 Hb2]. rewrite D5; [by apply C5 | done | apply C3; by left].
  - intros b Hb. rewrite D6 by auto. auto.
Qed.

Lemma ivac_range_spec p len s : msys_bytes s -> dcache_enabled = true -> range_ok p len -> identity_mapped p len ->
  let s' := dc_ivac_range p len s in
  msys_bytes s' /\ blog s' = blog s ++ DMB_ISH :: map DC_IVAC (lines_of p len) ++ [DSB_ISH] /\
  (forall k, line_good s k \/ covers p len k -> line_good s' k) /\ (forall k, line_clean s k \/ covers p len k -> line_clean s' k) /\
  (forall b, ~ covers p len (line_of b) -> line_good s (line_of b) -> view s' b = view s b) /\
  (forall b, line_clean s (line_of b) -> ld8 (pmem s') b = ld8 (pmem s) b).
Proof.
  intros Hs Hon Hok Hid. unfold dc_ivac_range. rewrite dc_range_eq by done.
  destruct (ivac_fold (lines_of p len) (log DMB_ISH s)) as (D1 & D2 & D3 & D4 & D5 & D6); [by apply log_bytes | |].
  { intros a Ha. destruct (lines_covered _ _ _ Ha) as [Hc ->]. by apply Hid. }
  assert (Hin : forall k, covers p len k -> k ∈ map line_of (lines_of p len)).
  { intros k Hk. destruct (covered_line _ _ _ Hk) as (a & Ha & <-). by apply list_elem_of_In, in_map, list_elem_of_In. }
  split; [by apply log_bytes | split; [| split; [| split; [| split; [| exact D6]]]]].
  - cbn [blog log]. rewrite D2. cbn [blog log]. by rewrite <- !app_assoc.
  - intros k [Hk | Hk]; apply D3; [by left | right; by apply Hin].
  - intros k [Hk | Hk]; apply D4; [by left | right; by apply Hin].
  - intros b Hb Hg. apply D5; [| done]. rewrite list_elem_of_In, in_map_iff. intros (a & Ea & Ha%list_elem_of_In).
    apply lines_covered in Ha as [Ha _]. apply Hb. by rewrite <- Ea.
Qed.

(** ** Programs with one view *)

Inductive access :=
| Load (a : Z)
| Store (a v : Z).

(** The values loaded, through the cache and on a flat memory. *)
Fixpoint run_cached (l : list access) (s : msys) : list Z * msys :=
  match l with
  | [] => ([], s)
  | Load a :: l' => let '(v, s) := load8 a s in let '(vs, s) := run_cached l' s in (v :: vs, s)
  | Store a v :: l' => run_cached l' (store8 a v s)
  end.

Fixpoint run_flat (l : list access) (m : mem) : list Z * mem :=
  match l with
  | [] => ([], m)
  | Load a :: l' => let '(vs, m') := run_flat l' m in (ld8 m a :: vs, m')
  | Store a v :: l' => run_flat l' (st8 a v m)
  end.

Definition access_addr (x : access) : Z := match x with Load a | Store a _ => a end.

Lemma run_cached_flat l s m :
  msys_bytes s -> (forall k, line_good s k) -> (forall b, view s b = ld8 m b) ->
  (forall x, x ∈ l -> cacheable (access_addr x) = true /\ (xlate H (access_addr x)).1 = access_addr x) ->
  (run_cached l s).1 = (run_flat l m).1 /\ forall b, view (run_cached l s).2 b = ld8 (run_flat l m).2 b.
Proof.
  revert s m. induction l as [|[a | a v] l IH]; intros s m Hs Hg Hv Hl; cbn [run_cached run_flat]; [done | |];
    (destruct (Hl _ ltac:(by left)) as [Hc Hid]; cbn [access_addr] in Hc, Hid).
  - pose proof (load8_c a s Hs Hc) as HL. destruct (load8 a s) as [v s1]. destruct HL as (L1 & L2 & L3).
    destruct (IH s1 m) as [J1 J2]; [done | intros k; by apply (qt_good _ _ L2) | | intros x Hx; apply Hl; by right |].
    { intros b. by rewrite (qt_view _ _ L2). }
    destruct (run_cached l s1) as [vs s2], (run_flat l m) as [ws m2]. cbn [fst snd] in *. rewrite Hid in L3.
    by rewrite L3, Hv, J1.
  - destruct (store8_c a v s Hs Hc) as (S1 & S2 & S3 & S4 & S5 & S6). rewrite Hid in S6.
    apply IH; [done | auto | | intros x Hx; apply Hl; by right].
    intros b. rewrite S6 by done. by rewrite ld8_st8, Hv.
Qed.

(** ** Theorems *)

(** a program that reaches memory through one cacheable mapping cannot
    tell the cache from a flat memory: whatever lines the hardware fetches and
    evicts between its accesses, every load returns what it would on flat
    memory, and so does every later view.  This is what lets the other
    components of the kernel be modelled over plain memory. *)
Theorem cache_transparent l s m :
  msys_bytes s -> (forall k, line_good s k) -> (forall b, view s b = ld8 m b) ->
  (forall x, x ∈ l -> cacheable (access_addr x) = true /\ (xlate H (access_addr x)).1 = access_addr x) ->
  (run_cached l s).1 = (run_flat l m).1 /\ forall b, view (run_cached l s).2 b = ld8 (run_flat l m).2 b.
Proof. apply run_cached_flat. Qed.

(** C13: [dc_cvac_range] and [dc_ivac_range] operate on exactly the lines that
    overlap the buffer, each once and in ascending order, between a [dmb ish]
    and a [dsb ish]; with the cache off, or on an empty range, only the barriers
    are executed.  Cleaning leaves every byte of the buffer in memory equal to
    what the program sees; invalidation makes the program see memory. *)
Theorem dc_range_exact p len s :
  msys_bytes s -> range_ok p len -> identity_mapped p len ->
  (forall a, a ∈ lines_of p len <-> a mod dcache_line_size = 0 /\ a < p + len /\ p < a + dcache_line_size) /\
  StronglySorted Z.lt (lines_of p len) /\
  (dcache_enabled = true ->
    blog (dc_cvac_range p len s) = blog s ++ DMB_ISH :: map DC_CVAC (lines_of p len) ++ [DSB_ISH] /\
    blog (dc_ivac_range p len s) = blog s ++ DMB_ISH :: map DC_IVAC (lines_of p len) ++ [DSB_ISH] /\
    (forall b, p <= b < p + len ->
      (line_good s (line_of b) -> ld8 (pmem (dc_cvac_range p len s)) b = view s b) /\
      view (dc_ivac_range p len s) b = ld8 (pmem (dc_ivac_range p len s)) b)) /\
  (dcache_enabled = false ->
    dc_cvac_range p len s = log DSB_ISH (log DMB_ISH s) /\ dc_ivac_range p len s = log DSB_ISH (log DMB_ISH s)).
Proof.
  intros Hs Hok Hid. split; [by intros a; apply elem_of_lines | split; [| split]].
  - apply lines_sorted.
  - intros Hon. destruct (cvac_range_spec p len s Hs Hon Hok Hid) as (C1 & C2 & C3 & C4 & C5 & C6).
    destruct (ivac_range_spec p len s Hs Hon Hok Hid) as (I1 & I2 & I3 & I4 & I5 & I6).
    split; [exact C2 | split; [exact I2 |]]. intros b Hb. pose proof (covers_byte p len b Hb) as Hcb. split.
    + intros Hg. rewrite <- C5 by done. symmetry. apply view_good; [by apply C3 | apply C4; by right].
    + apply view_good; [apply I3 | apply I4]; by right.
  - intros Hoff. split; apply dc_range_off; by right.
Qed.

End Cache.

(** ** Concrete runs *)

(** 64-byte lines, caches and translation on, RAM identity-mapped; the
    hardware evicts line 16 before the third access. *)
Definition demo_hw : hwcfg :=
  Hw 0x80040000 0x5 (fun a => (a, true)) (fun n => match n with 2%nat => [HEvict 16; HFill 17] | _ => [] end).

Definition demo_sys : msys := Msys ∅ ∅ 0 [].

Lemma demo_sys_bytes : msys_bytes demo_sys.
Proof. split; [intros a; by vm_compute | intros n l E; discriminate E]. Qed.

Lemma cache_transparent_witness :
  (run_cached demo_hw [Store 1024 7; Load 1024; Store 1025 300; Load 1024; Load 1025] demo_sys).1 = [7; 7; 44] /\
  ((run_cached demo_hw [Store 1024 7; Load 1024; Store 1025 300; Load 1024; Load 1025] demo_sys).1 =
   (run_flat [Store 1024 7; Load 1024; Store 1025 300; Load 1024; Load 1025] ∅).1 /\
   forall b, view demo_hw (run_cached demo_hw [Store 1024 7; Load 1024; Store 1025 300; Load 1024; Load 1025] demo_sys).2 b =
     ld8 (run_flat [Store 1024 7; Load 1024; Store 1025 300; Load 1024; Load 1025] ∅).2 b).
Proof.
  split; [vm_compute; reflexivity |]. apply (cache_transparent demo_hw).
  - exact demo_sys_bytes.
  - intros k l E. discriminate E.
  - done.
  - intros x Hx. rewrite !elem_of_cons, elem_of_nil in Hx. destruct Hx as [-> | [-> | [-> | [-> | [-> | []]]]]]; done.
Defined.

Lemma dc_range_exact_witness :
  lines_of demo_hw 1000 100 = [960; 1024; 1088] /\
  blog (dc_cvac_range demo_hw 1000 100 demo_sys) = [DMB_ISH; DC_CVAC 960; DC_CVAC 1024; DC_CVAC 1088; DSB_ISH].
Proof.
  split; [vm_compute; reflexivity |].
  destruct (dc_range_exact demo_hw 1000 100 demo_sys) as (_ & _ & Hon & _);
    [exact demo_sys_bytes | unfold range_ok; vm_compute; intuition congruence | intros k _; done |].
  destruct Hon as [-> _]; [reflexivity |]. vm_compute. reflexivity.
Defined.
