(* ===== verification/Dma.v ===== *)
(** * [src/src/dma.cc]: the memory-to-memory DMA engine

    Descriptors and buffers share one window: descriptors are carved from its low
    end, buffers from its high end.  [dma_submit_memcpy] queues a descriptor,
    [dma_poll_complete] plays the device: it copies through the non-cacheable
    alias, so the source must have been cleaned and the destination must be
    invalidated.  Memory is the two-view machine of [Cache]; a descriptor's
    fields are kept in [descs] under its address, and cleaning a descriptor acts
    on the lines of that address range.  Callbacks are code of the caller: a
    parameter. *)

From Stdlib Require Import String.
From S2P Require Import Prelude Mem Uart Pte Mmu Cache.

Record dma_desc := DmaDesc {
  d_src : Z;
  d_dst : Z;
  d_len : Z;
  d_status : Z;
  d_cb : Z;
  d_user : Z;
  d_next : Z
}.

Record dma_st := Dma {
  sys : msys;
  descs : gmap Z dma_desc;
  g_dma_desc_next : Z;
  g_dma_buf_end : Z;
  g_pending_head : Z;
  g_pending_tail : Z;
  prep_log_budget : Z;
  comp_log_budget : Z;
  dma_daif : Z;
  dma_out : list Z
}.

(** The machine, the [DMA_WINDOW_POLICY], the window and the callbacks. *)
Record dma_cfg := DmaCfg {
  hwc : hwcfg;
  noncacheable : bool;
  dma_nc_start_ : Z;
  dma_nc_end_ : Z;
  call_cb : Z -> Z -> Z -> dma_st -> dma_st
}.

Definition zero_desc : dma_desc := DmaDesc 0 0 0 0 0 0 0.

Definition desc (s : dma_st) (a : Z) : dma_desc := default zero_desc (descs s !! a).

Definition set_sys (v : msys) (s : dma_st) : dma_st :=
  Dma v (descs s) (g_dma_desc_next s) (g_dma_buf_end s) (g_pending_head s) (g_pending_tail s)
    (prep_log_budget s) (comp_log_budget s) (dma_daif s) (dma_out s).

Definition set_desc (a : Z) (d : dma_desc) (s : dma_st) : dma_st :=
  Dma (sys s) (<[a := d]> (descs s)) (g_dma_desc_next s) (g_dma_buf_end s) (g_pending_head s) (g_pending_tail s)
    (prep_log_budget s) (comp_log_budget s) (dma_daif s) (dma_out s).

Definition set_desc_next (v : Z) (s : dma_st) : dma_st :=
  Dma (sys s) (descs s) v (g_dma_buf_end s) (g_pending_head s) (g_pending_tail s)
    (prep_log_budget s) (comp_log_budget s) (dma_daif s) (dma_out s).

Definition set_buf_end (v : Z) (s : dma_st) : dma_st :=
  Dma (sys s) (descs s) (g_dma_desc_next s) v (g_pending_head s) (g_pending_tail s)
    (prep_log_budget s) (comp_log_budget s) (dma_daif s) (dma_out s).

Definition set_head (v : Z) (s : dma_st) : dma_st :=
  Dma (sys s) (descs s) (g_dma_desc_next s) (g_dma_buf_end s) v (g_pending_tail s)
    (prep_log_budget s) (comp_log_budget s) (dma_daif s) (dma_out s).

Definition set_tail (v : Z) (s : dma_st) : dma_st :=
  Dma (sys s) (descs s) (g_dma_desc_next s) (g_dma_buf_end s) (g_pending_head s) v
    (prep_log_budget s) (comp_log_budget s) (dma_daif s) (dma_out s).

Definition set_prep_budget (v : Z) (s : dma_st) : dma_st :=
  Dma (sys s) (descs s) (g_dma_desc_next s) (g_dma_buf_end s) (g_pending_head s) (g_pending_tail s)
    v (comp_log_budget s) (dma_daif s) (dma_out s).

Definition set_comp_budget (v : Z) (s : dma_st) : dma_st :=
  Dma (sys s) (descs s) (g_dma_desc_next s) (g_dma_buf_end s) (g_pending_head s) (g_pending_tail s)
    (prep_log_budget s) v (dma_daif s) (dma_out s).

Definition set_dma_daif (v : Z) (s : dma_st) : dma_st :=
  Dma (sys s) (descs s) (g_dma_desc_next s) (g_dma_buf_end s) (g_pending_head s) (g_pending_tail s)
    (prep_log_budget s) (comp_log_budget s) v (dma_out s).

Definition dout (l : list Z) (s : dma_st) : dma_st :=
  Dma (sys s) (descs s) (g_dma_desc_next s) (g_dma_buf_end s) (g_pending_head s) (g_pending_tail s)
    (prep_log_budget s) (comp_log_budget s) (dma_daif s) (dma_out s ++ l).

Definition dputs (m : string) : dma_st -> dma_st := dout (puts_bytes (chars m)).

Definition dprint_u64 (v : Z) : dma_st -> dma_st := dout (print_u64_bytes v).

Definition dputhex64 (v : Z) : dma_st -> dma_st := dout (puthex_bytes 16 v).

Definition nl : string := String (Ascii.ascii_of_nat 10) EmptyString.

(** [arch/irqflags.h]: bit 7 of DAIF masks interrupts. *)
Definition local_irq_save (s : dma_st) : Z * dma_st := (dma_daif s, set_dma_daif (Z.lor (dma_daif s) 0x80) s).

Definition local_irq_restore (flags : Z) (s : dma_st) : dma_st := set_dma_daif flags s.

Definition sizeof_desc : Z := 56.

Definition alignof_desc : Z := 8.

Section Dma.

Context (C : dma_cfg).

Definition dma_cache_maint_allowed (buf len : Z) : bool :=
  if (buf =? nullptr) || (len =? 0) then false
  else
    let start := buf in
    let end_ := start +64 (len -64 1) in
    if end_ <? start then false
    else if (0x80000000 <=? start) && (end_ <? 0xC0000000) then false
    else if negb ((0x40000000 <=? start) && (end_ <? 0x80000000)) then false
    else if noncacheable C && ((dma_nc_start_ C <=? end_) && (start <? dma_nc_end_ C)) then false
    else true.

Definition mmu_translation_enabled : bool := negb (Z.land (sctlr_el1 (hwc C)) 1 =? 0).

Definition dma_device_view (buf len : Z) : Z :=
  if (buf =? nullptr) || (len =? 0) then buf
  else if negb mmu_translation_enabled then buf
  else
    let start := buf in
    let end_ := start +64 (len -64 1) in
    if end_ <? start then buf
    else if (0x80000000 <=? start) && (end_ <? 0xC0000000) then buf
    else if (0x40000000 <=? start) && (end_ <? 0x80000000) then start +64 0x40000000
    else buf.

Definition dma_prepare_to_device (buf len : Z) (s : dma_st) : dma_st :=
  let s :=
    if negb (prep_log_budget s =? 0) && (64 <=? len) then
      dputs nl (dprint_u64 len (dputs "[dma] prepare_to_device len=" (set_prep_budget (prep_log_budget s - 1) s)))
    else s in
  let s := if dma_cache_maint_allowed buf len then set_sys (dc_cvac_range (hwc C) buf len (sys s)) s else s in
  set_sys (dma_wmb (sys s)) s.

Definition dma_complete_from_device (buf len : Z) (s : dma_st) : dma_st :=
  let s :=
    if negb (comp_log_budget s =? 0) && (64 <=? len) then
      dputs nl (dprint_u64 len (dputs "[dma] complete_from_device len=" (set_comp_budget (comp_log_budget s - 1) s)))
    else s in
  let s := set_sys (dma_rmb (sys s)) s in
  if dma_cache_maint_allowed buf len then set_sys (dc_ivac_range (hwc C) buf len (sys s)) s else s.

Definition dma_memcpy (dst src len : Z) (s : msys) : msys :=
  for_range 0 len (fun i s => let '(v, s) := load8 (hwc C) (src +64 i) s in store8 (hwc C) (dst +64 i) v s) s.

Definition dma_alloc_desc (s : dma_st) : Z * dma_st :=
  let raw := Z.land (g_dma_desc_next s +64 alignof_desc -64 1) (~64 (alignof_desc -64 1)) in
  if g_dma_buf_end s <? raw +64 sizeof_desc then (nullptr, s)
  else (raw, set_desc_next (raw +64 sizeof_desc) s).

Definition dma_alloc_buffer (len align : Z) (s : dma_st) : Z * dma_st :=
  if len =? 0 then (nullptr, s)
  else
    let align := if align =? 0 then 1 else align in
    if negb (Z.land align (align -64 1) =? 0) then (nullptr, s)
    else
      let end_ := g_dma_buf_end s in
      if end_ <? len then (nullptr, s)
      else
        let start := Z.land (end_ -64 len) (~64 (align -64 1)) in
        if start <? g_dma_desc_next s then (nullptr, s) else (start, set_buf_end start s).

(** Linking at the tail, with interrupts off. *)
Definition enqueue (d : Z) (s : dma_st) : dma_st :=
  let '(flags, s) := local_irq_save s in
  let prev_tail := g_pending_tail s in
  let s :=
    if negb (prev_tail =? nullptr) then
      let x := desc s prev_tail in
      set_desc prev_tail (DmaDesc (d_src x) (d_dst x) (d_len x) (d_status x) (d_cb x) (d_user x) d) s
    else set_head d s in
  local_irq_restore flags (set_tail d s).

Definition dma_submit_memcpy (dst src len cb user : Z) (s : dma_st) : Z * dma_st :=
  if (dst =? nullptr) || (src =? nullptr) || (len =? 0) then (-1, s)
  else
    let '(d, s) := dma_alloc_desc s in
    if d =? nullptr then (-2, s)
    else
      let s := set_desc d (DmaDesc src dst len 1 cb user nullptr) s in
      let s := dma_prepare_to_device src len s in
      let s := dma_prepare_to_device d sizeof_desc s in
      let prev_tail := g_pending_tail s in
      let s := enqueue d s in
      let s := if negb (prev_tail =? nullptr) then dma_prepare_to_device prev_tail sizeof_desc s else s in
      let s := dputhex64 d (dputs "[DMA] queued desc=0x" s) in
      let s := dputhex64 (d_next (desc s d)) (dputs " next=0x" s) in
      let s := dputhex64 (d_src (desc s d)) (dputs " src=0x" s) in
      let s := dputhex64 (d_dst (desc s d)) (dputs " dst=0x" s) in
      (0, dputs nl (dprint_u64 len (dputs " len=" s))).

(** The device's copy and the CPU's side of a completion. *)
Definition dma_transfer (dst src len : Z) (s : dma_st) : dma_st :=
  let dev_dst := dma_device_view dst len in
  let dev_src := dma_device_view src len in
  let s := set_sys (dma_memcpy dev_dst dev_src len (sys s)) s in
  let s :=
    if (dev_dst =? dst) && dma_cache_maint_allowed dst len
    then set_sys (dc_cvac_range (hwc C) dst len (sys s)) s else s in
  dma_complete_from_device dst len s.

(** One turn of the polling loop, up to the callback. *)
Definition dma_finish (d : Z) (s : dma_st) : dma_st :=
  let s := set_head (d_next (desc s d)) s in
  let s := if g_pending_head s =? nullptr then set_tail nullptr s else s in
  let x := desc s d in
  let s := set_desc d (DmaDesc (d_src x) (d_dst x) (d_len x) (d_status x) (d_cb x) (d_user x) nullptr) s in
  let dst := d_dst x in
  let src := d_src x in
  let len := d_len x in
  let s := dputhex64 d (dputs "[DMA] poll: desc=0x" s) in
  let s := dputhex64 dst (dputs " dst=0x" (dputhex64 src (dputs " src=0x" s))) in
  let s := dputs nl (dprint_u64 len (dputs " len=" s)) in
  let s := if negb (len =? 0) then dma_transfer dst src len s else s in
  let x := desc s d in
  let s := set_desc d (DmaDesc (d_src x) (d_dst x) (d_len x) 0 (d_cb x) (d_user x) (d_next x)) s in
  let s := dma_prepare_to_device d sizeof_desc s in
  dputs ("[DMA] done" ++ nl) s.

Definition dma_complete_one (d : Z) (s : dma_st) : dma_st :=
  let s := dma_finish d s in
  if negb (d_cb (desc s d) =? nullptr) then call_cb C (d_cb (desc s d)) (d_user (desc s d)) 0 s else s.

Fixpoint dma_poll_complete (fuel : nat) (s : dma_st) : option dma_st :=
  if g_pending_head s =? nullptr then Some s
  else match fuel with
       | O => None
       | Datatypes.S fuel' => dma_poll_complete fuel' (dma_complete_one (g_pending_head s) s)
       end.

(** [include/dma.h]. *)
Definition dma_window_contains_range (p len : Z) : Z :=
  if (p =? nullptr) || (len =? 0) then 0
  else
    let end_ := p +64 (len -64 1) in
    if end_ <? p then 0 else if (dma_nc_start_ C <=? p) && (end_ <? dma_nc_end_ C) then 1 else 0.

Definition dma_window_to_nocache_alias (p len : Z) : Z :=
  if dma_window_contains_range p len =? 0 then 0 else p +64 0x40000000.

Definition dma_window_from_nocache_alias (p len : Z) : Z :=
  if (p =? nullptr) || (len =? 0) then 0
  else
    let base := p -64 0x40000000 in
    if p <? base then 0 else if dma_window_contains_range base len =? 0 then 0 else base.

End Dma.

(** ** The two-ended window *)

(** What the window's allocations hand out: descriptors and buffers. *)
Inductive dma_req :=
| ReqDesc
| ReqBuf (len align : Z).

Definition dma_alloc (r : dma_req) (s : dma_st) : Z * dma_st :=
  match r with ReqDesc => dma_alloc_desc s | ReqBuf len align => dma_alloc_buffer len align s end.

Definition req_size (r : dma_req) : Z := match r with ReqDesc => sizeof_desc | ReqBuf len _ => len end.

Definition req_align (r : dma_req) : Z :=
  match r with ReqDesc => alignof_desc | ReqBuf _ align => if align =? 0 then 1 else align end.

(** The blocks of the successful requests. *)
Fixpoint dma_alloc_all (rs : list dma_req) (s : dma_st) : list (Z * Z) * dma_st :=
  match rs with
  | [] => ([], s)
  | r :: rs' =>
    let '(a, s) := dma_alloc r s in
    let '(bs, s) := dma_alloc_all rs' s in
    (if a =? nullptr then bs else (a, req_size r) :: bs, s)
  end.

Definition window_wf (s : dma_st) : Prop :=
  0 < g_dma_desc_next s /\ g_dma_desc_next s <= g_dma_buf_end s /\ g_dma_buf_end s < 2 ^ 62.

Definition dma_req_ok (r : dma_req) : Prop :=
  match r with ReqDesc => True | ReqBuf len align => 0 <= len < 2 ^ 64 /\ 0 <= align < 2 ^ 63 end.

Lemma align8 v : 0 <= v < 2 ^ 62 ->
  Z.land (v +64 alignof_desc -64 1) (~64 (alignof_desc -64 1)) = (v + 7) / 8 * 8.
Proof.
  intros Hv. unfold alignof_desc. rewrite (wrap64_small (v + 8)), (wrap64_small (v + 8 - 1)) by lia. change (8 -64 1) with (2 ^ 3 - 1).
  rewrite land_lnot_ones by lia. change (2 ^ 3) with 8. do 2 f_equal. lia.
Qed.

Lemma align_pow2 align : 0 < align < 2 ^ 63 -> Z.land align (align -64 1) = 0 -> exists k, 0 <= k < 63 /\ align = 2 ^ k.
Proof.
  intros Ha Hz. rewrite wrap64_small in Hz by lia. exists (Z.log2 align).
  assert (Hk : 0 <= Z.log2 align < 63) by (split; [apply Z.log2_nonneg | apply Z.log2_lt_pow2; lia]). split; [done |].
  pose proof (Z.log2_spec align ltac:(lia)) as Hl. set (k := Z.log2 align) in *.
  destruct (Z.eq_dec align (2 ^ k)) as [| Hne]; [done | exfalso].
  assert (Hbit : Z.testbit (Z.land align (align - 1)) k = true).
  { rewrite Z.land_spec. apply andb_true_iff. rewrite !Z.testbit_true by lia.
    replace (2 ^ Z.succ k) with (2 * 2 ^ k) in Hl by (rewrite Z.pow_succ_r; lia).
    rewrite <- (Z.div_unique align (2 ^ k) 1 (align - 2 ^ k)), <- (Z.div_unique (align - 1) (2 ^ k) 1 (align - 1 - 2 ^ k)) by lia. done. }
  by rewrite Hz, Z.bits_0 in Hbit.
Qed.

(** One allocation: it shrinks the free middle of the window by a block, or
    fails and changes nothing. *)
Lemma dma_alloc_step r s :
  window_wf s -> dma_req_ok r ->
  let '(a, s') := dma_alloc r s in
  window_wf s' /\ g_dma_desc_next s <= g_dma_desc_next s' /\ g_dma_buf_end s' <= g_dma_buf_end s /\
  (a = nullptr /\ s' = s \/
   a <> nullptr /\ a mod req_align r = 0 /\ 0 < req_size r /\
   (g_dma_desc_next s <= a /\ a + req_size r <= g_dma_desc_next s' \/
    g_dma_buf_end s' <= a /\ a + req_size r <= g_dma_buf_end s)).
Proof.
  intros (H1 & H2 & H3) Hr. destruct r as [| len align]; cbn [dma_alloc req_size req_align].
  - unfold dma_alloc_desc. rewrite align8 by lia. set (raw := (g_dma_desc_next s + 7) / 8 * 8).
    assert (Hraw : g_dma_desc_next s <= raw < g_dma_desc_next s + 8) by (unfold raw; zlia).
    unfold sizeof_desc. rewrite wrap64_small by lia. destruct (Z.ltb_spec (g_dma_buf_end s) (raw + 56)).
    + split; [done | split; [lia | split; [lia | by left]]].
    + unfold window_wf. cbn [set_desc_next g_dma_desc_next g_dma_buf_end].
      split; [lia | split; [lia | split; [lia | right]]]. split; [unfold nullptr; lia | split; [apply Z.mod_mul; done | split; [lia | left; lia]]].
  - destruct Hr as [Hl Ha]. unfold dma_alloc_buffer.
    assert (Hfail : window_wf s /\ g_dma_desc_next s <= g_dma_desc_next s /\ g_dma_buf_end s <= g_dma_buf_end s /\
      (nullptr = nullptr /\ s = s \/ nullptr <> nullptr /\ nullptr mod (if align =? 0 then 1 else align) = 0 /\ 0 < len /\
       (g_dma_desc_next s <= nullptr /\ nullptr + len <= g_dma_desc_next s \/
        g_dma_buf_end s <= nullptr /\ nullptr + len <= g_dma_buf_end s))).
    { split; [done | split; [lia | split; [lia | by left]]]. }
    destruct (Z.eqb_spec len 0); [done |]. fold (req_align (ReqBuf len align)) in *. cbn [req_align] in *. set (al := if align =? 0 then 1 else align).
    assert (Hal : 0 < al < 2 ^ 63) by (unfold al; destruct (Z.eqb_spec align 0); lia).
    destruct (Z.eqb_spec (Z.land al (al -64 1)) 0) as [Hp |]; cbn [negb]; [| done].
    destruct (Z.ltb_spec (g_dma_buf_end s) len); [done |].
    destruct (align_pow2 al Hal Hp) as (k & Hk & ->). rewrite (wrap64_small (g_dma_buf_end s - len)) by lia.
    assert (H2k : 0 < 2 ^ k) by lia. rewrite (wrap64_small (2 ^ k - 1)) by lia. rewrite land_lnot_ones by lia.
    set (start := (g_dma_buf_end s - len) / 2 ^ k * 2 ^ k).
    assert (Hs : start <= g_dma_buf_end s - len).
    { unfold start. pose proof (Z.mul_div_le (g_dma_buf_end s - len) (2 ^ k) H2k). lia. }
    destruct (Z.ltb_spec start (g_dma_desc_next s)); [done |].
    unfold window_wf. cbn [set_buf_end g_dma_desc_next g_dma_buf_end].
    split; [lia | split; [lia | split; [lia | right]]]. split; [unfold nullptr; lia | split; [apply Z.mod_mul; lia | split; [lia | right; lia]]].
Qed.

Definition blocks_apart (b c : Z * Z) : Prop := b.1 + b.2 <= c.1 \/ c.1 + c.2 <= b.1.

Lemma dma_alloc_all_spec rs s :
  window_wf s -> Forall dma_req_ok rs ->
  let '(bs, s') := dma_alloc_all rs s in
  window_wf s' /\ g_dma_desc_next s <= g_dma_desc_next s' /\ g_dma_buf_end s' <= g_dma_buf_end s /\
  ForallOrdPairs blocks_apart bs /\
  Forall (fun b => 0 < b.2 /\ g_dma_desc_next s <= b.1 /\ b.1 + b.2 <= g_dma_buf_end s) bs.
Proof.
  revert s. induction rs as [|r rs IH]; intros s Hw Hok; cbn [dma_alloc_all].
  { split; [done | split; [lia | split; [lia | split; constructor]]]. }
  apply Forall_cons in Hok as [Hr Hok]. pose proof (dma_alloc_step r s Hw Hr) as Hst. destruct (dma_alloc r s) as [a s1].
  destruct Hst as (W1 & L1 & L2 & Hcase). specialize (IH s1 W1 Hok). destruct (dma_alloc_all rs s1) as [bs s2].
  destruct IH as (W2 & L3 & L4 & Hp & Hin). split; [done | split; [lia | split; [lia |]]].
  assert (Hmono : Forall (fun b => 0 < b.2 /\ g_dma_desc_next s <= b.1 /\ b.1 + b.2 <= g_dma_buf_end s) bs).
  { eapply Forall_impl; [exact Hin |]. simpl. intros b. lia. }
  destruct Hcase as [[-> _] | (Ha & _ & Hz & Hb)]; [by rewrite Z.eqb_refl |]. rewrite (proj2 (Z.eqb_neq _ _) Ha).
  destruct W1 as (_ & W1 & _). split; constructor; try done.
  - eapply Forall_impl; [exact Hin |]. unfold blocks_apart. simpl. intros b. lia.
  - simpl. lia.
Qed.

(** ** The queue *)

(** [s] and [s'] agree on everything but memory, message budgets and output. *)
Definition same_queue (s s' : dma_st) : Prop :=
  descs s' = descs s /\ g_dma_desc_next s' = g_dma_desc_next s /\ g_dma_buf_end s' = g_dma_buf_end s /\
  g_pending_head s' = g_pending_head s /\ g_pending_tail s' = g_pending_tail s /\ dma_daif s' = dma_daif s.

Lemma same_queue_refl s : same_queue s s.
Proof. repeat split. Qed.

Lemma same_queue_trans s1 s2 s3 : same_queue s1 s2 -> same_queue s2 s3 -> same_queue s1 s3.
Proof.
  intros (A1 & A2 & A3 & A4 & A5 & A6) (B1 & B2 & B3 & B4 & B5 & B6).
  split; [| split; [| split; [| split; [| split]]]]; congruence.
Qed.

Lemma prepare_same C buf len s : same_queue s (dma_prepare_to_device C buf len s).
Proof. unfold dma_prepare_to_device. by destruct (_ && _), (dma_cache_maint_allowed _ _ _). Qed.

Lemma complete_same C buf len s : same_queue s (dma_complete_from_device C buf len s).
Proof. unfold dma_complete_from_device. by destruct (_ && _), (dma_cache_maint_allowed _ _ _). Qed.

Lemma transfer_same C dst src len s : same_queue s (dma_transfer C dst src len s).
Proof.
  unfold dma_transfer. cbv zeta. eapply same_queue_trans; [| apply complete_same]. by destruct (_ && _).
Qed.

(** [l]: the pending descriptors, oldest first. *)
Record dma_rep (s : dma_st) (l : list Z) : Prop := {
  dr_chain : linked (fun a => d_next (desc s a)) l nullptr;
  dr_head : g_pending_head s = hd nullptr l;
  dr_tail : g_pending_tail s = List.last l nullptr;
  dr_nodup : NoDup l;
  dr_low : forall a, a ∈ l -> 0 < a /\ a + sizeof_desc <= g_dma_desc_next s
}.

Lemma dma_rep_ext s s' l : same_queue s s' -> dma_rep s l -> dma_rep s' l.
Proof.
  intros (E1 & E2 & E3 & E4 & E5 & E6) []. unfold desc in *. split; rewrite ?E2, ?E4, ?E5; try done.
  unfold desc. by rewrite E1.
Qed.

Lemma desc_set a d s b : desc (set_desc a d s) b = if a =? b then d else desc s b.
Proof.
  unfold desc, set_desc. cbn [descs]. rewrite lookup_insert. destruct (Z.eqb_spec a b) as [-> |];
    [by rewrite decide_True | by rewrite decide_False].
Qed.

(** A descriptor without its link. *)
Definition set_d_next (v : Z) (x : dma_desc) : dma_desc :=
  DmaDesc (d_src x) (d_dst x) (d_len x) (d_status x) (d_cb x) (d_user x) v.

Definition desc_done (x : dma_desc) : dma_desc := DmaDesc (d_src x) (d_dst x) (d_len x) 0 (d_cb x) (d_user x) nullptr.

Lemma dma_enqueue_spec d s l :
  dma_rep s l -> d ∉ l -> 0 < d -> d + sizeof_desc <= g_dma_desc_next s -> d_next (desc s d) = nullptr ->
  dma_rep (enqueue d s) (l ++ [d]) /\ sys (enqueue d s) = sys s /\ dma_daif (enqueue d s) = dma_daif s /\
  g_dma_desc_next (enqueue d s) = g_dma_desc_next s /\ g_dma_buf_end (enqueue d s) = g_dma_buf_end s /\
  desc (enqueue d s) d = desc s d /\ forall a, exists v, desc (enqueue d s) a = set_d_next v (desc s a).
Proof.
  intros [H1 H2 H3 H4 H5] Hd Hpos Hlow Hn. unfold enqueue, local_irq_save, local_irq_restore. cbv zeta. cbn [g_pending_tail set_dma_daif].
  assert (Hself : forall a, exists v, desc s a = set_d_next v (desc s a)) by (intros a; exists (d_next (desc s a)); by destruct (desc s a)).
  assert (Hnd : NoDup (l ++ [d])) by (apply NoDup_app; split; [done | split; [| by apply NoDup_singleton]]; by intros x Hx ->%list_elem_of_singleton).
  assert (Hlows : forall a, a ∈ l ++ [d] -> 0 < a /\ a + sizeof_desc <= g_dma_desc_next s).
  { intros a [Ha | ->%list_elem_of_singleton]%elem_of_app; auto. }
  rewrite H3. destruct l as [|x l _] using rev_ind; cbn [List.last].
  - rewrite Z.eqb_refl. cbn [negb]. repeat split; cbn; try done; try (by apply Hlows).
  - rewrite last_last. destruct (H5 x) as [Hx Hxl]; [apply elem_of_app; right; by left |].
    unfold nullptr. rewrite (proj2 (Z.eqb_neq x 0)) by lia. cbn [negb].
    assert (Hxd : x <> d) by (intros ->; apply Hd, elem_of_app; right; by left).
    set (s' := set_dma_daif _ _).
    assert (Hdesc : forall a, desc s' a = if x =? a then set_d_next d (desc s x) else desc s a) by (intros a; exact (desc_set x (set_d_next d (desc s x)) s a)).
    split; [split | split; [done | split; [done | split; [done | split; [done | split]]]]].
    + rewrite linked_snoc, Hdesc, (proj2 (Z.eqb_neq _ _)) by done. split; [| done].
      rewrite linked_snoc in H1 |- *. destruct H1 as [H1 _]. rewrite Hdesc, Z.eqb_refl. split; [| done].
      apply NoDup_app in H4 as (_ & Hxl' & _). revert H1. apply linked_ext. intros y Hy. rewrite Hdesc, (proj2 (Z.eqb_neq _ _)); [done |].
      intros ->. apply (Hxl' y Hy). by left.
    + cbn. rewrite H2. by destruct l.
    + by rewrite last_last.
    + done.
    + exact Hlows.
    + by rewrite Hdesc, (proj2 (Z.eqb_neq _ _)).
    + intros a. rewrite Hdesc. destruct (Z.eqb_spec x a) as [<- |]; [by exists d | apply Hself].
Qed.

Section Queue.

Context (C : dma_cfg).

Definition desc_addr (s : dma_st) : Z := (g_dma_desc_next s + 7) / 8 * 8.

Lemma dma_alloc_desc_eq s : window_wf s ->
  dma_alloc_desc s =
    if g_dma_buf_end s <? desc_addr s + sizeof_desc then (nullptr, s) else (desc_addr s, set_desc_next (desc_addr s + sizeof_desc) s).
Proof.
  intros (H1 & H2 & H3). unfold dma_alloc_desc. rewrite align8 by lia. fold (desc_addr s).
  assert (g_dma_desc_next s <= desc_addr s < g_dma_desc_next s + 8) by (unfold desc_addr; zlia).
  unfold sizeof_desc. rewrite wrap64_small by lia. done.
Qed.

(** Submission past the argument checks and the allocation. *)
Lemma submit_spec dst src len cb user s l :
  window_wf s -> dma_rep s l -> dst <> nullptr -> src <> nullptr -> len <> 0 ->
  desc_addr s + sizeof_desc <= g_dma_buf_end s ->
  let '(r, s') := dma_submit_memcpy C dst src len cb user s in
  let d := desc_addr s in
  r = 0 /\ dma_rep s' (l ++ [d]) /\ desc s' d = DmaDesc src dst len 1 cb user nullptr /\
  (forall a, a <> d -> exists v, desc s' a = set_d_next v (desc s a)) /\ window_wf s' /\ dma_daif s' = dma_daif s.
Proof.
  intros Hw Hrep Hdst Hsrc Hlen Hroom. unfold dma_submit_memcpy.
  rewrite (proj2 (Z.eqb_neq _ _) Hdst), (proj2 (Z.eqb_neq _ _) Hsrc), (proj2 (Z.eqb_neq _ _) Hlen). cbn [orb].
  rewrite dma_alloc_desc_eq by done. rewrite (proj2 (Z.ltb_ge _ _)) by done. destruct Hw as (W1 & W2 & W3).
  assert (Hd : g_dma_desc_next s <= desc_addr s) by (unfold desc_addr; zlia). set (d := desc_addr s) in *.
  unfold nullptr at 1. rewrite (proj2 (Z.eqb_neq d 0)) by lia. cbv zeta.
  set (s1 := set_desc d _ _). set (s2 := dma_prepare_to_device C d sizeof_desc (dma_prepare_to_device C src len s1)).
  assert (Q : same_queue s1 s2) by (eapply same_queue_trans; apply prepare_same).
  assert (Hdl : d ∉ l). { intros Hin. destruct (dr_low _ _ Hrep d Hin). unfold sizeof_desc in *. lia. }
  assert (R1 : dma_rep s1 l).
  { destruct Hrep as [R1 R2 R3 R4 R5]. split; try done.
    - apply (linked_ext (fun a => d_next (desc s a))); [| done]. intros x Hx. unfold s1. rewrite desc_set.
      by destruct (Z.eqb_spec d x) as [-> |].
    - intros a Ha. destruct (R5 a Ha). cbn. unfold sizeof_desc in *. lia. }
  assert (R2 : dma_rep s2 l) by (by apply (dma_rep_ext s1)).
  assert (E2 : forall a, desc s2 a = if d =? a then DmaDesc src dst len 1 cb user nullptr else desc s a).
  { intros a. destruct Q as (Q & _). unfold desc at 1. rewrite Q. exact (desc_set d _ (set_desc_next (d + sizeof_desc) s) a). }
  assert (En : g_dma_desc_next s2 = d + sizeof_desc) by apply Q.
  destruct (dma_enqueue_spec d s2 l) as (R3 & E3 & D3 & N3 & B3 & S3 & A3); [done | done | lia | lia | by rewrite E2, Z.eqb_refl |].
  set (s3 := enqueue d s2) in *. set (s4 := if negb (g_pending_tail s2 =? nullptr) then _ else s3).
  assert (Q4 : same_queue s3 s4) by (unfold s4; destruct (negb _); [apply prepare_same | done]).
  assert (E4 : forall a, desc s4 a = desc s3 a) by (intros a; destruct Q4 as (Q4 & _); unfold desc; by rewrite Q4).
  set (s5 := dputs nl _). assert (Q5 : same_queue s4 s5) by done.
  split; [done | split; [by apply (dma_rep_ext s4); [| apply (dma_rep_ext s3)] |]].
  change (desc s5) with (desc s4). split; [by rewrite E4, S3, E2, Z.eqb_refl | split; [| split]].
  - intros a Ha. rewrite E4. destruct (A3 a) as [v Hv]. exists v. by rewrite Hv, E2, (proj2 (Z.eqb_neq _ _)).
  - destruct Q4 as (_ & Q41 & Q42 & _), Q as (_ & _ & Qb & _). unfold window_wf.
    change (g_dma_desc_next s5) with (g_dma_desc_next s4). change (g_dma_buf_end s5) with (g_dma_buf_end s4).
    rewrite Q41, Q42, N3, B3, En, Qb. cbn. unfold sizeof_desc in *. lia.
  - destruct Q4 as (_ & _ & _ & _ & _ & Q4), Q as (_ & _ & _ & _ & _ & Q).
    change (dma_daif s5) with (dma_daif s4). by rewrite Q4, D3, Q.
Qed.

(** One completion takes the oldest descriptor off and marks it done. *)
Lemma finish_spec d s l :
  dma_rep s (d :: l) ->
  dma_rep (dma_finish C d s) l /\ desc (dma_finish C d s) d = desc_done (desc s d) /\
  forall a, a <> d -> desc (dma_finish C d s) a = desc s a.
Proof.
  intros [H1 H2 H3 H4 H5]. destruct H1 as [Hn H1]. apply NoDup_cons in H4 as [Hd H4]. unfold dma_finish. cbv zeta.
  set (s0 := if g_pending_head _ =? nullptr then _ else _).
  assert (Q0 : descs s0 = descs s /\ g_dma_desc_next s0 = g_dma_desc_next s /\ g_pending_head s0 = hd nullptr l /\ g_pending_tail s0 = List.last l nullptr).
  { unfold s0. cbn [g_pending_head set_head]. rewrite Hn. destruct l as [|x l]; cbn [hd]; [by rewrite Z.eqb_refl |].
    destruct (H5 x) as [Hx _]; [right; by left |]. rewrite (proj2 (Z.eqb_neq x nullptr)) by (unfold nullptr; lia).
    split; [done | split; [done | split; [done |]]]. cbn [g_pending_tail set_head]. by rewrite H3. }
  clearbody s0. destruct Q0 as (Qd & Qn & Qh & Qt).
  assert (Ed : forall a, desc s0 a = desc s a) by (intros a; unfold desc; by rewrite Qd).
  set (s1 := set_desc d _ s0). set (s2 := dputs nl _). set (s3 := if negb _ then _ else s2).
  assert (Q13 : same_queue s1 s3) by (unfold s3; destruct (negb _); [apply (transfer_same C _ _ _ s2) | done]).
  assert (E3 : forall a, desc s3 a = if d =? a then set_d_next nullptr (desc s d) else desc s a).
  { intros a. destruct Q13 as (Q & _). unfold desc at 1. rewrite Q. etrans; [apply (desc_set d) |]. by rewrite !Ed. }
  set (s4 := set_desc d _ s3). set (s5 := dma_prepare_to_device C d sizeof_desc s4).
  assert (Q5 : same_queue s4 s5) by apply prepare_same.
  assert (E5 : forall a, desc s5 a = if d =? a then desc_done (desc s d) else desc s a).
  { intros a. destruct Q5 as (Q & _). unfold desc at 1. rewrite Q. etrans; [apply (desc_set d) |]. rewrite !E3, Z.eqb_refl.
    by destruct (d =? a). }
  change (desc (dputs ("[DMA] done" ++ nl) s5)) with (desc s5).
  split; [| split; [by rewrite E5, Z.eqb_refl | intros a Ha; rewrite E5; by rewrite (proj2 (Z.eqb_neq _ _)) by congruence]].
  apply (dma_rep_ext s5); [done |]. destruct Q5 as (_ & Q5n & _ & Q5h & Q5t & _), Q13 as (_ & Q3n & _ & Q3h & Q3t & _).
  split; [| rewrite Q5h | rewrite Q5t | done | intros a Ha; rewrite Q5n].
  - revert H1. apply linked_ext. intros x Hx. rewrite E5. destruct (Z.eqb_spec d x) as [-> |]; done.
  - change (g_pending_head s4) with (g_pending_head s3). by rewrite Q3h.
  - change (g_pending_tail s4) with (g_pending_tail s3). by rewrite Q3t.
  - change (g_dma_desc_next s4) with (g_dma_desc_next s3). rewrite Q3n.
    change (g_dma_desc_next s1) with (g_dma_desc_next s0). rewrite Qn. apply H5. by right.
Qed.

(** Polling completes the queue in order, whatever the callbacks do outside it. *)
Lemma poll_spec l fuel s :
  (forall cb user status s, same_queue s (call_cb C cb user status s)) ->
  dma_rep s l -> (length l <= fuel)%nat ->
  dma_poll_complete C fuel s = Some (foldl (fun s d => dma_complete_one C d s) s l) /\
  dma_rep (foldl (fun s d => dma_complete_one C d s) s l) [] /\
  (forall a, a ∈ l -> desc (foldl (fun s d => dma_complete_one C d s) s l) a = desc_done (desc s a)) /\
  (forall a, a ∉ l -> desc (foldl (fun s d => dma_complete_one C d s) s l) a = desc s a).
Proof.
  intros Hcb. revert fuel s. induction l as [|d l IH]; intros fuel s Hr Hf.
  - cbn [foldl]. split; [| split; [done | split; [by intros a ?%not_elem_of_nil | done]]].
    destruct fuel; cbn [dma_poll_complete]; by rewrite (dr_head _ _ Hr).
  - destruct fuel as [|fuel]; [simpl in Hf; lia |]. cbn [foldl dma_poll_complete].
    destruct (dr_low _ _ Hr d) as [Hd _]; [by left |]. rewrite (dr_head _ _ Hr). cbn [hd].
    unfold nullptr at 1. rewrite (proj2 (Z.eqb_neq d 0)) by lia.
    destruct (finish_spec d s l Hr) as (F1 & F2 & F3).
    assert (Q : same_queue (dma_finish C d s) (dma_complete_one C d s)) by (unfold dma_complete_one; cbv zeta; destruct (negb _); [apply Hcb | done]).
    assert (E : forall a, desc (dma_complete_one C d s) a = desc (dma_finish C d s) a) by (intros a; destruct Q as (Q & _); unfold desc; by rewrite Q).
    pose proof (dr_nodup _ _ Hr) as Hnd. apply NoDup_cons in Hnd as [Hdl _].
    destruct (IH fuel (dma_complete_one C d s)) as (J1 & J2 & J3 & J4); [by apply (dma_rep_ext (dma_finish C d s)) | simpl in Hf; lia |].
    split; [done | split; [done | split]].
    + intros a [-> | Ha]%elem_of_cons; [by rewrite J4, E, F2 by done |]. rewrite J3, E, F3; [done | by intros -> | done].
    + intros a [Ha1 Ha2]%not_elem_of_cons. by rewrite J4, E, F3.
Qed.

End Queue.

(** ** Where addresses lead *)

(** What the driver relies on: RAM is mapped at its own address, cacheable
    except for the window under the non-cacheable policy; the gigabyte above
    aliases it past the cache. *)
Class DmaMap (xl : Z -> Z * bool) (nc : bool) (ws we : Z) : Prop := {
  dm_ram : forall a, 0x40000000 <= a < 0x80000000 -> (xl a).1 = a;
  dm_policy : forall a, 0x40000000 <= a < 0x80000000 -> (xl a).2 = negb (nc && ((ws <=? a) && (a <? we)));
  dm_alias : forall a, 0x80000000 <= a < 0xC0000000 -> xl a = (a - 0x40000000, false)
}.

(** The map of the tables [mmu.cc] builds. *)
Definition virt_xlate (L : mmu_layout) (nc : bool) (s : mmu_st) (va : Z) : Z * bool :=
  match walk (pt (build_identity_map L nc s)) (g_l0 L) va with
  | Some l => (lf_pa l, lf_attr l =? kAttrIdxNormal)
  | None => (va, false)
  end.

#[export] Instance virt_dma_map L nc s :
  layout_ok L -> window_ok L kRamBase -> dma_nc_start L mod 4096 = 0 -> dma_nc_end L mod 4096 = 0 ->
  DmaMap (virt_xlate L nc s) nc (dma_nc_start L) (dma_nc_end L).
Proof.
  intros HL Hw Hs He. destruct (build_spec L HL nc s Hw) as (_ & _ & _ & Hwalk).
  split; intros a Ha; unfold virt_xlate; rewrite Hwalk by lia; unfold virt_map.
  - rewrite (proj2 (Z.ltb_ge _ _)), (proj2 (Z.ltb_lt _ _)) by lia. done.
  - rewrite (proj2 (Z.ltb_ge _ _)), (proj2 (Z.ltb_lt _ _)) by lia. unfold ram_leaf. cbn [lf_pa lf_attr snd].
    assert (H1 : (dma_nc_start L <=? a / 2 ^ 12 * 2 ^ 12) = (dma_nc_start L <=? a)).
    { change (2 ^ 12) with 4096. destruct (Z.leb_spec (dma_nc_start L) a); [apply Z.leb_le | apply Z.leb_gt]; zlia. }
    assert (H2 : (a / 2 ^ 12 * 2 ^ 12 <? dma_nc_end L) = (a <? dma_nc_end L)).
    { change (2 ^ 12) with 4096. destruct (Z.ltb_spec a (dma_nc_end L)); [apply Z.ltb_lt | apply Z.ltb_ge]; zlia. }
    rewrite H1, H2. by destruct (dma_nc_start L <=? a), (a <? dma_nc_end L), nc.
  - rewrite !(proj2 (Z.ltb_ge _ _)), (proj2 (Z.ltb_lt _ _)) by lia. cbn [lf_pa lf_attr]. done.
Qed.

Section Transfer.

Context (C : dma_cfg) `{HM : !DmaMap (xlate (hwc C)) (noncacheable C) (dma_nc_start_ C) (dma_nc_end_ C)}.
Context (Hcache : dcache_enabled (hwc C) = true) (Hmmu : mmu_translation_enabled C = true).

Abbreviation H := (hwc C).

Lemma maint_allowed_spec buf len : 0 <= buf < 2 ^ 64 -> 0 <= len < 2 ^ 64 -> dma_cache_maint_allowed C buf len = true ->
  0 < len /\ 0x40000000 <= buf /\ buf + len <= 0x80000000.
Proof.
  intros Hb Hl. unfold dma_cache_maint_allowed, nullptr. destruct (Z.eqb_spec buf 0); [done |]. destruct (Z.eqb_spec len 0); [done |].
  cbn [orb]. rewrite (wrap64_small (len - 1)) by lia. cbv zeta. set (e := buf +64 (len - 1)).
  destruct (Z.ltb_spec e buf); [done |]. assert (He : e = buf + (len - 1)) by (unfold e, wrap64 in *; zlia).
  destruct (_ && _); [done |]. destruct (Z.leb_spec 0x40000000 buf), (Z.ltb_spec e 0x80000000); cbn [negb andb]; try done. lia.
Qed.

Lemma device_view_alias buf len : 0 < len -> 0x40000000 <= buf -> buf + len <= 0x80000000 ->
  dma_device_view C buf len = buf + 0x40000000.
Proof.
  intros Hl Hb Ht. unfold dma_device_view, nullptr. rewrite !(proj2 (Z.eqb_neq _ 0)) by lia. rewrite Hmmu. cbn [orb negb].
  rewrite (wrap64_small (len - 1)), (wrap64_small (buf + (len - 1))) by lia. cbv zeta.
  rewrite (proj2 (Z.ltb_ge (buf + (len - 1)) buf)) by lia.
  rewrite (proj2 (Z.leb_gt 0x80000000 buf)) by lia. cbn [andb].
  rewrite (proj2 (Z.leb_le 0x40000000 buf)), (proj2 (Z.ltb_lt (buf + (len - 1)) 0x80000000)) by lia. cbn [andb]. apply wrap64_small. lia.
Qed.

Lemma buffer_range buf len : 0 < len -> 0x40000000 <= buf -> buf + len <= 0x80000000 ->
  range_ok H buf len /\ identity_mapped H buf len.
Proof.
  intros Hl Hb Ht. pose proof (line_size_pos H) as HL. split; [unfold range_ok; lia |].
  intros k [Hk1 Hk2]. unfold line_of in *. destruct (line_size_pow2 H) as (n & Hn & E). rewrite E in *. apply (dm_ram (DmaMap := HM)).
  assert (H30 : 2 ^ (30 - n) * 2 ^ n = 0x40000000) by (rewrite <- Z.pow_add_r by lia; replace (30 - n + n) with 30 by lia; done).
  assert (2 ^ (30 - n) <= buf / 2 ^ n) by (apply Z.div_le_lower_bound; lia).
  pose proof (Z.mul_div_le (buf + len - 1) (2 ^ n) ltac:(lia)). nia.
Qed.

Lemma memcpy_spec dst src len s :
  0 < len -> 0x40000000 <= dst -> dst + len <= 0x80000000 -> 0x40000000 <= src -> src + len <= 0x80000000 ->
  dst + len <= src \/ src + len <= dst ->
  msys_bytes s -> (forall k, covers H src len k \/ covers H dst len k -> line_clean s k) ->
  let s' := dma_memcpy C (dst + 0x40000000) (src + 0x40000000) len s in
  msys_bytes s' /\ (forall k, line_clean s k -> line_clean s' k) /\
  (forall b, line_clean s (line_of H b) ->
     ld8 (pmem s') b = if (dst <=? b) && (b <? dst + len) then ld8 (pmem s) (src + (b - dst)) else ld8 (pmem s) b) /\
  (forall k, ~ covers H dst len k -> line_good H s k -> line_good H s' k) /\
  (forall b, ~ covers H dst len (line_of H b) -> line_good H s (line_of H b) -> view H s' b = view H s b).
Proof.
  intros Hl Hd1 Hd2 Hs1 Hs2 Hdis Hb Hc. unfold dma_memcpy.
  set (P := fun j s' => msys_bytes s' /\ (forall k, line_clean s k -> line_clean s' k) /\
    (forall b, line_clean s (line_of H b) ->
       ld8 (pmem s') b = if (dst <=? b) && (b <? dst + j) then ld8 (pmem s) (src + (b - dst)) else ld8 (pmem s) b) /\
    (forall k, ~ covers H dst len k -> line_good H s k -> line_good H s' k) /\
    (forall b, ~ covers H dst len (line_of H b) -> line_good H s (line_of H b) -> view H s' b = view H s b)).
  apply (for_range_ind P); [lia | |].
  { split; [done | split; [done | split; [| done]]]. intros b _. repeat bdestr; simpl; lia || done. }
  intros j sj Hj (P1 & P2 & P3 & P4 & P5).
  rewrite !wrap64_small by lia. replace (src + 0x40000000 + j) with (src + j + 0x40000000) by lia.
  replace (dst + 0x40000000 + j) with (dst + j + 0x40000000) by lia.
  assert (Xs : xlate H (src + j + 0x40000000) = (src + j, false)) by (rewrite (dm_alias (DmaMap := HM)) by lia; f_equal; lia).
  assert (Xd : xlate H (dst + j + 0x40000000) = (dst + j, false)) by (rewrite (dm_alias (DmaMap := HM)) by lia; f_equal; lia).
  assert (Cs : covers H src len (line_of H (src + j))) by (apply covers_byte; lia).
  assert (Cd : covers H dst len (line_of H (dst + j))) by (apply covers_byte; lia).
  pose proof (load8_nc H (src + j + 0x40000000) sj P1 ltac:(by unfold cacheable; rewrite Xs, andb_false_r)) as HL.
  destruct (load8 H (src + j + 0x40000000) sj) as [v s1]. destruct HL as (B1 & Q1 & Hv). rewrite Xs in Hv. cbn [fst] in Hv.
  rewrite Hv in * by auto. clear Hv v.
  destruct (store8_nc H (dst + j + 0x40000000) (ld8 (pmem sj) (src + j)) s1 B1 ltac:(by unfold cacheable; rewrite Xd, andb_false_r))
    as (S1 & _ & S3 & S4 & S5 & S6). rewrite Xd in *. cbn [fst] in *.
  split; [done | split; [| split; [| split]]].
  - intros k Hk. apply S3, (qt_clean _ _ _ Q1). auto.
  - intros b Hk. rewrite S5 by (apply (qt_clean _ _ _ Q1); auto). rewrite (qt_mem _ _ _ Q1) by auto.
    rewrite (P3 (src + j)) by auto. rewrite P3 by done.
    replace ((dst <=? src + j) && (src + j <? dst + j)) with false
      by (symmetry; apply andb_false_iff; destruct Hdis; [right | left]; [apply Z.ltb_ge | apply Z.leb_gt]; lia).
    destruct (Z.eqb_spec (dst + j) b) as [<- |].
    + rewrite (proj2 (Z.leb_le _ _)), (proj2 (Z.ltb_lt _ _)) by lia. cbn [andb].
      replace (src + (dst + j - dst)) with (src + j) by lia. apply Z.mod_small, Hb.
    + repeat bdestr; simpl; lia || done.
  - intros k Hk Hg. apply S4; [congruence |]. apply (qt_good _ _ _ Q1). auto.
  - intros b Hk Hg. rewrite S6; [| congruence | apply (qt_good _ _ _ Q1); auto].
    rewrite (qt_view _ _ _ Q1) by auto. auto.
Qed.

(** The two ends of a transfer. *)
Record buffers_ok (dst src len : Z) : Prop := {
  bo_dst : 0 <= dst < 2 ^ 64;
  bo_src : 0 <= src < 2 ^ 64;
  bo_len : 0 <= len < 2 ^ 64;
  bo_dst_ok : dma_cache_maint_allowed C dst len = true;
  bo_src_ok : dma_cache_maint_allowed C src len = true;
  bo_apart : dst + len <= src \/ src + len <= dst
}.

Lemma prepare_spec buf len s : 0 <= buf < 2 ^ 64 -> 0 <= len < 2 ^ 64 -> msys_bytes (sys s) ->
  let s' := dma_prepare_to_device C buf len s in
  msys_bytes (sys s') /\ (forall k, line_good H (sys s) k -> line_good H (sys s') k) /\
  (forall k, line_clean (sys s) k -> line_clean (sys s') k) /\
  (dma_cache_maint_allowed C buf len = true -> forall k, covers H buf len k -> line_clean (sys s') k) /\
  (forall b, line_good H (sys s) (line_of H b) -> view H (sys s') b = view H (sys s) b) /\
  (forall b, line_clean (sys s) (line_of H b) -> ld8 (pmem (sys s')) b = ld8 (pmem (sys s)) b).
Proof.
  intros Hb Hl Hs. unfold dma_prepare_to_device. cbv zeta. set (s1 := if _ && _ then _ else s).
  assert (E : sys s1 = sys s) by (unfold s1; by destruct (_ && _)). clearbody s1.
  destruct (dma_cache_maint_allowed C buf len) eqn:Ha.
  - destruct (maint_allowed_spec buf len Hb Hl Ha) as (H1 & H2 & H3). destruct (buffer_range buf len H1 H2 H3) as [R1 R2].
    rewrite E. destruct (cvac_range_spec H buf len (sys s) Hs Hcache R1 R2) as (C1 & _ & C3 & C4 & C5 & C6).
    cbn [sys set_sys]. split; [by apply log_bytes | split; [exact C3 | split; [| split; [| split; [exact C5 | exact C6]]]]].
    + intros k Hk. apply C4. by left.
    + intros _ k Hk. apply C4. by right.
  - cbn [sys set_sys]. rewrite E. split; [by apply log_bytes |]. by repeat split.
Qed.

Lemma transfer_spec dst src len s :
  buffers_ok dst src len -> msys_bytes (sys s) ->
  (forall k, covers H src len k \/ covers H dst len k -> line_clean (sys s) k) ->
  let s' := dma_transfer C dst src len s in
  msys_bytes (sys s') /\ (forall k, covers H dst len k -> line_good H (sys s') k) /\
  (forall i, 0 <= i < len -> view H (sys s') (dst + i) = ld8 (pmem (sys s)) (src + i)) /\
  (forall k, ~ covers H dst len k -> line_good H (sys s) k -> line_good H (sys s') k) /\
  (forall b, ~ covers H dst len (line_of H b) -> line_good H (sys s) (line_of H b) -> view H (sys s') b = view H (sys s) b).
Proof.
  intros [Hd Hs Hl Hda Hsa Hdis] Hb Hc.
  destruct (maint_allowed_spec dst len Hd Hl Hda) as (L1 & D1 & D2). destruct (maint_allowed_spec src len Hs Hl Hsa) as (_ & S1 & S2).
  unfold dma_transfer. rewrite !device_view_alias by done. cbv zeta.
  rewrite (proj2 (Z.eqb_neq (dst + 0x40000000) dst)) by lia. cbn [andb].
  destruct (memcpy_spec dst src len (sys s)) as (M1 & M2 & M3 & M4 & M5); try done.
  set (m := dma_memcpy C _ _ len (sys s)) in *. clearbody m. unfold dma_complete_from_device. rewrite Hda. cbv zeta.
  set (s1 := if _ && _ then _ else _). assert (E : sys s1 = m) by (unfold s1; by destruct (_ && _)). clearbody s1.
  cbn [sys set_sys]. rewrite E. destruct (buffer_range dst len L1 D1 D2) as [R1 R2].
  destruct (ivac_range_spec H dst len (dma_rmb m)) as (I1 & _ & I3 & I4 & I5 & I6); [by apply log_bytes | done | done | done |].
  split; [done | split; [| split; [| split]]].
  - intros k Hk. apply I3. by right.
  - intros i Hi. assert (Hci : covers H dst len (line_of H (dst + i))) by (apply covers_byte; lia).
    rewrite view_good; [| apply I3; by right | apply I4; by right]. rewrite I6 by (apply M2; auto). change (pmem (dma_rmb m)) with (pmem m).
    rewrite M3 by auto. rewrite (proj2 (Z.leb_le _ _)), (proj2 (Z.ltb_lt _ _)) by lia. cbn [andb]. do 2 f_equal. lia.
  - intros k Hk Hg. apply I3. left. by apply M4.
  - intros b Hk Hg. rewrite I5; [by apply M5 | done | by apply M4].
Qed.

End Transfer.

(** ** Theorems *)

(** C14: the window's two ends never meet: over any sequence of descriptor and
    buffer requests the blocks handed out are pairwise disjoint and lie in the
    part of the window that was free, each aligned as asked for; a request that
    fails changes nothing. *)
Theorem dma_window_safe rs s :
  window_wf s -> Forall dma_req_ok rs ->
  (let '(bs, s') := dma_alloc_all rs s in
   window_wf s' /\ ForallOrdPairs blocks_apart bs /\
   Forall (fun b => 0 < b.2 /\ g_dma_desc_next s <= b.1 /\ b.1 + b.2 <= g_dma_buf_end s) bs) /\
  (forall r, dma_req_ok r -> let '(a, s') := dma_alloc r s in
   a = nullptr /\ s' = s \/ a <> nullptr /\ a mod req_align r = 0).
Proof.
  intros Hw Hok. split.
  - pose proof (dma_alloc_all_spec rs s Hw Hok) as Hall. destruct (dma_alloc_all rs s) as [bs s'].
    by destruct Hall as (? & _ & _ & ? & ?).
  - intros r Hr. pose proof (dma_alloc_step r s Hw Hr) as Hst. destruct (dma_alloc r s) as [a s'].
    destruct Hst as (_ & _ & _ & [? | (? & ? & _)]); auto.
Qed.

(** C15: submissions are completed in the order they were queued: an accepted
    request is appended to the pending list with its fields and status 1, and
    one poll with enough fuel for the list completes every pending descriptor
    oldest first, each exactly once (its callback included), leaving each done
    with status 0 and the queue empty; interrupts end as they were found. A
    submission with a null argument or no room for a descriptor is refused and
    changes nothing. *)
Theorem dma_queue_fifo C dst src len cb user s l :
  window_wf s -> dma_rep s l ->
  (forall cb user status s, same_queue s (call_cb C cb user status s)) ->
  (dst = nullptr \/ src = nullptr \/ len = 0 -> dma_submit_memcpy C dst src len cb user s = (-1, s)) /\
  (dst <> nullptr -> src <> nullptr -> len <> 0 ->
   let '(r, s') := dma_submit_memcpy C dst src len cb user s in
   let d := desc_addr s in
   if g_dma_buf_end s <? d + sizeof_desc then r = -2 /\ s' = s
   else r = 0 /\ dma_rep s' (l ++ [d]) /\ desc s' d = DmaDesc src dst len 1 cb user nullptr /\ dma_daif s' = dma_daif s /\
        (forall a, a <> d -> exists v, desc s' a = set_d_next v (desc s a))) /\
  (forall fuel, (length l <= fuel)%nat ->
   exists s', dma_poll_complete C fuel s = Some s' /\ s' = foldl (fun s d => dma_complete_one C d s) s l /\
     dma_rep s' [] /\ (forall a, a ∈ l -> desc s' a = desc_done (desc s a)) /\ (forall a, a ∉ l -> desc s' a = desc s a)).
Proof.
  intros Hw Hr Hcb. split; [| split].
  - intros Hn. unfold dma_submit_memcpy, nullptr in *. destruct (Z.eqb_spec dst 0), (Z.eqb_spec src 0), (Z.eqb_spec len 0); try done. lia.
  - intros Hd Hs Hl. destruct (Z.ltb_spec (g_dma_buf_end s) (desc_addr s + sizeof_desc)) as [Hno | Hroom].
    + unfold dma_submit_memcpy. rewrite (proj2 (Z.eqb_neq _ _) Hd), (proj2 (Z.eqb_neq _ _) Hs), (proj2 (Z.eqb_neq _ _) Hl).
      cbn [orb]. rewrite dma_alloc_desc_eq by done. rewrite (proj2 (Z.ltb_lt _ _) Hno). cbv zeta. by rewrite Z.eqb_refl, ?(proj2 (Z.ltb_lt _ _) Hno).
    + pose proof (submit_spec C dst src len cb user s l Hw Hr Hd Hs Hl Hroom) as H. destruct (dma_submit_memcpy _ _ _ _ _ _ _) as [r s'].
      destruct H as (H1 & H2 & H3 & H4 & _ & H5). cbv zeta. rewrite ?(proj2 (Z.ltb_ge _ _) Hroom). split; [exact H1 | split; [exact H2 | split; [exact H3 | split; [exact H5 | exact H4]]]].
  - intros fuel Hf. destruct (poll_spec C l fuel s Hcb Hr Hf) as (P1 & P2 & P3 & P4). eexists. by split.
Qed.

(** The code between submission and completion leaves the source alone: its
    lines stay clean and the memory under them stays. *)
Definition undisturbed (C : dma_cfg) (src len : Z) (s s' : msys) : Prop :=
  msys_bytes s' /\
  (forall k, covers (hwc C) src len k -> line_clean s k -> line_clean s' k) /\
  (forall b, covers (hwc C) src len (line_of (hwc C) b) -> line_clean s (line_of (hwc C) b) -> ld8 (pmem s') b = ld8 (pmem s) b).

Lemma submit_sys C `{HM : !DmaMap (xlate (hwc C)) (noncacheable C) (dma_nc_start_ C) (dma_nc_end_ C)} dst src len cb user s :
  dcache_enabled (hwc C) = true -> 0 <= src < 2 ^ 64 -> 0 <= len < 2 ^ 64 -> dma_cache_maint_allowed C src len = true ->
  msys_bytes (sys s) -> window_wf s -> dst <> nullptr -> desc_addr s + sizeof_desc <= g_dma_buf_end s ->
  g_pending_tail s = nullptr ->
  let s' := (dma_submit_memcpy C dst src len cb user s).2 in
  msys_bytes (sys s') /\ (forall k, covers (hwc C) src len k -> line_clean (sys s') k) /\
  (forall k, line_good (hwc C) (sys s) k -> line_good (hwc C) (sys s') k) /\
  (forall k, line_clean (sys s) k -> line_clean (sys s') k) /\
  (forall b, line_good (hwc C) (sys s) (line_of (hwc C) b) -> view (hwc C) (sys s') b = view (hwc C) (sys s) b).
Proof.
  intros Hon Hsrc Hlen Ha Hb Hw Hd Hroom Ht. destruct (maint_allowed_spec C src len Hsrc Hlen Ha) as (L1 & L2 & L3).
  unfold dma_submit_memcpy. unfold nullptr in *. rewrite (proj2 (Z.eqb_neq _ _) Hd), !(proj2 (Z.eqb_neq _ 0)) by lia. cbn [orb].
  rewrite dma_alloc_desc_eq by done. rewrite (proj2 (Z.ltb_ge _ _)) by done. pose proof Hw as (W1 & W2 & W3).
  assert (Hda : g_dma_desc_next s <= desc_addr s) by (unfold desc_addr; zlia). unfold sizeof_desc in *.
  rewrite (proj2 (Z.eqb_neq (desc_addr s) 0)) by lia. cbv zeta. set (s1 := set_desc _ _ _).
  destruct (prepare_spec C Hon src len s1 Hsrc Hlen Hb) as (A1 & A2 & A3 & A4 & A5 & _).
  set (s2 := dma_prepare_to_device C src len s1) in *.
  destruct (prepare_spec C Hon (desc_addr s) 56 s2) as (B1 & B2 & B3 & _ & B5 & _); [lia | lia | done |].
  set (s3 := dma_prepare_to_device C (desc_addr s) 56 s2) in *.
  assert (Q : g_pending_tail s3 = 0).
  { destruct (prepare_same C src len s1) as (_ & _ & _ & _ & Q1 & _), (prepare_same C (desc_addr s) 56 s2) as (_ & _ & _ & _ & Q2 & _).
    fold s2 in Q1. fold s3 in Q2. rewrite Q2, Q1. exact Ht. }
  rewrite Q, Z.eqb_refl. cbn [negb]. cbn [snd sys dputs dputhex64 dprint_u64 dout].
  assert (Hq : sys (enqueue (desc_addr s) s3) = sys s3).
  { unfold enqueue, local_irq_save, local_irq_restore. cbv zeta. by destruct (negb _). }
  change (sys (dputs _ ?x)) with (sys x). rewrite Hq.
  split; [done | split; [intros k Hk; by apply B3, A4 | split; [intros k Hk; by apply B2, A2 | split; [intros k Hk; by apply B3, A3 |]]]].
  intros b Hg. rewrite B5 by (by apply A2). by apply A5.
Qed.


(** ** Concrete runs *)

(** Caches and translation on, the tables of [mmu.cc] for the demonstration
    layout, a hardware that fetches and evicts the lines of both buffers. *)
Definition demo_dma_cfg : dma_cfg :=
  DmaCfg (Hw 0x80040000 0x5 (virt_xlate demo_layout false mmu_off) (fun n => [HFill (0x401C8000 / 64); HEvict (0x401C0000 / 64)]))
    false (dma_nc_start demo_layout) (dma_nc_end demo_layout) (fun _ _ _ s => s).

#[export] Instance demo_dma_map :
  DmaMap (xlate (hwc demo_dma_cfg)) (noncacheable demo_dma_cfg) (dma_nc_start_ demo_dma_cfg) (dma_nc_end_ demo_dma_cfg).
Proof. apply virt_dma_map; [exact demo_layout_ok | exact demo_window_ok | done | done]. Qed.

(** The program has stored 42 in the source. *)
Definition demo_dma : dma_st :=
  Dma (store8 (hwc demo_dma_cfg) 0x401C0000 42 demo_sys) ∅ 0x401B0000 0x401D0000 0 0 4 4 0 [].

Lemma demo_dma_room : desc_addr demo_dma + sizeof_desc <= g_dma_buf_end demo_dma.
Proof. change (0x401B0038 <= 0x401D0000). lia. Qed.

Lemma demo_dma_rep : window_wf demo_dma /\ dma_rep demo_dma [].
Proof. split; [unfold window_wf; cbn; lia |]. split; try done; [constructor | by intros a ?%not_elem_of_nil]. Qed.

Lemma demo_dma_cached : cacheable (hwc demo_dma_cfg) 0x401C0000 = true /\ (xlate (hwc demo_dma_cfg) 0x401C0000).1 = 0x401C0000.
Proof.
  split; [| by apply (dm_ram (DmaMap := demo_dma_map))]. unfold cacheable.
  rewrite (dm_policy (DmaMap := demo_dma_map)) by lia. done.
Qed.

Lemma demo_line x : line_of (hwc demo_dma_cfg) x = x / 64.
Proof. reflexivity. Qed.

Lemma demo_dma_mem :
  msys_bytes (sys demo_dma) /\ (forall k, line_good (hwc demo_dma_cfg) (sys demo_dma) k) /\
  (forall k, k <> 0x401C0000 / 64 -> line_clean (sys demo_dma) k) /\ view (hwc demo_dma_cfg) (sys demo_dma) 0x401C0000 = 42.
Proof.
  destruct demo_dma_cached as [Hc Hx].
  destruct (store8_c (hwc demo_dma_cfg) 0x401C0000 42 demo_sys demo_sys_bytes Hc) as (S1 & _ & S3 & S4 & _ & S6). rewrite Hx in *.
  split; [exact S1 | split; [| split]].
  - intros k. apply S3. intros l E. discriminate E.
  - intros k Hk. apply S4; [exact Hk |]. intros l E. discriminate E.
  - etrans; [apply S6; intros l E; discriminate E |]. by rewrite Z.eqb_refl.
Qed.

Lemma dma_window_safe_witness :
  dma_alloc_all [ReqBuf 100 64; ReqDesc; ReqBuf 0 0; ReqDesc] demo_dma =
    ([(0x401CFF80, 100); (0x401B0000, 56); (0x401B0038, 56)], set_desc_next 0x401B0070 (set_buf_end 0x401CFF80 demo_dma)) /\
  ForallOrdPairs blocks_apart [(0x401CFF80, 100); (0x401B0000, 56); (0x401B0038, 56)].
Proof.
  assert (E : dma_alloc_all [ReqBuf 100 64; ReqDesc; ReqBuf 0 0; ReqDesc] demo_dma =
    ([(0x401CFF80, 100); (0x401B0000, 56); (0x401B0038, 56)], set_desc_next 0x401B0070 (set_buf_end 0x401CFF80 demo_dma))) by reflexivity.
  split; [exact E |].
  destruct (dma_window_safe [ReqBuf 100 64; ReqDesc; ReqBuf 0 0; ReqDesc] demo_dma (proj1 demo_dma_rep)) as [Hall _].
  { repeat constructor; cbn; lia. }
  rewrite E in Hall. apply Hall.
Defined.

Lemma dma_queue_fifo_witness :
  let '(r, s') := dma_submit_memcpy demo_dma_cfg 0x401C8000 0x401C0000 4 7 8 demo_dma in
  r = 0 /\ dma_rep s' ([] ++ [0x401B0000]) /\
  exists s'', dma_poll_complete demo_dma_cfg 0 demo_dma = Some s'' /\ dma_rep s'' [].
Proof.
  destruct (dma_queue_fifo demo_dma_cfg 0x401C8000 0x401C0000 4 7 8 demo_dma [] (proj1 demo_dma_rep) (proj2 demo_dma_rep))
    as (_ & Hs & Hp); [done |].
  specialize (Hs ltac:(done) ltac:(done) ltac:(done)). destruct (dma_submit_memcpy _ _ _ _ _ _ _) as [r s']. destruct Hs as (H1 & H2 & _).
  split; [exact H1 | split; [exact H2 |]]. destruct (Hp 0%nat) as (s'' & P1 & _ & P3 & _); [simpl; lia |]. exists s''. by split.
Defined.

