(* ===== verification/Dev.v ===== *)
(** * Interrupt controller, timer and platforms

    [src/src/arch/aarch64/gicv3.cc], [src/src/arch/aarch64/timer.cc],
    [src/src/arch/aarch64/cpu_local.cc] and [src/src/platform/].  The code talks
    to hardware through memory-mapped and system registers: every access is an
    event, appended in program order, and [answer] gives the value a read
    returns as a function of everything done up to and including that read.
    The theorems hold for every [answer]. *)

From Stdlib Require Import String.
From S2P Require Import Prelude Uart Kstate.

Inductive sysreg :=
| CNTFRQ_EL0 | CNTV_TVAL_EL0 | CNTV_CTL_EL0 | CNTP_TVAL_EL0 | CNTP_CTL_EL0 | DAIF | TPIDR_EL1
| ICC_SRE_EL1 | ICC_PMR_EL1 | ICC_BPR1_EL1 | ICC_IGRPEN1_EL1 | ICC_IAR1_EL1 | ICC_EOIR1_EL1 | ICC_DIR_EL1.

Inductive ioev :=
| MmioR32 (a : Z)
| MmioW32 (a v : Z)
| MmioW8 (a v : Z)
| Mrs (r : sysreg)
| Msr (r : sysreg) (v : Z)
| Isb.

#[export] Instance sysreg_eq_dec : EqDecision sysreg.
Proof. solve_decision. Defined.

#[export] Instance ioev_eq_dec : EqDecision ioev.
Proof. solve_decision. Defined.

(** The accesses made, the console, and the statics of [timer.cc]. *)
Record arch := Arch {
  io : list ioev;
  con : list Z;
  g_timer_diag_once : bool;
  heartbeat : Z
}.

Definition emit (e : ioev) (s : arch) : arch := Arch (io s ++ [e]) (con s) (g_timer_diag_once s) (heartbeat s).

Definition acon (l : list Z) (s : arch) : arch := Arch (io s) (con s ++ l) (g_timer_diag_once s) (heartbeat s).

Definition aputs (m : string) : arch -> arch := acon (puts_bytes (chars m)).

Definition set_diag_once (b : bool) (s : arch) : arch := Arch (io s) (con s) b (heartbeat s).

Definition set_heartbeat (v : Z) (s : arch) : arch := Arch (io s) (con s) (g_timer_diag_once s) v.

Definition GICD_BASE : Z := 0x08000000.

Definition GICR_BASE : Z := 0x080A0000.

Definition GICR_SGI_BASE : Z := GICR_BASE + 0x10000.

Definition GICR_WAKER : Z := GICR_BASE + 0x0014.

Section Dev.

Context (answer : list ioev -> Z) (use_cntp timer_diag : bool).

Definition read (e : ioev) (s : arch) : Z * arch := (answer (io (emit e s)), emit e s).

Definition mmio_r32 (a : Z) (s : arch) : Z * arch := let '(v, s) := read (MmioR32 a) s in (wrap32 v, s).

Definition mmio_w32 (a v : Z) : arch -> arch := emit (MmioW32 a v).

Definition mrs (r : sysreg) (s : arch) : Z * arch := let '(v, s) := read (Mrs r) s in (wrap64 v, s).

Definition msr (r : sysreg) (v : Z) : arch -> arch := emit (Msr r v).

(** ** [timer.cc] *)

Definition read_cntfrq : arch -> Z * arch := mrs CNTFRQ_EL0.

Definition write_timer_tval (v : Z) : arch -> arch := msr (if use_cntp then CNTP_TVAL_EL0 else CNTV_TVAL_EL0) v.

Definition write_timer_ctl (v : Z) (s : arch) : arch :=
  emit Isb (msr (if use_cntp then CNTP_CTL_EL0 else CNTV_CTL_EL0) v s).

Definition read_timer_ctl : arch -> Z * arch := mrs (if use_cntp then CNTP_CTL_EL0 else CNTV_CTL_EL0).

Definition compute_ticks (hz : Z) (s : arch) : Z * arch :=
  let '(freq, s) := read_cntfrq s in
  let ticks := if hz =? 0 then 0 else freq / hz in
  (if ticks =? 0 then 1 else ticks, s).

Definition timer_init_hz (hz : Z) (s : arch) : arch :=
  if hz =? 0 then s
  else
    let '(ticks, s) := compute_ticks hz s in
    let s := write_timer_ctl 0 s in
    let s := write_timer_tval ticks s in
    let s := write_timer_ctl 1 s in
    let s :=
      if timer_diag && negb (g_timer_diag_once s) then
        let s := set_diag_once true s in
        let '(ctl, s) := read_timer_ctl s in
        let '(daif, s) := mrs DAIF s in
        let s := acon (puthex_bytes 16 ctl) (aputs "[timer] ctl=0x" s) in
        let s := acon (puthex_bytes 16 daif) (aputs " daif=0x" s) in
        let s := aputs ((if use_cntp then "CNTP" else "CNTV") ++ newline) (aputs " use=" s) in
        if Z.land ctl 1 =? 0 then aputs ("[timer] enable bit appears 0" ++ newline) s else s
      else s in
    if hz =? 1000 then aputs ("Timer IRQ armed @1kHz" ++ newline) s else s.

Definition timer_irq (s : arch) : arch :=
  let '(ticks, s) := compute_ticks 1000 s in
  let s := write_timer_tval ticks s in
  let s := acon [46] s in
  let s := set_heartbeat (wrap32 (heartbeat s + 1)) s in
  if Z.land (heartbeat s) 63 =? 0 then acon [10] s else s.

(** ** [gicv3.cc] *)

Definition enable_sre_el1 (s : arch) : arch :=
  let '(v, s) := mrs ICC_SRE_EL1 s in
  emit Isb (msr ICC_SRE_EL1 (Z.lor v 1) s).

(** The polling loop: until ChildrenAsleep reads 0. *)
Fixpoint wake_poll (fuel : nat) (s : arch) : option arch :=
  let '(w, s) := mmio_r32 GICR_WAKER s in
  if Z.land w (Z.shiftl 1 2) =? 0 then Some s
  else match fuel with O => None | S fuel' => wake_poll fuel' s end.

Definition gicr_wake (fuel : nat) (s : arch) : option arch :=
  let '(w, s) := mmio_r32 GICR_WAKER s in
  let w := Z.land w (wrap32 (Z.lnot (Z.shiftl 1 1))) in
  wake_poll fuel (mmio_w32 GICR_WAKER w s).

Definition gic_config (s : arch) : arch :=
  let s := mmio_w32 (GICR_SGI_BASE + 0x0080) 0xFFFFFFFF s in
  let s := mmio_w32 (GICR_SGI_BASE + 0x0D00) 0x00000000 s in
  let s := mmio_w32 (GICR_SGI_BASE + 0x0C04) 0x00000000 s in
  let s := mmio_w32 (GICR_SGI_BASE + 0x0100)
    (if use_cntp then Z.lor (Z.shiftl 1 1) (Z.shiftl 1 30) else Z.lor (Z.shiftl 1 1) (Z.shiftl 1 27)) s in
  let prio := GICR_SGI_BASE + 0x0400 in
  let s := emit (MmioW8 (prio + 1) 0x80) s in
  let s := emit (MmioW8 (prio + 27) 0x80) s in
  let s := emit (MmioW8 (prio + 30) 0x80) s in
  let s := mmio_w32 (GICD_BASE + 0x0000) (Z.shiftl 1 1) s in
  let s := enable_sre_el1 s in
  let s := msr ICC_PMR_EL1 0xFF s in
  let s := msr ICC_BPR1_EL1 0 s in
  let s := msr ICC_IGRPEN1_EL1 1 s in
  emit Isb s.

Definition gic_report (s : arch) : arch :=
  let '(group, s) := mmio_r32 (GICR_SGI_BASE + 0x0080) s in
  let '(modr, s) := mmio_r32 (GICR_SGI_BASE + 0x0D00) s in
  let '(isen, s) := mmio_r32 (GICR_SGI_BASE + 0x0100) s in
  let s := acon (puthex_bytes 8 group) (aputs "[gicr] group=0x" s) in
  let s := acon (puthex_bytes 8 modr) (aputs " modr=0x" s) in
  let s := acon (puthex_bytes 8 isen) (aputs " isen=0x" s) in
  let s := aputs newline s in
  let '(ctlr, s) := mmio_r32 (GICD_BASE + 0x0000) s in
  let s := aputs newline (acon (puthex_bytes 8 ctlr) (aputs "[gicd] ctlr=0x" s)) in
  let '(pmr, s) := mrs ICC_PMR_EL1 s in
  let '(grp1, s) := mrs ICC_IGRPEN1_EL1 s in
  let s := acon (puthex_bytes 16 pmr) (aputs "[icc] pmr=0x" s) in
  let s := acon (puthex_bytes 16 grp1) (aputs " grp1=0x" s) in
  let s := aputs newline s in
  aputs ("[gic] init done" ++ newline) s.

Definition gic_init (fuel : nat) (s : arch) : option arch :=
  s ← gicr_wake fuel s;
  Some (gic_report (gic_config s)).

Definition gic_ack (s : arch) : Z * arch := let '(iar, s) := mrs ICC_IAR1_EL1 s in (wrap32 iar, s).

Definition gic_eoi (iar : Z) (s : arch) : arch := msr ICC_DIR_EL1 iar (msr ICC_EOIR1_EL1 iar s).

(** ** [cpu_local.cc]: the boot CPU's block, at address [cpu0]. *)
Definition cpu_local_boot_init (irq_stack cpu0 : Z) (s : arch) : cpu_local * arch :=
  (CpuLocal irq_stack nullptr 0 0 0 0, emit Isb (msr TPIDR_EL1 cpu0 s)).

(** ** [platform/rpi4.cc] *)

Definition kPeriphBase : Z := 0xFE000000.

Definition kGpioBase : Z := kPeriphBase + 0x200000.

Definition kGpfsel1 : Z := kGpioBase + 0x04.

Definition kGppupdn0 : Z := kGpioBase + 0xE4.

Definition kUart0Base : Z := kPeriphBase + 0x201000.

Definition kUart0ClockHz : Z := 48000000.

Definition gpio_init_pl011_uart0 (s : arch) : arch :=
  let '(fsel1, s) := mmio_r32 kGpfsel1 s in
  let fsel1 := Z.land fsel1 (wrap32 (Z.lnot (Z.lor (Z.shiftl 7 12) (Z.shiftl 7 15)))) in
  let fsel1 := Z.lor fsel1 (Z.lor (Z.shiftl 4 12) (Z.shiftl 4 15)) in
  let s := mmio_w32 kGpfsel1 fsel1 s in
  let '(pupdn0, s) := mmio_r32 kGppupdn0 s in
  let pupdn0 := Z.land pupdn0 (wrap32 (Z.lnot (Z.lor (Z.shiftl 3 28) (Z.shiftl 3 30)))) in
  mmio_w32 kGppupdn0 pupdn0 s.

Definition rpi4_platform_early_init (u : uart) (s : arch) : uart * arch :=
  let u := uart_pl011_set_mmio_base kUart0Base u in
  let u := uart_pl011_set_clock_hz kUart0ClockHz u in
  (u, gpio_init_pl011_uart0 s).

Definition rpi4_platform_irq_init (fuel : nat) (s : arch) : option arch := Some s.

Definition rpi4_platform_full_kernel_supported : Z := 0.

Definition rpi4_platform_name : string := "rpi4".

(** ** [platform/virt.cc] *)

Definition virt_platform_early_init (u : uart) (s : arch) : uart * arch :=
  let u := uart_pl011_set_mmio_base 0x09000000 u in
  (uart_pl011_set_clock_hz 24000000 u, s).

Definition virt_platform_irq_init (fuel : nat) (s : arch) : option arch := gic_init fuel s.

Definition virt_platform_full_kernel_supported : Z := 1.

Definition virt_platform_name : string := "virt".

End Dev.

(** ** Masks of 32-bit registers *)

(** A fact about every bit position of a 32-bit register, by computation. *)
Lemma bits32 (f g : Z -> bool) :
  forallb (fun i => eqb (f i) (g i)) (seqZ 0 32) = true -> forall i, 0 <= i < 32 -> f i = g i.
Proof.
  intros H i Hi. rewrite forallb_forall in H. apply eqb_prop, H, list_elem_of_In, elem_of_seqZ. lia.
Qed.

Lemma clear_mask w m i :
  0 <= i < 32 -> Z.testbit (Z.land w (wrap32 (Z.lnot m))) i = Z.testbit w i && negb (Z.testbit m i).
Proof.
  intros Hi. unfold wrap32. rewrite Z.land_spec, Z.mod_pow2_bits_low, Z.lnot_spec by lia. done.
Qed.

Lemma wrap32_bits w i : 0 <= i < 32 -> Z.testbit (wrap32 w) i = Z.testbit w i.
Proof. intros Hi. unfold wrap32. apply Z.mod_pow2_bits_low. lia. Qed.

Lemma land_pow2_eqb w k : 0 <= k -> (Z.land w (Z.shiftl 1 k) =? 0) = negb (Z.testbit w k).
Proof.
  intros Hk. rewrite Z.shiftl_mul_pow2, Z.mul_1_l by lia. destruct (Z.eqb_spec (Z.land w (2 ^ k)) 0) as [E | E].
  - apply (f_equal (fun z => Z.testbit z k)) in E. rewrite Z.land_spec, Z.pow2_bits_true, andb_true_r, Z.bits_0 in E by lia.
    by rewrite E.
  - destruct (Z.testbit w k) eqn:B; [done |]. destruct E. apply Z.bits_inj'. intros j Hj.
    rewrite Z.land_spec, Z.pow2_bits_eqb, Z.bits_0 by lia. destruct (Z.eqb_spec k j) as [<- |]; [by rewrite B | apply andb_false_r].
Qed.

(** A read, with its value left abstract. *)
Lemma mmio_r32_eq answer a s : exists v, mmio_r32 answer a s = (v, emit (MmioR32 a) s).
Proof. by eexists. Qed.

Lemma mrs_eq answer r s : exists v, mrs answer r s = (v, emit (Mrs r) s).
Proof. by eexists. Qed.

(** Step over the reads of the goal, forgetting the values read. *)
Ltac reads :=
  repeat match goal with
  | |- context [mmio_r32 ?f ?a ?s] => destruct (mmio_r32_eq f a s) as [? ->]; cbv beta iota zeta
  | |- context [mrs ?f ?r ?s] => destruct (mrs_eq f r s) as [? ->]; cbv beta iota zeta
  end.

(** ** The wake-up handshake *)

Section Specs.

Context (answer : list ioev -> Z) (use_cntp timer_diag : bool).

(** The accesses up to the write that clears ProcessorSleep. *)
Definition wake_log (s : arch) : list ioev :=
  let w := wrap32 (answer (io s ++ [MmioR32 GICR_WAKER])) in
  io s ++ [MmioR32 GICR_WAKER; MmioW32 GICR_WAKER (Z.land w (wrap32 (Z.lnot (Z.shiftl 1 1))))].

(** What poll number [k] reads in ChildrenAsleep, after the accesses [l]. *)
Definition asleep (l : list ioev) (k : nat) : bool :=
  Z.testbit (answer (l ++ repeat (MmioR32 GICR_WAKER) (Datatypes.S k))) 2.

Lemma asleep_later l k : asleep (l ++ [MmioR32 GICR_WAKER]) k = asleep l (Datatypes.S k).
Proof. unfold asleep. by rewrite <- app_assoc. Qed.

Lemma wake_poll_step fuel s :
  wake_poll answer fuel s =
    if asleep (io s) 0 then match fuel with O => None | Datatypes.S f => wake_poll answer f (emit (MmioR32 GICR_WAKER) s) end
    else Some (emit (MmioR32 GICR_WAKER) s).
Proof.
  destruct fuel; cbn [wake_poll mmio_r32 read]; cbv beta zeta iota delta [mmio_r32 read];
    rewrite land_pow2_eqb, wrap32_bits by lia; unfold asleep; cbn [repeat emit io]; by destruct (Z.testbit _ 2).
Qed.

Lemma wake_poll_spec n fuel s :
  (forall k, (k < n)%nat -> asleep (io s) k = true) -> asleep (io s) n = false -> (n <= fuel)%nat ->
  exists s', wake_poll answer fuel s = Some s' /\ io s' = io s ++ repeat (MmioR32 GICR_WAKER) (Datatypes.S n) /\
    con s' = con s.
Proof.
  revert fuel s. induction n as [|n IH]; intros fuel s Hb He Hf; rewrite wake_poll_step.
  - rewrite He. eexists. split; [done |]. done.
  - rewrite (Hb O) by lia. destruct fuel as [|fuel]; [lia |].
    destruct (IH fuel (emit (MmioR32 GICR_WAKER) s)) as (s' & E & Ei & Ec).
    + intros k Hk. cbn [emit io]. rewrite asleep_later. apply Hb. lia.
    + cbn [emit io]. by rewrite asleep_later.
    + lia.
    + exists s'. split; [done | split; [| done]]. rewrite Ei. cbn [emit io repeat]. by rewrite <- app_assoc.
Qed.

Lemma wake_poll_never fuel s : (forall k, asleep (io s) k = true) -> wake_poll answer fuel s = None.
Proof.
  revert s. induction fuel as [|fuel IH]; intros s Ha; rewrite wake_poll_step, (Ha O); [done |].
  apply IH. intros k. cbn [emit io]. by rewrite asleep_later.
Qed.

Lemma gicr_wake_eq fuel s :
  exists s1, io s1 = wake_log s /\ con s1 = con s /\ gicr_wake answer fuel s = wake_poll answer fuel s1.
Proof.
  unfold gicr_wake, mmio_r32, read, mmio_w32. eexists. split; [| split; [| reflexivity]]; [| done].
  unfold wake_log. cbn [emit io]. by rewrite <- app_assoc.
Qed.

(** The interrupts [gic_init] enables, as a bit set. *)
Definition gic_enabled : Z :=
  if use_cntp then Z.lor (Z.shiftl 1 1) (Z.shiftl 1 30) else Z.lor (Z.shiftl 1 1) (Z.shiftl 1 27).

Definition sre_log (l : list ioev) : list ioev :=
  [Mrs ICC_SRE_EL1; Msr ICC_SRE_EL1 (Z.lor (wrap64 (answer (l ++ [Mrs ICC_SRE_EL1]))) 1); Isb].

Definition gic_writes : list ioev :=
  [MmioW32 (GICR_SGI_BASE + 0x80) 0xFFFFFFFF; MmioW32 (GICR_SGI_BASE + 0xD00) 0; MmioW32 (GICR_SGI_BASE + 0xC04) 0;
   MmioW32 (GICR_SGI_BASE + 0x100) gic_enabled;
   MmioW8 (GICR_SGI_BASE + 0x401) 0x80; MmioW8 (GICR_SGI_BASE + 0x41B) 0x80; MmioW8 (GICR_SGI_BASE + 0x41E) 0x80;
   MmioW32 GICD_BASE 2].

Definition icc_writes : list ioev := [Msr ICC_PMR_EL1 0xFF; Msr ICC_BPR1_EL1 0; Msr ICC_IGRPEN1_EL1 1; Isb].

Definition gic_readback : list ioev :=
  [MmioR32 (GICR_SGI_BASE + 0x80); MmioR32 (GICR_SGI_BASE + 0xD00); MmioR32 (GICR_SGI_BASE + 0x100);
   MmioR32 GICD_BASE; Mrs ICC_PMR_EL1; Mrs ICC_IGRPEN1_EL1].

Lemma gic_config_io s :
  io (gic_config answer use_cntp s) = io s ++ gic_writes ++ sre_log (io s ++ gic_writes) ++ icc_writes.
Proof.
  unfold gic_config, enable_sre_el1, mrs, read, mmio_w32, msr. cbn [emit io]. rewrite <- !app_assoc. cbn [app].
  unfold sre_log, gic_writes, icc_writes. rewrite <- !app_assoc. cbn [app]. done.
Qed.

Lemma io_acon l s : io (acon l s) = io s.
Proof. done. Qed.

Lemma gic_report_io s : io (gic_report answer s) = io s ++ gic_readback.
Proof.
  unfold gic_report. generalize s. clear s. intros s.
  reads.
  unfold aputs. rewrite !io_acon. cbn [emit io]. rewrite !io_acon. cbn [emit io]. rewrite !io_acon. cbn [emit io].
  rewrite <- !app_assoc. done.
Qed.

(** ** Timer arithmetic *)

Lemma compute_ticks_spec hz s :
  let '(t, s') := compute_ticks answer hz s in
  s' = emit (Mrs CNTFRQ_EL0) s /\
  let freq := wrap64 (answer (io s ++ [Mrs CNTFRQ_EL0])) in
  0 < hz -> 1 <= t /\ (hz <= freq -> t * hz <= freq < (t + 1) * hz) /\ (freq < hz -> t = 1).
Proof.
  unfold compute_ticks, read_cntfrq, mrs, read. cbn [emit io]. split; [done |]. intros Hz.
  set (freq := wrap64 _). assert (Hf : 0 <= freq < 2 ^ 64) by apply wrap64_range. clearbody freq.
  rewrite (proj2 (Z.eqb_neq hz 0)) by lia. pose proof (Z.div_mod freq hz ltac:(lia)) as D. pose proof (Z.mod_pos_bound freq hz Hz).
  destruct (Z.eqb_spec (freq / hz) 0) as [E | E].
  - rewrite E in D. split; [lia | split; [lia | done]].
  - assert (0 <= freq / hz) by (apply Z.div_pos; lia). split; [lia | split; [nia | nia]].
Qed.

Lemma timer_irq_io s :
  io (timer_irq answer use_cntp s) =
    io s ++ [Mrs CNTFRQ_EL0; Msr (if use_cntp then CNTP_TVAL_EL0 else CNTV_TVAL_EL0) (compute_ticks answer 1000 s).1].
Proof.
  unfold timer_irq. pose proof (compute_ticks_spec 1000 s) as B. destruct (compute_ticks answer 1000 s) as [t1 s2]. destruct B as [-> _].
  cbn [fst set_heartbeat acon heartbeat emit write_timer_tval msr io]. destruct (Z.land _ 63 =? 0); unfold write_timer_tval, msr;
    cbn [io acon set_heartbeat emit]; by rewrite <- ?app_assoc.
Qed.

End Specs.

(** ** Theorems *)

(** C35: for every device that reports ChildrenAsleep on its first [n] polls and
    not on the next, [gic_init] returns after exactly those [n + 1] polls, having
    cleared ProcessorSleep and nothing else in GICR_WAKER, and its register
    accesses are, in this order: the redistributor's groups, triggers, enables
    and priorities, the distributor, the system-register interface with the
    group enable last, the read-back.  Only software interrupt 1 and the
    selected timer are enabled.  A device that never wakes is polled for ever. *)
Theorem gic_init_correct answer use_cntp s :
  let w := answer (io s ++ [MmioR32 GICR_WAKER]) in
  let sleeping := asleep answer (wake_log answer s) in
  (forall n fuel, (forall k, (k < n)%nat -> sleeping k = true) -> sleeping n = false -> (n <= fuel)%nat ->
    let l := wake_log answer s ++ repeat (MmioR32 GICR_WAKER) (Datatypes.S n) ++ gic_writes use_cntp in
    exists s', gic_init answer use_cntp fuel s = Some s' /\
      io s' = l ++ sre_log answer l ++ icc_writes ++ gic_readback) /\
  ((forall k, sleeping k = true) -> forall fuel, gic_init answer use_cntp fuel s = None) /\
  (forall i, 0 <= i < 32 ->
    Z.testbit (Z.land (wrap32 w) (wrap32 (Z.lnot (Z.shiftl 1 1)))) i = Z.testbit w i && negb (i =? 1)) /\
  (forall i, 0 <= i < 32 -> Z.testbit (gic_enabled use_cntp) i = (i =? 1) || (i =? if use_cntp then 30 else 27)).
Proof.
  intros w sleeping. unfold gic_init. split; [| split; [| split]].
  - intros n fuel Hb He Hf. destruct (gicr_wake_eq answer fuel s) as (s1 & E1 & _ & Ew). unfold sleeping in *. rewrite <- E1 in Hb, He.
    destruct (wake_poll_spec answer n fuel s1 Hb He Hf) as (s2 & E2 & E3 & _).
    rewrite Ew, E2. cbn [mbind option_bind]. eexists. split; [done |].
    rewrite gic_report_io, gic_config_io, E3, E1. by rewrite <- !app_assoc.
  - intros Ha fuel. destruct (gicr_wake_eq answer fuel s) as (s1 & E1 & _ & Ew). unfold sleeping in Ha. rewrite <- E1 in Ha.
    by rewrite Ew, wake_poll_never.
  - intros i Hi. rewrite clear_mask, wrap32_bits by done. f_equal. f_equal. revert i Hi. by apply bits32.
  - destruct use_cntp; by apply bits32.
Qed.

(** C40: [timer_init_hz] disables the timer, programs the interval and enables
    it, in this order, and a zero rate changes nothing; [timer_irq] reprograms
    the interval for 1 kHz.  The interval is the counter frequency divided by
    the rate, rounded down but at least one, so that [ticks * hz <= freq <
    (ticks + 1) * hz].  Every 64th interrupt ends the line of heartbeat dots. *)
Theorem timer_programs answer (use_cntp : bool) hz s :
  0 < hz < 2 ^ 32 -> 0 <= heartbeat s < 2 ^ 32 ->
  let '(t, _) := compute_ticks answer hz s in
  let '(t1, _) := compute_ticks answer 1000 s in
  let freq := wrap64 (answer (io s ++ [Mrs CNTFRQ_EL0])) in
  let tval := if use_cntp then CNTP_TVAL_EL0 else CNTV_TVAL_EL0 in
  let ctl := if use_cntp then CNTP_CTL_EL0 else CNTV_CTL_EL0 in
  timer_init_hz answer use_cntp true 0 s = s /\
  io (timer_init_hz answer use_cntp true hz s) =
    io s ++ [Mrs CNTFRQ_EL0; Msr ctl 0; Isb; Msr tval t; Msr ctl 1; Isb] ++
      (if g_timer_diag_once s then [] else [Mrs ctl; Mrs DAIF]) /\
  g_timer_diag_once (timer_init_hz answer use_cntp true hz s) = true /\
  io (timer_irq answer use_cntp s) = io s ++ [Mrs CNTFRQ_EL0; Msr tval t1] /\
  con (timer_irq answer use_cntp s) =
    con s ++ 46 :: (if (heartbeat s + 1) mod 64 =? 0 then [10] else []) /\
  1 <= t /\ (hz <= freq -> t * hz <= freq < (t + 1) * hz) /\ (freq < hz -> t = 1) /\
  1 <= t1 /\ (1000 <= freq -> t1 * 1000 <= freq < (t1 + 1) * 1000).
Proof.
  intros Hz Hh. pose proof (compute_ticks_spec answer hz s) as A. pose proof (compute_ticks_spec answer 1000 s) as B.
  pose proof (timer_irq_io answer use_cntp s) as T. unfold timer_init_hz, timer_irq in *. destruct (compute_ticks answer hz s) as [t s1], (compute_ticks answer 1000 s) as [t1 s2].
  destruct A as [-> A], B as [-> B]. specialize (A ltac:(lia)). specialize (B ltac:(lia)). cbv zeta in A, B.
  destruct A as (A1 & A2 & A3), B as (B1 & B2 & _).
  rewrite (proj2 (Z.eqb_neq hz 0)) by lia. rewrite Z.eqb_refl.
  split; [done | split; [| split; [| split; [| split; [| done]]]]].
  - unfold write_timer_ctl, write_timer_tval, read_timer_ctl, msr, aputs. cbn [emit g_timer_diag_once andb].
    destruct (g_timer_diag_once s); cbn [negb]; reads; destruct (hz =? 1000); try destruct (Z.land _ 1 =? 0);
      rewrite ?io_acon; cbn [io emit set_diag_once]; by rewrite <- !app_assoc.
  - unfold write_timer_ctl, write_timer_tval, read_timer_ctl, msr, aputs. cbn [emit g_timer_diag_once andb].
    destruct (g_timer_diag_once s) eqn:G; cbn [negb]; reads; destruct (hz =? 1000); try destruct (Z.land _ 1 =? 0); done.
  - exact T.
  - cbn [set_heartbeat acon heartbeat emit write_timer_tval msr con]. change 63 with (Z.ones 6). rewrite Z.land_ones by lia.
    unfold wrap32. replace (((heartbeat s + 1) mod 2 ^ 32) mod 2 ^ 6) with ((heartbeat s + 1) mod 64).
    + destruct ((heartbeat s + 1) mod 64 =? 0); cbn [con acon set_heartbeat write_timer_tval msr emit]; by rewrite <- ?app_assoc.
    + change (2 ^ 6) with 64. rewrite (Z.mod_mod_divide _ (2 ^ 32) 64); [done |]. exists (2 ^ 26). done.
Qed.

(** on the Raspberry Pi 4 the pin set-up gives GPIO14 and GPIO15 the
    function code [100] and no pull, and keeps every other field of the two
    registers, whatever they held. *)
Theorem gpio_init_fields answer s :
  exists f p, io (gpio_init_pl011_uart0 answer s) =
    io s ++ [MmioR32 kGpfsel1; MmioW32 kGpfsel1 f; MmioR32 kGppupdn0; MmioW32 kGppupdn0 p] /\
  forall i, 0 <= i < 32 ->
    Z.testbit f i = (if (12 <=? i) && (i <? 18) then (i =? 14) || (i =? 17) else Z.testbit (answer (io s ++ [MmioR32 kGpfsel1])) i) /\
    Z.testbit p i = (if 28 <=? i then false
      else Z.testbit (answer (io s ++ [MmioR32 kGpfsel1; MmioW32 kGpfsel1 f; MmioR32 kGppupdn0])) i).
Proof.
  unfold gpio_init_pl011_uart0, mmio_r32, read, mmio_w32. cbn [emit io]. rewrite <- !app_assoc. cbn [app].
  eexists _, _. split; [done |]. intros i Hi. rewrite Z.lor_spec, !clear_mask, !wrap32_bits by done. split.
  - rewrite (bits32 (Z.testbit (Z.lor (Z.shiftl 7 12) (Z.shiftl 7 15))) (fun i => (12 <=? i) && (i <? 18)) eq_refl i Hi).
    rewrite (bits32 (Z.testbit (Z.lor (Z.shiftl 4 12) (Z.shiftl 4 15))) (fun i => (i =? 14) || (i =? 17)) eq_refl i Hi).
    destruct ((12 <=? i) && (i <? 18)) eqn:R; cbn [negb]; [by rewrite andb_false_r |].
    rewrite andb_true_r. replace ((i =? 14) || (i =? 17)) with false; [apply orb_false_r |].
    repeat bdestr; simpl; try done; subst; done.
  - rewrite (bits32 (Z.testbit (Z.lor (Z.shiftl 3 28) (Z.shiftl 3 30))) (fun i => 28 <=? i) eq_refl i Hi).
    destruct (28 <=? i); [apply andb_false_r | apply andb_true_r].
Qed.

(** ** Witnesses *)

(** A device that answers 4 (asleep) to the first two polls. *)
Definition demo_answer (l : list ioev) : Z :=
  match last l with
  | Some (MmioR32 a) => if (length l <? 5)%nat then 4 else 0
  | Some (Mrs CNTFRQ_EL0) => 62500000
  | _ => 0
  end.

Definition demo_arch : arch := Arch [] [] false 63.

Lemma gic_init_correct_witness :
  (exists s', gic_init demo_answer false 5 demo_arch = Some s' /\ length (io s') = 26%nat) /\
  forall i, 0 <= i < 32 -> Z.testbit (gic_enabled false) i = (i =? 1) || (i =? 27).
Proof.
  assert (Hb : forall k, (k < 2)%nat -> asleep demo_answer (wake_log demo_answer demo_arch) k = true).
  { intros [|[|k]] Hk; [reflexivity | reflexivity | lia]. }
  destruct (gic_init_correct demo_answer false demo_arch) as (H1 & _ & _ & H).
  destruct (H1 2%nat 5%nat Hb ltac:(reflexivity) ltac:(lia)) as (s' & E & Ei).
  split; [| exact H]. exists s'. split; [exact E |]. rewrite Ei. reflexivity.
Defined.

Lemma timer_programs_witness :
  io (timer_irq demo_answer false demo_arch) = [Mrs CNTFRQ_EL0; Msr CNTV_TVAL_EL0 62500] /\
  con (timer_irq demo_answer false demo_arch) = [46; 10].
Proof.
  pose proof (timer_programs demo_answer false 1000 demo_arch ltac:(lia) ltac:(cbn; lia)) as H.
  destruct H as (_ & _ & _ & H1 & H2 & _). split; [exact H1 | exact H2].
Defined.
