(* ===== verification/Irq.v ===== *)
(** * [src/src/irq.cc]: the interrupt handler

    [irq_handler_el1] composes the components: it acknowledges through the
    interrupt controller, reprograms the timer, runs the scheduler's tick and
    the DMA engine's completions, and decides on preemption by redirecting the
    exception return.  One console and one DAIF register are shared: they are
    handed to the device and DMA components and taken back.  The build has
    [LOCK_LAB_MODE=0].  The vector code around it
    ([src/boot/vectors.S]) saves x0-x18, x30, the stack pointer, SPSR and
    the return address in the frame and returns to [f_elr]. *)

From Stdlib Require Import String.
From S2P Require Import Prelude Mem Uart Kstate Runq Stack Sched Cache Dma Dev.

Record irq_frame := IrqFrame {
  f_regs : list Z;
  f_lr : Z;
  f_sp : Z;
  f_spsr : Z;
  f_elr : Z;
  f_reserved : Z
}.

Definition set_f_elr (v : Z) (f : irq_frame) : irq_frame :=
  IrqFrame (f_regs f) (f_lr f) (f_sp f) (f_spsr f) v (f_reserved f).

(** The machine the handler runs on, and the statics of [irq.cc]. *)
Record irq_st := Irq {
  ik : kst;
  idma : dma_st;
  ia : arch;
  g_irq_diag_count : Z;
  g_irq_entry_budget : Z;
  g_irq_timer_budget : Z
}.

Inductive ires :=
| IRet (f : irq_frame) (s : irq_st)
| IHalt (s : irq_st)
| IStuck.

Definition set_ik (k : kst) (s : irq_st) : irq_st :=
  Irq k (idma s) (ia s) (g_irq_diag_count s) (g_irq_entry_budget s) (g_irq_timer_budget s).

Definition on_k (f : kst -> kst) (s : irq_st) : irq_st := set_ik (f (ik s)) s.

Definition set_diag_count (v : Z) (s : irq_st) : irq_st :=
  Irq (ik s) (idma s) (ia s) v (g_irq_entry_budget s) (g_irq_timer_budget s).

Definition set_entry_budget (v : Z) (s : irq_st) : irq_st :=
  Irq (ik s) (idma s) (ia s) (g_irq_diag_count s) v (g_irq_timer_budget s).

Definition set_timer_budget (v : Z) (s : irq_st) : irq_st :=
  Irq (ik s) (idma s) (ia s) (g_irq_diag_count s) (g_irq_entry_budget s) v.

(** Run device code on the shared console. *)
Definition with_arch (f : arch -> arch) (s : irq_st) : irq_st :=
  let a := f (Arch (io (ia s)) (out (ik s)) (g_timer_diag_once (ia s)) (heartbeat (ia s))) in
  Irq (set_out (con a) (ik s)) (idma s) a (g_irq_diag_count s) (g_irq_entry_budget s) (g_irq_timer_budget s).

(** Hand the console and DAIF to the DMA engine, and take them back. *)
Definition dma_in (s : irq_st) : dma_st :=
  let d := idma s in
  Dma (sys d) (descs d) (g_dma_desc_next d) (g_dma_buf_end d) (g_pending_head d) (g_pending_tail d)
    (prep_log_budget d) (comp_log_budget d) (daif (ik s)) (out (ik s)).

Definition dma_back (d : dma_st) (s : irq_st) : irq_st :=
  Irq (set_out (dma_out d) (set_daif (dma_daif d) (ik s))) d (ia s)
    (g_irq_diag_count s) (g_irq_entry_budget s) (g_irq_timer_budget s).

Section Irq.

Context (answer : list ioev -> Z) (use_cntp : bool) (C : dma_cfg) (G : config) (fuel : nat).

Definition irq_depth_inc (s : irq_st) : irq_st :=
  on_k (upd_cpu (fun c => set_irq_depth (wrap32 (irq_depth c + 1)) c)) s.

Definition irq_depth_dec (s : irq_st) : irq_st :=
  on_k (upd_cpu (fun c => set_irq_depth (wrap32 (irq_depth c - 1)) c)) s.

(** The two timer cases up to the scheduler's tick. *)
Definition timer_prelude (ch : Z) (s : irq_st) : irq_st :=
  let s :=
    if negb (g_irq_timer_budget s =? 0)
    then set_timer_budget (g_irq_timer_budget s - 1) (on_k (putc ch) s) else s in
  let s := with_arch (timer_irq answer use_cntp) s in
  on_k (upd_cpu (fun c => set_ticks (wrap64 (ticks c + 1)) c)) s.

(** The bodies of the two timer cases, which differ in the character [ch]. *)
Definition timer_case (ch : Z) (f : irq_frame) (s : irq_st) : ires :=
  let s := timer_prelude ch s in
  match sched_on_tick (sched_policy_prio G) (ik s) with
  | KDone _ k =>
    let s := set_ik k s in
    match dma_poll_complete C fuel (dma_in s) with
    | Some d =>
      let s := dma_back d s in
      let c := cpu (ik s) in
      if negb (current_thread c =? nullptr) && (preempt_cnt c =? 0) && negb (need_resched c =? 0)
      then IRet (set_f_elr (preempt_return_addr G) f) s else IRet f s
    | None => IStuck
    end
  | KHalt k => IHalt (set_ik k s)
  | _ => IStuck
  end.

Definition default_case (intid : Z) (s : irq_st) : irq_st :=
  if intid <? 16 then on_k (putc 94) s else on_k (puts ("[irq] unexpected intid" ++ newline)) s.

(** What follows the switch. *)
Definition irq_tail (iar : Z) (r : ires) : ires :=
  match r with
  | IRet f s =>
    let s := if negb (Z.land iar 0x3FF =? 1023) then with_arch (gic_eoi iar) s else s in
    IRet f (irq_depth_dec s)
  | _ => r
  end.

(** Up to the acknowledgement and the diagnostic line. *)
Definition irq_entry (s : irq_st) : Z * irq_st :=
  let s :=
    if negb (g_irq_entry_budget s =? 0)
    then set_entry_budget (g_irq_entry_budget s - 1) (on_k (putc 33) s) else s in
  let s := irq_depth_inc s in
  let iar := (gic_ack answer (ia s)).1 in
  let s := with_arch (fun a => (gic_ack answer a).2) s in
  let intid := Z.land iar 0x3FF in
  let s :=
    if g_irq_diag_count s <? 8 then
      let s := on_k (fun k => puts newline (print_u64 intid (puts "[irq] intid=" k))) s in
      set_diag_count (g_irq_diag_count s + 1) s
    else s in
  (iar, s).

Definition irq_handler_el1 (f : irq_frame) (s : irq_st) : ires :=
  let '(iar, s) := irq_entry s in
  let intid := Z.land iar 0x3FF in
  if intid =? 27 then irq_tail iar (timer_case 58 f s)
  else if intid =? 30 then irq_tail iar (timer_case 80 f s)
  else if intid =? 1023 then IRet f (irq_depth_dec s)
  else irq_tail iar (IRet f (default_case intid s)).

End Irq.

(** ** The scheduler's tick inside the handler *)

(** The state [sched_on_tick] is called in, up to the console. *)
Definition tick_input (k : kst) : kst :=
  upd_cpu (fun c => set_ticks (wrap64 (ticks c + 1)) (set_irq_depth (wrap32 (irq_depth c + 1)) c)) k.

(** A tick changes budgets and the reschedule request, nothing else. *)
Record tick_frame (s s' : kst) : Prop := {
  tf_cpu : cpu s' = set_need_resched (need_resched (cpu s')) (cpu s);
  tf_thr : forall t, thr s' t = set_t_budget (t_budget (thr s' t)) (thr s t);
  tf_rest : s' = set_threads (threads s') (set_cpu (cpu s') s)
}.

Lemma tick_frame_id s : tick_frame s s.
Proof.
  split; [by destruct (cpu s) | | by destruct s]. intros t. by destruct (thr s t).
Qed.

Lemma tick_frame_resched v s : tick_frame s (set_resched v s).
Proof.
  split; [done | | by destruct s]. intros t. change (thr (set_resched v s) t) with (thr s t). by destruct (thr s t).
Qed.

Lemma tick_frame_budget p c s : tick_frame s (tick_budget p c s).
Proof.
  destruct (tick_budget_spec p c s) as (_ & _ & _ & _ & _ & H). split; [| exact H |].
  - unfold tick_budget. destruct (0 <? _); destruct (_ <=? 0); by destruct s as [? ? ? ? ? ? ? ? [] ? ? ? ? ? ?].
  - unfold tick_budget. destruct (0 <? _); destruct (_ <=? 0); by destruct s.
Qed.

Lemma tick_done p s l :
  sched_inv s l -> cur s <> nullptr -> thread_guard_ok s (cur s) = true ->
  exists s', sched_on_tick p s = KDone () s' /\ tick_frame s s' /\ (preempt_cnt (cpu s) <> 0 -> s' = s).
Proof.
  intros H Hc Hg. destruct (Z.eq_dec (preempt_cnt (cpu s)) 0) as [Hp | Hp].
  2: { exists s. split; [| split; [apply tick_frame_id | done]].
       unfold sched_on_tick, get, modify, mbind, K_bind, mret, K_ret. cbn [kbind].
       by rewrite (proj2 (Z.eqb_neq _ _) Hc), Hg, (proj2 (Z.eqb_neq _ _) Hp). }
  destruct p.
  2: { eexists. split; [by apply sched_on_tick_rr | split; [apply tick_frame_budget | done]]. }
  unfold sched_on_tick, get, modify, of_opt, mbind, K_bind, mret, K_ret. cbn [kbind].
  rewrite (proj2 (Z.eqb_neq _ _) Hc), Hg, Hp. cbn [Z.eqb negb andb].
  destruct (is_ready s (cur s)) eqn:Hr; cbn [negb].
  2: { eexists. split; [done | split; [apply tick_frame_resched | done]]. }
  destruct (rq_has_ready_prio_gt_spec s l (t_effective_priority (thr s (cur s))) (si_rep s l H)) as (b & -> & _).
  cbn [kbind]. destruct b; eexists; (split; [done | split; [| done]]); [apply tick_frame_resched | apply tick_frame_budget].
Qed.

(** The tick does not look at the console. *)
Definition kout {A} (o : list Z) (r : kres A) : kres A :=
  match r with KDone a s => KDone a (set_out o s) | _ => r end.

Lemma tick_budget_out p c o s : tick_budget p c (set_out o s) = set_out o (tick_budget p c s).
Proof.
  unfold tick_budget. change (thr (set_out o s) c) with (thr s c). destruct (0 <? t_budget (thr s c)).
  - change (upd_thr c ?f (set_out o s)) with (set_out o (upd_thr c f s)). set (u := upd_thr c _ s).
    change (thr (set_out o u) c) with (thr u c). by destruct (t_budget (thr u c) <=? 0).
  - change (thr (set_out o s) c) with (thr s c). by destruct (t_budget (thr s c) <=? 0).
Qed.

Lemma tick_out p o s : thread_guard_ok s (cur s) = true ->
  sched_on_tick p (set_out o s) = kout o (sched_on_tick p s).
Proof.
  intros Hg. unfold sched_on_tick, get, modify, of_opt, mbind, K_bind, mret, K_ret. cbn [kbind].
  change (cur (set_out o s)) with (cur s). change (thread_guard_ok (set_out o s)) with (thread_guard_ok s).
  rewrite Hg. cbn [negb]. change (cpu (set_out o s)) with (cpu s). change (is_ready (set_out o s)) with (is_ready s).
  destruct (cur s =? nullptr); [done |]. destruct (negb (preempt_cnt (cpu s) =? 0)); [done |].
  destruct (p && negb (is_ready s (cur s))); [done |]. change (thr (set_out o s)) with (thr s).
  destruct p; cbn [kbind].
  - change (rq_has_ready_prio_gt ?v (set_out o s)) with (rq_has_ready_prio_gt v s).
    destruct (rq_has_ready_prio_gt _ s) as [[] |]; cbn [kbind kout]; [done | by rewrite tick_budget_out | done].
  - by rewrite tick_budget_out.
Qed.

Lemma tick_input_inv k l : sched_inv k l -> sched_inv (tick_input k) l.
Proof. intros []. split; [by apply rq_rep_cpu | done | done | done]. Qed.

Lemma sched_inv_budget a v s l : sched_inv s l -> sched_inv (upd_thr a (set_t_budget v) s) l.
Proof.
  intros [H1 H2 H3 H4]. split.
  - by apply rq_rep_upd.
  - intros t Ht. rewrite thr_upd. destruct (a =? t); by apply H2.
  - intros t. rewrite thr_upd. destruct (a =? t); apply H3.
  - change (cur (upd_thr a (set_t_budget v) s)) with (cur s). rewrite thr_upd. destruct (a =? cur s); apply H4.
Qed.

(** ** The parts of the handler *)

Lemma complete_one_daif C d s :
  (forall cb user status s, same_queue s (call_cb C cb user status s)) -> dma_daif (dma_complete_one C d s) = dma_daif s.
Proof.
  intros Hcb. assert (Q : same_queue (dma_finish C d s) (dma_complete_one C d s)).
  { unfold dma_complete_one. cbv zeta. destruct (negb _); [apply Hcb | apply same_queue_refl]. }
  destruct Q as (_ & _ & _ & _ & _ & ->). unfold dma_finish. cbv zeta.
  change (dma_daif (dputs ?m ?x)) with (dma_daif x).
  match goal with |- dma_daif (dma_prepare_to_device C ?b ?n ?x) = _ => destruct (prepare_same C b n x) as (_ & _ & _ & _ & _ & ->) end.
  change (dma_daif (set_desc ?a ?x ?y)) with (dma_daif y).
  match goal with |- context [if ?c then dma_transfer C ?a ?b ?n ?x else _] =>
    transitivity (dma_daif x); [destruct c; [destruct (transfer_same C a b n x) as (_ & _ & _ & _ & _ & ->); done | done] |] end.
  match goal with |- context [if ?c then set_tail nullptr ?x else _] => by destruct c end.
Qed.

Lemma poll_daif C l s :
  (forall cb user status s, same_queue s (call_cb C cb user status s)) ->
  dma_daif (foldl (fun s d => dma_complete_one C d s) s l) = dma_daif s.
Proof.
  intros Hcb. revert s. induction l as [|d l IH]; intros s; [done |]. cbn [foldl]. rewrite IH. by apply complete_one_daif.
Qed.

Section Parts.

Context (answer : list ioev -> Z) (use_cntp : bool) (C : dma_cfg) (G : config) (fuel : nat).

(** The acknowledged interrupt. *)
Definition acked (s : irq_st) : Z := wrap32 (wrap64 (answer (io (ia s) ++ [Mrs ICC_IAR1_EL1]))).

Lemma irq_entry_spec s :
  exists o s1, irq_entry answer s = (acked s, s1) /\ idma s1 = idma s /\
    ik s1 = set_out o (upd_cpu (fun c => set_irq_depth (wrap32 (irq_depth c + 1)) c) (ik s)) /\
    io (ia s1) = io (ia s) ++ [Mrs ICC_IAR1_EL1].
Proof.
  unfold irq_entry. cbv zeta. set (s0 := if negb (g_irq_entry_budget s =? 0) then _ else s).
  assert (E0 : exists o, ik s0 = set_out o (ik s) /\ idma s0 = idma s /\ ia s0 = ia s).
  { unfold s0. destruct (negb _); [by eexists |]. exists (out (ik s)). split; [by destruct (ik s) | done]. }
  destruct E0 as (o & Ek & Ed & Ea). clearbody s0.
  change (ia (irq_depth_inc s0)) with (ia s0). rewrite Ea.
  unfold gic_ack at 1 2, mrs, read. cbn [fst snd]. cbn [io emit]. fold (acked s).
  set (s2 := with_arch _ (irq_depth_inc s0)).
  assert (E2 : ik s2 = set_out (out (ik s2)) (upd_cpu (fun c => set_irq_depth (wrap32 (irq_depth c + 1)) c) (ik s)) /\
    idma s2 = idma s /\ io (ia s2) = io (ia s) ++ [Mrs ICC_IAR1_EL1]).
  { unfold s2, with_arch, irq_depth_inc, on_k, gic_ack, mrs, read. cbn [ik ia idma set_ik io emit con snd]. rewrite Ek, Ed, Ea. done. }
  clearbody s2. destruct E2 as (E2 & E3 & E4). destruct (g_irq_diag_count s2 <? 8).
  - eexists _, _. split; [reflexivity |]. split; [exact E3 | split; [| exact E4]].
    unfold on_k. cbn [ik set_ik set_diag_count]. rewrite E2. reflexivity.
  - eexists _, _. split; [reflexivity |]. split; [exact E3 | split; [exact E2 | exact E4]].
Qed.

Lemma timer_prelude_spec ch s1 k o :
  ik s1 = set_out o (upd_cpu (fun c => set_irq_depth (wrap32 (irq_depth c + 1)) c) k) ->
  let s3 := timer_prelude answer use_cntp ch s1 in
  ik s3 = set_out (out (ik s3)) (tick_input k) /\ idma s3 = idma s1 /\
  exists t, 1 <= t /\ io (ia s3) = io (ia s1) ++ [Mrs CNTFRQ_EL0; Msr (if use_cntp then CNTP_TVAL_EL0 else CNTV_TVAL_EL0) t].
Proof.
  intros Hk. unfold timer_prelude. cbv zeta. set (s2 := if negb (g_irq_timer_budget s1 =? 0) then _ else s1).
  assert (E2 : ik s2 = set_out (out (ik s2)) (upd_cpu (fun c => set_irq_depth (wrap32 (irq_depth c + 1)) c) k) /\ idma s2 = idma s1 /\ ia s2 = ia s1).
  { unfold s2. destruct (negb _); unfold on_k; cbn [ik idma ia set_ik set_timer_budget]; rewrite Hk; by split. }
  clearbody s2. destruct E2 as (E2 & Ed2 & Ea2). unfold with_arch, on_k. cbn [ik ia idma set_ik].
  split; [by rewrite E2 | split; [done |]]. rewrite timer_irq_io, Ea2. cbn [io]. eexists. split; [| reflexivity].
  set (a := Arch _ _ _ _). pose proof (compute_ticks_spec answer 1000 a) as B. destruct (compute_ticks answer 1000 a) as [t sa].
  destruct B as [_ B]. by destruct (B ltac:(lia)).
Qed.

Lemma timer_case_spec ch f s1 k o l dl :
  ik s1 = set_out o (upd_cpu (fun c => set_irq_depth (wrap32 (irq_depth c + 1)) c) k) ->
  sched_inv k l -> cur k <> nullptr -> thread_guard_ok k (cur k) = true ->
  dma_rep (idma s1) dl -> (length dl <= fuel)%nat ->
  (forall cb user status s, same_queue s (call_cb C cb user status s)) ->
  exists k' s' t, sched_on_tick (sched_policy_prio G) (tick_input k) = KDone () k' /\ tick_frame (tick_input k) k' /\ 1 <= t /\
    timer_case answer use_cntp C G fuel ch f s1 =
      IRet (if (preempt_cnt (cpu k) =? 0) && negb (need_resched (cpu k') =? 0) then set_f_elr (preempt_return_addr G) f else f) s' /\
    ik s' = set_out (out (ik s')) k' /\
    dma_rep (idma s') [] /\ (forall a, desc (idma s') a = if decide (a ∈ dl) then desc_done (desc (idma s1) a) else desc (idma s1) a) /\
    io (ia s') = io (ia s1) ++ [Mrs CNTFRQ_EL0; Msr (if use_cntp then CNTP_TVAL_EL0 else CNTV_TVAL_EL0) t].
Proof.
  intros Hk H Hc Hg Hd Hf Hcb.
  destruct (tick_done (sched_policy_prio G) (tick_input k) l (tick_input_inv k l H) Hc Hg) as (k' & Ek & Fk & _).
  exists k'. unfold timer_case. cbv zeta. destruct (timer_prelude_spec ch s1 k o Hk) as (E3 & Ed3 & Ea3).
  set (s3 := timer_prelude answer use_cntp ch s1) in *.
  destruct Ea3 as (t & Ht & Ea3). clearbody s3. rewrite E3, tick_out, Ek by exact Hg. cbn [kout].
  set (s4 := set_ik _ s3). assert (Hr : dma_rep (dma_in s4) dl).
  { destruct Hd. split; cbn [dma_in s4 set_ik idma g_pending_head g_pending_tail g_dma_desc_next]; rewrite ?Ed3; try done.
    unfold desc in *. cbn [dma_in s4 set_ik idma descs]. by rewrite Ed3. }
  destruct (poll_spec C dl fuel (dma_in s4) Hcb Hr Hf) as (P1 & P2 & P3 & P4). rewrite P1.
  set (d := foldl _ _ _) in *. assert (Hdaif : dma_daif d = daif k') by (unfold d; rewrite poll_daif by done; done).
  clearbody d. assert (Ecpu : cpu (ik (dma_back d s4)) = cpu k') by done. rewrite Ecpu, (tf_cpu _ _ Fk).
  cbn [set_need_resched current_thread preempt_cnt need_resched tick_input upd_cpu set_cpu cpu set_ticks set_irq_depth].
  fold (cur k). rewrite (proj2 (Z.eqb_neq _ _) Hc). cbn [negb andb]. exists (dma_back d s4), t.
  split; [done | split; [done | split; [done |]]]. split; [by destruct (_ && _) |].
  split; [| split; [exact P2 | split; [| exact Ea3]]].
  - unfold dma_back. cbn [ik]. rewrite Hdaif. unfold s4. cbn [ik set_ik]. by destruct k'.
  - assert (Edesc : forall a, desc (dma_in s4) a = desc (idma s1) a) by (intros a; unfold desc; cbn [dma_in s4 set_ik idma descs]; by rewrite Ed3).
    intros a. cbn [dma_back idma]. destruct (decide (a ∈ dl)) as [Ha | Ha]; [rewrite P3 by done | rewrite P4 by done]; by rewrite Edesc.
Qed.

Lemma irq_tail_spec iar f s :
  Z.land iar 0x3FF <> 1023 ->
  exists s', irq_tail iar (IRet f s) = IRet f s' /\ idma s' = idma s /\
    ik s' = upd_cpu (fun c => set_irq_depth (wrap32 (irq_depth c - 1)) c) (ik s) /\
    io (ia s') = io (ia s) ++ [Msr ICC_EOIR1_EL1 iar; Msr ICC_DIR_EL1 iar].
Proof.
  intros Hi. unfold irq_tail. rewrite (proj2 (Z.eqb_neq _ _) Hi). cbn [negb]. eexists. split; [reflexivity |].
  unfold irq_depth_dec, on_k, with_arch, gic_eoi, msr. cbn [ik idma ia set_ik io emit con out]. split; [done | split].
  - by destruct (ik s).
  - by rewrite <- app_assoc.
Qed.

(** A damaged guard pattern halts the machine inside the timer case. *)
Lemma timer_case_halts ch f s1 k o :
  ik s1 = set_out o (upd_cpu (fun c => set_irq_depth (wrap32 (irq_depth c + 1)) c) k) ->
  cur k <> nullptr -> thread_guard_ok k (cur k) = false ->
  exists s' t, timer_case answer use_cntp C G fuel ch f s1 = IHalt s' /\ threads (ik s') = threads k /\
  io (ia s') = io (ia s1) ++ [Mrs CNTFRQ_EL0; Msr (if use_cntp then CNTP_TVAL_EL0 else CNTV_TVAL_EL0) t].
Proof.
  intros Hk Hc Hg. unfold timer_case. cbv zeta. destruct (timer_prelude_spec ch s1 k o Hk) as (E3 & Ed3 & t & _ & Ea3).
  set (s3 := timer_prelude answer use_cntp ch s1) in *. clearbody s3.
  rewrite E3. unfold sched_on_tick, get, modify, halt, mbind, K_bind, mret, K_ret. cbn [kbind].
  change (cur (set_out (out (ik s3)) (tick_input k))) with (cur k). rewrite (proj2 (Z.eqb_neq _ _) Hc).
  change (thread_guard_ok (set_out (out (ik s3)) (tick_input k)) (cur k)) with (thread_guard_ok k (cur k)). rewrite Hg.
  cbn [negb kbind]. eexists _, t. split; [reflexivity |]. split; [done | exact Ea3].
Qed.

(** The depth counter returns to its value. *)
Lemma depth_back d : 0 <= d < 2 ^ 32 -> wrap32 (wrap32 (d + 1) - 1) = d.
Proof. intros Hd. unfold wrap32. rewrite Zminus_mod_idemp_l. rewrite Z.mod_small; lia. Qed.

Lemma depth_restored o o' k :
  0 <= irq_depth (cpu k) < 2 ^ 32 ->
  upd_cpu (fun c => set_irq_depth (wrap32 (irq_depth c - 1)) c)
    (set_out o' (set_out o (upd_cpu (fun c => set_irq_depth (wrap32 (irq_depth c + 1)) c) k))) = set_out o' k.
Proof.
  intros Hd. unfold upd_cpu. cbn [cpu set_out set_cpu set_irq_depth irq_depth]. rewrite depth_back by done.
  by destruct k as [? ? ? ? ? ? ? ? [] ? ? ? ? ? ?].
Qed.

(** Which code handles the two timer interrupts. *)
Lemma handler_timer f s s1 :
  irq_entry answer s = (acked s, s1) -> Z.land (acked s) 0x3FF = 27 \/ Z.land (acked s) 0x3FF = 30 ->
  irq_handler_el1 answer use_cntp C G fuel f s =
    irq_tail (acked s) (timer_case answer use_cntp C G fuel (if Z.land (acked s) 0x3FF =? 27 then 58 else 80) f s1).
Proof. intros E Hi. unfold irq_handler_el1. rewrite E. by destruct Hi as [-> | ->]. Qed.

End Parts.

(** ** Theorems *)

(** C16: a timer interrupt (27 or 30) taken while a thread with an intact stack
    runs: the handler returns; its only register accesses are, in this order,
    the acknowledgement, the timer's reprogramming, the end of interrupt and
    the deactivation of the same interrupt; the kernel state becomes exactly
    what the scheduler's tick makes of it, with one more tick counted and the
    interrupt depth as before (the console apart), and the tick itself only
    touches budgets and the reschedule request; every pending DMA transfer is
    completed; and of the saved context only the return address changes, to
    [preempt_return], exactly when preemption is enabled and a reschedule is
    requested. *)
Theorem irq_timer_tick answer (use_cntp : bool) C G fuel f s l dl :
  let k := ik s in
  let iar := acked answer s in
  Z.land iar 0x3FF = 27 \/ Z.land iar 0x3FF = 30 ->
  sched_inv k l -> cur k <> nullptr -> thread_guard_ok k (cur k) = true -> 0 <= irq_depth (cpu k) < 2 ^ 32 ->
  dma_rep (idma s) dl -> (length dl <= fuel)%nat ->
  (forall cb user status s, same_queue s (call_cb C cb user status s)) ->
  exists k' s' t,
    sched_on_tick (sched_policy_prio G) (tick_input k) = KDone () k' /\ tick_frame (tick_input k) k' /\ 1 <= t /\
    irq_handler_el1 answer use_cntp C G fuel f s =
      IRet (if (preempt_cnt (cpu k) =? 0) && negb (need_resched (cpu k') =? 0) then set_f_elr (preempt_return_addr G) f else f) s' /\
    ik s' = set_out (out (ik s')) (upd_cpu (set_irq_depth (irq_depth (cpu k))) k') /\
    dma_rep (idma s') [] /\
    (forall a, desc (idma s') a = if decide (a ∈ dl) then desc_done (desc (idma s) a) else desc (idma s) a) /\
    io (ia s') = io (ia s) ++ [Mrs ICC_IAR1_EL1; Mrs CNTFRQ_EL0; Msr (if use_cntp then CNTP_TVAL_EL0 else CNTV_TVAL_EL0) t;
      Msr ICC_EOIR1_EL1 iar; Msr ICC_DIR_EL1 iar].
Proof.
  intros k iar Hi H Hc Hg Hdep Hd Hf Hcb.
  destruct (irq_entry_spec answer s) as (o & s1 & Een & Ed1 & Ek1 & Ei1). rewrite <- Ed1 in Hd.
  rewrite (handler_timer answer use_cntp C G fuel f s s1 Een Hi). fold iar.
  destruct (timer_case_spec answer use_cntp C G fuel (if Z.land iar 0x3FF =? 27 then 58 else 80) f s1 k o l dl Ek1 H Hc Hg Hd Hf Hcb)
    as (k' & s2 & t & Etick & Fk & Ht & -> & Ek2 & Hd2 & Hdesc & Ei2).
  set (f' := if _ && _ then _ else f) in *.
  assert (Hne : Z.land iar 0x3FF <> 1023) by (destruct Hi as [-> | ->]; done).
  destruct (irq_tail_spec iar f' s2 Hne) as (s3 & -> & Ed3 & Ek3 & Ei3).
  exists k', s3, t. split; [done | split; [done | split; [done | split; [done |]]]].
  rewrite Ed3. split; [| split; [exact Hd2 | split; [by rewrite <- Ed1 |]]].
  - rewrite Ek3, Ek2. unfold upd_cpu. cbn [cpu set_out set_cpu]. rewrite (tf_cpu _ _ Fk).
    cbn [set_need_resched irq_depth tick_input upd_cpu set_cpu cpu set_ticks set_irq_depth]. by rewrite depth_back.
  - rewrite Ei3, Ei2, Ei1. by rewrite <- !app_assoc.
Qed.

(** every other interrupt leaves the saved context, the kernel state and
    the DMA engine as they were, the console apart: a spurious one (1023) is not
    ended, any other is ended and deactivated once.  An interrupt that finds the
    running thread's guard pattern damaged halts the machine in the handler,
    without ending the interrupt. *)
Theorem irq_other answer (use_cntp : bool) C G fuel f s :
  let k := ik s in
  let iar := acked answer s in
  0 <= irq_depth (cpu k) < 2 ^ 32 ->
  (Z.land iar 0x3FF <> 27 -> Z.land iar 0x3FF <> 30 ->
   exists s', irq_handler_el1 answer use_cntp C G fuel f s = IRet f s' /\
     ik s' = set_out (out (ik s')) k /\ idma s' = idma s /\
     io (ia s') = io (ia s) ++ Mrs ICC_IAR1_EL1 ::
       (if Z.land iar 0x3FF =? 1023 then [] else [Msr ICC_EOIR1_EL1 iar; Msr ICC_DIR_EL1 iar])) /\
  (Z.land iar 0x3FF = 27 \/ Z.land iar 0x3FF = 30 -> cur k <> nullptr -> thread_guard_ok k (cur k) = false ->
   exists s', irq_handler_el1 answer use_cntp C G fuel f s = IHalt s' /\ threads (ik s') = threads k /\
     Forall (fun e => forall v, e <> Msr ICC_EOIR1_EL1 v) (drop (length (io (ia s))) (io (ia s')))).
Proof.
  intros k iar Hdep. destruct (irq_entry_spec answer s) as (o & s1 & Een & Ed1 & Ek1 & Ei1). fold k in Ek1. split.
  - intros H27 H30. unfold irq_handler_el1. rewrite Een. fold iar.
    rewrite (proj2 (Z.eqb_neq _ _) H27), (proj2 (Z.eqb_neq _ _) H30).
    destruct (Z.eqb_spec (Z.land iar 0x3FF) 1023) as [Hs | Hs].
    + eexists. split; [done |]. unfold irq_depth_dec, on_k. cbn [ik idma ia set_ik]. rewrite Ek1, Ed1, Ei1.
      split; [| done]. change (set_out o ?x) with (set_out o (set_out o x)). by rewrite depth_restored.
    + destruct (irq_tail_spec iar f (default_case (Z.land iar 0x3FF) s1) Hs) as (s3 & -> & Ed3 & Ek3 & Ei3).
      assert (Edef : exists o', ik (default_case (Z.land iar 0x3FF) s1) = set_out o' (ik s1) /\
  idma (default_case (Z.land iar 0x3FF) s1) = idma s1 /\ ia (default_case (Z.land iar 0x3FF) s1) = ia s1).
      { unfold default_case. destruct (_ <? 16); by eexists. }
      destruct Edef as (o' & Ed & Ea & Eia). eexists. split; [done |]. rewrite Ek3, Ed3, Ei3, Ed, Ea, Eia, Ek1, Ed1, Ei1.
      rewrite depth_restored by done. split; [done | split; [done | by rewrite <- app_assoc]].
  - intros Hi Hc Hg. rewrite (handler_timer answer use_cntp C G fuel f s s1 Een Hi). fold iar.
    destruct (timer_case_halts answer use_cntp C G fuel (if Z.land iar 0x3FF =? 27 then 58 else 80) f s1 k o Ek1 Hc Hg)
      as (s' & t & -> & Eth & Eio).
    exists s'. split; [done | split; [done |]]. rewrite Eio, Ei1, <- app_assoc, drop_app_length. by destruct use_cntp; repeat constructor.
Qed.

(** C17: when the handler redirects the return to preempt the interrupted
    thread, the address it was interrupted at is gone: the outcome, saved
    context included, is the same for every such address, so nothing that runs
    later can resume the thread there ([preempt_return] returns through the
    saved link register). *)
Theorem irq_loses_pc answer (use_cntp : bool) C G fuel f s f' s' :
  irq_handler_el1 answer use_cntp C G fuel f s = IRet f' s' ->
  f_elr f <> preempt_return_addr G -> f_elr f' = preempt_return_addr G ->
  forall pc, irq_handler_el1 answer use_cntp C G fuel (set_f_elr pc f) s = IRet f' s'.
Proof.
  intros Hr Hf Hf' pc. unfold irq_handler_el1 in *. destruct (irq_entry answer s) as [iar s1].
  assert (Hcase : forall ch, irq_tail iar (timer_case answer use_cntp C G fuel ch f s1) = IRet f' s' ->
    irq_tail iar (timer_case answer use_cntp C G fuel ch (set_f_elr pc f) s1) = IRet f' s').
  { intros ch. unfold timer_case. cbv zeta. destruct (sched_on_tick _ _); [| done | done | done].
    destruct (dma_poll_complete _ _ _); [| done]. destruct (_ && _); [done |].
    intros [= E _]. congruence. }
  destruct (_ =? 27); [by apply Hcase |]. destruct (_ =? 30); [by apply Hcase |].
  destruct (_ =? 1023); injection Hr as E _; congruence.
Qed.

(** ** Witnesses *)

(** The virtual timer interrupts thread 8192 at the end of its quantum, with
    one DMA transfer of length zero pending. *)
Definition demo_irq_answer (l : list ioev) : Z :=
  match last l with
  | Some (Mrs ICC_IAR1_EL1) => 27
  | Some (Mrs CNTFRQ_EL0) => 62500000
  | _ => 0
  end.

Definition demo_irq_dma : dma_st :=
  Dma (Msys ∅ ∅ 0 []) {[ 4096 := DmaDesc 0 0 0 1 0 0 nullptr ]} 8192 65536 4096 4096 0 0 0 [].

Definition demo_irq_cfg : config := Config false false false (fun _ m => (0, m)) 0 0xBEEF0.

Definition demo_irq : irq_st :=
  Irq (upd_thr 8192 (set_t_budget 1) demo_run) demo_irq_dma (Arch [] [] false 0) 8 0 0.

Definition demo_frame : irq_frame := IrqFrame (replicate 19 0) 0x40080100 0x40100000 0x5 0x40081234 0.

Lemma demo_irq_inv : sched_inv (ik demo_irq) [4096; 8192; 12288].
Proof. apply sched_inv_budget, demo_run_inv. Qed.

Lemma demo_irq_dma_rep : dma_rep demo_irq_dma [4096].
Proof.
  split; [split; [reflexivity | done] | done | done | |].
  - apply NoDup_singleton.
  - intros a ->%list_elem_of_singleton. unfold sizeof_desc. cbn. lia.
Qed.

Lemma irq_timer_tick_witness :
  exists s', irq_handler_el1 demo_irq_answer false demo_dma_cfg demo_irq_cfg 1 demo_frame demo_irq =
    IRet (set_f_elr 0xBEEF0 demo_frame) s' /\ dma_rep (idma s') [] /\ desc (idma s') 4096 = DmaDesc 0 0 0 0 0 0 nullptr.
Proof.
  pose proof (irq_timer_tick demo_irq_answer false demo_dma_cfg demo_irq_cfg 1 demo_frame demo_irq [4096; 8192; 12288] [4096]
    (or_introl eq_refl) demo_irq_inv ltac:(done) ltac:(vm_compute; reflexivity) ltac:(cbn; lia) demo_irq_dma_rep ltac:(cbn; lia)
    (fun _ _ _ s => same_queue_refl s)) as H.
  destruct H as (k' & s' & t & Et & _ & _ & Eh & _ & Hr & Hd & _). exists s'. split; [| split; [exact Hr |]].
  - rewrite Eh. vm_compute in Et. injection Et as <-. reflexivity.
  - rewrite Hd, decide_True by by left. reflexivity.
Defined.

Lemma irq_other_witness :
  exists s', irq_handler_el1 (fun _ => 1023) false demo_dma_cfg demo_irq_cfg 0 demo_frame demo_irq = IRet demo_frame s' /\
    io (ia s') = [Mrs ICC_IAR1_EL1].
Proof.
  destruct (irq_other (fun _ => 1023) false demo_dma_cfg demo_irq_cfg 0 demo_frame demo_irq ltac:(cbn; lia)) as [H _].
  destruct (H ltac:(by vm_compute) ltac:(by vm_compute)) as (s' & E & _ & _ & Ei). exists s'. split; [exact E | exact Ei].
Defined.

(** The same interrupt at two different addresses. *)
Definition demo_irq_result : irq_st :=
  match irq_handler_el1 demo_irq_answer false demo_dma_cfg demo_irq_cfg 1 demo_frame demo_irq with IRet _ s => s | _ => demo_irq end.

Lemma irq_loses_pc_witness :
  irq_handler_el1 demo_irq_answer false demo_dma_cfg demo_irq_cfg 1 (set_f_elr 0x40089999 demo_frame) demo_irq =
    IRet (set_f_elr 0xBEEF0 demo_frame) demo_irq_result.
Proof.
  apply (irq_loses_pc demo_irq_answer false demo_dma_cfg demo_irq_cfg 1 demo_frame demo_irq); [vm_compute; reflexivity | done | done].
Defined.
