(* ===== verification/Spinlock.v ===== *)
(** * [src/src/spinlock.cc]: spin locks on one core

    A lock is a 32-bit word of RAM.  On one core a waiting loop only ends
    because something interrupts it: [env n] is what the interrupt handler and
    the threads it switches to do at the [n]-th [cpu_relax], and it runs only
    while interrupts are unmasked.  [monitor n] tells whether the exclusive
    store of an attempt made after [n] relaxations succeeds.  Both are
    arbitrary: the theorems say what follows for each of them.  The interrupt
    points are the relaxations; memory ordering is not modelled. *)

From S2P Require Import Prelude Mem Kstate Runq Sched.

Section Spinlock.

Context (env : nat -> kst -> kst) (monitor : nat -> bool) (prio : bool).

(** [l->v]. *)
Definition lockv (l : Z) (s : kst) : Z := ld_le 4 (ram s) l.

Definition store_lockv (l v : Z) (s : kst) : kst := set_ram (st_le 4 l v (ram s)) s.

Definition irqs_masked (s : kst) : bool := negb (Z.land (daif s) 0x80 =? 0).

Definition cpu_relax (n : nat) (s : kst) : kst := if irqs_masked s then s else env n s.

Definition raw_spin_init (l : Z) (s : kst) : kst := if l =? nullptr then s else store_lockv l 0 s.

Definition raw_spin_trylock (l : Z) (n : nat) (s : kst) : Z * kst :=
  if l =? nullptr then (-1, s)
  else if negb (lockv l s =? 0) then (-1, s)
  else if monitor n then (0, store_lockv l 1 s) else (-1, s).

(** [while (l->v != 0) cpu_relax();] from relaxation [n] on. *)
Fixpoint spin_wait (fuel : nat) (l : Z) (n : nat) (s : kst) : option (nat * kst) :=
  if lockv l s =? 0 then Some (n, s)
  else match fuel with
       | O => None
       | Datatypes.S fuel' => spin_wait fuel' l (Datatypes.S n) (cpu_relax n s)
       end.

Fixpoint raw_spin_lock_loop (fuel : nat) (l : Z) (n : nat) (s : kst) : option (nat * kst) :=
  let '(r, s) := raw_spin_trylock l n s in
  if r =? 0 then Some (n, s)
  else match fuel with
       | O => None
       | Datatypes.S fuel' =>
         match spin_wait fuel' l n s with
         | Some (n, s) => raw_spin_lock_loop fuel' l (Datatypes.S n) (cpu_relax n s)
         | None => None
         end
       end.

Definition raw_spin_lock (fuel : nat) (l : Z) (n : nat) (s : kst) : option (nat * kst) :=
  if l =? nullptr then Some (n, s) else raw_spin_lock_loop fuel l n s.

Definition raw_spin_unlock (l : Z) (s : kst) : kst := if l =? nullptr then s else store_lockv l 0 s.

Definition spin_init (l : Z) (s : kst) : kst := if l =? nullptr then s else raw_spin_init l s.

(** [raw_spin_trylock] in the control monad. *)
Definition try (l : Z) (n : nat) : K Z := fun s => let '(r, s) := raw_spin_trylock l n s in KDone r s.

Fixpoint spin_lock_loop (fuel : nat) (l : Z) (n : nat) : K nat :=
  preempt_disable ≫= fun _ =>
  try l n ≫= fun r =>
  if r =? 0 then mret n
  else
    preempt_enable prio ≫= fun _ =>
    match fuel with
    | O => of_opt None
    | Datatypes.S fuel' =>
      (fun s => match spin_wait fuel' l n s with Some (n, s) => KDone (Datatypes.S n) (cpu_relax n s) | None => KStuck end)
        ≫= fun n => spin_lock_loop fuel' l n
    end.

Definition spin_lock (fuel : nat) (l : Z) (n : nat) : K nat :=
  if l =? nullptr then mret n else spin_lock_loop fuel l n.

Definition spin_trylock (l : Z) (n : nat) : K Z :=
  if l =? nullptr then mret (-1)
  else
    preempt_disable ≫= fun _ =>
    try l n ≫= fun r =>
    if r =? 0 then mret 0 else preempt_enable prio ≫= fun _ => mret (-1).

Definition spin_unlock (l : Z) : K unit :=
  if l =? nullptr then mret () else modify (raw_spin_unlock l) ≫= fun _ => preempt_enable prio.

(** [arch/irqflags.h] on the kernel state. *)
Definition irq_save (s : kst) : Z * kst := (daif s, set_daif (Z.lor (daif s) 0x80) s).

Definition irq_restore (flags : Z) (s : kst) : kst := set_daif flags s.

Definition spin_lock_irqsave (fuel : nat) (l : Z) (n : nat) : K (Z * nat) := fun s =>
  if l =? nullptr then KDone (0, n) s
  else
    let '(flags, s) := irq_save s in
    match raw_spin_lock fuel l n s with
    | Some (n, s) => kbind (preempt_disable s) (fun _ => KDone (flags, n))
    | None => KStuck
    end.

Definition spin_unlock_irqrestore (l flags : Z) : K unit :=
  if l =? nullptr then mret ()
  else modify (fun s => irq_restore flags (raw_spin_unlock l s)) ≫= fun _ => preempt_enable prio.

(** ** Waiting *)

(** The state after [k] relaxations, the first being number [n]. *)
Fixpoint traj (k n : nat) (s : kst) : kst :=
  match k with O => s | Datatypes.S k' => traj k' (Datatypes.S n) (cpu_relax n s) end.

Lemma traj_add a b n s : traj (a + b) n s = traj b (n + a) (traj a n s).
Proof.
  revert n s. induction a as [|a IH]; intros n s; simpl; [by rewrite Nat.add_0_r |].
  rewrite IH. by rewrite <- Nat.add_succ_comm.
Qed.

Lemma traj_masked k n s : irqs_masked s = true -> traj k n s = s.
Proof. intros Hm. revert n. induction k as [|k IH]; intros n; simpl; [done |]. unfold cpu_relax. by rewrite Hm, IH. Qed.

Lemma lockv_store l v s : lockv l (store_lockv l v s) = wrap32 v.
Proof. unfold lockv, store_lockv. cbn [ram set_ram]. by rewrite ld_le_st_le. Qed.

Lemma spin_wait_some fuel l n s n' s' : spin_wait fuel l n s = Some (n', s') ->
  exists k, n' = (n + k)%nat /\ (k <= fuel)%nat /\ s' = traj k n s /\ lockv l s' = 0.
Proof.
  revert n s. induction fuel as [|fuel IH]; intros n s; cbn [spin_wait]; destruct (Z.eqb_spec (lockv l s) 0) as [E | E].
  1, 3: intros [= <- <-]; exists O; rewrite Nat.add_0_r; repeat split; (done || lia).
  - done.
  - intros (k & -> & Hk & -> & Hl)%IH. exists (Datatypes.S k). repeat split; [lia | lia | done].
Qed.

Lemma spin_wait_progress fuel l n s k :
  (k <= fuel)%nat -> lockv l (traj k n s) = 0 -> exists k', (k' <= k)%nat /\ spin_wait fuel l n s = Some ((n + k')%nat, traj k' n s).
Proof.
  revert n s k. induction fuel as [|fuel IH]; intros n s k Hk Hl; cbn [spin_wait]; destruct (Z.eqb_spec (lockv l s) 0) as [E | E].
  1, 3: exists O; rewrite Nat.add_0_r; split; [lia | done].
  - assert (k = O) as -> by lia. done.
  - destruct k as [|k]; [done |]. destruct (IH (Datatypes.S n) (cpu_relax n s) k ltac:(lia) Hl) as (k' & Hk' & ->).
    exists (Datatypes.S k'). split; [lia |]. do 2 f_equal. lia.
Qed.

(** The lock as an attempt sees it: taken from a free word, or untouched. *)
Lemma trylock_cases l n s : l <> nullptr ->
  raw_spin_trylock l n s = if (lockv l s =? 0) && monitor n then (0, store_lockv l 1 s) else (-1, s).
Proof.
  intros Hl. unfold raw_spin_trylock. rewrite (proj2 (Z.eqb_neq _ _) Hl). by destruct (lockv l s =? 0), (monitor n).
Qed.

Lemma raw_loop_safe fuel l n s n' s' : l <> nullptr -> raw_spin_lock_loop fuel l n s = Some (n', s') ->
  exists k, n' = (n + k)%nat /\ lockv l (traj k n s) = 0 /\ monitor n' = true /\ s' = store_lockv l 1 (traj k n s).
Proof.
  intros Hl. revert n s. induction fuel as [|fuel IH]; intros n s; cbn [raw_spin_lock_loop]; rewrite trylock_cases by done;
    destruct (Z.eqb_spec (lockv l s) 0) as [E | E]; destruct (monitor n) eqn:M; cbn [andb Z.eqb]; try done.
  1, 2: intros [= <- <-]; exists O; rewrite Nat.add_0_r; repeat split; done.
  all: destruct (spin_wait fuel l n s) as [[n1 s1] |] eqn:W; [| done]; apply spin_wait_some in W as (k & -> & Hk & -> & _);
    intros (j & -> & H1 & H2 & ->)%IH; exists (k + Datatypes.S j)%nat; rewrite traj_add; cbn [traj];
    (split; [lia | split; [done | split; [done | done]]]).
Qed.

Lemma raw_loop_progress fuel l n s N :
  l <> nullptr -> (forall k, (N <= k)%nat -> lockv l (traj k n s) = 0 /\ monitor (n + k) = true) -> (N < fuel)%nat ->
  raw_spin_lock_loop fuel l n s <> None.
Proof.
  intros Hl. revert n s N. induction fuel as [|fuel IH]; intros n s N HN Hf; [lia |]. cbn [raw_spin_lock_loop].
  rewrite trylock_cases by done. destruct ((lockv l s =? 0) && monitor n) eqn:E; [done |]. cbn [Z.eqb].
  assert (HN0 : N <> O).
  { intros ->. destruct (HN O ltac:(lia)) as [H1 H2]. rewrite Nat.add_0_r in H2. cbn [traj] in H1. by rewrite H1, H2 in E. }
  destruct (spin_wait_progress fuel l n s N ltac:(lia)) as (k & Hk & ->); [by apply HN |].
  apply (IH (Datatypes.S (n + k)) _ (N - Datatypes.S k)%nat); [| lia].
  intros j Hj. destruct (HN (k + Datatypes.S j)%nat ltac:(lia)) as [H1 H2]. rewrite traj_add in H1. cbn [traj] in H1.
  split; [exact H1 |]. by replace (Datatypes.S (n + k) + j)%nat with (n + (k + Datatypes.S j))%nat by lia.
Qed.

Lemma raw_loop_stuck fuel l n s :
  l <> nullptr -> (forall k, lockv l (traj k n s) <> 0) -> raw_spin_lock_loop fuel l n s = None.
Proof.
  intros Hl Hk. destruct (raw_spin_lock_loop fuel l n s) as [[n' s'] |] eqn:E; [| done].
  apply raw_loop_safe in E as (k & _ & H & _); [| done]. by destruct (Hk k).
Qed.

(** ** Preemption control *)

Definition preempt_up (s : kst) : kst := upd_cpu (set_preempt_cnt (preempt_cnt (cpu s) + 1)) s.

(** Enabling preemption again has nothing to switch to. *)
Definition calm (s : kst) : Prop :=
  0 <= preempt_cnt (cpu s) < 2 ^ 32 - 1 /\
  (preempt_cnt (cpu s) = 0 -> need_resched (cpu s) = 0 \/ irq_depth (cpu s) <> 0).

Lemma disable_up s : 0 <= preempt_cnt (cpu s) < 2 ^ 32 - 1 -> preempt_disable s = KDone () (preempt_up s).
Proof. intros H. unfold preempt_disable, modify, preempt_up, wrap32. by rewrite Z.mod_small by lia. Qed.

Lemma enable_up s : calm s -> preempt_enable prio (preempt_up s) = KDone () s.
Proof.
  intros [Hp Hq]. unfold preempt_enable, get, modify, mbind, K_bind, mret, K_ret, preempt_up, upd_cpu.
  cbn [kbind cpu set_cpu set_preempt_cnt preempt_cnt]. rewrite (proj2 (Z.eqb_neq _ 0)) by lia.
  cbn [kbind cpu set_cpu set_preempt_cnt preempt_cnt need_resched irq_depth].
  replace (wrap32 (preempt_cnt (cpu s) + 1 - 1)) with (preempt_cnt (cpu s)) by (unfold wrap32; rewrite Z.mod_small; lia).
  destruct (Z.eqb_spec (preempt_cnt (cpu s)) 0) as [E | E]; cbn [andb].
  - destruct (Hq E) as [-> | Hd%Z.eqb_neq]; [| rewrite Hd, andb_false_r]; cbn [Z.eqb negb andb];
      by destruct s as [? ? ? ? ? ? ? ? [] ? ? ? ? ? ?].
  - by destruct s as [? ? ? ? ? ? ? ? [] ? ? ? ? ? ?].
Qed.

(** The outcome of [raw_spin_lock], with the lock's preemption count. *)
Definition counted (o : option (nat * kst)) : kres nat :=
  match o with Some (n, s) => KDone n (preempt_up s) | None => KStuck end.

Lemma spin_lock_loop_raw fuel l n s :
  l <> nullptr -> (forall k, calm (traj k n s)) -> spin_lock_loop fuel l n s = counted (raw_spin_lock_loop fuel l n s).
Proof.
  intros Hl. revert n s. induction fuel as [|fuel IH]; intros n s Hc; cbn [spin_lock_loop raw_spin_lock_loop];
    unfold mbind, K_bind; rewrite disable_up by apply (Hc O); cbn [kbind]; unfold try;
    rewrite !trylock_cases by done; change (lockv l (preempt_up s)) with (lockv l s);
    destruct ((lockv l s =? 0) && monitor n); cbn [kbind Z.eqb counted]; try done; rewrite enable_up by apply (Hc O); cbn [kbind]; [done |].
  destruct (spin_wait fuel l n s) as [[n1 s1] |] eqn:W; cbn [kbind counted]; [| done].
  apply spin_wait_some in W as (k & -> & _ & -> & _). apply IH. intros j.
  specialize (Hc (k + Datatypes.S j)%nat). by rewrite traj_add in Hc.
Qed.

End Spinlock.

(** ** Theorems *)

(** C18: [spin_lock] is [raw_spin_lock] with preemption disabled from the
    acquisition on, and preemptible while it waits (as long as enabling
    preemption finds nothing to switch to).  It returns only with a lock it found
    free, now held, and one more preemption count; it returns whenever the lock
    is eventually left free and the exclusive stores succeed; against a lock
    that is never freed it waits for ever.  [spin_trylock] makes one such attempt
    and changes nothing when it fails. *)
Theorem spin_lock_correct env monitor prio l n s :
  l <> nullptr -> (forall k, calm (traj env k n s)) ->
  (forall fuel, spin_lock env monitor prio fuel l n s = counted (raw_spin_lock env monitor fuel l n s)) /\
  (forall fuel n' s', spin_lock env monitor prio fuel l n s = KDone n' s' ->
    lockv l s' = 1 /\ exists k, n' = (n + k)%nat /\ lockv l (traj env k n s) = 0 /\
      s' = preempt_up (store_lockv l 1 (traj env k n s))) /\
  (forall N fuel, (forall k, (N <= k)%nat -> lockv l (traj env k n s) = 0 /\ monitor (n + k)%nat = true) -> (N < fuel)%nat ->
    exists n' s', spin_lock env monitor prio fuel l n s = KDone n' s') /\
  ((forall k, lockv l (traj env k n s) <> 0) -> forall fuel, spin_lock env monitor prio fuel l n s = KStuck) /\
  spin_trylock monitor prio l n s =
    if (lockv l s =? 0) && monitor n then KDone 0 (preempt_up (store_lockv l 1 s)) else KDone (-1) s.
Proof.
  intros Hl Hc. assert (E : forall fuel, spin_lock env monitor prio fuel l n s = counted (raw_spin_lock env monitor fuel l n s)).
  { intros fuel. unfold spin_lock, raw_spin_lock. rewrite (proj2 (Z.eqb_neq _ _) Hl). by apply spin_lock_loop_raw. }
  assert (Er : forall fuel, raw_spin_lock env monitor fuel l n s = raw_spin_lock_loop env monitor fuel l n s)
    by (intros fuel; unfold raw_spin_lock; by rewrite (proj2 (Z.eqb_neq _ _) Hl)).
  split; [exact E | split; [| split; [| split]]].
  - intros fuel n' s'. rewrite E, Er. destruct (raw_spin_lock_loop _ _ _ _ _ _) as [[n1 s1] |] eqn:R; [| done].
    apply raw_loop_safe in R as (k & -> & H0 & _ & ->); [| done]. intros [= <- <-].
    split; [exact (lockv_store l 1 _) | by exists k].
  - intros N fuel HN Hf. rewrite E, Er. pose proof (raw_loop_progress env monitor fuel l n s N Hl HN Hf) as H.
    destruct (raw_spin_lock_loop _ _ _ _ _ _) as [[n1 s1] |]; [by eexists _, _ | done].
  - intros Hh fuel. rewrite E, Er. by rewrite raw_loop_stuck.
  - unfold spin_trylock, mbind, K_bind. rewrite (proj2 (Z.eqb_neq _ _) Hl), disable_up by apply (Hc O). cbn [kbind].
    unfold try. rewrite trylock_cases by done. change (lockv l (preempt_up s)) with (lockv l s).
    destruct ((lockv l s =? 0) && monitor n); cbn [kbind Z.eqb]; [done |]. rewrite enable_up by apply (Hc O). done.
Qed.

(** with interrupts masked nothing can free a lock: an attempt to take a
    held one never returns, with or without preemption control.  This is what
    happens when an interrupt handler takes a lock the interrupted code holds. *)
Theorem masked_spin_deadlocks env monitor prio l n s fuel :
  l <> nullptr -> irqs_masked s = true -> lockv l s <> 0 -> calm s ->
  raw_spin_lock env monitor fuel l n s = None /\ spin_lock env monitor prio fuel l n s = KStuck /\
  spin_lock_irqsave env monitor fuel l n s = KStuck.
Proof.
  intros Hl Hm Hv Hc. unfold raw_spin_lock, spin_lock, spin_lock_irqsave, irq_save. cbv zeta.
  unfold raw_spin_lock. rewrite (proj2 (Z.eqb_neq _ _) Hl).
  assert (Hs : forall s', irqs_masked s' = true -> lockv l s' <> 0 -> raw_spin_lock_loop env monitor fuel l n s' = None).
  { intros s' Hm' Hv'. apply raw_loop_stuck; [done |]. intros k. by rewrite traj_masked. }
  split; [by apply Hs | split].
  - rewrite spin_lock_loop_raw, Hs; [done | done | done | done |]. intros k. by rewrite traj_masked.
  - rewrite Hs; [done | | done]. unfold irqs_masked. cbn [daif set_daif].
    rewrite Z.land_lor_distr_l. change (Z.land 0x80 0x80) with 0x80.
    destruct (Z.eqb_spec (Z.lor (Z.land (daif s) 0x80) 0x80) 0) as [E |]; [| done]. by apply Z.lor_eq_0_iff in E as [_ E].
Qed.

(** [spin_lock_irqsave] on a free lock takes it with interrupts masked, so
    that nothing runs between it and [spin_unlock_irqrestore]; the pair returns
    the interrupt mask and the preemption count to what they were, frees the
    lock, and changes no other byte of memory and nothing else. *)
Theorem irqsave_section env monitor prio l n s fuel :
  l <> nullptr -> lockv l s = 0 -> monitor n = true -> calm s ->
  exists s1, spin_lock_irqsave env monitor fuel l n s = KDone (daif s, n) s1 /\
    lockv l s1 = 1 /\ irqs_masked s1 = true /\ preempt_cnt (cpu s1) = preempt_cnt (cpu s) + 1 /\
    (forall k m, traj env k m s1 = s1) /\
    exists r, spin_unlock_irqrestore prio l (daif s) s1 = KDone () (set_ram r s) /\
      lockv l (set_ram r s) = 0 /\ forall a, a < l \/ l + 4 <= a -> ld8 r a = ld8 (ram s) a.
Proof.
  intros Hl Hv Hmon Hc. unfold spin_lock_irqsave, irq_save, raw_spin_lock. rewrite (proj2 (Z.eqb_neq _ _) Hl).
  set (s0 := set_daif (Z.lor (daif s) 0x80) s).
  assert (E : raw_spin_lock_loop env monitor fuel l n s0 = Some (n, store_lockv l 1 s0)).
  { destruct fuel; cbn [raw_spin_lock_loop]; rewrite trylock_cases by done; change (lockv l s0) with (lockv l s); by rewrite Hv, Hmon. }
  rewrite E, disable_up by apply Hc. cbn [kbind]. eexists. split; [reflexivity |].
  assert (Hmask : irqs_masked (preempt_up (store_lockv l 1 s0)) = true).
  { unfold irqs_masked. cbn [preempt_up upd_cpu store_lockv s0 daif set_daif set_ram set_cpu].
    rewrite Z.land_lor_distr_l. change (Z.land 0x80 0x80) with 0x80.
    destruct (Z.eqb_spec (Z.lor (Z.land (daif s) 0x80) 0x80) 0) as [E0 |]; [| done]. by apply Z.lor_eq_0_iff in E0 as [_ E0]. }
  split; [exact (lockv_store l 1 s0) | split; [exact Hmask | split; [done | split]]].
  { intros k m. by apply traj_masked. }
  unfold spin_unlock_irqrestore, modify, mbind, K_bind, raw_spin_unlock. rewrite (proj2 (Z.eqb_neq _ _) Hl). cbn [kbind].
  set (r := st_le 4 l 0 (st_le 4 l 1 (ram s))). exists r.
  change (irq_restore (daif s) (store_lockv l 0 (preempt_up (store_lockv l 1 s0)))) with (preempt_up (set_daif (daif s) (set_ram r s0))).
  rewrite enable_up by exact Hc. split; [by destruct s | split].
  - unfold lockv, r. cbn [ram set_ram]. by rewrite ld_le_st_le.
  - intros a Ha. unfold r. by rewrite !ld8_st_le by (simpl; lia).
Qed.

(** ** Witnesses *)

(** A lock at 4096 held by another thread, which an interrupt runs and which
    releases it at the third relaxation; the second attempt's store fails. *)
Definition demo_held : kst := store_lockv 4096 1 blank_state.

Definition demo_env (n : nat) (s : kst) : kst := if (n =? 2)%nat then store_lockv 4096 0 s else s.

Definition demo_monitor (n : nat) : bool := negb (n =? 4)%nat.

Lemma demo_env_cpu k n s : cpu s = cpu blank_state -> cpu (traj demo_env k n s) = cpu blank_state.
Proof.
  revert n s. induction k as [|k IH]; intros n s H; [done |]. cbn [traj]. apply IH.
  unfold cpu_relax, demo_env. by destruct (irqs_masked s), (n =? 2)%nat.
Qed.

Lemma demo_calm k : calm (traj demo_env k 0 demo_held).
Proof. unfold calm. rewrite demo_env_cpu by done. cbn. lia. Qed.

Lemma spin_lock_correct_witness :
  exists n' s', spin_lock demo_env demo_monitor true 6 4096 0 demo_held = KDone n' s' /\ lockv 4096 s' = 1.
Proof.
  destruct (spin_lock_correct demo_env demo_monitor true 4096 0 demo_held ltac:(done) demo_calm) as (_ & Hs & Hp & _).
  destruct (Hp 5%nat 6%nat) as (n' & s' & E).
  - intros k Hk. replace k with (5 + (k - 5))%nat by lia. rewrite traj_add. generalize (k - 5)%nat. clear k Hk. intros j.
    split.
    + set (s5 := traj demo_env 5 0 demo_held). assert (H5 : lockv 4096 s5 = 0) by (vm_compute; reflexivity). clearbody s5.
      change (0 + 5)%nat with 5%nat. revert s5 H5. assert (G : forall m s, (2 < m)%nat -> traj demo_env j m s = s).
      { induction j as [|j IH]; intros m s Hm; [done |]. cbn [traj]. unfold cpu_relax, demo_env at 2.
        rewrite (proj2 (Nat.eqb_neq m 2)) by lia. destruct (irqs_masked s); apply IH; lia. }
      intros s5 H5. rewrite G by lia. exact H5.
    + unfold demo_monitor. by rewrite (proj2 (Nat.eqb_neq _ 4)) by lia.
  - lia.
  - exists n', s'. split; [exact E |]. by destruct (Hs _ _ _ E).
Defined.

Lemma masked_spin_deadlocks_witness :
  raw_spin_lock demo_env demo_monitor 100 4096 0 (set_daif 0x80 demo_held) = None.
Proof.
  apply (masked_spin_deadlocks demo_env demo_monitor true 4096 0 (set_daif 0x80 demo_held) 100);
    [done | done | by vm_compute | unfold calm; cbn; lia].
Defined.

Lemma irqsave_section_witness :
  exists s1, spin_lock_irqsave demo_env demo_monitor 0 4096 0 blank_state = KDone (0, O) s1 /\ irqs_masked s1 = true.
Proof.
  destruct (irqsave_section demo_env demo_monitor true 4096 0 blank_state 0 ltac:(done) ltac:(done) ltac:(done))
    as (s1 & E & _ & Hm & _); [unfold calm; cbn; lia |]. exists s1. split; [exact E | exact Hm].
Defined.
