(* ===== verification/MemLab.v ===== *)
(** * [src/src/mem_lab.cc]: the allocator demonstrations

    A first-fit allocator with splitting and coalescing over one region of RAM:
    every block has a 16-byte header (magic, flags, payload size) and the headers
    are chained by address arithmetic alone.  [heap_rep] relates the region to
    the abstract heap, a list of blocks; the operations are proved against list
    functions ([alloc_spec], [coal], [stats_spec]), on which the lab's
    fragmentation run can then be evaluated. *)

From Stdlib Require Import String.
From S2P Require Import Prelude Mem Kmem MemPool Uart.

Definition sizeof_heap_block : Z := 16.

Definition kHeapMagic : Z := 0x6d656d31.

Definition kHeapFree : Z := 1.

Definition align_up (v a : Z) : Z := Z.land (v +64 a -64 1) (~64 (a -64 1)).

(** The header's fields. *)
Definition hb_magic (m : mem) (b : Z) : Z := ld_le 4 m b.

Definition hb_flags (m : mem) (b : Z) : Z := ld_le 4 m (b + 4).

Definition hb_size (m : mem) (b : Z) : Z := ld64 m (b + 8).

Definition set_magic (b v : Z) (m : mem) : mem := st_le 4 b v m.

Definition set_flags (b v : Z) (m : mem) : mem := st_le 4 (b + 4) v m.

Definition set_size (b v : Z) (m : mem) : mem := st64 (b + 8) v m.

Definition heap_next (m : mem) (b : Z) : Z := align_up (b +64 sizeof_heap_block +64 hb_size m b) 16.

Definition heap_init (b bytes : Z) (m : mem) : mem :=
  set_size b (bytes -64 sizeof_heap_block) (set_flags b kHeapFree (set_magic b kHeapMagic m)).

(** Taking block [b] for [req] bytes: split if there is room, clear the flag. *)
Definition heap_take (b req : Z) (m : mem) : mem :=
  let payload := b +64 sizeof_heap_block in
  let old_end := align_up (payload +64 hb_size m b) 16 in
  let new_hdr := align_up (payload +64 req) 16 in
  let new_payload := new_hdr +64 sizeof_heap_block in
  let m :=
    if new_payload +64 16 <=? old_end then
      let m := set_magic new_hdr kHeapMagic m in
      let m := set_flags new_hdr kHeapFree m in
      let m := set_size new_hdr (old_end -64 new_payload) m in
      set_size b req m
    else m in
  set_flags b (Z.land (hb_flags m b) (wrap32 (Z.lnot kHeapFree))) m.

(** The scan: the address found or null, the steps, the memory. *)
Fixpoint first_fit_loop (fuel : nat) (end_ b req steps : Z) (m : mem) : option (Z * Z * mem) :=
  if negb (b +64 sizeof_heap_block <=? end_) then Some (nullptr, steps, m)
  else if negb (hb_magic m b =? kHeapMagic) then Some (nullptr, steps, m)
  else
    let steps := steps +64 1 in
    if (Z.land (hb_flags m b) kHeapFree =? 0) || (hb_size m b <? req) then
      match fuel with
      | O => None
      | S fuel' => first_fit_loop fuel' end_ (heap_next m b) req steps m
      end
    else Some (b +64 sizeof_heap_block, steps, heap_take b req m).

Definition heap_alloc_first_fit (fuel : nat) (heap heap_bytes req : Z) (m : mem) : option (Z * Z * mem) :=
  if (heap =? nullptr) || (req =? 0) then Some (nullptr, 0, m)
  else first_fit_loop fuel (heap +64 heap_bytes) heap (align_up req 16) 0 m.

Fixpoint coalesce_loop (fuel : nat) (end_ b : Z) (m : mem) : option mem :=
  if negb (b +64 sizeof_heap_block <=? end_) then Some m
  else if negb (hb_magic m b =? kHeapMagic) then Some m
  else
    let n := heap_next m b in
    if end_ <? n +64 sizeof_heap_block then Some m
    else if negb (hb_magic m n =? kHeapMagic) then Some m
    else
      match fuel with
      | O => None
      | S fuel' =>
        if negb (Z.land (hb_flags m b) kHeapFree =? 0) && negb (Z.land (hb_flags m n) kHeapFree =? 0) then
          let b_payload := b +64 sizeof_heap_block in
          let n_payload := n +64 sizeof_heap_block in
          let gap := n_payload -64 (b_payload +64 hb_size m b) in
          coalesce_loop fuel' end_ b (set_size b (hb_size m b +64 gap +64 hb_size m n) m)
        else coalesce_loop fuel' end_ n m
      end.

Definition heap_coalesce (fuel : nat) (heap heap_bytes : Z) (m : mem) : option mem :=
  coalesce_loop fuel (heap +64 heap_bytes) heap m.

Definition heap_free (fuel : nat) (heap heap_bytes p : Z) (m : mem) : option mem :=
  if (heap =? nullptr) || (p =? nullptr) then Some m
  else if (p <? heap +64 sizeof_heap_block) || (heap +64 heap_bytes <=? p) then Some m
  else
    let b := p -64 sizeof_heap_block in
    if negb (hb_magic m b =? kHeapMagic) then Some m
    else heap_coalesce fuel heap heap_bytes (set_flags b (Z.lor (hb_flags m b) kHeapFree) m).

(** Totals: free bytes, largest free block, number of free blocks. *)
Fixpoint stats_loop (fuel : nat) (end_ b : Z) (m : mem) (acc : Z * Z * Z) : option (Z * Z * Z) :=
  if negb (b +64 sizeof_heap_block <=? end_) then Some acc
  else if negb (hb_magic m b =? kHeapMagic) then Some acc
  else
    match fuel with
    | O => None
    | S fuel' =>
      let '(total, largest, count) := acc in
      let acc :=
        if Z.land (hb_flags m b) kHeapFree =? 0 then acc
        else (total +64 hb_size m b, if largest <? hb_size m b then hb_size m b else largest, count +64 1) in
      stats_loop fuel' end_ (heap_next m b) m acc
    end.

Definition heap_stats (fuel : nat) (heap heap_bytes : Z) (m : mem) : option (Z * Z * Z) :=
  stats_loop fuel (heap +64 heap_bytes) heap m (0, 0, 0).

(** ** The abstract heap *)

(** A block: free or not, payload size. *)
Definition blk : Type := bool * Z.

Definition blk_len (b : blk) : Z := 16 + b.2.

Definition heap_len (bs : list blk) : Z := foldr (fun b n => blk_len b + n) 0 bs.

Definition flag_of (fr : bool) : Z := if fr then 1 else 0.

(** Blocks [bs] laid out from address [b] on. *)
Fixpoint heap_rep (m : mem) (b : Z) (bs : list blk) : Prop :=
  match bs with
  | [] => True
  | (fr, sz) :: bs' =>
    hb_magic m b = kHeapMagic /\ hb_flags m b = flag_of fr /\ hb_size m b = sz /\
    0 <= sz /\ sz mod 16 = 0 /\ heap_rep m (b + 16 + sz) bs'
  end.

(** A whole heap of [bytes] bytes at [heap]. *)
Record heap_ok (heap bytes : Z) (m : mem) (bs : list blk) : Prop := {
  ho_rep : heap_rep m heap bs;
  ho_len : heap_len bs = bytes;
  ho_base : 0 < heap /\ heap mod 16 = 0;
  ho_top : heap + bytes < 2 ^ 62
}.

(** First fit on blocks: the blocks before, the block taken. *)
Fixpoint find_fit (req : Z) (bs : list blk) : option (list blk * Z * list blk) :=
  match bs with
  | [] => None
  | (fr, sz) :: bs' =>
    if fr && (req <=? sz) then Some ([], sz, bs')
    else match find_fit req bs' with Some (p, s, q) => Some ((fr, sz) :: p, s, q) | None => None end
  end.

Definition taken (req sz : Z) : list blk :=
  if req + 32 <=? sz then [(false, req); (true, sz - req - 16)] else [(false, sz)].

Definition alloc_spec (req : Z) (bs : list blk) : option (list blk * list blk) :=
  match find_fit req bs with Some (p, s, q) => Some (p, p ++ taken req s ++ q) | None => None end.

(** Merging neighbours, [(fr, sz)] being the block in hand. *)
Fixpoint coal (fr : bool) (sz : Z) (bs : list blk) : list blk :=
  match bs with
  | [] => [(fr, sz)]
  | (fr', sz') :: bs' => if fr && fr' then coal true (sz + 16 + sz') bs' else (fr, sz) :: coal fr' sz' bs'
  end.

Definition coalesced (bs : list blk) : list blk := match bs with [] => [] | (fr, sz) :: bs' => coal fr sz bs' end.

(** No two neighbours are free. *)
Fixpoint no_adjacent (bs : list blk) : Prop :=
  match bs with
  | (true, _) :: ((true, _) :: _) => False
  | _ :: bs' => no_adjacent bs'
  | [] => True
  end.

Definition free_sizes (bs : list blk) : list Z := map snd (filter (fun b => b.1 = true) bs).

Definition sumZ (l : list Z) : Z := foldr Z.add 0 l.

Definition maxZ (l : list Z) : Z := foldr Z.max 0 l.

(** ** Header accesses *)

Lemma ld_le_other n k m a v b :
  b + Z.of_nat n <= a \/ a + Z.of_nat k <= b -> ld_le n (st_le k a v m) b = ld_le n m b.
Proof. intros H. apply ld_le_ext. intros i Hi. apply ld8_st_le. lia. Qed.

Ltac hdr := unfold hb_magic, hb_flags, hb_size, set_magic, set_flags, set_size, ld64, st64;
  repeat first [rewrite ld_le_st_le | rewrite ld_le_other by (simpl; lia)]; simpl (Z.of_nat _); try done.

Lemma align16 x : 0 <= x < 2 ^ 62 -> align_up x 16 = (x + 15) / 16 * 16.
Proof.
  intros Hx. unfold align_up. rewrite (wrap64_small (x + 16)), (wrap64_small (x + 16 - 1)) by lia. change (16 -64 1) with (2 ^ 4 - 1).
  rewrite land_lnot_ones by lia. change (2 ^ 4) with 16. do 2 f_equal. lia.
Qed.

Lemma align16_id x : 0 <= x < 2 ^ 62 -> x mod 16 = 0 -> align_up x 16 = x.
Proof. intros Hx Hm. rewrite align16 by done. zlia. Qed.

(** The request as the allocator rounds it. *)
Lemma align16_req req : 0 <= req < 2 ^ 64 ->
  0 <= align_up req 16 /\ align_up req 16 mod 16 = 0 /\ align_up req 16 <= 2 ^ 64 - 16 /\
  (req <= 2 ^ 64 - 16 -> req <= align_up req 16 < req + 16) /\ (2 ^ 64 - 16 < req -> align_up req 16 = 0).
Proof.
  intros Hr. unfold align_up. replace (req +64 16 -64 1) with ((req + 15) mod 2 ^ 64).
  2: { unfold wrap64. rewrite Zminus_mod_idemp_l. f_equal. lia. }
  change (16 -64 1) with (2 ^ 4 - 1). rewrite land_lnot_ones by (try apply Z.mod_pos_bound; lia).
  change (2 ^ 4) with 16. set (x := (req + 15) mod 2 ^ 64). assert (0 <= x < 2 ^ 64) by (apply Z.mod_pos_bound; lia).
  assert (Hx : x = req + 15 /\ req <= 2 ^ 64 - 16 \/ x = req + 15 - 2 ^ 64 /\ 2 ^ 64 - 16 < req).
  { unfold x. destruct (Z.le_gt_cases req (2 ^ 64 - 16)); [left; rewrite Z.mod_small; lia | right].
    split; [| done]. symmetry. apply (Z.mod_unique _ _ 1); lia. }
  clearbody x. repeat split; try lia; zlia.
Qed.

(** ** Layouts *)

Lemma heap_len_cons fr sz bs : heap_len ((fr, sz) :: bs) = 16 + sz + heap_len bs.
Proof. done. Qed.

Lemma heap_len_app p q : heap_len (p ++ q) = heap_len p + heap_len q.
Proof. induction p as [|b p IH]; simpl; [done |]. rewrite IH. lia. Qed.

Lemma heap_rep_app m b p q : heap_rep m b (p ++ q) <-> heap_rep m b p /\ heap_rep m (b + heap_len p) q.
Proof.
  revert b. induction p as [|[fr sz] p IH]; intros b; simpl; [rewrite Z.add_0_r; tauto |].
  rewrite IH. unfold blk_len. simpl. replace (b + (16 + sz + heap_len p)) with (b + 16 + sz + heap_len p) by lia. tauto.
Qed.

Lemma heap_rep_len m b bs : heap_rep m b bs -> heap_len bs mod 16 = 0 /\ 16 * Z.of_nat (length bs) <= heap_len bs.
Proof.
  revert b. induction bs as [|[fr sz] bs IH]; intros b; [done |].
  cbn [heap_rep length]. intros (_ & _ & _ & H0 & H1 & H). apply IH in H as [H2 H3]. rewrite heap_len_cons.
  split; [zlia | lia].
Qed.

(** The headers are all that matters. *)
Lemma heap_rep_ext m m' b bs :
  (forall a, b <= a < b + heap_len bs -> ld8 m' a = ld8 m a) -> heap_rep m b bs -> heap_rep m' b bs.
Proof.
  revert b. induction bs as [|[fr sz] bs IH]; intros b He; [done |].
  cbn [heap_rep]. intros (H1 & H2 & H3 & H4 & H5 & H6). pose proof (heap_rep_len _ _ _ H6) as [_ Hl].
  rewrite heap_len_cons in He.
  assert (Ef : forall n a, b <= a -> a + Z.of_nat n <= b + 16 -> ld_le n m' a = ld_le n m a).
  { intros n a Ha Hn. apply ld_le_ext. intros i Hi. apply He. lia. }
  unfold hb_magic, hb_flags, hb_size, ld64 in *. rewrite !Ef by (simpl; lia). repeat (split; [done |]).
  apply IH; [| done]. intros a Ha. apply He. lia.
Qed.

(** Bytes of used payloads. *)
Fixpoint in_used (b : Z) (bs : list blk) (a : Z) : Prop :=
  match bs with
  | [] => False
  | (fr, sz) :: bs' => fr = false /\ b + 16 <= a < b + 16 + sz \/ in_used (b + 16 + sz) bs' a
  end.

Lemma in_used_app b p q a : in_used b (p ++ q) a <-> in_used b p a \/ in_used (b + heap_len p) q a.
Proof.
  revert b. induction p as [|[fr sz] p IH]; intros b; simpl; [rewrite Z.add_0_r; tauto |].
  rewrite IH. unfold blk_len. simpl. replace (b + (16 + sz + heap_len p)) with (b + 16 + sz + heap_len p) by lia. tauto.
Qed.

Lemma in_used_range m b bs a : heap_rep m b bs -> in_used b bs a -> b + 16 <= a < b + heap_len bs.
Proof.
  revert b. induction bs as [|[fr sz] bs IH]; intros b; [done |].
  cbn [heap_rep in_used]. rewrite heap_len_cons. intros (_ & _ & _ & H0 & _ & H) Hu.
  pose proof (heap_rep_len _ _ _ H) as [_ Hl]. destruct Hu as [[_ Hu] | Hu]; [lia |]. apply IH in Hu; [lia | done].
Qed.

(** What an operation on the layout [bs] at [b] must leave alone. *)
Definition frame_kept (b : Z) (bs : list blk) (m m' : mem) : Prop :=
  forall a, a < b \/ b + heap_len bs <= a \/ in_used b bs a -> ld8 m' a = ld8 m a.

(** ** One step along the chain *)

Lemma flag_free fr : (Z.land (flag_of fr) kHeapFree =? 0) = negb fr.
Proof. by destruct fr. Qed.

Lemma heap_next_rep m b fr sz bs :
  heap_rep m b ((fr, sz) :: bs) -> 0 <= b -> b mod 16 = 0 -> b + 16 + sz < 2 ^ 62 -> heap_next m b = b + 16 + sz.
Proof.
  cbn [heap_rep]. intros (_ & _ & Es & H0 & H1 & _) Hb Hm Ht. unfold heap_next, sizeof_heap_block.
  rewrite Es, (wrap64_small (b + 16)), wrap64_small, align16_id; lia || zlia.
Qed.

(** ** Taking a block *)

Lemma heap_take_spec m b s r q :
  heap_rep m b ((true, s) :: q) -> 0 <= r <= s -> r mod 16 = 0 -> 0 <= b -> b mod 16 = 0 -> b + 16 + s < 2 ^ 62 ->
  let m' := heap_take b r m in
  heap_rep m' b (taken r s ++ q) /\
  (forall a, a < b \/ b + 16 <= a < b + 16 + r \/ b + 16 + s <= a -> ld8 m' a = ld8 m a).
Proof.
  intros Hrep Hr Hr16 Hb Hb16 Ht. cbn [heap_rep] in Hrep. destruct Hrep as (H1 & H2 & H3 & H4 & H5 & H6).
  unfold heap_take, sizeof_heap_block. rewrite H3. rewrite (wrap64_small (b + 16)) by lia.
  rewrite (wrap64_small (b + 16 + s)), (wrap64_small (b + 16 + r)) by lia.
  rewrite !align16_id by (lia || zlia). rewrite (wrap64_small (b + 16 + r + 16)), (wrap64_small (b + 16 + r + 16 + 16)) by lia.
  unfold taken. destruct (Z.leb_spec (b + 16 + r + 16 + 16) (b + 16 + s)) as [Hs | Hs];
    [rewrite (proj2 (Z.leb_le (r + 32) s)) by lia | rewrite (proj2 (Z.leb_gt (r + 32) s)) by lia].
  - rewrite wrap64_small by lia. set (h := b + 16 + r). set (rest := b + 16 + s - (h + 16)).
    assert (Hh : b + 16 <= h /\ h + 16 <= b + 16 + s) by (unfold h; lia).
    set (m1 := set_size b r (set_size h rest (set_flags h kHeapFree (set_magic h kHeapMagic m)))).
    assert (Ef : hb_flags m1 b = 1) by (unfold m1; hdr; exact H2). rewrite Ef. change (Z.land 1 (wrap32 (Z.lnot kHeapFree))) with 0.
    cbv zeta. set (m' := set_flags b 0 m1).
    assert (Hout : forall a, a < b \/ b + 16 <= a < h \/ h + 16 <= a -> ld8 m' a = ld8 m a).
    { intros a Ha. unfold m', m1, set_flags, set_size, set_magic, st64. by rewrite !ld8_st_le by (simpl; lia). }
    split; [| intros a Ha; apply Hout; unfold h; lia].
    cbn [app heap_rep]. replace (b + 16 + r) with h by done. replace (h + 16 + (s - r - 16)) with (b + 16 + s) by (unfold h; lia).
    repeat match goal with |- _ /\ _ => split end; try lia.
    + unfold m', m1; hdr; exact H1.
    + unfold m', m1; hdr.
    + unfold m', m1; hdr. rewrite Z.mod_small; [done | lia].
    + unfold m', m1; hdr.
    + unfold m', m1; hdr.
    + unfold m', m1; hdr. rewrite Z.mod_small; unfold rest, h; lia.
    + zlia.
    + apply (heap_rep_ext m); [| done]. intros a Ha. apply Hout. lia.
  - rewrite H2. change (Z.land (flag_of true) (wrap32 (Z.lnot kHeapFree))) with 0. cbv zeta. set (m' := set_flags b 0 m).
    assert (Hout : forall a, a < b \/ b + 16 <= a -> ld8 m' a = ld8 m a).
    { intros a Ha. unfold m', set_flags. by rewrite ld8_st_le by (simpl; lia). }
    split; [| intros a Ha; apply Hout; lia]. cbn [app heap_rep].
    repeat match goal with |- _ /\ _ => split end; try lia; try (unfold m'; hdr; done).
    apply (heap_rep_ext m); [| done]. intros a Ha. apply Hout. lia.
Qed.

(** ** The loops *)

(** Fuel: one unit per block is enough. *)
Definition heap_fuel (bytes : Z) : nat := Z.to_nat (bytes / 16).

Lemma heap_fuel_enough m b bs : heap_rep m b bs -> (length bs <= heap_fuel (heap_len bs))%nat.
Proof. intros H. apply heap_rep_len in H as [H1 H2]. unfold heap_fuel. zlia. Qed.

Lemma first_fit_spec fuel b r steps m bs :
  heap_rep m b bs -> 0 <= b -> b mod 16 = 0 -> b + heap_len bs < 2 ^ 62 -> (length bs <= fuel)%nat ->
  0 <= steps -> steps + Z.of_nat (length bs) < 2 ^ 64 ->
  first_fit_loop fuel (b + heap_len bs) b r steps m =
    match find_fit r bs with
    | None => Some (nullptr, steps + Z.of_nat (length bs), m)
    | Some (p, s, q) => Some (b + heap_len p + 16, steps + Z.of_nat (length p) + 1, heap_take (b + heap_len p) r m)
    end.
Proof.
  revert fuel b steps. induction bs as [|[fr sz] bs IH]; intros fuel b steps H Hb Hm Ht Hf Hs Hs2.
  - simpl in Ht |- *. destruct fuel; cbn [first_fit_loop]; unfold sizeof_heap_block;
      rewrite wrap64_small by lia; rewrite (proj2 (Z.leb_gt (b + 16) (b + 0))) by lia; cbn [negb]; by rewrite Z.add_0_r.
  - rewrite heap_len_cons in Ht |- *. cbn [length] in Hf, Hs2. pose proof H as Hrep. cbn [heap_rep] in H.
    destruct H as (H1 & H2 & H3 & H4 & H5 & H6). pose proof (heap_rep_len _ _ _ H6) as [Hl16 Hl].
    destruct fuel as [|fuel]; [lia |]. cbn [first_fit_loop]. unfold sizeof_heap_block.
    rewrite (wrap64_small (b + 16)) by lia. rewrite (proj2 (Z.leb_le (b + 16) (b + (16 + sz + heap_len bs)))) by lia.
    rewrite H1, Z.eqb_refl, H2, flag_free, H3. cbn [negb find_fit].
    destruct (fr && (r <=? sz)) eqn:Efit.
    + apply andb_true_iff in Efit as [-> Efit]. apply Z.leb_le in Efit. cbn [negb orb]. rewrite (proj2 (Z.ltb_ge _ _) Efit).
      rewrite (wrap64_small (steps + 1)) by lia. simpl (heap_len []). simpl (Z.of_nat (length [])). by rewrite !Z.add_0_r.
    + replace (negb fr || (sz <? r)) with true by (destruct fr; [| done]; cbn [negb orb andb] in *; destruct (Z.leb_spec r sz); [done | symmetry; apply Z.ltb_lt; lia]).
      rewrite (heap_next_rep m b fr sz bs Hrep) by lia. replace (b + (16 + sz + heap_len bs)) with (b + 16 + sz + heap_len bs) by lia.
      rewrite (wrap64_small (steps + 1)) by lia. rewrite IH; [| exact H6 | lia | zlia | lia | lia | lia | lia].
      destruct (find_fit r bs) as [[[p s] q] |].
      * rewrite heap_len_cons. cbn [length]. replace (b + (16 + sz + heap_len p)) with (b + 16 + sz + heap_len p) by lia.
        by replace (steps + Z.of_nat (Datatypes.S (length p))) with (steps + 1 + Z.of_nat (length p)) by lia.
      * cbn [length]. by replace (steps + Z.of_nat (Datatypes.S (length bs))) with (steps + 1 + Z.of_nat (length bs)) by lia.
Qed.

Lemma find_fit_spec r bs p s q : find_fit r bs = Some (p, s, q) -> bs = p ++ (true, s) :: q /\ r <= s.
Proof.
  revert p. induction bs as [|[fr sz] bs IH]; intros p; [done |]. cbn [find_fit].
  destruct (fr && (r <=? sz)) eqn:E.
  - intros [= <- <- <-]. apply andb_true_iff in E as [-> E]. apply Z.leb_le in E. done.
  - destruct (find_fit r bs) as [[[p' s'] q'] |]; [| done]. intros [= <- <- <-].
    destruct (IH p' eq_refl) as [-> Hle]. done.
Qed.

(** First fit: no block before the one taken would do. *)
Lemma find_fit_first r bs :
  match find_fit r bs with
  | Some (p, s, q) => Forall (fun b => b.1 = true -> b.2 < r) p
  | None => Forall (fun b => b.1 = true -> b.2 < r) bs
  end.
Proof.
  induction bs as [|[fr sz] bs IH]; cbn [find_fit]; [constructor |].
  destruct (fr && (r <=? sz)) eqn:E; [constructor |].
  assert (Hh : (fr, sz).1 = true -> (fr, sz).2 < r).
  { cbn. intros ->. cbn [andb] in E. by apply Z.leb_gt in E. }
  destruct (find_fit r bs) as [[[p s] q] |]; by constructor.
Qed.

Lemma coalesce_step m b fr sz fr' sz' bs :
  heap_rep m b ((fr, sz) :: (fr', sz') :: bs) -> 0 <= b -> b mod 16 = 0 ->
  b + 16 + sz + 16 + sz' + heap_len bs < 2 ^ 62 ->
  let n := b + 16 + sz in
  let m' := set_size b (sz + 16 + sz') m in
  heap_next m b = n /\
  hb_size m b +64 (n +64 sizeof_heap_block -64 (b +64 sizeof_heap_block +64 hb_size m b)) +64 hb_size m n = sz + 16 + sz' /\
  (fr = true -> heap_rep m' b ((true, sz + 16 + sz') :: bs)) /\
  (forall a, a < b + 8 \/ b + 16 <= a -> ld8 m' a = ld8 m a).
Proof.
  intros Hrep Hb Hm Ht n m'. assert (Hlen := heap_rep_len _ _ _ Hrep). pose proof Hrep as Hr. cbn [heap_rep] in Hr.
  destruct Hr as (H1 & H2 & H3 & H4 & H5 & H1' & H2' & H3' & H4' & H5' & H6). fold n in H1', H2', H3', H6.
  pose proof (heap_rep_len _ _ _ H6) as [_ Hl].
  assert (Hout : forall a, a < b + 8 \/ b + 16 <= a -> ld8 m' a = ld8 m a).
  { intros a Ha. unfold m', set_size, st64. by rewrite ld8_st_le by (simpl; lia). }
  split; [apply (heap_next_rep m b fr sz ((fr', sz') :: bs)); [done | done | done | lia] |]. split; [| split; [| exact Hout]].
  - rewrite H3, H3'. unfold sizeof_heap_block. unfold n. rewrite (wrap64_small (b + 16)), (wrap64_small (b + 16 + sz)), (wrap64_small (b + 16 + sz + 16)) by lia.
    replace (b + 16 + sz + 16 - (b + 16 + sz)) with 16 by lia. rewrite (wrap64_small 16), (wrap64_small (sz + 16)), wrap64_small; lia.
  - intros ->. cbn [heap_rep]. repeat match goal with |- _ /\ _ => split end; try (unfold m'; hdr; done); try lia.
    + unfold m'; hdr. rewrite Z.mod_small; lia.
    + zlia.
    + replace (b + 16 + (sz + 16 + sz')) with (n + 16 + sz') by (unfold n; lia).
      apply (heap_rep_ext m); [| done]. intros a Ha. apply Hout. unfold n in *; lia.
Qed.

Lemma coalesce_spec fuel b fr sz m bs :
  heap_rep m b ((fr, sz) :: bs) -> 0 <= b -> b mod 16 = 0 -> b + 16 + sz + heap_len bs < 2 ^ 62 -> (length bs <= fuel)%nat ->
  exists m', coalesce_loop fuel (b + 16 + sz + heap_len bs) b m = Some m' /\ heap_rep m' b (coal fr sz bs) /\
    frame_kept b ((fr, sz) :: bs) m m'.
Proof.
  revert fuel b fr sz m. induction bs as [|[fr' sz'] bs IH]; intros fuel b fr sz m H Hb Hm Ht Hf; pose proof H as Hrep;
    cbn [heap_rep] in H; destruct H as (H1 & H2 & H3 & H4 & H5 & H6).
  - exists m. split; [| split; [done | by intros a _]]. simpl in Ht. simpl (heap_len []).
    assert (E : heap_next m b = b + 16 + sz) by (apply (heap_next_rep m b fr sz []); [done | done | done | lia]).
    destruct fuel; cbn [coalesce_loop]; rewrite E; unfold sizeof_heap_block; rewrite (wrap64_small (b + 16)), (wrap64_small (b + 16 + sz + 16)) by lia;
      rewrite (proj2 (Z.leb_le (b + 16) _)) by lia; rewrite H1, Z.eqb_refl; cbn [negb];
      by rewrite (proj2 (Z.ltb_lt (b + 16 + sz + 0) (b + 16 + sz + 16))) by lia.
  - rewrite heap_len_cons in Ht |- *. cbn [length] in Hf. destruct fuel as [|fuel]; [lia |].
    destruct (coalesce_step m b fr sz fr' sz' bs Hrep Hb Hm ltac:(lia)) as (En & Esz & Hmerge & Hout).
    set (n := b + 16 + sz) in *. destruct H6 as (H1' & H2' & H3' & H4' & H5' & H6). pose proof (heap_rep_len _ _ _ H6) as [_ Hl].
    cbn [coalesce_loop]. rewrite En. unfold sizeof_heap_block at 1 2. rewrite (wrap64_small (b + 16)), (wrap64_small (n + 16)) by (unfold n; lia).
    rewrite (proj2 (Z.leb_le (b + 16) _)), H1, Z.eqb_refl by (unfold n; lia). cbn [negb].
    rewrite (proj2 (Z.ltb_ge (n + (16 + sz' + heap_len bs)) (n + 16))), H1', Z.eqb_refl by (unfold n; lia). cbn [negb].
    rewrite H2, H2', !flag_free, !negb_involutive. cbn [coal]. destruct (fr && fr') eqn:Eff.
    + apply andb_true_iff in Eff as [-> ->]. rewrite Esz.
      destruct (IH fuel b true (sz + 16 + sz') _ (Hmerge eq_refl) Hb Hm ltac:(lia) ltac:(lia)) as (m' & E & Hr' & Hk).
      exists m'. replace (n + (16 + sz' + heap_len bs)) with (b + 16 + (sz + 16 + sz') + heap_len bs) by (unfold n; lia).
      split; [exact E | split; [exact Hr' |]]. intros a Ha. rewrite !heap_len_cons in Ha.
      cbn [in_used] in Ha.
      assert (Ha' : a < b \/ b + heap_len ((true, sz + 16 + sz') :: bs) <= a \/ in_used b ((true, sz + 16 + sz') :: bs) a).
      { rewrite heap_len_cons. destruct Ha as [Ha | [Ha | [[? _] | [[? _] | Ha]]]]; [by left | right; left; lia | done | done |].
        right. right. cbn [in_used]. right. by replace (b + 16 + (sz + 16 + sz')) with (b + 16 + sz + 16 + sz') by lia. }
      rewrite (Hk a Ha'). apply Hout.
      destruct Ha as [Ha | [Ha | [[? _] | [[? _] | Ha]]]]; [lia | right; lia | done | done |].
      right. pose proof (in_used_range _ _ _ _ H6 Ha). unfold n in *. lia.
    + assert (Hrest : heap_rep m n ((fr', sz') :: bs)) by done.
      destruct (IH fuel n fr' sz' m Hrest ltac:(unfold n; lia) ltac:(unfold n; zlia) ltac:(lia) ltac:(lia)) as (m' & E & Hr' & Hk).
      exists m'. replace (n + (16 + sz' + heap_len bs)) with (n + 16 + sz' + heap_len bs) by lia.
      split; [exact E | split].
      * assert (Hlow : forall k a, a + Z.of_nat k <= n -> ld_le k m' a = ld_le k m a).
        { intros k a Hka. apply ld_le_ext. intros i Hi. apply Hk. left. lia. }
        cbn [heap_rep]. unfold hb_magic, hb_flags, hb_size, ld64 in *. rewrite !Hlow by (unfold n; simpl; lia). done.
      * intros a Ha. apply Hk. rewrite !heap_len_cons in *. cbn [in_used] in Ha |- *. fold n in Ha.
        destruct Ha as [Ha | [Ha | [[_ Ha] | Ha]]]; [left; unfold n; lia | right; left; unfold n; lia | left; unfold n; lia | by right; right].
Qed.

Lemma free_sizes_cons fr sz bs : free_sizes ((fr, sz) :: bs) = if fr then sz :: free_sizes bs else free_sizes bs.
Proof. unfold free_sizes. rewrite filter_cons. by destruct fr. Qed.

Lemma stats_spec fuel b m bs total largest count :
  heap_rep m b bs -> 0 <= b -> b mod 16 = 0 -> b + heap_len bs < 2 ^ 62 -> (length bs <= fuel)%nat ->
  0 <= total -> total + heap_len bs < 2 ^ 63 -> 0 <= count -> count + Z.of_nat (length bs) < 2 ^ 64 -> 0 <= largest ->
  stats_loop fuel (b + heap_len bs) b m (total, largest, count) =
    Some (total + sumZ (free_sizes bs), Z.max largest (maxZ (free_sizes bs)), count + Z.of_nat (length (free_sizes bs))).
Proof.
  revert fuel b total largest count. induction bs as [|[fr sz] bs IH]; intros fuel b total largest count H Hb Hm Ht Hf T1 T2 C1 C2 L1.
  - simpl in Ht |- *. destruct fuel; cbn [stats_loop]; unfold sizeof_heap_block; rewrite wrap64_small by lia;
      rewrite (proj2 (Z.leb_gt (b + 16) (b + 0))) by lia; cbn [negb]; rewrite !Z.add_0_r, Z.max_l by lia; done.
  - rewrite heap_len_cons in Ht, T2 |- *. cbn [length] in Hf, C2. pose proof H as Hrep. cbn [heap_rep] in H.
    destruct H as (H1 & H2 & H3 & H4 & H5 & H6). pose proof (heap_rep_len _ _ _ H6) as [Hl16 Hl].
    destruct fuel as [|fuel]; [lia |]. cbn [stats_loop]. unfold sizeof_heap_block.
    rewrite (wrap64_small (b + 16)) by lia. rewrite (proj2 (Z.leb_le (b + 16) (b + (16 + sz + heap_len bs)))) by lia.
    rewrite H1, Z.eqb_refl, H2, flag_free, H3. cbn [negb]. rewrite (heap_next_rep m b fr sz bs Hrep) by lia.
    replace (b + (16 + sz + heap_len bs)) with (b + 16 + sz + heap_len bs) by lia.
    rewrite free_sizes_cons. destruct fr; cbn [negb].
    + rewrite (wrap64_small (total + sz)), (wrap64_small (count + 1)) by lia.
      rewrite IH; [| done | lia | zlia | lia | lia | lia | lia | lia | lia | bdestr; lia].
      cbn [length]. change (sumZ (sz :: free_sizes bs)) with (sz + sumZ (free_sizes bs)).
      change (maxZ (sz :: free_sizes bs)) with (Z.max sz (maxZ (free_sizes bs))).
      f_equal. apply pair_equal_spec. split; [apply pair_equal_spec; split; [lia | bdestr; lia] | lia].
    + apply IH; done || lia || zlia.
Qed.

(** ** Used blocks *)

(** The used blocks of a layout: payload address and size. *)
Fixpoint used (b : Z) (bs : list blk) : list (Z * Z) :=
  match bs with
  | [] => []
  | (fr, sz) :: bs' => (if (fr : bool) then [] else [(b + 16, sz)]) ++ used (b + 16 + sz) bs'
  end.

Lemma used_app b p q : used b (p ++ q) = used b p ++ used (b + heap_len p) q.
Proof.
  revert b. induction p as [|[fr sz] p IH]; intros b; cbn [used app]; [by rewrite Z.add_0_r |].
  rewrite IH, heap_len_cons, app_assoc. by replace (b + (16 + sz + heap_len p)) with (b + 16 + sz + heap_len p) by lia.
Qed.

Lemma in_used_iff b bs a : in_used b bs a <-> exists p sz, (p, sz) ∈ used b bs /\ p <= a < p + sz.
Proof.
  revert b. induction bs as [|[fr sz] bs IH]; intros b; cbn [in_used used].
  - split; [done |]. by intros (p & sz & ?%not_elem_of_nil & _).
  - rewrite IH. split.
    + intros [[-> Ha] | (p & s & Hp & Ha)]; [exists (b + 16), sz | exists p, s]; split; try done; [by left | apply elem_of_app; by right].
    + intros (p & s & [Hp | Hp]%elem_of_app & Ha); [left | right; by exists p, s].
      destruct fr; [by apply not_elem_of_nil in Hp |]. apply list_elem_of_singleton in Hp as [= -> ->]. done.
Qed.

Lemma used_split b bs p sz : (p, sz) ∈ used b bs ->
  exists pre post, bs = pre ++ (false, sz) :: post /\ p = b + heap_len pre + 16.
Proof.
  revert b. induction bs as [|[fr s] bs IH]; intros b; cbn [used]; [by intros ?%not_elem_of_nil |].
  intros [H | H]%elem_of_app.
  - destruct fr; [by apply not_elem_of_nil in H |]. apply list_elem_of_singleton in H as [= -> ->].
    exists [], bs. split; [done |]. simpl. lia.
  - destruct (IH _ H) as (pre & post & -> & ->). exists ((fr, s) :: pre), post. split; [done |]. rewrite heap_len_cons. lia.
Qed.

(** Used blocks lie inside the layout and apart. *)
Lemma used_bounds m b bs : heap_rep m b bs ->
  Forall (fun u => b + 16 <= u.1 /\ 0 <= u.2 /\ u.1 + u.2 <= b + heap_len bs) (used b bs) /\
  ForallOrdPairs (fun u v => u.1 + u.2 + 16 <= v.1) (used b bs).
Proof.
  revert b. induction bs as [|[fr sz] bs IH]; intros b; [split; constructor |]. cbn [heap_rep used]. rewrite heap_len_cons.
  intros (_ & _ & _ & H0 & _ & H). pose proof (heap_rep_len _ _ _ H) as [_ Hl]. destruct (IH _ H) as [F P].
  assert (F' : Forall (fun u => b + 16 <= u.1 /\ 0 <= u.2 /\ u.1 + u.2 <= b + (16 + sz + heap_len bs)) (used (b + 16 + sz) bs)).
  { eapply Forall_impl; [exact F |]. cbn. intros u. lia. }
  destruct fr; cbn [app]; [done |]. split; constructor; try done; cbn; [lia |].
  eapply Forall_impl; [exact F |]. cbn. intros u. lia.
Qed.

Lemma coal_len fr sz bs : heap_len (coal fr sz bs) = 16 + sz + heap_len bs.
Proof.
  revert fr sz. induction bs as [|[fr' sz'] bs IH]; intros fr sz; cbn [coal]; [done |].
  destruct (fr && fr'); rewrite ?heap_len_cons, IH; lia.
Qed.

Lemma coal_used b fr sz bs : used b (coal fr sz bs) = used b ((fr, sz) :: bs).
Proof.
  revert b fr sz. induction bs as [|[fr' sz'] bs IH]; intros b fr sz; cbn [coal]; [done |].
  destruct fr, fr'; cbn [andb].
  - rewrite IH. cbn [used app]. by replace (b + 16 + (sz + 16 + sz')) with (b + 16 + sz + 16 + sz') by lia.
  - cbn [used]. by rewrite IH.
  - cbn [used]. by rewrite IH.
  - cbn [used]. by rewrite IH.
Qed.

Lemma coal_head fr sz bs : exists sz' bs', coal fr sz bs = (fr, sz') :: bs'.
Proof.
  revert fr sz. induction bs as [|[fr' sz'] bs IH]; intros fr sz; cbn [coal]; [by eexists _, _ |].
  destruct (fr && fr') eqn:E; [| by eexists _, _]. apply andb_true_iff in E as [-> _]. apply IH.
Qed.

Lemma coal_no_adjacent fr sz bs : no_adjacent (coal fr sz bs).
Proof.
  revert fr sz. induction bs as [|[fr' sz'] bs IH]; intros fr sz; cbn [coal]; [by destruct fr |].
  destruct (fr && fr') eqn:E; [apply IH |]. specialize (IH fr' sz'). destruct (coal_head fr' sz' bs) as (s & l & El).
  rewrite El in *. destruct fr; [destruct fr'; [done | exact IH] | exact IH].
Qed.

Lemma no_adjacent_cons fr sz bs :
  no_adjacent ((fr, sz) :: bs) <-> no_adjacent bs /\ (fr = true -> match bs with (true, _) :: _ => False | _ => True end).
Proof. destruct fr, bs as [|[[] s] bs]; simpl; naive_solver. Qed.

(** Splitting keeps free blocks apart. *)
Lemma taken_no_adjacent pre r s post :
  no_adjacent (pre ++ (true, s) :: post) -> no_adjacent (pre ++ taken r s ++ post).
Proof.
  induction pre as [|[fr sz] pre IH]; cbn [app]; rewrite !no_adjacent_cons.
  - intros [Hp Ha]. specialize (Ha eq_refl). unfold taken. destruct (r + 32 <=? s); cbn [app]; rewrite !no_adjacent_cons; done.
  - intros [Hp Ha]. split; [by apply IH |]. intros ->. specialize (Ha eq_refl). unfold taken. destruct pre as [|[[] sz'] pre]; cbn [app] in *; try done.
Qed.

Lemma taken_len r s : heap_len (taken r s) = 16 + s.
Proof. unfold taken. destruct (r + 32 <=? s); cbn [app]; rewrite !heap_len_cons; simpl; lia. Qed.

Lemma taken_used b r s : exists sz, used b (taken r s) = [(b + 16, sz)] /\ (r <= s -> r <= sz).
Proof.
  unfold taken. destruct (Z.leb_spec (r + 32) s); cbn [used app]; eexists; (split; [done | lia]).
Qed.

(** ** The operations on a whole heap *)

Lemma heap_end heap bytes m bs : heap_ok heap bytes m bs ->
  heap +64 bytes = heap + heap_len bs /\ 0 <= bytes /\ (length bs <= heap_fuel bytes)%nat.
Proof.
  intros []. pose proof (heap_rep_len _ _ _ ho_rep0) as [_ Hl]. rewrite wrap64_small by lia. subst bytes.
  split; [done | split; [lia |]]. by apply (heap_fuel_enough m heap).
Qed.

Lemma heap_init_ok heap bytes m :
  0 < heap -> heap mod 16 = 0 -> 16 <= bytes -> bytes mod 16 = 0 -> heap + bytes < 2 ^ 62 ->
  heap_ok heap bytes (heap_init heap bytes m) [(true, bytes - 16)].
Proof.
  intros H1 H2 H3 H4 H5. split; [| rewrite heap_len_cons; simpl; lia | done | done].
  cbn [heap_rep]. unfold heap_init, sizeof_heap_block. rewrite wrap64_small by lia.
  repeat match goal with |- _ /\ _ => split end; try (hdr; done); try lia; [| zlia].
  hdr. rewrite Z.mod_small; lia.
Qed.

Lemma alloc_spec_ok heap bytes m bs req :
  heap_ok heap bytes m bs -> 0 < req < 2 ^ 64 ->
  let r := align_up req 16 in
  match find_fit r bs with
  | None => heap_alloc_first_fit (heap_fuel bytes) heap bytes req m = Some (nullptr, Z.of_nat (length bs), m)
  | Some (pre, s, post) =>
    exists m', heap_alloc_first_fit (heap_fuel bytes) heap bytes req m =
        Some (heap + heap_len pre + 16, Z.of_nat (length pre) + 1, m') /\
      heap_ok heap bytes m' (pre ++ taken r s ++ post) /\ frame_kept heap bs m m'
  end.
Proof.
  intros H Hreq r. destruct (heap_end _ _ _ _ H) as (Ee & Hb0 & Hf). destruct H as [Hr Hl [Hb1 Hb2] Ht].
  destruct (align16_req req ltac:(lia)) as (R1 & R2 & _). fold r in R1, R2.
  pose proof (heap_rep_len _ _ _ Hr) as [_ Hlen].
  assert (Hh : (heap =? nullptr) = false) by (apply Z.eqb_neq; unfold nullptr; lia).
  unfold heap_alloc_first_fit. rewrite Hh, (proj2 (Z.eqb_neq req 0)) by lia. cbn [orb].
  fold r. rewrite Ee, (first_fit_spec _ heap r 0 m bs Hr) by lia.
  destruct (find_fit r bs) as [[[pre s] post] |] eqn:Ef; [| by rewrite Z.add_0_l].
  apply find_fit_spec in Ef as [-> Hrs]. apply heap_rep_app in Hr as [Hpre Hpost].
  rewrite heap_len_app, heap_len_cons in *. pose proof (heap_rep_len _ _ _ Hpre) as [Hp16 Hp].
  pose proof Hpost as Hpost'. cbn [heap_rep] in Hpost'. destruct Hpost' as (_ & _ & _ & _ & _ & Hq). pose proof (heap_rep_len _ _ _ Hq) as [_ Hql].
  destruct (heap_take_spec m (heap + heap_len pre) s r post Hpost ltac:(lia) R2 ltac:(lia) ltac:(zlia) ltac:(lia)) as [Htk Hout].
  eexists. split; [by rewrite Z.add_0_l | split].
  - split; [| rewrite !heap_len_app, taken_len; lia | done | done]. apply heap_rep_app. split; [| exact Htk].
    apply (heap_rep_ext m); [| done]. intros a Ha. apply Hout. lia.
  - intros a Ha. apply Hout. rewrite heap_len_app, heap_len_cons in Ha. destruct Ha as [Ha | [Ha | Ha]]; [lia | lia |].
    apply in_used_app in Ha as [Ha | Ha]; [pose proof (in_used_range _ _ _ _ Hpre Ha); lia |].
    cbn [in_used] in Ha. destruct Ha as [[? _] | Ha]; [done |]. pose proof (in_used_range _ _ _ _ Hq Ha). lia.
Qed.

Lemma heap_free_ok heap bytes m pre sz post :
  heap_ok heap bytes m (pre ++ (false, sz) :: post) -> 0 < sz ->
  exists m', heap_free (heap_fuel bytes) heap bytes (heap + heap_len pre + 16) m = Some m' /\
    heap_ok heap bytes m' (coalesced (pre ++ (true, sz) :: post)) /\ frame_kept heap (pre ++ (true, sz) :: post) m m'.
Proof.
  intros H Hsz. destruct (heap_end _ _ _ _ H) as (Ee & Hb0 & Hf). destruct H as [Hr Hl [Hb1 Hb2] Ht].
  apply heap_rep_app in Hr as [Hpre Hb]. pose proof (heap_rep_len _ _ _ Hpre) as [Hp16 Hp].
  pose proof Hb as Hb'. cbn [heap_rep] in Hb'. destruct Hb' as (M & F & S & S0 & S1 & Hq). pose proof (heap_rep_len _ _ _ Hq) as [_ Hql].
  rewrite heap_len_app, heap_len_cons in Ee, Hl. set (b := heap + heap_len pre) in *.
  unfold heap_free, sizeof_heap_block, nullptr. rewrite Ee, (proj2 (Z.eqb_neq heap 0)), (proj2 (Z.eqb_neq (b + 16) 0)) by (unfold b; lia).
  cbn [orb]. rewrite (wrap64_small (heap + 16)), (proj2 (Z.ltb_ge (b + 16) (heap + 16))), (proj2 (Z.leb_gt (heap + _) (b + 16))) by (unfold b; lia).
  cbn [orb]. replace (b + 16 -64 16) with b by (rewrite wrap64_small; unfold b; lia). rewrite M, Z.eqb_refl. cbn [negb].
  rewrite F. change (Z.lor (flag_of false) kHeapFree) with 1. set (m1 := set_flags b 1 m).
  assert (Hout : forall a, a < b \/ b + 16 <= a -> ld8 m1 a = ld8 m a).
  { intros a Ha. unfold m1, set_flags. by rewrite ld8_st_le by (simpl; lia). }
  assert (Hr1 : heap_rep m1 heap (pre ++ (true, sz) :: post)).
  { apply heap_rep_app. split; [apply (heap_rep_ext m); [intros a Ha; apply Hout; unfold b; lia | done] |].
    fold b. cbn [heap_rep]. repeat match goal with |- _ /\ _ => split end; try lia; try (unfold m1; hdr; done).
    apply (heap_rep_ext m); [| done]. intros a Ha. apply Hout. unfold b. lia. }
  unfold heap_coalesce. rewrite Ee.
  assert (Hfuel : (length (pre ++ (true, sz) :: post) <= heap_fuel bytes)%nat) by (rewrite length_app in *; exact Hf).
  assert (Hlen : heap_len (pre ++ (true, sz) :: post) = bytes) by (rewrite heap_len_app, heap_len_cons; lia).
  replace (heap + (heap_len pre + (16 + sz + heap_len post))) with (heap + heap_len (pre ++ (true, sz) :: post)) by (rewrite Hlen; lia).
  assert (Hframe : frame_kept heap (pre ++ (true, sz) :: post) m m1).
  { intros a Ha. apply Hout. rewrite Hlen in Ha. destruct Ha as [Ha | [Ha | Ha]]; [unfold b; lia | unfold b; lia |].
    apply in_used_app in Ha as [Ha | Ha]; [pose proof (in_used_range _ _ _ _ Hpre Ha); unfold b; lia |].
    cbn [in_used] in Ha. destruct Ha as [[? _] | Ha]; [done |]. fold b in Ha. pose proof (in_used_range _ _ _ _ Hq Ha). lia. }
  clearbody b. destruct (pre ++ (true, sz) :: post) as [|[fr0 sz0] rest] eqn:E; [by destruct pre |].
  rewrite heap_len_cons in *. cbn [length] in Hfuel. cbn [heap_rep] in Hr1.
  destruct (coalesce_spec (heap_fuel bytes) heap fr0 sz0 m1 rest Hr1 ltac:(lia) Hb2 ltac:(lia) ltac:(lia)) as (m' & Ec & Hrep & Hk).
  exists m'. replace (heap + (16 + sz0 + heap_len rest)) with (heap + 16 + sz0 + heap_len rest) by lia.
  split; [exact Ec | split].
  - split; [exact Hrep | cbn [coalesced]; rewrite coal_len; lia | done | done].
  - intros a Ha. rewrite (Hk a Ha). by apply Hframe.
Qed.

Lemma heap_stats_ok heap bytes m bs : heap_ok heap bytes m bs ->
  heap_stats (heap_fuel bytes) heap bytes m =
    Some (sumZ (free_sizes bs), maxZ (free_sizes bs), Z.of_nat (length (free_sizes bs))).
Proof.
  intros Hok. destruct (heap_end _ _ _ _ Hok) as (Ee & Hb0 & Hf). destruct Hok as [Hr Hl [Hb1 Hb2] Ht].
  pose proof (heap_rep_len _ _ _ Hr) as [_ Hlen]. unfold heap_stats. rewrite Ee.
  rewrite (stats_spec _ heap m bs 0 0 0 Hr) by lia. rewrite Z.max_r; [done |].
  unfold maxZ. clear. induction (free_sizes bs); simpl; lia.
Qed.

(** ** Clients *)

(** What a client of the heap does: the blocks it holds, newest first, with the
    sizes it asked for. *)
Inductive heap_step (heap bytes : Z) : mem * list (Z * Z) -> mem * list (Z * Z) -> Prop :=
| hs_alloc m live req p steps m' :
    0 < req <= 2 ^ 64 - 16 ->
    heap_alloc_first_fit (heap_fuel bytes) heap bytes req m = Some (p, steps, m') ->
    heap_step heap bytes (m, live) (m', if p =? nullptr then live else (p, req) :: live)
| hs_free m l1 p req l2 m' :
    heap_free (heap_fuel bytes) heap bytes p m = Some m' ->
    heap_step heap bytes (m, l1 ++ (p, req) :: l2) (m', l1 ++ l2)
| hs_write m live p req a v :
    (p, req) ∈ live -> p <= a < p + req -> heap_step heap bytes (m, live) (st8 a v m, live).

(** A block of the client and the used block it is. *)
Definition held (l u : Z * Z) : Prop := l.1 = u.1 /\ 0 < l.2 <= u.2.

(** The heap is well formed, no two free blocks touch, and the client's blocks
    are the used ones, each at least as large as asked for. *)
Definition client_inv (heap bytes : Z) (s : mem * list (Z * Z)) : Prop :=
  exists bs us, heap_ok heap bytes s.1 bs /\ no_adjacent bs /\ us ≡ₚ used heap bs /\
    Forall2 held s.2 us.

Lemma heap_rep_write m b bs a v : heap_rep m b bs -> in_used b bs a -> heap_rep (st8 a v m) b bs.
Proof.
  revert b. induction bs as [|[fr sz] bs IH]; intros b; [done |]. cbn [heap_rep in_used].
  intros (H1 & H2 & H3 & H4 & H5 & H6) Ha.
  assert (Hlow : b + 16 <= a) by (destruct Ha as [[_ Ha] | Ha]; [lia |]; pose proof (in_used_range _ _ _ _ H6 Ha); lia).
  assert (E : forall n c, c + Z.of_nat n <= b + 16 -> ld_le n (st8 a v m) c = ld_le n m c).
  { intros n c Hc. apply ld_le_ext. intros i Hi. apply ld8_st8_ne. lia. }
  unfold hb_magic, hb_flags, hb_size, ld64 in *. rewrite !E by (simpl; lia). repeat (split; [done |]).
  destruct Ha as [[-> Ha] | Ha]; [| by apply IH]. apply (heap_rep_ext m); [| done]. intros i Hi. apply ld8_st8_ne. lia.
Qed.

Lemma live_used (us live : list (Z * Z)) p req : Forall2 held live us -> (p, req) ∈ live ->
  exists sz, (p, sz) ∈ us /\ 0 < req <= sz.
Proof.
  induction 1 as [|[p' r'] [q sz] live us [E Hle] _ IH]; [by intros ?%not_elem_of_nil |]. cbn in E, Hle. subst p'.
  intros [[= -> ->] | H]%elem_of_cons; [exists sz; split; [by left | done] |].
  destruct (IH H) as (s & Hs & Hr). exists s. split; [by right | done].
Qed.

Lemma free_client heap bytes m l1 p req l2 m' bs us :
  heap_ok heap bytes m bs -> us ≡ₚ used heap bs -> Forall2 held (l1 ++ (p, req) :: l2) us ->
  heap_free (heap_fuel bytes) heap bytes p m = Some m' ->
  exists bs' us', heap_ok heap bytes m' bs' /\ no_adjacent bs' /\ us' ≡ₚ used heap bs' /\ Forall2 held (l1 ++ l2) us' /\
    forall a, in_used heap bs' a -> ld8 m' a = ld8 m a.
Proof.
  intros Hok Hperm Hlive Hfr.
  apply Forall2_app_inv_l in Hlive as (u1 & u' & F1 & F2 & ->). apply Forall2_cons_inv_l in F2 as ([q sz] & u2 & [E Hle] & F2 & ->).
  cbn in E, Hle. subst q. assert (Hu : (p, sz) ∈ used heap bs) by (rewrite <- Hperm; apply elem_of_app; right; by left).
  destruct (used_split _ _ _ _ Hu) as (pre & post & -> & ->).
  destruct (heap_free_ok heap bytes m pre sz post Hok ltac:(lia)) as (m1 & E1 & Hok' & Hk). rewrite Hfr in E1. injection E1 as ->.
  assert (Eu : used heap (coalesced (pre ++ (true, sz) :: post)) = used heap (pre ++ (true, sz) :: post)).
  { destruct (pre ++ (true, sz) :: post) as [|[]]; [done |]. apply coal_used. }
  exists (coalesced (pre ++ (true, sz) :: post)), (u1 ++ u2). split; [exact Hok' | split; [| split; [| split; [by apply Forall2_app |]]]].
  - destruct (pre ++ (true, sz) :: post) as [|[]]; [done |]. apply coal_no_adjacent.
  - rewrite Eu, used_app. rewrite used_app in Hperm. cbn [used app] in *. by apply Permutation_app_inv in Hperm.
  - intros a Ha. apply Hk. right. right. apply in_used_iff. apply in_used_iff in Ha. by rewrite Eu in Ha.
Qed.

Lemma heap_step_inv heap bytes s s' :
  heap_step heap bytes s s' -> client_inv heap bytes s -> client_inv heap bytes s'.
Proof.
  intros Hst (bs & us & Hok & Hna & Hperm & Hlive). destruct Hst as [m live req p steps m' Hreq Hal | m l1 p req l2 m' Hfr | m live p req a v Hin Ha]; cbn [fst snd] in *.
  - pose proof (alloc_spec_ok heap bytes m bs req Hok ltac:(lia)) as Hs. cbv zeta in Hs.
    destruct (align16_req req ltac:(lia)) as (_ & _ & _ & Hr & _). specialize (Hr ltac:(lia)).
    destruct (find_fit (align_up req 16) bs) as [[[pre s] post] |] eqn:Ef.
    + destruct Hs as (m1 & E & Hok' & _). rewrite Hal in E. injection E as -> -> ->.
      apply find_fit_spec in Ef as [-> Hrs]. exists (pre ++ taken (align_up req 16) s ++ post).
      destruct (taken_used (heap + heap_len pre) (align_up req 16) s) as (sz & Etk & Hsz).
      pose proof (ho_rep _ _ _ _ Hok) as Hrep. apply heap_rep_app in Hrep as [Hpre _]. pose proof (heap_rep_len _ _ _ Hpre) as [_ Hpl].
      pose proof (ho_base _ _ _ _ Hok) as [Hb _]. unfold nullptr. rewrite (proj2 (Z.eqb_neq (heap + heap_len pre + 16) 0)) by lia.
      exists ((heap + heap_len pre + 16, sz) :: us). split; [exact Hok' | split; [by apply taken_no_adjacent | split]].
      * rewrite !used_app, Etk, taken_len, Hperm, used_app. cbn [used app].
        replace (heap + heap_len pre + (16 + s)) with (heap + heap_len pre + 16 + s) by lia. by rewrite Permutation_middle.
      * specialize (Hsz Hrs). constructor; [unfold held; cbn; lia | done].
    + rewrite Hal in Hs. injection Hs as -> -> ->. rewrite Z.eqb_refl. by exists bs, us.
  - destruct (free_client heap bytes m l1 p req l2 m' bs us Hok Hperm Hlive Hfr) as (bs' & us' & G1 & G2 & G3 & G4 & _).
    by exists bs', us'.
  - destruct (live_used us live p req Hlive Hin) as (sz & Hu & Hle). rewrite Hperm in Hu.
    exists bs, us. split; [| done]. destruct Hok. split; try done. cbn [fst]. apply heap_rep_write; [done |]. apply in_used_iff. exists p, sz. split; [done | lia].
Qed.

(** ** Theorems *)

(** C20: [heap_alloc_first_fit] on a well-formed heap: it takes the first free
    block that is large enough and no other, after as many steps as there are
    blocks up to it; the heap stays well formed, with that block split exactly
    when a header and 16 bytes remain, and every byte of a used block and outside
    the heap is kept.  With no such block it returns null and changes nothing.
    The request is rounded up to 16 bytes, except that the last 15 sizes below
    [2^64] wrap to zero and succeed with less than was asked for. *)
Theorem heap_alloc_correct heap bytes m bs req :
  heap_ok heap bytes m bs -> 0 < req < 2 ^ 64 ->
  let r := align_up req 16 in
  (req <= 2 ^ 64 - 16 -> req <= r < req + 16) /\ (2 ^ 64 - 16 < req -> r = 0) /\
  match find_fit r bs with
  | None =>
    heap_alloc_first_fit (heap_fuel bytes) heap bytes req m = Some (nullptr, Z.of_nat (length bs), m) /\
    Forall (fun b => b.1 = true -> b.2 < r) bs
  | Some (pre, s, post) =>
    bs = pre ++ (true, s) :: post /\ r <= s /\ Forall (fun b => b.1 = true -> b.2 < r) pre /\
    exists m', heap_alloc_first_fit (heap_fuel bytes) heap bytes req m =
        Some (heap + heap_len pre + 16, Z.of_nat (length pre) + 1, m') /\
      heap_ok heap bytes m' (pre ++ taken r s ++ post) /\ frame_kept heap bs m m'
  end.
Proof.
  intros H Hreq r. destruct (align16_req req ltac:(lia)) as (_ & _ & _ & R1 & R2). split; [exact R1 | split; [exact R2 |]].
  pose proof (alloc_spec_ok heap bytes m bs req H Hreq) as A. cbv zeta in A. fold r in A.
  pose proof (find_fit_first r bs) as F. destruct (find_fit r bs) as [[[pre s] post] |] eqn:E; [| done].
  apply find_fit_spec in E as [E Hle]. done.
Qed.

(** C21: [heap_free] of a used block gives it back and coalesces: the heap stays
    well formed with the same total length, its used blocks are the others, no
    two free blocks are adjacent any more, and every byte of the other used
    blocks and outside the heap is kept.  [heap_stats] then reports exactly the
    number, total and maximum of the free sizes. *)
Theorem heap_free_correct heap bytes m pre sz post :
  heap_ok heap bytes m (pre ++ (false, sz) :: post) -> 0 < sz ->
  let bs := coalesced (pre ++ (true, sz) :: post) in
  exists m', heap_free (heap_fuel bytes) heap bytes (heap + heap_len pre + 16) m = Some m' /\
    heap_ok heap bytes m' bs /\ no_adjacent bs /\
    used heap bs = used heap pre ++ used (heap + heap_len pre + 16 + sz) post /\
    frame_kept heap (pre ++ (true, sz) :: post) m m' /\
    heap_stats (heap_fuel bytes) heap bytes m' =
      Some (sumZ (free_sizes bs), maxZ (free_sizes bs), Z.of_nat (length (free_sizes bs))).
Proof.
  intros H Hsz bs. destruct (heap_free_ok heap bytes m pre sz post H Hsz) as (m' & E & Hok & Hk). fold bs in Hok.
  exists m'. split; [exact E | split; [exact Hok | split; [| split; [| split; [exact Hk |]]]]].
  - unfold bs. destruct (pre ++ (true, sz) :: post) as [|[]]; [done |]. apply coal_no_adjacent.
  - transitivity (used heap (pre ++ (true, sz) :: post)); [| by rewrite used_app].
    unfold bs. destruct (pre ++ (true, sz) :: post) as [|[]]; [done |]. apply coal_used.
  - by apply heap_stats_ok.
Qed.

(** C19: a client that allocates, frees what it holds and writes inside what it
    holds, in any order, never breaks the heap: at every moment its blocks lie
    inside the region and apart from each other, each as large as asked for, and
    no two free blocks are adjacent; and a step changes a byte of a block the
    client keeps only by writing it. *)
Theorem heap_clients_safe heap bytes m0 m live :
  0 < heap -> heap mod 16 = 0 -> 16 <= bytes -> bytes mod 16 = 0 -> heap + bytes < 2 ^ 62 ->
  rtc (heap_step heap bytes) (heap_init heap bytes m0, []) (m, live) ->
  client_inv heap bytes (m, live) /\
  (forall p req, (p, req) ∈ live -> heap + 16 <= p /\ p + req <= heap + bytes) /\
  (forall i j p r q t, i <> j -> live !! i = Some (p, r) -> live !! j = Some (q, t) -> p + r <= q \/ q + t <= p) /\
  (forall m' live', heap_step heap bytes (m, live) (m', live') -> forall p req a, (p, req) ∈ live -> (p, req) ∈ live' ->
    p <= a < p + req -> ld8 m' a = ld8 m a \/ exists v, m' = st8 a v m).
Proof.
  intros H1 H2 H3 H4 H5 Hrun.
  assert (Hinv : client_inv heap bytes (m, live)).
  { apply (rtc_invariant (heap_step heap bytes) (client_inv heap bytes) (heap_step_inv heap bytes) _ _ Hrun).
    exists [(true, bytes - 16)], []. split; [by apply heap_init_ok | split; [done | split; [done | constructor]]]. }
  split; [done |]. destruct Hinv as (bs & us & Hok & Hna & Hperm & Hlive). cbn [fst snd] in *.
  destruct (used_bounds m heap bs (ho_rep _ _ _ _ Hok)) as [HB HP]. pose proof (ho_len _ _ _ _ Hok) as Hlen.
  split; [| split].
  - intros p req Hin. destruct (live_used us live p req Hlive Hin) as (sz & Hu & Hle). rewrite Hperm in Hu.
    rewrite Forall_forall in HB. specialize (HB _ Hu). cbn in HB. lia.
  - intros i j p r q t Hij Hi Hj.
    destruct (Forall2_lookup_l _ _ _ _ _ Hlive Hi) as ([p' s] & Hui & Ep & Hr). cbn in Ep, Hr. subst p'.
    destruct (Forall2_lookup_l _ _ _ _ _ Hlive Hj) as ([q' s'] & Huj & Eq & Ht). cbn in Eq, Ht. subst q'.
    apply Permutation_inj in Hperm as (_ & f & Hf & Hmap). rewrite Hmap in Hui, Huj.
    assert (Hfij : f i <> f j) by (intros E; by apply Hij, Hf).
    assert (G : forall k k' u u', (k < k')%nat -> used heap bs !! k = Some u -> used heap bs !! k' = Some u' -> u.1 + u.2 + 16 <= u'.1).
    { clear -HP. induction HP as [|x l Hx _ IH]; intros k k' u u' Hk Hu Hu'; [done |].
      destruct k' as [|k']; [lia |]. destruct k as [|k]; [| apply (IH k k' u u'); [lia | exact Hu | exact Hu']].
      injection Hu as <-. rewrite Forall_forall in Hx. apply Hx. exact (list_elem_of_lookup_2 l k' u' Hu'). }
    destruct (Nat.lt_gt_cases (f i) (f j)) as [Hc _]. destruct (Hc Hfij) as [Hlt | Hlt].
    + specialize (G _ _ _ _ Hlt Hui Huj). cbn in G. lia.
    + specialize (G _ _ _ _ Hlt Huj Hui). cbn in G. lia.
  - intros m' live' Hst p req a Hin Hin' Ha. destruct (live_used us live p req Hlive Hin) as (sz & Hu & Hle). rewrite Hperm in Hu.
    assert (Hin_used : in_used heap bs a) by (apply in_used_iff; exists p, sz; split; [done | lia]).
    clear Hlen. inversion Hst as [m1 live1 req1 p1 steps m1' Hreq Hal | m1 l1 p1 req1 l2 m1' Hfr | m1 live1 p1 req1 a1 v Hin1 Ha1]; subst.
    + left. pose proof (alloc_spec_ok heap bytes m bs req1 Hok ltac:(lia)) as Hs. cbv zeta in Hs.
      destruct (find_fit _ bs) as [[[pre s] post] |].
      * destruct Hs as (m2 & E & _ & Hk). rewrite Hal in E. injection E as -> -> ->. apply Hk. by right; right.
      * rewrite Hal in Hs. by injection Hs as -> -> ->.
    + left. destruct (free_client heap bytes m l1 p1 req1 l2 m' bs us Hok Hperm Hlive Hfr) as (bs' & us' & _ & _ & G3 & G4 & G5).
      destruct (live_used us' (l1 ++ l2) p req G4 Hin') as (sz' & Hu' & Hle'). rewrite G3 in Hu'.
      apply G5, in_used_iff. exists p, sz'. split; [done | lia].
    + destruct (Z.eq_dec a1 a) as [-> | Hne]; [right; by exists v | left]. apply ld8_st8_ne. lia.
Qed.

(** ** Witnesses *)

(** A heap of 256 bytes at 4096, and an allocation of 100 bytes from it. *)
Definition demo_heap : mem := heap_init 4096 256 ∅.

Lemma demo_heap_ok : heap_ok 4096 256 demo_heap [(true, 240)].
Proof. apply (heap_init_ok 4096 256 ∅); lia || done. Qed.

Lemma demo_heap_alloc :
  exists m', heap_alloc_first_fit (heap_fuel 256) 4096 256 100 demo_heap = Some (4112, 1, m') /\
    heap_ok 4096 256 m' [(false, 112); (true, 112)].
Proof.
  pose proof (alloc_spec_ok 4096 256 demo_heap _ 100 demo_heap_ok ltac:(lia)) as (m' & E & Hok & _). by exists m'.
Qed.

Lemma heap_alloc_correct_witness :
  exists m', heap_alloc_first_fit (heap_fuel 256) 4096 256 100 demo_heap = Some (4112, 1, m') /\
    heap_ok 4096 256 m' [(false, 112); (true, 112)].
Proof.
  destruct (heap_alloc_correct 4096 256 demo_heap [(true, 240)] 100 demo_heap_ok ltac:(lia)) as (_ & _ & _ & _ & _ & m' & E & Hok & _).
  exists m'. split; [exact E | exact Hok].
Defined.

Lemma heap_free_correct_witness :
  exists m m', heap_free (heap_fuel 256) 4096 256 4112 m = Some m' /\ heap_ok 4096 256 m' [(true, 240)] /\
    heap_stats (heap_fuel 256) 4096 256 m' = Some (240, 240, 1).
Proof.
  destruct demo_heap_alloc as (m & _ & Hok).
  destruct (heap_free_correct 4096 256 m [] 112 [(true, 112)] Hok ltac:(lia)) as (m' & E & Hok' & _ & _ & _ & Est).
  exists m, m'. split; [exact E | split; [exact Hok' | exact Est]].
Defined.

Lemma heap_clients_safe_witness :
  exists m, client_inv 4096 256 (m, [(4112, 100)]).
Proof.
  destruct demo_heap_alloc as (m & E & _). exists m.
  assert (Hrun : rtc (heap_step 4096 256) (demo_heap, []) (m, [(4112, 100)])).
  { apply rtc_once. exact (hs_alloc 4096 256 demo_heap [] 100 4112 1 m ltac:(lia) E). }
  apply (heap_clients_safe 4096 256 ∅ m [(4112, 100)] ltac:(lia) eq_refl ltac:(lia) eq_refl ltac:(lia) Hrun).
Defined.
