(* ===== verification/MemDemo.v ===== *)
(** * [src/src/mem_lab.cc]: the demonstration runs

    [mem_lab_run] drives the block pool and the first-fit heap of [MemLab] and
    prints what it measured.  The theorems give the report it prints, whatever
    RAM held before and wherever the regions are. *)

From Stdlib Require Import String.
From S2P Require Import Prelude Mem Kmem MemPool Uart MemLab.

Definition eol : string := String (Ascii.ascii_of_nat 10) EmptyString.

Definition say (s : string) (o : list Z) : list Z := o ++ puts_bytes (chars s).

Definition put_u64 (label : string) (v : Z) (o : list Z) : list Z := say eol (say label o ++ print_u64_bytes v).

Definition lcg_next (state : Z) : Z := wrap32 (state * 1664525 + 1013904223).

(** ** The pool run *)

(** The statistics gathered: records, allocations, wasted and provided bytes. *)
Record pool_stats := PoolStats {
  ps_recs : list Z;
  ps_allocs : Z;
  ps_wasted : Z;
  ps_provided : Z
}.

Fixpoint pool_allocs (n : nat) (rng : Z) (st : pool_stats) (pool : option mem_pool) (m : mem)
  : pool_stats * option mem_pool * mem :=
  match n with
  | O => (st, pool, m)
  | Datatypes.S n' =>
    let rng := lcg_next rng in
    let req := 1 + rng mod 256 in
    let '(p, pool, m) := mem_pool_alloc pool m in
    if p =? nullptr then (st, pool, m)
    else
      let bs := mem_pool_block_size pool in
      pool_allocs n' rng (PoolStats (ps_recs st ++ [p]) (ps_allocs st +64 1) (ps_wasted st +64 (bs -64 req)) (ps_provided st +64 bs)) pool m
  end.

Fixpoint pool_frees (recs : list Z) (pool : option mem_pool) (m : mem) : option mem_pool * mem :=
  match recs with
  | [] => (pool, m)
  | p :: recs' => let '(_, pool, m) := mem_pool_free pool p m in pool_frees recs' pool m
  end.

Definition demo_pool_internal_fragmentation (k : kmem) (m : mem) (o : list Z) : option (kmem * mem * list Z) :=
  let o := say ("[mem-lab][pool] internal fragmentation demo" ++ eol) o in
  let '(backing, k) := kmem_alloc_aligned (64 * 1024) 64 k in
  if backing =? nullptr then Some (k, m, say ("[mem-lab][pool] backing alloc failed" ++ eol) o)
  else
    '(r, pool, m) ← mem_pool_init (Some (Pool 0 0 0 0 0)) backing (64 * 1024) 256 m;
    if negb (r =? 0) then Some (k, m, say ("[mem-lab][pool] mem_pool_init failed" ++ eol) o)
    else
      let '(st, pool, m) := pool_allocs 128 0x12345678 (PoolStats [] 0 0 0) pool m in
      let o := put_u64 "[mem-lab][pool] allocs=" (ps_allocs st) o in
      let o := put_u64 "[mem-lab][pool] block_size=" (mem_pool_block_size pool) o in
      let o := put_u64 "[mem-lab][pool] provided_bytes=" (ps_provided st) o in
      let o := put_u64 "[mem-lab][pool] requested_bytes=" (ps_provided st -64 ps_wasted st) o in
      let o := put_u64 "[mem-lab][pool] wasted_bytes=" (ps_wasted st) o in
      let o :=
        if negb (ps_provided st =? 0)
        then put_u64 "[mem-lab][pool] internal_frag_pct=" (wrap64 (ps_wasted st * 100) / ps_provided st) o else o in
      let '(pool, m) := pool_frees (ps_recs st) pool m in
      Some (k, m, put_u64 "[mem-lab][pool] free_count=" (mem_pool_available pool) o).

(** ** The heap run *)

Record heap_run := HeapRun {
  hr_ptrs : list Z;
  hr_allocs : Z;
  hr_total : Z;
  hr_max : Z
}.

Definition hr_add (p steps : Z) (st : heap_run) : heap_run :=
  HeapRun (hr_ptrs st ++ [p]) (hr_allocs st +64 1) (hr_total st +64 steps) (if hr_max st <? steps then steps else hr_max st).

Fixpoint heap_allocs (n : nat) (heap bytes chunk : Z) (st : heap_run) (m : mem) : option (heap_run * mem) :=
  match n with
  | O => Some (st, m)
  | Datatypes.S n' =>
    '(p, steps, m) ← heap_alloc_first_fit (heap_fuel bytes) heap bytes chunk m;
    if p =? nullptr then Some (st, m) else heap_allocs n' heap bytes chunk (hr_add p steps st) m
  end.

(** [ptrs[0], ptrs[2], ...]. *)
Fixpoint evens (l : list Z) : list Z :=
  match l with
  | [] => []
  | [a] => [a]
  | a :: _ :: l' => a :: evens l'
  end.

Fixpoint heap_frees (heap bytes : Z) (ps : list Z) (m : mem) : option mem :=
  match ps with
  | [] => Some m
  | p :: ps' => m ← heap_free (heap_fuel bytes) heap bytes p m; heap_frees heap bytes ps' m
  end.

(** The run on the region at [heap]. *)
Definition heap_demo_body (heap bytes : Z) (m : mem) (o : list Z) : option (mem * list Z) :=
  let m := heap_init heap bytes m in
  let o := put_u64 "[mem-lab][malloc] heap_bytes=" bytes o in
  let o := put_u64 "[mem-lab][malloc] header_bytes=" sizeof_heap_block o in
  '(st, m) ← heap_allocs 96 heap bytes 1024 (HeapRun [] 0 0 0) m;
  let o := put_u64 "[mem-lab][malloc] allocs=" (hr_allocs st) o in
  let o := put_u64 "[mem-lab][malloc] alloc_steps_avg=" (if hr_allocs st =? 0 then 0 else hr_total st / hr_allocs st) o in
  let o := put_u64 "[mem-lab][malloc] alloc_steps_max=" (hr_max st) o in
  m ← heap_frees heap bytes (evens (hr_ptrs st)) m;
  '(total_free, largest_free, free_blocks) ← heap_stats (heap_fuel bytes) heap bytes m;
  let o := put_u64 "[mem-lab][malloc] free_blocks=" free_blocks o in
  let o := put_u64 "[mem-lab][malloc] total_free=" total_free o in
  let o := put_u64 "[mem-lab][malloc] largest_free=" largest_free o in
  let o :=
    if negb (total_free =? 0) then
      put_u64 "[mem-lab][malloc] external_frag_pct="
        (if largest_free <? total_free then wrap64 ((total_free -64 largest_free) * 100) / total_free else 0) o
    else o in
  let o :=
    if (8 * 1024 <? total_free) && (largest_free <? 8 * 1024)
    then say ("[mem-lab][malloc] expected: total_free > big && largest_free < big" ++ eol) o
    else say ("[mem-lab][malloc] WARN: fragmentation shape unexpected; demo may be weaker" ++ eol) o in
  '(big, steps, m) ← heap_alloc_first_fit (heap_fuel bytes) heap bytes (8 * 1024) m;
  let o :=
    if big =? nullptr then say ("[mem-lab][malloc] big alloc FAILED (fragmentation)" ++ eol) o
    else say ("[mem-lab][malloc] big alloc unexpectedly succeeded" ++ eol) o in
  Some (m, put_u64 "[mem-lab][malloc] big_alloc_steps=" steps o).

Definition demo_malloc_external_fragmentation (k : kmem) (m : mem) (o : list Z) : option (kmem * mem * list Z) :=
  let o := say ("[mem-lab][malloc] external fragmentation demo" ++ eol) o in
  let '(heap, k) := kmem_alloc_aligned (64 * 1024) 16 k in
  if heap =? nullptr then Some (k, m, say ("[mem-lab][malloc] heap alloc failed" ++ eol) o)
  else '(m, o) ← heap_demo_body heap (64 * 1024) m o; Some (k, m, o).

Definition print_embedded_malloc_takeaways (o : list Z) : list Z :=
  let o := say ("[mem-lab] why embedded often avoids malloc/free:" ++ eol) o in
  let o := say ("  - unpredictable latency (first-fit search/coalesce steps vary)" ++ eol) o in
  let o := say ("  - external fragmentation (alloc can fail with memory still free)" ++ eol) o in
  let o := say ("  - metadata + alignment overhead (headers consume RAM)" ++ eol) o in
  say ("  - harder to reason about worst-case behavior under load" ++ eol) o.

Definition mem_lab_run (mode : Z) (k : kmem) (m : mem) (o : list Z) : option (kmem * mem * list Z) :=
  if mode =? 0 then Some (k, m, o)
  else
    let o := say ("[mem-lab] begin" ++ eol) o in
    '(k, m, o) ← demo_pool_internal_fragmentation k m o;
    '(k, m, o) ← demo_malloc_external_fragmentation k m o;
    let o := print_embedded_malloc_takeaways o in
    Some (k, m, say ("[mem-lab] end" ++ eol) o).

(** ** The runs on abstract heaps *)

Fixpoint abs_allocs (n : nat) (r : Z) (st : heap_run) (bs : list blk) : heap_run * list blk :=
  match n with
  | O => (st, bs)
  | Datatypes.S n' =>
    match find_fit r bs with
    | None => (st, bs)
    | Some (pre, s, post) =>
      abs_allocs n' r (hr_add (heap_len pre + 16) (Z.of_nat (length pre) + 1) st) (pre ++ taken r s ++ post)
    end
  end.

(** The used block whose payload is at offset [off]. *)
Fixpoint find_used (off : Z) (bs : list blk) : option (list blk * Z * list blk) :=
  match bs with
  | [] => None
  | (fr, sz) :: bs' =>
    if negb fr && (off =? 16) then Some ([], sz, bs')
    else match find_used (off - 16 - sz) bs' with Some (p, s, q) => Some ((fr, sz) :: p, s, q) | None => None end
  end.

Fixpoint abs_frees (offs : list Z) (bs : list blk) : option (list blk) :=
  match offs with
  | [] => Some bs
  | off :: offs' =>
    '(pre, sz, post) ← find_used off bs;
    if 0 <? sz then abs_frees offs' (coalesced (pre ++ (true, sz) :: post)) else None
  end.

Lemma find_used_spec off bs pre sz post :
  find_used off bs = Some (pre, sz, post) -> bs = pre ++ (false, sz) :: post /\ off = heap_len pre + 16.
Proof.
  revert off pre. induction bs as [|[fr s] bs IH]; intros off pre; [done |]. cbn [find_used].
  destruct (negb fr && (off =? 16)) eqn:E.
  - intros [= <- <- <-]. apply andb_true_iff in E as [E1 E2]. apply Z.eqb_eq in E2 as ->. by destruct fr.
  - destruct (find_used (off - 16 - s) bs) as [[[p s'] q] |] eqn:F; [| done]. intros [= <- <- <-].
    destruct (IH _ _ F) as [-> Eo]. split; [done |]. rewrite heap_len_cons. lia.
Qed.

(** A run at address [heap] is the run at offset 0, moved. *)
Definition moved (heap : Z) (st : heap_run) : heap_run :=
  HeapRun (map (Z.add heap) (hr_ptrs st)) (hr_allocs st) (hr_total st) (hr_max st).

Lemma heap_allocs_abs n heap bytes req st m bs :
  heap_ok heap bytes m bs -> 0 < req < 2 ^ 64 ->
  let '(st', bs') := abs_allocs n (align_up req 16) st bs in
  exists m', heap_allocs n heap bytes req (moved heap st) m = Some (moved heap st', m') /\ heap_ok heap bytes m' bs'.
Proof.
  intros Hok Hreq. revert st m bs Hok. induction n as [|n IH]; intros st m bs Hok; cbn [abs_allocs heap_allocs]; [by exists m |].
  pose proof (alloc_spec_ok heap bytes m bs req Hok Hreq) as A. cbv zeta in A.
  destruct (find_fit (align_up req 16) bs) as [[[pre s] post] |] eqn:Ef.
  - destruct A as (m1 & -> & Hok1 & _). cbn [mbind option_bind].
    destruct (ho_base _ _ _ _ Hok) as [Hb _]. apply find_fit_spec in Ef as [Ebs _].
    assert (Hp : 0 <= heap_len pre).
    { pose proof (ho_rep _ _ _ _ Hok) as Hr. rewrite Ebs in Hr. apply heap_rep_app in Hr as [Hr _]. apply heap_rep_len in Hr. lia. }
    assert (Hnn : (heap + heap_len pre + 16 =? nullptr) = false) by (apply Z.eqb_neq; unfold nullptr; lia). rewrite Hnn.
    specialize (IH (hr_add (heap_len pre + 16) (Z.of_nat (length pre) + 1) st) m1 _ Hok1).
    replace (hr_add (heap + heap_len pre + 16) (Z.of_nat (length pre) + 1) (moved heap st))
      with (moved heap (hr_add (heap_len pre + 16) (Z.of_nat (length pre) + 1) st)); [exact IH |].
    unfold moved, hr_add. cbn [hr_ptrs hr_allocs hr_total hr_max]. rewrite map_app. cbn [map].
    by replace (heap + (heap_len pre + 16)) with (heap + heap_len pre + 16) by lia.
  - rewrite A. cbn [mbind option_bind]. rewrite Z.eqb_refl. by exists m.
Qed.

Lemma heap_frees_abs heap bytes offs m bs bs' :
  heap_ok heap bytes m bs -> abs_frees offs bs = Some bs' ->
  exists m', heap_frees heap bytes (map (Z.add heap) offs) m = Some m' /\ heap_ok heap bytes m' bs'.
Proof.
  revert m bs. induction offs as [|off offs IH]; intros m bs Hok; cbn [abs_frees heap_frees map].
  - intros [= <-]. by exists m.
  - destruct (find_used off bs) as [[[pre sz] post] |] eqn:E; [| done]. cbn [mbind option_bind].
    apply find_used_spec in E as [-> ->]. destruct (Z.ltb_spec 0 sz) as [Hsz | Hsz]; [| done]. intros Hf.
    destruct (heap_free_ok heap bytes m pre sz post Hok Hsz) as (m1 & E1 & Hok1 & _).
    replace (heap + (heap_len pre + 16)) with (heap + heap_len pre + 16) by lia. rewrite E1. cbn [mbind option_bind].
    by apply (IH m1 (coalesced (pre ++ (true, sz) :: post))).
Qed.

(** The pool run's figures, which no address enters. *)
Fixpoint abs_pool (n : nat) (rng : Z) (f : Z * Z * Z) : Z * Z * Z :=
  match n with
  | O => f
  | Datatypes.S n' =>
    let rng := lcg_next rng in
    let '(a, w, p) := f in
    abs_pool n' rng (a +64 1, w +64 (256 -64 (1 + rng mod 256)), p +64 256)
  end.

Definition figures (st : pool_stats) : Z * Z * Z := (ps_allocs st, ps_wasted st, ps_provided st).

Lemma pool_allocs_spec l1 l2 rng st p m :
  pool_rep p m (l1 ++ l2) -> block_size p = 256 ->
  exists st' p' m', pool_allocs (length l1) rng st (Some p) m = (st', Some p', m') /\ pool_rep p' m' l2 /\
    ps_recs st' = ps_recs st ++ l1 /\ figures st' = abs_pool (length l1) rng (figures st) /\
    base p' = base p /\ block_size p' = block_size p /\ block_count p' = block_count p.
Proof.
  revert rng st p m. induction l1 as [|a l1 IH]; intros rng st p m Hr Hb; cbn [length pool_allocs abs_pool].
  - exists st, p, m. by rewrite app_nil_r.
  - destruct (pool_alloc_cons p m a (l1 ++ l2) Hr) as (p1 & -> & Hr1 & Ha & _ & E1 & E2 & E3).
    rewrite (proj2 (Z.eqb_neq _ _) Ha). cbn [mem_pool_block_size]. rewrite E2, Hb.
    match goal with |- context [pool_allocs _ _ ?s _ _] => destruct (IH (lcg_next rng) s p1 _ Hr1 ltac:(congruence))
      as (st' & p' & m' & -> & Hr' & Er & Ef & G1 & G2 & G3) end.
    exists st', p', m'. split; [done | split; [done | split; [| split; [| split; [| split]]]]]; try congruence.
    + rewrite Er. cbn [ps_recs]. by rewrite <- app_assoc.
    + rewrite Ef. unfold figures. cbn [ps_allocs ps_wasted ps_provided]. done.
Qed.

Lemma pool_frees_spec recs l p m :
  pool_rep p m l -> Forall (is_block p) recs -> NoDup (recs ++ l) ->
  exists p' m', pool_frees recs (Some p) m = (Some p', m') /\ pool_rep p' m' (rev recs ++ l).
Proof.
  revert l p m. induction recs as [|a recs IH]; intros l p m Hr Hb Hnd; cbn [pool_frees]; [by exists p, m |].
  apply Forall_cons in Hb as [Ha Hb]. cbn [app] in Hnd. apply NoDup_cons in Hnd as [Hna Hnd].
  assert (Hal : a ∉ l) by (intros H; apply Hna, elem_of_app; by right).
  destruct (pool_free_cons p m a l Hr Ha Hal) as (p1 & -> & Hr1 & E1 & E2 & E3).
  destruct (IH (a :: l) p1 _ Hr1) as (p' & m' & E & Hr').
  - eapply Forall_impl; [exact Hb |]. intros x. unfold is_block, block_at. by rewrite E1, E2, E3.
  - rewrite <- Permutation_middle. by constructor.
  - exists p', m'. split; [exact E |]. cbn [rev]. by rewrite <- app_assoc.
Qed.

(** What the kernel's allocator hands the runs. *)
Lemma demo_region k align :
  kmem_wf k -> 0 <= align <= 2 ^ 62 ->
  let '(p, k') := kmem_alloc_aligned (64 * 1024) align k in
  p <> nullptr -> 0 < p /\ p mod 16 = 0 /\ p + 64 * 1024 < 2 ^ 62 /\ kmem_wf k'.
Proof.
  intros Hk Ha. assert (Hreq : req_ok (64 * 1024, align)) by (unfold req_ok; cbn [fst snd]; lia).
  pose proof (kmem_alloc_cases (64 * 1024) align k Hk Hreq) as H.
  destruct (kmem_alloc_aligned (64 * 1024) align k) as [p k']. intros Hp. destruct Hk as [K1 K2].
  destruct H as [(? & _) | (H1 & _ & H2 & H3 & ->)]; [done |]. unfold kmem_wf. cbn [cur kend].
  repeat split; lia || done.
Qed.

Lemma evens_map heap l : evens (map (Z.add heap) l) = map (Z.add heap) (evens l).
Proof.
  enough (H : forall n l, (length l <= n)%nat -> evens (map (Z.add heap) l) = map (Z.add heap) (evens l)) by by apply (H (length l)).
  clear l. induction n as [|n IH]; intros l Hl; [by destruct l; [| simpl in Hl; lia] |].
  destruct l as [|a [|b l]]; [done | done |]. cbn [map evens]. f_equal. apply IH. simpl in Hl. lia.
Qed.

(** ** Theorems *)

(** What the two runs print. *)
Definition pool_report (o : list Z) : list Z :=
  let o := say ("[mem-lab][pool] internal fragmentation demo" ++ eol) o in
  let o := put_u64 "[mem-lab][pool] allocs=" 128 o in
  let o := put_u64 "[mem-lab][pool] block_size=" 256 o in
  let o := put_u64 "[mem-lab][pool] provided_bytes=" 32768 o in
  let o := put_u64 "[mem-lab][pool] requested_bytes=" 16192 o in
  let o := put_u64 "[mem-lab][pool] wasted_bytes=" 16576 o in
  let o := put_u64 "[mem-lab][pool] internal_frag_pct=" 50 o in
  put_u64 "[mem-lab][pool] free_count=" 256 o.

Definition heap_report (o : list Z) : list Z :=
  let o := say ("[mem-lab][malloc] external fragmentation demo" ++ eol) o in
  let o := put_u64 "[mem-lab][malloc] heap_bytes=" 65536 o in
  let o := put_u64 "[mem-lab][malloc] header_bytes=" 16 o in
  let o := put_u64 "[mem-lab][malloc] allocs=" 63 o in
  let o := put_u64 "[mem-lab][malloc] alloc_steps_avg=" 32 o in
  let o := put_u64 "[mem-lab][malloc] alloc_steps_max=" 63 o in
  let o := put_u64 "[mem-lab][malloc] free_blocks=" 32 o in
  let o := put_u64 "[mem-lab][malloc] total_free=" 32784 o in
  let o := put_u64 "[mem-lab][malloc] largest_free=" 1040 o in
  let o := put_u64 "[mem-lab][malloc] external_frag_pct=" 96 o in
  let o := say ("[mem-lab][malloc] expected: total_free > big && largest_free < big" ++ eol) o in
  let o := say ("[mem-lab][malloc] big alloc FAILED (fragmentation)" ++ eol) o in
  put_u64 "[mem-lab][malloc] big_alloc_steps=" 63 o.

Lemma pool_demo_spec k m o :
  kmem_wf k -> (kmem_alloc_aligned (64 * 1024) 64 k).1 <> nullptr ->
  exists m', demo_pool_internal_fragmentation k m o = Some ((kmem_alloc_aligned (64 * 1024) 64 k).2, m', pool_report o).
Proof.
  intros Hk Hp. pose proof (demo_region k 64 Hk ltac:(lia)) as H. unfold demo_pool_internal_fragmentation.
  destruct (kmem_alloc_aligned (64 * 1024) 64 k) as [b k'] eqn:Ek. cbn [fst snd] in *. destruct (H Hp) as (B1 & B2 & B3 & _).
  rewrite (proj2 (Z.eqb_neq _ _) Hp).
  destruct (mem_pool_init_spec (Pool 0 0 0 0 0) b (64 * 1024) 256 m) as (r & p & m1 & -> & Hr); [lia | lia | lia | lia | lia |].
  destruct Hr as [(-> & _ & Hrep & Hb & Hs & Hc & _) | (_ & _ & _ & [Hx | Hx])]; [| lia | lia].
  cbn [mbind option_bind Z.eqb negb]. destruct (rep_geom _ _ _ Hrep) as [[G1 G2] [G3 G4] G5 G6].
  assert (Es : block_size p = 256) by zlia. assert (Eb : base p = b) by zlia. assert (Ec : block_count p = 256) by lia.
  rewrite Ec in Hrep. set (l := blocks_desc (base p) (block_size p) (Z.to_nat 256)) in *.
  assert (Hl : length l = 256%nat).
  { pose proof (rep_count _ _ _ Hrep). unfold l. rewrite blocks_desc_length. done. }
  rewrite <- (take_drop 128 l) in Hrep.
  assert (H128 : length (take 128 l) = 128%nat) by (rewrite length_take; lia).
  destruct (pool_allocs_spec (take 128 l) (drop 128 l) 0x12345678 (PoolStats [] 0 0 0) p m1 Hrep Es) as (st & p2 & m2 & E & Hrep2 & Erec & Efig & F1 & F2 & F3).
  rewrite H128 in E, Efig. rewrite E. cbn [ps_recs app] in Erec.
  assert (Efig' : abs_pool 128 0x12345678 (figures (PoolStats [] 0 0 0)) = (128, 16576, 32768)) by (vm_compute; reflexivity).
  rewrite Efig' in Efig. unfold figures in Efig. injection Efig as -> -> ->. cbn [mem_pool_block_size]. rewrite F2, Es, Erec.
  destruct (pool_frees_spec (take 128 l) (drop 128 l) p2 m2 Hrep2) as (p3 & m3 & -> & Hrep3).
  { pose proof (rep_blocks _ _ _ Hrep) as Hbl. apply Forall_app in Hbl as [Hbl _]. eapply Forall_impl; [exact Hbl |].
    intros x. unfold is_block, block_at. by rewrite F1, F2, F3. }
  { exact (rep_nodup _ _ _ Hrep). }
  eexists. cbn [mem_pool_available]. rewrite (rep_count _ _ _ Hrep3), length_app, length_rev, H128, length_drop, Hl. reflexivity.
Qed.

(** The heap run on the abstract heap, evaluated. *)
Definition demo_filled : heap_run * list blk :=
  Eval vm_compute in abs_allocs 96 (align_up 1024 16) (HeapRun [] 0 0 0) [(true, 64 * 1024 - 16)].

Definition demo_holes : list blk :=
  Eval vm_compute in default [] (abs_frees (evens (hr_ptrs demo_filled.1)) demo_filled.2).

Lemma demo_filled_eq : abs_allocs 96 (align_up 1024 16) (HeapRun [] 0 0 0) [(true, 64 * 1024 - 16)] = (demo_filled.1, demo_filled.2).
Proof. vm_compute. reflexivity. Qed.

Lemma demo_holes_eq : abs_frees (evens (hr_ptrs demo_filled.1)) demo_filled.2 = Some demo_holes.
Proof. vm_compute. reflexivity. Qed.

Lemma demo_holes_figures :
  sumZ (free_sizes demo_holes) = 32784 /\ maxZ (free_sizes demo_holes) = 1040 /\ Z.of_nat (length (free_sizes demo_holes)) = 32 /\
  length demo_holes = 63%nat /\ find_fit (align_up (8 * 1024) 16) demo_holes = None.
Proof. vm_compute. repeat split. Qed.

(** The part of the report that depends on the run's figures. *)
Definition heap_text (bytes allocs total mx free_blocks total_free largest_free steps : Z) (o : list Z) : list Z :=
  let o := put_u64 "[mem-lab][malloc] heap_bytes=" bytes o in
  let o := put_u64 "[mem-lab][malloc] header_bytes=" sizeof_heap_block o in
  let o := put_u64 "[mem-lab][malloc] allocs=" allocs o in
  let o := put_u64 "[mem-lab][malloc] alloc_steps_avg=" (if allocs =? 0 then 0 else total / allocs) o in
  let o := put_u64 "[mem-lab][malloc] alloc_steps_max=" mx o in
  let o := put_u64 "[mem-lab][malloc] free_blocks=" free_blocks o in
  let o := put_u64 "[mem-lab][malloc] total_free=" total_free o in
  let o := put_u64 "[mem-lab][malloc] largest_free=" largest_free o in
  let o := put_u64 "[mem-lab][malloc] external_frag_pct="
    (if largest_free <? total_free then wrap64 ((total_free -64 largest_free) * 100) / total_free else 0) o in
  let o := say ("[mem-lab][malloc] expected: total_free > big && largest_free < big" ++ eol) o in
  let o := say ("[mem-lab][malloc] big alloc FAILED (fragmentation)" ++ eol) o in
  put_u64 "[mem-lab][malloc] big_alloc_steps=" steps o.

Lemma heap_demo_body_spec heap bytes m o bs0 st bs bs' :
  heap_ok heap bytes (heap_init heap bytes m) bs0 ->
  abs_allocs 96 (align_up 1024 16) (HeapRun [] 0 0 0) bs0 = (st, bs) ->
  abs_frees (evens (hr_ptrs st)) bs = Some bs' -> find_fit (align_up (8 * 1024) 16) bs' = None ->
  8 * 1024 < sumZ (free_sizes bs') -> maxZ (free_sizes bs') < 8 * 1024 ->
  exists m', heap_demo_body heap bytes m o =
    Some (m', heap_text bytes (hr_allocs st) (hr_total st) (hr_max st) (Z.of_nat (length (free_sizes bs')))
      (sumZ (free_sizes bs')) (maxZ (free_sizes bs')) (Z.of_nat (length bs')) o).
Proof.
  intros Hok Ea Hf Hn Hs Hm. unfold heap_demo_body. cbv zeta.
  pose proof (heap_allocs_abs 96 heap bytes 1024 (HeapRun [] 0 0 0) _ _ Hok ltac:(lia)) as Ha. rewrite Ea in Ha.
  destruct Ha as (m1 & Ha & Hok1). change (moved heap (HeapRun [] 0 0 0)) with (HeapRun [] 0 0 0) in Ha. rewrite Ha.
  cbn [mbind option_bind]. change (hr_ptrs (moved heap st)) with (map (Z.add heap) (hr_ptrs st)). rewrite evens_map.
  destruct (heap_frees_abs heap bytes _ m1 bs bs' Hok1 Hf) as (m2 & -> & Hok2). cbn [mbind option_bind].
  rewrite (heap_stats_ok _ _ _ _ Hok2). cbn [mbind option_bind].
  pose proof (alloc_spec_ok heap bytes m2 bs' (8 * 1024) Hok2 ltac:(lia)) as A. cbv zeta in A. rewrite Hn in A. rewrite A.
  cbn [mbind option_bind]. exists m2. rewrite (proj2 (Z.eqb_neq (sumZ (free_sizes bs')) 0)) by lia.
  rewrite (proj2 (Z.ltb_lt _ _) Hs), (proj2 (Z.ltb_lt _ _) Hm), Z.eqb_refl. cbn [negb andb]. reflexivity.
Qed.

Lemma heap_demo_spec k m o :
  kmem_wf k -> (kmem_alloc_aligned (64 * 1024) 16 k).1 <> nullptr ->
  exists m', demo_malloc_external_fragmentation k m o = Some ((kmem_alloc_aligned (64 * 1024) 16 k).2, m', heap_report o).
Proof.
  intros Hk Hp. pose proof (demo_region k 16 Hk ltac:(lia)) as H. unfold demo_malloc_external_fragmentation.
  destruct (kmem_alloc_aligned (64 * 1024) 16 k) as [b k'] eqn:Ek. cbn [fst snd] in *. destruct (H Hp) as (B1 & B2 & B3 & _).
  rewrite (proj2 (Z.eqb_neq _ _) Hp). pose proof (heap_init_ok b (64 * 1024) m B1 B2 ltac:(lia) eq_refl B3) as Hok.
  pose proof demo_holes_figures as (E1 & E2 & E3 & Elen & Enone).
  destruct (heap_demo_body_spec b (64 * 1024) m (say ("[mem-lab][malloc] external fragmentation demo" ++ eol) o) _ _ _ demo_holes Hok demo_filled_eq demo_holes_eq Enone)
    as (m' & E); [rewrite E1; lia | rewrite E2; lia |].
  exists m'. rewrite E, E1, E2, E3, Elen. reflexivity.
Qed.

(** the memory lab, given two 64 KiB regions, prints this report whatever
    RAM held before: the pool serves all 128 requests and wastes half of what it
    hands out, and takes every block back; the heap serves 63 blocks of 1 KiB
    with a scan that grows by one step per block, and after every other one is
    freed an allocation of 8 KiB fails although 32 KiB are free, the free space
    lying in 32 pieces of at most 1040 bytes. *)
Theorem mem_lab_report mode k m o :
  let '(p1, k1) := kmem_alloc_aligned (64 * 1024) 64 k in
  let '(p2, k2) := kmem_alloc_aligned (64 * 1024) 16 k1 in
  kmem_wf k -> mode <> 0 -> p1 <> nullptr -> p2 <> nullptr ->
  exists m', mem_lab_run mode k m o =
    Some (k2, m', say ("[mem-lab] end" ++ eol) (print_embedded_malloc_takeaways
      (heap_report (pool_report (say ("[mem-lab] begin" ++ eol) o))))).
Proof.
  pose proof (pool_demo_spec k m (say ("[mem-lab] begin" ++ eol) o)) as P. pose proof (demo_region k 64) as R.
  destruct (kmem_alloc_aligned (64 * 1024) 64 k) as [p1 k1]. cbn [fst snd] in P.
  pose proof (heap_demo_spec k1) as Q. destruct (kmem_alloc_aligned (64 * 1024) 16 k1) as [p2 k2]. cbn [fst snd] in Q.
  intros Hk Hm H1 H2. destruct (P Hk H1) as (m1 & E1). destruct (R Hk ltac:(lia) H1) as (_ & _ & _ & Hk1).
  destruct (Q m1 (pool_report (say ("[mem-lab] begin" ++ eol) o)) Hk1 H2) as (m2 & E2).
  exists m2. unfold mem_lab_run. rewrite (proj2 (Z.eqb_neq _ _) Hm), E1. cbn [mbind option_bind]. by rewrite E2.
Qed.

Lemma mem_lab_report_witness :
  exists m', mem_lab_run 1 (Kmem 0x40200000 0x40300000) ∅ [] =
    Some (Kmem 0x40220000 0x40300000, m', say ("[mem-lab] end" ++ eol) (print_embedded_malloc_takeaways
      (heap_report (pool_report (say ("[mem-lab] begin" ++ eol) []))))).
Proof.
  pose proof (mem_lab_report 1 (Kmem 0x40200000 0x40300000) ∅ []) as H.
  assert (E1 : kmem_alloc_aligned (64 * 1024) 64 (Kmem 0x40200000 0x40300000) = (0x40200000, Kmem 0x40210000 0x40300000)) by (vm_compute; reflexivity).
  assert (E2 : kmem_alloc_aligned (64 * 1024) 16 (Kmem 0x40210000 0x40300000) = (0x40210000, Kmem 0x40220000 0x40300000)) by (vm_compute; reflexivity).
  rewrite E1 in H. cbv beta iota in H. rewrite E2 in H. cbv beta iota in H. apply H; [unfold kmem_wf; cbn [cur kend]; lia | lia | unfold nullptr; lia | unfold nullptr; lia].
Defined.
