(* ===== verification/Region.v ===== *)
(** * Buffers over the cached machine

    What the code that shares buffers with a device reasons with: a buffer as
    the program sees it ([seen]), as the device sees it ([held]), and what an
    operation on one buffer leaves alone ([keeps]).  The operations are those of
    [Cache]; the address map is that of the kernel's tables ([Dma.DmaMap]). *)

From S2P Require Import Prelude Mem Cache Dma.

Section Region.

Context (H : hwcfg) (nc : bool) (ws we : Z) `{HM : !DmaMap (xlate H) nc ws we}.
Context (Hon : dcache_enabled H = true).

Abbreviation LS := (dcache_line_size H).

(** ** What an operation leaves alone *)

(** The lines outside [K] keep what can be relied on; memory under a line
    without a stale copy either stays or becomes what the program sees. *)
Record keeps (K : Z -> Prop) (s s' : msys) : Prop := {
  kp_good : forall k, ~ K k -> line_good H s k -> line_good H s' k;
  kp_clean : forall k, ~ K k -> line_clean s k -> line_clean s' k;
  kp_view : forall a, ~ K (line_of H a) -> line_good H s (line_of H a) -> view H s' a = view H s a;
  kp_mem : forall a, ~ K (line_of H a) -> line_clean s (line_of H a) -> ld8 (pmem s') a = ld8 (pmem s) a;
  kp_choice : forall k, ~ K k -> line_good H s k ->
    (forall a, line_of H a = k -> ld8 (pmem s') a = ld8 (pmem s) a) \/
    (forall a, line_of H a = k -> ld8 (pmem s') a = view H s a)
}.

Definition none (k : Z) : Prop := False.

Lemma not_none k : ~ none k.
Proof. by intros []. Qed.

#[local] Hint Resolve not_none : core.

Lemma keeps_refl K s : keeps K s s.
Proof. split; auto. Qed.

Lemma keeps_weaken (K K' : Z -> Prop) s s' : (forall k, K k -> K' k) -> keeps K s s' -> keeps K' s s'.
Proof. intros HK []. split; auto. Qed.

Lemma keeps_none K s s' : keeps none s s' -> keeps K s s'.
Proof. apply keeps_weaken. by intros k []. Qed.

Lemma keeps_trans K s1 s2 s3 : keeps K s1 s2 -> keeps K s2 s3 -> keeps K s1 s3.
Proof.
  intros A B. split.
  - intros k Hk Hg. by apply (kp_good _ _ _ B), (kp_good _ _ _ A).
  - intros k Hk Hg. by apply (kp_clean _ _ _ B), (kp_clean _ _ _ A).
  - intros a Hk Hg. rewrite (kp_view _ _ _ B); [by apply (kp_view _ _ _ A) | done | by apply (kp_good _ _ _ A)].
  - intros a Hk Hg. rewrite (kp_mem _ _ _ B); [by apply (kp_mem _ _ _ A) | done | by apply (kp_clean _ _ _ A)].
  - intros k Hk Hg. pose proof (kp_good _ _ _ A k Hk Hg) as Hg2.
    destruct (kp_choice _ _ _ B k Hk Hg2) as [B1 | B1].
    + destruct (kp_choice _ _ _ A k Hk Hg) as [A1 | A1]; [left | right]; intros a Ha; by rewrite B1, A1.
    + right. intros a Ha. rewrite B1 by done. apply (kp_view _ _ _ A); by rewrite Ha.
Qed.

(** Same memory: the rest follows from the lines alone. *)
Lemma keeps_of_quiet s s' : quiet H s s' -> pmem s' = pmem s -> keeps none s s'.
Proof.
  intros [Q1 Q2 Q3 Q4 Q5] E. split; [auto | auto | auto | auto |]. intros k _ _. left. intros a _. by rewrite E.
Qed.

Lemma writeback_choice n k s : msys_bytes s ->
  (forall a, line_of H a = k -> ld8 (pmem (writeback H n s)) a = ld8 (pmem s) a) \/
  (forall a, line_of H a = k -> ld8 (pmem (writeback H n s)) a = view H s a).
Proof.
  intros [_ Hb]. unfold writeback. destruct (cache s !! n) as [[[] b] |] eqn:E; [| by left | by left].
  destruct (Z.eq_dec k n) as [-> |].
  - right. intros a Ha. cbn [put_line set_pmem pmem]. rewrite ld8_copy_line, Ha, Z.eqb_refl.
    unfold view, line_bytes. rewrite Ha, E. apply Z.mod_small, (Hb n _ E).
  - left. intros a Ha. cbn [put_line set_pmem pmem]. by rewrite ld8_copy_line, (proj2 (Z.eqb_neq _ _)) by congruence.
Qed.

Lemma writeback_kp n s : msys_bytes s -> msys_bytes (writeback H n s) /\ keeps none s (writeback H n s).
Proof.
  intros Hs. destruct (writeback_keeps H n s Hs) as (W1 & W2 & W3 & W4 & W5 & W6 & W7). split; [done |].
  split; auto. intros k _ _. by apply writeback_choice.
Qed.

Lemma drop_kp n s : msys_bytes s -> msys_bytes (drop_line n s) /\ keeps (eq n) s (drop_line n s).
Proof.
  intros [Hm Hb]. unfold drop_line. split; [split; [done |] | split]; cbn [pmem cache].
  - intros k l El. apply lookup_delete_Some in El as [_ El]. by apply (Hb k).
  - intros k _ Hg l El. cbn [cache pmem] in *. apply lookup_delete_Some in El as [_ El]. by apply Hg.
  - intros k _ Hg l El. cbn [cache] in *. apply lookup_delete_Some in El as [_ El]. by apply Hg.
  - intros a Hk _. unfold view, line_bytes. cbn [cache pmem]. by rewrite lookup_delete_ne.
  - done.
  - intros k _ _. by left.
Qed.

Lemma event_kp e s : msys_bytes s -> msys_bytes (hw_event H s e) /\ keeps none s (hw_event H s e).
Proof.
  intros Hs. destruct (event_quiet H s e Hs) as [H1 H2]. split; [done |]. destruct e as [n | n].
  - apply keeps_of_quiet; [done |]. by apply (fill_keeps H n s Hs).
  - destruct H2. split; [auto | auto | auto | auto |]. intros k _ _. exact (writeback_choice n k s Hs).
Qed.

Lemma tick_kp s : msys_bytes s -> msys_bytes (tick H s) /\ keeps none s (tick H s).
Proof.
  intros Hs. unfold tick. set (l := noise H (now s)). clearbody l.
  assert (G : forall s0, msys_bytes s0 -> msys_bytes (fold_left (hw_event H) l s0) /\ keeps none s0 (fold_left (hw_event H) l s0)).
  { induction l as [|e l IH]; intros s0 H0; simpl; [split; [done | apply keeps_refl] |].
    destruct (event_kp e s0 H0) as [H1 H2]. destruct (IH _ H1) as [H3 H4]. split; [done |]. by apply (keeps_trans _ _ (hw_event H s0 e)). }
  destruct (G s Hs) as [[B1 B2] [K1 K2 K3 K4 K5]]. split; [by split | by split].
Qed.

Lemma fill_kp n s : msys_bytes s -> msys_bytes (fill n s) /\ keeps none s (fill n s).
Proof.
  intros Hs. destruct (fill_keeps H n s Hs) as (F1 & F2 & F3 & F4 & F5 & F6). split; [done |].
  apply keeps_of_quiet; [| done]. split; auto. intros a _. by rewrite F2.
Qed.

Lemma log_kp o s : msys_bytes s -> msys_bytes (log o s) /\ keeps none s (log o s).
Proof. intros Hs. split; [by apply log_bytes |]. split; try done. intros k _ _. by left. Qed.

Lemma load8_kp a s : msys_bytes s -> msys_bytes (load8 H a s).2 /\ keeps none s (load8 H a s).2.
Proof.
  intros Hs. destruct (tick_kp s Hs) as [T1 T2]. unfold load8. destruct (cacheable H a); cbn [snd]; [| done].
  destruct (fill_kp (line_of H (xlate H a).1) _ T1) as [F1 F2]. split; [done |]. by apply (keeps_trans _ _ (tick H s)).
Qed.

Lemma store8_kp a v s : msys_bytes s -> msys_bytes (store8 H a v s) /\ keeps (eq (line_of H (xlate H a).1)) s (store8 H a v s).
Proof.
  intros Hs. destruct (tick_kp s Hs) as [T1 T2]. destruct (cacheable H a) eqn:Ec.
  - destruct (store8_c H a v s Hs Ec) as (S1 & _ & S3 & S4 & S5 & S6). split; [done |].
    split; [auto | intros k Hk; apply S4; auto | | auto |].
    + intros b Hk Hg. rewrite S6 by done. rewrite (proj2 (Z.eqb_neq _ _)); [done | congruence].
    + intros k Hk Hg. unfold store8. rewrite Ec. cbn [put_line pmem].
      destruct (fill_keeps H (line_of H (xlate H a).1) _ T1) as (_ & -> & _). by apply (kp_choice _ _ _ T2).
  - destruct (store8_nc H a v s Hs Ec) as (S1 & _ & S3 & S4 & S5 & S6). split; [done |].
    split; [intros k Hk; apply S4; auto | auto | intros b Hk; apply S6; auto | |].
    + intros b Hk Hg. rewrite S5 by done. rewrite (proj2 (Z.eqb_neq _ _)); [done | congruence].
    + intros k Hk Hg. unfold store8. rewrite Ec. cbn [set_pmem pmem].
      destruct (kp_choice _ _ _ T2 k ltac:(done) Hg) as [C | C]; [left | right]; intros b Hb;
        (rewrite ld8_st8_ne; [by apply C | intros <-; by apply Hk]).
Qed.

Lemma ivac_kp a s : msys_bytes s -> msys_bytes (dc_ivac_line H a s) /\ keeps (eq (line_of H (xlate H a).1)) s (dc_ivac_line H a s).
Proof.
  intros Hs. destruct (tick_kp s Hs) as [T1 T2]. unfold dc_ivac_line.
  destruct (drop_kp (line_of H (xlate H a).1) _ T1) as [D1 D2]. destruct (log_kp (DC_IVAC a) _ D1) as [G1 G2]. split; [done |].
  eapply keeps_trans; [apply keeps_none, T2 |]. eapply keeps_trans; [exact D2 | apply keeps_none, G2].
Qed.

Lemma cvac_kp a s : msys_bytes s -> msys_bytes (dc_cvac_line H a s) /\ keeps none s (dc_cvac_line H a s).
Proof.
  intros Hs. destruct (tick_kp s Hs) as [T1 T2]. unfold dc_cvac_line.
  destruct (writeback_kp (line_of H (xlate H a).1) _ T1) as [D1 D2]. destruct (log_kp (DC_CVAC a) _ D1) as [G1 G2]. split; [done |].
  eapply keeps_trans; [exact T2 |]. by eapply keeps_trans.
Qed.

(** A loop of operations. *)
Lemma foldl_kp {A} K (f : msys -> A -> msys) l s :
  (forall s x, x ∈ l -> msys_bytes s -> msys_bytes (f s x) /\ keeps K s (f s x)) -> msys_bytes s ->
  msys_bytes (foldl f s l) /\ keeps K s (foldl f s l).
Proof.
  revert s. induction l as [|x l IH]; intros s Hf Hs; [split; [done | apply keeps_refl] |]. cbn [foldl].
  destruct (Hf s x ltac:(by left) Hs) as [H1 H2]. destruct (IH (f s x)) as [H3 H4]; [intros s0 y Hy; apply Hf; by right | done |].
  split; [done |]. by apply (keeps_trans _ _ (f s x)).
Qed.

Lemma for_range_kp K (f : Z -> msys -> msys) n s :
  (forall s i, 0 <= i < n -> msys_bytes s -> msys_bytes (f i s) /\ keeps K s (f i s)) -> msys_bytes s ->
  msys_bytes (for_range 0 n f s) /\ keeps K s (for_range 0 n f s).
Proof.
  intros Hf Hs. destruct (Z.le_gt_cases n 0) as [Hn | Hn]; [rewrite for_range_empty by lia; split; [done | apply keeps_refl] |].
  apply (for_range_ind (fun _ s' => msys_bytes s' /\ keeps K s s')); [lia | split; [done | apply keeps_refl] |].
  intros i s' Hi [B K1]. destruct (Hf s' i ltac:(lia) B) as [B2 K2]. split; [done |]. by apply (keeps_trans _ _ s').
Qed.

(** ** Buffers *)

(** A buffer in RAM, and one the kernel maps cacheable. *)
Definition ram_buf (p n : Z) : Prop := 0 < n /\ 0x40000000 <= p /\ p + n <= 0x80000000.

Definition cached (p n : Z) : Prop := forall a, p <= a < p + n -> (xlate H a).2 = true.

(** Buffers without a common line. *)
Definition apart (p n q m : Z) : Prop := forall k, covers H p n k -> covers H q m k -> False.

(** What the program sees in a buffer, and what the device does. *)
Definition seen (p n : Z) (f : Z -> Z) (s : msys) : Prop :=
  forall i, 0 <= i < n -> line_good H s (line_of H (p + i)) /\ view H s (p + i) = f i.

Definition held (p n : Z) (f : Z -> Z) (s : msys) : Prop :=
  forall i, 0 <= i < n -> line_clean s (line_of H (p + i)) /\ ld8 (pmem s) (p + i) = f i.

(** Nothing above [c] is stale. *)
Definition rest (c : Z) (s : msys) : Prop := forall k, c <= k * LS -> line_good H s k.

Definition the_cfg : dma_cfg := DmaCfg H nc ws we (fun _ _ _ s => s).

Lemma ram_ranges p n : ram_buf p n -> range_ok H p n /\ identity_mapped H p n.
Proof. intros (Hn & Hp & Ht). exact (buffer_range the_cfg p n Hn Hp Ht). Qed.

Lemma cached_ram p n i : ram_buf p n -> cached p n -> 0 <= i < n ->
  cacheable H (p + i) = true /\ (xlate H (p + i)).1 = p + i.
Proof.
  intros (Hn & Hp & Ht) Hc Hi. split; [unfold cacheable; by rewrite Hon, Hc by lia | apply (dm_ram (DmaMap := HM)); lia].
Qed.

(** The alias of a RAM address. *)
Lemma alias_ram a : 0x40000000 <= a < 0x80000000 ->
  xlate H (a + 0x40000000) = (a, false) /\ cacheable H (a + 0x40000000) = false.
Proof.
  intros Ha. assert (E : xlate H (a + 0x40000000) = (a, false)) by (rewrite (dm_alias (DmaMap := HM)) by lia; f_equal; lia).
  split; [exact E |]. unfold cacheable. by rewrite E, andb_false_r.
Qed.

Lemma covers_in p n i : 0 <= i < n -> covers H p n (line_of H (p + i)).
Proof. intros Hi. apply covers_byte. lia. Qed.

(** Every covered line holds a byte of the buffer. *)
Lemma covers_byte_ex p n k : ram_buf p n -> covers H p n k -> exists i, 0 <= i < n /\ line_of H (p + i) = k.
Proof.
  intros (Hn & Hp & _) [H1 H2]. pose proof (line_size_pos H) as HL. unfold line_of in H1, H2.
  exists (Z.max p (k * LS) - p). pose proof (Z.mul_div_le (p + n - 1) LS ltac:(lia)).
  pose proof (Z.mod_pos_bound p LS ltac:(lia)). pose proof (Z.div_mod p LS ltac:(lia)). split; [nia |]. apply line_of_iff. nia.
Qed.

Lemma apart_sym p n q m : apart p n q m -> apart q m p n.
Proof. intros Ha k Hp Hq. by apply (Ha k). Qed.

(** The second buffer starts a line past the end of the first. *)
Lemma apart_next p n q m : 0 < n -> p + n <= q -> q mod LS = 0 -> apart p n q m.
Proof.
  intros Hn Hq Hm k [_ H1] [H2 _]. pose proof (line_size_pos H) as HL. unfold line_of in *.
  assert (k * LS <= p + n - 1) by (pose proof (Z.mul_div_le (p + n - 1) LS ltac:(lia)); nia).
  assert (q = q / LS * LS) by (pose proof (Z.div_mod q LS ltac:(lia)); lia). nia.
Qed.

(** ** Frames *)

Lemma seen_keep K s s' q m f : keeps K s s' -> (forall k, covers H q m k -> ~ K k) -> seen q m f s -> seen q m f s'.
Proof.
  intros Hk Ha Hs i Hi. destruct (Hs i Hi) as [H1 H2]. pose proof (Ha _ (covers_in q m i Hi)) as Hn.
  split; [by apply (kp_good _ _ _ Hk) |]. by rewrite (kp_view _ _ _ Hk).
Qed.

Lemma held_keep K s s' q m f : keeps K s s' -> (forall k, covers H q m k -> ~ K k) -> held q m f s -> held q m f s'.
Proof.
  intros Hk Ha Hs i Hi. destruct (Hs i Hi) as [H1 H2]. pose proof (Ha _ (covers_in q m i Hi)) as Hn.
  split; [by apply (kp_clean _ _ _ Hk) |]. by rewrite (kp_mem _ _ _ Hk).
Qed.

Lemma rest_keep K s s' c : keeps K s s' -> (forall k, c <= k * LS -> ~ K k) -> rest c s -> rest c s'.
Proof. intros Hk Ha Hs k Hc. by apply (kp_good _ _ _ Hk); auto. Qed.

Lemma rest_weaken c c' s : c <= c' -> rest c s -> rest c' s.
Proof. intros Hc Hs k Hk. apply Hs. lia. Qed.

Lemma covers_below p n c k : 0 < n -> p + n <= c -> c <= k * LS -> ~ covers H p n k.
Proof.
  intros Hn Hc Hk [_ H1]. pose proof (line_size_pos H) as HL. unfold line_of in H1.
  pose proof (Z.mul_div_le (p + n - 1) LS ltac:(lia)). nia.
Qed.

Lemma rest_good c s p n i : rest c s -> c <= p -> p mod LS = 0 -> 0 <= i < n -> line_good H s (line_of H (p + i)).
Proof.
  intros Hs Hc Hp Hi. apply Hs. pose proof (line_size_pos H) as HL. unfold line_of.
  assert (p / LS <= (p + i) / LS) by (apply Z.div_le_mono; lia). assert (p = p / LS * LS) by (pose proof (Z.div_mod p LS ltac:(lia)); lia). nia.
Qed.

Lemma both_seen p n f s : held p n f s -> (forall i, 0 <= i < n -> line_good H s (line_of H (p + i))) -> seen p n f s.
Proof. intros Hh Hg i Hi. destruct (Hh i Hi) as [H1 H2]. split; [auto |]. rewrite view_good; auto. Qed.

Lemma both_held p n f s : seen p n f s -> (forall i, 0 <= i < n -> line_clean s (line_of H (p + i))) -> held p n f s.
Proof. intros Hh Hg i Hi. destruct (Hh i Hi) as [H1 H2]. split; [auto |]. rewrite <- H2. symmetry. apply view_good; auto. Qed.

(** ** Operations on buffers *)

(** Stores through the cacheable mapping. *)
Lemma fill_seen p n g s :
  ram_buf p n -> cached p n -> msys_bytes s -> (forall i, 0 <= i < n -> line_good H s (line_of H (p + i))) ->
  let s' := for_range 0 n (fun i => store8 H (p +64 i) (g i)) s in
  msys_bytes s' /\ keeps (covers H p n) s s' /\ seen p n (fun i => g i mod 256) s'.
Proof.
  intros Hr Hc Hs Hg s'. unfold s'. pose proof Hr as (Hn & Hp & Ht).
  set (P := fun j s' => msys_bytes s' /\ keeps (covers H p n) s s' /\
    (forall i, 0 <= i < n -> line_good H s' (line_of H (p + i))) /\ forall i, 0 <= i < j -> view H s' (p + i) = g i mod 256).
  destruct (for_range_ind P 0 n (fun i => store8 H (p +64 i) (g i)) s) as (B & K & G & V); [lia | | |].
  - split; [done | split; [apply keeps_refl | split; [done | lia]]].
  - intros j t Hj (B & K & G & V). rewrite wrap64_small by lia. destruct (cached_ram p n j Hr Hc ltac:(lia)) as [C1 C2].
    destruct (store8_kp (p + j) (g j) t B) as [B2 K2]. destruct (store8_c H (p + j) (g j) t B C1) as (_ & _ & S3 & _ & _ & S6).
    rewrite C2 in *. split; [done | split; [| split; [auto |]]].
    + apply (keeps_trans _ _ t); [done |]. refine (keeps_weaken _ _ _ _ _ K2). intros k <-. apply covers_in. lia.
    + intros i Hi. rewrite S6 by (apply G; lia). destruct (Z.eqb_spec (p + j) (p + i)); [by replace i with j by lia | apply V; lia].
  - split; [done | split; [done |]]. intros i Hi. auto.
Qed.

(** Stores through the alias, into the part of a tidy buffer starting at [p]. *)
Lemma fill_held p n g s :
  ram_buf p n -> msys_bytes s -> (forall i, 0 <= i < n -> line_clean s (line_of H (p + i))) ->
  let s' := for_range 0 n (fun i => store8 H (p + 0x40000000 +64 i) (g i)) s in
  msys_bytes s' /\ keeps (covers H p n) s s' /\ held p n (fun i => g i mod 256) s' /\
  (forall k, line_clean s k -> line_clean s' k) /\
  (forall b, line_clean s (line_of H b) -> b < p \/ p + n <= b -> ld8 (pmem s') b = ld8 (pmem s) b).
Proof.
  intros (Hn & Hp & Ht) Hs Hg s'. unfold s'.
  set (P := fun j s' => msys_bytes s' /\ keeps (covers H p n) s s' /\ (forall k, line_clean s k -> line_clean s' k) /\
    forall b, line_clean s (line_of H b) -> ld8 (pmem s') b = if (p <=? b) && (b <? p + j) then g (b - p) mod 256 else ld8 (pmem s) b).
  destruct (for_range_ind P 0 n (fun i => store8 H (p + 0x40000000 +64 i) (g i)) s) as (B & K & G & V); [lia | | |].
  - split; [done | split; [apply keeps_refl | split; [done |]]]. intros b _. repeat bdestr; simpl; lia || done.
  - intros j t Hj (B & K & G & V). rewrite wrap64_small by lia. replace (p + 0x40000000 + j) with (p + j + 0x40000000) by lia.
    destruct (alias_ram (p + j) ltac:(lia)) as [C1 C2].
    destruct (store8_kp (p + j + 0x40000000) (g j) t B) as [B2 K2].
    destruct (store8_nc H (p + j + 0x40000000) (g j) t B C2) as (_ & _ & S3 & _ & S5 & _). rewrite C1 in *. cbn [fst] in *.
    split; [done | split; [| split; [auto |]]].
    + apply (keeps_trans _ _ t); [done |]. refine (keeps_weaken _ _ _ _ _ K2). intros k <-. apply covers_in. lia.
    + intros b Hb. rewrite S5 by auto. rewrite V by done. destruct (Z.eqb_spec (p + j) b) as [<- | Hne].
      * rewrite (proj2 (Z.leb_le _ _)), (proj2 (Z.ltb_lt _ _)) by lia. cbn [andb]. do 2 f_equal. lia.
      * repeat bdestr; simpl; lia || done.
  - split; [done | split; [done | split; [| split; [done |]]]].
    + intros i Hi. split; [auto |]. rewrite V by auto. rewrite (proj2 (Z.leb_le _ _)), (proj2 (Z.ltb_lt _ _)) by lia. cbn [andb]. do 2 f_equal. lia.
    + intros b Hb Ho. rewrite V by done. repeat bdestr; simpl; lia || done.
Qed.

(** Cleaning makes the device see what the program sees. *)
Lemma clean_spec p n s : ram_buf p n -> msys_bytes s ->
  let s' := dc_cvac_range H p n s in
  msys_bytes s' /\ keeps none s s' /\ (forall k, covers H p n k -> line_clean s' k) /\
  (forall f, seen p n f s -> seen p n f s' /\ held p n f s').
Proof.
  intros Hr Hs s'. destruct (ram_ranges p n Hr) as [R1 R2].
  destruct (cvac_range_spec H p n s Hs Hon R1 R2) as (C1 & _ & C3 & C4 & C5 & _). fold s' in C1, C3, C4, C5.
  assert (K : keeps none s s').
  { unfold s', dc_cvac_range. rewrite dc_range_eq by done. destruct (log_kp DMB_ISH s Hs) as [G1 G2].
    destruct (foldl_kp none (fun s a => dc_cvac_line H a s) (lines_of H p n) (log DMB_ISH s)) as [F1 F2]; [| done |].
    { intros t x _ Ht. by apply cvac_kp. }
    destruct (log_kp DSB_ISH _ F1) as [_ G3]. eapply keeps_trans; [exact G2 |]. by eapply keeps_trans. }
  split; [done | split; [exact K | split; [auto |]]]. intros f Hf.
  assert (Hf' : seen p n f s') by (apply (seen_keep none s); [exact K | auto | exact Hf]).
  split; [exact Hf' |]. apply both_held; [exact Hf' |]. intros i Hi. apply C4. right. by apply covers_in.
Qed.

(** Invalidation makes the program see what the device sees. *)
Lemma inval_spec p n s : ram_buf p n -> msys_bytes s ->
  let s' := dc_ivac_range H p n s in
  msys_bytes s' /\ keeps (covers H p n) s s' /\ (forall k, covers H p n k -> line_clean s' k /\ line_good H s' k) /\
  (forall f, held p n f s -> seen p n f s' /\ held p n f s').
Proof.
  intros Hr Hs s'. destruct (ram_ranges p n Hr) as [R1 R2].
  destruct (ivac_range_spec H p n s Hs Hon R1 R2) as (C1 & _ & C3 & C4 & _ & C6). fold s' in C1, C3, C4, C6.
  assert (K : keeps (covers H p n) s s').
  { unfold s', dc_ivac_range. rewrite dc_range_eq by done. destruct (log_kp DMB_ISH s Hs) as [G1 G2].
    destruct (foldl_kp (covers H p n) (fun s a => dc_ivac_line H a s) (lines_of H p n) (log DMB_ISH s)) as [F1 F2]; [| done |].
    { intros t x Hx Ht. destruct (lines_covered H _ _ _ Hx) as [Hc Ex]. destruct (ivac_kp x t Ht) as [I1 I2]. split; [done |].
      refine (keeps_weaken _ _ _ _ _ I2). intros k <-. rewrite Ex, R2 by done. by rewrite line_of_base. }
    destruct (log_kp DSB_ISH _ F1) as [_ G3]. eapply keeps_trans; [apply keeps_none, G2 |].
    eapply keeps_trans; [exact F2 | apply keeps_none, G3]. }
  split; [done | split; [exact K | split; [auto |]]]. intros f Hf.
  assert (Hh : held p n f s').
  { intros i Hi. destruct (Hf i Hi) as [H1 H2]. split; [apply C4; by left |]. by rewrite C6. }
  split; [| exact Hh]. apply both_seen; [exact Hh |]. intros i Hi. apply C3. right. by apply covers_in.
Qed.

(** The device's copy. *)
Lemma copy_spec dst src n f s :
  ram_buf dst n -> ram_buf src n -> apart dst n src n -> msys_bytes s -> held src n f s ->
  (forall k, covers H dst n k -> line_clean s k) ->
  let s' := dma_memcpy the_cfg (dst + 0x40000000) (src + 0x40000000) n s in
  msys_bytes s' /\ keeps (covers H dst n) s s' /\ held dst n f s' /\ (forall k, line_clean s k -> line_clean s' k).
Proof.
  intros (Hn & Hd1 & Hd2) (_ & Hs1 & Hs2) Hap Hs Hh Hc s'.
  assert (Hdis : dst + n <= src \/ src + n <= dst).
  { destruct (Z.le_gt_cases (dst + n) src) as [| H1]; [by left |]. destruct (Z.le_gt_cases (src + n) dst) as [| H2]; [by right |].
    exfalso. destruct (Z.le_gt_cases dst src); [apply (Hap (line_of H src)) | apply (Hap (line_of H dst))]; apply covers_byte; lia. }
  destruct (memcpy_spec the_cfg dst src n s) as (M1 & M2 & M3 & _ & _); try done.
  { intros k [Hk | Hk]; [| by apply Hc]. destruct (covers_byte_ex src n k ltac:(done) Hk) as (i & Hi & <-). by apply Hh. }
  fold s' in M1, M2, M3. split; [done | split; [| split; [| done]]].
  - unfold s', dma_memcpy. apply for_range_kp; [| done]. intros t i Hi Ht. rewrite !wrap64_small by lia.
    pose proof (load8_kp (src + 0x40000000 + i) t Ht) as [L1 L2]. change (hwc the_cfg) with H.
    destruct (load8 H (src + 0x40000000 + i) t) as [v t1]. cbn [snd] in *.
    destruct (store8_kp (dst + 0x40000000 + i) v t1 L1) as [S1 S2]. split; [done |].
    apply (keeps_trans _ _ t1); [by apply keeps_none |]. refine (keeps_weaken _ _ _ _ _ S2). intros k <-.
    replace (dst + 0x40000000 + i) with (dst + i + 0x40000000) by lia. rewrite (proj1 (alias_ram (dst + i) ltac:(lia))). apply covers_byte. cbn. lia.
  - intros i Hi. split; [by apply M2, Hc, covers_in |]. rewrite M3 by (by apply Hc, covers_in).
    rewrite (proj2 (Z.leb_le _ _)), (proj2 (Z.ltb_lt _ _)) by lia. cbn [andb]. replace (src + (dst + i - dst)) with (src + i) by lia. by apply Hh.
Qed.

End Region.
