(* ===== verification/DmaLab.v ===== *)
(** * [src/src/dma_lab.cc]: the cache-coherence demonstrations

    Six experiments on the machine of [Cache]: each first does what a driver
    must not do and expects to see it fail, then does it properly and expects it
    to work.  The heap, the memory and the console are one state.  The local
    array [expected] is a list of bytes; a field or flag wider than a byte is
    accessed byte by byte in ascending order. *)

From Stdlib Require Import String.
From S2P Require Import Prelude Mem Kmem Uart Cache Dma.

Record lab := Lab {
  lsys : msys;
  lheap : kmem;
  lout : list Z
}.

(** A run on the lab's state. *)
Definition L (A : Type) : Type := lab -> A * lab.

#[export] Instance L_ret : MRet L := fun A x s => (x, s).

#[export] Instance L_bind : MBind L := fun A B k m s => let '(x, s) := m s in k x s.

Definition lputs (m : string) : L unit := fun s => ((), Lab (lsys s) (lheap s) (lout s ++ puts_bytes (chars m))).

Definition lprint_u64 (v : Z) : L unit := fun s => ((), Lab (lsys s) (lheap s) (lout s ++ print_u64_bytes v)).

Definition lputhex64 (v : Z) : L unit := fun s => ((), Lab (lsys s) (lheap s) (lout s ++ puthex_bytes 16 v)).

Definition lputsln (m : string) : L unit := lputs (m ++ nl).

Definition on_sys (f : msys -> msys) : L unit := fun s => ((), Lab (f (lsys s)) (lheap s) (lout s)).

Definition lalloc (sz align : Z) : L Z := fun s => let '(p, k) := kmem_alloc_aligned sz align (lheap s) in (p, Lab (lsys s) k (lout s)).

Definition kNormalStart : Z := 0x40000000.

Definition kNormalEnd : Z := 0x80000000.

Definition kAliasOffset : Z := 0x40000000.

Definition to_alias (p len : Z) : Z :=
  if (p =? nullptr) || (len =? 0) then nullptr
  else
    let start := p in
    let end_ := start +64 (len -64 1) in
    if end_ <? start then nullptr
    else if (start <? kNormalStart) || (kNormalEnd <=? end_) then nullptr
    else start +64 kAliasOffset.

(** Fields of [LabDesc]. *)
Definition desc_src : Z := 0.

Definition desc_dst : Z := 8.

Definition desc_len : Z := 16.

Definition desc_cookie : Z := 24.

Definition sizeof_LabDesc : Z := 32.

(** The bytes [memfill] leaves. *)
Definition fill_byte (seed i : Z) : Z := (seed + wrap64 (i * 7) mod 256) mod 256.

Section DmaLab.

Context (H : hwcfg).

Definition dcache_line_size : Z :=
  let dminline := Z.land (Z.shiftr (ctr_el0 H) 16) 0xF in
  let line_size := wrap32 (Z.shiftl 4 dminline) in
  if line_size =? 0 then 64 else line_size.

(** Byte accesses, and wider ones. *)
Definition rd (a : Z) : L Z := fun s => let '(v, m) := load8 H a (lsys s) in (v, Lab m (lheap s) (lout s)).

Definition wr (a v : Z) : L unit := on_sys (store8 H a v).

Fixpoint rd_le (n : nat) (a : Z) : L Z :=
  match n with
  | O => mret 0
  | Datatypes.S n' => rd a ≫= fun b => rd_le n' (a +64 1) ≫= fun v => mret (b + 256 * v)
  end.

Fixpoint wr_le (n : nat) (a v : Z) (s : msys) : msys :=
  match n with
  | O => s
  | Datatypes.S n' => wr_le n' (a +64 1) (v / 256) (store8 H a (v mod 256) s)
  end.

Definition memfill (p len seed : Z) : msys -> msys :=
  for_range 0 len (fun i => store8 H (p +64 i) (fill_byte seed i)).

Definition memfill_const (p len v : Z) : msys -> msys := for_range 0 len (fun i => store8 H (p +64 i) v).

Definition expected (len seed : Z) : list Z := map (fill_byte seed) (seqZ 0 len).

(** [first_mismatch] from index [i] on, against the rest of the local array. *)
Fixpoint first_mismatch (a i : Z) (b : list Z) : L Z :=
  match b with
  | [] => mret (-1)
  | x :: b' => rd (a +64 i) ≫= fun v => if v =? x then first_mismatch a (i + 1) b' else mret (int32 i)
  end.

Definition device_memcpy (dst src len : Z) : msys -> msys :=
  for_range 0 len (fun i s => let '(v, s) := load8 H (src +64 i) s in store8 H (dst +64 i) v s).

Definition clean_to_poc (p len : Z) (s : msys) : msys := dma_wmb (dc_cvac_range H p len s).

Definition invalidate_for_cpu (p len : Z) (s : msys) : msys := dc_ivac_range H p len (dma_rmb s).

(** [for (i = 0; i < len; ++i) if (p[i] != v) ...]: the first index that differs. *)
Fixpoint scan_const (n : nat) (p i v : Z) : L (option Z) :=
  match n with
  | O => mret None
  | Datatypes.S n' => rd (p +64 i) ≫= fun x => if x =? v then scan_const n' p (i + 1) v else mret (Some i)
  end.

Definition case1_cpu_to_dev_stale_src : L bool :=
  lputsln "[dma-lab][1] stale read CPU->device (missing clean)" ≫= fun _ =>
  lputsln "[dma-lab][1] why: device reads via NC alias, CPU dirty cache not visible" ≫= fun _ =>
  let kLen := 1024 in
  lalloc kLen 64 ≫= fun src =>
  lalloc kLen 64 ≫= fun dst =>
  let src_alias := to_alias src kLen in
  let dst_alias := to_alias dst kLen in
  if (src =? nullptr) || (dst =? nullptr) || (src_alias =? nullptr) || (dst_alias =? nullptr) then mret false
  else
    on_sys (memfill_const src kLen 0x11) ≫= fun _ =>
    on_sys (dc_cvac_range H src kLen) ≫= fun _ =>
    on_sys (dc_ivac_range H src kLen) ≫= fun _ =>
    on_sys (memfill_const dst kLen 0) ≫= fun _ =>
    on_sys (dc_cvac_range H dst kLen) ≫= fun _ =>
    on_sys (dc_ivac_range H dst kLen) ≫= fun _ =>
    on_sys (memfill src kLen 0x80) ≫= fun _ =>
    on_sys (device_memcpy dst_alias src_alias kLen) ≫= fun _ =>
    on_sys (invalidate_for_cpu dst kLen) ≫= fun _ =>
    first_mismatch dst 0 (expected kLen 0x80) ≫= fun mismatch =>
    if mismatch <? 0 then
      lputsln "[dma-lab][1] ERR unexpected PASS (bug did not reproduce)" ≫= fun _ => mret false
    else
      lputs "[dma-lab][1] OK expected FAIL without clean: mismatch@" ≫= fun _ =>
      lprint_u64 mismatch ≫= fun _ => lputs nl ≫= fun _ =>
      on_sys (clean_to_poc src kLen) ≫= fun _ =>
      on_sys (device_memcpy dst_alias src_alias kLen) ≫= fun _ =>
      on_sys (invalidate_for_cpu dst kLen) ≫= fun _ =>
      first_mismatch dst 0 (expected kLen 0x80) ≫= fun mismatch =>
      if 0 <=? mismatch then
        lputs "[dma-lab][1] ERR fix failed: still mismatching@" ≫= fun _ =>
        lprint_u64 mismatch ≫= fun _ => lputs nl ≫= fun _ => mret false
      else lputsln "[dma-lab][1] OK fixed PASS (clean + dma_wmb)" ≫= fun _ => mret true.

Definition case2_dev_to_cpu_stale_dst : L bool :=
  lputsln "[dma-lab][2] stale read device->CPU (missing invalidate)" ≫= fun _ =>
  lputsln "[dma-lab][2] why: device writes memory via NC alias, CPU may keep stale cache line" ≫= fun _ =>
  let kLen := 1024 in
  lalloc kLen 64 ≫= fun dst =>
  let dst_alias := to_alias dst kLen in
  if (dst =? nullptr) || (dst_alias =? nullptr) then mret false
  else
    on_sys (memfill_const dst kLen 0xAA) ≫= fun _ =>
    on_sys (dc_cvac_range H dst kLen) ≫= fun _ =>
    rd dst ≫= fun _ =>
    on_sys (memfill_const dst_alias kLen 0x55) ≫= fun _ =>
    scan_const (Z.to_nat kLen) dst 0 0xAA ≫= fun saw_new =>
    match saw_new with
    | Some _ =>
      lputsln "[dma-lab][2] ERR unexpected PASS (CPU observed device write without invalidate)" ≫= fun _ => mret false
    | None =>
      lputsln "[dma-lab][2] OK expected FAIL without invalidate (CPU kept stale cache)" ≫= fun _ =>
      on_sys (invalidate_for_cpu dst kLen) ≫= fun _ =>
      scan_const (Z.to_nat kLen) dst 0 0x55 ≫= fun bad =>
      match bad with
      | Some i =>
        lputs "[dma-lab][2] ERR fix failed: dst mismatch@" ≫= fun _ => lprint_u64 i ≫= fun _ =>
        lputs " val=0x" ≫= fun _ => rd (dst +64 i) ≫= fun v => lputhex64 v ≫= fun _ => lputs nl ≫= fun _ => mret false
      | None => lputsln "[dma-lab][2] OK fixed PASS (dma_rmb + invalidate)" ≫= fun _ => mret true
      end
    end.

Definition device_process_desc (desc_alias : Z) : L bool :=
  if desc_alias =? nullptr then mret false
  else
    rd_le 8 (desc_alias +64 desc_len) ≫= fun len =>
    rd_le 8 (desc_alias +64 desc_src) ≫= fun src =>
    rd_le 8 (desc_alias +64 desc_dst) ≫= fun dst =>
    if (len =? 0) || (4096 <? len) then mret false
    else on_sys (device_memcpy dst src len) ≫= fun _ => mret true.

(** [desc->src = ...; desc->dst = ...; desc->len = ...; desc->cookie = ...;]. *)
Definition write_desc (desc src dst len cookie : Z) (s : msys) : msys :=
  wr_le 8 (desc +64 desc_cookie) cookie (wr_le 8 (desc +64 desc_len) len (wr_le 8 (desc +64 desc_dst) dst (wr_le 8 (desc +64 desc_src) src s))).

Definition case3_descriptor_stale_fields : L bool :=
  lputsln "[dma-lab][3] descriptor stale fields (missing clean)" ≫= fun _ =>
  lputsln "[dma-lab][3] why: device reads descriptor via NC alias; CPU must clean before publish" ≫= fun _ =>
  let kLen := 512 in
  lalloc kLen 64 ≫= fun src =>
  lalloc kLen 64 ≫= fun dst =>
  lalloc sizeof_LabDesc 64 ≫= fun desc =>
  if (src =? nullptr) || (dst =? nullptr) || (desc =? nullptr) then mret false
  else
    let src_alias := to_alias src kLen in
    let dst_alias := to_alias dst kLen in
    let desc_alias := to_alias desc sizeof_LabDesc in
    if (src_alias =? nullptr) || (dst_alias =? nullptr) || (desc_alias =? nullptr) then mret false
    else
      on_sys (memfill src kLen 0x10) ≫= fun _ =>
      on_sys (clean_to_poc src kLen) ≫= fun _ =>
      on_sys (memfill_const dst kLen 0) ≫= fun _ =>
      on_sys (clean_to_poc dst kLen) ≫= fun _ =>
      on_sys (memfill_const desc sizeof_LabDesc 0) ≫= fun _ =>
      on_sys (dc_cvac_range H desc sizeof_LabDesc) ≫= fun _ =>
      on_sys (dc_ivac_range H desc sizeof_LabDesc) ≫= fun _ =>
      on_sys (write_desc desc src_alias dst_alias kLen 0x1234) ≫= fun _ =>
      device_process_desc desc_alias ≫= fun ok =>
      on_sys (invalidate_for_cpu dst kLen) ≫= fun _ =>
      first_mismatch dst 0 (expected kLen 0x10) ≫= fun mismatch =>
      if ok || (mismatch <? 0) then
        lputsln "[dma-lab][3] ERR unexpected PASS (descriptor bug did not reproduce)" ≫= fun _ => mret false
      else
        lputsln "[dma-lab][3] OK expected FAIL without descriptor clean (device saw len=0)" ≫= fun _ =>
        on_sys (clean_to_poc desc sizeof_LabDesc) ≫= fun _ =>
        device_process_desc desc_alias ≫= fun ok =>
        on_sys (invalidate_for_cpu dst kLen) ≫= fun _ =>
        first_mismatch dst 0 (expected kLen 0x10) ≫= fun mismatch =>
        if negb ok || (0 <=? mismatch) then
          lputsln "[dma-lab][3] ERR fix failed (clean + dma_wmb)" ≫= fun _ => mret false
        else lputsln "[dma-lab][3] OK fixed PASS (clean desc + dma_wmb)" ≫= fun _ => mret true.

Definition case4_publish_ordering_head_vs_desc : L bool :=
  lputsln "[dma-lab][4] publish ordering (head visible before desc)" ≫= fun _ =>
  lputsln "[dma-lab][4] why: must order desc clean before doorbell/head publish (dma_wmb)" ≫= fun _ =>
  let kLen := 256 in
  lalloc kLen 64 ≫= fun src =>
  lalloc kLen 64 ≫= fun dst =>
  lalloc sizeof_LabDesc 64 ≫= fun desc =>
  lalloc 8 64 ≫= fun head =>
  if (src =? nullptr) || (dst =? nullptr) || (desc =? nullptr) || (head =? nullptr) then mret false
  else
    let src_alias := to_alias src kLen in
    let dst_alias := to_alias dst kLen in
    let desc_alias := to_alias desc sizeof_LabDesc in
    let head_alias := to_alias head 8 in
    if (src_alias =? nullptr) || (dst_alias =? nullptr) || (desc_alias =? nullptr) || (head_alias =? nullptr) then mret false
    else
      on_sys (memfill src kLen 0x33) ≫= fun _ =>
      on_sys (clean_to_poc src kLen) ≫= fun _ =>
      on_sys (memfill_const dst kLen 0) ≫= fun _ =>
      on_sys (clean_to_poc dst kLen) ≫= fun _ =>
      on_sys (wr_le 8 head 0) ≫= fun _ =>
      on_sys (clean_to_poc head 8) ≫= fun _ =>
      on_sys (memfill_const desc sizeof_LabDesc 0) ≫= fun _ =>
      on_sys (dc_cvac_range H desc sizeof_LabDesc) ≫= fun _ =>
      on_sys (dc_ivac_range H desc sizeof_LabDesc) ≫= fun _ =>
      on_sys (write_desc desc src_alias dst_alias kLen 0xfeed) ≫= fun _ =>
      on_sys (wr_le 8 head desc_alias) ≫= fun _ =>
      on_sys (dc_cvac_range H head 8) ≫= fun _ =>
      rd_le 8 head_alias ≫= fun observed =>
      device_process_desc observed ≫= fun ok =>
      on_sys (invalidate_for_cpu dst kLen) ≫= fun _ =>
      first_mismatch dst 0 (expected kLen 0x33) ≫= fun mismatch =>
      if ok || (mismatch <? 0) then
        lputsln "[dma-lab][4] ERR unexpected PASS (publish ordering bug did not reproduce)" ≫= fun _ => mret false
      else
        lputsln "[dma-lab][4] OK expected FAIL (head published but desc not cleaned)" ≫= fun _ =>
        on_sys (clean_to_poc desc sizeof_LabDesc) ≫= fun _ =>
        on_sys dma_wmb ≫= fun _ =>
        on_sys (dc_cvac_range H head 8) ≫= fun _ =>
        rd_le 8 head_alias ≫= fun observed =>
        device_process_desc observed ≫= fun ok =>
        on_sys (invalidate_for_cpu dst kLen) ≫= fun _ =>
        first_mismatch dst 0 (expected kLen 0x33) ≫= fun mismatch =>
        if negb ok || (0 <=? mismatch) then
          lputsln "[dma-lab][4] ERR fix failed (desc clean before publish)" ≫= fun _ => mret false
        else lputsln "[dma-lab][4] OK fixed PASS (clean desc + dma_wmb before publish)" ≫= fun _ => mret true.

(** Polling the cacheable flag, at most [n] times. *)
Fixpoint poll_flag (n : nat) (flag : Z) : L bool :=
  match n with
  | O => mret false
  | Datatypes.S n' => rd_le 4 flag ≫= fun v => if v =? 1 then mret true else poll_flag n' flag
  end.

Definition case5_completion_flag_race : L bool :=
  lputsln "[dma-lab][5] completion flag race (missing invalidate on poll)" ≫= fun _ =>
  lputsln "[dma-lab][5] why: polling cacheable flag needs invalidate/rmb to observe device writes" ≫= fun _ =>
  lalloc 4 64 ≫= fun flag =>
  if flag =? nullptr then mret false
  else
    let flag_alias := to_alias flag 4 in
    if flag_alias =? nullptr then mret false
    else
      on_sys (wr_le 4 flag 0) ≫= fun _ =>
      on_sys (clean_to_poc flag 4) ≫= fun _ =>
      rd_le 4 flag ≫= fun _ =>
      on_sys (wr_le 4 flag_alias 1) ≫= fun _ =>
      poll_flag (Z.to_nat 200000) flag ≫= fun saw =>
      if saw : bool then
        lputsln "[dma-lab][5] ERR unexpected PASS (saw completion without invalidate)" ≫= fun _ => mret false
      else
        lputsln "[dma-lab][5] OK expected FAIL (stuck on stale cached flag)" ≫= fun _ =>
        on_sys (invalidate_for_cpu flag 4) ≫= fun _ =>
        rd_le 4 flag ≫= fun v =>
        if negb (v =? 1) then
          lputsln "[dma-lab][5] ERR fix failed: still not seeing completion" ≫= fun _ => mret false
        else lputsln "[dma-lab][5] OK fixed PASS (dma_rmb + invalidate)" ≫= fun _ => mret true.

Definition case6_cacheline_sharing_hazard : L bool :=
  lputsln "[dma-lab][6] cache line sharing hazard (invalidate drops dirty neighbor)" ≫= fun _ =>
  lputsln "[dma-lab][6] why: invalidate works on whole lines; DMA buffers must not share lines" ≫= fun _ =>
  let line := dcache_line_size in
  if (line <? 32) || negb (Z.land line (line -64 1) =? 0) then
    lputsln "[dma-lab][6] unsupported dcache line size" ≫= fun _ => mret false
  else
    lalloc (wrap64 (line * 2)) line ≫= fun base =>
    if base =? nullptr then mret false
    else
      let guard := base in
      let buf := base +64 1 in
      let len := line -64 2 in
      let buf_alias := to_alias buf len in
      if buf_alias =? nullptr then mret false
      else
        on_sys (memfill_const base line 0) ≫= fun _ =>
        on_sys (clean_to_poc base line) ≫= fun _ =>
        on_sys (dc_ivac_range H base line) ≫= fun _ =>
        on_sys (memfill_const buf_alias len 0x5A) ≫= fun _ =>
        wr guard 0xCC ≫= fun _ =>
        on_sys (dc_ivac_range H buf len) ≫= fun _ =>
        rd guard ≫= fun g =>
        if g =? 0xCC then
          lputsln "[dma-lab][6] ERR unexpected PASS (guard survived invalidate)" ≫= fun _ => mret false
        else
          lputsln "[dma-lab][6] OK expected FAIL: guard lost due to line invalidate" ≫= fun _ =>
          lalloc (wrap64 (line * 2)) line ≫= fun base2 =>
          if base2 =? nullptr then mret false
          else
            let guard2 := base2 in
            let buf2 := base2 +64 line in
            let len2 := line in
            let buf2_alias := to_alias buf2 len2 in
            if buf2_alias =? nullptr then mret false
            else
              on_sys (memfill_const base2 (wrap64 (line * 2)) 0) ≫= fun _ =>
              on_sys (clean_to_poc base2 (wrap64 (line * 2))) ≫= fun _ =>
              on_sys (dc_ivac_range H base2 (wrap64 (line * 2))) ≫= fun _ =>
              on_sys (memfill_const buf2_alias len2 0x7E) ≫= fun _ =>
              wr guard2 0xCC ≫= fun _ =>
              on_sys (dc_ivac_range H buf2 len2) ≫= fun _ =>
              rd guard2 ≫= fun g =>
              if negb (g =? 0xCC) then
                lputsln "[dma-lab][6] ERR fix failed: guard corrupted" ≫= fun _ => mret false
              else
                scan_const (Z.to_nat len2) buf2 0 0x7E ≫= fun bad =>
                match bad with
                | Some i =>
                  lputs "[dma-lab][6] ERR fix failed: buffer mismatch@" ≫= fun _ =>
                  lprint_u64 i ≫= fun _ => lputs nl ≫= fun _ => mret false
                | None => lputsln "[dma-lab][6] OK fixed PASS (line-aligned buffer avoids sharing)" ≫= fun _ => mret true
                end.

Definition run_case (n : Z) : L bool :=
  if n =? 1 then case1_cpu_to_dev_stale_src
  else if n =? 2 then case2_dev_to_cpu_stale_dst
  else if n =? 3 then case3_descriptor_stale_fields
  else if n =? 4 then case4_publish_ordering_head_vs_desc
  else if n =? 5 then case5_completion_flag_race
  else if n =? 6 then case6_cacheline_sharing_hazard
  else lputsln "[dma-lab] unknown case" ≫= fun _ => mret false.

(** Cases [c], ..., [c + n - 1], counting the passes. *)
Fixpoint run_cases (n : nat) (c pass : Z) : L Z :=
  match n with
  | O => mret pass
  | Datatypes.S n' => run_case c ≫= fun ok => run_cases n' (c + 1) (if ok : bool then pass + 1 else pass)
  end.

Definition dma_lab_run (noncacheable : bool) (mode : Z) : L unit :=
  lputs "[dma-lab] begin policy=" ≫= fun _ =>
  lputs (if noncacheable then "NONCACHEABLE" else "CACHEABLE") ≫= fun _ =>
  lputs " mode=" ≫= fun _ => lprint_u64 mode ≫= fun _ => lputs nl ≫= fun _ =>
  if negb (dcache_enabled H) then lputsln "[dma-lab] dcache disabled; lab requires caches-on"
  else
    lputs "[dma-lab] dcache_line=" ≫= fun _ => lprint_u64 dcache_line_size ≫= fun _ => lputs nl ≫= fun _ =>
    (if mode =? 1 then run_cases 6 1 0 ≫= fun pass => mret (pass, 6)
     else run_case mode ≫= fun ok => mret (if ok : bool then 1 else 0, 1)) ≫= fun '(pass, total) =>
    lputs "[dma-lab] result " ≫= fun _ =>
    lputs (if pass =? total then "PASS (" else "FAIL (") ≫= fun _ =>
    lprint_u64 pass ≫= fun _ => lputs "/" ≫= fun _ => lprint_u64 total ≫= fun _ => lputs (")" ++ nl).

End DmaLab.
