(* ===== verification/DmaLabThms.v ===== *)
(** * What the cache-coherence demonstrations show

    On every hardware, whatever lines it fetches and evicts, each experiment of
    [DmaLab] either reports the failure it provokes and then works, or says that
    the failure did not appear; the proper sequence never fails.  On a hardware
    that keeps the lines it has, all six pass. *)

From Stdlib Require Import String.
From S2P Require Import Prelude Mem Kmem Uart Cache Dma Region DmaLab.

(** ** Monadic steps *)

Lemma bind_sys {A} f (k : unit -> L A) m h o : (on_sys f ≫= k) (Lab m h o) = k () (Lab (f m) h o).
Proof. done. Qed.

Lemma bind_puts {A} x (k : unit -> L A) m h o : (lputs x ≫= k) (Lab m h o) = k () (Lab m h (o ++ puts_bytes (chars x))).
Proof. done. Qed.

Lemma bind_putsln {A} x (k : unit -> L A) m h o : (lputsln x ≫= k) (Lab m h o) = k () (Lab m h (o ++ puts_bytes (chars (x ++ nl)))).
Proof. done. Qed.

Lemma bind_print {A} v (k : unit -> L A) m h o : (lprint_u64 v ≫= k) (Lab m h o) = k () (Lab m h (o ++ print_u64_bytes v)).
Proof. done. Qed.

Lemma bind_eq {A B} (c : L A) (k : A -> L B) s x s' : c s = (x, s') -> (c ≫= k) s = k x s'.
Proof. intros E. unfold mbind, L_bind. by rewrite E. Qed.

(** Run the printing steps. *)
Ltac says := repeat first [rewrite bind_putsln | rewrite bind_puts | rewrite bind_print].

(** What was printed only grows. *)
Definition ext (o o' : list Z) : Prop := exists t, o' = o ++ t.

Lemma ext_refl o : ext o o.
Proof. exists []. by rewrite app_nil_r. Qed.

Lemma ext_snoc o o' x : ext o o' -> ext o (o' ++ x).
Proof. intros [t ->]. exists (t ++ x). by rewrite app_assoc. Qed.

Lemma for_from_add {S : Type} (f : Z -> S -> S) i a b s : for_from f i (a + b) s = for_from f (i + Z.of_nat a) b (for_from f i a s).
Proof.
  revert i s. induction a as [|a IH]; intros i s; cbn [for_from Nat.add]; [by rewrite Z.add_0_r |].
  rewrite IH. f_equal. lia.
Qed.

Lemma for_from_ext {S : Type} (f g : Z -> S -> S) i j n s :
  (forall k s, 0 <= k < Z.of_nat n -> f (i + k) s = g (j + k) s) -> for_from f i n s = for_from g j n s.
Proof.
  revert i j s. induction n as [|n IH]; intros i j s Hfg; [done |]. cbn [for_from].
  pose proof (Hfg 0 s ltac:(lia)) as E. rewrite !Z.add_0_r in E. rewrite E. apply IH.
  intros k t Hk. replace (i + 1 + k) with (i + (k + 1)) by lia. replace (j + 1 + k) with (j + (k + 1)) by lia. apply Hfg. lia.
Qed.

(** Byte [i] of [v]. *)
Definition byte (v i : Z) : Z := (v / 256 ^ i) mod 256.

(** The number with bytes [f 0], ..., [f (n - 1)]. *)
Fixpoint number (n : nat) (f : Z -> Z) : Z :=
  match n with O => 0 | Datatypes.S n' => f 0 + 256 * number n' (fun i => f (i + 1)) end.

Lemma number_ext n f g : (forall i, 0 <= i < Z.of_nat n -> f i = g i) -> number n f = number n g.
Proof.
  revert f g. induction n as [|n IH]; intros f g E; [done |]. cbn [number]. rewrite (E 0) by lia. do 2 f_equal.
  apply IH. intros i Hi. apply E. lia.
Qed.

Lemma number_byte n v : 0 <= v < 256 ^ Z.of_nat n -> number n (byte v) = v.
Proof.
  revert v. induction n as [|n IH]; intros v Hv; [change (256 ^ Z.of_nat 0) with 1 in Hv; cbn; lia |]. cbn [number].
  rewrite (number_ext n _ (byte (v / 256))).
  - rewrite IH; [unfold byte; rewrite Z.pow_0_r, Z.div_1_r; zlia |].
    rewrite Nat2Z.inj_succ, Z.pow_succ_r in Hv by lia. split; [zlia |]. apply Z.div_lt_upper_bound; lia.
  - intros i Hi. unfold byte. rewrite Z.add_comm, Z.pow_add_r, Z.pow_1_r by lia. rewrite Z.div_div by lia. done.
Qed.

Section Machine.

Context (H : hwcfg) (nc : bool) (ws we : Z) `{HM : !DmaMap (xlate H) nc ws we}.
Context (Hon : dcache_enabled H = true) (Hline : 32 <= Cache.dcache_line_size H <= 64).

Abbreviation LS := (Cache.dcache_line_size H).
Abbreviation ALIAS := 0x40000000.

Lemma line_divides : 64 mod LS = 0.
Proof.
  destruct (line_size_pow2 H) as (k & Hk & E). rewrite E in *.
  assert (5 <= k) by (apply (Z.pow_le_mono_r_iff 2); lia). assert (k <= 6) by (apply (Z.pow_le_mono_r_iff 2); lia).
  assert (k = 5 \/ k = 6) as [-> | ->] by lia; reflexivity.
Qed.

Lemma aligned64 p : p mod 64 = 0 -> p mod LS = 0.
Proof.
  intros Hp. apply Z.mod_divide; [lia |]. etrans; [apply Z.mod_divide; [lia | exact line_divides] | by apply Z.mod_divide].
Qed.

Lemma covers_off p n q m : 0 < n -> 0 < m -> p + n <= q /\ q mod LS = 0 \/ q + m <= p /\ p mod LS = 0 ->
  forall k, covers H q m k -> ~ covers H p n k.
Proof.
  intros Hn Hm Hd k Hq Hp. destruct Hd as [[H1 H2] | [H1 H2]];
    [apply (apart_next H p n q m Hn H1 H2 k) | apply (apart_next H q m p n Hm H1 H2 k)]; done.
Qed.

Lemma lab_line : dcache_line_size H = LS.
Proof. done. Qed.

(** ** Reading *)

Lemma read_seen p n f s t i : ram_buf p n -> cached H p n -> seen H p n f s -> msys_bytes t -> keeps H none s t -> 0 <= i < n ->
  (load8 H (p + i) t).1 = f i.
Proof.
  intros Hr Hc Hs Ht Hk Hi. destruct (cached_ram H nc ws we Hon p n i Hr Hc Hi) as [C1 C2].
  pose proof (load8_c H (p + i) t Ht C1) as HL. destruct (load8 H (p + i) t) as [v t']. destruct HL as (_ & _ & Hv). cbn [fst].
  assert (Hs' : seen H p n f t) by (apply (seen_keep H none s); [done | by intros k _ [] | done]).
  destruct (Hs' i Hi) as [G1 G2]. rewrite C2 in Hv. by rewrite Hv.
Qed.

Lemma read_held p n f s t i : ram_buf p n -> held H p n f s -> msys_bytes t -> keeps H none s t -> 0 <= i < n ->
  (load8 H (p + ALIAS + i) t).1 = f i.
Proof.
  intros (Hn & Hp & He) Hs Ht Hk Hi. replace (p + ALIAS + i) with (p + i + ALIAS) by lia.
  destruct (alias_ram H nc ws we (p + i) ltac:(lia)) as [C1 C2].
  pose proof (load8_nc H (p + i + ALIAS) t Ht C2) as HL. destruct (load8 H (p + i + ALIAS) t) as [v t']. destruct HL as (_ & _ & Hv). cbn [fst].
  assert (Hs' : held H p n f t) by (apply (held_keep H none s); [done | by intros k _ [] | done]).
  destruct (Hs' i Hi) as [G1 G2]. rewrite C1 in Hv. by rewrite Hv.
Qed.

(** The states reading goes through. *)
Definition after (s t : msys) : Prop := msys_bytes t /\ keeps H none s t.

Lemma after_load s t a : after s t -> after s (load8 H a t).2.
Proof.
  intros [B K]. destruct (load8_kp H a t B) as [B2 K2]. split; [done |]. by apply (keeps_trans _ _ _ t).
Qed.

(** A run of loads, for any invariant [R] of the memory and any bytes [f]. *)
Lemma rd_le_gen (R : msys -> Prop) f n a m h o :
  (forall i t, 0 <= i < Z.of_nat n -> R t -> (load8 H (a + i) t).1 = f i /\ R (load8 H (a + i) t).2) ->
  0 <= a -> a + Z.of_nat n < 2 ^ 64 -> R m ->
  exists m', rd_le H n a (Lab m h o) = (number n f, Lab m' h o) /\ R m'.
Proof.
  revert f a m. induction n as [|n IH]; intros f a m Hf Ha He Hm; [by exists m |]. cbn [rd_le number].
  destruct (Hf 0 m ltac:(lia) Hm) as [F1 F2]. rewrite Z.add_0_r in F1, F2.
  rewrite (bind_eq (rd H a) _ _ (f 0) (Lab (load8 H a m).2 h o)).
  2: { unfold rd. cbn [lsys lheap lout]. destruct (load8 H a m) as [v m1]. cbn [fst snd] in *. by rewrite F1. }
  rewrite wrap64_small by lia. destruct (IH (fun i => f (i + 1)) (a + 1) (load8 H a m).2) as (m' & E & Hm'); [| lia | lia | done |].
  { intros i t Hi Ht. replace (a + 1 + i) with (a + (i + 1)) by lia. apply Hf; [lia | done]. }
  rewrite (bind_eq _ _ _ _ _ E). by exists m'.
Qed.

Lemma rd_le_any n a m h o : 0 <= a -> a + Z.of_nat n < 2 ^ 64 -> msys_bytes m ->
  exists v m', rd_le H n a (Lab m h o) = (v, Lab m' h o) /\ after m m'.
Proof.
  revert a m. induction n as [|n IH]; intros a m Ha He Hm.
  { exists 0, m. split; [done | split; [done | apply keeps_refl]]. }
  cbn [rd_le]. pose proof (after_load m m a ltac:(split; [done | apply keeps_refl])) as [B K].
  rewrite (bind_eq (rd H a) _ _ (load8 H a m).1 (Lab (load8 H a m).2 h o)) by (unfold rd; cbn [lsys]; by destruct (load8 H a m)).
  rewrite wrap64_small by lia. destruct (IH (a + 1) (load8 H a m).2 ltac:(lia) ltac:(lia) B) as (v & m' & E & [B' K']).
  rewrite (bind_eq _ _ _ _ _ E). do 2 eexists. split; [done |]. split; [done |]. by apply (keeps_trans _ _ _ (load8 H a m).2).
Qed.

(** The index [first_mismatch] finds among bytes [f]. *)
Fixpoint mism (f : Z -> Z) (i : Z) (b : list Z) : Z :=
  match b with [] => -1 | x :: b' => if f i =? x then mism f (i + 1) b' else i end.

Lemma mism_range f i b : 0 <= i -> mism f i b = -1 \/ i <= mism f i b < i + Z.of_nat (List.length b).
Proof.
  revert i. induction b as [|x b IH]; intros i Hi; [by left |]. cbn [mism List.length].
  destruct (Z.eqb_spec (f i) x); [destruct (IH (i + 1) ltac:(lia)); [by left | right; lia] | right; lia].
Qed.

Lemma mismatch_gen (R : msys -> Prop) a i b m h o :
  (forall t j, 0 <= j < i + Z.of_nat (List.length b) -> R t -> R (load8 H (a + j) t).2) ->
  0 <= a -> 0 <= i -> i + Z.of_nat (List.length b) < 2 ^ 31 -> a + (i + Z.of_nat (List.length b)) < 2 ^ 64 -> R m ->
  exists r m', first_mismatch H a i b (Lab m h o) = (r, Lab m' h o) /\ R m' /\ -1 <= r /\
    (forall f, (forall t j, i <= j < i + Z.of_nat (List.length b) -> R t -> (load8 H (a + j) t).1 = f j) -> r = mism f i b).
Proof.
  revert i m. induction b as [|x b IH]; intros i m HR Ha Hi Hb He Hm; cbn [first_mismatch mism List.length] in *.
  { exists (-1), m. split; [done | split; [done | split; [lia | done]]]. }
  rewrite (bind_eq (rd H (a +64 i)) _ _ (load8 H (a + i) m).1 (Lab (load8 H (a + i) m).2 h o)).
  2: { unfold rd. cbn [lsys]. rewrite wrap64_small by lia. by destruct (load8 H (a + i) m). }
  assert (R1 : R (load8 H (a + i) m).2) by (apply HR; [lia | done]).
  destruct (Z.eqb_spec (load8 H (a + i) m).1 x) as [E | E].
  - destruct (IH (i + 1) (load8 H (a + i) m).2) as (r & m' & E' & R' & Hr & Hf); [| lia | lia | lia | lia | done |].
    { intros t j Hj. apply HR. lia. }
    exists r, m'. split; [done | split; [done | split; [done |]]]. intros f Hf'.
    rewrite <- (Hf' m i ltac:(lia) Hm), (proj2 (Z.eqb_eq _ _) E). apply Hf. intros t j Hj. apply Hf'. lia.
  - exists i, (load8 H (a + i) m).2. split; [by unfold mret, L_ret; rewrite int32_small by lia | split; [done | split; [lia |]]].
    intros f Hf'. by rewrite <- (Hf' m i ltac:(lia) Hm), (proj2 (Z.eqb_neq _ _) E).
Qed.

(** Comparing a buffer in RAM with the local array. *)
Lemma mismatch_spec p b m h o :
  let n := Z.of_nat (List.length b) in
  ram_buf p n -> cached H p n -> msys_bytes m ->
  exists r m', first_mismatch H p 0 b (Lab m h o) = (r, Lab m' h o) /\ after m m' /\ -1 <= r /\
    forall f, seen H p n f m -> r = mism f 0 b.
Proof.
  intros n Hr Hc Hm. pose proof Hr as (Hn & Hp & He).
  destruct (mismatch_gen (after m) p 0 b m h o) as (r & m' & E & A & Hr1 & Hf).
  - intros t j _. apply after_load.
  - lia.
  - lia.
  - unfold n in *. lia.
  - unfold n in *. lia.
  - split; [done | apply keeps_refl].
  - exists r, m'. split; [done | split; [done | split; [done |]]]. intros f Hs. apply Hf. intros t j Hj [B K].
    apply (read_seen p n f m); auto.
Qed.

Lemma mism_eq f g n : (forall i, 0 <= i < n -> f i = g i) -> mism f 0 (map g (seqZ 0 n)) = -1.
Proof.
  enough (G : forall k i, (forall j, 0 <= j < Z.of_nat k -> f (i + j) = g (i + j)) -> mism f i (map g (seqZ i (Z.of_nat k))) = -1).
  { intros E. destruct (Z.le_gt_cases n 0); [by rewrite seqZ_nil by lia |]. rewrite <- (Z2Nat.id n) by lia. apply G.
    intros j Hj. apply E. lia. }
  induction k as [|k IH]; intros i E; [done |]. rewrite seqZ_cons by lia. cbn [map mism].
  pose proof (E 0 ltac:(lia)) as E0. rewrite Z.add_0_r in E0. rewrite E0, Z.eqb_refl.
  replace (Z.pred (Z.of_nat (Datatypes.S k))) with (Z.of_nat k) by lia. replace (Z.succ i) with (i + 1) by lia.
  apply IH. intros j Hj. replace (i + 1 + j) with (i + (j + 1)) by lia. apply E. lia.
Qed.

Lemma mism_first f g n : 0 < n -> f 0 <> g 0 -> mism f 0 (map g (seqZ 0 n)) = 0.
Proof. intros Hn E. rewrite seqZ_cons by lia. cbn [map mism]. by rewrite (proj2 (Z.eqb_neq _ _) E). Qed.

Lemma length_expected n seed : 0 <= n -> Z.of_nat (List.length (expected n seed)) = n.
Proof. intros Hn. unfold expected. rewrite List.length_map, length_seqZ. lia. Qed.

(** The scan for a byte other than [v]. *)
Lemma scan_gen (R : msys -> Prop) n p i v m h o :
  (forall t j, 0 <= j < i + Z.of_nat n -> R t -> R (load8 H (p + j) t).2) ->
  0 <= p -> 0 <= i -> p + (i + Z.of_nat n) < 2 ^ 64 -> R m ->
  exists r m', scan_const H n p i v (Lab m h o) = (r, Lab m' h o) /\ R m' /\
    ((forall t j, i <= j < i + Z.of_nat n -> R t -> (load8 H (p + j) t).1 = v) -> r = None).
Proof.
  revert i m. induction n as [|n IH]; intros i m HR Hp Hi He Hm; cbn [scan_const].
  { exists None, m. done. }
  rewrite (bind_eq (rd H (p +64 i)) _ _ (load8 H (p + i) m).1 (Lab (load8 H (p + i) m).2 h o)).
  2: { unfold rd. cbn [lsys]. rewrite wrap64_small by lia. by destruct (load8 H (p + i) m). }
  assert (R1 : R (load8 H (p + i) m).2) by (apply HR; [lia | done]).
  destruct (Z.eqb_spec (load8 H (p + i) m).1 v) as [E | E].
  - destruct (IH (i + 1) (load8 H (p + i) m).2) as (r & m' & E' & R' & Hf); [| lia | lia | lia | done |].
    { intros t j Hj. apply HR. lia. }
    exists r, m'. split; [done | split; [done |]]. intros Hf'. apply Hf. intros t j Hj. apply Hf'. lia.
  - exists (Some i), (load8 H (p + i) m).2. split; [done | split; [done |]]. intros Hf'. by rewrite Hf' in E by (lia || done).
Qed.

(** The polling loop, for any invariant that reading keeps. *)
Lemma poll_gen (R : msys -> Prop) n flag m h o :
  (forall t, R t -> exists v t', rd_le H 4 flag (Lab t h o) = (v, Lab t' h o) /\ R t') -> R m ->
  exists r m', poll_flag H n flag (Lab m h o) = (r, Lab m' h o) /\ R m' /\
    ((forall t, R t -> exists t', rd_le H 4 flag (Lab t h o) = (0, Lab t' h o) /\ R t') -> r = false).
Proof.
  intros HR. revert m. induction n as [|n IH]; intros m Hm; cbn [poll_flag]; [by exists false, m |].
  destruct (HR m Hm) as (v & m1 & E & R1). rewrite (bind_eq _ _ _ _ _ E). destruct (Z.eqb_spec v 1) as [-> | Hv].
  - exists true, m1. split; [done | split; [done |]]. intros Hz. destruct (Hz m Hm) as (t' & E' & _). by rewrite E in E'.
  - apply IH, R1.
Qed.

(** ** Writing *)

Lemma wr_le_eq n a v s : 0 <= a -> a + Z.of_nat n < 2 ^ 64 ->
  wr_le H n a v s = for_range 0 (Z.of_nat n) (fun i => store8 H (a +64 i) (byte v i)) s.
Proof.
  unfold for_range. rewrite Z.sub_0_r, Nat2Z.id. revert a v s. induction n as [|n IH]; intros a v s Ha He; [done |].
  cbn [wr_le for_from]. rewrite (wrap64_small (a + 0)), Z.add_0_r, (wrap64_small (a + 1)) by lia.
  replace (byte v 0) with (v mod 256) by (unfold byte; by rewrite Z.pow_0_r, Z.div_1_r).
  rewrite IH by lia. apply for_from_ext. intros k t Hk. unfold byte. rewrite !wrap64_small by lia.
  rewrite Z.div_div by lia. replace (256 * 256 ^ (0 + k)) with (256 ^ (0 + 1 + k)) by (replace (0 + 1 + k) with (k + 1) by lia; rewrite Z.pow_add_r, Z.pow_1_r, Z.add_0_l by lia; lia).
  f_equal. lia.
Qed.

Lemma byte_mod v i : byte v i mod 256 = byte v i.
Proof. apply Z.mod_mod. done. Qed.

(** A buffer of the lab: cacheable RAM that starts a line. *)
Definition buf (p n : Z) : Prop := ram_buf p n /\ cached H p n /\ p mod LS = 0.

Lemma buf_sub p n m : buf p n -> 0 < m <= n -> buf p m.
Proof. intros ((H1 & H2 & H3) & Hc & Ha) Hm. split; [split; lia | split; [intros a Hi; apply Hc; lia | done]]. Qed.

(** ** The heap *)

Definition up (al c : Z) : Z := (c + al - 1) / al * al.

Lemma up_spec al c : 0 < al -> c <= up al c < c + al /\ up al c mod al = 0.
Proof.
  intros Hal. unfold up. split; [| apply Z.mod_mul; lia].
  pose proof (Z.div_mod (c + al - 1) al ltac:(lia)). pose proof (Z.mod_pos_bound (c + al - 1) al ltac:(lia)). lia.
Qed.

Lemma lalloc_eq sz al m c e o : (al = 32 \/ al = 64) -> 0 <= c -> 0 <= sz -> c + 64 + sz <= e -> e < 2 ^ 62 ->
  lalloc sz al (Lab m (Kmem c e) o) = (up al c, Lab m (Kmem (up al c + sz) e) o).
Proof.
  intros Hal Hc Hsz He H62. unfold lalloc, kmem_alloc_aligned. cbn [lheap lsys lout cur kend].
  assert (Ea : Kmem.align_up c al = up al c).
  { destruct Hal as [-> | ->]; [apply (align_up_pow2 c 5) | apply (align_up_pow2 c 6)]; lia. }
  destruct (up_spec al c ltac:(lia)) as [Hu _].
  assert (Eal : (if negb (is_pow2 (if al <? 16 then 16 else al)) then round_up_pow2 (if al <? 16 then 16 else al) else if al <? 16 then 16 else al) = al)
    by (by destruct Hal as [-> | ->]).
  cbv zeta. rewrite Eal, Ea, wrap64_small, (proj2 (Z.ltb_ge _ _)) by lia. done.
Qed.

(** ** A hardware that keeps its lines *)

(** It may fetch lines but evicts none. *)
Definition lazy : Prop := forall n e, e ∈ noise H n -> exists k, e = HFill k.

(** Memory and the cached lines are where they were. *)
Definition still (s s' : msys) : Prop := pmem s' = pmem s /\ forall k l, cache s !! k = Some l -> cache s' !! k = Some l.

Lemma still_trans s1 s2 s3 : still s1 s2 -> still s2 s3 -> still s1 s3.
Proof. intros [A1 A2] [B1 B2]. split; [by rewrite B1 | auto]. Qed.

Lemma fill_still k s : still s (fill k s).
Proof.
  unfold fill. destruct (cache s !! k) eqn:E; [done |]. split; [done |]. cbn [put_line cache]. intros j l Hj.
  rewrite lookup_insert_ne; [done |]. intros ->. by rewrite E in Hj.
Qed.

Lemma tick_lazy s : lazy -> still s (tick H s).
Proof.
  intros Hz. unfold tick. assert (Hl : forall e, e ∈ noise H (now s) -> exists k, e = HFill k) by (intros e; apply Hz).
  enough (G : forall l s0, (forall e, e ∈ l -> exists k, e = HFill k) -> still s0 (fold_left (hw_event H) l s0)) by exact (G _ s Hl).
  clear. induction l as [|e l IH]; intros s0 Hl; [done |]. cbn [fold_left]. destruct (Hl e ltac:(by left)) as [k ->]. cbn [hw_event].
  eapply still_trans; [apply fill_still |]. apply IH. intros e He. apply Hl. by right.
Qed.

Lemma load8_lazy a s : lazy -> still s (load8 H a s).2.
Proof.
  intros Hz. unfold load8. destruct (cacheable H a); [| by apply tick_lazy]. eapply still_trans; [by apply tick_lazy | apply fill_still].
Qed.

Lemma store8_lazy a v s : lazy -> pmem (store8 H a v s) = if cacheable H a then pmem s else st8 (xlate H a).1 v (pmem s).
Proof.
  intros Hz. unfold store8. destruct (tick_lazy s Hz) as [T _]. destruct (cacheable H a); [| cbn [set_pmem pmem]; by rewrite T].
  cbn [put_line pmem]. destruct (fill_still (line_of H (xlate H a).1) (tick H s)) as [-> _]. exact T.
Qed.

(** Stores through the cacheable mapping stay in the cache. *)
Lemma stores_lazy p n g s : lazy -> buf p n -> pmem (for_range 0 n (fun i => store8 H (p +64 i) (g i)) s) = pmem s.
Proof.
  intros Hz (Hr & Hc & _). pose proof Hr as (Hn & Hp & He).
  apply (for_range_ind (fun _ t => pmem t = pmem s)); [lia | done |]. intros i t Hi E. rewrite wrap64_small by lia.
  rewrite store8_lazy by done. by rewrite (proj1 (cached_ram H nc ws we Hon p n i Hr Hc ltac:(lia))).
Qed.

Lemma inval_lazy_ram p n s : lazy -> ram_buf p n -> pmem (dc_ivac_range H p n s) = pmem s.
Proof.
  intros Hz Hr. destruct (ram_ranges H nc ws we p n Hr) as [R1 R2]. unfold dc_ivac_range. rewrite dc_range_eq by done.
  cbn [log pmem]. change (pmem s) with (pmem (log DMB_ISH s)). generalize (log DMB_ISH s), (lines_of H p n). clear -Hz.
  intros s l. revert s. induction l as [|a l IH]; intros s; [done |]. cbn [foldl]. rewrite IH. cbn [dc_ivac_line log drop_line pmem].
  by apply tick_lazy.
Qed.

(** The device then copies what memory holds. *)
Lemma copy_lazy dst src n s b : lazy -> ram_buf dst n -> ram_buf src n -> src + n <= dst -> msys_bytes s ->
  ld8 (pmem (device_memcpy H (dst + ALIAS) (src + ALIAS) n s)) b =
    if (dst <=? b) && (b <? dst + n) then ld8 (pmem s) (src + (b - dst)) else ld8 (pmem s) b.
Proof.
  intros Hz (Hn & Hd & Hde) (_ & Hs & Hse) Hle Hb. unfold device_memcpy. revert b.
  set (P := fun j t => msys_bytes t /\ forall b, ld8 (pmem t) b = if (dst <=? b) && (b <? dst + j) then ld8 (pmem s) (src + (b - dst)) else ld8 (pmem s) b).
  apply (for_range_ind P); [lia | |].
  { split; [done |]. intros b. repeat bdestr; simpl; lia || done. }
  intros j t Hj [B P1]. rewrite !wrap64_small by lia.
  replace (src + ALIAS + j) with (src + j + ALIAS) by lia. replace (dst + ALIAS + j) with (dst + j + ALIAS) by lia.
  destruct (alias_ram H nc ws we (src + j) ltac:(lia)) as [X1 X2], (alias_ram H nc ws we (dst + j) ltac:(lia)) as [Y1 Y2].
  destruct (load8_lazy (src + j + ALIAS) t Hz) as [E _]. destruct (load8_kp H (src + j + ALIAS) t B) as [B2 _].
  assert (V : (load8 H (src + j + ALIAS) t).1 = ld8 (pmem t) (src + j)).
  { unfold load8. rewrite X2. cbn [fst]. rewrite X1. cbn [fst]. by destruct (tick_lazy t Hz) as [-> _]. }
  destruct (load8 H (src + j + ALIAS) t) as [v t1]. cbn [fst snd] in *. destruct (store8_kp H (dst + j + ALIAS) v t1 B2) as [B3 _].
  split; [done |]. intros b. rewrite store8_lazy by done. rewrite Y2, Y1. cbn [fst]. rewrite E, ld8_st8, V, !P1.
  rewrite (Z.mod_small (if _ : bool then _ else _)) by (repeat case_match; apply Hb).
  destruct (Z.eqb_spec (dst + j) b) as [<- |]; repeat bdestr; simpl; try lia; try done. f_equal. lia.
Qed.

(** A buffer whose bytes are all in the cache. *)
Definition resident (p n : Z) (f : Z -> Z) (s : msys) : Prop :=
  forall i, 0 <= i < n -> exists d b, cache s !! line_of H (p + i) = Some (CLine d b) /\ ld8 b (p + i) = f i.

Lemma resident_still p n f s s' : still s s' -> resident p n f s -> resident p n f s'.
Proof. intros [_ Hc] Hr i Hi. destruct (Hr i Hi) as (d & b & E1 & E2). exists d, b. split; [by apply Hc | done]. Qed.

Lemma resident_stores p n g s : lazy -> buf p n ->
  resident p n (fun i => g i mod 256) (for_range 0 n (fun i => store8 H (p +64 i) (g i)) s).
Proof.
  intros Hz (Hr & Hc & _). pose proof Hr as (Hn & Hp & He).
  apply (for_range_ind (fun j t => resident p j (fun i => g i mod 256) t)); [lia | by intros i Hi; lia |].
  intros j t Hj IH. rewrite wrap64_small by lia. destruct (cached_ram H nc ws we Hon p n j Hr Hc ltac:(lia)) as [C1 C2].
  unfold store8. rewrite C1, C2. set (k := line_of H (p + j)).
  assert (S : still t (fill k (tick H t))) by (eapply still_trans; [by apply tick_lazy | apply fill_still]).
  apply (resident_still _ _ _ _ _ S) in IH. set (t1 := fill k (tick H t)) in *. clearbody t1. intros i Hi. cbn [put_line cache].
  destruct (Z.eq_dec k (line_of H (p + i))) as [Hk | Hne].
  - rewrite <- Hk, lookup_insert, decide_True by done. do 2 eexists. split; [done |]. rewrite ld8_st8.
    destruct (Z.eqb_spec (p + j) (p + i)) as [| Hij]; [by replace i with j by lia |].
    destruct (IH i ltac:(lia)) as (d & b & E1 & E2). rewrite <- Hk in E1. unfold line_bytes. by rewrite E1.
  - rewrite lookup_insert_ne by done. apply IH. enough (i <> j) by lia. by intros ->.
Qed.

Lemma resident_clean p n f q m s : lazy -> ram_buf q m -> resident p n f s -> resident p n f (dc_cvac_range H q m s).
Proof.
  intros Hz Hr Hs. destruct (ram_ranges H nc ws we q m Hr) as [R1 R2]. unfold dc_cvac_range. rewrite dc_range_eq by done.
  change (resident p n f (foldl (fun s a => dc_cvac_line H a s) (log DMB_ISH s) (lines_of H q m))).
  assert (Hs' : resident p n f (log DMB_ISH s)) by exact Hs. revert Hs'. generalize (log DMB_ISH s), (lines_of H q m). clear Hs.
  intros t l. revert t. induction l as [|a l IH]; intros t Ht; [done |]. cbn [foldl]. apply IH.
  intros i Hi. destruct (resident_still _ _ _ _ _ (tick_lazy t Hz) Ht i Hi) as (d & b & E1 & E2).
  unfold dc_cvac_line. cbn [log cache]. set (k := line_of H (xlate H a).1). unfold writeback.
  destruct (cache (tick H t) !! k) as [[[] b'] |] eqn:E; [| by exists d, b | by exists d, b]. cbn [put_line set_pmem cache].
  destruct (Z.eq_dec k (line_of H (p + i))) as [Hk | Hne]; [| rewrite lookup_insert_ne by done; by exists d, b].
  rewrite <- Hk, lookup_insert, decide_True by done. rewrite Hk, E1 in E. injection E as _ <-. by exists false, b.
Qed.

Lemma resident_alias p n f q m g s : lazy -> ram_buf q m -> resident p n f s ->
  resident p n f (for_range 0 m (fun i => store8 H (q + ALIAS +64 i) (g i)) s).
Proof.
  intros Hz (Hm & Hq & He) Hs. apply (for_range_ind (fun _ t => resident p n f t)); [lia | done |]. intros i t Hi Ht.
  rewrite wrap64_small by lia. replace (q + ALIAS + i) with (q + i + ALIAS) by lia. destruct (alias_ram H nc ws we (q + i) ltac:(lia)) as [_ C].
  unfold store8. rewrite C. exact (resident_still _ _ _ _ _ (tick_lazy t Hz) Ht).
Qed.

Lemma resident_load p n f s i : lazy -> buf p n -> resident p n f s -> 0 <= i < n -> (load8 H (p + i) s).1 = f i.
Proof.
  intros Hz (Hr & Hc & _) Hs Hi. destruct (cached_ram H nc ws we Hon p n i Hr Hc Hi) as [C1 C2]. unfold load8. rewrite C1, C2. cbn [fst].
  destruct (resident_still _ _ _ _ _ (tick_lazy s Hz) Hs i Hi) as (d & b & E1 & E2). unfold fill. rewrite E1.
  unfold view, line_bytes. by rewrite E1.
Qed.

(** ** Operations, in the form the walks below use *)

Lemma buf_ram p n : buf p n -> ram_buf p n.
Proof. by intros [H1 _]. Qed.

Lemma seen_ext p n f g s : (forall i, 0 <= i < n -> f i = g i) -> seen H p n f s -> seen H p n g s.
Proof. intros E Hs i Hi. rewrite <- E by done. by apply Hs. Qed.

Lemma held_ext p n f g s : (forall i, 0 <= i < n -> f i = g i) -> held H p n f s -> held H p n g s.
Proof. intros E Hs i Hi. rewrite <- E by done. by apply Hs. Qed.

Lemma fill_byte_mod seed i : fill_byte seed i mod 256 = fill_byte seed i.
Proof. unfold fill_byte. by rewrite Z.mod_mod. Qed.

Lemma memfill_op p n seed s : buf p n -> msys_bytes s -> rest H p s ->
  let s' := memfill H p n seed s in msys_bytes s' /\ keeps H (covers H p n) s s' /\ seen H p n (fill_byte seed) s'.
Proof.
  intros (Hr & Hc & Ha) Hs Hg. destruct (fill_seen H nc ws we Hon p n (fill_byte seed) s Hr Hc Hs) as (B & K & S).
  { intros i Hi. apply (rest_good H p s p n); [done | done | done | done]. }
  split; [exact B | split; [exact K |]]. refine (seen_ext p n _ _ _ _ S). intros i Hi. apply fill_byte_mod.
Qed.

Lemma refill_op p n seed f s : buf p n -> msys_bytes s -> seen H p n f s ->
  let s' := memfill H p n seed s in
  msys_bytes s' /\ keeps H (covers H p n) s s' /\ (seen H p n (fill_byte seed) s' /\ (lazy -> pmem s' = pmem s)).
Proof.
  intros Hb Hs Hg. pose proof Hb as (Hr & Hc & Ha). destruct (fill_seen H nc ws we Hon p n (fill_byte seed) s Hr Hc Hs) as (B & K & S).
  { intros i Hi. by apply Hg. }
  split; [exact B | split; [exact K | split]]; [| intros Hz; by apply stores_lazy].
  refine (seen_ext p n _ _ _ _ S). intros i Hi. apply fill_byte_mod.
Qed.

Lemma const_op p n v s : buf p n -> msys_bytes s -> rest H p s ->
  let s' := memfill_const H p n v s in msys_bytes s' /\ keeps H (covers H p n) s s' /\ seen H p n (fun _ => v mod 256) s'.
Proof.
  intros (Hr & Hc & Ha) Hs Hg. apply fill_seen with (1 := HM) (g := fun _ => v); try done.
  intros i Hi. apply (rest_good H p s p n); done.
Qed.

Lemma wr_le_op n p v s : buf p (Z.of_nat n) -> msys_bytes s ->
  (forall i, 0 <= i < Z.of_nat n -> line_good H s (line_of H (p + i))) ->
  let s' := wr_le H n p v s in msys_bytes s' /\ keeps H (covers H p (Z.of_nat n)) s s' /\ seen H p (Z.of_nat n) (byte v) s'.
Proof.
  intros (Hr & Hc & Ha) Hs Hg. pose proof Hr as (H1 & H2 & H3). rewrite wr_le_eq by lia.
  destruct (fill_seen H nc ws we Hon p (Z.of_nat n) (byte v) s Hr Hc Hs Hg) as (B & K & S).
  split; [exact B | split; [exact K |]]. refine (seen_ext _ _ _ _ _ _ S). intros i _. apply byte_mod.
Qed.

Lemma rest_lines p n s : buf p n -> rest H p s -> forall i, 0 <= i < n -> line_good H s (line_of H (p + i)).
Proof. intros (_ & _ & Ha) Hs i Hi. by apply (rest_good H p s p n). Qed.

Lemma clean_op p n f s : buf p n -> msys_bytes s -> seen H p n f s ->
  let s' := dc_cvac_range H p n s in msys_bytes s' /\ keeps H none s s' /\ (seen H p n f s' /\ held H p n f s').
Proof.
  intros (Hr & _ & _) Hs Hf. destruct (clean_spec H nc ws we Hon p n s Hr Hs) as (B & K & _ & G). split; [exact B | split; [exact K | auto]].
Qed.

Lemma inval_op p n f s : buf p n -> msys_bytes s -> held H p n f s ->
  let s' := dc_ivac_range H p n s in msys_bytes s' /\ keeps H (covers H p n) s s' /\ (seen H p n f s' /\ held H p n f s').
Proof.
  intros (Hr & _ & _) Hs Hf. destruct (inval_spec H nc ws we Hon p n s Hr Hs) as (B & K & _ & G). split; [exact B | split; [exact K | auto]].
Qed.

Lemma poc_op p n f s : buf p n -> msys_bytes s -> seen H p n f s ->
  let s' := clean_to_poc H p n s in msys_bytes s' /\ keeps H none s s' /\ (seen H p n f s' /\ held H p n f s').
Proof.
  intros Hb Hs Hf. destruct (clean_op p n f s Hb Hs Hf) as (B & K & G).
  destruct (log_kp H DMB_OSHST _ B) as [B' K']. split; [exact B' | split; [exact (keeps_trans _ _ _ _ _ K K') | exact G]].
Qed.

Lemma cpu_op p n f s : buf p n -> msys_bytes s -> held H p n f s ->
  let s' := invalidate_for_cpu H p n s in msys_bytes s' /\ keeps H (covers H p n) s s' /\ (seen H p n f s' /\ held H p n f s').
Proof.
  intros Hb Hs Hf. destruct (log_kp H DMB_OSHLD s Hs) as [B' K'].
  destruct (inval_op p n f (log DMB_OSHLD s) Hb B' Hf) as (B & K & G). split; [exact B | split; [| exact G]].
  exact (keeps_trans _ _ _ _ _ (keeps_none _ _ _ _ K') K).
Qed.

(** The device's copy between two buffers, one after the other. *)
Lemma copy_op dst src n f g s : buf dst n -> buf src n -> src + n <= dst -> msys_bytes s -> held H src n f s -> held H dst n g s ->
  let s' := device_memcpy H (dst + ALIAS) (src + ALIAS) n s in
  msys_bytes s' /\ keeps H (covers H dst n) s s' /\ (held H dst n f s' /\ held H src n f s').
Proof.
  intros (Hd & _ & Had) (Hs & _ & _) Hle Hb Hh Hg.
  assert (Hap : apart H dst n src n) by (apply apart_sym, (apart_next H); [apply Hs | done | done]).
  destruct (copy_spec H nc ws we dst src n f s Hd Hs Hap Hb Hh) as (B & K & G & _).
  { intros k Hk. destruct (covers_byte_ex H dst n k Hd Hk) as (i & Hi & <-). by apply Hg. }
  split; [exact B | split; [exact K | split; [exact G |]]]. apply (held_keep H _ _ _ _ _ _ K); [| done].
  intros k H1 H2. by apply (Hap k).
Qed.

(** The device's copy, whatever the source's lines: tidy lines stay tidy. *)
Definition tidy (p n : Z) (s : msys) : Prop := forall i, 0 <= i < n -> line_clean s (line_of H (p + i)).

Lemma held_tidy p n f s : held H p n f s -> tidy p n s.
Proof. intros Hh i Hi. by apply Hh. Qed.

Lemma tidy_held p n s : tidy p n s -> held H p n (fun i => ld8 (pmem s) (p + i)) s.
Proof. intros Ht i Hi. by split; [apply Ht |]. Qed.

Lemma copy_any dst src n s : buf dst n -> ram_buf src n -> src + n <= dst -> msys_bytes s -> tidy dst n s ->
  let s' := device_memcpy H (dst + ALIAS) (src + ALIAS) n s in
  msys_bytes s' /\ keeps H (covers H dst n) s s' /\ (held H dst n (fun i => ld8 (pmem s') (dst + i)) s' /\
    (lazy -> forall i, 0 <= i < n -> ld8 (pmem s') (dst + i) = ld8 (pmem s) (src + i))).
Proof.
  intros (Hrd & _ & _) Hrs Hle Hb Ht s'. pose proof Hrd as (Hn & Hd & Hde). pose proof Hrs as (_ & Hs & Hse).
  assert (G : msys_bytes s' /\ keeps H (covers H dst n) s s').
  { unfold s', device_memcpy. apply for_range_kp; [| done]. intros t i Hi Hbt. rewrite !wrap64_small by lia.
    pose proof (load8_kp H (src + ALIAS + i) t Hbt) as [L1 L2]. destruct (load8 H (src + ALIAS + i) t) as [v t1]. cbn [snd] in *.
    destruct (store8_kp H (dst + ALIAS + i) v t1 L1) as [S1 S2]. split; [done |].
    apply (keeps_trans _ _ _ t1); [by apply keeps_none |]. refine (keeps_weaken _ _ _ _ _ _ S2). intros k <-.
    replace (dst + ALIAS + i) with (dst + i + ALIAS) by lia. rewrite (proj1 (alias_ram H nc ws we (dst + i) ltac:(lia))). apply covers_byte. cbn. lia. }
  split; [apply G | split; [apply G | split]].
  2: { intros Hz i Hi. unfold s'. rewrite copy_lazy by done. rewrite (proj2 (Z.leb_le _ _)), (proj2 (Z.ltb_lt _ _)) by lia. cbn [andb]. f_equal. lia. }
  apply tidy_held. intros i Hi. unfold s'.
  enough (C : forall k, line_clean s k -> line_clean (device_memcpy H (dst + ALIAS) (src + ALIAS) n s) k) by (apply C, Ht, Hi).
  intros k Hk. unfold device_memcpy.
  apply (for_range_ind (fun _ t => msys_bytes t /\ line_clean t k)); [lia | done |]. intros j t Hj [Hbt Hc]. rewrite !wrap64_small by lia.
  pose proof (load8_kp H (src + ALIAS + j) t Hbt) as [L1 L2]. destruct (load8 H (src + ALIAS + j) t) as [v t1]. cbn [snd] in *.
  replace (dst + ALIAS + j) with (dst + j + ALIAS) by lia. destruct (alias_ram H nc ws we (dst + j) ltac:(lia)) as [_ C].
  destruct (store8_nc H (dst + j + ALIAS) v t1 L1 C) as (B & _ & S3 & _). split; [exact B |]. apply S3. apply (kp_clean _ _ _ _ L2); [by intros [] | done].
Qed.

Lemma expected_op p n seed f m h o : buf p n -> msys_bytes m -> seen H p n f m ->
  exists r m', first_mismatch H p 0 (expected n seed) (Lab m h o) = (r, Lab m' h o) /\ after m m' /\ -1 <= r /\
    r = mism f 0 (expected n seed).
Proof.
  intros (Hr & Hc & _) Hm Hs. pose proof (length_expected n seed ltac:(destruct Hr; lia)) as Hl.
  pose proof (mismatch_spec p (expected n seed) m h o) as G. cbv zeta in G. rewrite Hl in G.
  destruct (G Hr Hc Hm) as (r & m' & E & A & Hr1 & Hf). exists r, m'. auto.
Qed.

(** Operations that leave cached bytes in the cache. *)
Definition stays (s s' : msys) : Prop := lazy -> forall p n f, resident p n f s -> resident p n f s'.

Lemma const_res_op p n v s : buf p n -> msys_bytes s -> rest H p s ->
  let s' := memfill_const H p n v s in
  msys_bytes s' /\ keeps H (covers H p n) s s' /\ (seen H p n (fun _ => v mod 256) s' /\ (lazy -> resident p n (fun _ => v mod 256) s')).
Proof.
  intros Hb Hs Hg. destruct (const_op p n v s Hb Hs Hg) as (B & K & S). split; [exact B | split; [exact K | split; [exact S |]]].
  intros Hz. by apply resident_stores.
Qed.

Lemma clean_res_op p n f s : buf p n -> msys_bytes s -> seen H p n f s ->
  let s' := dc_cvac_range H p n s in msys_bytes s' /\ keeps H none s s' /\ ((seen H p n f s' /\ held H p n f s') /\ stays s s').
Proof.
  intros Hb Hs Hf. destruct (clean_op p n f s Hb Hs Hf) as (B & K & G). split; [exact B | split; [exact K | split; [exact G |]]].
  intros Hz q m g Hr. apply resident_clean; [done | apply Hb | done].
Qed.

(** Stores through the alias into a tidy buffer. *)
Lemma alias_op p n v f s : buf p n -> msys_bytes s -> held H p n f s ->
  let s' := memfill_const H (p + ALIAS) n v s in
  msys_bytes s' /\ keeps H (covers H p n) s s' /\ (held H p n (fun _ => v mod 256) s' /\ stays s s').
Proof.
  intros (Hr & _ & _) Hs Hf. destruct (fill_held H nc ws we p n (fun _ => v) s Hr Hs) as (B & K & G & _); [intros i Hi; by apply Hf |].
  split; [exact B | split; [exact K | split; [exact G |]]]. intros Hz q m g Hq. by apply resident_alias.
Qed.

Lemma rd_op a m h o : msys_bytes m -> exists v m', rd H a (Lab m h o) = (v, Lab m' h o) /\ after m m' /\ stays m m'.
Proof.
  intros Hm. exists (load8 H a m).1, (load8 H a m).2. split; [unfold rd; cbn [lsys]; by destruct (load8 H a m) |].
  split; [apply after_load; split; [done | apply keeps_refl] |]. intros Hz p n f. apply resident_still, (load8_lazy a m Hz).
Qed.

(** Reading goes through states that, on a lazy hardware, are still. *)
Definition after_still (s t : msys) : Prop := after s t /\ (lazy -> still s t).

Lemma after_still_refl s : msys_bytes s -> after_still s s.
Proof. intros Hs. split; [split; [done | apply keeps_refl] | done]. Qed.

Lemma after_still_load s t a : after_still s t -> after_still s (load8 H a t).2.
Proof. intros [A Z]. split; [by apply after_load |]. intros Hz. eapply still_trans; [by apply Z | by apply load8_lazy]. Qed.

Lemma scan_op p n v m h o : buf p n -> msys_bytes m ->
  exists r m', scan_const H (Z.to_nat n) p 0 v (Lab m h o) = (r, Lab m' h o) /\ after m m' /\
    (seen H p n (fun _ => v) m -> r = None) /\ (lazy -> resident p n (fun _ => v) m -> r = None).
Proof.
  intros Hb Hm. pose proof Hb as (Hr & Hc & _). pose proof Hr as (Hn & Hp & He).
  destruct (scan_gen (after_still m) (Z.to_nat n) p 0 v m h o) as (r & m' & E & [A _] & Hf); [| lia | lia | lia | by apply after_still_refl |].
  { intros t j _. apply after_still_load. }
  exists r, m'. split; [done | split; [done | split]].
  - intros Hs. apply Hf. intros t j Hj [[B K] _]. apply (read_seen p n (fun _ => v) m); auto. lia.
  - intros Hz Hs. apply Hf. intros t j Hj [_ S]. apply (resident_load p n (fun _ => v)); [done | done | | lia].
    exact (resident_still _ _ _ _ _ (S Hz) Hs).
Qed.

Lemma scan_ok_op p n v m h o : buf p n -> msys_bytes m -> seen H p n (fun _ => v) m ->
  exists r m', scan_const H (Z.to_nat n) p 0 v (Lab m h o) = (r, Lab m' h o) /\ after m m' /\ r = None.
Proof.
  intros Hb Hm Hs. destruct (scan_op p n v m h o Hb Hm) as (r & m' & E & A & Hr & _). exists r, m'. auto.
Qed.

(** ** The experiments *)

Record lab_ok (room : Z) (s : lab) : Prop := {
  lo_bytes : msys_bytes (lsys s);
  lo_low : 0x40000000 <= cur (lheap s);
  lo_room : cur (lheap s) + room <= kend (lheap s);
  lo_high : kend (lheap s) <= 0x80000000;
  lo_cached : forall a, cur (lheap s) <= a < kend (lheap s) -> (xlate H a).2 = true;
  lo_rest : rest H (cur (lheap s)) (lsys s)
}.

(** The last line of an experiment: it worked, or the provoked failure did not
    appear. *)
Definition verdict (n : Z) (b : bool) : string :=
  if n =? 1 then if b then "[dma-lab][1] OK fixed PASS (clean + dma_wmb)" else "[dma-lab][1] ERR unexpected PASS (bug did not reproduce)"
  else if n =? 2 then
    if b then "[dma-lab][2] OK fixed PASS (dma_rmb + invalidate)"
    else "[dma-lab][2] ERR unexpected PASS (CPU observed device write without invalidate)"
  else if n =? 3 then
    if b then "[dma-lab][3] OK fixed PASS (clean desc + dma_wmb)"
    else "[dma-lab][3] ERR unexpected PASS (descriptor bug did not reproduce)"
  else if n =? 4 then
    if b then "[dma-lab][4] OK fixed PASS (clean desc + dma_wmb before publish)"
    else "[dma-lab][4] ERR unexpected PASS (publish ordering bug did not reproduce)"
  else if n =? 5 then
    if b then "[dma-lab][5] OK fixed PASS (dma_rmb + invalidate)"
    else "[dma-lab][5] ERR unexpected PASS (saw completion without invalidate)"
  else
    if b then "[dma-lab][6] OK fixed PASS (line-aligned buffer avoids sharing)"
    else "[dma-lab][6] ERR unexpected PASS (guard survived invalidate)".

(** What each experiment is shown to do: at most 4 KiB of heap, the lab's
    invariant for the next, one of the two verdicts, the first when the hardware
    keeps its lines. *)
Definition outcome (n room : Z) (s : lab) (r : bool * lab) : Prop :=
  lab_ok room r.2 /\ (lazy -> r.1 = true) /\ exists t, lout r.2 = lout s ++ t ++ puts_bytes (chars (verdict n r.1 ++ nl)).

Lemma heap_buf c e p n : 0x40000000 <= c -> e <= 0x80000000 -> (forall a, c <= a < e -> (xlate H a).2 = true) ->
  c <= p -> 0 < n -> p + n <= e -> p mod LS = 0 -> buf p n.
Proof. intros Hc He Hx Hp Hn Ht Ha. split; [split; lia | split; [intros a Hi; apply Hx; lia | done]]. Qed.

Lemma to_alias_eq p n : ram_buf p n -> to_alias p n = p + ALIAS.
Proof.
  intros (Hn & Hp & He). unfold to_alias, nullptr, kNormalStart, kNormalEnd, kAliasOffset.
  rewrite !(proj2 (Z.eqb_neq _ 0)) by lia. cbn [orb]. cbv zeta. rewrite (wrap64_small (n - 1)), (wrap64_small (p + (n - 1))), (wrap64_small (p + 0x40000000)) by lia.
  rewrite (proj2 (Z.ltb_ge (p + (n - 1)) p)), (proj2 (Z.ltb_ge p 0x40000000)), (proj2 (Z.leb_gt 0x80000000 (p + (n - 1)))) by lia. done.
Qed.

(** Blocks of the heap are not null, nor are their aliases. *)
Lemma block_live p n : ram_buf p n -> (p =? nullptr) = false /\ (p + ALIAS =? nullptr) = false.
Proof. intros (Hn & Hp & He). unfold nullptr. by rewrite !(proj2 (Z.eqb_neq _ 0)) by lia. Qed.

(** ** Walking through an experiment *)

Ltac side :=
  solve [ by intros ? _ []
        | apply covers_off; [lia | lia | first [left; split; [lia | assumption] | right; split; [lia | assumption]]]
        | intros ? ?; by intros []
        | intros ? ?; eapply covers_below; [| | eassumption]; lia ].

(** Carry what is known about the other buffers over an operation. *)
Ltac frame K :=
  lazymatch type of K with keeps _ _ ?s _ =>
  repeat match goal with
  | Hs : seen H _ _ _ s |- _ => eapply (seen_keep _ _ _ _ _ _ _ K) in Hs; [| side]
  | Hs : held H _ _ _ s |- _ => eapply (held_keep _ _ _ _ _ _ _ K) in Hs; [| side]
  | Hs : rest H _ s |- _ => eapply (rest_keep _ _ _ _ _ K) in Hs; [| side]
  end end.

(** [op T]: the operation of lemma [T] on the current memory. *)
Ltac prems X :=
  repeat lazymatch type of X with
  | ?P -> _ =>
    let h := fresh in
    assert (h : P) by (first [eassumption | lia | reflexivity | eapply buf_ram; eassumption | eapply held_tidy; eassumption]); specialize (X h); clear h
  end.

Ltac op_done X :=
  prems X; cbv zeta in X;
  lazymatch type of X with
  | msys_bytes ?m' /\ keeps _ _ _ _ /\ _ =>
    let B := fresh "B" in let K := fresh "K" in
    destruct X as (B & K & X); frame K; clear K;
    let m1 := fresh "m" in set (m1 := m') in *; clearbody m1
  end.

Tactic Notation "op" uconstr(T) "as" simple_intropattern(P) :=
  lazymatch goal with
  | |- context [(on_sys _ ≫= _) (Lab ?m _ _)] =>
    rewrite bind_sys; let X := fresh "X" in epose proof (T m) as X; op_done X; revert X; intros P
  end.

(** A run of loads, by lemma [T]: a value and what is known of it. *)
Tactic Notation "look" uconstr(T) "as" ident(r) simple_intropattern(P) :=
  lazymatch goal with
  | |- context [(_ ≫= _) (Lab ?m ?h ?o)] =>
    let m1 := fresh "m" in let E := fresh "E" in let B := fresh "B" in let K := fresh "K" in let X := fresh "X" in
    let Y := fresh "Y" in epose proof (T m h o) as Y; prems Y; destruct Y as (r & m1 & E & [B K] & X);
    rewrite (bind_eq _ _ _ _ _ E); clear E; revert X; intros P; frame K; clear K
  end.

(** The next block, of [n] bytes aligned to 64, is [p]. *)
Ltac alloc n p :=
  lazymatch goal with
  | |- context [(lalloc n 64 ≫= _) (Lab ?m (Kmem ?c ?e) ?o)] =>
    rewrite (bind_eq _ _ _ _ _ (lalloc_eq n 64 m c e o ltac:(by right) ltac:(lia) ltac:(lia) ltac:(lia) ltac:(lia)))
  end;
  lazymatch goal with
  | |- context [Kmem (up 64 ?c + _) ?e] =>
    let U := fresh "U" in let A := fresh "A" in destruct (up_spec 64 c ltac:(lia)) as [U A%aligned64];
    set (p := up 64 c) in *; clearbody p;
    let Bf := fresh "Bf" in assert (Bf : buf p n) by (eapply (heap_buf _ e); [| | eassumption | ..]; first [assumption | lia]);
    let R := fresh "R" in lazymatch goal with Hre : rest H _ ?m |- _ => assert (R : rest H p m) by (eapply rest_weaken; [| exact Hre]; lia) end
  end.

Lemma outcome_intro n room m c e o b m' c' o' :
  lab_ok room (Lab m' (Kmem c' e) o') -> (lazy -> b = true) -> ext o o' ->
  outcome n room (Lab m (Kmem c e) o) (b, Lab m' (Kmem c' e) (o' ++ puts_bytes (chars (verdict n b ++ nl)))).
Proof.
  intros [] Hz [t ->]. split; [by split | split; [done |]]. exists t. cbn [lout snd]. by rewrite app_assoc.
Qed.

(** The end of an experiment. *)
Ltac verdict_is :=
  says; apply outcome_intro;
  [ split; cbn [lsys lheap cur kend];
    [assumption | lia | lia | lia | let a := fresh in intros a ?; match goal with Hx : forall _, _ -> (xlate H _).2 = true |- _ => apply Hx; lia end | assumption]
  | first [intros _; reflexivity | intros Hz; exfalso]
  | repeat apply ext_snoc; apply ext_refl ].

Lemma case1_spec room s : lab_ok (4096 + room) s -> 0 <= room -> outcome 1 room s (case1_cpu_to_dev_stale_src H s).
Proof.
  intros [Hb Hlo Hro Hhi Hca Hre] Hroom. destruct s as [m [c e] o]. cbn [lsys lheap cur kend] in *.
  unfold case1_cpu_to_dev_stale_src. cbv zeta. says. alloc 1024 p. alloc 1024 q.
  rewrite !to_alias_eq by first [apply Bf | apply Bf0].
  destruct (block_live p 1024 ltac:(apply Bf)) as [-> ->], (block_live q 1024 ltac:(apply Bf0)) as [-> ->]. cbn [orb].
  assert (Re : rest H (q + 1024) m) by (eapply rest_weaken; [| exact Hre]; lia). clear Hre.
  op (const_op p 1024 0x11) as S1. op (clean_op p 1024 _) as [S2 D2]. op (inval_op p 1024 _) as [S3 D3].
  op (const_op q 1024 0) as S4. op (clean_op q 1024 _) as [S5 D5]. op (inval_op q 1024 _) as [S6 D6].
  assert (Hold : ld8 (pmem m5) (p + 0) = 0x11) by (by apply D3).
  op (refill_op p 1024 0x80 _) as [S7 Z7]. op (copy_any q p 1024) as [D8 Z8].
  assert (Hnew : lazy -> ld8 (pmem m7) (q + 0) = 0x11) by (intros Hz; rewrite Z8, Z7 by (done || lia); done).
  op (cpu_op q 1024 _) as [S9 D9]. look (expected_op q 1024 0x80 _) as r [Hr Hf].
  destruct (Z.ltb_spec r 0) as [Hneg | Hpos].
  { verdict_is. rewrite Hf in Hneg. unfold expected in Hneg. rewrite mism_first in Hneg; [lia | lia |]. by rewrite Hnew. }
  says. op (poc_op p 1024 _) as [S10 D10]. op (copy_op q p 1024 _ _) as [D11 D12]. op (cpu_op q 1024 _) as [S13 D13].
  look (expected_op q 1024 0x80 _) as r' [Hr' Hf']. rewrite Hf'. unfold expected. rewrite mism_eq by done. verdict_is.
Qed.

Lemma case2_spec room s : lab_ok (4096 + room) s -> 0 <= room -> outcome 2 room s (case2_dev_to_cpu_stale_dst H s).
Proof.
  intros [Hb Hlo Hro Hhi Hca Hre] Hroom. destruct s as [m [c e] o]. cbn [lsys lheap cur kend] in *.
  unfold case2_dev_to_cpu_stale_dst. cbv zeta. says. alloc 1024 p.
  rewrite !to_alias_eq by apply Bf. destruct (block_live p 1024 ltac:(apply Bf)) as [-> ->]. cbn [orb].
  assert (Re : rest H (p + 1024) m) by (eapply rest_weaken; [| exact Hre]; lia). clear Hre.
  op (const_res_op p 1024 0xAA) as [S1 Z1]. op (clean_res_op p 1024 _) as [[S2 D2] Z2]. look (rd_op p) as v Z3.
  op (alias_op p 1024 0x55 _) as [D4 Z4]. look (scan_op p 1024 0xAA) as r [_ Hr].
  assert (Hstale : lazy -> r = None) by (intros Hz; apply (Hr Hz), (Z4 Hz), (Z3 Hz), (Z2 Hz), (Z1 Hz)). clear Hr.
  destruct r as [i |]; [verdict_is; discriminate (Hstale Hz) |].
  says. op (cpu_op p 1024 _) as [S5 D5]. look (scan_ok_op p 1024 0x55) as r ->. verdict_is.
Qed.

(** ** Descriptors *)

(** The bytes of a descriptor. *)
Definition fields (src dst len cookie i : Z) : Z :=
  if i <? 8 then byte src i else if i <? 16 then byte dst (i - 8) else if i <? 24 then byte len (i - 16) else byte cookie (i - 24).

Lemma fields_mod src dst len cookie i : fields src dst len cookie i mod 256 = fields src dst len cookie i.
Proof. unfold fields. repeat case_match; apply byte_mod. Qed.

(** A length that is a multiple of 256 has one byte other than zero. *)
Lemma fields_zero src dst len cookie i : len mod 256 = 0 -> 0 <= len < 65536 -> 16 <= i < 24 -> i <> 17 -> fields src dst len cookie i = 0.
Proof.
  intros Hl0 Hl1 Hi Hne. unfold fields. rewrite (proj2 (Z.ltb_ge _ _)), (proj2 (Z.ltb_ge _ _)), (proj2 (Z.ltb_lt _ _)) by lia.
  unfold byte. destruct (Z.eq_dec i 16) as [-> | Hi2]; [change (256 ^ (16 - 16)) with 1; by rewrite Z.div_1_r |].
  rewrite Z.div_small; [done |]. split; [lia |]. assert (256 ^ 2 <= 256 ^ (i - 16)) by (apply Z.pow_le_mono_r; lia). lia.
Qed.

Lemma write_desc_eq p src dst len cookie s : 0 <= p -> p + 32 < 2 ^ 64 ->
  write_desc H p src dst len cookie s = for_range 0 32 (fun i => store8 H (p +64 i) (fields src dst len cookie i)) s.
Proof.
  intros Hp He. unfold write_desc, desc_src, desc_dst, desc_len, desc_cookie. rewrite !(wrap64_small (p + _)) by lia.
  rewrite !wr_le_eq by lia. unfold for_range. change (Z.to_nat (32 - 0)) with (8 + (8 + (8 + 8)))%nat. rewrite !for_from_add.
  change (Z.to_nat (Z.of_nat 8 - 0)) with 8%nat. change (0 + Z.of_nat 8) with 8. change (8 + Z.of_nat 8) with 16. change (16 + Z.of_nat 8) with 24.
  assert (E : forall b v t, 0 <= b <= 24 -> (forall i, 0 <= i < 8 -> fields src dst len cookie (b + i) = byte v i) ->
    for_from (fun i => store8 H (p + b +64 i) (byte v i)) 0 8 t = for_from (fun i => store8 H (p +64 i) (fields src dst len cookie i)) b 8 t).
  { intros b v t Hb Hf. apply for_from_ext. intros k t' Hk. rewrite Hf, !Z.add_0_l by lia. f_equal. f_equal. lia. }
  rewrite (E 24 cookie), (E 16 len), (E 8 dst), (E 0 src); [done | ..]; try lia; intros i Hi; unfold fields; repeat bdestr; try lia; f_equal; lia.
Qed.

Lemma one_line p i : p mod LS = 0 -> 0 <= i < 32 -> line_of H (p + i) = line_of H p.
Proof.
  intros Hp Hi. apply line_of_iff. unfold line_of. pose proof (Z.div_mod p LS ltac:(lia)). lia.
Qed.

(** A descriptor the program has written and not cleaned: the device sees a
    length of zero, or all the fields. *)
Definition full (p : Z) (F : Z -> Z) (s : msys) : Prop := forall i, 0 <= i < 24 -> ld8 (pmem s) (p + i) = F i.

Definition unwritten (p : Z) (s : msys) : Prop := forall i, 16 <= i < 24 -> ld8 (pmem s) (p + i) = 0.

Record pub (p : Z) (F : Z -> Z) (s : msys) : Prop := {
  pb_line : p mod LS = 0;
  pb_good : line_good H s (line_of H p);
  pb_view : forall i, 0 <= i < 32 -> view H s (p + i) = F i;
  pb_mem : unwritten p s \/ full p F s
}.

Lemma pub_seen p F s : pub p F s -> seen H p 32 F s.
Proof. intros [Hp Hg Hv _] i Hi. by rewrite one_line, Hv. Qed.

Lemma pub_keep K s s' p F : keeps H K s s' -> (forall k, covers H p 32 k -> ~ K k) -> pub p F s -> pub p F s'.
Proof.
  intros Hk Ha [Hp Hg Hv Hm]. assert (Hl : forall i, 0 <= i < 32 -> line_of H (p + i) = line_of H p) by (intros i; by apply one_line).
  assert (Hn : ~ K (line_of H p)) by (apply Ha, covers_byte; lia).
  split; [done | by apply (kp_good _ _ _ _ Hk) | intros i Hi; rewrite (kp_view _ _ _ _ Hk); rewrite ?Hl by done; auto |].
  destruct (kp_choice _ _ _ _ Hk _ Hn Hg) as [C | C].
  - destruct Hm as [Hm | Hm]; [left | right]; intros i Hi; (rewrite C; [by apply Hm | apply Hl; lia]).
  - right. intros i Hi. rewrite C by (apply Hl; lia). apply Hv. lia.
Qed.

(** Field by field, through evictions at any moment. *)
Lemma desc_op p src dst len cookie s : buf p 32 -> msys_bytes s -> seen H p 32 (fun _ => 0) s -> held H p 32 (fun _ => 0) s ->
  len mod 256 = 0 -> 0 <= len < 65536 ->
  let s' := write_desc H p src dst len cookie s in
  msys_bytes s' /\ keeps H (covers H p 32) s s' /\ (pub p (fields src dst len cookie) s' /\ (lazy -> pmem s' = pmem s)).
Proof.
  intros Hb Hs Hse Hh Hl0 Hl1. pose proof Hb as (Hr & Hc & Ha). pose proof Hr as (Hn & Hp & He). rewrite write_desc_eq by lia.
  set (F := fields src dst len cookie).
  assert (HF : forall i, 16 <= i < 24 -> i <> 17 -> F i = 0) by (intros i; by apply fields_zero).
  split; [| split; [| split; [| intros Hz; by apply stores_lazy]]].
  1, 2: destruct (fill_seen H nc ws we Hon p 32 F s Hr Hc Hs) as (B & K & _); [intros i Hi; by apply Hse | done].
  set (P := fun j t => msys_bytes t /\ line_good H t (line_of H p) /\
    (forall i, 0 <= i < 32 -> view H t (p + i) = if i <? j then F i else 0) /\ (unwritten p t \/ 18 <= j /\ full p F t)).
  destruct (for_range_ind P 0 32 (fun i => store8 H (p +64 i) (F i)) s) as (_ & Q2 & Q3 & Q4); [lia | | |].
  - split; [done | split; [| split]]; [by rewrite <- (one_line p 0), Z.add_0_r by lia; replace p with (p + 0) by lia; apply Hse | |].
    + intros i Hi. rewrite (proj2 (Z.ltb_ge _ _)) by lia. by apply Hse.
    + left. intros i Hi. apply Hh. lia.
  - intros j t Hj (B & Q2 & Q3 & Q4). rewrite wrap64_small by lia.
    destruct (cached_ram H nc ws we Hon p 32 j Hr Hc Hj) as [C1 C2].
    destruct (store8_c H (p + j) (F j) t B C1) as (S1 & _ & S3 & _ & _ & S6). rewrite C2 in S6.
    assert (Hpm : pmem (store8 H (p + j) (F j) t) = pmem (tick H t)).
    { unfold store8. rewrite C1. cbn [put_line pmem]. apply (fill_keeps H), (tick_kp H t B). }
    split; [done | split; [by apply S3 | split]].
    + intros i Hi. rewrite S6, Q3 by (rewrite ?one_line; done). unfold F at 1. rewrite fields_mod. fold F.
      repeat bdestr; try lia; try done; f_equal; lia.
    + destruct (kp_choice _ _ _ _ (proj2 (tick_kp H t B)) (line_of H p) (fun x => x) Q2) as [C | C].
      * destruct Q4 as [Q4 | [Hj2 Q4]]; [left | right; split; [lia |]]; intros i Hi; rewrite Hpm, C by (apply one_line; [done | lia]); by apply Q4.
      * assert (Hv : forall i, 0 <= i < 24 -> ld8 (pmem (tick H t)) (p + i) = if i <? j then F i else 0).
        { intros i Hi. rewrite C by (apply one_line; [done | lia]). apply Q3. lia. }
        destruct (Z.le_gt_cases j 17); [left | right; split; [lia |]]; intros i Hi; rewrite Hpm, Hv by lia; destruct (Z.ltb_spec i j); try done.
        -- apply HF; lia.
        -- symmetry. apply HF; lia.
  - split; [done | done | | by destruct Q4 as [? | [_ ?]]; [left | right]].
    intros i Hi. rewrite Q3 by done. by rewrite (proj2 (Z.ltb_lt _ _)) by lia.
Qed.

(** A load through the alias of an unclean descriptor. *)
Lemma load_pub p F i t : buf p 32 -> msys_bytes t -> pub p F t -> 0 <= i < 32 ->
  exists t', load8 H (p + ALIAS + i) t = (ld8 (pmem t') (p + i), t') /\ after t t' /\ pub p F t' /\ (full p F t -> full p F t') /\ (lazy -> still t t').
Proof.
  intros ((Hn & Hp & He) & _ & _) Hb Hpub Hi. replace (p + ALIAS + i) with (p + i + ALIAS) by lia.
  destruct (alias_ram H nc ws we (p + i) ltac:(lia)) as [X1 X2]. exists (tick H t). unfold load8. rewrite X2, X1. cbn [fst].
  destruct (tick_kp H t Hb) as [T1 T2]. split; [done | split; [done | split; [by apply (pub_keep _ _ _ _ _ T2); [intros k _ [] |] | split; [| by apply tick_lazy]]]].
  intros Hf. destruct Hpub as [Hpa Hg Hv _]. destruct (kp_choice _ _ _ _ T2 _ (fun x => x) Hg) as [C | C]; intros j Hj; rewrite C by (apply one_line; [done | lia]).
  - by apply Hf.
  - apply Hv. lia.
Qed.

(** The states the device's reads go through. *)
Definition peek (p : Z) (F : Z -> Z) (s t : msys) : Prop :=
  after s t /\ pub p F t /\ (full p F s -> full p F t) /\ (lazy -> still s t).

Lemma peek_trans p F s1 s2 s3 : peek p F s1 s2 -> peek p F s2 s3 -> peek p F s1 s3.
Proof.
  intros ([_ K1] & _ & F1 & Z1) ([B2 K2] & P2 & F2 & Z2). split; [split; [done | by apply (keeps_trans _ _ _ s2)] | split; [done | split; [auto |]]].
  intros Hz. eapply still_trans; auto.
Qed.

Lemma peek_load p F i s t : buf p 32 -> peek p F s t -> 0 <= i < 32 -> peek p F s (load8 H (p + ALIAS + i) t).2.
Proof.
  intros Hb Hk Hi. destruct Hk as ([B K] & P & Fu & Z). destruct (load_pub p F i t Hb B P Hi) as (t' & -> & A & P' & F' & Z'). cbn [snd].
  apply (peek_trans _ _ _ t); by split.
Qed.

(** The device reads the length: zero, or the length and then everything. *)
Lemma read_len p src dst len cookie m h o :
  buf p 32 -> msys_bytes m -> pub p (fields src dst len cookie) m -> len mod 256 = 0 -> 0 <= len < 65536 ->
  exists v m', rd_le H 8 (p + ALIAS + 16) (Lab m h o) = (v, Lab m' h o) /\ peek p (fields src dst len cookie) m m' /\
    (v = 0 \/ v = len /\ full p (fields src dst len cookie) m') /\ (lazy -> unwritten p m -> v = 0).
Proof.
  intros Hbuf Hb Hp Hl0 Hl1. pose proof Hbuf as ((Hn & Hpl & Hph) & _ & _). set (F := fields src dst len cookie) in *.
  assert (F0 : forall i, 16 <= i < 24 -> i <> 17 -> F i = 0) by (intros i; by apply fields_zero).
  assert (F17 : 256 * F 17 = len).
  { change (F 17) with (byte len 1). unfold byte. change (256 ^ 1) with 256. rewrite Z.mod_small; [zlia |]. split; [zlia |]. apply Z.div_lt_upper_bound; lia. }
  assert (Hz0 : forall i t, 16 <= i < 24 -> i <> 17 -> pub p F t -> ld8 (pmem t) (p + i) = 0).
  { intros i t Hi Hne Ht. destruct (pb_mem _ _ _ Ht) as [G | G]; rewrite G by lia; auto. }
  destruct (load_pub p F 16 m Hbuf Hb Hp ltac:(lia)) as (t1 & E1 & [B1 K1] & P1 & X1 & Z1).
  destruct (load_pub p F 17 t1 Hbuf B1 P1 ltac:(lia)) as (t2 & E2 & [B2 K2] & P2 & X2 & Z2).
  destruct (rd_le_gen (peek p F t2) (fun _ => 0) 6 (p + ALIAS + 18) t2 h o) as (m' & E3 & Q3); [| lia | cbn; lia | |].
  { intros i t Hi Hk. replace (p + ALIAS + 18 + i) with (p + ALIAS + (18 + i)) by lia. split; [| apply peek_load; [done | done | lia]].
    destruct Hk as ([Bt _] & Pt & _). destruct (load_pub p F (18 + i) t Hbuf Bt Pt ltac:(lia)) as (t' & -> & _ & Pt' & _). cbn [fst].
    apply Hz0; [lia | lia | done]. }
  { split; [split; [done | apply keeps_refl] | split; [done | split; [done |]]]. done. }
  exists (0 + 256 * (ld8 (pmem t2) (p + 17) + 256 * 0)), m'.
  assert (K12 : peek p F m t2).
  { apply (peek_trans _ _ _ t1); split; try done. }
  split; [| split; [by apply (peek_trans _ _ _ t2) | split]].
  - cbn [rd_le]. rewrite (bind_eq (rd H (p + ALIAS + 16)) _ _ 0 (Lab t1 h o)).
    2: { unfold rd. cbn [lsys lheap lout]. rewrite E1. by rewrite Hz0. }
    rewrite (wrap64_small (p + ALIAS + 16 + 1)) by lia. replace (p + ALIAS + 16 + 1) with (p + ALIAS + 17) by lia.
    assert (E2' : rd H (p + ALIAS + 17) (Lab t1 h o) = (ld8 (pmem t2) (p + 17), Lab t2 h o)) by (unfold rd; cbn [lsys lheap lout]; by rewrite E2).
    rewrite (bind_eq (rd H (p + ALIAS + 17) ≫= _) _ _ (ld8 (pmem t2) (p + 17) + 256 * 0) (Lab m' h o)); [done |].
    rewrite (bind_eq _ _ _ _ _ E2'). rewrite (wrap64_small (p + ALIAS + 17 + 1)) by lia. replace (p + ALIAS + 17 + 1) with (p + ALIAS + 18) by lia.
    cbn [rd_le] in E3. rewrite (bind_eq _ _ _ _ _ E3). done.
  - destruct (pb_mem _ _ _ P2) as [G | G]; [left; rewrite G by lia; done | right]. split; [rewrite G by lia; lia |].
    apply Q3, G.
  - intros Hz Hu. destruct (Z1 Hz) as [Y1 _], (Z2 Hz) as [Y2 _]. rewrite Y2, Y1, Hu by lia. done.
Qed.

(** The fields of a descriptor the device sees whole. *)
Lemma read_field p F k v (R : msys -> Prop) m h o : buf p 32 -> 0 <= k -> k + 8 <= 32 ->
  (forall t, R t -> msys_bytes t) -> (forall i t, 0 <= i < 32 -> R t -> R (load8 H (p + ALIAS + i) t).2) ->
  (forall i t, k <= i < k + 8 -> R t -> (load8 H (p + ALIAS + i) t).1 = F i) ->
  (forall i, 0 <= i < 8 -> F (k + i) = byte v i) -> 0 <= v < 2 ^ 64 -> R m ->
  exists m', rd_le H 8 (p + ALIAS +64 k) (Lab m h o) = (v, Lab m' h o) /\ R m'.
Proof.
  intros ((Hn & Hp & He) & _ & _) Hk0 Hk HB HR HF Hv Hv2 Hm. rewrite wrap64_small by lia.
  destruct (rd_le_gen R (byte v) 8 (p + ALIAS + k) m h o) as (m' & E & R'); [| lia | cbn; lia | done |].
  - intros i t Hi Ht. change (Z.of_nat 8) with 8 in Hi. replace (p + ALIAS + k + i) with (p + ALIAS + (k + i)) by lia.
    split; [rewrite HF by (lia || done); apply Hv; lia | apply HR; [lia | done]].
  - exists m'. rewrite number_byte in E; [done |]. exact Hv2.
Qed.

Lemma fields_src src dst len cookie i : 0 <= i < 8 -> fields src dst len cookie (0 + i) = byte src i.
Proof. intros Hi. unfold fields. by rewrite (proj2 (Z.ltb_lt _ _)) by lia. Qed.

Lemma fields_dst src dst len cookie i : 0 <= i < 8 -> fields src dst len cookie (8 + i) = byte dst i.
Proof. intros Hi. unfold fields. rewrite (proj2 (Z.ltb_ge _ _)), (proj2 (Z.ltb_lt _ _)) by lia. f_equal. lia. Qed.

Lemma fields_len src dst len cookie i : 0 <= i < 8 -> fields src dst len cookie (16 + i) = byte len i.
Proof. intros Hi. unfold fields. rewrite (proj2 (Z.ltb_ge _ _)), (proj2 (Z.ltb_ge _ _)), (proj2 (Z.ltb_lt _ _)) by lia. f_equal. lia. Qed.

(** A cleaned descriptor is processed. *)
Lemma process_clean p src dst n cookie f g m h o :
  buf p 32 -> buf dst n -> buf src n -> src + n <= dst -> n <= 4096 -> msys_bytes m ->
  held H p 32 (fields (src + ALIAS) (dst + ALIAS) n cookie) m -> held H src n f m -> held H dst n g m ->
  exists m', device_process_desc H (p + ALIAS) (Lab m h o) = (true, Lab m' h o) /\
    msys_bytes m' /\ keeps H (covers H dst n) m m' /\ held H dst n f m'.
Proof.
  intros Hbp Hbd Hbs Hle Hn Hb Hh Hs Hd. pose proof Hbp as ((_ & Hp1 & Hp2) & _ & _). pose proof Hbd as ((Hn0 & Hd1 & Hd2) & _ & _).
  pose proof Hbs as ((_ & Hs1 & Hs2) & _ & _). set (F := fields (src + ALIAS) (dst + ALIAS) n cookie) in *.
  unfold device_process_desc, desc_len, desc_src, desc_dst. destruct (block_live p 32 ltac:(apply Hbp)) as [_ ->].
  assert (HF : forall i t, 0 <= i < 32 -> after m t -> (load8 H (p + ALIAS + i) t).1 = F i).
  { intros i t Hi [B K]. apply (read_held p 32 F m); [apply Hbp | done | done | done | done]. }
  assert (Hread : forall k v t, 0 <= k -> k + 8 <= 32 -> 0 <= v < 2 ^ 64 -> (forall i, 0 <= i < 8 -> F (k + i) = byte v i) -> after m t ->
    exists t', rd_le H 8 (p + ALIAS +64 k) (Lab t h o) = (v, Lab t' h o) /\ after m t').
  { intros k v t Hk1 Hk2 Hv HFv Ht. apply (read_field p F k v (after m)); try done; [by intros t0 [] | intros; by apply after_load | intros i t0 Hi; apply HF; lia]. }
  destruct (Hread 16 n m ltac:(lia) ltac:(lia) ltac:(lia) ltac:(intros; by apply fields_len)) as (t1 & E1 & A1); [split; [done | apply keeps_refl] |]. rewrite (bind_eq _ _ _ _ _ E1).
  destruct (Hread 0 (src + ALIAS) t1 ltac:(lia) ltac:(lia) ltac:(lia) ltac:(intros; by apply fields_src) A1) as (t2 & E2 & A2). rewrite (bind_eq _ _ _ _ _ E2).
  destruct (Hread 8 (dst + ALIAS) t2 ltac:(lia) ltac:(lia) ltac:(lia) ltac:(intros; by apply fields_dst) A2) as (t3 & E3 & [B3 K3]). rewrite (bind_eq _ _ _ _ _ E3).
  rewrite (proj2 (Z.eqb_neq n 0)), (proj2 (Z.ltb_ge 4096 n)) by lia. cbn [orb]. rewrite bind_sys.
  assert (S3 : held H src n f t3) by (apply (held_keep _ _ _ _ _ _ _ K3); [by intros ? _ [] | done]).
  assert (D3 : held H dst n g t3) by (apply (held_keep _ _ _ _ _ _ _ K3); [by intros ? _ [] | done]).
  destruct (copy_op dst src n f g t3 Hbd Hbs Hle B3 S3 D3) as (B4 & K4 & D4 & _).
  eexists. split; [done | split; [done | split; [| done]]]. exact (keeps_trans _ _ _ _ _ (keeps_none _ _ _ _ K3) K4).
Qed.

(** An unclean descriptor is processed as a whole or not at all. *)
Lemma process_pub p src dst n cookie f g m h o :
  buf p 32 -> buf dst n -> buf src n -> src + n <= dst -> n <= 4096 -> n mod 256 = 0 -> msys_bytes m ->
  pub p (fields (src + ALIAS) (dst + ALIAS) n cookie) m -> held H src n f m -> held H dst n g m ->
  exists ok m', device_process_desc H (p + ALIAS) (Lab m h o) = (ok, Lab m' h o) /\
    msys_bytes m' /\ keeps H (covers H dst n) m m' /\ (if ok : bool then held H dst n f m' else held H dst n g m') /\
    (lazy -> unwritten p m -> ok = false).
Proof.
  intros Hbp Hbd Hbs Hle Hn Hn0 Hb Hpub Hs Hd. pose proof Hbp as ((_ & Hp1 & Hp2) & _ & _). pose proof Hbd as ((Hn1 & Hd1 & Hd2) & _ & _).
  pose proof Hbs as ((_ & Hs1 & Hs2) & _ & _). unfold device_process_desc, desc_len, desc_src, desc_dst. destruct (block_live p 32 ltac:(apply Hbp)) as [_ ->].
  destruct (read_len p _ _ n cookie m h o Hbp Hb Hpub Hn0 ltac:(lia)) as (v & t1 & E1 & ([B1 K1] & P1 & _ & _) & Hv & Hz).
  set (F := fields (src + ALIAS) (dst + ALIAS) n cookie) in *.
  rewrite (wrap64_small (p + ALIAS + 16)) by lia. rewrite (bind_eq _ _ _ _ _ E1). destruct Hv as [-> | [-> Hfull]].
  - destruct (rd_le_any 8 (p + ALIAS +64 0) t1 h o) as (v2 & t2 & E2 & [B2 K2]); [rewrite wrap64_small by lia; lia | rewrite wrap64_small by lia; cbn; lia | done |].
    destruct (rd_le_any 8 (p + ALIAS +64 8) t2 h o) as (v3 & t3 & E3 & [B3 K3]); [rewrite wrap64_small by lia; lia | rewrite wrap64_small by lia; cbn; lia | done |].
    rewrite (bind_eq _ _ _ _ _ E2), (bind_eq _ _ _ _ _ E3). cbn [Z.eqb orb]. pose proof (keeps_trans _ _ _ _ _ (keeps_trans _ _ _ _ _ K1 K2) K3) as K.
    exists false, t3. split; [done | split; [done | split; [by apply keeps_none | split; [| done]]]].
    by apply (held_keep _ _ _ _ _ _ _ K); [by intros ? _ [] |].
  - set (R := fun t => after m t /\ pub p F t /\ full p F t).
    assert (HR : forall i t, 0 <= i < 32 -> R t -> (load8 H (p + ALIAS + i) t).1 = ld8 (pmem (load8 H (p + ALIAS + i) t).2) (p + i) /\ R (load8 H (p + ALIAS + i) t).2).
    { intros i t Hi ([Bt Kt] & Pt & Ft). destruct (load_pub p F i t Hbp Bt Pt Hi) as (t' & E & [B' K'] & P' & F' & _). rewrite E. cbn [fst snd].
      split; [done | split; [split; [done | by apply (keeps_trans _ _ _ t)] | split; [done | auto]]]. }
    assert (Hread : forall k w t, 0 <= k -> k + 8 <= 24 -> 0 <= w < 2 ^ 64 -> (forall i, 0 <= i < 8 -> F (k + i) = byte w i) -> R t ->
      exists t', rd_le H 8 (p + ALIAS +64 k) (Lab t h o) = (w, Lab t' h o) /\ R t').
    { intros k w t Hk1 Hk2 Hw HFw Ht. apply (read_field p F k w R); try done; [lia | by intros t0 [[]] | intros; by apply HR |].
      intros i t0 Hi Ht0. destruct (HR i t0 ltac:(lia) Ht0) as [-> (_ & _ & Ft)]. apply Ft. lia. }
    destruct (Hread 0 (src + ALIAS) t1 ltac:(lia) ltac:(lia) ltac:(lia) ltac:(intros; by apply fields_src)) as (t2 & E2 & A2); [by split |].
    rewrite (bind_eq _ _ _ _ _ E2).
    destruct (Hread 8 (dst + ALIAS) t2 ltac:(lia) ltac:(lia) ltac:(lia) ltac:(intros; by apply fields_dst) A2) as (t3 & E3 & ([B3 K3] & _)).
    rewrite (bind_eq _ _ _ _ _ E3). rewrite (proj2 (Z.eqb_neq n 0)), (proj2 (Z.ltb_ge 4096 n)) by lia. cbn [orb]. rewrite bind_sys.
    assert (S3 : held H src n f t3) by (apply (held_keep _ _ _ _ _ _ _ K3); [by intros ? _ [] | done]).
    assert (D3 : held H dst n g t3) by (apply (held_keep _ _ _ _ _ _ _ K3); [by intros ? _ [] | done]).
    destruct (copy_op dst src n f g t3 Hbd Hbs Hle B3 S3 D3) as (B4 & K4 & D4 & _).
    exists true. eexists. split; [done | split; [done | split; [| split; [done |]]]]; [exact (keeps_trans _ _ _ _ _ (keeps_none _ _ _ _ K3) K4) |].
    intros Hz0 Hu. specialize (Hz Hz0 Hu). lia.
Qed.

(** Frames for descriptors too. *)
Ltac frame K ::=
  lazymatch type of K with keeps _ _ ?s _ =>
  repeat match goal with
  | Hs : seen H _ _ _ s |- _ => eapply (seen_keep _ _ _ _ _ _ _ K) in Hs; [| side]
  | Hs : held H _ _ _ s |- _ => eapply (held_keep _ _ _ _ _ _ _ K) in Hs; [| side]
  | Hs : rest H _ s |- _ => eapply (rest_keep _ _ _ _ _ K) in Hs; [| side]
  | Hs : pub _ _ s |- _ => eapply (pub_keep _ _ _ _ _ K) in Hs; [| side]
  end end.

(** The device processes a descriptor, by lemma [T]. *)
Tactic Notation "process" uconstr(T) "as" ident(ok) simple_intropattern(P) :=
  lazymatch goal with
  | |- context [(device_process_desc _ _ ≫= _) (Lab ?m ?h ?o)] =>
    let m1 := fresh "m" in let E := fresh "E" in let B := fresh "B" in let K := fresh "K" in let X := fresh "X" in
    let Y := fresh "Y" in epose proof (T m h o) as Y; prems Y; destruct Y as (ok & m1 & E & B & K & X);
    rewrite (bind_eq _ _ _ _ _ E); clear E; revert X; intros P; frame K; clear K
  end.

Lemma process_clean_ok p src dst n cookie f g m h o :
  buf p 32 -> buf dst n -> buf src n -> src + n <= dst -> n <= 4096 -> msys_bytes m ->
  held H p 32 (fields (src + ALIAS) (dst + ALIAS) n cookie) m -> held H src n f m -> held H dst n g m ->
  exists ok m', device_process_desc H (p + ALIAS) (Lab m h o) = (ok, Lab m' h o) /\
    msys_bytes m' /\ keeps H (covers H dst n) m m' /\ (ok = true /\ held H dst n f m').
Proof.
  intros Hbp Hbd Hbs Hle Hn Hb Hh Hs Hd.
  destruct (process_clean p src dst n cookie f g m h o Hbp Hbd Hbs Hle Hn Hb Hh Hs Hd) as (m' & E & B & K & D). exists true, m'. auto.
Qed.

Lemma case3_spec room s : lab_ok (4096 + room) s -> 0 <= room -> outcome 3 room s (case3_descriptor_stale_fields H s).
Proof.
  intros [Hb Hlo Hro Hhi Hca Hre] Hroom. destruct s as [m [c e] o]. cbn [lsys lheap cur kend] in *.
  unfold case3_descriptor_stale_fields, sizeof_LabDesc. cbv zeta. says. alloc 512 p. alloc 512 q. alloc 32 d.
  rewrite !to_alias_eq by first [apply Bf | apply Bf0 | apply Bf1].
  destruct (block_live p 512 ltac:(apply Bf)) as [-> ->], (block_live q 512 ltac:(apply Bf0)) as [-> ->], (block_live d 32 ltac:(apply Bf1)) as [-> ->]. cbn [orb].
  assert (Re : rest H (d + 32) m) by (eapply rest_weaken; [| exact Hre]; lia). clear Hre.
  op (memfill_op p 512 0x10) as S1. op (poc_op p 512 _) as [S2 D2]. op (const_op q 512 0) as S3. op (poc_op q 512 _) as [S4 D4].
  op (const_op d 32 0) as S5. op (clean_op d 32 _) as [S6 D6]. op (inval_op d 32 _) as [S7 D7].
  assert (Hun : unwritten d m6) by (intros i Hi; apply D7; lia).
  op (desc_op d (p + ALIAS) (q + ALIAS) 512 0x1234) as [P8 Z8].
  process (process_pub d p q 512 0x1234 (fill_byte 0x10) (fun _ => 0 mod 256)) as ok [D9 Z9].
  assert (Hlz : lazy -> ok = false) by (intros Hz; apply Z9; [done |]; intros i Hi; rewrite Z8 by done; by apply Hun). clear Z8 Z9 Hun.
  destruct ok.
  { op (cpu_op q 512 _) as [S10 D10]. look (expected_op q 512 0x10 _) as r [Hr Hf]. cbn [orb]. verdict_is. discriminate (Hlz Hz). }
  op (cpu_op q 512 _) as [S10 D10]. look (expected_op q 512 0x10 _) as r [Hr Hf]. cbn [orb].
  rewrite Hf. unfold expected. rewrite mism_first by done. cbn [Z.ltb Z.compare]. says. pose proof (pub_seen _ _ _ P8) as S11.
  op (poc_op d 32 _) as [S12 D12]. process (process_clean_ok d p q 512 0x1234 (fill_byte 0x10) _) as ok [-> D13].
  op (cpu_op q 512 _) as [S14 D14]. look (expected_op q 512 0x10 _) as r2 [Hr2 ->]. unfold expected. rewrite mism_eq by done.
  cbn [negb orb Z.leb Z.compare]. verdict_is.
Qed.

(** ** The ring's head *)

(** On a lazy hardware cleaning one buffer touches no memory elsewhere. *)
Lemma clean_lazy p n s b : lazy -> ram_buf p n -> msys_bytes s -> ~ covers H p n (line_of H b) ->
  ld8 (pmem (dc_cvac_range H p n s)) b = ld8 (pmem s) b.
Proof.
  intros Hz Hr Hb Hn. destruct (ram_ranges H nc ws we p n Hr) as [R1 R2]. unfold dc_cvac_range. rewrite dc_range_eq by done.
  cbn [log pmem]. change (pmem s) with (pmem (log DMB_ISH s)).
  assert (Hl : forall a, a ∈ lines_of H p n -> line_of H (xlate H a).1 <> line_of H b).
  { intros a Ha E. destruct (lines_covered H _ _ _ Ha) as [Hc Ea]. apply Hn. rewrite <- E. rewrite Ea, R2 by done. by rewrite line_of_base. }
  revert Hl. generalize (log DMB_ISH s), (lines_of H p n). clear -Hz. intros s l. revert s. induction l as [|a l IH]; intros s Hl; [done |].
  cbn [foldl]. rewrite IH by (intros x Hx; apply Hl; by right). unfold dc_cvac_line. cbn [log pmem].
  destruct (tick_lazy s Hz) as [E _]. unfold writeback. destruct (cache (tick H s) !! _) as [[[] y] |]; [| by rewrite E | by rewrite E].
  cbn [put_line set_pmem pmem]. rewrite ld8_copy_line, E. rewrite (proj2 (Z.eqb_neq _ _)); [done |]. intros G. by apply (Hl a ltac:(by left)).
Qed.

(** Memory the operation leaves alone on a lazy hardware. *)
Definition spares (d : Z) (s s' : msys) : Prop := lazy -> unwritten d s -> unwritten d s'.

Lemma head_op d p v f s : buf p 8 -> msys_bytes s -> seen H p 8 f s ->
  let s' := wr_le H 8 p v s in msys_bytes s' /\ keeps H (covers H p 8) s s' /\ (seen H p 8 (byte v) s' /\ spares d s s').
Proof.
  intros Hb Hs Hf. destruct (wr_le_op 8 p v s Hb Hs) as (B & K & S); [intros i Hi; by apply Hf |].
  split; [exact B | split; [exact K | split; [exact S |]]]. intros Hz Hu i Hi. pose proof Hb as ((H1 & H2 & H3) & _ & _).
  rewrite wr_le_eq by (cbn; lia). rewrite stores_lazy by done. by apply Hu.
Qed.

Lemma head_clean_op d p f s : buf p 8 -> buf d 32 -> d + 32 <= p -> msys_bytes s -> seen H p 8 f s ->
  let s' := dc_cvac_range H p 8 s in msys_bytes s' /\ keeps H none s s' /\ ((seen H p 8 f s' /\ held H p 8 f s') /\ spares d s s').
Proof.
  intros Hb Hd Hle Hs Hf. destruct (clean_op p 8 f s Hb Hs Hf) as (B & K & G). split; [exact B | split; [exact K | split; [exact G |]]].
  intros Hz Hu i Hi. rewrite clean_lazy; [by apply Hu | done | apply Hb | done |].
  intros Hc. apply (apart_next H d 32 p 8 ltac:(lia) Hle (proj2 (proj2 Hb)) (line_of H (d + i))); [apply covers_byte; lia | done].
Qed.

(** The device reads the published head. *)
Lemma observe_op d p v m h o : buf p 8 -> 0 <= v < 2 ^ 64 -> msys_bytes m -> held H p 8 (byte v) m ->
  exists r m', rd_le H 8 (p + ALIAS) (Lab m h o) = (r, Lab m' h o) /\ after m m' /\ r = v /\ spares d m m'.
Proof.
  intros Hb Hv Hs Hf. pose proof Hb as ((H1 & H2 & H3) & _ & _).
  destruct (rd_le_gen (after_still m) (byte v) 8 (p + ALIAS) m h o) as (m' & E & [A Z]); [| lia | cbn; lia | by apply after_still_refl |].
  { intros i t Hi Ht. split; [| by apply after_still_load]. destruct Ht as [[B K] _]. apply (read_held p 8 (byte v) m); [apply Hb | done | done | done | cbn in Hi; lia]. }
  rewrite number_byte in E by exact Hv. exists v, m'. split; [done | split; [done | split; [done |]]].
  intros Hz Hu i Hi. destruct (Z Hz) as [-> _]. by apply Hu.
Qed.

Lemma zero_op p s : buf p 8 -> msys_bytes s -> rest H p s ->
  let s' := wr_le H 8 p 0 s in msys_bytes s' /\ keeps H (covers H p 8) s s' /\ seen H p 8 (byte 0) s'.
Proof. intros Hb Hs Hr. apply (wr_le_op 8 p 0 s Hb Hs). by apply (rest_lines p 8). Qed.

Lemma wmb_op s : msys_bytes s -> let s' := dma_wmb s in msys_bytes s' /\ keeps H none s s' /\ True.
Proof. intros Hs. destruct (log_kp H DMB_OSHST s Hs). done. Qed.

Lemma rest_seen p n s : buf p n -> rest H p s -> seen H p n (fun i => view H s (p + i)) s.
Proof. intros Hb Hr i Hi. split; [by apply (rest_lines p n) | done]. Qed.

Lemma reconst_op p n v f s : buf p n -> msys_bytes s -> seen H p n f s ->
  let s' := memfill_const H p n v s in msys_bytes s' /\ keeps H (covers H p n) s s' /\ seen H p n (fun _ => v mod 256) s'.
Proof.
  intros (Hr & Hc & Ha) Hs Hg. apply fill_seen with (1 := HM) (g := fun _ => v); try done. intros i Hi. by apply Hg.
Qed.

Lemma case4_spec room s : lab_ok (4096 + room) s -> 0 <= room -> outcome 4 room s (case4_publish_ordering_head_vs_desc H s).
Proof.
  intros [Hb Hlo Hro Hhi Hca Hre] Hroom. destruct s as [m [c e] o]. cbn [lsys lheap cur kend] in *.
  unfold case4_publish_ordering_head_vs_desc, sizeof_LabDesc. cbv zeta. says. alloc 256 p. alloc 256 q. alloc 32 d. alloc 8 hp.
  rewrite !to_alias_eq by first [apply Bf | apply Bf0 | apply Bf1 | apply Bf2].
  destruct (block_live p 256 ltac:(apply Bf)) as [-> ->], (block_live q 256 ltac:(apply Bf0)) as [-> ->],
    (block_live d 32 ltac:(apply Bf1)) as [-> ->], (block_live hp 8 ltac:(apply Bf2)) as [-> ->]. cbn [orb].
  assert (Re : rest H (hp + 8) m) by (eapply rest_weaken; [| exact Hre]; lia). clear Hre.
  pose proof (rest_seen d 32 m Bf1 R1) as S0.
  op (memfill_op p 256 0x33) as S1. op (poc_op p 256 _) as [S2 D2]. op (const_op q 256 0) as S3. op (poc_op q 256 _) as [S4 D4].
  op (zero_op hp) as S5. op (poc_op hp 8 _) as [S6 D6].
  op (reconst_op d 32 0 _) as S7. op (clean_op d 32 _) as [S8 D8]. op (inval_op d 32 _) as [S9 D9].
  clear S1 S2 S3 S4 S5 S7 S8 D8 R R0 R1 R2.
  assert (Hun : unwritten d m8) by (intros i Hi; apply D9; lia).
  op (desc_op d (p + ALIAS) (q + ALIAS) 256 0xfeed) as [P10 Z10].
  assert (Hun2 : lazy -> unwritten d m9) by (intros Hz i Hi; rewrite Z10 by done; by apply Hun). clear Z10 Hun.
  op (head_op d hp (d + ALIAS) _) as [S11 Z11]. op (head_clean_op d hp _) as [[S12 D12] Z12].
  look (observe_op d hp (d + ALIAS)) as obs [-> Z13].
  assert (Hun3 : lazy -> unwritten d m12) by (intros Hz; apply (Z13 Hz), (Z12 Hz), (Z11 Hz), (Hun2 Hz)). clear Z11 Z12 Z13 Hun2.
  process (process_pub d p q 256 0xfeed (fill_byte 0x33) (fun _ => 0 mod 256)) as ok [D14 Z14].
  assert (Hlz : lazy -> ok = false) by (intros Hz; apply (Z14 Hz), (Hun3 Hz)). clear Z14 Hun3.
  destruct ok.
  { op (cpu_op q 256 _) as [S15 D15]. look (expected_op q 256 0x33 _) as r [Hr Hf]. cbn [orb]. verdict_is. discriminate (Hlz Hz). }
  op (cpu_op q 256 _) as [S15 D15]. look (expected_op q 256 0x33 _) as r [Hr Hf]. cbn [orb].
  rewrite Hf. unfold expected. rewrite mism_first by done. cbn [Z.ltb Z.compare]. says. pose proof (pub_seen _ _ _ P10) as S16.
  op (poc_op d 32 _) as [S17 D17]. op wmb_op as _. op (clean_op hp 8 _) as [S18 D18]. look (observe_op d hp (d + ALIAS)) as obs [-> _].
  process (process_clean_ok d p q 256 0xfeed (fill_byte 0x33) _) as ok [-> D19].
  op (cpu_op q 256 _) as [S20 D20]. look (expected_op q 256 0x33 _) as r2 [Hr2 ->]. unfold expected. rewrite mism_eq by done.
  cbn [negb orb Z.leb Z.compare]. verdict_is.
Qed.

(** ** The completion flag *)

Lemma stays_still s s' : (lazy -> still s s') -> stays s s'.
Proof. intros Hs Hz p n f. apply resident_still, Hs, Hz. Qed.

Lemma stays_trans s1 s2 s3 : stays s1 s2 -> stays s2 s3 -> stays s1 s3.
Proof. intros A B Hz p n f Hr. apply B, A; done. Qed.

Lemma word_op p s : buf p 4 -> msys_bytes s -> rest H p s ->
  let s' := wr_le H 4 p 0 s in msys_bytes s' /\ keeps H (covers H p 4) s s' /\ (seen H p 4 (byte 0) s' /\ (lazy -> resident p 4 (byte 0) s')).
Proof.
  intros Hb Hs Hr. destruct (wr_le_op 4 p 0 s Hb Hs) as (B & K & S); [by apply (rest_lines p 4) |].
  split; [exact B | split; [exact K | split; [exact S |]]]. intros Hz. pose proof Hb as ((H1 & H2 & H3) & _ & _).
  rewrite wr_le_eq by (cbn; lia). intros i Hi. rewrite <- (byte_mod 0 i). by apply (resident_stores p 4 (byte 0)).
Qed.

Lemma poc_res_op p n f s : buf p n -> msys_bytes s -> seen H p n f s ->
  let s' := clean_to_poc H p n s in msys_bytes s' /\ keeps H none s s' /\ ((seen H p n f s' /\ held H p n f s') /\ stays s s').
Proof.
  intros Hb Hs Hf. destruct (poc_op p n f s Hb Hs Hf) as (B & K & G). split; [exact B | split; [exact K | split; [exact G |]]].
  intros Hz q m g Hr. apply (resident_clean q m g p n s); [done | apply Hb | done].
Qed.

Lemma word_alias_op p v f s : buf p 4 -> msys_bytes s -> held H p 4 f s ->
  let s' := wr_le H 4 (p + ALIAS) v s in msys_bytes s' /\ keeps H (covers H p 4) s s' /\ (held H p 4 (byte v) s' /\ stays s s').
Proof.
  intros (Hr & _ & _) Hs Hf. pose proof Hr as (H1 & H2 & H3). rewrite wr_le_eq by (cbn; lia).
  destruct (fill_held H nc ws we p 4 (byte v) s Hr Hs) as (B & K & G & _); [intros i Hi; by apply Hf |].
  split; [exact B | split; [exact K | split; [| intros Hz q m g Hq; by apply resident_alias]]].
  refine (held_ext _ _ _ _ _ _ G). intros i _. apply byte_mod.
Qed.

Lemma rd_le_still n a m h o : 0 <= a -> a + Z.of_nat n < 2 ^ 64 -> msys_bytes m ->
  exists v m', rd_le H n a (Lab m h o) = (v, Lab m' h o) /\ after_still m m'.
Proof.
  intros Ha He Hm. assert (G : forall k b t, 0 <= b -> b + Z.of_nat k < 2 ^ 64 -> after_still m t ->
    exists v m', rd_le H k b (Lab t h o) = (v, Lab m' h o) /\ after_still m m').
  { induction k as [|k IH]; intros b t Hb Hk Ht; [by exists 0, t |]. cbn [rd_le].
    rewrite (bind_eq (rd H b) _ _ (load8 H b t).1 (Lab (load8 H b t).2 h o)) by (unfold rd; cbn [lsys]; by destruct (load8 H b t)).
    rewrite wrap64_small by lia. destruct (IH (b + 1) (load8 H b t).2 ltac:(lia) ltac:(lia)) as (v & m' & E & A); [by apply after_still_load |].
    rewrite (bind_eq _ _ _ _ _ E). by do 2 eexists. }
  apply G; [done | done | by apply after_still_refl].
Qed.

Lemma word_read_op p m h o : buf p 4 -> msys_bytes m ->
  exists v m', rd_le H 4 p (Lab m h o) = (v, Lab m' h o) /\ after m m' /\ stays m m'.
Proof.
  intros ((H1 & H2 & H3) & _ & _) Hm. destruct (rd_le_still 4 p m h o ltac:(lia) ltac:(cbn; lia) Hm) as (v & m' & E & A & Z).
  exists v, m'. split; [done | split; [done | by apply stays_still]].
Qed.

Lemma word_seen_op p v m h o : buf p 4 -> msys_bytes m -> 0 <= v < 2 ^ 32 -> seen H p 4 (byte v) m ->
  exists r m', rd_le H 4 p (Lab m h o) = (r, Lab m' h o) /\ after m m' /\ r = v.
Proof.
  intros (Hr & Hc & _) Hm Hv Hs. pose proof Hr as (H1 & H2 & H3).
  destruct (rd_le_gen (after m) (byte v) 4 p m h o) as (m' & E & A); [| lia | cbn; lia | split; [done | apply keeps_refl] |].
  { intros i t Hi Ht. split; [| by apply after_load]. destruct Ht as [B K]. by apply (read_seen p 4 (byte v) m). }
  rewrite number_byte in E by exact Hv. exists v, m'. done.
Qed.

Lemma poll_op n p m h o : buf p 4 -> msys_bytes m ->
  exists r m', poll_flag H n p (Lab m h o) = (r, Lab m' h o) /\ after m m' /\ (lazy -> resident p 4 (byte 0) m -> r = false).
Proof.
  intros Hb Hm. pose proof Hb as ((H1 & H2 & H3) & _ & _).
  destruct (poll_gen (after_still m) n p m h o) as (r & m' & E & [A _] & Hr); [| by apply after_still_refl |].
  { intros t [[B K] S]. destruct (rd_le_still 4 p t h o ltac:(lia) ltac:(cbn; lia) B) as (v & t' & E & [B' K'] & S'). exists v, t'.
    split; [done |]. split; [split; [done | by apply (keeps_trans _ _ _ t)] |]. intros Hz. eapply still_trans; auto. }
  exists r, m'. split; [done | split; [done |]]. intros Hz Hres. apply Hr. intros t [[B K] S].
  destruct (rd_le_gen (fun t' => after_still m t') (byte 0) 4 p t h o) as (t' & E' & A'); [| lia | cbn; lia | by split |].
  - intros i t1 Hi Ht1. split; [| by apply after_still_load]. apply (resident_load p 4 (byte 0)); [done | done | | cbn in Hi; lia].
    exact (resident_still _ _ _ _ _ (proj2 Ht1 Hz) Hres).
  - exists t'. split; [| done]. by rewrite E'.
Qed.

Lemma case5_spec room s : lab_ok (4096 + room) s -> 0 <= room -> outcome 5 room s (case5_completion_flag_race H s).
Proof.
  intros [Hb Hlo Hro Hhi Hca Hre] Hroom. destruct s as [m [c e] o]. cbn [lsys lheap cur kend] in *.
  unfold case5_completion_flag_race. cbv zeta. generalize (Z.to_nat 200000). intros polls. says. alloc 4 p.
  rewrite !to_alias_eq by apply Bf. destruct (block_live p 4 ltac:(apply Bf)) as [-> ->].
  assert (Re : rest H (p + 4) m) by (eapply rest_weaken; [| exact Hre]; lia). clear Hre.
  op (word_op p) as [S1 Z1]. op (poc_res_op p 4 _) as [[S2 D2] Z2]. look (word_read_op p) as v Z3.
  op (word_alias_op p 1 _) as [D4 Z4]. look (poll_op polls p) as saw Hr.
  assert (Hlz : lazy -> saw = false) by (intros Hz; apply (Hr Hz), (Z4 Hz), (Z3 Hz), (Z2 Hz), (Z1 Hz)). clear Hr.
  destruct saw; [verdict_is; discriminate (Hlz Hz) |].
  says. op (cpu_op p 4 _) as [S5 D5]. look (word_seen_op p 1) as r ->. cbn [Z.eqb Pos.eqb negb]. verdict_is.
Qed.

(** ** Sharing a line *)

Lemma line_cases : LS = 32 \/ LS = 64.
Proof.
  destruct (line_size_pow2 H) as (k & Hk & E). rewrite E in *.
  assert (5 <= k) by (apply (Z.pow_le_mono_r_iff 2); lia). assert (k <= 6) by (apply (Z.pow_le_mono_r_iff 2); lia).
  assert (k = 5 \/ k = 6) as [-> | ->] by lia; [left | right]; reflexivity.
Qed.

(** The device writes the inside of a tidy line; its first byte stays. *)
Lemma inside_op p v s : buf p LS -> msys_bytes s -> held H p LS (fun _ => 0 mod 256) s ->
  let s' := memfill_const H (p + 1 + ALIAS) (LS - 2) v s in
  msys_bytes s' /\ keeps H (covers H p LS) s s' /\ (ld8 (pmem s') p = 0 /\ line_clean s' (line_of H p)).
Proof.
  intros ((Hn & Hp & He) & _ & Ha) Hs Hh.
  assert (Hl : forall i, 0 <= i < LS -> line_of H (p + i) = line_of H p).
  { intros i Hi. apply line_of_iff. unfold line_of. pose proof (Z.div_mod p LS ltac:(lia)). lia. }
  destruct (Hh 0 ltac:(lia)) as [C0 M0]. rewrite Z.add_0_r in C0, M0.
  destruct (fill_held H nc ws we (p + 1) (LS - 2) (fun _ => v) s) as (B & K & _ & G & M); [unfold ram_buf; lia | done | |].
  { intros i Hi. rewrite <- Z.add_assoc, Hl by lia. done. }
  split; [exact B | split; [| split; [| by apply G]]].
  - refine (keeps_weaken _ _ _ _ _ _ K). intros k [Hk1 Hk2]. replace (p + 1 + (LS - 2) - 1) with (p + (LS - 2)) in Hk2 by lia.
    rewrite Hl in Hk1, Hk2 by lia. replace k with (line_of H p) by lia. apply covers_byte. lia.
  - rewrite M by (done || lia). exact M0.
Qed.

Lemma guard_op p v s : buf p LS -> msys_bytes s ->
  let s' := store8 H p v s in
  msys_bytes s' /\ keeps H (covers H p LS) s s' /\
    ((forall f, seen H p LS f s -> seen H p LS (fun i => if i =? 0 then v mod 256 else f i) s') /\ (lazy -> pmem s' = pmem s)).
Proof.
  intros (Hr & Hc & _) Hs. destruct (cached_ram H nc ws we Hon p LS 0 Hr Hc ltac:(lia)) as [C1 C2]. rewrite Z.add_0_r in C1, C2.
  destruct (store8_kp H p v s Hs) as [B K]. destruct (store8_c H p v s Hs C1) as (_ & _ & S3 & _ & _ & S6). rewrite C2 in *.
  split; [done | split; [| split]].
  - refine (keeps_weaken _ _ _ _ _ _ K). intros k <-. apply covers_byte. lia.
  - intros f Hf i Hi. destruct (Hf i Hi) as [G V]. split; [by apply S3 |]. rewrite S6, V by done. repeat bdestr; try lia; done.
  - intros Hz. rewrite store8_lazy by done. by rewrite C1.
Qed.

(** Invalidating the inside of the line drops the whole of it. *)
Lemma drop_op p s : buf p LS -> msys_bytes s ->
  let s' := dc_ivac_range H (p + 1) (LS - 2) s in
  msys_bytes s' /\ keeps H (covers H p LS) s s' /\ ((line_clean s' (line_of H p) /\ line_good H s' (line_of H p)) /\ (lazy -> pmem s' = pmem s)).
Proof.
  intros ((Hn & Hp & He) & _ & Ha) Hs.
  assert (Hl : forall i, 0 <= i < LS -> line_of H (p + i) = line_of H p).
  { intros i Hi. apply line_of_iff. unfold line_of. pose proof (Z.div_mod p LS ltac:(lia)). lia. }
  assert (Hr : ram_buf (p + 1) (LS - 2)) by (unfold ram_buf; lia).
  assert (Hcov : forall k, covers H (p + 1) (LS - 2) k <-> k = line_of H p).
  { intros k. unfold covers. replace (p + 1 + (LS - 2) - 1) with (p + (LS - 2)) by lia. rewrite !Hl by lia. lia. }
  destruct (inval_spec H nc ws we Hon (p + 1) (LS - 2) s Hr Hs) as (B & K & G & _).
  split; [exact B | split; [| split; [by apply G, Hcov |]]].
  - refine (keeps_weaken _ _ _ _ _ _ K). intros k ->%Hcov. apply covers_byte. lia.
  - intros Hz. by apply inval_lazy_ram.
Qed.

Lemma guard_read_op p m h o : buf p LS -> msys_bytes m ->
  exists g m', rd H p (Lab m h o) = (g, Lab m' h o) /\ after m m' /\ (line_good H m (line_of H p) -> g = view H m p).
Proof.
  intros (Hr & Hc & _) Hm. destruct (cached_ram H nc ws we Hon p LS 0 Hr Hc ltac:(lia)) as [C1 C2]. rewrite Z.add_0_r in C1, C2.
  pose proof (load8_c H p m Hm C1) as HL. pose proof (after_load m m p ltac:(split; [done | apply keeps_refl])) as A.
  unfold rd. cbn [lsys lheap lout]. destruct (load8 H p m) as [g m']. destruct HL as (_ & _ & Hv). exists g, m'. rewrite C2 in Hv. done.
Qed.

Lemma held_sub p n q m f s : held H p n f s -> p <= q -> q + m <= p + n -> held H q m (fun i => f (q - p + i)) s.
Proof. intros Hh H1 H2 i Hi. replace (q + i) with (p + (q - p + i)) by lia. apply Hh. lia. Qed.

Lemma seen_sub p n q m f s : seen H p n f s -> p <= q -> q + m <= p + n -> seen H q m (fun i => f (q - p + i)) s.
Proof. intros Hh H1 H2 i Hi. replace (q + i) with (p + (q - p + i)) by lia. apply Hh. lia. Qed.

Lemma guard_seen_op p f m h o : buf p LS -> msys_bytes m -> seen H p LS f m ->
  exists g m', rd H p (Lab m h o) = (g, Lab m' h o) /\ after m m' /\ g = f 0.
Proof.
  intros Hb Hm Hs. destruct (guard_read_op p m h o Hb Hm) as (g & m' & E & A & Hg). exists g, m'. split; [done | split; [done |]].
  destruct (Hs 0 ltac:(lia)) as [G V]. rewrite Z.add_0_r in G, V. by rewrite Hg.
Qed.

Ltac alloc_line p :=
  lazymatch goal with
  | |- context [(lalloc (LS * 2) LS ≫= _) (Lab ?m (Kmem ?c ?e) ?o)] =>
    rewrite (bind_eq _ _ _ _ _ (lalloc_eq (LS * 2) LS m c e o line_cases ltac:(lia) ltac:(lia) ltac:(lia) ltac:(lia)));
    let U := fresh "U" in let A := fresh "A" in destruct (up_spec LS c ltac:(lia)) as [U A];
    set (p := up LS c) in *; clearbody p;
    let Bf := fresh "Bf" in assert (Bf : buf p (LS * 2)) by (eapply (heap_buf _ e); [| | eassumption | ..]; first [assumption | lia])
  end.

(** The first half: the guard shares its line with the buffer. *)
Lemma shared_line base (k : Z -> L bool) m h o c : buf base (LS * 2) -> base + LS * 2 <= c -> msys_bytes m -> rest H base m -> rest H c m ->
  exists g m',
    (on_sys (memfill_const H base LS 0) ≫= fun _ => on_sys (clean_to_poc H base LS) ≫= fun _ => on_sys (dc_ivac_range H base LS) ≫= fun _ =>
     on_sys (memfill_const H (base + 1 + ALIAS) (LS - 2) 0x5A) ≫= fun _ => wr H base 0xCC ≫= fun _ =>
     on_sys (dc_ivac_range H (base + 1) (LS - 2)) ≫= fun _ => rd H base ≫= k) (Lab m h o) = k g (Lab m' h o) /\
    msys_bytes m' /\ rest H c m' /\ (lazy -> g = 0).
Proof.
  intros Bf Hc Hb Hr Hre. pose proof (buf_sub base _ LS Bf ltac:(lia)) as Bl. pose proof (proj2 (proj2 Bl)) as Al.
  pose proof (proj1 Bl) as (_ & Hlo & Hhi). unfold wr.
  op (const_op base LS 0) as S1. op (poc_op base LS _) as [S2 D2]. op (inval_op base LS _) as [S3 D3]. op (inside_op base 0x5A) as [M4 C4].
  op (guard_op base 0xCC) as [_ Z5]. op (drop_op base) as [[C6 G6] Z6].
  destruct (guard_read_op base m5 h o Bl B4) as (g & m' & E & [B7 K7] & Hg). rewrite (bind_eq _ _ _ _ _ E).
  exists g, m'. split; [done | split; [done | split]].
  - apply (rest_keep _ _ _ _ _ K7); [by intros ? _ [] | done].
  - intros Hz. rewrite Hg, view_good by done. by rewrite Z6, Z5.
Qed.

(** The second half: the buffer has its own line. *)
Lemma own_line base (x : L bool) (k : option Z -> L bool) m h o c :
  buf base (LS * 2) -> base + LS * 2 <= c -> msys_bytes m -> rest H base m -> rest H c m ->
  exists m',
    (on_sys (memfill_const H base (LS * 2) 0) ≫= fun _ => on_sys (clean_to_poc H base (LS * 2)) ≫= fun _ =>
     on_sys (dc_ivac_range H base (LS * 2)) ≫= fun _ => on_sys (memfill_const H (base + LS + ALIAS) LS 0x7E) ≫= fun _ =>
     wr H base 0xCC ≫= fun _ => on_sys (dc_ivac_range H (base + LS) LS) ≫= fun _ =>
     rd H base ≫= fun g => if negb (g =? 0xCC) then x else scan_const H (Z.to_nat LS) (base + LS) 0 0x7E ≫= k) (Lab m h o) =
      k None (Lab m' h o) /\ msys_bytes m' /\ rest H c m'.
Proof.
  intros Bf Hc Hb Hr Hre. pose proof (buf_sub base _ LS Bf ltac:(lia)) as Bl. pose proof (proj2 (proj2 Bl)) as Al.
  pose proof (proj1 Bf) as (_ & Hlo & Hhi).
  assert (Ar : (base + LS) mod LS = 0) by (rewrite <- (Z.mul_1_l LS) at 1; rewrite Z.mod_add by lia; done).
  assert (Br : buf (base + LS) LS) by (split; [unfold ram_buf; lia | split; [intros a Ha; apply (proj1 (proj2 Bf)); lia | done]]).
  unfold wr. op (const_op base (LS * 2) 0) as S1. op (poc_op base (LS * 2) _) as [S2 D2]. op (inval_op base (LS * 2) _) as [S3 D3].
  pose proof (held_sub base _ (base + LS) LS _ _ D3 ltac:(lia) ltac:(lia)) as Dr. pose proof (seen_sub base _ base LS _ _ S3 ltac:(lia) ltac:(lia)) as Sl.
  clear S1 S2 D2 S3 D3. op (alias_op (base + LS) LS 0x7E _) as [D4 _]. op (guard_op base 0xCC) as [S5 _].
  specialize (S5 _ Sl). op (inval_op (base + LS) LS _) as [S6 D6]. look (guard_seen_op base _) as g ->.
  change (negb ((if 0 =? 0 then 0xCC mod 256 else _) =? 0xCC)) with false. cbv iota.
  look (scan_ok_op (base + LS) LS 0x7E) as bad ->. eexists. split; [reflexivity | by split].
Qed.

Lemma case6_eq s :
  case6_cacheline_sharing_hazard H s =
    (lputsln "[dma-lab][6] cache line sharing hazard (invalidate drops dirty neighbor)" ≫= fun _ =>
     lputsln "[dma-lab][6] why: invalidate works on whole lines; DMA buffers must not share lines" ≫= fun _ =>
     lalloc (LS * 2) LS ≫= fun base =>
     if base =? nullptr then mret false
     else if to_alias (base +64 1) (LS - 2) =? nullptr then mret false
     else
       on_sys (memfill_const H base LS 0) ≫= fun _ => on_sys (clean_to_poc H base LS) ≫= fun _ => on_sys (dc_ivac_range H base LS) ≫= fun _ =>
       on_sys (memfill_const H (to_alias (base +64 1) (LS - 2)) (LS - 2) 0x5A) ≫= fun _ => wr H base 0xCC ≫= fun _ =>
       on_sys (dc_ivac_range H (base +64 1) (LS - 2)) ≫= fun _ => rd H base ≫= fun g =>
       if g =? 0xCC then lputsln "[dma-lab][6] ERR unexpected PASS (guard survived invalidate)" ≫= fun _ => mret false
       else
         lputsln "[dma-lab][6] OK expected FAIL: guard lost due to line invalidate" ≫= fun _ =>
         lalloc (LS * 2) LS ≫= fun base2 =>
         if base2 =? nullptr then mret false
         else if to_alias (base2 +64 LS) LS =? nullptr then mret false
         else
           on_sys (memfill_const H base2 (LS * 2) 0) ≫= fun _ => on_sys (clean_to_poc H base2 (LS * 2)) ≫= fun _ => on_sys (dc_ivac_range H base2 (LS * 2)) ≫= fun _ =>
           on_sys (memfill_const H (to_alias (base2 +64 LS) LS) LS 0x7E) ≫= fun _ => wr H base2 0xCC ≫= fun _ =>
           on_sys (dc_ivac_range H (base2 +64 LS) LS) ≫= fun _ => rd H base2 ≫= fun g =>
           if negb (g =? 0xCC) then lputsln "[dma-lab][6] ERR fix failed: guard corrupted" ≫= fun _ => mret false
           else
             scan_const H (Z.to_nat LS) (base2 +64 LS) 0 0x7E ≫= fun bad =>
             match bad with
             | Some i =>
               lputs "[dma-lab][6] ERR fix failed: buffer mismatch@" ≫= fun _ =>
               lprint_u64 i ≫= fun _ => lputs nl ≫= fun _ => mret false
             | None => lputsln "[dma-lab][6] OK fixed PASS (line-aligned buffer avoids sharing)" ≫= fun _ => mret true
             end) s.
Proof.
  unfold case6_cacheline_sharing_hazard. rewrite lab_line. cbv zeta.
  assert (E1 : (LS <? 32) || negb (Z.land LS (LS -64 1) =? 0) = false) by (destruct line_cases as [-> | ->]; done).
  assert (E2 : LS -64 2 = LS - 2) by (apply wrap64_small; lia). assert (E3 : wrap64 (LS * 2) = LS * 2) by (apply wrap64_small; lia).
  by rewrite E1, E2, E3.
Qed.

Lemma case6_spec room s : lab_ok (4096 + room) s -> 0 <= room -> outcome 6 room s (case6_cacheline_sharing_hazard H s).
Proof.
  intros [Hb Hlo Hro Hhi Hca Hre] Hroom. rewrite case6_eq. destruct s as [m [c e] o]. cbn [lsys lheap cur kend] in *.
  says. alloc_line base. destruct (block_live base (LS * 2) ltac:(apply Bf)) as [-> _]. pose proof (proj1 Bf) as (_ & Hb1 & Hb2).
  rewrite (wrap64_small (base + 1)), to_alias_eq by (unfold ram_buf; lia). destruct (block_live (base + 1) (LS - 2)) as [_ ->]; [unfold ram_buf; lia |].
  assert (Rb : rest H base m) by (eapply rest_weaken; [| exact Hre]; lia).
  assert (Re : rest H (base + LS * 2) m) by (eapply rest_weaken; [| exact Hre]; lia). clear Hre.
  edestruct (shared_line base) as (g & m1 & -> & B1 & Re1 & Hg); [exact Bf | reflexivity | exact Hb | exact Rb | exact Re |].
  destruct (Z.eqb_spec g 0xCC) as [-> | Hne]; [verdict_is; discriminate (Hg Hz) |]. clear Rb Re.
  says. alloc_line base2. destruct (block_live base2 (LS * 2) ltac:(apply Bf0)) as [-> _]. pose proof (proj1 Bf0) as (_ & Hb3 & Hb4).
  rewrite (wrap64_small (base2 + LS)), to_alias_eq by (unfold ram_buf; lia). destruct (block_live (base2 + LS) LS) as [_ ->]; [unfold ram_buf; lia |].
  assert (Rb : rest H base2 m1) by (eapply rest_weaken; [| exact Re1]; lia).
  assert (Re : rest H (base2 + LS * 2) m1) by (eapply rest_weaken; [| exact Re1]; lia).
  edestruct (own_line base2) as (m2 & -> & B2 & Re2); [exact Bf0 | reflexivity | exact B1 | exact Rb | exact Re |]. verdict_is.
Qed.

(** ** The whole run *)

Lemma run_case_spec n room s : 1 <= n <= 6 -> lab_ok (4096 + room) s -> 0 <= room -> outcome n room s (run_case H n s).
Proof.
  intros Hn Hs Hr. assert (n = 1 \/ n = 2 \/ n = 3 \/ n = 4 \/ n = 5 \/ n = 6) as [-> | [-> | [-> | [-> | [-> | ->]]]]] by lia;
    [apply case1_spec | apply case2_spec | apply case3_spec | apply case4_spec | apply case5_spec | apply case6_spec]; done.
Qed.

Lemma run_cases_spec k c pass room s : 1 <= c -> c + Z.of_nat k <= 7 -> lab_ok (4096 * Z.of_nat k + room) s -> 0 <= room ->
  exists p s', run_cases H k c pass s = (p, s') /\ lab_ok room s' /\ pass <= p <= pass + Z.of_nat k /\
    (lazy -> p = pass + Z.of_nat k) /\ ext (lout s) (lout s').
Proof.
  revert c pass s. induction k as [|k IH]; intros c pass s Hc Hk Hs Hr; cbn [run_cases].
  { exists pass, s. split; [done | split; [done | split; [lia | split; [lia | apply ext_refl]]]]. }
  destruct (run_case_spec c (4096 * Z.of_nat k + room) s) as (O1 & O2 & t & O3); [lia | | lia |].
  { replace (4096 + (4096 * Z.of_nat k + room)) with (4096 * Z.of_nat (Datatypes.S k) + room) by lia. done. }
  destruct (run_case H c s) as [b s1] eqn:E. cbn [fst snd] in *. rewrite (bind_eq _ _ _ _ _ E).
  destruct (IH (c + 1) (if b then pass + 1 else pass) s1) as (p & s' & -> & I1 & I2 & I3 & I4); [lia | lia | done | done |].
  exists p, s'. split; [done | split; [done | split; [destruct b; lia | split]]].
  - intros Hz. rewrite (I3 Hz), (O2 Hz). lia.
  - destruct I4 as [t' ->]. rewrite O3, <- !app_assoc. by eexists.
Qed.

End Machine.

(** ** Theorems *)

(** C12: whatever lines the hardware fetches and evicts, each of the six
    experiments ends in one of two ways: it reports that the failure it provokes
    was seen and that the proper sequence works, or that the failure did not
    appear; the proper sequence (clean before the device reads, invalidate
    before the program reads, whole lines of one's own) never fails.  On a
    hardware that evicts nothing the first way is taken.  The machine is left fit
    for the next experiment, with at most 4 KiB less of heap. *)
Theorem dma_lab_cases H nc ws we `{HM : !DmaMap (xlate H) nc ws we} n room s :
  dcache_enabled H = true -> 32 <= Cache.dcache_line_size H <= 64 -> 1 <= n <= 6 -> 0 <= room -> lab_ok H (4096 + room) s ->
  let '(passed, s') := run_case H n s in
  lab_ok H room s' /\ (lazy H -> passed = true) /\
  exists t, lout s' = lout s ++ t ++ puts_bytes (chars (verdict n passed ++ nl)).
Proof.
  intros Hon Hl Hn Hr Hs. pose proof (run_case_spec H nc ws we Hon Hl n room s Hn Hs Hr) as (O1 & O2 & O3).
  destruct (run_case H n s) as [b s']. auto.
Qed.

(** the whole lab reports how many experiments passed, all six on a
    hardware that evicts nothing; with the data cache off it says so and does
    nothing. *)
Theorem dma_lab_report H nc ws we `{HM : !DmaMap (xlate H) nc ws we} s :
  (dcache_enabled H = true -> 32 <= Cache.dcache_line_size H <= 64 -> lab_ok H (6 * 4096) s ->
   exists p s' t, dma_lab_run H nc 1 s = ((), s') /\ 0 <= p <= 6 /\ (lazy H -> p = 6) /\ lab_ok H 0 s' /\
     lout s' = lout s ++ t ++ puts_bytes (chars "[dma-lab] result ") ++ puts_bytes (chars (if p =? 6 then "PASS (" else "FAIL (")) ++
       print_u64_bytes p ++ puts_bytes (chars "/") ++ print_u64_bytes 6 ++ puts_bytes (chars (")" ++ nl))) /\
  (dcache_enabled H = false ->
   exists t, dma_lab_run H nc 1 s =
     ((), Lab (lsys s) (lheap s) (lout s ++ t ++ puts_bytes (chars ("[dma-lab] dcache disabled; lab requires caches-on" ++ nl))))).
Proof.
  destruct s as [m h o]. split.
  - intros Hon Hl Hs. unfold dma_lab_run. says. rewrite Hon. cbn [negb]. says. change (1 =? 1) with true. cbv iota.
    set (o1 := _ ++ puts_bytes (chars nl)). assert (X1 : ext o o1) by (repeat apply ext_snoc; apply ext_refl). clearbody o1.
    destruct (run_cases_spec H nc ws we Hon Hl 6 1 0 0 (Lab m h o1)) as (p & s' & E & L1 & Hp & Hz & X2); [lia | lia | by destruct Hs | lia |].
    rewrite (bind_eq (run_cases H 6 1 0 ≫= _) _ _ (p, 6) s') by (by rewrite (bind_eq _ _ _ _ _ E)). destruct s' as [m' h' o'].
    cbn [lout] in X2. destruct X1 as [t1 ->], X2 as [t2 ->]. cbv beta iota. says. unfold lputs. cbn [lsys lheap lout].
    exists p. eexists. exists (t1 ++ t2). split; [reflexivity |].
    split; [lia | split; [exact Hz | split; [by destruct L1 |]]]. cbn [lout]. by rewrite <- !app_assoc.
  - intros Hoff. unfold dma_lab_run. says. rewrite Hoff. cbn [negb].
    set (o1 := _ ++ puts_bytes (chars nl)). assert (X1 : ext o o1) by (repeat apply ext_snoc; apply ext_refl). clearbody o1.
    destruct X1 as [t ->]. exists t. unfold lputsln, lputs. cbn [lsys lheap lout]. by rewrite <- app_assoc.
Qed.

(** ** Witnesses *)

(** 64-byte lines and the kernel's tables; one hardware evicts a line before
    every access, the other none. *)
Definition demo_lab_hw (evicts : bool) : hwcfg :=
  Hw 0x80040000 0x5 (xlate (hwc demo_dma_cfg)) (fun n => if evicts then [HEvict (0x40300000 / 64); HFill (0x40300400 / 64)] else []).

#[export] Instance demo_lab_map evicts : DmaMap (xlate (demo_lab_hw evicts)) false (dma_nc_start_ demo_dma_cfg) (dma_nc_end_ demo_dma_cfg).
Proof. exact demo_dma_map. Qed.

Definition demo_lab : lab := Lab demo_sys (Kmem 0x40300000 0x40310000) [].

Lemma demo_lab_ok evicts room : room <= 0x10000 -> lab_ok (demo_lab_hw evicts) room demo_lab.
Proof.
  intros Hr. split; cbn [lsys lheap demo_lab cur kend]; [exact demo_sys_bytes | lia | lia | lia | |].
  - intros a Ha. rewrite (dm_policy (DmaMap := demo_lab_map evicts)) by lia. done.
  - intros k _ l E. discriminate E.
Qed.

Lemma demo_lab_line evicts : 32 <= Cache.dcache_line_size (demo_lab_hw evicts) <= 64.
Proof. change (32 <= 64 <= 64). lia. Qed.

Lemma dma_lab_cases_witness :
  (exists passed s' t, run_case (demo_lab_hw true) 3 demo_lab = (passed, s') /\ lab_ok (demo_lab_hw true) 0 s' /\
     lout s' = t ++ puts_bytes (chars (verdict 3 passed ++ nl))) /\
  exists s', run_case (demo_lab_hw false) 6 demo_lab = (true, s').
Proof.
  split.
  - pose proof (dma_lab_cases (demo_lab_hw true) false _ _ 3 0 demo_lab eq_refl (demo_lab_line true) ltac:(lia) ltac:(lia) (demo_lab_ok true (4096 + 0) ltac:(lia))) as H.
    destruct (run_case (demo_lab_hw true) 3 demo_lab) as [b s']. destruct H as (H1 & _ & t & H2). by exists b, s', t.
  - pose proof (dma_lab_cases (demo_lab_hw false) false _ _ 6 0 demo_lab eq_refl (demo_lab_line false) ltac:(lia) ltac:(lia) (demo_lab_ok false (4096 + 0) ltac:(lia))) as H.
    destruct (run_case (demo_lab_hw false) 6 demo_lab) as [b s']. destruct H as (_ & H2 & _). exists s'. f_equal. apply H2.
    intros n e He. by apply not_elem_of_nil in He.
Defined.

Lemma dma_lab_report_witness : exists s', dma_lab_run (demo_lab_hw false) false 1 demo_lab = ((), s') /\ lab_ok (demo_lab_hw false) 0 s'.
Proof.
  destruct (dma_lab_report (demo_lab_hw false) false _ _ demo_lab) as [Hr _].
  destruct (Hr eq_refl (demo_lab_line false) (demo_lab_ok false (6 * 4096) ltac:(lia))) as (p & s' & t & E & _ & _ & Hok & _). exists s'. exact (conj E Hok).
Defined.
