(* ===== verification/SelfTest.v ===== *)
(** * [src/src/kmain.cc]: the DMA self-test

    Before it starts the scheduler the kernel copies a kilobyte through the DMA
    engine and compares.  The buffers live in the memory of the DMA engine
    ([Dma.sys]), as does the flag the callback sets.  The source is cleaned when
    the transfer is submitted; the destination, which the test has just written,
    is not. *)

From Stdlib Require Import String.
From S2P Require Import Prelude Mem Kmem Uart Pte Mmu Cache Dma Region DmaLab DmaLabThms.

(** [g_dma_src_buf], [g_dma_dst_buf], [g_dma_len]. *)
Record dma_test := DmaTest {
  g_dma_src_buf : Z;
  g_dma_dst_buf : Z;
  g_dma_len : Z
}.

(** The address of the function [dma_test_cb]. *)
Definition dma_test_cb_addr : Z := 0x40080400.

Definition k_dma_test_len : Z := 1024.

Section SelfTest.

Context (H : hwcfg).

Definition on_mem (f : msys -> msys) (s : dma_st) : dma_st := set_sys (f (sys s)) s.

Definition load_byte (a : Z) (s : dma_st) : Z * dma_st := let '(v, m) := load8 H a (sys s) in (v, set_sys m s).

(** An [int] in memory. *)
Definition store_int (a v : Z) : dma_st -> dma_st :=
  on_mem (for_range 0 4 (fun i => store8 H (a +64 i) (v / 256 ^ i))).

Definition load_int (a : Z) (s : dma_st) : Z * dma_st :=
  let '(b0, s) := load_byte a s in
  let '(b1, s) := load_byte (a +64 1) s in
  let '(b2, s) := load_byte (a +64 2) s in
  let '(b3, s) := load_byte (a +64 3) s in
  (b0 + 256 * b1 + 65536 * b2 + 16777216 * b3, s).

(** [for (i < g_dma_len) if (dst[i] != src[i]) { ok = false; break; }]. *)
Fixpoint compare_loop (n : nat) (i dst src : Z) (s : dma_st) : bool * dma_st :=
  match n with
  | O => (true, s)
  | Datatypes.S n' =>
    let '(x, s) := load_byte (dst +64 i) s in
    let '(y, s) := load_byte (src +64 i) s in
    if negb (x =? y) then (false, s) else compare_loop n' (i + 1) dst src s
  end.

Definition report (ok : bool) : dma_st -> dma_st := dputs ((if ok then "[DMA OK]" else "[DMA FAIL]") ++ nl).

Definition compare_buffers (t : dma_test) (s : dma_st) : dma_st :=
  let '(ok, s) := compare_loop (Z.to_nat (g_dma_len t)) 0 (g_dma_dst_buf t) (g_dma_src_buf t) s in report ok s.

Definition dma_test_cb (t : dma_test) (user status : Z) (s : dma_st) : dma_st :=
  let s := if negb (user =? nullptr) then store_int user 1 s else s in
  if negb (status =? 0) || (g_dma_dst_buf t =? nullptr) || (g_dma_src_buf t =? nullptr) then dputs ("[DMA FAIL]" ++ nl) s
  else compare_buffers t s.

(** The engine with the self-test's callback registered. *)
Definition test_cfg (nc : bool) (ws we : Z) (t : dma_test) : dma_cfg :=
  DmaCfg H nc ws we (fun cb user status s => if cb =? dma_test_cb_addr then dma_test_cb t user status s else s).

Definition fill_buffers (src dst : Z) : msys -> msys :=
  for_range 0 k_dma_test_len (fun i m => store8 H (dst +64 i) 0 (store8 H (src +64 i) (Z.land (wrap64 (i * 7)) 0xFF) m)).

(** From the allocated buffers on; [flag] is the address of [g_dma_cb_seen]. *)
Definition transfer_test (nc : bool) (ws we flag : Z) (fuel : nat) (src dst : Z) (s : dma_st) : option dma_st :=
  let t := DmaTest src dst k_dma_test_len in
  if (src =? nullptr) || (dst =? nullptr) then Some (dputs ("[DMA] buffer allocation failed" ++ nl) s)
  else
    let s := on_mem (fill_buffers src dst) s in
    let s := dputs ("[dma-selftest] D1 filled" ++ nl) s in
    let s := store_int flag 0 s in
    let '(submit, s) := dma_submit_memcpy (test_cfg nc ws we t) dst src k_dma_test_len dma_test_cb_addr flag s in
    if negb (submit =? 0) then Some (dputs ("[DMA] submit failed" ++ nl) s)
    else
      s ← dma_poll_complete (test_cfg nc ws we t) fuel (dputs ("[DMA] submit ok" ++ nl) s);
      let '(seen, s) := load_int flag s in
      Some (if seen =? 0 then compare_buffers t s else s).

Definition dma_selftest (nc : bool) (ws we heap_start heap_end flag : Z) (fuel : nat) (k : kmem) (s : dma_st) : option (kmem * dma_st) :=
  let s := dputs ("[dma-selftest] D0 enter" ++ nl) s in
  let s := dputhex64 ws (dputs "[dma-selftest] dma_nc=[0x" s) in
  let s := dputhex64 we (dputs " .. 0x" s) in
  let s := dputhex64 heap_start (dputs "] heap=[0x" s) in
  let s := dputs ("]" ++ nl) (dputhex64 heap_end (dputs " .. 0x" s)) in
  let '(src, k) := kmem_alloc_aligned k_dma_test_len 4096 k in
  let '(dst, k) := kmem_alloc_aligned k_dma_test_len 4096 k in
  s ← transfer_test nc ws we flag fuel src dst s;
  Some (k, s).

End SelfTest.

(** ** What the driver does to memory *)

Section Steps.

Context (C : dma_cfg) `{HM : !DmaMap (xlate (hwc C)) (noncacheable C) (dma_nc_start_ C) (dma_nc_end_ C)}.
Context (Hon : dcache_enabled (hwc C) = true).

Abbreviation HW := (hwc C).

(** Preparing a range keeps everything. *)
Lemma prepare_kp buf len s : 0 <= buf < 2 ^ 64 -> 0 <= len < 2 ^ 64 -> msys_bytes (sys s) ->
  msys_bytes (sys (dma_prepare_to_device C buf len s)) /\ keeps HW none (sys s) (sys (dma_prepare_to_device C buf len s)).
Proof.
  intros Hb Hl Hs. unfold dma_prepare_to_device. cbv zeta. set (s1 := if _ && _ then _ else s).
  assert (E : sys s1 = sys s) by (unfold s1; by destruct (_ && _)). clearbody s1. rewrite <- E in *.
  destruct (dma_cache_maint_allowed C buf len) eqn:Ha; cbn [sys set_sys]; [| by apply log_kp].
  destruct (maint_allowed_spec C buf len Hb Hl Ha) as (H1 & H2 & H3).
  destruct (clean_spec HW _ _ _ Hon buf len (sys s1) ltac:(done) Hs) as (C1 & C2 & _).
  destruct (log_kp HW DMB_OSHST _ C1) as [L1 L2]. split; [done |]. by apply (keeps_trans _ _ _ (dc_cvac_range HW buf len (sys s1))).
Qed.

(** So does submitting. *)
Lemma submit_kp dst src len cb user s :
  0 <= src < 2 ^ 64 -> 0 <= len < 2 ^ 64 -> window_wf s -> g_pending_tail s = nullptr -> msys_bytes (sys s) ->
  keeps HW none (sys s) (sys (dma_submit_memcpy C dst src len cb user s).2).
Proof.
  intros Hsrc Hlen Hw Ht Hb. unfold dma_submit_memcpy. destruct (_ || _); [apply keeps_refl |].
  rewrite dma_alloc_desc_eq by done. pose proof Hw as (W1 & W2 & W3).
  assert (Hda : 0 < desc_addr s < 2 ^ 62 + 8) by (unfold desc_addr; zlia).
  destruct (g_dma_buf_end s <? desc_addr s + sizeof_desc); [apply keeps_refl |].
  rewrite (proj2 (Z.eqb_neq (desc_addr s) nullptr)) by (unfold nullptr; lia). cbv zeta. set (s1 := set_desc _ _ _).
  destruct (prepare_kp src len s1 Hsrc Hlen Hb) as [A1 A2]. set (s2 := dma_prepare_to_device C src len s1) in *.
  destruct (prepare_kp (desc_addr s) sizeof_desc s2) as [B1 B2]; [lia | done | done |].
  set (s3 := dma_prepare_to_device C (desc_addr s) sizeof_desc s2) in *.
  assert (Q : g_pending_tail s3 = nullptr).
  { destruct (prepare_same C src len s1) as (_ & _ & _ & _ & Q1 & _), (prepare_same C (desc_addr s) sizeof_desc s2) as (_ & _ & _ & _ & Q2 & _).
    fold s2 in Q1. fold s3 in Q2. rewrite Q2, Q1. exact Ht. }
  rewrite Q, Z.eqb_refl. cbn [negb]. cbn [snd sys dputs dputhex64 dprint_u64 dout].
  assert (Hq : sys (enqueue (desc_addr s) s3) = sys s3).
  { unfold enqueue, local_irq_save, local_irq_restore. cbv zeta. by destruct (negb _). }
  change (sys (dputs _ ?x)) with (sys x). rewrite Hq. by apply (keeps_trans _ _ (sys s1) (sys s2)).
Qed.

Context (Hmmu : mmu_translation_enabled C = true).

(** The device's copy touches the destination only. *)
Lemma copy_kp dst src len m : ram_buf dst len -> ram_buf src len -> msys_bytes m ->
  let m' := dma_memcpy C (dst + 0x40000000) (src + 0x40000000) len m in
  msys_bytes m' /\ keeps HW (covers HW dst len) m m'.
Proof.
  intros (Hn & Hd1 & Hd2) (_ & Hs1 & Hs2) Hs m'. unfold m', dma_memcpy. apply for_range_kp; [| done].
  intros t i Hi Ht. rewrite !wrap64_small by lia. pose proof (load8_kp HW (src + 0x40000000 + i) t Ht) as [L1 L2].
  destruct (load8 HW (src + 0x40000000 + i) t) as [v t1]. cbn [snd] in *.
  destruct (store8_kp HW (dst + 0x40000000 + i) v t1 L1) as [S1 S2]. split; [done |].
  apply (keeps_trans _ _ _ t1); [by apply keeps_none |]. refine (keeps_weaken _ _ _ _ _ _ S2). intros k <-.
  replace (dst + 0x40000000 + i) with (dst + i + 0x40000000) by lia.
  rewrite (proj1 (alias_ram HW _ _ _ (dst + i) ltac:(lia))). apply covers_byte. cbn [fst]. lia.
Qed.

(** A transfer between buffers the driver may maintain: the copy, then the
    invalidation of the destination. *)
Lemma transfer_kp dst src len s :
  dma_cache_maint_allowed C dst len = true -> ram_buf dst len -> ram_buf src len -> len < 2 ^ 64 -> msys_bytes (sys s) ->
  let m := dma_memcpy C (dst + 0x40000000) (src + 0x40000000) len (sys s) in
  let m' := sys (dma_transfer C dst src len s) in
  m' = dc_ivac_range HW dst len (dma_rmb m) /\ msys_bytes m /\
  msys_bytes m' /\ keeps HW (covers HW dst len) (sys s) m' /\
  (forall k, covers HW dst len k -> line_clean m' k /\ line_good HW m' k).
Proof.
  intros Ha Hd Hs Hl Hb m m'. destruct (copy_kp dst src len (sys s) Hd Hs Hb) as [M1 M2]. fold m in M1, M2.
  assert (E : m' = dc_ivac_range HW dst len (dma_rmb m)).
  { destruct Hd as (D1 & D2 & D3), Hs as (_ & S1 & S2). unfold m', dma_transfer. rewrite !(device_view_alias C Hmmu) by done. cbv zeta.
    rewrite (proj2 (Z.eqb_neq (dst + 0x40000000) dst)) by lia. cbn [andb]. fold m. unfold dma_complete_from_device. rewrite Ha. cbv zeta.
    set (s1 := if _ && _ then _ else _). assert (E : sys s1 = m) by (unfold s1; by destruct (_ && _)). by rewrite E. }
  split; [done | split; [done |]]. rewrite E. destruct (log_kp HW DMB_OSHLD m M1) as [L1 L2].
  destruct (inval_spec HW _ _ _ Hon dst len (dma_rmb m) Hd L1) as (I1 & I2 & I3 & _). split; [done | split; [| done]].
  apply (keeps_trans _ _ _ (dma_rmb m)); [| done]. apply (keeps_trans _ _ _ m); [done | by apply keeps_none].
Qed.

(** On a hardware that evicts nothing the destination is what memory held. *)
Lemma transfer_lazy dst src len f s :
  lazy HW -> dma_cache_maint_allowed C dst len = true -> ram_buf dst len -> ram_buf src len -> src + len <= dst -> len < 2 ^ 64 ->
  msys_bytes (sys s) -> held HW src len f (sys s) -> seen HW dst len f (sys (dma_transfer C dst src len s)).
Proof.
  intros Hz Ha Hd Hs Hap Hl Hb Hh. destruct (transfer_kp dst src len s Ha Hd Hs Hl Hb) as (E & _ & _ & _ & G).
  set (m' := sys _) in *. intros i Hi. destruct (G _ (covers_in HW dst len i Hi)) as [G1 G2]. split; [done |].
  rewrite (view_good HW) by done. rewrite E, (inval_lazy_ram HW _ _ _ Hon) by done. change (pmem (dma_rmb ?x)) with (pmem x).
  etrans; [apply (copy_lazy HW _ _ _ dst src len (sys s) (dst + i) Hz); done |].
  rewrite (proj2 (Z.leb_le _ _)), (proj2 (Z.ltb_lt _ _)) by lia. cbn [andb]. replace (src + (dst + i - dst)) with (src + i) by lia. by apply Hh.
Qed.

(** What a completion does to memory before the callback. *)
Lemma finish_sys d s x :
  desc s d = x -> 0 < d_len x -> 0 < d < 2 ^ 63 ->
  exists s0 s1, sys s0 = sys s /\ sys (dma_transfer C (d_dst x) (d_src x) (d_len x) s0) = sys s1 /\
    sys (dma_finish C d s) = sys (dma_prepare_to_device C d sizeof_desc s1).
Proof.
  intros Hx Hl Hd. unfold dma_finish. cbv zeta. rewrite Hx. set (s3 := if g_pending_head _ =? nullptr then _ else _).
  assert (E3 : sys s3 = sys s /\ descs s3 = descs s) by (unfold s3; by destruct (_ =? _)). destruct E3 as [E3 E3d]. clearbody s3.
  assert (Hd3 : desc s3 d = x) by (unfold desc in *; by rewrite E3d).
  rewrite Hd3. rewrite (proj2 (Z.eqb_neq (d_len x) 0)) by lia. cbn [negb].
  set (s4 := dputs nl _). set (s6 := set_desc _ _ (dma_transfer C _ _ _ s4)). exists s4, s6. done.
Qed.

End Steps.

(** ** The test itself *)

Section Test.

Context (H : hwcfg) (nc : bool) (ws we : Z) `{HM : !DmaMap (xlate H) nc ws we}.
Context (Hon : dcache_enabled H = true) (Hmmu : negb (Z.land (sctlr_el1 H) 1 =? 0) = true).

Abbreviation LS := (Cache.dcache_line_size H).
Abbreviation cfg := (test_cfg H nc ws we).

(** What [fill_buffers] leaves in the source. *)
Definition pattern (i : Z) : Z := Z.land (wrap64 (i * 7)) 0xFF mod 256.

Lemma fill_buffers_spec src dst m :
  ram_buf src k_dma_test_len -> cached H src k_dma_test_len -> ram_buf dst k_dma_test_len -> cached H dst k_dma_test_len ->
  apart H src k_dma_test_len dst k_dma_test_len -> msys_bytes m ->
  (forall i, 0 <= i < k_dma_test_len -> line_good H m (line_of H (src + i)) /\ line_good H m (line_of H (dst + i))) ->
  let m' := fill_buffers H src dst m in
  msys_bytes m' /\ keeps H (fun k => covers H src k_dma_test_len k \/ covers H dst k_dma_test_len k) m m' /\
  seen H src k_dma_test_len pattern m' /\ seen H dst k_dma_test_len (fun _ => 0) m'.
Proof.
  intros Hrs Hcs Hrd Hcd Hap Hm Hg m'. unfold m', fill_buffers. set (N := k_dma_test_len) in *.
  pose proof Hrs as (Hn & Hs1 & Hs2). pose proof Hrd as (_ & Hd1 & Hd2).
  set (K := fun k => covers H src N k \/ covers H dst N k).
  assert (Hne : forall i j, 0 <= i < N -> 0 <= j < N -> line_of H (src + i) <> line_of H (dst + j)).
  { intros i j Hi Hj E. apply (Hap (line_of H (src + i))); [by apply covers_in |]. rewrite E. by apply covers_in. }
  set (P := fun j t => msys_bytes t /\ keeps H K m t /\
    (forall i, 0 <= i < N -> line_good H t (line_of H (src + i)) /\ line_good H t (line_of H (dst + i))) /\
    forall i, 0 <= i < j -> view H t (src + i) = pattern i /\ view H t (dst + i) = 0).
  match goal with |- context [for_range 0 N ?f m] => destruct (for_range_ind P 0 N f m) as (B & Kp & G & V) end; [lia | | |].
  - split; [done | split; [apply keeps_refl | split; [done | lia]]].
  - intros j t Hj (B & Kp & G & V). rewrite !wrap64_small by lia.
    destruct (cached_ram H nc ws we Hon src N j Hrs Hcs ltac:(lia)) as [C1 C2], (cached_ram H nc ws we Hon dst N j Hrd Hcd ltac:(lia)) as [D1 D2].
    set (v := Z.land (j * 7) 0xFF). assert (Ev : v mod 256 = pattern j) by (unfold pattern; by rewrite wrap64_small by lia).
    destruct (store8_kp H (src + j) v t B) as [B1 K1]. destruct (store8_c H (src + j) v t B C1) as (_ & _ & S3 & _ & _ & S6). rewrite C2 in *.
    set (t1 := store8 H (src + j) v t) in *. destruct (store8_kp H (dst + j) 0 t1 B1) as [B2 K2].
    destruct (store8_c H (dst + j) 0 t1 B1 D1) as (_ & _ & T3 & _ & _ & T6). rewrite D2 in *. set (t2 := store8 H (dst + j) 0 t1) in *.
    split; [done | split; [| split]].
    + apply (keeps_trans _ _ _ t); [done |]. apply (keeps_trans _ _ _ t1).
      * refine (keeps_weaken _ _ _ _ _ _ K1). intros k <-. left. apply covers_in. lia.
      * refine (keeps_weaken _ _ _ _ _ _ K2). intros k <-. right. apply covers_in. lia.
    + intros i Hi. destruct (G i Hi). auto.
    + intros i Hi. destruct (G i ltac:(lia)) as [G1 G2]. rewrite !T6, !S6 by auto.
      pose proof (Hne i j ltac:(lia) ltac:(lia)) as N1. pose proof (Hne j i ltac:(lia) ltac:(lia)) as N2.
      rewrite (proj2 (Z.eqb_neq (dst + j) (src + i))), (proj2 (Z.eqb_neq (src + j) (dst + i))) by congruence.
      destruct (Z.eq_dec i j) as [-> |]; [by rewrite !Z.eqb_refl |]. rewrite !(proj2 (Z.eqb_neq _ _)) by lia. apply V. lia.
  - split; [done | split; [done | split]]; intros i Hi; (split; [by apply (G i Hi) | by apply (V i Hi)]).
Qed.

(** [store_int] on a cached [int]. *)
Lemma store_int_spec a v s : ram_buf a 4 -> cached H a 4 -> msys_bytes (sys s) ->
  (forall i, 0 <= i < 4 -> line_good H (sys s) (line_of H (a + i))) ->
  msys_bytes (sys (store_int H a v s)) /\ keeps H (covers H a 4) (sys s) (sys (store_int H a v s)) /\
  seen H a 4 (byte v) (sys (store_int H a v s)).
Proof. intros Hr Hc Hs Hg. exact (fill_seen H nc ws we Hon a 4 (fun i => v / 256 ^ i) (sys s) Hr Hc Hs Hg). Qed.

(** States that reading leads to. *)
Definition reads_from (s t : dma_st) : Prop := after H (sys s) (sys t) /\ same_queue s t /\ dma_out t = dma_out s.

Lemma reads_refl s : msys_bytes (sys s) -> reads_from s s.
Proof. intros Hs. split; [split; [done | apply keeps_refl] | by split]. Qed.

Lemma load_byte_spec s t a : reads_from s t -> reads_from s (load_byte H a t).2.
Proof.
  intros (A & Q & O). unfold load_byte. pose proof (after_load H (sys s) (sys t) a A) as L. destruct (load8 H a (sys t)) as [v m]. cbn [snd] in *.
  by split.
Qed.

Lemma load_seen p n f s t i : ram_buf p n -> cached H p n -> seen H p n f (sys s) -> reads_from s t -> 0 <= i < n ->
  (load_byte H (p +64 i) t).1 = f i.
Proof.
  intros Hr Hc Hs ((B & K) & _) Hi. pose proof Hr as (_ & Hp & He). rewrite wrap64_small by lia.
  pose proof (read_seen H nc ws we Hon p n f (sys s) (sys t) i Hr Hc Hs B K Hi) as E. unfold load_byte. by destruct (load8 H (p + i) (sys t)).
Qed.

Lemma load_int_spec a v s t : 0 <= v < 256 ^ 4 -> ram_buf a 4 -> cached H a 4 -> seen H a 4 (byte v) (sys s) -> reads_from s t ->
  exists t', load_int H a t = (v, t') /\ reads_from s t'.
Proof.
  intros Hv Hr Hc Hs Ht. pose proof Hr as (_ & Ha & He). unfold load_int.
  pose proof (load_seen a 4 _ s t 0 Hr Hc Hs Ht ltac:(lia)) as E0. rewrite wrap64_small, Z.add_0_r in E0 by lia.
  pose proof (load_byte_spec s t a Ht) as R0. destruct (load_byte H a t) as [b0 t0]. cbn [fst snd] in *.
  pose proof (load_seen a 4 _ s t0 1 Hr Hc Hs R0 ltac:(lia)) as E1. pose proof (load_byte_spec s t0 (a +64 1) R0) as R1.
  destruct (load_byte H (a +64 1) t0) as [b1 t1]. cbn [fst snd] in *.
  pose proof (load_seen a 4 _ s t1 2 Hr Hc Hs R1 ltac:(lia)) as E2. pose proof (load_byte_spec s t1 (a +64 2) R1) as R2.
  destruct (load_byte H (a +64 2) t1) as [b2 t2]. cbn [fst snd] in *.
  pose proof (load_seen a 4 _ s t2 3 Hr Hc Hs R2 ltac:(lia)) as E3. pose proof (load_byte_spec s t2 (a +64 3) R2) as R3.
  destruct (load_byte H (a +64 3) t2) as [b3 t3]. cbn [fst snd] in *. subst. exists t3. split; [| done]. f_equal.
  rewrite <- (number_byte 4 v Hv) at 5. cbn [number]. replace (0 + 1 + 1 + 1) with 3 by lia. replace (0 + 1 + 1) with 2 by lia.
  replace (0 + 1) with 1 by lia. lia.
Qed.

Lemma compare_loop_spec n i dst src s t :
  reads_from s t -> exists ok t', compare_loop H n i dst src t = (ok, t') /\ reads_from s t' /\
    (forall f N, ram_buf dst N -> cached H dst N -> seen H dst N f (sys s) -> ram_buf src N -> cached H src N -> seen H src N f (sys s) ->
       0 <= i -> i + Z.of_nat n <= N -> ok = true).
Proof.
  revert i t. induction n as [|n IH]; intros i t Ht; cbn [compare_loop]; [by exists true, t |].
  pose proof (load_byte_spec s t (dst +64 i) Ht) as R1. destruct (load_byte H (dst +64 i) t) as [x t1] eqn:E1. cbn [snd] in R1.
  pose proof (load_byte_spec s t1 (src +64 i) R1) as R2. destruct (load_byte H (src +64 i) t1) as [y t2] eqn:E2. cbn [snd] in R2.
  assert (Hxy : forall f N, ram_buf dst N -> cached H dst N -> seen H dst N f (sys s) -> ram_buf src N -> cached H src N ->
    seen H src N f (sys s) -> 0 <= i < N -> x = y).
  { intros f N D1 D2 D3 S1 S2 S3 Hi. pose proof (load_seen dst N f s t i D1 D2 D3 Ht Hi) as F1.
    pose proof (load_seen src N f s t1 i S1 S2 S3 R1 Hi) as F2. rewrite E1 in F1. rewrite E2 in F2. cbn [fst] in *. congruence. }
  destruct (Z.eqb_spec x y) as [-> | Hne]; cbn [negb].
  - destruct (IH (i + 1) t2 R2) as (ok & t' & E & R & Hok). exists ok, t'. split; [done | split; [done |]].
    intros f N D1 D2 D3 S1 S2 S3 Hi Hb. apply (Hok f N); lia || done.
  - exists false, t2. split; [done | split; [done |]]. intros f N D1 D2 D3 S1 S2 S3 Hi Hb. exfalso. apply Hne, (Hxy f N); lia || done.
Qed.

(** The comparison prints its verdict last. *)
Lemma compare_buffers_spec t s :
  msys_bytes (sys s) -> exists ok s', compare_buffers H t s = report ok s' /\ reads_from s s' /\
    (forall f N, g_dma_len t = N -> ram_buf (g_dma_dst_buf t) N -> cached H (g_dma_dst_buf t) N -> seen H (g_dma_dst_buf t) N f (sys s) ->
       ram_buf (g_dma_src_buf t) N -> cached H (g_dma_src_buf t) N -> seen H (g_dma_src_buf t) N f (sys s) -> ok = true).
Proof.
  intros Hs. unfold compare_buffers.
  destruct (compare_loop_spec (Z.to_nat (g_dma_len t)) 0 (g_dma_dst_buf t) (g_dma_src_buf t) s s (reads_refl s Hs)) as (ok & s' & E & R & Hok).
  rewrite E. exists ok, s'. split; [done | split; [done |]]. intros f N EN D1 D2 D3 S1 S2 S3. apply (Hok f N); try done. destruct D1. lia.
Qed.

(** Where the test's memory is: the buffers and the flag apart, in cached RAM,
    nothing stale. *)
Record test_mem (flag src dst : Z) (m : msys) : Prop := {
  tm_src : ram_buf src k_dma_test_len;
  tm_src_c : cached H src k_dma_test_len;
  tm_dst : ram_buf dst k_dma_test_len;
  tm_dst_c : cached H dst k_dma_test_len;
  tm_flag : ram_buf flag 4;
  tm_flag_c : cached H flag 4;
  tm_order : src + k_dma_test_len <= dst;
  tm_src_dst : apart H src k_dma_test_len dst k_dma_test_len;
  tm_flag_src : apart H flag 4 src k_dma_test_len;
  tm_flag_dst : apart H flag 4 dst k_dma_test_len;
  tm_allowed : dma_cache_maint_allowed (cfg (DmaTest src dst k_dma_test_len)) src k_dma_test_len = true /\
    dma_cache_maint_allowed (cfg (DmaTest src dst k_dma_test_len)) dst k_dma_test_len = true;
  tm_bytes : msys_bytes m;
  tm_good : forall k, line_good H m k
}.

Lemma cb_same t cb user status s : same_queue s (call_cb (cfg t) cb user status s).
Proof.
  cbn [test_cfg call_cb]. destruct (cb =? dma_test_cb_addr); [| apply same_queue_refl]. unfold dma_test_cb. cbv zeta.
  set (s1 := if negb (user =? nullptr) then _ else s). assert (E : same_queue s s1) by (unfold s1; destruct (user =? nullptr); repeat split).
  apply (same_queue_trans _ _ _ E). clearbody s1. clear. destruct (_ || _); [done |]. unfold compare_buffers.
  set (n := Z.to_nat _). clearbody n. generalize 0. revert s1. induction n as [|n IH]; intros s1 i; cbn [compare_loop]; [done |].
  unfold load_byte. destruct (load8 H _ (sys s1)) as [x m1]. cbn [sys set_sys]. destruct (load8 H _ m1) as [y m2].
  destruct (negb (x =? y)); [done |]. exact (IH (set_sys m2 (set_sys m1 s1)) (i + 1)).
Qed.

(** The callback. *)
Lemma dma_test_cb_spec t flag s :
  ram_buf flag 4 -> cached H flag 4 -> msys_bytes (sys s) -> (forall i, 0 <= i < 4 -> line_good H (sys s) (line_of H (flag + i))) ->
  g_dma_dst_buf t <> nullptr -> g_dma_src_buf t <> nullptr -> apart H flag 4 (g_dma_src_buf t) (g_dma_len t) -> apart H flag 4 (g_dma_dst_buf t) (g_dma_len t) ->
  exists ok s', dma_test_cb H t flag 0 s = report ok s' /\ msys_bytes (sys s') /\ seen H flag 4 (byte 1) (sys s') /\
    (forall f, ram_buf (g_dma_dst_buf t) (g_dma_len t) -> cached H (g_dma_dst_buf t) (g_dma_len t) -> seen H (g_dma_dst_buf t) (g_dma_len t) f (sys s) ->
       ram_buf (g_dma_src_buf t) (g_dma_len t) -> cached H (g_dma_src_buf t) (g_dma_len t) -> seen H (g_dma_src_buf t) (g_dma_len t) f (sys s) -> ok = true).
Proof.
  intros Hr Hc Hs Hg Hd0 Hs0 Hfs Hfd. unfold dma_test_cb. pose proof Hr as (_ & Hf & _).
  rewrite (proj2 (Z.eqb_neq flag nullptr)) by (unfold nullptr; lia). rewrite (proj2 (Z.eqb_neq _ _) Hd0), (proj2 (Z.eqb_neq _ _) Hs0). cbn [negb orb Z.eqb].
  destruct (store_int_spec flag 1 s Hr Hc Hs Hg) as (B & K & S). set (s1 := store_int H flag 1 s) in *.
  destruct (compare_buffers_spec t s1 B) as (ok & s' & E & ((B' & K') & _) & Hok).
  exists ok, s'. split; [exact E | split; [done | split]].
  - by apply (seen_keep H none (sys s1)); [| by intros k _ [] |].
  - intros f D1 D2 D3 S1 S2 S3. apply (Hok f (g_dma_len t)); try done.
    + by apply (seen_keep H _ _ _ _ _ _ K); [intros k Hk Hk'; apply (Hfd k) |].
    + by apply (seen_keep H _ _ _ _ _ _ K); [intros k Hk Hk'; apply (Hfs k) |].
Qed.

Lemma on_mem_spec x f s : sys (dputs x (on_mem f s)) = f (sys s) /\ same_queue s (dputs x (on_mem f s)) /\ same_queue s (on_mem f s).
Proof. repeat split. Qed.

(** The transfer is queued: memory holds the pattern in the source. *)
Record in_flight (flag src dst d : Z) (s : dma_st) : Prop := {
  if_bytes : msys_bytes (sys s);
  if_rep : dma_rep s [d];
  if_desc : desc s d = DmaDesc src dst k_dma_test_len 1 dma_test_cb_addr flag nullptr;
  if_addr : 0 < d < 2 ^ 63;
  if_seen : seen H src k_dma_test_len pattern (sys s);
  if_held : held H src k_dma_test_len pattern (sys s);
  if_flag : seen H flag 4 (byte 0) (sys s)
}.

Lemma filled_spec flag src dst s m0 :
  test_mem flag src dst m0 -> sys s = fill_buffers H src dst m0 ->
  msys_bytes (sys (store_int H flag 0 s)) /\ seen H flag 4 (byte 0) (sys (store_int H flag 0 s)) /\
  seen H src k_dma_test_len pattern (sys (store_int H flag 0 s)).
Proof.
  intros [] E. destruct (fill_buffers_spec src dst m0) as (F1 & F2 & F3 & F4); [done.. | by intros i _; split |]. rewrite <- E in *.
  destruct (store_int_spec flag 0 s) as (G1 & G2 & G3); [done | done | done | |].
  { intros i Hi. apply (kp_good _ _ _ _ F2); [| apply tm_good0]. pose proof (covers_in H flag 4 i Hi).
    intros [Hk | Hk]; [by apply (tm_flag_src0 (line_of H (flag + i))) | by apply (tm_flag_dst0 (line_of H (flag + i)))]. }
  split; [exact G1 | split; [exact G3 |]]. apply (seen_keep H _ _ _ _ _ _ G2); [intros k Hk Hk'; exact (tm_flag_src0 k Hk' Hk) | exact F3].
Qed.

Lemma submitted_spec flag src dst s m0 :
  test_mem flag src dst m0 -> msys_bytes (sys s) -> seen H flag 4 (byte 0) (sys s) -> seen H src k_dma_test_len pattern (sys s) ->
  window_wf s -> dma_rep s [] -> desc_addr s + sizeof_desc <= g_dma_buf_end s ->
  exists s', dma_submit_memcpy (cfg (DmaTest src dst k_dma_test_len)) dst src k_dma_test_len dma_test_cb_addr flag s = (0, s') /\
    in_flight flag src dst (desc_addr s) s'.
Proof.
  intros [] B Sf Sp Hw Hrep Hroom. pose proof tm_src0 as (Hk0 & Hs1 & Hs2). pose proof tm_dst0 as (_ & Hd1 & Hd2).
  destruct tm_allowed0 as [Has Had]. set (C := cfg (DmaTest src dst k_dma_test_len)) in *.
  assert (Hsrc : src <> nullptr) by (unfold nullptr; lia). assert (Hdst : dst <> nullptr) by (unfold nullptr; lia).
  pose proof (submit_spec C dst src k_dma_test_len dma_test_cb_addr flag s [] Hw Hrep Hdst Hsrc ltac:(done) Hroom) as Hsub.
  pose proof (submit_kp C Hon dst src k_dma_test_len dma_test_cb_addr flag s ltac:(lia) ltac:(done) Hw (dr_tail _ _ Hrep) B) as K.
  destruct (submit_sys C dst src k_dma_test_len dma_test_cb_addr flag s Hon ltac:(lia) ltac:(done) Has B Hw Hdst Hroom (dr_tail _ _ Hrep)) as (B' & C' & _).
  destruct (dma_submit_memcpy C dst src k_dma_test_len dma_test_cb_addr flag s) as [r s']. cbn [snd] in *. destruct Hsub as (-> & Hrep' & Hdesc & _).
  exists s'. split; [reflexivity |].
  assert (Sp' : seen H src k_dma_test_len pattern (sys s')) by (apply (seen_keep H _ _ _ _ _ _ K); [by intros k _ [] | exact Sp]).
  split; [exact B' | exact Hrep' | exact Hdesc | | exact Sp' | | ].
  - destruct Hw as (? & ? & ?). unfold desc_addr, sizeof_desc in *. zlia.
  - apply both_held; [exact Sp' |]. intros i Hi. by apply C', covers_in.
  - apply (seen_keep H _ _ _ _ _ _ K); [by intros k _ [] | exact Sf].
Qed.

(** The device's turn, up to the callback. *)
Lemma finished_spec flag src dst d s m0 :
  test_mem flag src dst m0 -> in_flight flag src dst d s ->
  let s' := dma_finish (cfg (DmaTest src dst k_dma_test_len)) d s in
  msys_bytes (sys s') /\ seen H flag 4 (byte 0) (sys s') /\ seen H src k_dma_test_len pattern (sys s') /\
  (lazy H -> seen H dst k_dma_test_len pattern (sys s')).
Proof.
  intros [] [] s'. destruct tm_allowed0 as [_ Had]. set (C := cfg (DmaTest src dst k_dma_test_len)) in *.
  destruct (finish_sys C d s _ if_desc0 ltac:(done) if_addr0) as (t0 & t1 & E0 & E1 & E2). cbn [d_src d_dst d_len] in E1.
  fold s' in E2. clearbody s'. assert (Bt : msys_bytes (sys t0)) by (by rewrite E0).
  destruct (transfer_kp C Hon Hmmu dst src k_dma_test_len t0 Had tm_dst0 tm_src0 ltac:(done) Bt) as (_ & _ & T3 & T4 & _).
  assert (Tl : lazy H -> seen H dst k_dma_test_len pattern (sys t1)).
  { intros Hz. rewrite <- E1. apply (transfer_lazy C Hon Hmmu dst src k_dma_test_len pattern t0 Hz Had tm_dst0 tm_src0 tm_order0 ltac:(done) Bt).
    rewrite E0. exact if_held0. }
  rewrite E1 in T3, T4. rewrite E0 in T4. clear E0 E1 Bt.
  destruct (prepare_kp C Hon d sizeof_desc t1 ltac:(lia) ltac:(done) T3) as [B5 K5]. rewrite <- E2 in B5, K5.
  assert (G : forall p n f, apart H p n dst k_dma_test_len -> seen H p n f (sys s) -> seen H p n f (sys s')).
  { intros p n f Ha Hs. apply (seen_keep H _ _ _ _ _ _ K5); [by intros k _ [] |].
    apply (seen_keep H _ _ _ _ _ _ T4); [intros k Hk Hk'; exact (Ha k Hk Hk') | exact Hs]. }
  split; [exact B5 | split; [by apply G | split; [by apply G |]]].
  intros Hz. apply (seen_keep H _ _ _ _ _ _ K5); [by intros k _ [] | by apply Tl].
Qed.

Lemma completed_spec flag src dst d s m0 fuel :
  test_mem flag src dst m0 -> in_flight flag src dst d s -> (1 <= fuel)%nat ->
  exists ok s', dma_poll_complete (cfg (DmaTest src dst k_dma_test_len)) fuel s = Some (report ok s') /\ msys_bytes (sys s') /\
    dma_rep (report ok s') [] /\ seen H flag 4 (byte 1) (sys s') /\ (lazy H -> ok = true).
Proof.
  intros Hm Hf Hfuel. destruct (finished_spec flag src dst d s m0 Hm Hf) as (B & Sf & Sp & Sd). destruct Hm, Hf. clear tm_allowed0 tm_good0.
  set (t := DmaTest src dst k_dma_test_len) in *. pose proof tm_src0 as (_ & Hs1 & _). pose proof tm_dst0 as (_ & Hd1 & _).
  destruct (poll_spec (cfg t) [d] fuel s (cb_same t) if_rep0 Hfuel) as (P1 & P2 & _). cbn [foldl] in *.
  destruct (finish_spec (cfg t) d s [] if_rep0) as (_ & Ef & _).
  assert (Ecb : dma_complete_one (cfg t) d s = dma_test_cb H t flag 0 (dma_finish (cfg t) d s)).
  { unfold dma_complete_one. cbv zeta. rewrite Ef, if_desc0. reflexivity. }
  rewrite Ecb in *. clear Ecb Ef. set (s1 := dma_finish (cfg t) d s) in *. clearbody s1.
  destruct (dma_test_cb_spec t flag s1) as (ok & s5 & E5 & B6 & S6 & Hok);
    [exact tm_flag0 | exact tm_flag_c0 | exact B | intros i Hi; by apply Sf | unfold nullptr; cbn [g_dma_dst_buf t]; lia | unfold nullptr; cbn [g_dma_src_buf t]; lia | exact tm_flag_src0 | exact tm_flag_dst0 |].
  rewrite E5 in *. exists ok, s5. split; [exact P1 | split; [exact B6 | split; [exact P2 | split; [exact S6 |]]]].
  intros Hz. exact (Hok pattern tm_dst0 tm_dst_c0 (Sd Hz) tm_src0 tm_src_c0 Sp).
Qed.

(** The test's transfer, submission to verdict: it reports whether the program
    finds the copy, and on a hardware that evicts no line it does. *)
Lemma transfer_test_spec flag fuel src dst s :
  test_mem flag src dst (sys s) -> window_wf s -> dma_rep s [] -> desc_addr s + sizeof_desc <= g_dma_buf_end s -> (1 <= fuel)%nat ->
  exists ok s', transfer_test H nc ws we flag fuel src dst s = Some s' /\
    (exists o, dma_out s' = o ++ puts_bytes (chars ((if ok : bool then "[DMA OK]" else "[DMA FAIL]") ++ nl))) /\
    dma_rep s' [] /\ (lazy H -> ok = true).
Proof.
  intros Hm Hw Hrep Hroom Hfuel. pose proof (tm_src _ _ _ _ Hm) as (_ & Hs1 & _). pose proof (tm_dst _ _ _ _ Hm) as (_ & Hd1 & _).
  unfold transfer_test. rewrite (proj2 (Z.eqb_neq src nullptr)), (proj2 (Z.eqb_neq dst nullptr)) by (unfold nullptr; lia). cbn [orb]. cbv zeta.
  destruct (on_mem_spec ("[dma-selftest] D1 filled" ++ nl) (fill_buffers H src dst) s) as (E1 & Q1 & _). set (s1 := dputs _ (on_mem _ s)) in *. clearbody s1.
  destruct (filled_spec flag src dst s1 (sys s) Hm E1) as (B & Sf & Sp).
  assert (Q2 : same_queue s1 (store_int H flag 0 s1)) by apply (on_mem_spec EmptyString). set (s2 := store_int H flag 0 s1) in *. clearbody s2.
  pose proof (same_queue_trans _ _ _ Q1 Q2) as Q. clear Q1 Q2 E1 s1. pose proof (dma_rep_ext s s2 [] Q Hrep) as Hrep2. destruct Q as (_ & Q1 & Q2 & _).
  destruct (submitted_spec flag src dst s2 (sys s) Hm B Sf Sp) as (s3 & E3 & Hf);
    [unfold window_wf in *; by rewrite Q1, Q2 | exact Hrep2 | unfold desc_addr in *; by rewrite Q1, Q2 |].
  rewrite E3. cbn [Z.eqb negb]. assert (Hf4 : in_flight flag src dst (desc_addr s2) (dputs ("[DMA] submit ok" ++ nl) s3)).
  { destruct Hf. split; try assumption. apply (dma_rep_ext s3); [repeat split | assumption]. }
  destruct (completed_spec flag src dst _ _ _ fuel Hm Hf4 Hfuel) as (ok & s5 & E5 & B5 & R5 & F5 & Hok). rewrite E5. cbn [mbind option_bind].
  destruct (load_int_spec flag 1 (report ok s5) (report ok s5) ltac:(done) (tm_flag _ _ _ _ Hm) (tm_flag_c _ _ _ _ Hm) F5 (reads_refl (report ok s5) B5))
    as (s6 & E6 & (_ & Q6 & O6)).
  rewrite E6. exists ok, s6. split; [reflexivity | split; [| split; [exact (dma_rep_ext _ _ _ Q6 R5) | exact Hok]]].
  rewrite O6. exists (dma_out s5). reflexivity.
Qed.

(** ** The whole self-test *)

(** The kernel's heap at the time: in RAM, clear of the DMA window where the
    window is mapped without caching, above the flag. *)
Record heap_ready (flag : Z) (k : kmem) : Prop := {
  hr_flag : 0x40000000 <= flag /\ flag + 4 <= cur k;
  hr_room : cur k + 0x3000 <= kend k;
  hr_end : kend k <= 0x80000000;
  hr_window : nc = true -> ws <= we /\ (we <= flag \/ kend k <= ws)
}.

Lemma ready_cached flag k p n : heap_ready flag k -> flag <= p -> p + n <= kend k -> cached H p n.
Proof.
  intros [] Hp He a Ha. rewrite (dm_policy (DmaMap := HM)) by lia. destruct nc; [| done]. cbn [andb].
  destruct (hr_window0 eq_refl). apply negb_true_iff, andb_false_iff. destruct (Z.leb_spec ws a); [right; apply Z.ltb_ge; lia | by left].
Qed.

Lemma ready_allowed flag k t p n : heap_ready flag k -> 0 < n -> flag <= p -> p + n <= kend k -> dma_cache_maint_allowed (cfg t) p n = true.
Proof.
  intros [] Hn Hp He. unfold dma_cache_maint_allowed. cbn [test_cfg noncacheable dma_nc_start_ dma_nc_end_].
  rewrite (proj2 (Z.eqb_neq p nullptr)), (proj2 (Z.eqb_neq n 0)) by (unfold nullptr; lia). cbn [orb]. cbv zeta.
  rewrite (wrap64_small (n - 1)), (wrap64_small (p + (n - 1))) by lia. rewrite (proj2 (Z.ltb_ge _ _)) by lia.
  rewrite (proj2 (Z.leb_gt 0x80000000 p)), (proj2 (Z.leb_le 0x40000000 p)), (proj2 (Z.ltb_lt _ 0x80000000)) by lia. cbn [andb negb].
  destruct nc; [| done]. cbn [andb]. destruct (hr_window0 eq_refl). destruct (Z.leb_spec ws (p + (n - 1))), (Z.ltb_spec p we); cbn [andb]; lia || done.
Qed.

Lemma ready_ram flag k p n : heap_ready flag k -> 0 < n -> flag <= p -> p + n <= kend k -> ram_buf p n.
Proof. intros [] Hn Hp He. split; lia. Qed.

(** The buffers: a page each. *)
Lemma page_alloc c e : 0x40000000 <= c -> c + 0x1400 <= e -> e <= 0x80000000 ->
  kmem_alloc_aligned k_dma_test_len 4096 (Kmem c e) = (up 4096 c, Kmem (up 4096 c + k_dma_test_len) e).
Proof.
  intros Hc He H62. unfold k_dma_test_len, kmem_alloc_aligned. cbn [cur kend].
  assert (Ea : Kmem.align_up c 4096 = up 4096 c) by (apply (align_up_pow2 c 12); lia). destruct (up_spec 4096 c ltac:(lia)) as [Hu _].
  assert (Eal : (if negb (is_pow2 (if 4096 <? 16 then 16 else 4096)) then round_up_pow2 (if 4096 <? 16 then 16 else 4096) else if 4096 <? 16 then 16 else 4096) = 4096)
    by done.
  cbv zeta. rewrite Eal, Ea, wrap64_small, (proj2 (Z.ltb_ge _ _)) by lia. done.
Qed.

Lemma page_line p : LS <= 4096 -> p mod 4096 = 0 -> p mod LS = 0.
Proof.
  intros Hl Hp. destruct (line_size_pow2 H) as (n & Hn & E). rewrite E in *. apply Z.mod_divide; [lia |].
  etrans; [| by apply Z.mod_divide; [| exact Hp]]. exists (2 ^ (12 - n)). change 4096 with (2 ^ 12) in *.
  assert (n <= 12) by (apply (Z.pow_le_mono_r_iff 2); lia). rewrite <- Z.pow_add_r by lia. by replace (12 - n + n) with 12 by lia.
Qed.

Lemma test_memory flag k m : LS <= 4096 -> heap_ready flag k -> msys_bytes m -> (forall l, line_good H m l) ->
  let src := up 4096 (cur k) in let dst := up 4096 (src + k_dma_test_len) in test_mem flag src dst m.
Proof.
  intros Hl Hr Hb Hg src dst. pose proof Hr as [[Hf1 Hf2] Hroom Hend _].
  destruct (up_spec 4096 (cur k) ltac:(lia)) as [U1 U2], (up_spec 4096 (src + k_dma_test_len) ltac:(lia)) as [V1 V2]. fold src in U1, U2. fold dst in V1, V2.
  unfold k_dma_test_len in *. pose proof (page_line src Hl U2) as Ls. pose proof (page_line dst Hl V2) as Ld.
  split; unfold k_dma_test_len; try done; try first [apply (ready_ram flag k); [done | lia..] | apply (ready_cached flag k); [done | lia..]].
  - lia.
  - apply apart_next; lia || done.
  - apply apart_next; lia || done.
  - apply apart_next; lia || done.
  - split; apply (ready_allowed flag k); lia || done.
Qed.

Lemma dma_selftest_spec heap_start heap_end flag fuel k s :
  LS <= 4096 -> heap_ready flag k -> msys_bytes (sys s) -> (forall l, line_good H (sys s) l) ->
  window_wf s -> dma_rep s [] -> desc_addr s + sizeof_desc <= g_dma_buf_end s -> (1 <= fuel)%nat ->
  exists ok k' s' o, dma_selftest H nc ws we heap_start heap_end flag fuel k s = Some (k', s') /\
    dma_out s' = o ++ puts_bytes (chars ((if ok : bool then "[DMA OK]" else "[DMA FAIL]") ++ nl)) /\
    dma_rep s' [] /\ cur k <= cur k' <= kend k' /\ kend k' = kend k /\ cur k' <= cur k + 0x2800 /\ (lazy H -> ok = true).
Proof.
  intros Hl Hr Hb Hg Hw Hrep Hroom Hfuel. pose proof (test_memory flag k (sys s) Hl Hr Hb Hg) as Hm. cbv zeta in Hm.
  pose proof Hr as [[Hf1 Hf2] Hk Hend _]. destruct k as [c e]. cbn [cur kend] in *.
  destruct (up_spec 4096 c ltac:(lia)) as [U1 _], (up_spec 4096 (up 4096 c + k_dma_test_len) ltac:(lia)) as [V1 _].
  assert (E1024 : k_dma_test_len = 1024) by done.
  unfold dma_selftest. rewrite page_alloc by lia. rewrite page_alloc by lia. set (src := up 4096 c) in *. set (dst := up 4096 (src + k_dma_test_len)) in *.
  set (s1 := dputs ("]" ++ nl) _). assert (Q : same_queue s s1) by repeat split. assert (Es : sys s1 = sys s) by reflexivity. clearbody s1.
  destruct Q as (Qd & Qn & Qb & Q). rewrite <- Es in Hm.
  destruct (transfer_test_spec flag fuel src dst s1 Hm) as (ok & s' & E & (o & Ho) & R & Hok); [| | | done |].
  { unfold window_wf in *. by rewrite Qn, Qb. }
  { apply (dma_rep_ext s); [by split | exact Hrep]. }
  { unfold desc_addr in *. by rewrite Qn, Qb. }
  rewrite E. cbn [mbind option_bind]. exists ok, (Kmem (dst + k_dma_test_len) e), s', o.
  split; [reflexivity | split; [exact Ho | split; [exact R | split; [cbn [cur kend]; lia | split; [reflexivity | split; [| exact Hok]]]]]].
  cbn [cur]. destruct (up_spec 4096 c ltac:(lia)) as [X1 _], (up_spec 4096 (src + k_dma_test_len) ltac:(lia)) as [X2 _]. fold src in X1. fold dst in X2. lia.
Qed.

(** the boot-time DMA self-test always reaches a verdict. *)
Theorem dma_selftest_verdict heap_start heap_end flag fuel k s :
  LS <= 4096 -> heap_ready flag k -> msys_bytes (sys s) -> (forall l, line_good H (sys s) l) ->
  window_wf s -> dma_rep s [] -> desc_addr s + sizeof_desc <= g_dma_buf_end s -> (1 <= fuel)%nat ->
  exists ok k' s' o, dma_selftest H nc ws we heap_start heap_end flag fuel k s = Some (k', s') /\
    dma_out s' = o ++ puts_bytes (chars ((if ok : bool then "[DMA OK]" else "[DMA FAIL]") ++ nl)) /\
    dma_rep s' [] /\ cur k <= cur k' <= kend k' /\ kend k' = kend k /\ (lazy H -> ok = true).
Proof.
  intros. destruct (dma_selftest_spec heap_start heap_end flag fuel k s) as (ok & k' & s' & o & E & Ho & R & B & K & _ & Hok); try done.
  by exists ok, k', s', o.
Qed.

End Test.

(** ** Concrete runs *)

(** The map of [mmu.cc] under the cacheable policy: RAM and its alias. *)
Definition flat_xlate (a : Z) : Z * bool :=
  if (0x80000000 <=? a) && (a <? 0xC0000000) then (a - 0x40000000, false) else (a, true).

#[export] Instance flat_dma_map ws we : DmaMap flat_xlate false ws we.
Proof.
  split; intros a Ha; unfold flat_xlate;
    destruct (Z.leb_spec 0x80000000 a), (Z.ltb_spec a 0xC0000000); cbn [andb fst snd negb]; lia || done.
Qed.

(** Caches and translation on, lines of 64 bytes. *)
Definition flat_hw (noise : nat -> list hwev) : hwcfg := Hw 0x80040000 0x5 flat_xlate noise.

Definition quiet_hw : hwcfg := flat_hw (fun _ => []).

(** A hardware that moves one line once: it evicts the first line of the
    destination while the device copies. *)
Definition evicting_hw : hwcfg := flat_hw (fun n => if (n =? 3000)%nat then [HEvict (0x401D1000 / 64)] else []).

Definition boot_dma : dma_st := Dma (Msys ∅ ∅ 0 []) ∅ 0x401B0000 0x401D0000 0 0 4 4 0x80 [].

Definition boot_heap : kmem := Kmem 0x401D0000 0x401F0000.

Definition demo_selftest (H : hwcfg) : option (kmem * dma_st) :=
  dma_selftest H false 0x401B0000 0x401D0000 0x401D0000 0x401F0000 0x40190000 1 boot_heap boot_dma.

Definition ends_with (t l : list Z) : bool := bool_decide (drop (length l - length t) l = t).

Lemma ends_with_app t l : ends_with t l = true -> exists o, l = o ++ t.
Proof. intros E%bool_decide_eq_true. exists (take (length l - length t) l). rewrite <- E at 2. by rewrite take_drop. Qed.

Lemma boot_dma_ready (H : hwcfg) :
  heap_ready false 0x401B0000 0x401D0000 0x40190000 boot_heap /\ msys_bytes (sys boot_dma) /\
  (forall l, line_good H (sys boot_dma) l) /\ window_wf boot_dma /\ dma_rep boot_dma [] /\
  desc_addr boot_dma + sizeof_desc <= g_dma_buf_end boot_dma.
Proof.
  split; [split; cbn; done || lia |]. split; [split; [intros a; cbn; unfold ld8; rewrite lookup_empty; cbn; lia | done] |].
  split; [intros l c E; discriminate E |]. split; [split; cbn; lia |]. split; [| vm_compute; discriminate].
  split; try done; [constructor | by intros a ?%not_elem_of_nil].
Qed.

Lemma evicting_run : match demo_selftest evicting_hw with Some (_, s') => ends_with (puts_bytes (chars ("[DMA FAIL]" ++ nl))) (dma_out s') | None => false end = true.
Proof. vm_compute. reflexivity. Qed.


Lemma dma_selftest_verdict_witness :
  lazy quiet_hw /\ exists ok k' s' o, demo_selftest quiet_hw = Some (k', s') /\
    dma_out s' = o ++ puts_bytes (chars ((if ok : bool then "[DMA OK]" else "[DMA FAIL]") ++ nl)) /\ (lazy quiet_hw -> ok = true).
Proof.
  split; [intros n e He; by apply not_elem_of_nil in He |].
  destruct (boot_dma_ready quiet_hw) as (R1 & R2 & R3 & R4 & R5 & R6).
  destruct (dma_selftest_verdict quiet_hw false 0x401B0000 0x401D0000 eq_refl eq_refl 0x401D0000 0x401F0000 0x40190000 1 boot_heap boot_dma)
    as (ok & k' & s' & o & E & Ho & _ & _ & _ & Hok); [vm_compute; discriminate | exact R1 | exact R2 | exact R3 | exact R4 | exact R5 | exact R6 | constructor |].
  exists ok, k', s', o. split; [exact E | split; [exact Ho | exact Hok]].
Defined.
