(* ===== verification/Except.v ===== *)
(** * [src/src/arch/aarch64/except.cc]: the exception reporter

    Every synchronous exception, FIQ and SError ends here: [src/boot/vectors.S]
    passes ESR, ELR, FAR, SPSR and a tag naming the vector, and the reporter
    prints them and waits for ever.  The memory accesses that may fault are
    checked against the page tables of [Pte.walk]. *)

From Stdlib Require Import String.
From S2P Require Import Prelude Mem Pte Uart Kstate.

(** [puthex64], [puthex32] on the kernel's console. *)
Definition kputhex (n : nat) (v : Z) (s : kst) : kst := set_out (out s ++ puthex_bytes n v) s.

(** Consecutive messages add up: every printer appends to the bytes sent. *)
Lemma set_out_id s : set_out (out s) s = s.
Proof. by destruct s. Qed.

Lemma puts_out m o s : puts m (set_out o s) = set_out (o ++ puts_bytes (chars m)) s.
Proof. done. Qed.

Lemma print_out v o s : print_u64 v (set_out o s) = set_out (o ++ print_u64_bytes v) s.
Proof. done. Qed.

Lemma hex_out n v o s : kputhex n v (set_out o s) = set_out (o ++ puthex_bytes n v) s.
Proof. done. Qed.

Lemma putc_out c o s : putc c (set_out o s) = set_out (o ++ [c]) s.
Proof. done. Qed.

Lemma thr_out o s t : thr (set_out o s) t = thr s t.
Proof. done. Qed.

Lemma set_ram_out r o s : set_ram r (set_out o s) = set_out o (set_ram r s).
Proof. done. Qed.

Create Rewrite HintDb kout.

#[export] Hint Rewrite puts_out print_out hex_out putc_out thr_out set_ram_out : kout.


Definition ec_name (ec : Z) : string :=
  if ec =? 0x07 then "FP/ASIMD trap"
  else if ec =? 0x15 then "SVC64"
  else if ec =? 0x18 then "IABT"
  else if ec =? 0x24 then "DABT"
  else if ec =? 0x26 then "SP alignment"
  else if ec =? 0x2f then "SError"
  else if ec =? 0x00 then "Unknown"
  else "?".

Definition except_el1_sync (esr elr far spsr tag : Z) : K unit := fun s =>
  let ec := wrap32 (Z.land (Z.shiftr esr 26) 0x3F) in
  let s := kputhex 16 tag (puts (newline ++ "[EXC] EL1 sync tag=0x") s) in
  let s := kputhex 8 ec (puts " EC=0x" s) in
  let s := puts ")" (puts (ec_name ec) (puts " (" s)) in
  let s := kputhex 16 esr (puts " ESR=0x" s) in
  let s := kputhex 16 elr (puts " ELR=0x" s) in
  let s := kputhex 16 far (puts " FAR=0x" s) in
  let s := kputhex 16 spsr (puts " SPSR=0x" s) in
  halt (puts newline s).

(** The tag [vectors.S] gives to exceptions taken on the handler's stack pointer. *)
Definition el1h_tag : Z := 0x11.

(** The line printed. *)
Definition report_line (esr elr far spsr tag : Z) : list Z :=
  let ec := wrap32 (Z.land (Z.shiftr esr 26) 0x3F) in
  puts_bytes (chars (newline ++ "[EXC] EL1 sync tag=0x")) ++ puthex_bytes 16 tag ++
  puts_bytes (chars " EC=0x") ++ puthex_bytes 8 ec ++ puts_bytes (chars " (") ++ puts_bytes (chars (ec_name ec)) ++ puts_bytes (chars ")") ++
  puts_bytes (chars " ESR=0x") ++ puthex_bytes 16 esr ++ puts_bytes (chars " ELR=0x") ++ puthex_bytes 16 elr ++
  puts_bytes (chars " FAR=0x") ++ puthex_bytes 16 far ++ puts_bytes (chars " SPSR=0x") ++ puthex_bytes 16 spsr ++ puts_bytes (chars newline).

Lemma except_el1_sync_eq esr elr far spsr tag s :
  except_el1_sync esr elr far spsr tag s = KHalt (set_out (out s ++ report_line esr elr far spsr tag) s).
Proof.
  unfold except_el1_sync, halt, report_line. cbv zeta. set (ec := wrap32 _).
  unfold puts, kputhex. cbn [out set_out]. rewrite <- !app_assoc. done.
Qed.

(** ** Accesses that may fault *)

Section Access.

(** [ttbr] is the root of the tables. *)
Context (ttbr : Z).

Definition mapped (s : kst) (a : Z) : bool :=
  (mmu_enabled (mmu s) =? 0) || (if walk (pt (mmu s)) ttbr a is Some _ then true else false).

(** The syndrome of a data abort taken without a change of exception level:
    class 0x25, 32-bit instruction, and the fault's details [iss]. *)
Definition dabort_esr (iss : Z) : Z := Z.shiftl 0x25 26 + Z.shiftl 1 25 + iss.

(** A byte store by the instruction at [pc]: a store to an unmapped address is
    taken to the reporter. *)
Definition store_byte (iss pc spsr a v : Z) : K unit := fun s =>
  if mapped s a then KDone () (set_ram (st8 a v (ram s)) s)
  else except_el1_sync (dabort_esr iss) pc a spsr el1h_tag s.

End Access.

Lemma dabort_class iss : 0 <= iss < 2 ^ 25 -> wrap32 (Z.land (Z.shiftr (dabort_esr iss) 26) 0x3F) = 0x25.
Proof.
  intros H. unfold dabort_esr. rewrite Z.shiftr_div_pow2 by lia. change (Z.shiftl 37 26) with (37 * 2 ^ 26). change (Z.shiftl 1 25) with (2 ^ 25).
  replace ((37 * 2 ^ 26 + 2 ^ 25 + iss) / 2 ^ 26) with 37 by zlia. done.
Qed.


