(* ===== verification/StackLab.v ===== *)
(** * [src/src/stack_lab.cc]: the stack demonstration

    One thread reports its stack use and then writes its guard page.  The
    compiler's choices (frame size of [consume_stack], place of its buffer,
    addresses of the two stores) are parameters.  The theorems say what the
    guard page is for: whatever the depth, the recursion never writes below the
    stack, because a frame is at most a page; the probe ends in the exception
    reporter and not in the message that calls it a bug. *)

From Stdlib Require Import String.
From S2P Require Import Prelude Mem Kmem MemPool Pte Mmu Uart Kstate Runq Stack Sched Thread Spawn Except.

Definition kGuardPageBytes : Z := 4096.

(** The compiled code: entry of [probe_thread], frame size of [consume_stack]
    and offset of [buf] in it, the two stores, SPSR and fault details. *)
Record probe_code := ProbeCode {
  probe_entry : Z;
  frame : Z;
  buf : Z;
  consume_pc : Z;
  guard_pc : Z;
  probe_spsr : Z;
  fault_iss : Z
}.

Section StackLab.

Context (L : mmu_layout) (C : config) (P : probe_code).

(** [sp] is the stack pointer at the call.  The fuel is the number of calls left. *)
Fixpoint consume_stack (fuel : nat) (depth limit sp : Z) : K unit :=
  let sp := sp -64 frame P in
  store_byte (g_l0 L) (fault_iss P) (consume_pc P) (probe_spsr P) (sp +64 buf P) depth ≫= fun _ =>
  if depth <? limit then
    match fuel with
    | O => of_opt None
    | Datatypes.S fuel' => consume_stack fuel' (wrap32 (depth + 1)) limit sp
    end
  else mret ().

(** [sp] is the stack pointer at the call of [consume_stack]. *)
Definition probe_thread (sp : Z) : K unit :=
  modify (puts ("[stack-lab] probe start" ++ newline)) ≫= fun _ =>
  get ≫= fun s =>
  let cur := cur s in
  if cur =? nullptr then modify (puts ("[stack-lab] no current thread?" ++ newline)) ≫= fun _ => halt
  else
    modify (fun s => kputhex 16 (t_stack_base (thr s cur)) (puts "[stack-lab] stack_base=0x" s)) ≫= fun _ =>
    modify (fun s => puts newline (print_u64 (t_stack_size (thr s cur)) (puts " stack_size=" s))) ≫= fun _ =>
    consume_stack 8 0 8 sp ≫= fun _ =>
    get ≫= fun s =>
    let used := thread_stack_high_watermark_bytes s cur in
    modify (fun s => puts newline (print_u64 used (puts "[stack-lab] high_watermark_bytes=" s))) ≫= fun _ =>
    let guard := t_stack_base (thr s cur) -64 kGuardPageBytes in
    modify (fun s => puts newline (kputhex 16 guard (puts "[stack-lab] guard_page=0x" s))) ≫= fun _ =>
    modify (puts ("[stack-lab] writing guard page (expected [EXC] DABT)" ++ newline)) ≫= fun _ =>
    store_byte (g_l0 L) (fault_iss P) (guard_pc P) (probe_spsr P) guard 0x42 ≫= fun _ =>
    modify (puts ("[stack-lab] BUG: guard page write succeeded" ++ newline)) ≫= fun _ => halt.

Definition stack_lab_setup (mode : Z) : K unit := fun s =>
  let s := puts ("[stack-lab] setup" ++ newline) s in
  if negb (mode =? 1) then halt (puts ("[stack-lab] unknown mode" ++ newline) s)
  else
    let '(t, s) := thread_create C (probe_entry P) nullptr (8 * 1024) s in
    if t =? nullptr then halt (puts ("[stack-lab] thread_create failed" ++ newline) s)
    else KDone () (sched_add t s).

End StackLab.

(** ** The guard page *)

(** The stack is mapped, the page below it is not. *)
Record guarded (L : mmu_layout) (m : mmu_st) (base size : Z) : Prop := {
  gd_on : mmu_enabled m = 1;
  gd_base : 8192 <= base /\ 0 < size /\ base + size < 2 ^ 62;
  gd_page : forall a, base - kGuardPageBytes <= a < base -> walk (pt m) (g_l0 L) a = None;
  gd_stack : forall a, base <= a < base + size -> walk (pt m) (g_l0 L) a <> None
}.

(** A frame fits in the guard page and contains the buffer. *)
Definition frame_ok (P : probe_code) : Prop := 0 <= buf P /\ buf P + 256 <= frame P <= kGuardPageBytes.

Section Consume.

Context (L : mmu_layout) (P : probe_code) (HP : frame_ok P) (m : mmu_st) (base size : Z) (HG : guarded L m base size).

Abbreviation line a := (report_line (dabort_esr (fault_iss P)) (consume_pc P) a (probe_spsr P) el1h_tag).

Lemma store_in s iss pc spsr a v : mmu s = m -> base <= a < base + size ->
  store_byte (g_l0 L) iss pc spsr a v s = KDone () (set_ram (st8 a v (ram s)) s).
Proof.
  intros Hm Ha. unfold store_byte, mapped. rewrite Hm. pose proof (gd_stack _ _ _ _ HG a Ha).
  destruct (walk _ _ _); [by rewrite orb_true_r | done].
Qed.

Lemma store_below s iss pc spsr a v : mmu s = m -> base - kGuardPageBytes <= a < base ->
  store_byte (g_l0 L) iss pc spsr a v s =
    KHalt (set_out (out s ++ report_line (dabort_esr iss) pc a spsr el1h_tag) s).
Proof.
  intros Hm Ha. unfold store_byte, mapped. rewrite Hm, (gd_on _ _ _ _ HG), (gd_page _ _ _ _ HG a Ha). cbn [Z.eqb orb].
  apply except_el1_sync_eq.
Qed.

(** The recursion either fits and returns, having written one byte per call,
    or ends in the reporter with an address of the guard page. *)
Lemma consume_spec n : forall depth limit sp s,
  mmu s = m -> 0 <= depth -> limit < 2 ^ 32 -> limit - depth = Z.of_nat n -> base <= sp + buf P -> sp <= base + size ->
  let low := sp - (Z.of_nat n + 1) * frame P + buf P in
  exists ram', mem_same_outside base sp (ram s) ram' /\ mem_same_outside low sp (ram s) ram' /\ (mem_bytes (ram s) -> mem_bytes ram') /\
    if base <=? low
    then consume_stack L P n depth limit sp s = KDone () (set_ram ram' s) /\ ld8 ram' low = limit mod 256
    else exists a, base - kGuardPageBytes <= a < base /\
      consume_stack L P n depth limit sp s = KHalt (set_out (out s ++ line a) (set_ram ram' s)).
Proof.
  destruct HP as [Hb Hf]. destruct (gd_base _ _ _ _ HG) as (B1 & B2 & B3). unfold kGuardPageBytes in *.
  induction n as [|n IH]; intros depth limit sp s Hm Hd Hl Hn Hlo Hhi; set (low := sp - _ + buf P); cbn [consume_stack].
  - rewrite (wrap64_small (sp - frame P)), wrap64_small by lia. replace (sp - frame P + buf P) with low by lia.
    destruct (Z.leb_spec base low).
    + unfold mbind, K_bind. rewrite store_in by (done || lia). cbn [kbind]. rewrite (proj2 (Z.ltb_ge _ _)) by lia.
      exists (st8 low depth (ram s)). split; [| split; [| split; [apply mem_bytes_st8 | split; [done |]]]].
      * intros a Ha. rewrite ld8_st8_ne by lia. done.
      * intros a Ha. rewrite ld8_st8_ne by lia. done.
      * rewrite ld8_st8_eq. f_equal. lia.
    + exists (ram s). split; [done | split; [done | split; [done |]]]. exists low. split; [lia |].
      unfold mbind, K_bind. rewrite store_below by (done || (unfold kGuardPageBytes; lia)). cbn [kbind]. by destruct s.
  - rewrite (wrap64_small (sp - frame P)), (wrap64_small (_ + buf P)) by lia. set (a0 := sp - frame P + buf P).
    destruct (Z.leb_spec base a0).
    + unfold mbind, K_bind. rewrite store_in by (done || lia). cbn [kbind]. rewrite (proj2 (Z.ltb_lt _ _)) by lia.
      unfold wrap32. rewrite Z.mod_small by lia. set (s1 := set_ram _ s).
      destruct (IH (depth + 1) limit (sp - frame P) s1 Hm ltac:(lia) Hl ltac:(lia) ltac:(lia) ltac:(lia)) as (r & H1 & H2 & H3 & H4).
      replace (sp - frame P - (Z.of_nat n + 1) * frame P + buf P) with low in * by lia.
      exists r. split; [| split; [| split; [by intros Hs; apply H3, mem_bytes_st8 |]]].
      * intros a Ha. rewrite <- H1 by lia. cbn [ram set_ram s1]. by rewrite ld8_st8_ne by lia.
      * intros a Ha. rewrite <- H2 by lia. cbn [ram set_ram s1]. rewrite ld8_st8_ne; [done |]. subst a0. nia.
      * destruct (base <=? low); [exact H4 | destruct H4 as (a & Ha & E)]. exists a. split; [done | exact E].
    + exists (ram s). split; [done | split; [done | split; [done |]]]. assert (low < base) by (subst a0; nia).
      rewrite (proj2 (Z.leb_gt _ _)) by lia. exists a0. split; [lia |].
      unfold mbind, K_bind. rewrite store_below by (done || (unfold kGuardPageBytes; lia)). cbn [kbind]. by destruct s.
Qed.

End Consume.

(** ** The watermark *)

Lemma watermark_reach n m a j : 0 <= j < Z.of_nat n -> ld8 m (a + j) <> kStackWatermark -> 0 <= watermark_run n m a <= j.
Proof.
  revert a j. induction n as [|n IH]; intros a j Hj Hne; [lia |]. cbn [watermark_run].
  destruct (Z.eqb_spec (ld8 m a) kStackWatermark) as [E | E]; cbn [negb]; [| lia].
  assert (j <> 0) by (intros ->; by rewrite Z.add_0_r in Hne).
  specialize (IH (a + 1) (j - 1) ltac:(lia)). replace (a + 1 + (j - 1)) with (a + j) in IH by lia. specialize (IH Hne). lia.
Qed.

(** A byte of the stack that changed is counted as used. *)
Lemma watermark_counts base size m a :
  0 < base -> base + kStackGuardBytes <= a < base + size -> ld8 m a <> kStackWatermark ->
  base + size - a <= stack_high_watermark_bytes base size m <= size - kStackGuardBytes.
Proof.
  intros Hb Ha Hne. unfold stack_high_watermark_bytes, nullptr, kStackGuardBytes in *.
  rewrite (proj2 (Z.eqb_neq base 0)), (proj2 (Z.eqb_neq size 0)), (proj2 (Z.leb_gt size 64)) by lia. cbn [orb]. cbv zeta.
  pose proof (watermark_reach (Z.to_nat (size - 64)) m (base + 64) (a - base - 64)) as W.
  replace (base + 64 + (a - base - 64)) with a in W by lia. specialize (W ltac:(lia) Hne).
  rewrite (proj2 (Z.leb_le _ _)) by lia. lia.
Qed.

(** ** The probe *)

(** What the probe prints before the report. *)
Definition probe_text (base size used : Z) : list Z :=
  puts_bytes (chars ("[stack-lab] probe start" ++ newline)) ++
  puts_bytes (chars "[stack-lab] stack_base=0x") ++ puthex_bytes 16 base ++
  puts_bytes (chars " stack_size=") ++ print_u64_bytes size ++ puts_bytes (chars newline) ++
  puts_bytes (chars "[stack-lab] high_watermark_bytes=") ++ print_u64_bytes used ++ puts_bytes (chars newline) ++
  puts_bytes (chars "[stack-lab] guard_page=0x") ++ puthex_bytes 16 (base - kGuardPageBytes) ++ puts_bytes (chars newline) ++
  puts_bytes (chars ("[stack-lab] writing guard page (expected [EXC] DABT)" ++ newline)).

Lemma probe_spec L P s t base size sp :
  frame_ok P -> guarded L (mmu s) base size -> cur s = t -> t <> nullptr ->
  t_stack_base (thr s t) = base -> t_stack_size (thr s t) = size ->
  base + kStackGuardBytes <= sp - 9 * frame P + buf P -> sp <= base + size ->
  exists ram' used, mem_same_outside (sp - 9 * frame P + buf P) sp (ram s) ram' /\ (mem_bytes (ram s) -> mem_bytes ram') /\
    9 * frame P - buf P <= used <= size - kStackGuardBytes /\
    probe_thread L P sp s = KHalt (set_out (out s ++ probe_text base size used ++
      report_line (dabort_esr (fault_iss P)) (guard_pc P) (base - kGuardPageBytes) (probe_spsr P) el1h_tag) (set_ram ram' s)).
Proof.
  intros HP HG Hc Ht Hb Hs Hlo Hhi. destruct (gd_base _ _ _ _ HG) as (B1 & B2 & B3). destruct HP as [P1 P2].
  unfold kGuardPageBytes, kStackGuardBytes in *.
  unfold probe_thread, modify, get, mbind, K_bind. cbn [kbind]. change (cur (puts _ s)) with (cur s). rewrite Hc, (proj2 (Z.eqb_neq _ _) Ht).
  cbn [kbind]. match goal with |- context [consume_stack L P 8 0 8 sp ?x] => set (s1 := x) end.
  destruct (consume_spec L P ltac:(split; unfold kGuardPageBytes; lia) (mmu s) base size HG 8 0 8 sp s1) as (r & R1 & R2 & R3 & R4);
    [done | lia | lia | lia | lia | lia |].
  replace (sp - (Z.of_nat 8 + 1) * frame P + buf P) with (sp - 9 * frame P + buf P) in * by lia.
  rewrite (proj2 (Z.leb_le _ _)) in R4 by lia. destruct R4 as [-> R4]. cbn [kbind].
  set (used := thread_stack_high_watermark_bytes _ t). exists r, used. split; [exact R2 | split; [exact R3 | split]].
  - pose proof (watermark_counts base size r (sp - 9 * frame P + buf P)) as W. unfold kStackGuardBytes in W.
    specialize (W ltac:(lia) ltac:(lia) ltac:(rewrite R4; unfold kStackWatermark; vm_compute; congruence)).
    unfold used, thread_stack_high_watermark_bytes. rewrite (proj2 (Z.eqb_neq _ _) Ht).
    change (thr (set_ram r s1) t) with (thr s t). rewrite Hb, Hs. cbn [ram set_ram]. lia.
  - cbn [kbind]. unfold kGuardPageBytes. change (thr (set_ram r s1) t) with (thr s t). rewrite Hb, (wrap64_small (base - 4096)) by lia.
    rewrite (store_below L (mmu s) base size HG) by (done || (unfold kGuardPageBytes; lia)). cbn [kbind]. f_equal.
    unfold probe_text, kGuardPageBytes. clearbody used. unfold s1. rewrite <- (set_out_id s). autorewrite with kout. rewrite Hb, Hs.
    cbn [out set_out]. rewrite <- !app_assoc. done.
Qed.

(** ** Setting the demonstration up *)

(** One guard page takes at most one spare table. *)
Lemma guard_page_next L a s : g_l3_extra_next s <= g_l3_extra_next (mmu_guard_page L a s).2 <= g_l3_extra_next s + 1.
Proof.
  unfold mmu_guard_page, guard_region, ensure_l3. repeat case_match; simplify_eq; cbn in *; lia.
Qed.

(** A page guarded in mapped RAM. *)
Lemma guard_page_guards L m a size :
  layout_ok L -> mmu_inv L m -> mmu_enabled m = 1 -> g_l3_extra_next m < 8 -> a mod 4096 = 0 -> kRamBase <= a -> 0 < size -> a + 4096 + size <= kRamLimit ->
  (forall va, a <= va < a + 4096 + size -> walk (pt m) (g_l0 L) va <> None) ->
  let m' := (mmu_guard_page L a m).2 in
  guarded L m' (a + 4096) size /\ mmu_inv L m' /\
  forall va, 0 <= va < 2 ^ 48 -> walk (pt m') (g_l0 L) va = if va / 2 ^ 12 =? a / 2 ^ 12 then None else walk (pt m) (g_l0 L) va.
Proof.
  intros HL Hi Hon Hn Ha Hlo Hs Hhi Hw m'. unfold m', kRamBase, kRamLimit in *. clear m'.
  pose proof (mmu_guard_page_spec L m a HL Hi ltac:(lia)) as H. destruct (mmu_guard_page L a m) as [r m1]. cbn [snd].
  destruct H as [(_ & _ & Hc) | (_ & _ & _ & Hi' & Hsc & _ & Hwalk)].
  { exfalso. unfold kRamBase, kRamLimit in Hc. destruct Hc as [Hc | [Hc | Hc]]; lia. }
  split; [| done]. split.
  - unfold mmu_enabled in *. by rewrite Hsc.
  - lia.
  - intros va Hva. unfold kGuardPageBytes in Hva. rewrite Hwalk by lia. rewrite (proj2 (Z.eqb_eq _ _)); [done | zlia].
  - intros va Hva. rewrite Hwalk by lia. rewrite (proj2 (Z.eqb_neq _ _)); [apply Hw; lia | zlia].
Qed.

(** RAM is mapped as far as the heap goes. *)
Record heap_mapped (L : mmu_layout) (s : kst) : Prop := {
  hm_layout : layout_ok L;
  hm_inv : mmu_inv L (mmu s);
  hm_on : mmu_enabled (mmu s) = 1;
  hm_lo : kRamBase <= Kmem.cur (heap s);
  hm_hi : kend (heap s) <= kRamLimit;
  hm_map : forall va, Kmem.cur (heap s) <= va < kend (heap s) -> walk (pt (mmu s)) (g_l0 L) va <> None
}.

(** The demonstration's thread, queued alone, behind its guard page. *)
Lemma setup_spec L C P s free :
  booting C s free [] [] -> guard_page C = mmu_guard_page L -> heap_mapped L s -> g_l3_extra_next (mmu s) < 8 ->
  Kmem.cur (heap s) + spawn_cost 8192 <= kend (heap s) -> 0 <= trampoline C < 2 ^ 64 -> probe_entry P <> 0 ->
  exists t free' s', stack_lab_setup C P 1 s = KDone () s' /\ booting C s' free' [t] [t] /\ t <> nullptr /\
    t_entry (thr s' t) = probe_entry P /\ t_stack_size (thr s' t) = 8192 /\ t_effective_priority (thr s' t) = kDefaultPriority /\
    guarded L (mmu s') (t_stack_base (thr s' t)) 8192.
Proof.
  intros HB HC [HL Hi Hon Hlo Hhi Hmap] Hn Hroom Htr He. unfold stack_lab_setup. set (s0 := puts _ s).
  assert (HB0 : booting C s0 free [] []) by (by apply booting_out).
  cbn [Z.eqb negb]. change (8 * 1024) with 8192. unfold thread_create.
  destruct (spawn_spec C s0 free [] [] (probe_entry P) nullptr 8192 kDefaultPriority HB0 He ltac:(lia) ltac:(lia) Htr Hroom)
    as (t & s1 & free' & -> & Hne & _ & HB1 & Hcr & Hfr & _ & Hk & Hcost & Hmmu & Hal & Hbase & Htop & _).
  rewrite (proj2 (Z.eqb_neq _ _) Hne). destruct Hcr as (C1 & C2 & C3 & _ & _ & C6 & C7 & _).
  destruct (sched_add_spec C s1 free' [t] [] t HB1) as (HB2 & nx & Ht & _ & Hs); [by left | apply not_elem_of_nil | done | done | exact C7 |].
  exists t, free', (sched_add t s1). split; [done | split; [done | split; [done |]]]. rewrite Ht. cbn [t_entry t_stack_size t_effective_priority t_stack_base set_t_next].
  split; [done | split; [done | split; [by rewrite C6 |]]]. rewrite Hs. cbn [mmu set_rq_tail set_rq_head set_threads]. rewrite Hmmu, HC.
  change (mmu s0) with (mmu s). change (heap s0) with (heap s) in *. pose proof (proj2 (proj2 (proj2 (proj2 (proj2 (proj2 Hfr)))))) as Hke.
  change (heap s0) with (heap s) in Hke. pose proof (ci_heap _ _ _ (bt_create _ _ _ _ _ HB1)) as [_ Hle].
  set (b := t_stack_base (thr s1 t)) in *. replace b with (b - 4096 + 4096) at 2 by lia. unfold kRamBase, kRamLimit in *.
  apply (guard_page_guards L); unfold kRamBase, kRamLimit; try done; try lia; [zlia |].
  intros va Hva. apply Hmap. lia.
Qed.

(** ** Theorems *)


(** C27: the stack demonstration end to end: from a booted kernel it creates its
    thread behind a guard page and queues it; the scheduler starts exactly that
    thread; the probe reports its stack and a watermark that covers the recursion,
    then stops in the exception reporter with the guard page as the fault address:
    the message "BUG" is never printed.  Only the probe's stack has been written,
    its guard pattern is intact. *)
Theorem stack_lab_faults L C P prio s free :
  booting C s free [] [] -> guard_page C = mmu_guard_page L -> heap_mapped L s -> g_l3_extra_next (mmu s) < 8 ->
  Kmem.cur (heap s) + spawn_cost 8192 <= kend (heap s) -> 0 <= trampoline C < 2 ^ 64 -> probe_entry P <> 0 -> frame_ok P ->
  exists t s1 k, stack_lab_setup C P 1 s = KDone () s1 /\ sched_start prio s1 = KSwitch nullptr t (started t s1) k /\
    t_entry (thr s1 t) = probe_entry P /\
    let base := t_stack_base (thr s1 t) in
    forall sp, base + kStackGuardBytes <= sp - 9 * frame P + buf P -> sp <= base + 8192 ->
    exists ram' used, 9 * frame P - buf P <= used <= 8192 - kStackGuardBytes /\
      probe_thread L P sp (started t s1) = KHalt (set_out (out s1 ++ probe_text base 8192 used ++
        report_line (dabort_esr (fault_iss P)) (guard_pc P) (base - kGuardPageBytes) (probe_spsr P) el1h_tag) (set_ram ram' (started t s1))) /\
      mem_same_outside base (base + 8192) (ram s1) ram' /\ stack_guard_ok base 8192 ram' = true.
Proof.
  intros HB HC HM Hn Hroom Htr He HP.
  destruct (setup_spec L C P s free HB HC HM Hn Hroom Htr He) as (t & free' & s1 & E & HB1 & Hne & Hent & Hsz & Hpr & HG).
  pose proof HB1 as [_ [Hrep Hrd _ _] _ _ Hbytes Hst].
  destruct (sched_start_spec prio s1 t) as [k Hk]; [| done |].
  { destruct prio; [| apply (rq_hd _ _ Hrep)]. apply (pick_first s1 t [] kDefaultPriority Hrep); [| done].
    intros u ->%list_elem_of_singleton. split; [| done]. unfold is_ready. rewrite (Hrd t), (proj2 (Z.eqb_neq _ _) Hne) by (by left). done. }
  exists t, s1, k. split; [done | split; [done | split; [done |]]]. intros base sp Hlo Hhi.
  destruct (started_spec C s1 free' [t] [t] t HB1 ltac:(by left) Hne) as (_ & Hcur & Hg & _).
  assert (T : t_stack_base (thr (started t s1) t) = base /\ t_stack_size (thr (started t s1) t) = 8192).
  { unfold started. change (thr (upd_cpu ?f ?x) t) with (thr x t). rewrite thr_upd_eq. done. }
  destruct T as [T1 T2]. rewrite guard_ok_thread, T1, T2 in Hg by done.
  destruct (probe_spec L P (started t s1) t base 8192 sp HP HG Hcur Hne T1 T2 Hlo Hhi) as (r & used & R1 & R2 & R3 & R4).
  destruct (gd_base _ _ _ _ HG) as (B1 & _). fold base in B1. destruct HP as [P1 P2].
  unfold kStackGuardBytes in *. exists r, used. split; [done | split; [exact R4 | split]].
  - intros a Ha. apply R1. lia.
  - apply stack_guard_ok_spec; [by apply R2 | lia | lia |]. intros i Hi.
    rewrite <- R1 by (change (guard_len 8192) with 64 in Hi; lia).
    apply (proj1 (stack_guard_ok_spec base 8192 (ram (started t s1)) Hbytes ltac:(lia) ltac:(lia)) Hg i Hi).
Qed.

(** ** A concrete kernel *)

Definition demo_probe : probe_code := ProbeCode 0x40080500 304 32 0x40080540 0x40080600 0x5 0x47.

Definition demo_kcfg : config := Config false false false (mmu_guard_page demo_layout) 0x40080200 0x40080300.

Definition demo_boot : kst := boot_state (Kmem 0x40200000 0x40400000) ∅ (mmu_init demo_layout false true mmu_off).

Lemma demo_mapped va : kRamBase <= va < kRamLimit -> walk (pt (mmu demo_boot)) (g_l0 demo_layout) va <> None.
Proof.
  intros H. pose proof (build_spec demo_layout demo_layout_ok false mmu_off demo_window_ok) as (_ & _ & _ & W).
  change (pt (mmu demo_boot)) with (pt (build_identity_map demo_layout false mmu_off)). unfold kRamBase, kRamLimit in H.
  rewrite W by lia. unfold virt_map. repeat bdestr; done || lia.
Qed.

Lemma demo_booting : exists s free, sched_init demo_boot = Some s /\ booting demo_kcfg s free [] [] /\ heap_mapped demo_layout s /\
  g_l3_extra_next (mmu s) = 0 /\ 0x40200000 <= Kmem.cur (heap s) <= 0x40210000 /\ kend (heap s) = 0x40400000.
Proof.
  destruct (booting_init demo_kcfg demo_boot) as (s & free & E & HB & _ & _ & _ & Hm & _ & _ & Hk & Hc); [split; cbn; lia | done | done | | cbn; lia |].
  { intros a. unfold ld8. change (ram demo_boot) with (∅ : mem). rewrite lookup_empty. simpl. lia. }
  exists s, free. cbn in Hk, Hc. split; [done | split; [done | split; [| rewrite Hm; split; [done | split; [lia | done]]]]].
  split; rewrite ?Hm, ?Hk.
  - exact demo_layout_ok.
  - exact demo_inv.
  - reflexivity.
  - unfold kRamBase. lia.
  - unfold kRamLimit. lia.
  - intros va Hva. apply demo_mapped. unfold kRamBase, kRamLimit. lia.
Qed.

(** The thread pool of the concrete kernel starts with its heap. *)
Lemma demo_pool_above s free : sched_init demo_boot = Some s -> booting demo_kcfg s free [] [] -> forall f, f ∈ free -> 0x40200000 <= f.
Proof.
  intros E HB f Hf. assert (Hb : base (g_thread_pool s) = 0x40200000).
  { assert (B : option_map (fun s => base (g_thread_pool s)) (sched_init demo_boot) = Some 0x40200000) by (vm_compute; reflexivity).
    rewrite E in B. by injection B. }
  pose proof (bt_create _ _ _ _ _ HB) as HC. destruct (Z.eq_dec (g_thread_pool_inited s) 0) as [Hi | Hi].
  - rewrite (ci_nopool _ _ _ HC Hi) in Hf. by apply not_elem_of_nil in Hf.
  - destruct (ci_pool _ _ _ HC Hi) as (Hr & _). pose proof (proj1 (Forall_forall _ _) (rep_blocks _ _ _ Hr) f Hf) as B.
    apply block_bounds in B as (B & _); [lia | apply Hr].
Qed.

Lemma demo_frame_ok : frame_ok demo_probe.
Proof. unfold frame_ok, kGuardPageBytes. cbn. lia. Qed.

Lemma stack_lab_faults_witness :
  exists s0 free, sched_init demo_boot = Some s0 /\ booting demo_kcfg s0 free [] [] /\
  exists t s1 k, stack_lab_setup demo_kcfg demo_probe 1 s0 = KDone () s1 /\ sched_start false s1 = KSwitch nullptr t (started t s1) k /\
    t_entry (thr s1 t) = probe_entry demo_probe /\
    let base := t_stack_base (thr s1 t) in
    forall sp, base + kStackGuardBytes <= sp - 9 * frame demo_probe + buf demo_probe -> sp <= base + 8192 ->
    exists ram' used, 9 * frame demo_probe - buf demo_probe <= used <= 8192 - kStackGuardBytes /\
      probe_thread demo_layout demo_probe sp (started t s1) = KHalt (set_out (out s1 ++ probe_text base 8192 used ++
        report_line (dabort_esr (fault_iss demo_probe)) (guard_pc demo_probe) (base - kGuardPageBytes) (probe_spsr demo_probe) el1h_tag)
          (set_ram ram' (started t s1))) /\
      mem_same_outside base (base + 8192) (ram s1) ram' /\ stack_guard_ok base 8192 ram' = true.
Proof.
  destruct demo_booting as (s0 & free & E & HB & HM & Hn & Hc & Hk). exists s0, free. split; [exact E | split; [exact HB |]].
  apply (stack_lab_faults demo_layout demo_kcfg demo_probe false s0 free HB); [reflexivity | exact HM | lia | | cbn; lia | cbn; lia | exact demo_frame_ok].
  rewrite Hk. change (spawn_cost 8192) with 17040. lia.
Defined.

(** A stack of 1000 bytes: nine frames of 304 bytes do not fit. *)
Definition demo_small : kst := set_mmu (mmu_guard_page demo_layout 0x40300000 (mmu demo_boot)).2 demo_boot.

Lemma demo_guarded : guarded demo_layout (mmu demo_small) 0x40301000 1000.
Proof.
  destruct (guard_page_guards demo_layout (mmu demo_boot) 0x40300000 1000) as [H _]; [exact demo_layout_ok | exact demo_inv | reflexivity | reflexivity | reflexivity |
    unfold kRamBase; lia | lia | unfold kRamLimit; lia | | exact H].
  intros va Hva. apply demo_mapped. unfold kRamBase, kRamLimit. lia.
Qed.

