(* ===== verification/Globals.v ===== *)
(** * Global variables and messages of the demonstrations

    The labs keep their state in static variables, words of RAM at addresses the
    linker chooses, and print lines on the console. *)

From Stdlib Require Import String.
From S2P Require Import Prelude Mem Kmem MemPool Pte Uart Kstate Runq Stack Sched Thread Spawn.

(** A line on the console. *)
Definition say (m : string) : kst -> kst := puts (m ++ newline).

Section Variables.

Context {V : Type} `{EqDecision V} (at_ : V -> Z) (width : V -> nat).

(** The value of the variable [x], and writing it. *)
Definition load_var (x : V) (s : kst) : Z := ld_le (width x) (ram s) (at_ x).

Definition store_var (x : V) (v : Z) (s : kst) : kst := set_ram (st_le (width x) (at_ x) v (ram s)) s.

(** The linker gives every variable its own bytes. *)
Record vars_apart : Prop := {
  va_pos : forall x, 0 < at_ x;
  va_apart : forall x y, x <> y -> at_ x + Z.of_nat (width x) <= at_ y \/ at_ y + Z.of_nat (width y) <= at_ x
}.

Lemma load_store_var x y v s : vars_apart ->
  load_var x (store_var y v s) = if decide (x = y) then v mod 256 ^ Z.of_nat (width y) else load_var x s.
Proof.
  intros H. unfold load_var, store_var. cbn [ram set_ram]. destruct (decide (x = y)) as [-> | Hne]; [apply ld_le_st_le |].
  apply ld_le_ext. intros i Hi. apply ld8_st_le. pose proof (va_apart H x y Hne). lia.
Qed.

Lemma load_var_ram x s s' : ram s' = ram s -> load_var x s' = load_var x s.
Proof. unfold load_var. by intros ->. Qed.

Lemma store_var_bytes x v s : mem_bytes (ram s) -> mem_bytes (ram (store_var x v s)).
Proof. apply mem_bytes_st_le. Qed.

(** A write is not seen outside the variable. *)
Lemma store_var_ld8 x v s a : a < at_ x \/ at_ x + Z.of_nat (width x) <= a -> ld8 (ram (store_var x v s)) a = ld8 (ram s) a.
Proof. intros H. unfold store_var. cbn [ram set_ram]. apply ld8_st_le. lia. Qed.

End Variables.

Lemma say_fields m s : out (say m s) = out s ++ puts_bytes (chars (m ++ newline)) /\ daif (say m s) = daif s /\ cpu (say m s) = cpu s.
Proof. done. Qed.

Lemma say_out m o s : say m (set_out o s) = set_out (o ++ puts_bytes (chars (m ++ newline))) s.
Proof. done. Qed.

(** ** Setting up with global variables *)

Section Booting.

Context (C : config) {V : Type} `{EqDecision V} (at_ : V -> Z) (width : V -> nat).

(** The variables lie below the heap mark, outside the thread pool and below
    the stacks of the threads created. *)
Definition globals_apart (s : kst) (free live : list Z) : Prop :=
  forall x, at_ x + Z.of_nat (width x) <= Kmem.cur (heap s) /\
    (forall f, f ∈ free -> at_ x + Z.of_nat (width x) <= f \/ f + sizeof_Thread <= at_ x) /\
    (forall t, t ∈ live -> at_ x + Z.of_nat (width x) <= t_stack_base (thr s t)).

Lemma globals_apart_nil s s' free : globals_apart s free [] -> heap s' = heap s -> globals_apart s' free [].
Proof. intros HA E x. destruct (HA x) as (A1 & A2 & _). rewrite E. split; [done | split; [done |]]. by intros t ?%not_elem_of_nil. Qed.

Lemma booting_store s free live l x v : booting C s free live l -> globals_apart s free live -> booting C (store_var at_ width x v s) free live l.
Proof.
  intros [B1 B2 B3 B4 B5 B6] HA. destruct (HA x) as (A1 & A2 & A3). split; try done.
  - apply (create_inv_write s free live (at_ x) (at_ x + Z.of_nat (width x))); [done | |].
    + intros a Ha. symmetry. apply store_var_ld8. lia.
    + right. intros f Hf. destruct (A2 f Hf); unfold sizeof_Thread in *; lia.
  - by apply (sched_inv_same s).
  - by apply store_var_bytes.
  - intros t Ht. pose proof (ci_live _ _ _ B1 t Ht) as (_ & Hpos & _). pose proof (B6 t Ht) as [].
    apply (unstarted_frame C s _ free free t); [by apply B6 | done | by apply store_var_bytes | unfold nullptr; lia | done | done | done | done | done |].
    intros a Ha. symmetry. apply store_var_ld8. specialize (A3 t Ht). change (thr (store_var at_ width x v s) t) with (thr s t) in Ha. lia.
Qed.

Lemma booting_objects s s' free live l : booting C s free live l -> ram s' = ram s -> heap s' = heap s -> threads s' = threads s ->
  rq_head s' = rq_head s -> rq_tail s' = rq_tail s -> g_thread_pool s' = g_thread_pool s -> g_thread_pool_inited s' = g_thread_pool_inited s ->
  cur s' = cur s -> booting C s' free live l.
Proof.
  intros HB Er Eh Et E1 E2 E3 E4 E5. pose proof HB as [_ B2 B3 B4 _ _].
  apply (booting_frame C s _ _ _ _ _ HB); try done; [by apply (sched_inv_same s) | by rewrite E5 |]. intros t. unfold thr. by rewrite Et.
Qed.

(** Creating a thread leaves the variables alone. *)
Lemma spawn_globals s free entry arg size prio live l : booting C s free live l -> globals_apart s free live -> entry <> 0 -> 160 <= size -> size + 4096 < 2 ^ 62 ->
  0 <= trampoline C < 2 ^ 64 -> Kmem.cur (heap s) + spawn_cost size <= kend (heap s) ->
  exists t s' free', thread_create_prio C entry arg size prio s = (t, s') /\ t <> nullptr /\ (t ∉ live) /\ booting C s' free' (t :: live) l /\
    created s s' t entry arg size prio /\ threads s' !! t <> None /\ (forall u, u <> t -> thr s' u = thr s u) /\
    (mutexes s' = mutexes s /\ sems s' = sems s /\ cpu s' = cpu s) /\
    globals_apart s' free' (t :: live) /\ (forall x, load_var at_ width x s' = load_var at_ width x s) /\
    Kmem.cur (heap s') <= Kmem.cur (heap s) + spawn_cost size /\ kend (heap s') = kend (heap s).
Proof.
  intros HB HA He Hs Hm Ht Hroom.
  destruct (spawn_spec C s free live l entry arg size prio HB He Hs Hm Ht Hroom)
    as (t & s' & free' & E & Hne & Hnl & HB' & Hcr & Hfr & Hthr & Hk & Hcost & _ & _ & Hb & Htop & Hsub & Hwhere & Htouch & _).
  destruct Hfr as (_ & _ & Hcpu & _ & Hmtx & Hsem & Hke).
  exists t, s', free'. repeat (split; [done |]). split; [| split; [| done]].
  - intros x. destruct (HA x) as (A1 & A2 & A3). split; [lia | split; [intros f Hf; by apply A2, Hsub |]].
    intros u [-> | Hu]%elem_of_cons; [lia |]. rewrite Hthr by (by intros ->). by apply A3.
  - intros x. apply ld_le_ext. intros a Ha. symmetry. destruct (HA x) as (A1 & A2 & _). apply Htouch; [lia |].
    unfold sizeof_Thread in *. destruct Hwhere as [Hf | Hc]; [destruct (A2 t Hf); lia | lia].
Qed.

End Booting.
