(* ===== verification/LockLab.v ===== *)
(** * [src/src/lock_lab.cc]: the lock demonstrations

    Two threads of different priority on one lock, or one thread and the timer
    interrupt on one lock, each with the right and with the wrong primitive.
    The globals are words of RAM at the linker's addresses [at_].  Interrupts
    arrive at the waiting points of the source ([spin], [wfe], the relaxations):
    [irq n] tells whether one arrives at the [n]-th.  An interrupt that would
    redirect its return ([preempt_return]) is not followed here: what it does to
    the interrupted code is [Irq.irq_loses_pc]. *)

From Stdlib Require Import String.
From S2P Require Import Prelude Mem Kmem MemPool Pte Mmu Uart Kstate Runq Stack Sched Sync SyncInv SyncThms Thread Spawn Spinlock Except StackLab Globals.

Definition kDeadlockDetectTicks : Z := 40.

Inductive lab_var :=
| g_mode | g_preempt_lock | g_low_locked | g_low_unlocked | g_high_started | g_high_acquired | g_high_start_tick | g_deadlock_reported
| g_irq_lock | g_irq_worker_holding | g_irq_isr_acquired | g_irq_deadlock_reported.

#[export] Instance lab_var_eq_dec : EqDecision lab_var.
Proof. solve_decision. Defined.

(** Bytes of a variable: [uint64_t] for the start tick, 32-bit words otherwise. *)
Definition width (x : lab_var) : nat := match x with g_high_start_tick => 8 | _ => 4 end.

(** What the linker and the build fix. *)
Record lab_cfg := LabCfg {
  at_ : lab_var -> Z;
  g_preempt_start : Z;
  low_entry : Z;
  high_entry : Z;
  worker_entry : Z
}.

Section LockLab.

Context (C : config) (G : lab_cfg) (irq : nat -> bool) (monitor : nat -> bool) (fuel : nat).

Abbreviation prio := (sched_policy_prio C).

Definition rd (x : lab_var) : kst -> Z := load_var (at_ G) width x.

Definition wr (x : lab_var) : Z -> kst -> kst := store_var (at_ G) width x.

(** [raw_spin_lock] of the interrupt handler: interrupts are masked, nothing
    happens at its relaxations. *)
Definition isr_lock (l : Z) : K unit := fun s =>
  match raw_spin_lock (fun _ s => s) monitor fuel l 0 s with Some (_, s) => KDone () s | None => KStuck end.

Definition preempt_tick (s : kst) : kst :=
  if negb (rd g_deadlock_reported s =? 0) then s
  else if (rd g_low_locked s =? 0) || negb (rd g_low_unlocked s =? 0) then s
  else if (rd g_high_started s =? 0) || negb (rd g_high_acquired s =? 0) then s
  else
    let now := ticks (cpu s) in
    let start := rd g_high_start_tick s in
    let '(start, s) := if start =? 0 then (now, wr g_high_start_tick now s) else (start, s) in
    if kDeadlockDetectTicks <=? now -64 start
    then say "[lock-lab] raw deadlock observed" (wr g_deadlock_reported 1 s) else s.

(** What the interrupt prints before it takes the lock the thread holds. *)
Definition reentrancy_seen (s : kst) : kst :=
  say "[lock-lab] irq reentrancy deadlock observed (missing irqsave)" (wr g_irq_deadlock_reported 1 s).

Definition lock_lab_irq_tick : K unit :=
  get ≫= fun s =>
  if rd g_mode s =? 1 then modify preempt_tick
  else if rd g_mode s =? 3 then
    if negb (rd g_irq_deadlock_reported s =? 0) then mret ()
    else if rd g_irq_worker_holding s =? 0 then mret ()
    else modify reentrancy_seen ≫= fun _ => isr_lock (at_ G g_irq_lock)
  else if rd g_mode s =? 4 then
    if negb (rd g_irq_isr_acquired s =? 0) then mret ()
    else if negb (rd g_irq_worker_holding s =? 0) then mret ()
    else
      isr_lock (at_ G g_irq_lock) ≫= fun _ =>
      modify (raw_spin_unlock (at_ G g_irq_lock)) ≫= fun _ =>
      modify (wr g_irq_isr_acquired 1)
  else mret ().

(** The timer interrupt of this build, on the kernel state: [irq.cc] counts the
    tick, calls [lock_lab_irq_tick] and then the scheduler. *)
Definition lab_interrupt : K unit := fun s =>
  let flags := daif s in
  let body :=
    modify (upd_cpu (fun c => set_ticks (wrap64 (ticks c + 1)) (set_irq_depth (wrap32 (irq_depth c + 1)) c))) ≫= fun _ =>
    lock_lab_irq_tick ≫= fun _ => sched_on_tick prio in
  kbind (body (set_daif (Z.lor flags 0x80) s)) (fun _ s =>
    let s := upd_cpu (fun c => set_irq_depth (wrap32 (irq_depth c - 1)) c) s in
    if (preempt_cnt (cpu s) =? 0) && negb (need_resched (cpu s) =? 0) then KStuck else KDone () (set_daif flags s)).

(** A waiting point: an iteration of [spin], or [wfe]. *)
Definition wait_point (n : nat) : K unit := fun s =>
  if negb (irqs_masked s) && irq n then lab_interrupt s else KDone () s.

(** At the relaxations of a lock. *)
Definition at_relax (n : nat) (s : kst) : kst := match wait_point n s with KDone _ s' => s' | _ => s end.

Definition raw_lock (l : Z) (n : nat) : K nat := fun s =>
  match raw_spin_lock at_relax monitor fuel l n s with Some (n, s) => KDone n s | None => KStuck end.

(** [raw_spin_lock] in mode 1, [spin_lock] otherwise; likewise for unlocking. *)
Definition lab_lock (x : lab_var) (n : nat) : K nat :=
  get ≫= fun s => if rd g_mode s =? 1 then raw_lock (at_ G x) n else spin_lock at_relax monitor prio fuel (at_ G x) n.

Definition lab_unlock (x : lab_var) : K unit :=
  get ≫= fun s => if rd g_mode s =? 1 then modify (raw_spin_unlock (at_ G x)) else spin_unlock prio (at_ G x).

(** [while ((cpu->ticks - t0) < 10u) spin(20000);] *)
Fixpoint hold_loop (k : nat) (t0 : Z) (n : nat) : K nat := fun s =>
  if ticks (cpu s) -64 t0 <? 10 then
    match k with
    | O => KStuck
    | Datatypes.S k' => kbind (wait_point n s) (fun _ => hold_loop k' t0 (Datatypes.S n))
    end
  else KDone n s.

Definition preempt_low_thread (n : nat) : K unit :=
  modify (say "[lock-lab] L start") ≫= fun _ =>
  modify (wr g_low_locked 0) ≫= fun _ =>
  modify (wr g_low_unlocked 0) ≫= fun _ =>
  lab_lock g_preempt_lock n ≫= fun n =>
  modify (wr g_low_locked 1) ≫= fun _ =>
  modify (say "[lock-lab] L locked") ≫= fun _ =>
  sem_up C (g_preempt_start G) ≫= fun _ =>
  get ≫= fun s =>
  hold_loop fuel (ticks (cpu s)) n ≫= fun _ =>
  modify (say "[lock-lab] L unlocking") ≫= fun _ =>
  lab_unlock g_preempt_lock ≫= fun _ =>
  modify (wr g_low_unlocked 1) ≫= fun _ =>
  modify (say "[lock-lab] L unlocked") ≫= fun _ =>
  thread_yield prio ≫= fun _ => halt.

Definition preempt_high_thread (n : nat) : K unit :=
  modify (say "[lock-lab] H start") ≫= fun _ =>
  sem_down C (g_preempt_start G) ≫= fun _ =>
  modify (say "[lock-lab] H lock...") ≫= fun _ =>
  modify (wr g_high_started 1) ≫= fun _ =>
  modify (fun s => wr g_high_start_tick (ticks (cpu s)) s) ≫= fun _ =>
  lab_lock g_preempt_lock n ≫= fun _ =>
  modify (wr g_high_acquired 1) ≫= fun _ =>
  modify (say "[lock-lab] H acquired") ≫= fun _ =>
  lab_unlock g_preempt_lock ≫= fun _ =>
  get ≫= fun s =>
  modify (if rd g_mode s =? 2 then say "[lock-lab] result PASS" else say "[lock-lab] BUG: raw spinlock unexpectedly made progress")
    ≫= fun _ => halt.

(** [while (!g_irq_isr_acquired) wfe;] *)
Fixpoint acquired_loop (k : nat) (n : nat) : K unit := fun s =>
  if rd g_irq_isr_acquired s =? 0 then
    match k with
    | O => KStuck
    | Datatypes.S k' => kbind (wait_point n s) (fun _ => acquired_loop k' (Datatypes.S n))
    end
  else KDone () s.

(** The endless [spin] loop of mode 3, for [k] iterations. *)
Fixpoint spin_loop (k : nat) (n : nat) : K unit := fun s =>
  match k with O => KStuck | Datatypes.S k' => kbind (wait_point n s) (fun _ => spin_loop k' (Datatypes.S n)) end.

Definition irq_worker_thread (n : nat) : K unit :=
  modify (say "[lock-lab] irq-worker start") ≫= fun _ =>
  get ≫= fun s =>
  if rd g_mode s =? 3 then
    spin_lock at_relax monitor prio fuel (at_ G g_irq_lock) n ≫= fun n =>
    modify (wr g_irq_worker_holding 1) ≫= fun _ =>
    modify (say "[lock-lab] irq-worker locked (no irqsave)") ≫= fun _ =>
    spin_loop fuel n
  else if rd g_mode s =? 4 then
    spin_lock_irqsave at_relax monitor fuel (at_ G g_irq_lock) n ≫= fun r =>
    let '(flags, n) := r in
    modify (wr g_irq_worker_holding 1) ≫= fun _ =>
    modify (say "[lock-lab] irq-worker locked (irqsave)") ≫= fun _ =>
    wait_point n ≫= fun _ =>
    spin_unlock_irqrestore prio (at_ G g_irq_lock) flags ≫= fun _ =>
    modify (wr g_irq_worker_holding 0) ≫= fun _ =>
    modify (say "[lock-lab] irq-worker unlocked (irqsave)") ≫= fun _ =>
    acquired_loop fuel (Datatypes.S n) ≫= fun _ =>
    modify (say "[lock-lab] irqsave result PASS") ≫= fun _ => halt
  else modify (say "[lock-lab] unknown mode") ≫= fun _ => halt.

(** The globals set by [lock_lab_setup]. *)
Definition reset_globals (s : kst) : kst :=
  let s := sem_init (g_preempt_start G) 0 (spin_init (at_ G g_preempt_lock) s) in
  let s := wr g_low_unlocked 0 (wr g_low_locked 0 s) in
  let s := wr g_high_acquired 0 (wr g_high_started 0 s) in
  let s := wr g_deadlock_reported 0 (wr g_high_start_tick 0 s) in
  let s := spin_init (at_ G g_irq_lock) s in
  wr g_irq_deadlock_reported 0 (wr g_irq_isr_acquired 0 (wr g_irq_worker_holding 0 s)).

Definition lock_lab_setup (mode : Z) : K unit := fun s =>
  let s := say "[lock-lab] setup" (wr g_mode mode s) in
  let s := puts newline (print_u64 mode (puts "[lock-lab] mode=" s)) in
  let s := reset_globals s in
  if (mode =? 1) || (mode =? 2) then
    let '(l, s) := thread_create_prio C (low_entry G) nullptr (16 * 1024) 5 s in
    let '(h, s) := thread_create_prio C (high_entry G) nullptr (16 * 1024) 20 s in
    if (l =? nullptr) || (h =? nullptr) then halt (say "[lock-lab] thread_create failed" s)
    else KDone () (sched_add h (sched_add l s))
  else if (mode =? 3) || (mode =? 4) then
    let '(w, s) := thread_create_prio C (worker_entry G) nullptr (16 * 1024) 10 s in
    if w =? nullptr then halt (say "[lock-lab] thread_create failed" s) else KDone () (sched_add w s)
  else
    halt (say "[lock-lab] modes: 1=raw-preempt-deadlock, 2=spin-preempt-safe, 3=irq-deadlock, 4=irqsave"
      (say "[lock-lab] unknown mode" s)).

End LockLab.

(** ** The globals *)

(** The linker gives every variable its own bytes. *)
Record lab_ok (G : lab_cfg) : Prop := {
  lk_vars : vars_apart (at_ G) width;
  lk_sem : g_preempt_start G <> nullptr
}.

Section Globals.

Context (G : lab_cfg) (HG : lab_ok G).

Abbreviation rd := (rd G).
Abbreviation wr := (wr G).

Lemma rd_wr x y v s : rd x (wr y v s) = if decide (x = y) then v mod 256 ^ Z.of_nat (width y) else rd x s.
Proof. apply load_store_var, HG. Qed.

Lemma rd_wr_eq x v s : 0 <= v < 2 ^ 32 -> rd x (wr x v s) = v.
Proof. intros Hv. rewrite rd_wr, decide_True by done. apply Z.mod_small. destruct x; cbn; lia. Qed.

Lemma rd_wr_ne x y v s : x <> y -> rd x (wr y v s) = rd x s.
Proof. intros H. by rewrite rd_wr, decide_False. Qed.

Lemma rd_ram x s s' : ram s' = ram s -> rd x s' = rd x s.
Proof. apply load_var_ram. Qed.

(** The locks are variables. *)
Lemma store_lock_wr x v s : width x = 4%nat -> store_lockv (at_ G x) v s = wr x v s.
Proof. unfold store_lockv, LockLab.wr, store_var. by intros ->. Qed.

Lemma lockv_rd x s : width x = 4%nat -> lockv (at_ G x) s = rd x s.
Proof. unfold lockv, LockLab.rd, load_var. by intros ->. Qed.

Lemma at_nonnull x : at_ G x <> nullptr.
Proof. pose proof (va_pos _ _ (lk_vars G HG) x). unfold nullptr. lia. Qed.

Lemma wr_bytes x v s : mem_bytes (ram s) -> mem_bytes (ram (wr x v s)).
Proof. apply store_var_bytes. Qed.

End Globals.

#[local] Opaque st_le ld_le.

(** ** The detector of mode 1 *)

(** One timer interrupt as the detector sees it. *)
Definition detector_tick (G : lab_cfg) (s : kst) : kst :=
  preempt_tick G (upd_cpu (fun c => set_ticks (wrap64 (ticks c + 1)) c) s).

(** The low thread holds the lock, the high one waits for it since tick [t0]. *)
Record deadlocked (G : lab_cfg) (t0 : Z) (s : kst) : Prop := {
  dl_low : rd G g_low_locked s = 1;
  dl_held : rd G g_low_unlocked s = 0;
  dl_high : rd G g_high_started s = 1;
  dl_waits : rd G g_high_acquired s = 0;
  dl_start : rd G g_high_start_tick s = t0
}.

Lemma deadlocked_same G t0 s s' : ram s' = ram s -> deadlocked G t0 s -> deadlocked G t0 s'.
Proof. intros E []. split; by rewrite (rd_ram G _ s). Qed.

Lemma detector_step G t0 s d : lab_ok G -> 0 < t0 -> 0 <= d -> t0 + d + 1 < 2 ^ 62 -> deadlocked G t0 s ->
  rd G g_deadlock_reported s = (if kDeadlockDetectTicks <=? d then 1 else 0) -> ticks (cpu s) = t0 + d ->
  let s' := detector_tick G s in
  deadlocked G t0 s' /\ rd G g_deadlock_reported s' = (if kDeadlockDetectTicks <=? d + 1 then 1 else 0) /\ ticks (cpu s') = t0 + (d + 1) /\
  out s' = out s ++ (if d + 1 =? kDeadlockDetectTicks then puts_bytes (chars ("[lock-lab] raw deadlock observed" ++ newline)) else []).
Proof.
  intros HG Ht Hd Hmax HD Hr Htk. unfold kDeadlockDetectTicks in *. unfold detector_tick. set (s1 := upd_cpu _ s).
  assert (HD1 : deadlocked G t0 s1) by (by apply (deadlocked_same G t0 s)).
  assert (Ht1 : ticks (cpu s1) = t0 + d + 1) by (cbn; rewrite Htk; rewrite wrap64_small; lia).
  assert (Hr1 : rd G g_deadlock_reported s1 = if 40 <=? d then 1 else 0) by exact Hr. change (out s) with (out s1). clearbody s1.
  pose proof HD1 as [D1 D2 D3 D4 D5]. unfold preempt_tick. rewrite Hr1, D1, D2, D3, D4, D5, Ht1. cbn [Z.eqb negb orb].
  rewrite (proj2 (Z.eqb_neq t0 0)), wrap64_small by lia. unfold kDeadlockDetectTicks.
  destruct (Z.leb_spec 40 d); cbn [Z.eqb negb].
  - rewrite (proj2 (Z.leb_le _ _)), (proj2 (Z.eqb_neq _ _)), app_nil_r by lia. split; [done | split; [done | split; [lia | done]]].
  - replace (t0 + d + 1 - t0) with (d + 1) by lia. destruct (Z.leb_spec 40 (d + 1)).
    + rewrite (proj2 (Z.eqb_eq (d + 1) 40)) by lia. split; [| split; [| split; [cbn; lia | done]]].
      * split; [by rewrite (rd_ram G _ (wr G g_deadlock_reported 1 s1)), rd_wr_ne by done ..].
      * rewrite (rd_ram G _ (wr G g_deadlock_reported 1 s1)) by done. apply rd_wr_eq; [done | lia].
    + rewrite (proj2 (Z.eqb_neq _ _)), app_nil_r by lia. split; [done | split; [done | split; [lia | done]]].
Qed.

(** C37: the detector of mode 1 reports the deadlock once, at the fortieth tick
    after the high-priority thread began to wait, and never before or again. *)
Theorem deadlock_reported_once G t0 s n :
  lab_ok G -> 0 < t0 -> t0 + Z.of_nat n < 2 ^ 62 -> deadlocked G t0 s -> rd G g_deadlock_reported s = 0 -> ticks (cpu s) = t0 ->
  let s' := Nat.iter n (detector_tick G) s in
  deadlocked G t0 s' /\ ticks (cpu s') = t0 + Z.of_nat n /\
  out s' = out s ++ (if kDeadlockDetectTicks <=? Z.of_nat n then puts_bytes (chars ("[lock-lab] raw deadlock observed" ++ newline)) else []).
Proof.
  intros HG Ht Hmax HD Hr Htk s'.
  assert (H : deadlocked G t0 s' /\ rd G g_deadlock_reported s' = (if kDeadlockDetectTicks <=? Z.of_nat n then 1 else 0) /\
    ticks (cpu s') = t0 + Z.of_nat n /\
    out s' = out s ++ (if kDeadlockDetectTicks <=? Z.of_nat n then puts_bytes (chars ("[lock-lab] raw deadlock observed" ++ newline)) else [])).
  { unfold s'. clear s'. induction n as [|n IH]; [cbn [Nat.iter]; rewrite Z.add_0_r, app_nil_r; done |].
    destruct IH as (I1 & I2 & I3 & I4); [lia |]. change (Nat.iter (Datatypes.S n) ?f s) with (f (Nat.iter n f s)).
    destruct (detector_step G t0 _ (Z.of_nat n) HG Ht ltac:(lia) ltac:(lia) I1 I2 I3) as (S1 & S2 & S3 & S4).
    replace (Z.of_nat (Datatypes.S n)) with (Z.of_nat n + 1) by lia. split; [done | split; [done | split; [done |]]].
    rewrite S4, I4, <- app_assoc. f_equal. unfold kDeadlockDetectTicks.
    repeat bdestr; try lia; by rewrite ?app_nil_r. }
  destruct H as (H1 & _ & H2 & H3). done.
Qed.

(** ** A lock found free *)

Lemma raw_lock_free env monitor fuel l n s : l <> nullptr -> lockv l s = 0 -> monitor n = true ->
  raw_spin_lock env monitor fuel l n s = Some (n, store_lockv l 1 s).
Proof.
  intros Hl Hv Hm. unfold raw_spin_lock. rewrite (proj2 (Z.eqb_neq _ _) Hl).
  destruct fuel; cbn [raw_spin_lock_loop]; rewrite trylock_cases, Hv, Hm by done; done.
Qed.

Lemma spin_lock_free env monitor prio fuel l n s : l <> nullptr -> lockv l s = 0 -> monitor n = true -> 0 <= preempt_cnt (cpu s) < 2 ^ 32 - 1 ->
  spin_lock env monitor prio fuel l n s = KDone n (preempt_up (store_lockv l 1 s)).
Proof.
  intros Hl Hv Hm Hp. unfold spin_lock. rewrite (proj2 (Z.eqb_neq _ _) Hl).
  destruct fuel; cbn [spin_lock_loop]; unfold mbind, K_bind; rewrite disable_up by done; cbn [kbind]; unfold try;
    rewrite trylock_cases by done; change (lockv l (preempt_up s)) with (lockv l s); rewrite Hv, Hm; done.
Qed.

Lemma raw_lock_held monitor fuel l n s : l <> nullptr -> lockv l s <> 0 ->
  raw_spin_lock (fun _ s => s) monitor fuel l n s = None.
Proof.
  intros Hl Hv. unfold raw_spin_lock. rewrite (proj2 (Z.eqb_neq _ _) Hl). apply raw_loop_stuck; [done |].
  intros k. replace (traj (fun _ s => s) k n s) with s; [done |]. clear. revert n. induction k as [|k IH]; intros n; [done |].
  cbn [traj]. unfold cpu_relax. destruct (irqs_masked s); apply IH.
Qed.

(** ** The running thread *)

(** Thread [w] runs alone, its stack intact and apart from the globals. *)
Record lab_worker (G : lab_cfg) (s : kst) (w : Z) : Prop := {
  lw_cur : cur s = w;
  lw_null : w <> nullptr;
  lw_sched : sched_inv s [w];
  lw_cpu : preempt_cnt (cpu s) = 0 /\ need_resched (cpu s) = 0 /\ irq_depth (cpu s) = 0;
  lw_budget : 1 < t_budget (thr s w);
  lw_bytes : mem_bytes (ram s);
  lw_guard : thread_guard_ok s w = true;
  lw_stack : 0 < t_stack_base (thr s w) /\ 0 < t_stack_size (thr s w);
  lw_apart : forall x, at_ G x + Z.of_nat (width x) <= t_stack_base (thr s w) \/ t_stack_base (thr s w) + t_stack_size (thr s w) <= at_ G x
}.

Section Worker.

Context (G : lab_cfg) (HG : lab_ok G).

Lemma guard_ok_same s s' t : t <> nullptr -> threads s' = threads s -> mem_bytes (ram s) -> mem_bytes (ram s') ->
  0 < t_stack_base (thr s t) -> 0 < t_stack_size (thr s t) ->
  (forall a, t_stack_base (thr s t) <= a < t_stack_base (thr s t) + t_stack_size (thr s t) -> ld8 (ram s) a = ld8 (ram s') a) ->
  thread_guard_ok s t = true -> thread_guard_ok s' t = true.
Proof.
  intros Ht E Hm Hm' Hb Hs Ha. rewrite !guard_ok_thread by done.
  replace (thr s' t) with (thr s t) by (unfold thr; by rewrite E). by apply guard_ok_frame.
Qed.

(** What the labs do between two calls of the kernel: globals, messages, the
    interrupt mask. *)
Lemma lab_worker_same s s' w : lab_worker G s w ->
  threads s' = threads s -> rq_head s' = rq_head s -> rq_tail s' = rq_tail s -> cpu s' = cpu s -> mem_bytes (ram s') ->
  (forall a, t_stack_base (thr s w) <= a < t_stack_base (thr s w) + t_stack_size (thr s w) -> ld8 (ram s) a = ld8 (ram s') a) ->
  lab_worker G s' w.
Proof.
  intros [] Et Eh El Ec Hb Ha. assert (E : thr s' w = thr s w) by (unfold thr; by rewrite Et).
  split; rewrite ?E, ?Ec; try done.
  - unfold cur. by rewrite Ec.
  - apply (sched_inv_same s); try done. unfold cur. by rewrite Ec.
  - destruct lw_stack0. by apply (guard_ok_same s).
Qed.

Lemma lab_worker_wr s w x v : lab_worker G s w -> lab_worker G (wr G x v s) w.
Proof.
  intros H. apply (lab_worker_same s); try done.
  - apply wr_bytes, H.
  - intros a Ha. unfold wr, store_var. cbn [ram set_ram]. rewrite ld8_st_le; [done |]. pose proof (lw_apart _ _ _ H x). lia.
Qed.

Lemma lab_worker_out s w o : lab_worker G s w -> lab_worker G (set_out o s) w.
Proof. intros H. apply (lab_worker_same s); try done. apply H. Qed.

Lemma lab_worker_daif s w v : lab_worker G s w -> lab_worker G (set_daif v s) w.
Proof. intros H. apply (lab_worker_same s); try done. apply H. Qed.

(** The scheduler's tick leaves the thread running. *)
Lemma sched_on_tick_worker prio s w : cur s = w -> w <> nullptr -> sched_inv s [w] -> preempt_cnt (cpu s) = 0 -> 1 < t_budget (thr s w) ->
  thread_guard_ok s w = true -> sched_on_tick prio s = KDone () (upd_thr w (set_t_budget (t_budget (thr s w) - 1)) s).
Proof.
  intros Hc Hw Hs Hp Hb Hg. rewrite <- Hc in Hg.
  assert (E : tick_budget prio (cur s) s = upd_thr w (set_t_budget (t_budget (thr s w) - 1)) s).
  { rewrite Hc. by apply tick_budget_spec. }
  destruct prio.
  - destruct (sched_on_tick_prio s [w] Hs) as (s' & E1 & _ & E2); [by rewrite Hc | done | done |]. rewrite E1, E2, E; [done | |].
    + rewrite Hc. apply (sched_inv_ready s [w]); [done | by left].
    + intros t ->%list_elem_of_singleton. by rewrite Hc.
  - rewrite sched_on_tick_rr, E; [done | by rewrite Hc | done | done].
Qed.

End Worker.

Section Interrupts.

Context (C : config) (G : lab_cfg) (HG : lab_ok G) (irq monitor : nat -> bool) (fuel : nat).

Abbreviation prio := (sched_policy_prio C).
Abbreviation rd := (rd G).
Abbreviation wr := (wr G).
Abbreviation interrupt := (lab_interrupt C G monitor fuel).

(** The state in which the handler calls [lock_lab_irq_tick]. *)
Definition in_handler (s : kst) : kst :=
  upd_cpu (fun c => set_ticks (wrap64 (ticks c + 1)) (set_irq_depth (wrap32 (irq_depth c + 1)) c)) (set_daif (Z.lor (daif s) 0x80) s).

Lemma wait_point_masked n s : irqs_masked s = true -> wait_point C G irq monitor fuel n s = KDone () s.
Proof. intros H. unfold wait_point. by rewrite H. Qed.

(** Leaving the handler when no switch is requested. *)
Lemma interrupt_return s w f r :
  preempt_cnt (cpu s) = 0 /\ need_resched (cpu s) = 0 /\ irq_depth (cpu s) = 0 ->
  (let s' := upd_cpu (fun c => set_irq_depth (wrap32 (irq_depth c - 1)) c) (upd_thr w f (set_ram r (in_handler s))) in
   if (preempt_cnt (cpu s') =? 0) && negb (need_resched (cpu s') =? 0) then KStuck else KDone () (set_daif (daif s) s')) =
  KDone () (set_daif (daif s) (upd_cpu (fun c => set_ticks (wrap64 (ticks c + 1)) c) (upd_thr w f (set_ram r s)))).
Proof.
  intros (P1 & P2 & P3). destruct s as [? ? ? ? ? ? ? ? [] ? ? ? ? ? ?]. cbn in P1, P2, P3. subst. done.
Qed.

(** The interrupt of mode 4 takes and frees the lock and records it. *)
Definition isr_done (s : kst) (w : Z) : kst :=
  set_daif (daif s) (upd_cpu (fun c => set_ticks (wrap64 (ticks c + 1)) c) (upd_thr w (set_t_budget (t_budget (thr s w) - 1))
    (wr g_irq_isr_acquired 1 (wr g_irq_lock 0 (wr g_irq_lock 1 s))))).

Lemma interrupt_mode4 s w : lab_worker G s w -> rd g_mode s = 4 -> rd g_irq_isr_acquired s = 0 -> rd g_irq_worker_holding s = 0 ->
  rd g_irq_lock s = 0 -> monitor 0%nat = true -> interrupt s = KDone () (isr_done s w).
Proof.
  intros Hw Hmode Hacq Hhold Hlock Hmon. unfold lab_interrupt, modify, mbind, K_bind. cbn [kbind]. fold (in_handler s). set (s1 := in_handler s).
  assert (R : forall x, rd x s1 = rd x s) by (intros x; by apply rd_ram).
  unfold lock_lab_irq_tick, get, modify, mbind, K_bind. cbn [kbind]. rewrite !R, Hmode, Hacq, Hhold. cbn [Z.eqb Pos.eqb negb].
  unfold isr_lock. pose proof (at_nonnull G HG g_irq_lock) as Hnn.
    rewrite raw_lock_free by (done || (rewrite lockv_rd by done; by rewrite R)). cbn [kbind].
  unfold raw_spin_unlock. rewrite (proj2 (Z.eqb_neq _ _) Hnn), !store_lock_wr by done. cbn [kbind].
  set (s2 := wr g_irq_isr_acquired 1 _). assert (H2 : lab_worker G (set_daif (daif s) (upd_cpu (fun _ => cpu s) s2)) w).
  { apply (lab_worker_same G (wr g_irq_isr_acquired 1 (wr g_irq_lock 0 (wr g_irq_lock 1 s)))); try done.
    - by repeat apply lab_worker_wr.
    - change (mem_bytes (ram (wr g_irq_isr_acquired 1 (wr g_irq_lock 0 (wr g_irq_lock 1 s))))). repeat apply wr_bytes. apply Hw. }
  destruct H2 as [Q1 Q2 [Q3 Q4 Q5 Q6] Q7 Q8 Q9 Q10 _ _].
  rewrite (sched_on_tick_worker prio s2 w); [| exact Q1 | exact Q2 | | apply Q7 | exact Q8 | exact Q10].
  2: { split; try done. apply (rq_rep_ext (set_daif (daif s) (upd_cpu (fun _ => cpu s) s2))); done. }
  cbn [kbind]. pose proof (lw_cpu _ _ _ Hw) as P.
  assert (E2 : s2 = set_ram (ram s2) (in_handler s)) by reflexivity.
  assert (E3 : isr_done s w = set_daif (daif s) (upd_cpu (fun c => set_ticks (wrap64 (ticks c + 1)) c)
    (upd_thr w (set_t_budget (t_budget (thr s w) - 1)) (set_ram (ram s2) s)))) by reflexivity.
  rewrite E3. clear E3. change (thr s2 w) with (thr s w). rewrite E2. apply interrupt_return; done.
Qed.

End Interrupts.

Lemma rd_say G x m s : rd G x (say m s) = rd G x s.
Proof. done. Qed.

(** Reading a global past writes and messages. *)
Ltac read_globals HG := repeat first [rewrite rd_say | rewrite (rd_wr_eq _ HG) by lia | rewrite (rd_wr_ne _ HG) by done].

Lemma lab_worker_say G s w m : lab_worker G s w -> lab_worker G (say m s) w.
Proof. apply lab_worker_out. Qed.

Lemma masked_lor s d : daif s = Z.lor d 0x80 -> irqs_masked s = true.
Proof.
  intros E. unfold irqs_masked. rewrite E, Z.land_lor_distr_l. change (Z.land 0x80 0x80) with 0x80.
  destruct (Z.eqb_spec (Z.lor (Z.land d 0x80) 0x80) 0) as [E0 |]; [| done]. by apply Z.lor_eq_0_iff in E0 as [_ E0].
Qed.

Section Irqsave.

Context (C : config) (G : lab_cfg) (HG : lab_ok G) (irq monitor : nat -> bool) (fuel : nat).

Abbreviation worker := (irq_worker_thread C G irq monitor fuel).

Lemma acquired_loop_spec k : forall n j s w, lab_worker G s w -> irqs_masked s = false -> rd G g_mode s = 4 ->
  rd G g_irq_isr_acquired s = 0 -> rd G g_irq_worker_holding s = 0 -> rd G g_irq_lock s = 0 -> monitor 0%nat = true ->
  (j < k)%nat -> irq (n + j)%nat = true -> acquired_loop C G irq monitor fuel k n s = KDone () (isr_done G s w).
Proof.
  induction k as [|k IH]; intros n j s w Hw Hm Hmode Ha Hh Hl Hmon Hj Hirq; [lia |]. cbn [acquired_loop]. rewrite Ha, Z.eqb_refl.
  unfold wait_point. rewrite Hm. cbn [negb andb]. destruct (irq n) eqn:En.
  - rewrite (interrupt_mode4 C G HG monitor fuel s w) by done. cbn [kbind].
    assert (E : rd G g_irq_isr_acquired (isr_done G s w) = 1).
    { change (rd G g_irq_isr_acquired (wr G g_irq_isr_acquired 1 (wr G g_irq_lock 0 (wr G g_irq_lock 1 s))) = 1). by rewrite (rd_wr_eq G HG) by lia. }
    destruct k; cbn [acquired_loop]; by rewrite E.
  - cbn [kbind]. destruct j as [|j]; [by rewrite Nat.add_0_r, En in Hirq |].
    apply (IH _ j); try done; [lia |]. by rewrite Nat.add_succ_comm.
Qed.

(** The worker of mode 4 up to its wait for the interrupt. *)
Definition section_done (s : kst) : kst :=
  say "[lock-lab] irq-worker unlocked (irqsave)" (wr G g_irq_worker_holding 0 (wr G g_irq_lock 0
    (say "[lock-lab] irq-worker locked (irqsave)" (wr G g_irq_worker_holding 1 (wr G g_irq_lock 1 (say "[lock-lab] irq-worker start" s)))))).

Lemma worker_section n s w : lab_worker G s w -> rd G g_mode s = 4 -> rd G g_irq_lock s = 0 -> monitor n = true ->
  worker n s = kbind (acquired_loop C G irq monitor fuel fuel (Datatypes.S n) (section_done s))
    (fun _ => modify (say "[lock-lab] irqsave result PASS") ≫= fun _ => halt).
Proof.
  intros Hw Hmode Hl Hmon. destruct (lw_cpu _ _ _ Hw) as (P1 & P2 & P3). pose proof (at_nonnull G HG g_irq_lock) as Hnn.
  unfold irq_worker_thread, modify, get, mbind, K_bind. cbn [kbind]. set (s0 := say _ s).
  assert (R : forall x, rd G x s0 = rd G x s) by done. rewrite R, Hmode. cbn [Z.eqb Pos.eqb].
  unfold spin_lock_irqsave, irq_save. rewrite (proj2 (Z.eqb_neq _ _) Hnn). cbv zeta.
  rewrite raw_lock_free by (done || (rewrite lockv_rd by done; exact Hl)).
  rewrite disable_up by (change (0 <= preempt_cnt (cpu s) < 2 ^ 32 - 1); lia). cbn [kbind]. rewrite store_lock_wr by done.
  rewrite wait_point_masked by (by apply (masked_lor _ (daif s))). cbn [kbind].
  unfold spin_unlock_irqrestore, raw_spin_unlock, modify, mbind, K_bind. rewrite (proj2 (Z.eqb_neq _ _) Hnn). cbn [kbind]. rewrite store_lock_wr by done.
  set (s3 := wr G g_irq_lock 0 (say "[lock-lab] irq-worker locked (irqsave)" (wr G g_irq_worker_holding 1 (wr G g_irq_lock 1 s0)))).
  match goal with |- context [preempt_enable _ ?x] => replace x with (preempt_up s3) by (unfold s3, s0; by destruct s) end.
  rewrite enable_up; [done |]. split; change (cpu s3) with (cpu s); [lia | by left].
Qed.

Lemma isr_done_rd s w x : rd G x (isr_done G s w) = rd G x (wr G g_irq_isr_acquired 1 (wr G g_irq_lock 0 (wr G g_irq_lock 1 s))).
Proof. by apply rd_ram. Qed.

Lemma isr_done_fields s w : out (isr_done G s w) = out s /\ daif (isr_done G s w) = daif s /\ ticks (cpu (isr_done G s w)) = wrap64 (ticks (cpu s) + 1).
Proof. done. Qed.

Lemma wr_fields x v s : out (wr G x v s) = out s /\ daif (wr G x v s) = daif s /\ cpu (wr G x v s) = cpu s.
Proof. done. Qed.

Lemma section_done_fields s : out (section_done s) = out s ++ puts_bytes (chars ("[lock-lab] irq-worker start" ++ newline)) ++
    puts_bytes (chars ("[lock-lab] irq-worker locked (irqsave)" ++ newline)) ++ puts_bytes (chars ("[lock-lab] irq-worker unlocked (irqsave)" ++ newline)) /\
  daif (section_done s) = daif s /\ cpu (section_done s) = cpu s.
Proof.
  unfold section_done. rewrite <- (set_out_id s) at 1 2 3. split; [| done].
  cbn [say puts out set_out LockLab.wr store_var set_ram]. by rewrite <- !app_assoc.
Qed.

Lemma section_done_rd s : rd G g_irq_isr_acquired s = 0 -> rd G g_mode (section_done s) = rd G g_mode s /\
  rd G g_irq_isr_acquired (section_done s) = 0 /\ rd G g_irq_worker_holding (section_done s) = 0 /\ rd G g_irq_lock (section_done s) = 0.
Proof. intros Ha. unfold section_done. read_globals HG. done. Qed.

Lemma section_done_worker s w : lab_worker G s w -> lab_worker G (section_done s) w.
Proof. intros H. unfold section_done. by repeat first [apply lab_worker_say | apply lab_worker_wr]. Qed.

(** The wait of mode 4, from any state in which the section has been left. *)
Lemma wait_passes n j s w : lab_worker G s w -> irqs_masked s = false -> rd G g_mode s = 4 ->
  rd G g_irq_isr_acquired s = 0 -> rd G g_irq_worker_holding s = 0 -> rd G g_irq_lock s = 0 -> monitor 0%nat = true ->
  (j < fuel)%nat -> irq (n + j)%nat = true ->
  exists s', kbind (acquired_loop C G irq monitor fuel fuel n s) (fun _ => modify (say "[lock-lab] irqsave result PASS") ≫= fun _ => halt (A := unit)) = KHalt s' /\
    out s' = out s ++ puts_bytes (chars ("[lock-lab] irqsave result PASS" ++ newline)) /\
    rd G g_irq_lock s' = 0 /\ rd G g_irq_isr_acquired s' = 1 /\ ticks (cpu s') = wrap64 (ticks (cpu s) + 1) /\ daif s' = daif s.
Proof.
  intros Hw Hm R1 R2 R3 R4 Hmon Hj Hirq. rewrite (acquired_loop_spec fuel n j s w) by done.
  exists (say "[lock-lab] irqsave result PASS" (isr_done G s w)). destruct (isr_done_fields s w) as (I1 & I2 & I3).
  destruct (say_fields "[lock-lab] irqsave result PASS" (isr_done G s w)) as (J1 & J2 & J3).
  split; [done |]. rewrite J1, J2, J3, I1, I2, I3, !rd_say, !isr_done_rd. read_globals HG. by repeat split.
Qed.

End Irqsave.


(** without it the timer interrupt deadlocks: in mode 3 the worker reaches
    its loop holding the lock with interrupts enabled, and the next timer
    interrupt, having reported it, waits for a lock that its own interruption
    keeps from being released: for ever, whatever the fuel. *)
Theorem irq_reentrancy_deadlocks C G irq monitor n s w :
  lab_ok G -> lab_worker G s w -> irqs_masked s = false -> rd G g_mode s = 3 -> rd G g_irq_deadlock_reported s = 0 ->
  rd G g_irq_lock s = 0 -> monitor n = true ->
  exists s', (forall fuel, irq_worker_thread C G irq monitor fuel n s = spin_loop C G irq monitor fuel fuel n s') /\
    rd G g_irq_lock s' = 1 /\ irqs_masked s' = false /\
    (forall m fuel, irq m = false -> wait_point C G irq monitor fuel m s' = KDone () s') /\
    (forall m fuel, irq m = true -> wait_point C G irq monitor fuel m s' = KStuck) /\
    let h := in_handler s' in
    (forall fuel, lock_lab_irq_tick G monitor fuel h = isr_lock monitor fuel (at_ G g_irq_lock) (reentrancy_seen G h) /\
       isr_lock monitor fuel (at_ G g_irq_lock) (reentrancy_seen G h) = KStuck) /\
    out (reentrancy_seen G h) = out s ++ puts_bytes (chars ("[lock-lab] irq-worker start" ++ newline)) ++
      puts_bytes (chars ("[lock-lab] irq-worker locked (no irqsave)" ++ newline)) ++
      puts_bytes (chars ("[lock-lab] irq reentrancy deadlock observed (missing irqsave)" ++ newline)).
Proof.
  intros HG Hw Hm Hmode Hr Hl Hmon. destruct (lw_cpu _ _ _ Hw) as (P1 & P2 & P3). pose proof (at_nonnull G HG g_irq_lock) as Hnn.
  set (s0 := say "[lock-lab] irq-worker start" s).
  set (s' := say "[lock-lab] irq-worker locked (no irqsave)" (wr G g_irq_worker_holding 1 (preempt_up (wr G g_irq_lock 1 s0)))).
  assert (R : forall x, rd G x s' = rd G x (wr G g_irq_worker_holding 1 (wr G g_irq_lock 1 s0))) by done.
  assert (T : forall fuel, lock_lab_irq_tick G monitor fuel (in_handler s') = isr_lock monitor fuel (at_ G g_irq_lock) (reentrancy_seen G (in_handler s')) /\
    isr_lock monitor fuel (at_ G g_irq_lock) (reentrancy_seen G (in_handler s')) = KStuck).
  { intros fuel. unfold lock_lab_irq_tick, get, modify, mbind, K_bind. cbn [kbind].
    assert (R2 : forall x, rd G x (in_handler s') = rd G x s') by done. rewrite !R2, !R. unfold s0. read_globals HG. rewrite Hmode, Hr. cbn [Z.eqb Pos.eqb negb kbind].
    split; [done |]. unfold isr_lock. rewrite raw_lock_held; [done | done |]. rewrite lockv_rd by done. unfold reentrancy_seen.
    read_globals HG. rewrite R2, R. unfold s0. by read_globals HG. }
  exists s'. split; [| split; [| split; [done | split; [| split; [| split; [exact T |]]]]]].
  - intros fuel. unfold irq_worker_thread, modify, get, mbind, K_bind. cbn [kbind]. fold s0.
    change (rd G g_mode s0) with (rd G g_mode s). rewrite Hmode. cbn [Z.eqb Pos.eqb].
    rewrite spin_lock_free; [| done | rewrite lockv_rd by done; exact Hl | done | change (0 <= preempt_cnt (cpu s) < 2 ^ 32 - 1); lia].
    cbn [kbind]. by rewrite store_lock_wr by done.
  - rewrite R. by read_globals HG.
  - intros m fuel Hi. unfold wait_point. by rewrite Hi, andb_false_r.
  - intros m fuel Hi. unfold wait_point. rewrite Hi. change (irqs_masked s') with (irqs_masked s). rewrite Hm. cbn [negb andb].
    unfold lab_interrupt, modify, mbind, K_bind. cbn [kbind]. fold (in_handler s'). destruct (T fuel) as [-> ->]. done.
  - assert (O : out (in_handler s') = out s').
    { done. }
    unfold reentrancy_seen. rewrite (proj1 (say_fields _ _)). change (out (wr G ?x ?v ?y)) with (out y). rewrite O. unfold s'. rewrite (proj1 (say_fields _ _)).
    change (out (wr G ?x ?v ?y)) with (out y). change (out (preempt_up ?y)) with (out y). change (out (wr G ?x ?v ?y)) with (out y).
    unfold s0. rewrite (proj1 (say_fields _ _)), <- !app_assoc. done.
Qed.

(** ** The window of modes 1 and 2 *)

(** Queue operations leave memory, console, interrupt mask, priorities and
    stacks alone. *)
Record links_only (s s' : kst) : Prop := {
  lo_ram : ram s' = ram s;
  lo_out : out s' = out s;
  lo_daif : daif s' = daif s;
  lo_thr : forall t, t_effective_priority (thr s' t) = t_effective_priority (thr s t) /\
    t_stack_base (thr s' t) = t_stack_base (thr s t) /\ t_stack_size (thr s' t) = t_stack_size (thr s t)
}.

Lemma links_only_refl s : links_only s s.
Proof. done. Qed.

Lemma links_only_trans s1 s2 s3 : links_only s1 s2 -> links_only s2 s3 -> links_only s1 s3.
Proof.
  intros [A1 A2 A3 A4] [B1 B2 B3 B4]. split; rewrite ?B1, ?B2, ?B3; try done.
  intros t. destruct (B4 t) as (-> & -> & ->). apply A4.
Qed.

Lemma links_only_upd a f s :
  (forall x, t_effective_priority (f x) = t_effective_priority x /\ t_stack_base (f x) = t_stack_base x /\ t_stack_size (f x) = t_stack_size x) ->
  links_only s (upd_thr a f s).
Proof. intros H. split; try done. intros t. rewrite thr_upd. destruct (a =? t); [apply H | done]. Qed.

Lemma links_only_then s s1 s2 : links_only s1 s2 -> links_only s s1 -> links_only s s2.
Proof. intros H1 H2. by apply (links_only_trans s s1). Qed.

(** One step of the code at a time, from the last back to the first. *)
Ltac links := repeat first
  [ apply links_only_refl | assumption
  | match goal with |- links_only ?s (upd_thr ?a ?f ?x) => apply (links_only_then s x); [by apply links_only_upd |] end
  | match goal with |- links_only ?s (set_next ?a ?f ?x) => apply (links_only_then s x); [by apply links_only_upd |] end
  | match goal with |- links_only ?s (set_rq_head ?a ?x) => apply (links_only_then s x); [done |] end
  | match goal with |- links_only ?s (set_rq_tail ?a ?x) => apply (links_only_then s x); [done |] end
  | match goal with |- links_only ?s (upd_sem ?a ?f ?x) => apply (links_only_then s x); [done |] end
  | match goal with |- links_only ?s (upd_cpu ?f ?x) => apply (links_only_then s x); [done |] end
  | match goal with |- links_only ?s (if ?b then ?x else ?y) => destruct b end ].

Lemma make_runnable_links t s : links_only s (sched_make_runnable t s).
Proof. unfold sched_make_runnable, rq_append. cbv zeta. links. Qed.

Lemma pop_links h s b h' s' : waitq_pop_highest h s = Some (b, h', s') -> links_only s s'.
Proof.
  unfold waitq_pop_highest. destruct (h =? nullptr); [by intros [= <- <- <-] |].
  destruct (pop_scan _ _ _ _ _ _ _) as [[x y] |]; cbn [mbind option_bind]; [| done].
  destruct (negb (y =? nullptr)); intros [= <- <- <-]; links.
Qed.

Lemma sem_release_links a s s' : sem_release a s = Some s' -> links_only s s'.
Proof.
  unfold sem_release. set (s1 := sem_add a 1 s). assert (H1 : links_only s s1) by done.
  destruct (count (sem s1 a) <=? 0); [| by intros [= <-]].
  destruct (waitq_pop_highest _ s1) as [[[b h'] s2] |] eqn:E; cbn [mbind option_bind]; [| done]. apply pop_links in E.
  assert (H2 : links_only s (sem_set_waiters a h' s2)) by (apply (links_only_trans s s1); [done | by apply (links_only_trans s1 s2)]).
  destruct (negb (b =? nullptr)); intros [= <-]; [| done]. set (s3 := sched_make_runnable _ _).
  assert (H3 : links_only s s3) by (eapply links_only_trans; [exact H2 | apply make_runnable_links]).
  destruct (_ && _); [| done]. apply (links_only_trans s s3); [done | done].
Qed.

(** A pending request is served where preemption is enabled again: the best
    queued thread gets the processor. *)
Lemma enable_to_best C s l n :
  sched_policy_prio C = true -> sched_inv s l -> cur s <> nullptr -> preempt_cnt (cpu s) = 1 -> need_resched (cpu s) = 1 -> irq_depth (cpu s) = 0 ->
  n ∈ l -> n <> cur s -> (forall u, u ∈ l -> u <> n -> t_effective_priority (thr s u) < t_effective_priority (thr s n)) ->
  switches_to (set_resched kNeedReschedNone) (upd_cpu (set_preempt_cnt 0) s) n (enable C s).
Proof.
  intros HC H Hc Hp Hn Hi Hin Hne Hbest. unfold enable. rewrite preempt_enable_one, HC, Hn, Hi by done. cbn [Z.eqb negb andb].
  set (s0 := upd_cpu (set_preempt_cnt 0) s).
  assert (H0 : sched_inv s0 l) by (by apply (sched_inv_same s)).
  destruct (resched_spec s0 l H0 Hc) as (_ & _ & R). destruct R as (b & (Hb & _ & Hmax) & _ & _ & R); [done | intros ->; by apply not_elem_of_nil in Hin |].
  assert (b = n) as ->.
  { destruct (Z.eq_dec b n) as [| Hbn]; [done |]. specialize (Hbest b Hb Hbn). specialize (Hmax n Hin).
    change (thr s0) with (thr s) in Hmax. assert (Hr : is_ready s0 n = true) by (by apply (sched_inv_ready s0 l)). specialize (Hmax Hr). lia. }
  by rewrite (proj2 (Z.eqb_neq n (cur s0)) Hne) in R.
Qed.

Section Window.

Context (C : config) (HC : sched_policy_prio C = true).

(** [sem_up] with one waiter of greater priority than the caller. *)
Lemma sem_up_wakes s l wqs sq own a hi :
  sync_inv s l wqs sq own -> cur s <> nullptr -> a <> nullptr -> - 2 ^ 31 <= count (sem s a) < 0 -> sq a = [hi] ->
  t_effective_priority (thr s (cur s)) < t_effective_priority (thr s hi) -> 0 <= preempt_cnt (cpu s) < 2 ^ 32 - 1 ->
  exists s', sem_up C a s = enable C s' /\ links_only s s' /\ sync_inv s' (l ++ [hi]) wqs (fupd sq a []) own /\
    cpu s' = set_need_resched 1 (cpu (preempt_up s)).
Proof.
  intros H Hc Ha Hn Hq Hp Hcnt. unfold sem_up. rewrite (proj2 (Z.eqb_neq _ _) Ha). unfold modify_opt, mbind, K_bind. rewrite disable_up by done. cbn [kbind].
  assert (Hu : sync_inv (preempt_up s) l wqs sq own) by (by apply (sync_inv_same s)).
  destruct (sem_release_spec (preempt_up s) l wqs sq own a Hu Hc) as (s' & E & _ & Hcase); [change (sem (preempt_up s) a) with (sem s a); lia |].
  rewrite E. cbn [kbind]. exists s'. split; [done |]. apply sem_release_links in E.
  split; [by apply (links_only_trans s (preempt_up s)) |].
  destruct Hcase as [([Hge | Hnil] & _) | (_ & l1 & x & l2 & Hsq & _ & _ & Hinv & Hcpu)].
  - change (sem (preempt_up s) a) with (sem s a) in Hge. lia.
  - by rewrite Hq in Hnil.
  - rewrite Hq in Hsq. destruct l1 as [|y l1]; [| destruct l1; done]. injection Hsq as <- <-. split; [exact Hinv |].
    rewrite Hcpu. change (thr (preempt_up s)) with (thr s). change (cur (preempt_up s)) with (cur s). by rewrite (proj2 (Z.ltb_lt _ _) Hp).
Qed.

Lemma enable_two s : preempt_cnt (cpu s) = 2 -> enable C s = KDone () (upd_cpu (set_preempt_cnt 1) s).
Proof.
  intros H. unfold enable, preempt_enable, get, modify, mbind, K_bind, mret, K_ret. cbn [kbind]. rewrite H. cbn [Z.eqb kbind].
  change (wrap32 (2 - 1)) with 1. done.
Qed.

Context (G : lab_cfg) (HG : lab_ok G) (irq monitor : nat -> bool).

(** The low-priority thread runs, the high-priority one waits on the semaphore. *)
Record low_runs (s : kst) (lo hi : Z) (l : list Z) (wqs sq own : Z -> list Z) : Prop := {
  lr_sync : sync_inv s l wqs sq own;
  lr_cur : cur s = lo /\ lo <> nullptr /\ lo <> hi;
  lr_cpu : preempt_cnt (cpu s) = 0 /\ need_resched (cpu s) = 0 /\ irq_depth (cpu s) = 0 /\ 0 <= ticks (cpu s) < 2 ^ 62;
  lr_sem : - 2 ^ 31 <= count (sem s (g_preempt_start G)) < 0 /\ sq (g_preempt_start G) = [hi];
  lr_prio : t_effective_priority (thr s lo) < t_effective_priority (thr s hi);
  lr_best : forall u, u ∈ l -> t_effective_priority (thr s u) < t_effective_priority (thr s hi);
  lr_bytes : mem_bytes (ram s);
  lr_guard : thread_guard_ok s lo = true;
  lr_stack : 0 < t_stack_base (thr s lo) /\ 0 < t_stack_size (thr s lo);
  lr_apart : forall x, at_ G x + Z.of_nat (width x) <= t_stack_base (thr s lo) \/ t_stack_base (thr s lo) + t_stack_size (thr s lo) <= at_ G x
}.

Lemma low_runs_same s s' lo hi l wqs sq own : low_runs s lo hi l wqs sq own ->
  threads s' = threads s -> mutexes s' = mutexes s -> sems s' = sems s -> rq_head s' = rq_head s -> rq_tail s' = rq_tail s -> cpu s' = cpu s ->
  mem_bytes (ram s') -> (forall a, t_stack_base (thr s lo) <= a < t_stack_base (thr s lo) + t_stack_size (thr s lo) -> ld8 (ram s) a = ld8 (ram s') a) ->
  low_runs s' lo hi l wqs sq own.
Proof.
  intros [] Et Em Es Eh El Ec Hb Ha. assert (T : forall t, thr s' t = thr s t) by (intros t; unfold thr; by rewrite Et).
  split; rewrite ?T, ?Ec; try done.
  - apply (sync_inv_same s); try done. unfold cur. by rewrite Ec.
  - unfold cur. by rewrite Ec.
  - unfold sem. by rewrite Es.
  - intros u Hu. rewrite T. by apply lr_best0.
  - destruct lr_stack0, lr_cur0 as (? & ? & ?). by apply (guard_ok_same s).
Qed.

Lemma low_runs_wr s lo hi l wqs sq own x v : low_runs s lo hi l wqs sq own -> low_runs (wr G x v s) lo hi l wqs sq own.
Proof.
  intros H. apply (low_runs_same s); try done.
  - apply wr_bytes, H.
  - intros a Ha. unfold wr, store_var. cbn [ram set_ram]. rewrite ld8_st_le; [done |]. pose proof (lr_apart _ _ _ _ _ _ _ H x). lia.
Qed.

Lemma low_runs_say s lo hi l wqs sq own m : low_runs s lo hi l wqs sq own -> low_runs (say m s) lo hi l wqs sq own.
Proof. intros H. apply (low_runs_same s); try done. apply H. Qed.

(** The low-priority thread holds the lock. *)
Definition low_holds (s : kst) : kst :=
  say "[lock-lab] L locked" (wr G g_low_locked 1 (wr G g_preempt_lock 1 (wr G g_low_unlocked 0 (wr G g_low_locked 0 (say "[lock-lab] L start" s))))).

Lemma low_holds_runs s lo hi l wqs sq own : low_runs s lo hi l wqs sq own -> low_runs (low_holds s) lo hi l wqs sq own.
Proof. intros H. unfold low_holds. by repeat first [apply low_runs_say | apply low_runs_wr]. Qed.

Lemma low_holds_rd s : rd G g_mode (low_holds s) = rd G g_mode s /\ rd G g_preempt_lock (low_holds s) = 1 /\
  rd G g_low_locked (low_holds s) = 1 /\ rd G g_low_unlocked (low_holds s) = 0.
Proof. unfold low_holds. by read_globals HG. Qed.

(** ** The hold loop of mode 2 *)

(** What is kept while the thread holds a [spinlock] and the timer ticks. *)
Record held (s : kst) (c : Z) : Prop := {
  hd_cur : cur s = c /\ c <> nullptr;
  hd_cpu : preempt_cnt (cpu s) = 1 /\ irq_depth (cpu s) = 0;
  hd_guard : thread_guard_ok s c = true;
  hd_mode : rd G g_mode s = 2
}.

Definition ticked (v : Z) (s : kst) : kst := upd_cpu (set_ticks v) s.

Lemma held_ticked s c v : held s c -> held (ticked v s) c.
Proof. intros []. split; try done. Qed.

Lemma interrupt_held fuel s c : held s c -> lab_interrupt C G monitor fuel s = KDone () (ticked (wrap64 (ticks (cpu s) + 1)) s).
Proof.
  intros [[H1 H2] [H3 H4] H5 H6]. unfold lab_interrupt, modify, mbind, K_bind. cbn [kbind]. fold (in_handler s). set (h := in_handler s).
  assert (R : rd G g_mode h = 2) by (by rewrite <- H6). unfold lock_lab_irq_tick, get, modify, mbind, K_bind, mret, K_ret. cbn [kbind]. rewrite R. cbn [Z.eqb Pos.eqb kbind].
  unfold sched_on_tick, get, modify, mbind, K_bind, mret, K_ret. cbn [kbind]. change (cur h) with (cur s). rewrite H1, (proj2 (Z.eqb_neq _ _) H2).
  change (thread_guard_ok h c) with (thread_guard_ok s c). rewrite H5. change (preempt_cnt (cpu h)) with (preempt_cnt (cpu s)). rewrite H3. cbn [Z.eqb negb kbind].
  change (preempt_cnt (cpu (upd_cpu (fun c => set_irq_depth (wrap32 (irq_depth c - 1)) c) h))) with (preempt_cnt (cpu s)). rewrite H3. cbn [Z.eqb andb].
  f_equal. unfold h, in_handler, ticked. destruct s as [? ? ? ? ? ? ? ? [] ? ? ? ? ? ?]. cbn in *. subst. done.
Qed.

(** Interrupts among the [k] waiting points from [n] on. *)
Fixpoint arrivals (k n : nat) : nat :=
  match k with O => O | Datatypes.S k' => ((if irq n then 1 else 0) + arrivals k' (Datatypes.S n))%nat end.

Lemma hold_loop_spec fuel c k : forall n s t0, held s c -> irqs_masked s = false -> 0 <= t0 -> t0 <= ticks (cpu s) <= t0 + 10 -> t0 + 10 < 2 ^ 63 ->
  (t0 + 10 - ticks (cpu s) <= Z.of_nat (arrivals k n)) ->
  exists n', hold_loop C G irq monitor fuel k t0 n s = KDone n' (ticked (t0 + 10) s).
Proof.
  induction k as [|k IH]; intros n s t0 H Hm H0 Ht Hmax Ha; cbn [hold_loop].
  - cbn [arrivals] in Ha. rewrite wrap64_small by lia. assert (E : ticks (cpu s) = t0 + 10) by lia. rewrite (proj2 (Z.ltb_ge _ _)) by lia.
    exists n. unfold ticked. rewrite <- E. by destruct s as [? ? ? ? ? ? ? ? [] ? ? ? ? ? ?].
  - rewrite wrap64_small by lia. destruct (Z.ltb_spec (ticks (cpu s) - t0) 10) as [Hlt | Hge].
    + unfold wait_point. rewrite Hm. cbn [negb andb]. cbn [arrivals] in Ha. destruct (irq n).
      * rewrite (interrupt_held fuel s c) by done. cbn [kbind]. rewrite wrap64_small by lia.
        destruct (IH (Datatypes.S n) (ticked (ticks (cpu s) + 1) s) t0) as [n' E]; [by apply held_ticked | done | done | cbn; lia | done | cbn; lia |].
        exists n'. rewrite E. done.
      * cbn [kbind]. apply IH; done || lia.
    + exists n. unfold ticked. replace (t0 + 10) with (ticks (cpu s)) by lia. by destruct s as [? ? ? ? ? ? ? ? [] ? ? ? ? ? ?].
Qed.

End Window.

Section Preempt.

Context (C : config) (HC : sched_policy_prio C = true) (G : lab_cfg) (HG : lab_ok G) (irq monitor : nat -> bool) (fuel : nat).

Abbreviation low := (preempt_low_thread C G irq monitor fuel).

(** The high-priority thread gets the processor at the end of a critical
    section in state [s']. *)
Lemma wakes_hi s s' lo hi l wqs sq own :
  low_runs G s lo hi l wqs sq own -> (forall t, t_effective_priority (thr s' t) = t_effective_priority (thr s t)) ->
  cur s' = lo -> preempt_cnt (cpu s') = 1 -> need_resched (cpu s') = 1 -> irq_depth (cpu s') = 0 ->
  sched_inv s' (l ++ [hi]) -> exists k, enable C s' = KSwitch lo hi (switched hi (upd_cpu (set_preempt_cnt 0) s')) k.
Proof.
  intros [_ (_ & L1 & L2) _ _ P1 P2 _ _ _ _] Q Hc Hp Hn Hi Hs.
  destruct (enable_to_best C s' (l ++ [hi]) hi HC Hs) as (k & E & _); [by rewrite Hc | done | done | done | apply elem_of_app; right; by left | by rewrite Hc; intros -> | |].
  - intros u Hu Hne. rewrite !Q. apply elem_of_app in Hu as [Hu | ->%list_elem_of_singleton]; [by apply P2 | done].
  - exists k. rewrite E. change (cur (upd_cpu (set_preempt_cnt 0) s')) with (cur s'). by rewrite Hc.
Qed.

Lemma low_raw s n lo hi l wqs sq own : low_runs G s lo hi l wqs sq own -> rd G g_mode s = 1 -> rd G g_preempt_lock s = 0 -> monitor n = true ->
  exists s' k, low n s = KSwitch lo hi (switched hi (upd_cpu (set_preempt_cnt 0) s')) k /\ links_only (low_holds G s) s'.
Proof.
  intros H Hm Hl Hmon. pose proof (at_nonnull G HG g_preempt_lock) as Hnn. pose proof (low_holds_runs G s _ _ _ _ _ _ H) as HR.
  pose proof (low_holds_rd G HG s) as (Rm & _). unfold preempt_low_thread, modify, mbind, K_bind. cbn [kbind].
  set (s0 := wr G g_low_unlocked 0 (wr G g_low_locked 0 (say "[lock-lab] L start" s))).
  unfold lab_lock, get, mbind, K_bind. cbn [kbind]. assert (R0 : rd G g_mode s0 = 1) by (rewrite <- Hm; unfold s0; by read_globals HG).
  assert (R1 : rd G g_preempt_lock s0 = 0) by (rewrite <- Hl; unfold s0; by read_globals HG).
  rewrite R0, Z.eqb_refl. unfold raw_lock. rewrite raw_lock_free by (done || by rewrite lockv_rd). cbn [kbind]. rewrite store_lock_wr by done.
  change (say _ (wr G g_low_locked 1 _)) with (low_holds G s). destruct (lr_cpu _ _ _ _ _ _ _ _ HR) as (P1 & P2 & P3 & P4).
  pose proof (lr_cur _ _ _ _ _ _ _ _ HR) as (L1 & L2 & L3). pose proof (lr_sem _ _ _ _ _ _ _ _ HR) as [S1 S2]. pose proof (lr_prio _ _ _ _ _ _ _ _ HR) as L4. rewrite <- L1 in L4.
  destruct (sem_up_wakes C (low_holds G s) l wqs sq own (g_preempt_start G) hi (lr_sync _ _ _ _ _ _ _ _ HR)) as (s' & E & Hlo & Hinv & Hcpu);
    [by rewrite L1 | apply HG | done | done | done | rewrite P1; lia |].
  destruct (wakes_hi (low_holds G s) s' lo hi l wqs sq own HR) as [k Hk]; [intros t; apply Hlo | | | | | apply (yi_sched _ _ _ _ _ Hinv) |].
  - unfold cur in *. rewrite Hcpu. exact L1.
  - rewrite Hcpu. change (preempt_cnt (cpu (low_holds G s)) + 1 = 1). by rewrite P1.
  - by rewrite Hcpu.
  - by rewrite Hcpu.
  - rewrite E, Hk. cbn [kbind]. eexists _, _. split; [reflexivity | exact Hlo].
Qed.

(** In mode 2 it keeps preemption disabled from the acquisition on. *)
Lemma low_spin_sem s lo hi l wqs sq own : low_runs G s lo hi l wqs sq own -> rd G g_mode s = 2 ->
  exists s1, sem_up C (g_preempt_start G) (preempt_up s) = KDone () s1 /\ links_only s s1 /\ held G s1 lo /\
    cpu s1 = set_need_resched 1 (set_preempt_cnt 1 (cpu s)) /\ sched_inv s1 (l ++ [hi]).
Proof.
  intros HR Hm. destruct (lr_cpu _ _ _ _ _ _ _ _ HR) as (P1 & P2 & P3 & P4).
  pose proof (lr_cur _ _ _ _ _ _ _ _ HR) as (L1 & L2 & L3). pose proof (lr_sem _ _ _ _ _ _ _ _ HR) as [S1 S2]. pose proof (lr_prio _ _ _ _ _ _ _ _ HR) as L4. rewrite <- L1 in L4.
  assert (U : sync_inv (preempt_up s) l wqs sq own) by (apply (sync_inv_same s); try done; apply HR).
  assert (C1 : preempt_cnt (cpu (preempt_up s)) = 1) by (change (preempt_cnt (cpu s) + 1 = 1); lia).
  destruct (sem_up_wakes C (preempt_up s) l wqs sq own (g_preempt_start G) hi U) as (s' & E & Hlo & Hinv & Hcpu);
    [change (cur s <> nullptr); by rewrite L1 | apply HG | done | done | done | rewrite C1; lia |].
  exists (upd_cpu (set_preempt_cnt 1) s'). assert (Hcpu' : cpu (upd_cpu (set_preempt_cnt 1) s') = set_need_resched 1 (set_preempt_cnt 1 (cpu s))).
  { change (set_preempt_cnt 1 (cpu s') = set_need_resched 1 (set_preempt_cnt 1 (cpu s))). by rewrite Hcpu. }
  rewrite E, enable_two by (rewrite Hcpu; change (preempt_cnt (cpu (preempt_up s)) + 1 = 2); lia).
  destruct Hlo as [Q1 Q2 Q3 Q4]. split; [done | split; [by split | split; [| split; [exact Hcpu' |]]]].
  - split.
    + unfold cur in *. rewrite Hcpu'. by split.
    + by rewrite Hcpu'.
    + destruct (Q4 lo) as (_ & T2 & T3). pose proof (lr_guard _ _ _ _ _ _ _ _ HR) as Hg. rewrite guard_ok_thread in Hg |- * by done.
      change (thr (upd_cpu (set_preempt_cnt 1) s') lo) with (thr s' lo). change (ram (upd_cpu (set_preempt_cnt 1) s')) with (ram s'). by rewrite T2, T3, Q1.
    + rewrite <- Hm. by apply rd_ram.
  - apply (sched_inv_same s'); try done. apply Hinv.
Qed.

Lemma low_spin s n lo hi l wqs sq own : low_runs G s lo hi l wqs sq own -> rd G g_mode s = 2 -> rd G g_preempt_lock s = 0 -> monitor n = true ->
  irqs_masked s = false -> (10 <= arrivals irq fuel n)%nat ->
  exists s1 k, low n s = KSwitch lo hi (switched hi (upd_cpu (set_preempt_cnt 0)
      (wr G g_preempt_lock 0 (say "[lock-lab] L unlocking" (ticked (ticks (cpu s) + 10) s1))))) k /\ links_only (low_holds G s) s1.
Proof.
  intros H Hm Hl Hmon Hmask Harr. pose proof (at_nonnull G HG g_preempt_lock) as Hnn. pose proof (low_holds_runs G s _ _ _ _ _ _ H) as HR.
  pose proof (low_holds_rd G HG s) as (Rm & _). rewrite Hm in Rm. unfold preempt_low_thread, modify, mbind, K_bind. cbn [kbind].
  set (s0 := wr G g_low_unlocked 0 (wr G g_low_locked 0 (say "[lock-lab] L start" s))).
  unfold lab_lock, get, mbind, K_bind. cbn [kbind]. assert (R0 : rd G g_mode s0 = 2) by (rewrite <- Hm; unfold s0; by read_globals HG).
  assert (R1 : rd G g_preempt_lock s0 = 0) by (rewrite <- Hl; unfold s0; by read_globals HG).
  destruct (lr_cpu _ _ _ _ _ _ _ _ H) as (P1 & P2 & P3 & P4).
  rewrite R0. cbn [Z.eqb Pos.eqb]. rewrite spin_lock_free; [| done | by rewrite lockv_rd | done | change (0 <= preempt_cnt (cpu s) < 2 ^ 32 - 1); lia].
  cbn [kbind]. rewrite store_lock_wr by done.
  change (say _ (wr G g_low_locked 1 (preempt_up (wr G g_preempt_lock 1 s0)))) with (preempt_up (low_holds G s)).
  destruct (low_spin_sem (low_holds G s) lo hi l wqs sq own HR Rm) as (s1 & E & Q & Hh & Hcpu & Hs). rewrite E. cbn [kbind].
  change (cpu (low_holds G s)) with (cpu s) in Hcpu. assert (T : ticks (cpu s1) = ticks (cpu s)) by (by rewrite Hcpu).  rewrite T.
  destruct (hold_loop_spec C G irq monitor fuel lo fuel n s1 (ticks (cpu s)) Hh) as [n' ->];
    [unfold irqs_masked; rewrite (lo_daif _ _ Q); exact Hmask | lia | lia | lia | lia |].
  cbn [kbind]. unfold lab_unlock, get, mbind, K_bind. cbn [kbind]. set (s2 := say "[lock-lab] L unlocking" (ticked (ticks (cpu s) + 10) s1)).
  assert (R2 : rd G g_mode s2 = 2) by (rewrite <- (hd_mode _ _ _ Hh); by apply rd_ram). rewrite R2. cbn [Z.eqb Pos.eqb].
  unfold spin_unlock, raw_spin_unlock, modify, mbind, K_bind. rewrite (proj2 (Z.eqb_neq _ _) Hnn). cbn [kbind]. rewrite store_lock_wr by done.
  change (preempt_enable (sched_policy_prio C)) with (enable C).
  destruct (wakes_hi (low_holds G s) (wr G g_preempt_lock 0 s2) lo hi l wqs sq own HR) as [k Hk].
  - intros t. apply (lo_thr _ _ Q).
  - apply Hh.
  - change (preempt_cnt (cpu s1) = 1). apply Hh.
  - change (need_resched (cpu s1) = 1). by rewrite Hcpu.
  - change (irq_depth (cpu s1) = 0). apply Hh.
  - by apply (sched_inv_same s1).
  - rewrite Hk. cbn [kbind]. exists s1. eexists. split; [reflexivity | exact Q].
Qed.

End Preempt.

(** the preemption demonstration.  The low-priority thread takes the lock
    and then releases the high-priority one.  With a raw lock (mode 1) the
    processor goes to the high-priority thread while the lock is held: its attempt
    to take it never returns, whatever interrupts do short of running the holder.
    With [spin_lock] (mode 2) the holder keeps the processor, through ten timer
    ticks, until the lock is free again: the other thread then takes it at once. *)
Theorem preempt_lab_window C G irq monitor fuel n s lo hi l wqs sq own :
  sched_policy_prio C = true -> lab_ok G -> low_runs G s lo hi l wqs sq own -> rd G g_preempt_lock s = 0 -> monitor n = true ->
  (rd G g_mode s = 1 ->
   exists s' k, preempt_low_thread C G irq monitor fuel n s = KSwitch lo hi s' k /\ cur s' = hi /\
     rd G g_preempt_lock s' = 1 /\ rd G g_low_locked s' = 1 /\ rd G g_low_unlocked s' = 0 /\
     forall env fuel' m, (forall j, lockv (at_ G g_preempt_lock) (traj env j m s') <> 0) -> raw_spin_lock env monitor fuel' (at_ G g_preempt_lock) m s' = None) /\
  (rd G g_mode s = 2 -> irqs_masked s = false -> (10 <= arrivals irq fuel n)%nat ->
   exists s' k, preempt_low_thread C G irq monitor fuel n s = KSwitch lo hi s' k /\ cur s' = hi /\
     rd G g_preempt_lock s' = 0 /\ rd G g_low_locked s' = 1 /\ ticks (cpu s') = ticks (cpu s) + 10 /\ preempt_cnt (cpu s') = 0 /\
     forall env fuel' m, monitor m = true -> spin_lock env monitor true fuel' (at_ G g_preempt_lock) m s' = KDone m (preempt_up (wr G g_preempt_lock 1 s'))).
Proof.
  intros HC HG H Hl Hmon. pose proof (at_nonnull G HG g_preempt_lock) as Hnn. pose proof (low_holds_rd G HG s) as (_ & R1 & R2 & R3).
  assert (SW : forall x m s1, rd G x (switched hi (upd_cpu (set_preempt_cnt m) s1)) = rd G x s1).
  { intros x m s1. apply rd_ram. unfold switched, fpsimd_save. by destruct (_ =? _). }
  split.
  - intros Hm. destruct (low_raw C HC G HG irq monitor fuel s n lo hi l wqs sq own H Hm Hl Hmon) as (s1 & k & E & Q).
    eexists _, k. split; [exact E |]. rewrite !SW, !(rd_ram G _ (low_holds G s) s1) by apply Q. split; [done | split; [done | split; [done | split; [done |]]]].
    intros env fuel' m Hj. unfold raw_spin_lock. rewrite (proj2 (Z.eqb_neq _ _) Hnn). by apply raw_loop_stuck.
  - intros Hm Hmask Harr. destruct (low_spin C HC G HG irq monitor fuel s n lo hi l wqs sq own H Hm Hl Hmon Hmask Harr) as (s1 & k & E & Q).
    eexists _, k. split; [exact E |]. set (s2 := ticked _ s1) in *.
    assert (RW : forall x, rd G x s2 = rd G x (low_holds G s)) by (intros x; apply rd_ram, Q).
    assert (CP : cpu (switched hi (upd_cpu (set_preempt_cnt 0) (wr G g_preempt_lock 0 (say "[lock-lab] L unlocking" s2)))) =
      set_current_thread hi (set_preempt_cnt 0 (cpu s2))).
    { unfold switched. cbn [upd_cpu set_cpu cpu]. by rewrite cpu_save. }
    split; [done |]. rewrite CP, !SW. read_globals HG. rewrite !RW. split; [done | split; [done | split; [done | split; [done |]]]].
    intros env fuel' m Hmm. rewrite spin_lock_free; [by rewrite store_lock_wr | done | rewrite lockv_rd by done; rewrite SW; by read_globals HG | done |].
    rewrite CP. cbn. lia.
Qed.

(** ** Setting the demonstrations up *)

Section Setup.

Context (C : config) (G : lab_cfg) (HG : lab_ok G).

Abbreviation globals_apart := (globals_apart (at_ G) width).

(** What [reset_globals] and the messages before it leave. *)
Record globals_reset (mode : Z) (s : kst) : Prop := {
  gr_mode : rd G g_mode s = mode;
  gr_flags : forall x, x <> g_mode -> rd G x s = 0;
  gr_sem : sem s (g_preempt_start G) = Semaphore 0 nullptr
}.

Definition lab_reset (mode : Z) (s : kst) : kst :=
  reset_globals G (puts newline (print_u64 mode (puts "[lock-lab] mode=" (say "[lock-lab] setup" (wr G g_mode mode s))))).

Lemma reset_eq s : reset_globals G s =
  wr G g_irq_deadlock_reported 0 (wr G g_irq_isr_acquired 0 (wr G g_irq_worker_holding 0 (wr G g_irq_lock 0
    (wr G g_deadlock_reported 0 (wr G g_high_start_tick 0 (wr G g_high_acquired 0 (wr G g_high_started 0 (wr G g_low_unlocked 0 (wr G g_low_locked 0
      (upd_sem (g_preempt_start G) (fun _ => Semaphore 0 nullptr) (wr G g_preempt_lock 0 s))))))))))).
Proof.
  unfold reset_globals, sem_init, spin_init, raw_spin_init. cbv zeta.
  rewrite !(proj2 (Z.eqb_neq _ _) (at_nonnull G HG _)), (proj2 (Z.eqb_neq _ _) (lk_sem G HG)), !store_lock_wr by done. done.
Qed.

Lemma reset_globals_spec s free : booting C s free [] [] -> globals_apart s free [] ->
  let s' := reset_globals G s in booting C s' free [] [] /\ rd G g_mode s' = rd G g_mode s /\ heap s' = heap s /\
  (forall x, x <> g_mode -> rd G x s' = 0) /\ sem s' (g_preempt_start G) = Semaphore 0 nullptr.
Proof.
  intros HB HA. rewrite reset_eq. cbv zeta.
  assert (R2 : forall x, rd G x (upd_sem (g_preempt_start G) (fun _ => Semaphore 0 nullptr) (wr G g_preempt_lock 0 s)) = rd G x (wr G g_preempt_lock 0 s))
    by (intros x; by apply rd_ram).
  split; [| split; [| split; [done | split]]].
  - repeat (apply booting_store; [| exact HA]). by apply (booting_objects C (wr G g_preempt_lock 0 s)); [apply booting_store | ..].
  - read_globals HG. rewrite R2. by read_globals HG.
  - intros x Hx. destruct x; try done; read_globals HG; rewrite ?R2; read_globals HG; done.
  - unfold sem, upd_sem, wr, store_var. cbn [sems set_sems set_ram]. by rewrite lookup_insert_eq.
Qed.

Lemma reset_spec mode s free : 0 <= mode < 2 ^ 32 -> booting C s free [] [] -> globals_apart s free [] ->
  let s' := lab_reset mode s in booting C s' free [] [] /\ globals_reset mode s' /\ heap s' = heap s.
Proof.
  intros Hmode HB HA. unfold lab_reset.
  assert (H : forall s1, booting C s1 free [] [] -> rd G g_mode s1 = mode -> heap s1 = heap s ->
    booting C (reset_globals G s1) free [] [] /\ globals_reset mode (reset_globals G s1) /\ heap (reset_globals G s1) = heap s).
  { intros s1 B1 R1 E1. destruct (reset_globals_spec s1 free B1) as (X1 & X2 & X3 & X4 & X5); [by apply (globals_apart_nil (at_ G) width s) |].
    rewrite X3, E1. split; [done | split; [| done]]. split; [by rewrite X2 | done | done]. }
  apply H; [| | done].
  - unfold say, puts, print_u64. repeat apply booting_out. by apply booting_store.
  - change (rd G g_mode (wr G g_mode mode s) = mode). by apply rd_wr_eq.
Qed.

End Setup.

(** modes 1 and 2 are set up as described: the two threads, of priorities 5
    and 20, are queued in that order with fresh stacks, every flag, both locks and
    the semaphore are reset, and the scheduler starts the high-priority thread. *)
Theorem lock_lab_setup_preempt C G s free mode :
  booting C s free [] [] -> lab_ok G -> globals_apart (at_ G) width s free [] -> sched_policy_prio C = true ->
  low_entry G <> 0 -> high_entry G <> 0 -> 0 <= trampoline C < 2 ^ 64 ->
  Kmem.cur (heap s) + 2 * spawn_cost 16384 <= kend (heap s) -> mode = 1 \/ mode = 2 ->
  exists lo hi s' free' k, lock_lab_setup C G mode s = KDone () s' /\ booting C s' free' [hi; lo] [lo; hi] /\ lo <> hi /\
    t_entry (thr s' lo) = low_entry G /\ t_effective_priority (thr s' lo) = 5 /\
    t_entry (thr s' hi) = high_entry G /\ t_effective_priority (thr s' hi) = 20 /\
    globals_reset G mode s' /\ sched_start true s' = KSwitch nullptr hi (started hi s') k.
Proof.
  intros HB HG HA HC He1 He2 Htr Hroom Hmode.
  destruct (reset_spec C G HG mode s free) as (B0 & [G1 G2 G3] & E0); [destruct Hmode; lia | done | done |].
  set (s0 := lab_reset G mode s) in *. assert (A0 : globals_apart (at_ G) width s0 free []) by (by apply (globals_apart_nil (at_ G) width s)).
  assert (S0 : 0 < spawn_cost 16384) by (unfold spawn_cost, thread_cost, sizeof_Thread, alignof_Thread; lia).
  destruct (spawn_globals C (at_ G) width s0 free (low_entry G) nullptr 16384 5 [] [] B0 A0 He1) as (lo & s1 & f1 & E1 & N1 & _ & B1 & C1 & K1 & _ & (_ & M1 & _) & A1 & R1 & H1 & Q1);
    [lia | lia | done | rewrite E0; lia |].
  destruct (spawn_globals C (at_ G) width s1 f1 (high_entry G) nullptr 16384 20 [lo] [] B1 A1 He2) as (hi & s2 & f2 & E2 & N2 & L2 & B2 & C2 & K2 & T2 & (_ & M2 & _) & _ & R2 & _ & _);
    [lia | lia | done | rewrite Q1, E0; rewrite E0 in H1; lia |].
  assert (Hne : lo <> hi) by (intros ->; apply L2; by left). destruct C1 as (C11 & _ & _ & _ & _ & C16 & C17 & _), C2 as (C21 & _ & _ & _ & _ & C26 & C27 & _).
  pose proof (T2 lo Hne) as T2'. rewrite <- T2' in C11, C16, C17.
  assert (K1' : threads s2 !! lo <> None) by (intros E; unfold thr in C11; rewrite E in C11; apply He1; by rewrite <- C11).
  destruct (sched_add_spec C s2 f2 [hi; lo] [] lo B2) as (B3 & x3 & T3 & K3 & S3); [right; by left | apply not_elem_of_nil | done | done | done |].
  set (s3 := sched_add lo s2) in *. change ([] ++ [lo]) with [lo] in B3.
  destruct (sched_add_spec C s3 f2 [hi; lo] [lo] hi B3) as (B4 & x4 & T4 & K4 & S4);
    [by left | by intros ->%list_elem_of_singleton | done | by apply K3 | by rewrite T3 |].
  set (s4 := sched_add hi s3) in *. change ([lo] ++ [hi]) with [lo; hi] in B4.
  assert (T : forall u, t_entry (thr s4 u) = t_entry (thr s2 u) /\ t_effective_priority (thr s4 u) = t_effective_priority (thr s2 u))
    by (intros u; by rewrite T4, T3).
  destruct (sched_start_spec true s4 hi) as [k Hk]; [| done |].
  { pose proof (bt_sched _ _ _ _ _ B4) as HS.
    destruct (prio_pick_next_spec s4 [lo; hi] nullptr false false (si_rep _ _ HS)) as (b & E & _ & Hb);
      [done | unfold is_ready; by rewrite Z.eqb_refl | intros; by apply (sched_inv_prio_pos s4 [lo; hi]) |].
    rewrite E. f_equal. assert (Hh : hi ∈ [lo; hi]) by (right; by left).
    destruct Hb as ((Hbl & _ & Hmax) & _); [exists hi; split; [done | by apply (sched_inv_ready s4 [lo; hi])] |].
    apply elem_of_cons in Hbl as [-> | ->%list_elem_of_singleton]; [| done].
    specialize (Hmax hi Hh (sched_inv_ready s4 [lo; hi] hi HS Hh)). rewrite (proj2 (T lo)), (proj2 (T hi)), C16, C26 in Hmax. by compute in Hmax. }
  assert (RR : forall x, rd G x s4 = rd G x s0) by (intros x; transitivity (rd G x s2); [apply rd_ram; by rewrite S4, S3 | exact (eq_trans (R2 x) (R1 x))]).
  exists lo, hi, s4, f2, k. split.
  { unfold lock_lab_setup. change (16 * 1024) with 16384. fold (lab_reset G mode s). fold s0.
    assert (Em : (mode =? 1) || (mode =? 2) = true) by (by destruct Hmode as [-> | ->]).
    cbv zeta. rewrite Em, E1, E2, (proj2 (Z.eqb_neq _ _) N1), (proj2 (Z.eqb_neq _ _) N2). done. }
  split; [exact B4 | split; [exact Hne |]]. rewrite !(proj1 (T _)), !(proj2 (T _)), C11, C16, C21, C26.
  split; [done | split; [done | split; [done | split; [done | split; [| exact Hk]]]]].
  split; [by rewrite RR | intros x Hx; rewrite RR; by apply G2 |]. rewrite S4, S3. unfold sem. cbn [sems set_rq_tail set_rq_head set_threads]. by rewrite M2, M1.
Qed.

(** ** Witnesses *)

Definition demo_lab : lab_cfg :=
  LabCfg (fun x => match x with
    | g_mode => 0x40100000 | g_preempt_lock => 0x40100004 | g_low_locked => 0x40100008 | g_low_unlocked => 0x4010000C
    | g_high_started => 0x40100010 | g_high_acquired => 0x40100014 | g_high_start_tick => 0x40100018 | g_deadlock_reported => 0x40100020
    | g_irq_lock => 0x40100024 | g_irq_worker_holding => 0x40100028 | g_irq_isr_acquired => 0x4010002C | g_irq_deadlock_reported => 0x40100030
    end) 0x40100040 0x40080600 0x40080700 0x40080800.

Lemma demo_lock_lab_ok : lab_ok demo_lab.
Proof.
  split; [split; [intros x; destruct x; reflexivity |] | discriminate].
  intros x y Hne. destruct x, y; try done; vm_compute; first [by left | by right].
Qed.

Definition demo_lab_cfg : config := Config true true false (fun _ u => (-1, u)) 0 0.

(** A stack of 256 bytes for 4096. *)
Definition on_stack (x : Thread) : Thread :=
  MkThread (t_sp x) (t_entry x) (t_arg x) (t_next x) (t_id x) 0x10000 256 (t_budget x) (t_base_priority x) (t_effective_priority x) (t_state x)
    (t_wait_next x) (t_waiting_on x) (t_owned_mutexes x) (t_fpsimd_valid x) (t_fpsimd_vregs x) (t_fpcr x) (t_fpsr x).

Definition demo_mem : mem := stack_init_guard_and_watermark 0x10000 256 ∅.

Lemma demo_mem_bytes : mem_bytes demo_mem.
Proof. apply stack_init_bytes; [lia | lia |]. intros a. unfold ld8. rewrite lookup_empty. simpl. lia. Qed.

(** 4096 (priority 10) alone, in the given mode. *)
Definition demo_lone (mode : Z) : kst :=
  wr demo_lab g_mode mode (set_ram demo_mem (upd_thr 4096 on_stack (upd_cpu (set_current_thread 4096) (rq_append 4096 demo_base)))).

Lemma demo_lone_sched : sched_inv (upd_thr 4096 on_stack (upd_cpu (set_current_thread 4096) (rq_append 4096 demo_base))) [4096].
Proof.
  apply sched_inv_upd; [done | by vm_compute |]. split.
  - apply rq_rep_cpu. apply (rq_append_spec _ []); [apply demo_base_rep | done | apply not_elem_of_nil | conc].
  - intros t ->%list_elem_of_singleton. by vm_compute.
  - intros t. change (thr _ t) with (thr (rq_append 4096 demo_base) t). all_threads t.
  - intros _ _. by left.
Qed.

Lemma demo_lone_worker mode : lab_worker demo_lab (demo_lone mode) 4096.
Proof.
  apply lab_worker_wr. split; try done.
  - apply (sched_inv_same (upd_thr 4096 on_stack (upd_cpu (set_current_thread 4096) (rq_append 4096 demo_base)))); try done. apply demo_lone_sched.
  - exact demo_mem_bytes.
  - intros x. destruct x; vm_compute; right; discriminate.
Qed.

(** The high-priority thread began to wait at tick 100. *)
Definition demo_stuck : kst :=
  upd_cpu (set_ticks 100) (wr demo_lab g_high_start_tick 100 (wr demo_lab g_high_started 1 (wr demo_lab g_low_locked 1 (demo_lone 1)))).

Lemma deadlock_reported_once_witness :
  let s' := Nat.iter 45 (detector_tick demo_lab) demo_stuck in
  deadlocked demo_lab 100 s' /\ ticks (cpu s') = 100 + Z.of_nat 45 /\
  out s' = out demo_stuck ++ (if kDeadlockDetectTicks <=? Z.of_nat 45 then puts_bytes (chars ("[lock-lab] raw deadlock observed" ++ newline)) else []).
Proof.
  apply (deadlock_reported_once demo_lab 100 demo_stuck 45 demo_lock_lab_ok); [lia | lia | split; vm_compute; reflexivity | vm_compute; reflexivity | reflexivity].
Defined.

(** A timer interrupt at every third waiting point; the exclusive stores succeed. *)
Definition every_third (n : nat) : bool := (n mod 3 =? 2)%nat.

Definition no_failure (n : nat) : bool := true.


Lemma irq_reentrancy_deadlocks_witness :
  exists s', (forall fuel, irq_worker_thread demo_lab_cfg demo_lab every_third no_failure fuel 0 (demo_lone 3) = spin_loop demo_lab_cfg demo_lab every_third no_failure fuel fuel 0 s') /\
    rd demo_lab g_irq_lock s' = 1 /\ forall fuel, wait_point demo_lab_cfg demo_lab every_third no_failure fuel 2 s' = KStuck.
Proof.
  destruct (irq_reentrancy_deadlocks demo_lab_cfg demo_lab every_third no_failure 0 (demo_lone 3) 4096 demo_lock_lab_ok (demo_lone_worker 3))
    as (s' & E & H1 & _ & _ & H2 & _); [vm_compute; reflexivity .. |].
  exists s'. split; [exact E | split; [exact H1 |]]. intros fuel. by apply H2.
Defined.

(** 8192 (priority 20) has blocked on the semaphore, 4096 runs. *)
Definition demo_pair : kst := upd_thr 4096 on_stack (upd_cpu (set_current_thread 8192) (rq_append 8192 (rq_append 4096 demo_base))).

Definition demo_blocked : kst := default demo_pair (sem_block 8192 (g_preempt_start demo_lab) (sem_add (g_preempt_start demo_lab) (-1) demo_pair)).

Definition demo_low (mode : Z) : kst :=
  wr demo_lab g_mode mode (set_ram demo_mem (upd_cpu (fun c => set_need_resched 0 (set_current_thread 4096 c)) demo_blocked)).

Lemma demo_pair_inv : sync_inv demo_pair [4096; 8192] (fun _ => []) (fun _ => []) (fun _ => []).
Proof.
  apply sync_inv_upd; [done | by vm_compute | by left |].
  apply sync_inv_idle.
  - split.
    + apply rq_rep_cpu. apply (rq_append_spec _ [4096]); [| done | by intros ?%list_elem_of_singleton | conc].
      apply (rq_append_spec _ []); [apply demo_base_rep | done | apply not_elem_of_nil | conc].
    + intros t Ht. rewrite !elem_of_cons in Ht. destruct Ht as [-> | [-> | Ht%not_elem_of_nil]]; by vm_compute.
    + intros t. change (thr _ t) with (thr (rq_append 8192 (rq_append 4096 demo_base)) t). all_threads t.
    + intros _ _. right. by left.
  - done.
  - done.
  - intros t. change (thr _ t) with (thr (rq_append 8192 (rq_append 4096 demo_base)) t). all_threads t.
Qed.

(** Another queued thread gets the processor. *)
Lemma sync_inv_current s l wqs sq own n : sync_inv s l wqs sq own -> n ∈ l -> sync_inv (upd_cpu (set_current_thread n) s) l wqs sq own.
Proof.
  intros [[G1 G2 G3 G4] H2 H3 H4 H5 H6 H7 H8] Hn. split; try done.
  - split; [by apply rq_rep_cpu | done | done | done].
  - intros m. apply (wq_rep_ext s); [done | done | apply H2].
  - intros a. apply (wq_rep_ext s); [done | done | apply H3].
  - intros t Ht. apply (owned_rep_ext s); [done | done | done | by apply H7].
Qed.

Lemma demo_low_sync b wqs sq own : sync_inv b [4096] wqs sq own ->
  sync_inv (set_ram demo_mem (upd_cpu (fun c => set_need_resched 0 (set_current_thread 4096 c)) b)) [4096] wqs sq own.
Proof. intros H. apply (sync_inv_same (upd_cpu (set_current_thread 4096) b)); try done. apply sync_inv_current; [done | by left]. Qed.

Lemma demo_blocked_inv : sync_inv demo_blocked [4096] (fun _ => []) (fupd (fun _ => []) 0x40100040 [8192]) (fun _ => []).
Proof.
  destruct (sem_block_spec (sem_add 0x40100040 (-1) demo_pair) [4096; 8192] (fun _ => []) (fun _ => []) (fun _ => []) 0x40100040)
    as (s' & E & Hinv & _); [by apply sem_add_inv, demo_pair_inv | done | by vm_compute | conc |].
  unfold demo_blocked. change (g_preempt_start demo_lab) with 0x40100040. change 8192 with (cur (sem_add 0x40100040 (-1) demo_pair)) at 1.
  rewrite E. exact Hinv.
Qed.

Lemma demo_low_runs mode : low_runs demo_lab (demo_low mode) 4096 8192 [4096] (fun _ => []) (fupd (fun _ => []) 0x40100040 [8192]) (fun _ => []).
Proof.
  apply low_runs_wr. split.
  - apply demo_low_sync, demo_blocked_inv.
  - vm_compute. split; [done | done].
  - vm_compute. repeat split; done.
  - vm_compute. repeat split; done.
  - vm_compute. done.
  - intros u ->%list_elem_of_singleton. vm_compute. done.
  - exact demo_mem_bytes.
  - vm_compute. done.
  - vm_compute. split; done.
  - intros x. destruct x; vm_compute; right; discriminate.
Qed.

Lemma preempt_lab_window_witness :
  (exists s' k, preempt_low_thread demo_lab_cfg demo_lab every_third no_failure 40 0 (demo_low 1) = KSwitch 4096 8192 s' k /\ rd demo_lab g_preempt_lock s' = 1) /\
  (exists s' k, preempt_low_thread demo_lab_cfg demo_lab every_third no_failure 40 0 (demo_low 2) = KSwitch 4096 8192 s' k /\ rd demo_lab g_preempt_lock s' = 0).
Proof.
  split.
  - destruct (preempt_lab_window demo_lab_cfg demo_lab every_third no_failure 40 0 (demo_low 1) 4096 8192 _ _ _ _ eq_refl demo_lock_lab_ok (demo_low_runs 1)) as [H _];
      [vm_compute; reflexivity | reflexivity |].
    destruct H as (s' & k & E & _ & R & _); [vm_compute; reflexivity |]. exists s', k. split; [exact E | exact R].
  - destruct (preempt_lab_window demo_lab_cfg demo_lab every_third no_failure 40 0 (demo_low 2) 4096 8192 _ _ _ _ eq_refl demo_lock_lab_ok (demo_low_runs 2)) as [_ H];
      [vm_compute; reflexivity | reflexivity |].
    destruct H as (s' & k & E & _ & R & _); [vm_compute; reflexivity | vm_compute; reflexivity | apply Nat.leb_le; vm_compute; reflexivity |].
    exists s', k. split; [exact E | exact R].
Defined.

Lemma lock_lab_setup_preempt_witness :
  let C := Config true true false (mmu_guard_page demo_layout) 0x40080200 0x40080300 in
  exists s, sched_init demo_boot = Some s /\
  exists lo hi s' free' k, lock_lab_setup C demo_lab 2 s = KDone () s' /\ booting C s' free' [hi; lo] [lo; hi] /\ lo <> hi /\
    t_entry (thr s' lo) = low_entry demo_lab /\ t_effective_priority (thr s' lo) = 5 /\
    t_entry (thr s' hi) = high_entry demo_lab /\ t_effective_priority (thr s' hi) = 20 /\
    globals_reset demo_lab 2 s' /\ sched_start true s' = KSwitch nullptr hi (started hi s') k.
Proof.
  intros C. destruct demo_booting as (s & free & E & HB & HM & _ & Hc & Hk). exists s. split; [exact E |].
  assert (HB' : booting C s free [] []) by (destruct HB as [B1 B2 B3 B4 B5 _]; split; [done .. | by intros t ?%not_elem_of_nil]).
  apply (lock_lab_setup_preempt C demo_lab s free 2 HB' demo_lock_lab_ok); [| reflexivity | discriminate | discriminate | cbn; lia | | by right].
  - pose proof (demo_pool_above s free E HB) as Hf. intros x.
    assert (X : at_ demo_lab x + Z.of_nat (width x) <= 0x40100034) by (destruct x; vm_compute; discriminate).
    split; [lia | split; [intros f Hff; left; specialize (Hf f Hff); lia | by intros t ?%not_elem_of_nil]].
  - rewrite Hk. change (spawn_cost 16384) with 25232. lia.
Defined.
