(* ===== verification/SyncLab.v ===== *)
(** * [src/src/sync_lab.cc]: priority inversion and deadlock demonstrations

    Three threads of different priority around one mutex, and two workers that
    take two mutexes in opposite orders, observed by a watchdog.  The globals are
    words of RAM; the mutexes and semaphores are objects at the linker's
    addresses.  What interrupts do during the [n]-th delay loop is [at_spin n]
    (the tick count they advance is part of the state); the other threads run at
    the switches, which are outcomes of the monad [K]. *)

From Stdlib Require Import String.
From S2P Require Import Prelude Mem Kmem MemPool Pte Mmu Uart Kstate Runq Stack Sched Sync SyncInv SyncThms Thread Spawn Globals.

Inductive sync_var := g_pi_enabled | g_high_done | g_dl_ready | g_dl_done | g_dl_mode | g_dl_t1 | g_dl_t2.

#[export] Instance sync_var_eq_dec : EqDecision sync_var.
Proof. solve_decision. Defined.

(** Bytes of a variable: pointers, and 32-bit words. *)
Definition width (x : sync_var) : nat := match x with g_dl_t1 | g_dl_t2 => 8 | _ => 4 end.

(** What the linker fixes: variables, mutexes, semaphores, code. *)
Record sync_cfg := SyncCfg {
  at_ : sync_var -> Z;
  g_lock : Z;
  g_dl_a : Z;
  g_dl_b : Z;
  g_start : Z;
  g_hold_high : Z;
  g_dl_hold : Z;
  low_entry : Z;
  medium_entry : Z;
  high_entry : Z;
  worker_entry : Z;
  watchdog_entry : Z
}.

Section SyncLab.

Context (C : config) (G : sync_cfg) (at_spin : nat -> kst -> kst) (fuel : nat).

Abbreviation prio := (sched_policy_prio C).

Definition rd (x : sync_var) : kst -> Z := load_var (at_ G) width x.

Definition wr (x : sync_var) : Z -> kst -> kst := store_var (at_ G) width x.

(** The [n]-th delay loop. *)
Definition spin (n : nat) : K unit := modify (at_spin n).

(** ** The priority inversion *)

(** [while (!g_pi_enabled) spin(20000);] *)
Fixpoint pi_wait (k n : nat) : K unit := fun s =>
  if rd g_pi_enabled s =? 0 then
    match k with
    | O => KStuck
    | Datatypes.S k' => kbind (spin n s) (fun _ => pi_wait k' (Datatypes.S n))
    end
  else KDone () s.

Definition low_thread (n : nat) : K unit :=
  modify (say "[sync-lab] L start") ≫= fun _ =>
  mutex_lock C fuel (g_lock G) ≫= fun _ =>
  modify (say "[sync-lab] L locked") ≫= fun _ =>
  sem_up C (g_start G) ≫= fun _ =>
  sem_up C (g_start G) ≫= fun _ =>
  pi_wait fuel n ≫= fun _ =>
  modify (say "[sync-lab] L unlocking") ≫= fun _ =>
  mutex_unlock C (g_lock G) ≫= fun _ =>
  modify (say "[sync-lab] L unlocked") ≫= fun _ => halt.

Definition high_thread : K unit :=
  modify (say "[sync-lab] H start") ≫= fun _ =>
  sem_down C (g_start G) ≫= fun _ =>
  modify (say "[sync-lab] H lock...") ≫= fun _ =>
  mutex_lock C fuel (g_lock G) ≫= fun _ =>
  modify (say "[sync-lab] H acquired") ≫= fun _ =>
  modify (wr g_high_done 1) ≫= fun _ =>
  mutex_unlock C (g_lock G) ≫= fun _ =>
  modify (say "[sync-lab] H done") ≫= fun _ =>
  sem_down C (g_hold_high G).

(** The step in which the medium thread turns inheritance on. *)
Definition enable_pi (printed : bool) : K unit :=
  modify (if printed then id else say "[sync-lab] inversion observed; enabling PI") ≫= fun _ =>
  modify (wr g_pi_enabled 1) ≫= fun _ =>
  mutex_set_pi_enabled C (g_lock G) 1 ≫= fun _ =>
  thread_yield prio.

(** [while (!g_high_done) ...] *)
Fixpoint medium_loop (k n : nat) (t0 : Z) (printed : bool) : K unit := fun s =>
  if rd g_high_done s =? 0 then
    match k with
    | O => KStuck
    | Datatypes.S k' =>
        kbind (spin n s) (fun _ s =>
          let dt := ticks (cpu s) -64 t0 in
          if (rd g_pi_enabled s =? 0) && (20 <=? dt)
          then kbind (enable_pi printed s) (fun _ => medium_loop k' (Datatypes.S n) t0 true)
          else medium_loop k' (Datatypes.S n) t0 printed s)
    end
  else KDone () s.

Definition medium_thread (n : nat) : K unit :=
  modify (say "[sync-lab] M start") ≫= fun _ =>
  sem_down C (g_start G) ≫= fun _ =>
  get ≫= fun s =>
  medium_loop fuel n (ticks (cpu s)) false ≫= fun _ =>
  modify (say "[sync-lab] result PASS") ≫= fun _ => halt.

(** ** Two mutexes *)

Definition dl_lock_two_ordered (a b : Z) : K unit :=
  if (a =? nullptr) || (b =? nullptr) then mret ()
  else if a =? b then mutex_lock C fuel a
  else if a <? b then mutex_lock C fuel a ≫= fun _ => mutex_lock C fuel b
  else mutex_lock C fuel b ≫= fun _ => mutex_lock C fuel a.

Definition dl_unlock_two_ordered (a b : Z) : K unit :=
  if (a =? nullptr) || (b =? nullptr) then mret ()
  else if a =? b then mutex_unlock C a
  else if a <? b then mutex_unlock C b ≫= fun _ => mutex_unlock C a
  else mutex_unlock C a ≫= fun _ => mutex_unlock C b.

(** The [for (;;)] loop, [k] attempts; the length of the delay is
    [backoff_base + attempt * 2000], its effect is that of the [n]-th delay. *)
Fixpoint backoff_loop (k n : nat) (first second : Z) : K unit :=
  match k with
  | O => fun _ => KStuck
  | Datatypes.S k' =>
      mutex_lock C fuel first ≫= fun _ =>
      mutex_trylock C second ≫= fun r =>
      if r =? 0 then mret ()
      else
        mutex_unlock C first ≫= fun _ =>
        spin n ≫= fun _ =>
        thread_yield prio ≫= fun _ =>
        backoff_loop k' (Datatypes.S n) first second
  end.

Definition dl_lock_two_trylock_backoff (n : nat) (first second : Z) : K unit := backoff_loop fuel n first second.

(** [uart_puts("[deadlock-lab] T"); uart_print_u64(tid); uart_puts(m);] *)
Definition say_tid (tid : Z) (m : string) (s : kst) : kst := say m (print_u64 tid (puts "[deadlock-lab] T" s)).

(** A counter changed with preemption disabled. *)
Definition bump (x : sync_var) : K unit :=
  preempt_disable ≫= fun _ =>
  modify (fun s => wr x (rd x s + 1) s) ≫= fun _ =>
  enable C.

(** [while (g_dl_ready < 2u) { spin(20000); thread_yield(); }] *)
Fixpoint ready_wait (k n : nat) : K unit := fun s =>
  if rd g_dl_ready s <? 2 then
    match k with
    | O => KStuck
    | Datatypes.S k' => kbind (kbind (spin n s) (fun _ => thread_yield prio)) (fun _ => ready_wait k' (Datatypes.S n))
    end
  else KDone () s.

(** Modes 2 and 5: the naive order. *)
Definition lock_naively (n : nat) (tid first second : Z) (bug : string) : K unit :=
  mutex_lock C fuel first ≫= fun _ =>
  modify (say_tid tid " locked first") ≫= fun _ =>
  bump g_dl_ready ≫= fun _ =>
  ready_wait fuel n ≫= fun _ =>
  modify (say_tid tid " locking second...") ≫= fun _ =>
  mutex_lock C fuel second ≫= fun _ =>
  modify (say bug).

Definition deadlock_worker (n : nat) (arg : Z) : K unit :=
  let tid := wrap32 arg in
  modify (say_tid tid " start") ≫= fun _ =>
  let first := if tid =? 1 then g_dl_a G else g_dl_b G in
  let second := if tid =? 1 then g_dl_b G else g_dl_a G in
  get ≫= fun s =>
  (if rd g_dl_mode s =? 2 then lock_naively n tid first second "[deadlock-lab] BUG: acquired second (unexpected)"
   else if rd g_dl_mode s =? 3 then
     dl_lock_two_ordered (g_dl_a G) (g_dl_b G) ≫= fun _ =>
     modify (say_tid tid " acquired both (ordered)") ≫= fun _ =>
     dl_unlock_two_ordered (g_dl_a G) (g_dl_b G) ≫= fun _ =>
     bump g_dl_done ≫= fun _ =>
     sem_down C (g_dl_hold G)
   else if rd g_dl_mode s =? 4 then
     dl_lock_two_trylock_backoff n first second ≫= fun _ =>
     modify (say_tid tid " acquired both (trylock)") ≫= fun _ =>
     mutex_unlock C second ≫= fun _ =>
     mutex_unlock C first ≫= fun _ =>
     bump g_dl_done ≫= fun _ =>
     sem_down C (g_dl_hold G)
   else if rd g_dl_mode s =? 5 then lock_naively n tid first second "[deadlock-lab] BUG: lockdep did not trigger"
   else modify (say "[deadlock-lab] invalid mode")) ≫= fun _ => halt.

(** ** The watchdog *)

Definition dl_deadlock_observed (s : kst) : bool :=
  let t1 := rd g_dl_t1 s in
  let t2 := rd g_dl_t2 s in
  if (t1 =? nullptr) || (t2 =? nullptr) then false
  else if negb (t_state (thr s t1) =? 1) || negb (t_state (thr s t2) =? 1) then false
  else if negb (owner (mtx s (g_dl_a G)) =? t1) || negb (owner (mtx s (g_dl_b G)) =? t2) then false
  else if negb (t_waiting_on (thr s t1) =? g_dl_b G) then false
  else if negb (t_waiting_on (thr s t2) =? g_dl_a G) then false
  else true.

(** One turn of the loop: whether it ends, [printed], and the state. *)
Definition watchdog_turn (t0 : Z) (printed : bool) (s : kst) : bool * bool * kst :=
  let dt := ticks (cpu s) -64 t0 in
  if rd g_dl_mode s =? 2 then
    if dl_deadlock_observed s then
      (true, printed, say "[deadlock-lab] fixes: lock ordering | trylock+backoff | lockdep" (say "[deadlock-lab] deadlock observed (AB/BA)" s))
    else
      let '(printed, s) :=
        if negb printed && (50 <=? dt) then (true, say "[deadlock-lab] waiting for deadlock..." s) else (printed, s) in
      if 200 <=? dt then (true, printed, say "[deadlock-lab] FAIL: deadlock not observed (timing?)" s) else (false, printed, s)
  else if (rd g_dl_mode s =? 3) || (rd g_dl_mode s =? 4) then
    if 2 <=? int32 (rd g_dl_done s) then (true, printed, say "[deadlock-lab] result PASS" s)
    else if 200 <=? dt then (true, printed, say "[deadlock-lab] FAIL: timeout waiting for completion" s)
    else (false, printed, s)
  else if 200 <=? dt then (true, printed, say "[deadlock-lab] FAIL: lockdep did not trigger" s)
  else (false, printed, s).

Fixpoint watchdog_loop (k n : nat) (t0 : Z) (printed : bool) : K unit := fun s =>
  let '(ends, printed, s) := watchdog_turn t0 printed s in
  if ends : bool then KDone () s
  else
    match k with
    | O => KStuck
    | Datatypes.S k' => kbind (kbind (spin n s) (fun _ => thread_yield prio)) (fun _ => watchdog_loop k' (Datatypes.S n) t0 printed)
    end.

Definition deadlock_watchdog (n : nat) : K unit :=
  modify (say "[deadlock-lab] watchdog start") ≫= fun _ =>
  get ≫= fun s =>
  watchdog_loop fuel n (ticks (cpu s)) false ≫= fun _ => halt.

(** ** Setting up *)

(** The globals of the inversion demonstration. *)
Definition reset_pi : K unit :=
  modify (wr g_pi_enabled 0) ≫= fun _ =>
  modify (wr g_high_done 0) ≫= fun _ =>
  modify (mutex_init C (g_lock G)) ≫= fun _ =>
  mutex_set_pi_enabled C (g_lock G) 0 ≫= fun _ =>
  modify (sem_init (g_start G) 0) ≫= fun _ =>
  modify (sem_init (g_hold_high G) 0).

Definition create_pi : K unit := fun s =>
  let '(l, s) := thread_create_prio C (low_entry G) nullptr (16 * 1024) 5 s in
  let '(m, s) := thread_create_prio C (medium_entry G) nullptr (16 * 1024) 10 s in
  let '(h, s) := thread_create_prio C (high_entry G) nullptr (16 * 1024) 20 s in
  if (l =? nullptr) || (m =? nullptr) || (h =? nullptr) then halt (say "[sync-lab] thread_create failed" s)
  else KDone () (sched_add h (sched_add m (sched_add l s))).

Definition setup_pi : K unit :=
  modify (say "[sync-lab] setup") ≫= fun _ => reset_pi ≫= fun _ => create_pi.

(** The globals of the deadlock demonstration. *)
Definition reset_dl (mode : Z) (s : kst) : kst :=
  let s := wr g_dl_ready 0 (wr g_dl_done 0 (wr g_dl_mode mode s)) in
  let s := wr g_dl_t2 nullptr (wr g_dl_t1 nullptr s) in
  let s := mutex_init C (g_dl_b G) (mutex_init C (g_dl_a G) s) in
  sem_init (g_dl_hold G) 0 s.

Definition setup_deadlock (mode : Z) : K unit := fun s =>
  let s := reset_dl mode (say "[deadlock-lab] setup" s) in
  let '(t1, s) := thread_create_prio C (worker_entry G) 1 (16 * 1024) 20 s in
  let s := wr g_dl_t1 t1 s in
  let '(t2, s) := thread_create_prio C (worker_entry G) 2 (16 * 1024) 20 s in
  let s := wr g_dl_t2 t2 s in
  let '(w, s) := thread_create_prio C (watchdog_entry G) nullptr (16 * 1024) 5 s in
  if (rd g_dl_t1 s =? nullptr) || (rd g_dl_t2 s =? nullptr) || (w =? nullptr) then halt (say "[deadlock-lab] thread_create failed" s)
  else KDone () (sched_add w (sched_add (rd g_dl_t2 s) (sched_add (rd g_dl_t1 s) s))).

Definition sync_lab_setup (mode : Z) : K unit :=
  if mode =? 1 then setup_pi
  else if (2 <=? mode) && (mode <=? 5) then setup_deadlock mode
  else
    modify (say "[sync-lab] unknown mode") ≫= fun _ =>
    modify (say "[sync-lab] modes: 1=pi, 2=deadlock, 3=ordering, 4=trylock, 5=lockdep") ≫= fun _ => halt.

End SyncLab.
