(* ===== verification/SyncLabThms.v ===== *)
(** * What the mutex demonstrations show

    The theorems on [SyncLab]: the deadlock of the two workers and its
    detection, the two remedies, the priority inversion and its end, and the
    set-up of both demonstrations. *)

From Stdlib Require Import String.
From S2P Require Import Prelude Mem Kmem MemPool Pte Mmu Uart Kstate Runq Stack Sched Sync SyncInv SyncThms Thread Spawn StackLab Globals SyncLab.

(** ** What the primitives leave alone *)

(** Memory and console. *)
Definition quiet (s s' : kst) : Prop := ram s' = ram s /\ out s' = out s.

Lemma rq_remove_quiet t s s' : rq_remove t s = Some s' -> quiet s s'.
Proof.
  unfold rq_remove. destruct (_ || _); [by intros [= <-] |]. destruct (_ && _); [by intros [= <-] |].
  destruct (find_prev _ _ _ _ _) as [p |]; cbn [mbind option_bind]; [| done]. destruct (negb _); [by intros [= <-] |].
  cbv zeta. intros [= <-]. split; by repeat match goal with |- context [if ?b then _ else _] => destruct b end.
Qed.

Lemma block_quiet s s' : sched_block_current s = Some s' -> quiet s s'.
Proof.
  unfold sched_block_current. destruct (_ =? _); [by intros [= <-] |]. destruct (_ =? _); [by intros [= <-] |].
  destruct (rq_remove _ s) as [s1 |] eqn:E; cbn [mbind option_bind]; [| done]. intros [= <-]. by apply rq_remove_quiet in E.
Qed.

Lemma mutex_block_quiet C c m s s' : mutex_block C c m s = Some s' -> quiet s s'.
Proof.
  unfold mutex_block. set (sA := upd_mtx m _ _). destruct (mutex_apply_pi C m sA) as [sB |] eqn:EB; cbn [mbind option_bind]; [| done].
  destruct (sched_block_current sB) as [sD |] eqn:ED; cbn [mbind option_bind]; [| done]. intros [= <-].
  apply block_quiet in ED as [E1 E2]. assert (HB : quiet sA sB) by (by apply apply_pi_shape in EB as [-> | (t & e & ->)]).
  destruct HB as [F1 F2]. split; [exact (eq_trans E1 F1) | exact (eq_trans E2 F2)].
Qed.

Lemma save_quiet s : quiet s (fpsimd_save s).
Proof. unfold fpsimd_save. by destruct (_ =? _). Qed.

Lemma switched_quiet n s : quiet s (switched n s).
Proof. apply save_quiet. Qed.

(** ** Blocking on a mutex *)

Section Blocking.

Context (C : config).

(** A request left by a thread that is not in the queue makes way for one that is. *)
Lemma enable_gives_way s l :
  sched_inv s l -> cur s <> nullptr -> preempt_cnt (cpu s) = 1 -> need_resched (cpu s) <> 0 -> irq_depth (cpu s) = 0 ->
  l <> [] -> cur s ∉ l -> exists n, n ∈ l /\ n <> cur s /\
    switches_to (set_resched kNeedReschedNone) (upd_cpu (set_preempt_cnt 0) s) n (enable C s).
Proof.
  intros H Hc Hp Hn Hi Hl Hnl. unfold enable. rewrite preempt_enable_one, Hi, (proj2 (Z.eqb_neq _ _) Hn) by done. cbn [Z.eqb negb andb].
  destruct (resched_any (sched_policy_prio C) (upd_cpu (set_preempt_cnt 0) s) l) as [[_ [-> | Hx]] | (n & H1 & H2 & H3)]; try done.
  - by apply (sched_inv_same s).
  - by exists n.
Qed.

(** A lock of another thread's mutex that no check refuses: the caller blocks on
    it and another thread runs. *)
Lemma mutex_lock_blocks fuel s l wqs sq own m :
  let c := cur s in
  sync_inv s l wqs sq own -> c <> nullptr -> t_state (thr s c) = kThreadReady -> threads s !! c <> None -> m <> nullptr ->
  preempt_cnt (cpu s) = 0 -> irq_depth (cpu s) = 0 -> owner (mtx s m) <> nullptr -> owner (mtx s m) <> c -> rq_del c l <> [] ->
  lockdep_enabled C && lockdep_would_deadlock c m s = false ->
  exists s1 n k, mutex_block C c m (entered s) = Some s1 /\ n ∈ rq_del c l /\
    mutex_lock C (Datatypes.S fuel) m s = KSwitch c n (switched n (upd_cpu (set_preempt_cnt 0) s1)) k.
Proof.
  intros c H Hc Hr Hk Hm Hp Hi Ho1 Ho2 Hl Hld. pose proof (entered_inv _ _ _ _ _ H) as He.
  destruct (mutex_block_spec C (entered s) l wqs sq own m He Hc Hr Hm Hk Ho1 Ho2) as (s1 & E & Hinv & Hcpu & _).
  change (cur (entered s)) with c in *.
  assert (Hcur : cur s1 = c) by (unfold cur; by rewrite Hcpu).
  destruct (enable_gives_way s1 (rq_del c l) (yi_sched _ _ _ _ _ Hinv)) as (n & Hn & _ & k & Ek & _);
    [by rewrite Hcur | by rewrite Hcpu | by rewrite Hcpu | by rewrite Hcpu | done | rewrite Hcur; by intros [_ ?]%rq_del_elem |].
  change (cur (upd_cpu (set_preempt_cnt 0) s1)) with (cur s1) in Ek. rewrite Hcur in Ek.
  exists s1, n. eexists. split; [exact E | split; [exact Hn |]].
  unfold mutex_lock. rewrite (proj2 (Z.eqb_neq _ _) Hm). cbn [mutex_lock_loop]. unfold get, modify_opt, mbind, K_bind, mret, K_ret.
  rewrite disable_eq by done. cbn [kbind]. change (cur (entered s)) with c. change (mtx (entered s) m) with (mtx s m).
  rewrite (proj2 (Z.eqb_neq _ _) Hc), (proj2 (Z.eqb_neq _ _) Ho2), (proj2 (Z.eqb_neq _ _) Ho1).
  change (lockdep_would_deadlock c m (entered s)) with (lockdep_would_deadlock c m s). rewrite Hld. cbn [kbind]. rewrite E. cbn [kbind].
  rewrite Ek. reflexivity.
Qed.

End Blocking.

(** ** The deadlock and its two observers *)

Lemma mtx_switched n s m : mtx (switched n s) m = mtx s m.
Proof. unfold switched, fpsimd_save. by destruct (_ =? _). Qed.

Lemma switched_thread n s t : t_state (thr (switched n s) t) = t_state (thr s t) /\ t_waiting_on (thr (switched n s) t) = t_waiting_on (thr s t).
Proof. rewrite thr_switched, thr_save. by destruct (cur s =? nullptr), (cur s =? t). Qed.

Section Deadlock.

Context (C : config) (G : sync_cfg).

(** Worker 1 holds the first mutex and waits for the second; worker 2 runs,
    holds the second, and is about to ask for the first. *)
Record abba (s : kst) (t1 t2 : Z) (l : list Z) (wqs sq own : Z -> list Z) : Prop := {
  ab_sync : sync_inv s l wqs sq own;
  ab_workers : rd G g_dl_t1 s = t1 /\ rd G g_dl_t2 s = t2 /\ t1 <> nullptr /\ t2 <> nullptr /\ t1 <> t2;
  ab_mode : rd G g_dl_mode s = 2;
  ab_mutexes : g_dl_a G <> nullptr /\ g_dl_b G <> nullptr;
  ab_owners : owner (mtx s (g_dl_a G)) = t1 /\ owner (mtx s (g_dl_b G)) = t2;
  ab_first : t_state (thr s t1) = kThreadBlocked /\ t_waiting_on (thr s t1) = g_dl_b G;
  ab_second : cur s = t2 /\ t_state (thr s t2) = kThreadReady /\ threads s !! t2 <> None;
  ab_cpu : preempt_cnt (cpu s) = 0 /\ irq_depth (cpu s) = 0;
  ab_others : rq_del t2 l <> []
}.

Lemma abba_detected s t1 t2 l wqs sq own : abba s t1 t2 l wqs sq own -> lockdep_would_deadlock t2 (g_dl_a G) s = true.
Proof.
  intros []. destruct ab_workers0 as (_ & _ & N1 & N2 & N3), ab_mutexes0 as (A1 & A2), ab_owners0 as (O1 & O2), ab_first0 as (_ & W).
  unfold lockdep_would_deadlock. rewrite (proj2 (Z.eqb_neq _ _) N2), (proj2 (Z.eqb_neq _ _) A1). cbn [orb lockdep_chain].
  rewrite O1, (proj2 (Z.eqb_neq _ _) N1), (proj2 (Z.eqb_neq _ _) N3), W, (proj2 (Z.eqb_neq _ _) A2), O2.
  by rewrite (proj2 (Z.eqb_neq _ _) N2), Z.eqb_refl.
Qed.

(** What [lockdep_panic_deadlock] prints. *)
Definition deadlock_report (id m : Z) : list Z :=
  puts_bytes (chars "[lockdep] deadlock cycle detected: tid=") ++ print_u64_bytes (wrap64 id) ++
  puts_bytes (chars " waiting_on=0x") ++ print_u64_bytes m ++ puts_bytes (chars newline) ++
  puts_bytes (chars ("[lockdep] result PASS" ++ newline)).

Lemma panic_report c m s : c <> nullptr -> exists s', lockdep_panic_deadlock c m s = KHalt s' /\ out s' = out s ++ deadlock_report (t_id (thr s c)) m.
Proof.
  intros Hc. eexists. split; [reflexivity |]. rewrite (proj2 (Z.eqb_neq _ _) Hc). cbn [negb].
  unfold puts, print_u64, deadlock_report. cbn [out set_out thr]. by rewrite <- !app_assoc.
Qed.

Lemma lock_detected fuel s l wqs sq own m :
  let c := cur s in
  sync_inv s l wqs sq own -> c <> nullptr -> m <> nullptr -> preempt_cnt (cpu s) = 0 -> owner (mtx s m) <> nullptr -> owner (mtx s m) <> c ->
  lockdep_enabled C = true -> lockdep_would_deadlock c m s = true ->
  exists s', mutex_lock C (Datatypes.S fuel) m s = KHalt s' /\ out s' = out s ++ deadlock_report (t_id (thr s c)) m.
Proof.
  intros c H Hc Hm Hp Ho1 Ho2 He Hd. destruct (panic_report c m (entered s) Hc) as (s' & E & Ho). exists s'. split; [| exact Ho].
  unfold mutex_lock. rewrite (proj2 (Z.eqb_neq _ _) Hm). cbn [mutex_lock_loop]. unfold get, mbind, K_bind.
  rewrite disable_eq by done. cbn [kbind]. change (cur (entered s)) with c. change (mtx (entered s) m) with (mtx s m).
  rewrite (proj2 (Z.eqb_neq _ _) Hc), (proj2 (Z.eqb_neq _ _) Ho2), (proj2 (Z.eqb_neq _ _) Ho1).
  change (lockdep_would_deadlock c m (entered s)) with (lockdep_would_deadlock c m s). rewrite He, Hd. cbn [andb]. by rewrite E.
Qed.

(** What the watchdog prints about it. *)
Definition deadlock_seen : list Z :=
  puts_bytes (chars ("[deadlock-lab] deadlock observed (AB/BA)" ++ newline)) ++
  puts_bytes (chars ("[deadlock-lab] fixes: lock ordering | trylock+backoff | lockdep" ++ newline)).

Lemma watchdog_sees t0 p s : rd G g_dl_mode s = 2 -> dl_deadlock_observed G s = true ->
  exists s', watchdog_turn G t0 p s = (true, p, s') /\ out s' = out s ++ deadlock_seen.
Proof. intros Hm Ho. unfold watchdog_turn. rewrite Hm, Ho. eexists. split; [done |]. unfold say, puts, deadlock_seen. cbn [out set_out]. by rewrite <- app_assoc. Qed.

Lemma abba_blocks fuel s t1 t2 l wqs sq own : abba s t1 t2 l wqs sq own -> lockdep_enabled C = false ->
  exists n s' k l', mutex_lock C (Datatypes.S fuel) (g_dl_a G) s = KSwitch t2 n s' k /\ cur s' = n /\ n ∈ l' /\ sched_inv s' l' /\ (t1 ∉ l') /\ (t2 ∉ l') /\
    rd G g_dl_mode s' = 2 /\ dl_deadlock_observed G s' = true.
Proof.
  intros [] He. destruct ab_workers0 as (R1 & R2 & N1 & N2 & N3), ab_mutexes0 as (A1 & A2), ab_owners0 as (O1 & O2), ab_first0 as (S1 & W),
    ab_second0 as (E2 & S2 & K2), ab_cpu0 as (P1 & P2).
  assert (HO1 : owner (mtx s (g_dl_a G)) <> nullptr) by (by rewrite O1). assert (HO2 : owner (mtx s (g_dl_a G)) <> t2) by (by rewrite O1).
  destruct (mutex_lock_blocks C fuel s l wqs sq own (g_dl_a G)) as (s1 & n & k & Eb & Hn & El); rewrite ?E2; try done; [by rewrite He |].
  rewrite E2 in *. pose proof (entered_inv _ _ _ _ _ ab_sync0) as Hent.
  destruct (mutex_block_spec C (entered s) l wqs sq own (g_dl_a G) Hent) as (s1' & Eb' & Hinv & Hcpu & Hm & Hst & Hwo & _ & Hoth & _);
    try (change (cur (entered s)) with (cur s)); rewrite ?E2; try done.
  change (cur (entered s)) with (cur s) in *. rewrite E2 in *. rewrite Eb in Eb'. injection Eb' as <-.
  destruct (mutex_block_quiet _ _ _ _ _ Eb) as [Q1 _]. destruct (switched_quiet n (upd_cpu (set_preempt_cnt 0) s1)) as [Q2 _].
  set (s' := switched n (upd_cpu (set_preempt_cnt 0) s1)) in *.
  assert (RR : forall x, rd G x s' = rd G x s) by (intros x; apply load_var_ram; by rewrite Q2).
  assert (T : forall t, t_state (thr s' t) = t_state (thr s1 t) /\ t_waiting_on (thr s' t) = t_waiting_on (thr s1 t)) by (intros t; exact (switched_thread n (upd_cpu (set_preempt_cnt 0) s1) t)).
  assert (M : forall m, owner (mtx s' m) = owner (mtx s m)).
  { intros m. unfold s'. rewrite mtx_switched. change (mtx (upd_cpu ?f s1) m) with (mtx s1 m). rewrite Hm. by destruct (_ =? m). }
  exists n, s', k, (rq_del t2 l). split; [done | split; [done | split; [done | split; [| split; [| split; [| split]]]]]].
  - apply switched_inv; [| done]. apply (sched_inv_same s1); try done. apply Hinv.
  - intros [Hx _]%rq_del_elem. apply (si_ready _ _ (yi_sched _ _ _ _ _ ab_sync0)) in Hx. by rewrite Hx in S1.
  - by intros [_ ?]%rq_del_elem.
  - by rewrite RR.
  - destruct (Hoth t1 N3) as [H1 H2]. change (thr (entered s)) with (thr s) in *. unfold dl_deadlock_observed.
    rewrite !RR, R1, R2, !M, O1, O2, !(proj1 (T _)), !(proj2 (T _)), H1, H2, Hst, Hwo, S1, W, !Z.eqb_refl,
      (proj2 (Z.eqb_neq _ _) N1), (proj2 (Z.eqb_neq _ _) N2). done.
Qed.

End Deadlock.


(** ** Uncontended locks *)

(** The running, queued thread [c], with nothing pending. *)
Record runs (s : kst) (c : Z) (l : list Z) (wqs sq own : Z -> list Z) : Prop := {
  rn_sync : sync_inv s l wqs sq own;
  rn_cur : cur s = c /\ c <> nullptr;
  rn_in : c ∈ l;
  rn_cpu : preempt_cnt (cpu s) = 0 /\ need_resched (cpu s) = 0 /\ irq_depth (cpu s) = 0
}.

Lemma runs_ready s c l wqs sq own : runs s c l wqs sq own -> t_state (thr s c) = kThreadReady /\ threads s !! c <> None.
Proof.
  intros []. split; [by apply (si_ready _ _ (yi_sched _ _ _ _ _ rn_sync0)) |].
  by apply (rq_known s l (si_rep _ _ (yi_sched _ _ _ _ _ rn_sync0))).
Qed.

Lemma runs_entered s c l wqs sq own : runs s c l wqs sq own -> upd_cpu (set_preempt_cnt 0) (entered s) = s.
Proof. intros []. apply leave_entered, rn_cpu0. Qed.

(** What taking a mutex changes. *)
Lemma take_facts c m s : c <> nullptr -> m <> nullptr ->
  let s' := take c m s in
  (forall u, t_waiting_on (thr s' u) = if c =? u then nullptr else t_waiting_on (thr s u)) /\
  (forall x, owner (mtx s' x) = if m =? x then c else owner (mtx s x)) /\
  (forall x, mutexes s !! x <> None -> mutexes s' !! x <> None) /\ cpu s' = cpu s /\ quiet s s'.
Proof.
  intros Hc Hm s'. unfold s', take, thread_owned_mutex_add. rewrite (proj2 (Z.eqb_neq _ _) Hc), (proj2 (Z.eqb_neq _ _) Hm). cbn [orb].
  split; [| split; [| split; [| done]]].
  - intros u. rewrite !thr_upd. by destruct (c =? u).
  - intros x. change (mtx (upd_thr c ?f (upd_thr c ?g ?y)) x) with (mtx y x). rewrite !mtx_upd. by destruct (m =? x).
  - intros x Hx. by apply known_mtx, known_mtx.
Qed.

Section Uncontended.

Context (C : config).

(** Leaving the critical section: whatever is inside only needs the mask. *)
Lemma take_leaves c m s l wqs sq own : runs s c l wqs sq own -> upd_cpu (set_preempt_cnt 0) (take c m (entered s)) = take c m s.
Proof.
  intros H. pose proof (runs_entered _ _ _ _ _ _ H) as E. transitivity (take c m (upd_cpu (set_preempt_cnt 0) (entered s))); [| by rewrite E].
  unfold take, thread_owned_mutex_add. by destruct (_ || _).
Qed.

Lemma take_enable c m s l wqs sq own : runs s c l wqs sq own -> enable C (take c m (entered s)) = KDone () (take c m s).
Proof.
  intros H. pose proof (rn_cpu _ _ _ _ _ _ H) as (_ & Hq & _).
  assert (E : cpu (take c m (entered s)) = cpu (entered s)) by (unfold take, thread_owned_mutex_add; by destruct (_ || _)).
  rewrite enable_quiet by (by rewrite E). by rewrite (take_leaves _ _ _ _ _ _ _ H).
Qed.

Lemma take_runs s c m l wqs sq own : runs s c l wqs sq own -> m <> nullptr -> mutexes s !! m <> None -> owner (mtx s m) = nullptr ->
  runs (take c m s) c l wqs sq (fupd own c (m :: own c)).
Proof.
  intros H Hm Hk Ho. destruct (runs_ready _ _ _ _ _ _ H) as [Hr _]. pose proof H as [H1 [Hc Hn] H3 H4].
  destruct (take_inv s l wqs sq own c m H1 Hn Hr Hm Hk Ho) as (Hinv & _ & Hcpu). split; rewrite ?Hcpu; try done. unfold cur. by rewrite Hcpu.
Qed.

Lemma lock_free fuel s c m l wqs sq own :
  runs s c l wqs sq own -> m <> nullptr -> owner (mtx s m) = nullptr -> mutex_lock C (Datatypes.S fuel) m s = KDone () (take c m s).
Proof.
  intros H Hm Ho. pose proof H as [H1 [Hc Hn] H3 (Hp & _ & _)].
  unfold mutex_lock. rewrite (proj2 (Z.eqb_neq _ _) Hm). cbn [mutex_lock_loop]. unfold get, modify, mbind, K_bind.
  rewrite disable_eq by done. cbn [kbind]. change (cur (entered s)) with (cur s). change (mtx (entered s) m) with (mtx s m).
  rewrite Hc, (proj2 (Z.eqb_neq _ _) Hn), Ho, (proj2 (Z.eqb_neq nullptr c)), Z.eqb_refl by done. cbn [kbind]. by apply (take_enable c m s l wqs sq own).
Qed.

Lemma trylock_free s c m l wqs sq own :
  runs s c l wqs sq own -> m <> nullptr -> owner (mtx s m) = nullptr -> mutex_trylock C m s = KDone 0 (take c m s).
Proof.
  intros H Hm Ho. pose proof H as [H1 [Hc Hn] H3 (Hp & _ & _)].
  unfold mutex_trylock. rewrite (proj2 (Z.eqb_neq _ _) Hm). unfold get, modify, mbind, K_bind, mret, K_ret.
  rewrite disable_eq by done. cbn [kbind]. change (cur (entered s)) with (cur s). change (mtx (entered s) m) with (mtx s m).
  rewrite Hc, (proj2 (Z.eqb_neq _ _) Hn), Ho, Z.eqb_refl. cbn [kbind]. by rewrite (take_enable c m s l wqs sq own).
Qed.

Lemma trylock_held s c m l wqs sq own :
  runs s c l wqs sq own -> m <> nullptr -> owner (mtx s m) <> nullptr -> owner (mtx s m) <> c -> mutex_trylock C m s = KDone (-1) s.
Proof.
  intros H Hm Ho1 Ho2. pose proof H as [H1 [Hc Hn] H3 (Hp & Hq & _)].
  unfold mutex_trylock. rewrite (proj2 (Z.eqb_neq _ _) Hm). unfold get, modify, mbind, K_bind, mret, K_ret.
  rewrite disable_eq by done. cbn [kbind]. change (cur (entered s)) with (cur s). change (mtx (entered s) m) with (mtx s m).
  rewrite Hc, (proj2 (Z.eqb_neq _ _) Hn), (proj2 (Z.eqb_neq _ _) Ho1), (proj2 (Z.eqb_neq _ _) Ho2), enable_quiet by done. cbn [kbind].
  by rewrite (runs_entered _ _ _ _ _ _ H).
Qed.

(** Unlocking a mutex nobody waits for. *)
Lemma unlock_alone s c m l wqs sq own :
  runs s c l wqs sq own -> m <> nullptr -> owner (mtx s m) = c -> wqs m = [] ->
  exists s', mutex_unlock C m s = KDone () s' /\ runs s' c l wqs sq (fupd own c (own_del m (own c))) /\ owner (mtx s' m) = nullptr.
Proof.
  intros H Hm Ho Hw. destruct (runs_ready _ _ _ _ _ _ H) as [Hr _]. pose proof H as [H1 [Hc Hn] H3 (Hp & Hq & Hi)].
  destruct (mutex_release_spec C (entered s) l wqs sq own m (entered_inv _ _ _ _ _ H1)) as (s1 & E & Hcase & _);
    try (change (cur (entered s)) with (cur s)); rewrite ?Hc; try done.
  change (cur (entered s)) with (cur s) in *. rewrite Hc in *.
  destruct Hcase as [(_ & O1 & C1 & I1) | (l1 & n & l2 & Hx & _)]; [| rewrite Hw in Hx; by destruct l1].
  exists (upd_cpu (set_preempt_cnt 0) s1). split; [| split; [split |]].
  - unfold mutex_unlock. rewrite (proj2 (Z.eqb_neq _ _) Hm). unfold get, modify_opt, mbind, K_bind. rewrite disable_eq by done. cbn [kbind].
    change (cur (entered s)) with (cur s). change (mtx (entered s) m) with (mtx s m). rewrite Hc, Ho, (proj2 (Z.eqb_neq _ _) Hn), Z.eqb_refl.
    cbn [orb negb]. rewrite E. cbn [kbind]. by rewrite enable_quiet by (by rewrite C1).
  - by apply sync_inv_cpu.
  - change (cur (upd_cpu (set_preempt_cnt 0) s1)) with (current_thread (cpu s1)). by rewrite C1.
  - done.
  - cbn [cpu upd_cpu set_cpu]. by rewrite C1.
  - done.
Qed.

End Uncontended.

(** ** The two remedies *)

(** Every thread that waits for a mutex owns only mutexes at lower addresses. *)
Definition in_order (s : kst) : Prop :=
  forall t x, t <> nullptr -> owner (mtx s x) = t -> t_waiting_on (thr s t) <> nullptr -> x < t_waiting_on (thr s t).

Lemma in_order_hops s c m k w : in_order s -> (forall x, owner (mtx s x) = c -> x < m) -> m <= w -> owner_hop s k (owner (mtx s w)) <> Some c.
Proof.
  intros Ho Hc. revert w. induction k as [|k IH]; intros w Hw; cbn [owner_hop];
    (destruct (Z.eqb_spec (owner (mtx s w)) nullptr) as [| Hn]; [done |]).
  - intros [= E]. specialize (Hc w E). lia.
  - destruct (Z.eqb_spec (t_waiting_on (thr s (owner (mtx s w)))) nullptr) as [| Hx]; [done |]. apply IH.
    specialize (Ho _ w Hn eq_refl Hx). lia.
Qed.

Lemma runs_owns s c l wqs sq own x : runs s c l wqs sq own -> x ∈ own c <-> owner (mtx s x) = c.
Proof. intros []. apply (yi_owner _ _ _ _ _ rn_sync0), rn_cur0. Qed.

Section Remedies.

Context (C : config).

(** Blocking as [runs] sees it: the waiter is recorded, ownership stays. *)
Lemma block_facts s c m l wqs sq own : runs s c l wqs sq own -> m <> nullptr -> owner (mtx s m) <> nullptr -> owner (mtx s m) <> c ->
  exists s', mutex_block C c m (entered s) = Some s' /\ (forall x, owner (mtx s' x) = owner (mtx s x)) /\
    forall u, t_waiting_on (thr s' u) = if c =? u then m else t_waiting_on (thr s u).
Proof.
  intros H Hm Ho1 Ho2. destruct (runs_ready _ _ _ _ _ _ H) as [Hr Hk]. pose proof H as [H1 [Hc Hn] H3 _].
  destruct (mutex_block_spec C (entered s) l wqs sq own m (entered_inv _ _ _ _ _ H1)) as (s' & E & _ & _ & M & _ & W & _ & F & _);
    try (change (cur (entered s)) with (cur s)); rewrite ?Hc; try done.
  change (cur (entered s)) with (cur s) in *. rewrite Hc in *. exists s'. split; [done | split].
  - intros x. rewrite M. by destruct (m =? x).
  - intros u. destruct (Z.eqb_spec c u) as [<- | Hne]; [done |]. by apply F.
Qed.

Lemma block_in_order s c m l wqs sq own s' : runs s c l wqs sq own -> in_order s -> (forall x, x ∈ own c -> x < m) -> m <> nullptr ->
  owner (mtx s m) <> nullptr -> owner (mtx s m) <> c -> mutex_block C c m (entered s) = Some s' -> in_order s'.
Proof.
  intros H Hio Hlt Hm Ho1 Ho2 E. destruct (block_facts s c m l wqs sq own H Hm Ho1 Ho2) as (s1 & E' & M & W).
  rewrite E in E'. injection E' as <-. intros t x Ht Hx. rewrite M in Hx. rewrite W.
  destruct (Z.eqb_spec c t) as [<- |]; [intros _; apply Hlt; by apply (runs_owns s c l wqs sq own) | by apply Hio].
Qed.

Lemma take_in_order s c m l wqs sq own : runs s c l wqs sq own -> in_order s -> m <> nullptr -> owner (mtx s m) = nullptr -> in_order (take c m s).
Proof.
  intros H Hio Hm Ho. pose proof (rn_cur _ _ _ _ _ _ H) as [_ Hc]. destruct (take_facts c m s Hc Hm) as (W & M & _).
  intros t x Ht. rewrite M, W. destruct (Z.eqb_spec c t) as [<- | Hne]; [done |]. destruct (m =? x); [congruence |]. by apply Hio.
Qed.

Lemma lock_two_eq fuel a b s : a <> nullptr -> b <> nullptr -> a <> b ->
  dl_lock_two_ordered C fuel a b s = kbind (mutex_lock C fuel (Z.min a b) s) (fun _ => mutex_lock C fuel (Z.max a b)).
Proof.
  intros Ha Hb Hne. unfold dl_lock_two_ordered. rewrite (proj2 (Z.eqb_neq _ _) Ha), (proj2 (Z.eqb_neq _ _) Hb), (proj2 (Z.eqb_neq _ _) Hne). cbn [orb].
  destruct (Z.ltb_spec a b); [rewrite Z.min_l, Z.max_r by lia | rewrite Z.min_r, Z.max_l by lia]; reflexivity.
Qed.

Lemma unlock_two_eq a b s : a <> nullptr -> b <> nullptr -> a <> b ->
  dl_unlock_two_ordered C a b s = kbind (mutex_unlock C (Z.max a b) s) (fun _ => mutex_unlock C (Z.min a b)).
Proof.
  intros Ha Hb Hne. unfold dl_unlock_two_ordered. rewrite (proj2 (Z.eqb_neq _ _) Ha), (proj2 (Z.eqb_neq _ _) Hb), (proj2 (Z.eqb_neq _ _) Hne). cbn [orb].
  destruct (Z.ltb_spec a b); [rewrite Z.min_l, Z.max_r by lia | rewrite Z.min_r, Z.max_l by lia]; reflexivity.
Qed.

End Remedies.

(** C24: the first remedy.  Both workers take the lower mutex first and release
    it last, in whatever order they name the two.  As long as every thread waits
    only for mutexes above all it owns, a request above everything the caller owns
    closes no cycle, so [LOCKDEP] has nothing to report; and both ways such a
    request can go, taking the mutex and blocking on it, keep that order. *)
Theorem ordering_prevents_deadlock C fuel s c m l wqs sq own :
  runs s c l wqs sq own -> in_order s -> (forall x, x ∈ own c -> x < m) -> m <> nullptr ->
  (forall a b s, a <> nullptr -> b <> nullptr -> a <> b ->
     dl_lock_two_ordered C fuel a b s = kbind (mutex_lock C fuel (Z.min a b) s) (fun _ => mutex_lock C fuel (Z.max a b)) /\
     dl_unlock_two_ordered C a b s = kbind (mutex_unlock C (Z.max a b) s) (fun _ => mutex_unlock C (Z.min a b))) /\
  (forall k, owner_hop s k (owner (mtx s m)) <> Some c) /\ lockdep_would_deadlock c m s = false /\
  (owner (mtx s m) = nullptr -> mutex_lock C (Datatypes.S fuel) m s = KDone () (take c m s) /\ in_order (take c m s)) /\
  (owner (mtx s m) <> nullptr -> rq_del c l <> [] -> exists s1 n k, mutex_block C c m (entered s) = Some s1 /\ in_order s1 /\
     mutex_lock C (Datatypes.S fuel) m s = KSwitch c n (switched n (upd_cpu (set_preempt_cnt 0) s1)) k).
Proof.
  intros H Hio Hlt Hm. pose proof H as [H1 [Hc Hn] H3 (Hp & _ & Hi)]. destruct (runs_ready _ _ _ _ _ _ H) as [Hr Hk].
  assert (Hown : forall x, owner (mtx s x) = c -> x < m) by (intros x Hx; apply Hlt; by apply (runs_owns s c l wqs sq own)).
  assert (Hhop : forall k, owner_hop s k (owner (mtx s m)) <> Some c) by (intros k; apply (in_order_hops s c m k m); [done | done | lia]).
  assert (Hld : lockdep_would_deadlock c m s = false).
  { unfold lockdep_would_deadlock. rewrite (proj2 (Z.eqb_neq _ _) Hn), (proj2 (Z.eqb_neq _ _) Hm). cbn [orb].
    destruct (lockdep_chain 16 s c _) eqn:E; [| done]. apply (lockdep_chain_spec s c _ _ Hn) in E as (k & _ & E). by apply Hhop in E. }
  split; [intros; split; [by apply lock_two_eq | by apply unlock_two_eq] | split; [done | split; [done | split]]].
  - intros Ho. split; [by apply (lock_free C fuel s c m l wqs sq own) | by apply (take_in_order s c m l wqs sq own)].
  - intros Ho Hl. assert (Ho2 : owner (mtx s m) <> c) by (intros E; specialize (Hown m E); lia).
    destruct (mutex_lock_blocks C fuel s l wqs sq own m) as (s1 & n & k & E & _ & El); rewrite ?Hc; try done; [by rewrite Hld, andb_false_r |].
    rewrite Hc in *. exists s1, n, k. split; [done | split; [| done]]. by apply (block_in_order C s c m l wqs sq own s1).
Qed.

(** the second remedy.  A worker that owns nothing tries for two mutexes
    with [dl_lock_two_trylock_backoff]: with both free it owns both; with the
    second taken it gives the first back before it delays and yields, and starts
    over; with the first taken it waits for it.  Wherever another thread may run,
    it owns nothing, so nobody waits for it. *)
Theorem backoff_holds_nothing C at_spin fuel k n s c first second l wqs sq own :
  runs s c l wqs sq own -> own c = [] -> first <> nullptr -> second <> nullptr -> first <> second ->
  mutexes s !! first <> None -> mutexes s !! second <> None -> wqs first = [] -> lockdep_enabled C = false ->
  let loop := backoff_loop C at_spin (Datatypes.S fuel) in
  (owner (mtx s first) = nullptr -> owner (mtx s second) = nullptr -> exists s' own', loop (Datatypes.S k) n first second s = KDone () s' /\
     runs s' c l wqs sq own' /\ own' c = [second; first]) /\
  (owner (mtx s first) = nullptr -> owner (mtx s second) <> nullptr -> exists s' own', runs s' c l wqs sq own' /\ own' c = [] /\
     owner (mtx s' first) = nullptr /\
     loop (Datatypes.S k) n first second s =
       kbind (thread_yield (sched_policy_prio C) (at_spin n s')) (fun _ => loop k (Datatypes.S n) first second)) /\
  (owner (mtx s first) <> nullptr -> rq_del c l <> [] -> exists s' next r, loop (Datatypes.S k) n first second s = KSwitch c next s' r /\
     forall x, owner (mtx s' x) <> c).
Proof.
  intros H Ho Hf Hs Hne Kf Ks Hw Hld loop. pose proof H as [H1 [Hc Hn] H3 (Hp & _ & Hi)]. destruct (runs_ready _ _ _ _ _ _ H) as [Hr Hk].
  assert (Hno : forall x, owner (mtx s x) <> c).
  { intros x Hx. apply (runs_owns s c l wqs sq own x H) in Hx. rewrite Ho in Hx. by apply not_elem_of_nil in Hx. }
  destruct (take_facts c first s Hn Hf) as (_ & M & K & _).
  assert (M2 : owner (mtx (take c first s) second) = owner (mtx s second)) by (by rewrite M, (proj2 (Z.eqb_neq _ _) Hne)).
  split; [| split].
  - intros O1 O2. pose proof (take_runs s c first l wqs sq own H Hf Kf O1) as T1. rewrite <- M2 in O2.
    exists (take c second (take c first s)), (fupd (fupd own c (first :: own c)) c (second :: fupd own c (first :: own c) c)).
    split; [| split; [by apply take_runs; [| | apply K |] | by rewrite !fupd_eq, Ho]].
    unfold loop. cbn [backoff_loop]. unfold mbind, K_bind, mret, K_ret. rewrite (lock_free C fuel s c first l wqs sq own) by done. cbn [kbind].
    by rewrite (trylock_free C _ c second _ _ _ _ T1).
  - intros O1 O2. pose proof (take_runs s c first l wqs sq own H Hf Kf O1) as T1.
    destruct (unlock_alone C _ c first _ _ _ _ T1 Hf) as (s' & E & R & O3); [by rewrite M, Z.eqb_refl | done |].
    exists s'. eexists. split; [exact R | split; [| split; [done |]]].
    + rewrite !fupd_eq, Ho. unfold own_del. by rewrite filter_cons_False by tauto.
    + unfold loop at 1. cbn [backoff_loop]. unfold spin, modify, mbind, K_bind, mret, K_ret. rewrite (lock_free C fuel s c first l wqs sq own) by done. cbn [kbind].
      rewrite (trylock_held C _ c second _ _ _ _ T1 Hs) by (rewrite M2; done). cbn [kbind Z.eqb]. rewrite E. reflexivity.
  - intros O1 Hl. destruct (mutex_lock_blocks C fuel s l wqs sq own first) as (s1 & nx & r & E & _ & El); rewrite ?Hc; try done; [by rewrite Hld |].
    rewrite Hc in *. destruct (block_facts C s c first l wqs sq own H Hf O1) as (s1' & E' & M1 & _); [apply Hno |].
    rewrite E in E'. injection E' as <-. eexists _, nx, _. split.
    + unfold loop. cbn [backoff_loop]. unfold mbind, K_bind. rewrite El. reflexivity.
    + intros x. rewrite mtx_switched. change (mtx (upd_cpu ?f s1) x) with (mtx s1 x). rewrite M1. apply Hno.
Qed.

(** ** What a hand-over leaves alone *)

(** Memory, console and base priorities are kept; effective priorities are kept
    outside [P]. *)
Record mild (P : Z -> Prop) (s s' : kst) : Prop := {
  md_quiet : quiet s s';
  md_base : forall t, t_base_priority (thr s' t) = t_base_priority (thr s t);
  md_eff : forall t, ~ P t -> t_effective_priority (thr s' t) = t_effective_priority (thr s t)
}.

Section Mild.

Context (C : config) (P : Z -> Prop).

Lemma mild_trans s1 s2 s3 : mild P s2 s3 -> mild P s1 s2 -> mild P s1 s3.
Proof.
  intros [[A1 A2] A3 A4] [[B1 B2] B3 B4]. split; [split; congruence | intros t; by rewrite A3, B3 | intros t Ht; by rewrite A4, B4].
Qed.

Lemma mild_refl s : mild P s s.
Proof. done. Qed.

Lemma mild_upd a f s : (forall x, t_base_priority (f x) = t_base_priority x) ->
  (P a \/ forall x, t_effective_priority (f x) = t_effective_priority x) -> mild P s (upd_thr a f s).
Proof.
  intros Hb He. split; [done | |]; intros t; rewrite thr_upd; (destruct (Z.eqb_spec a t) as [<- |]; [| done]); [apply Hb |].
  intros Ht. destruct He as [? | He]; [done | apply He].
Qed.

Ltac mild := repeat first
  [ apply mild_refl | assumption
  | match goal with |- mild _ ?s (upd_thr ?a ?f ?x) => apply (mild_trans s x); [by apply mild_upd; [| right] |] end
  | match goal with |- mild _ ?s (set_next ?a ?f ?x) => apply (mild_trans s x); [by apply mild_upd; [| right] |] end
  | match goal with |- mild _ ?s (set_rq_head ?a ?x) => apply (mild_trans s x); [done |] end
  | match goal with |- mild _ ?s (set_rq_tail ?a ?x) => apply (mild_trans s x); [done |] end
  | match goal with |- mild _ ?s (upd_mtx ?a ?f ?x) => apply (mild_trans s x); [done |] end
  | match goal with |- mild _ ?s (upd_cpu ?f ?x) => apply (mild_trans s x); [done |] end
  | match goal with |- mild _ ?s (if ?b then ?x else ?y) => destruct b end ].

Lemma owned_unlink_mild n t m it prev s s' : owned_unlink n t m it prev s = Some s' -> mild P s s'.
Proof.
  revert it prev. induction n as [|n IH]; intros it prev; cbn [owned_unlink]; [done |].
  destruct (it =? nullptr); [by intros [= <-] |]. destruct (it =? m); [| apply IH]. intros [= <-]. mild.
Qed.

Lemma pop_mild h s b h' s' : waitq_pop_highest h s = Some (b, h', s') -> mild P s s'.
Proof.
  unfold waitq_pop_highest. destruct (h =? nullptr); [by intros [= <- <- <-] |].
  destruct (pop_scan _ _ _ _ _ _ _) as [[x y] |]; cbn [mbind option_bind]; [| done].
  destruct (negb (y =? nullptr)); intros [= <- <- <-]; mild.
Qed.

Lemma make_runnable_mild t s : mild P s (sched_make_runnable t s).
Proof. unfold sched_make_runnable, rq_append. cbv zeta. mild. Qed.

Lemma recompute_mild t s s' : P t -> recompute_effective_priority C t s = Some s' -> mild P s s'.
Proof. intros Ht [-> | [e ->]]%recompute_shape; [done |]. apply mild_upd; [done | by left]. Qed.

Lemma apply_pi_mild m s s' : P (owner (mtx s m)) -> mutex_apply_pi C m s = Some s' -> mild P s s'.
Proof.
  unfold mutex_apply_pi. intros Hp. destruct (_ || _); [by intros [= <-] |]. destruct (_ =? _); [by intros [= <-] |]. by apply recompute_mild.
Qed.

Lemma owner_add t m s x : owner (mtx (thread_owned_mutex_add t m s) x) = owner (mtx s x).
Proof.
  unfold thread_owned_mutex_add. destruct (_ || _); [done |]. change (mtx (upd_thr t ?f ?y) x) with (mtx y x). rewrite mtx_upd. by destruct (m =? x).
Qed.

Lemma owner_runnable t s x : mtx (sched_make_runnable t s) x = mtx s x.
Proof. unfold sched_make_runnable, rq_append. cbv zeta. repeat match goal with |- context [if ?b then _ else _] => destruct b end; done. Qed.

(** Only the caller's and the new owner's effective priorities may change. *)
Lemma release_mild c m s s' : P c -> P (owner (mtx s' m)) -> mutex_release C c m s = Some s' -> mild P s s'.
Proof.
  intros Hc Hn. unfold mutex_release, thread_owned_mutex_remove.
  destruct (if _ || _ then Some s else _) as [s1 |] eqn:E1; cbn [mbind option_bind]; [| done].
  assert (M1 : mild P s s1) by (destruct (_ || _); [by injection E1 as <- | by apply owned_unlink_mild in E1]). clear E1.
  destruct (waitq_pop_highest _ s1) as [[[n h'] s2] |] eqn:E2; cbn [mbind option_bind]; [| done].
  assert (M2 : mild P s s2) by (eapply mild_trans; [by eapply pop_mild | done]). clear E2 M1.
  set (s3 := upd_mtx m (set_waiters h') s2). assert (M3 : mild P s s3) by (apply (mild_trans s s2); done). clearbody s3. clear M2.
  destruct (Z.eqb_spec n nullptr) as [-> | Hne]; cbn [negb andb mbind option_bind].
  - destruct (recompute_effective_priority C c (upd_mtx m (set_owner nullptr) s3)) as [s5 |] eqn:E5; cbn [mbind option_bind]; [| done]. intros [= <-].
    apply (recompute_mild c _ _ Hc) in E5. eapply mild_trans; [exact E5 |]. mild.
  - set (s4 := sched_make_runnable n _). assert (O4 : owner (mtx s4 m) = n).
    { unfold s4. rewrite owner_runnable, owner_add. change (mtx (upd_thr n ?f ?y) m) with (mtx y m). by rewrite mtx_upd_eq. }
    assert (M4 : mild P s s4).
    { unfold s4. eapply mild_trans; [apply make_runnable_mild |]. unfold thread_owned_mutex_add. mild. }
    clearbody s4. destruct (mutex_apply_pi C m s4) as [s5 |] eqn:E5; cbn [mbind option_bind]; [| done].
    destruct (recompute_effective_priority C c s5) as [s6 |] eqn:E6; cbn [mbind option_bind]; [| done]. intros E. injection E as E.
    assert (O6 : owner (mtx s' m) = owner (mtx s4 m)).
    { apply apply_pi_shape in E5 as [-> | (? & ? & ->)]; apply recompute_shape in E6 as [-> | [? ->]]; rewrite <- E; by destruct (_ && _). }
    rewrite O6 in Hn. apply (recompute_mild c _ _ Hc) in E6. apply (apply_pi_mild m _ _ Hn) in E5.
    assert (M6 : mild P s s6) by (apply (mild_trans s s5); [done | by apply (mild_trans s s4)]).
    rewrite <- E. destruct (_ && _); [| done]. by apply (mild_trans s s6).
Qed.

End Mild.

(** ** The priority inversion *)

Section Inversion.

Context (C : config) (HC : sched_policy_prio C = true) (HPI : cfg_mutex_pi C = true) (G : sync_cfg) (HG : vars_apart (at_ G) width).

(** The medium thread runs, the low one owns the lock and is kept from running,
    the high one waits for the lock. *)
Record inverted (s : kst) (lo mi hi : Z) (l : list Z) (wqs sq own : Z -> list Z) : Prop := {
  iv_runs : runs s mi l wqs sq own;
  iv_lock : g_lock G <> nullptr /\ mutexes s !! g_lock G <> None /\ owner (mtx s (g_lock G)) = lo;
  iv_low : lo <> nullptr /\ lo <> mi /\ lo ∈ l /\ own lo = [g_lock G];
  iv_high : wqs (g_lock G) = [hi] /\ hi <> nullptr;
  iv_base : t_base_priority (thr s lo) < t_base_priority (thr s hi);
  iv_best : forall u, u ∈ l -> u <> lo -> t_effective_priority (thr s u) < t_base_priority (thr s hi)
}.

Lemma set_pi_inv s l wqs sq own m v : sync_inv s l wqs sq own -> sync_inv (upd_mtx m (set_pi_enabled v) s) l wqs sq own.
Proof.
  intros [H1 H2 H3 H4 H5 H6 H7 H8].
  assert (M : forall x, owner (mtx (upd_mtx m (set_pi_enabled v) s) x) = owner (mtx s x) /\ waiters (mtx (upd_mtx m (set_pi_enabled v) s) x) = waiters (mtx s x) /\
    owner_next (mtx (upd_mtx m (set_pi_enabled v) s) x) = owner_next (mtx s x)) by (intros x; rewrite mtx_upd; by destruct (m =? x)).
  split; try done.
  - by apply (sched_inv_same s).
  - intros x. rewrite (proj1 (proj2 (M x))). apply (wq_rep_ext s); [done | done | apply H2].
  - intros a. apply (wq_rep_ext s); [done | done | apply H3].
  - intros x t Ht. rewrite (proj1 (M x)). by apply H4.
  - intros t Ht. apply (owned_rep_ext s); [done | intros x; apply M | intros x Hx; by apply known_mtx | by apply H7].
  - intros x t Ht. rewrite (proj1 (M x)). by apply H8.
Qed.

(** The state in which inheritance is on. *)
Definition boosted (lo e : Z) (s : kst) : kst := upd_thr lo (set_t_effective_priority e) (upd_mtx (g_lock G) (set_pi_enabled 1) s).

(** Turning inheritance on raises the owner above every queued thread. *)
Lemma set_pi_boosts s lo mi hi l wqs sq own : inverted s lo mi hi l wqs sq own ->
  exists e, mutex_set_pi_enabled C (g_lock G) 1 s = KDone () (boosted lo e s) /\ sync_inv (boosted lo e s) l wqs sq own /\
    t_effective_priority (thr s hi) <= e.
Proof.
  intros []. destruct iv_runs0 as [R1 [R2 R3] R4 (R5 & R6 & R7)], iv_lock0 as (L1 & L2 & L3), iv_low0 as (A1 & A2 & A3 & A4), iv_high0 as [B1 B2].
  set (s1 := upd_mtx (g_lock G) (set_pi_enabled 1) (entered s)).
  assert (I1 : sync_inv s1 l wqs sq own) by (by apply set_pi_inv, entered_inv).
  assert (O1 : owner (mtx s1 (g_lock G)) = lo) by (unfold s1; by rewrite mtx_upd_eq).
  destruct (recompute_ready C s1 wqs own lo (sync_pi_ready _ _ _ _ _ I1) A1) as (s2 & E & e & E2 & Hp & Hi). rewrite HPI in Hi.
  exists e. split; [| split].
  - unfold mutex_set_pi_enabled. rewrite (proj2 (Z.eqb_neq _ _) L1). unfold modify, modify_opt, mbind, K_bind.
    rewrite disable_eq by done. cbn [kbind Z.eqb negb]. fold s1. rewrite O1, (proj2 (Z.eqb_neq _ _) A1). cbn [negb]. rewrite E. cbn [kbind].
    rewrite E2, enable_quiet by done. f_equal. change (upd_cpu (set_preempt_cnt 0) (upd_thr lo (set_t_effective_priority e) s1)) with
      (boosted lo e (upd_cpu (set_preempt_cnt 0) (entered s))). by rewrite leave_entered.
  - unfold boosted. apply sync_inv_upd; [done | exact Hp | by left | by apply set_pi_inv].
  - destruct Hi as (_ & Hi & _). change (thr s hi) with (thr s1 hi). apply (Hi (g_lock G)).
    + rewrite A4. by left.
    + unfold s1. by rewrite mtx_upd_eq.
    + rewrite B1. by left.
Qed.

(** A yield that excludes the caller goes to the one best thread. *)
Lemma yield_to_best s l n : sched_inv s l -> cur s <> nullptr -> preempt_cnt (cpu s) = 0 -> n ∈ l -> n <> cur s ->
  (forall u, u ∈ l -> u <> n -> t_effective_priority (thr s u) < t_effective_priority (thr s n)) ->
  thread_yield true s = KSwitch (cur s) n (switched n s) (fun s' => KDone () (fpsimd_load s')).
Proof.
  intros H Hc Hp Hn Hne Hb. unfold thread_yield, get, of_opt, mbind, K_bind, mret, K_ret. cbn [kbind]. rewrite Hp, (proj2 (Z.eqb_neq _ _) Hc). cbn [Z.eqb negb].
  destruct (prio_pick_next_spec s l (cur s) true true (si_rep _ _ H)) as (t & E & _ & Hyes);
    [done | by apply sched_inv_cur_in | intros; by apply (sched_inv_prio_pos s l) |].
  rewrite E. cbn [kbind]. destruct Hyes as ((Ht & _ & Hmax) & _); [exists n; split; [done | by apply (sched_inv_ready s l)] |].
  assert (t = n) as ->.
  { destruct (Z.eq_dec t n) as [| Htn]; [done |]. specialize (Hb t Ht Htn). specialize (Hmax n Hn (sched_inv_ready s l n H Hn)). lia. }
  assert (Hn0 : n <> nullptr) by (intros ->; by apply (rq_nonnull s l (si_rep _ _ H))).
  rewrite (proj2 (Z.eqb_neq _ _) Hn0), (proj2 (Z.eqb_neq _ _) Hne). cbn [negb andb]. apply do_switch_eq.
Qed.

(** The owner unlocks with one, stronger, waiter: it loses its priority and the
    processor. *)
Lemma unlock_to_waiter s lo hi l wqs sq own m : runs s lo l wqs sq own -> m <> nullptr -> owner (mtx s m) = lo -> own lo = [m] -> wqs m = [hi] ->
  lo <> hi -> t_base_priority (thr s lo) < t_base_priority (thr s hi) ->
  (forall u, u ∈ l -> u <> lo -> t_effective_priority (thr s u) < t_base_priority (thr s hi)) ->
  exists s' k, mutex_unlock C m s = KSwitch lo hi s' k /\ cur s' = hi /\ owner (mtx s' m) = hi /\ quiet s s' /\
    t_effective_priority (thr s' lo) = t_base_priority (thr s lo).
Proof.
  intros H Hm Ho Hown Hw Hne Hbase Hbest. destruct (runs_ready _ _ _ _ _ _ H) as [Hr Hk]. destruct H as [H1 [Hc Hn] H3 (Hp & Hq & Hi)].
  destruct (mutex_release_spec C (entered s) l wqs sq own m (entered_inv _ _ _ _ _ H1)) as (s1 & E & Hcase & Hlow);
    try (change (cur (entered s)) with (cur s)); rewrite ?Hc; try done.
  change (cur (entered s)) with (cur s) in *. rewrite Hc in *. specialize (Hlow Hown).
  destruct Hcase as [(Hx & _) | (l1 & n & l2 & Hx & _ & O1 & S1 & _ & I1 & C1)]; [by rewrite Hx in Hw |].
  rewrite Hw in Hx. destruct l1 as [|? l1]; [| by destruct l1]. injection Hx as <- <-.
  destruct (release_mild C (fun t => t = lo \/ t = hi) lo m (entered s) s1) as [[Q1 Q2] Mb Me]; [by left | rewrite O1; by right | done |].
  change (thr (entered s)) with (thr s) in Mb, Me.
  assert (Hhi : t_base_priority (thr s hi) <= t_effective_priority (thr s1 hi)).
  { rewrite <- (Mb hi). apply (si_prio _ _ (yi_sched _ _ _ _ _ I1)). }
  assert (C2 : cpu s1 = set_need_resched 1 (cpu (entered s))) by (rewrite C1; rewrite (proj2 (Z.ltb_lt _ _)); [done | rewrite Hlow, Mb; lia]).
  assert (Hcur : cur s1 = lo) by (unfold cur; by rewrite C2).
  pose proof (yi_sched _ _ _ _ _ I1) as Hs.
  assert (Hin : hi ∈ l ++ [hi]) by (rewrite elem_of_app; right; by left).
  unfold mutex_unlock. rewrite (proj2 (Z.eqb_neq _ _) Hm). unfold get, modify_opt, mbind, K_bind. rewrite disable_eq by done. cbn [kbind].
  change (cur (entered s)) with (cur s). change (mtx (entered s) m) with (mtx s m). rewrite Hc, Ho, (proj2 (Z.eqb_neq _ _) Hn), Z.eqb_refl. cbn [orb negb].
  rewrite E. cbn [kbind].
  destruct (resched_spec (upd_cpu (set_preempt_cnt 0) s1) (l ++ [hi])) as (_ & _ & R); [by apply (sched_inv_same s1) | change (cur s1 <> nullptr); by rewrite Hcur |].
  destruct R as (b & (Hb & _ & Hmax) & _ & _ & R); [done | by destruct l |].
  change (thr (upd_cpu (set_preempt_cnt 0) s1)) with (thr s1) in Hmax.
  assert (b = hi) as ->.
  { specialize (Hmax hi Hin (sched_inv_ready (upd_cpu (set_preempt_cnt 0) s1) (l ++ [hi]) hi ltac:(by apply (sched_inv_same s1)) Hin)).
    apply elem_of_app in Hb as [Hb | ->%list_elem_of_singleton]; [| done]. destruct (Z.eq_dec b hi) as [| Hbh]; [done |].
    destruct (Z.eq_dec b lo) as [-> | Hbl]; [rewrite Hlow, Mb in Hmax; lia |].
    rewrite (Me b) in Hmax by tauto. specialize (Hbest b Hb Hbl). lia. }
  change (cur (upd_cpu (set_preempt_cnt 0) s1)) with (cur s1) in R. rewrite Hcur, (proj2 (Z.eqb_neq hi lo)) in R by done. destruct R as (k & R & _).
  unfold enable. rewrite HC, preempt_enable_one, C2 by (by rewrite C2). cbn [need_resched irq_depth set_need_resched].
  change (irq_depth (cpu (entered s))) with (irq_depth (cpu s)). rewrite Hi. cbn [Z.eqb negb andb].
  change (cur (upd_cpu (set_preempt_cnt 0) s1)) with (cur s1) in R. rewrite Hcur in R.
  destruct (switched_quiet hi (upd_cpu (set_preempt_cnt 0) s1)) as [Q3 Q4].
  eexists _, _. split; [exact R | split; [done | split; [by rewrite mtx_switched | split]]].
  - split; [rewrite Q3 | rewrite Q4]; [exact Q1 | exact Q2].
  - rewrite thr_switched. rewrite (proj2 (proj2 (save_fields _ _))). change (thr (upd_cpu ?f s1) lo) with (thr s1 lo). by rewrite Hlow, Mb.
Qed.

Lemma inverted_same s s' lo mi hi l wqs sq own : inverted s lo mi hi l wqs sq own ->
  threads s' = threads s -> mutexes s' = mutexes s -> sems s' = sems s -> rq_head s' = rq_head s -> rq_tail s' = rq_tail s -> cpu s' = cpu s ->
  inverted s' lo mi hi l wqs sq own.
Proof.
  intros [[R1 R2 R3 R4] I1 I2 I3 I4 I5] Et Em Es Eh El Ec. assert (Ecur : cur s' = cur s) by (unfold cur; by rewrite Ec).
  assert (T : forall t, thr s' t = thr s t) by (intros t; unfold thr; by rewrite Et).
  assert (M : forall m, mtx s' m = mtx s m) by (intros m; unfold mtx; by rewrite Em).
  split; rewrite ?M, ?T, ?Em; try done.
  - split; rewrite ?Ecur, ?Ec; try done. by apply (sync_inv_same s).
  - intros u Hu Hne. rewrite T. by apply I5.
Qed.

(** What the medium thread prints. *)
Definition observed_line (printed : bool) : list Z :=
  if printed then [] else puts_bytes (chars ("[sync-lab] inversion observed; enabling PI" ++ newline)).

(** The step in which inheritance is turned on ends in the low thread. *)
Lemma enable_pi_switches s lo mi hi l wqs sq own printed : inverted s lo mi hi l wqs sq own ->
  exists e s' k, enable_pi C G printed s = KSwitch mi lo s' k /\ s' = switched lo (boosted lo e (wr G g_pi_enabled 1 (set_out (out s ++ observed_line printed) s))) /\
    sync_inv s' l wqs sq own /\ t_effective_priority (thr s hi) <= e.
Proof.
  intros H. set (s0 := wr G g_pi_enabled 1 (set_out (out s ++ observed_line printed) s)).
  assert (H0 : inverted s0 lo mi hi l wqs sq own) by (by apply (inverted_same s)).
  destruct (set_pi_boosts s0 lo mi hi l wqs sq own H0) as (e & E & Hs & He). change (thr s0) with (thr s) in He.
  pose proof H0 as [[R1 [R2 R3] R4 (R5 & R6 & R7)] _ (L1 & L2 & L3 & L4) _ Ib Ibest]. change (thr s0) with (thr s) in *.
  assert (Hprio : t_base_priority (thr s hi) <= t_effective_priority (thr s hi)) by apply (si_prio _ _ (yi_sched _ _ _ _ _ R1) hi).
  assert (T : forall u, t_effective_priority (thr (boosted lo e s0) u) = if lo =? u then e else t_effective_priority (thr s u)).
  { intros u. unfold boosted. rewrite thr_upd. by destruct (lo =? u). }
  exists e, (switched lo (boosted lo e s0)), (fun s' => KDone () (fpsimd_load s')). split; [| split; [done | split; [| done]]].
  - unfold enable_pi, modify, mbind, K_bind. cbn [kbind]. rewrite HC.
    replace (wr G g_pi_enabled 1 ((if printed then id else say _) s)) with s0.
    2: { unfold s0, observed_line. destruct printed; [| done]. by rewrite app_nil_r; destruct s. }
    rewrite E. cbn [kbind]. rewrite (yield_to_best (boosted lo e s0) l lo); [by rewrite <- R2 | apply Hs | by rewrite <- R2 in R3 | done | done | change (lo <> cur s0); by rewrite R2 |].
    intros u Hu Hne. rewrite !T, Z.eqb_refl, (proj2 (Z.eqb_neq lo u)) by congruence. specialize (Ibest u Hu Hne). lia.
  - by apply sync_inv_switched.
Qed.

(** The low thread as it gets the processor. *)
Lemma boosted_runs s lo mi hi l wqs sq own e : inverted s lo mi hi l wqs sq own -> sync_inv (switched lo (boosted lo e s)) l wqs sq own ->
  runs (switched lo (boosted lo e s)) lo l wqs sq own /\ owner (mtx (switched lo (boosted lo e s)) (g_lock G)) = lo /\
  forall u, t_base_priority (thr (switched lo (boosted lo e s)) u) = t_base_priority (thr s u) /\
    t_effective_priority (thr (switched lo (boosted lo e s)) u) = if lo =? u then e else t_effective_priority (thr s u).
Proof.
  intros [[R1 [R2 R3] R4 R5] (L1 & L2 & L3) (A1 & A2 & A3 & A4) _ _ _] Hs.
  assert (Hc : cpu (switched lo (boosted lo e s)) = set_current_thread lo (cpu s)) by (unfold switched; cbn [cpu upd_cpu set_cpu]; by rewrite cpu_save).
  split; [split; rewrite ?Hc; try done | split].
  - rewrite mtx_switched. unfold boosted. change (mtx (upd_thr lo ?f ?y) (g_lock G)) with (mtx y (g_lock G)). by rewrite mtx_upd_eq.
  - intros u. rewrite thr_switched, thr_save. unfold boosted. rewrite thr_upd.
    repeat match goal with |- context [if ?b then _ else _] => destruct b end; done.
Qed.

End Inversion.

(** C25: the inversion and its end.  While the high thread waits for the mutex
    of a low thread that the medium one keeps from running, the medium thread's
    turn after twenty ticks turns inheritance on and yields: the low thread gets
    the processor with at least the high one's priority; its waiting loop ends,
    and the unlock that follows hands the mutex and the processor to the high
    thread and takes the borrowed priority back. *)
Theorem inversion_resolved C G at_spin fuel k n s lo mi hi l wqs sq own t0 printed :
  sched_policy_prio C = true -> cfg_mutex_pi C = true -> vars_apart (at_ G) width -> lo <> hi ->
  rd G g_high_done s = 0 -> inverted G (at_spin n s) lo mi hi l wqs sq own ->
  rd G g_pi_enabled (at_spin n s) = 0 -> 20 <= ticks (cpu (at_spin n s)) -64 t0 ->
  exists s1 k1, medium_loop C G at_spin (Datatypes.S k) n t0 printed s = KSwitch mi lo s1 k1 /\ cur s1 = lo /\
    t_effective_priority (thr (at_spin n s) hi) <= t_effective_priority (thr s1 lo) /\
    out s1 = out (at_spin n s) ++ observed_line printed /\
    exists s2 k2, (pi_wait G at_spin fuel n ≫= fun _ => modify (say "[sync-lab] L unlocking") ≫= fun _ => mutex_unlock C (g_lock G)) s1 = KSwitch lo hi s2 k2 /\
      cur s2 = hi /\ owner (mtx s2 (g_lock G)) = hi /\ t_effective_priority (thr s2 lo) = t_base_priority (thr (at_spin n s) lo).
Proof.
  intros HC HPI HG Hne Hd H Hpi Ht. set (s0 := at_spin n s) in *.
  destruct (enable_pi_switches C HC HPI G s0 lo mi hi l wqs sq own printed H) as (e & s1 & k1 & E & E1 & Hs & He).
  set (sb := wr G g_pi_enabled 1 (set_out (out s0 ++ observed_line printed) s0)) in *.
  assert (Hb : inverted G sb lo mi hi l wqs sq own) by (by apply (inverted_same G s0)).
  rewrite E1 in Hs. destruct (boosted_runs G sb lo mi hi l wqs sq own e Hb Hs) as (R & Ho & T). rewrite <- E1 in R, Ho, T, Hs.
  destruct (switched_quiet lo (boosted G lo e sb)) as [Q1 Q2]. rewrite <- E1 in Q1, Q2.
  pose proof Hb as [_ (L1 & L2 & _) (A1 & A2 & A3 & A4) [B1 B2] Ib Ibest]. change (thr sb) with (thr s0) in *.
  assert (Rsay : runs (say "[sync-lab] L unlocking" s1) lo l wqs sq own).
  { destruct R as [R1 R2 R3 R4]. split; try done. by apply (sync_inv_same s1). }
  destruct (unlock_to_waiter C HC (say "[sync-lab] L unlocking" s1) lo hi l wqs sq own (g_lock G)) as (s2 & k2 & E2 & F1 & F2 & _ & F3); try done.
  - change (thr (say ?m s1)) with (thr s1). by rewrite !(proj1 (T _)).
  - intros u Hu Hul. change (thr (say ?m s1)) with (thr s1). rewrite (proj1 (T _)), (proj2 (T _)), (proj2 (Z.eqb_neq lo u)) by congruence. by apply Ibest.
  - change (thr (say ?m s1)) with (thr s1) in F3. rewrite (proj1 (T lo)) in F3.
    exists s1. eexists. split; [| split; [| split; [| split]]].
    + cbn [medium_loop]. rewrite Hd. unfold spin, modify. cbn [kbind Z.eqb]. fold s0. rewrite Hpi, (proj2 (Z.leb_le _ _) Ht). cbn [Z.eqb andb].
      rewrite E. reflexivity.
    + by rewrite E1.
    + by rewrite (proj2 (T lo)), Z.eqb_refl.
    + by rewrite Q2.
    + exists s2, k2. split; [| done]. unfold modify, mbind, K_bind.
      assert (Hx : pi_wait G at_spin fuel n s1 = KDone () s1).
      { assert (V : rd G g_pi_enabled s1 = 1).
        { transitivity (rd G g_pi_enabled sb); [by apply load_var_ram |]. unfold rd, sb, wr. by rewrite load_store_var, decide_True by done. }
        destruct fuel; cbn [pi_wait]; by rewrite V. }
      rewrite Hx. cbn [kbind]. exact E2.
Qed.

(** ** Setting the demonstrations up *)

(** What a created thread is to run. *)
Definition is_thread (s : kst) (t entry arg prio : Z) : Prop :=
  t_entry (thr s t) = entry /\ t_arg (thr s t) = arg /\ t_effective_priority (thr s t) = prio /\ t_state (thr s t) = kThreadReady /\
  threads s !! t <> None /\ t <> nullptr.

Section Setup.

Context (C : config) (HC : sched_policy_prio C = true).

Lemma is_thread_add s free live l t u entry arg prio : booting C s free live l -> t ∈ live -> t ∉ l -> (exists e a p, is_thread s t e a p) ->
  booting C (sched_add t s) free live (l ++ [t]) /\ ram (sched_add t s) = ram s /\ mutexes (sched_add t s) = mutexes s /\ sems (sched_add t s) = sems s /\
  (is_thread s u entry arg prio -> is_thread (sched_add t s) u entry arg prio).
Proof.
  intros HB Hl Hnl (e & a & p & _ & _ & _ & Hr & Hk & Hn).
  destruct (sched_add_spec C s free live l t HB Hl Hnl Hn Hk Hr) as (B & nx & T & K & E). split; [done |]. rewrite E at 1 2 3.
  split; [done | split; [done | split; [done |]]]. unfold is_thread. rewrite T. intros (H1 & H2 & H3 & H4 & H5 & H6). repeat (split; [done |]). split; [by apply K | done].
Qed.

(** The scheduler starts with a thread of greatest priority. *)
Lemma start_picks_best s free live l h : booting C s free live l -> h ∈ l -> exists t k, sched_start true s = KSwitch nullptr t (started t s) k /\ t ∈ l /\
  forall u, u ∈ l -> t_effective_priority (thr s u) <= t_effective_priority (thr s t).
Proof.
  intros HB Hh. pose proof (bt_sched _ _ _ _ _ HB) as HS.
  destruct (prio_pick_next_spec s l nullptr false false (si_rep _ _ HS)) as (b & E & _ & Hb);
    [done | unfold is_ready; by rewrite Z.eqb_refl | intros; by apply (sched_inv_prio_pos s l) |].
  destruct Hb as ((Hbl & _ & Hmax) & _); [exists h; split; [done | by apply (sched_inv_ready s l)] |].
  destruct (sched_start_spec true s b E) as [k Hk]; [intros ->; by apply (rq_nonnull s l (si_rep _ _ HS)) |].
  exists b, k. split; [done | split; [done |]]. intros u Hu. by apply Hmax, (sched_inv_ready s l).
Qed.

(** Three threads queued in the order of their creation. *)
Lemma queue_three s free t1 t2 t3 e1 e2 e3 a1 a2 a3 p1 p2 p3 : booting C s free [t3; t2; t1] [] -> NoDup [t3; t2; t1] ->
  is_thread s t1 e1 a1 p1 -> is_thread s t2 e2 a2 p2 -> is_thread s t3 e3 a3 p3 ->
  let s' := sched_add t3 (sched_add t2 (sched_add t1 s)) in
  booting C s' free [t3; t2; t1] [t1; t2; t3] /\ ram s' = ram s /\ mutexes s' = mutexes s /\ sems s' = sems s /\
  is_thread s' t1 e1 a1 p1 /\ is_thread s' t2 e2 a2 p2 /\ is_thread s' t3 e3 a3 p3.
Proof.
  intros HB Hnd T1 T2 T3. apply NoDup_cons in Hnd as [N3 Hnd]. apply NoDup_cons in Hnd as [N2 _].
  rewrite !elem_of_cons in N3. rewrite !elem_of_cons in N2.
  assert (A1 := fun u e a p => is_thread_add s free [t3; t2; t1] [] t1 u e a p HB ltac:(rewrite !elem_of_cons; tauto) (not_elem_of_nil _) ltac:(by exists e1, a1, p1)).
  destruct (A1 t1 e1 a1 p1) as (B1 & R1 & M1 & S1 & _). set (s1 := sched_add t1 s) in *. change ([] ++ [t1]) with [t1] in B1.
  pose proof (fun u e a p => proj2 (proj2 (proj2 (proj2 (A1 u e a p))))) as K1.
  assert (A2 := fun u e a p => is_thread_add s1 free [t3; t2; t1] [t1] t2 u e a p B1 ltac:(rewrite !elem_of_cons; tauto)
    ltac:(rewrite list_elem_of_singleton; tauto) ltac:(exists e2, a2, p2; by apply K1)).
  destruct (A2 t2 e2 a2 p2) as (B2 & R2 & M2 & S2 & _). set (s2 := sched_add t2 s1) in *. change ([t1] ++ [t2]) with [t1; t2] in B2.
  pose proof (fun u e a p => proj2 (proj2 (proj2 (proj2 (A2 u e a p))))) as K2.
  assert (A3 := fun u e a p => is_thread_add s2 free [t3; t2; t1] [t1; t2] t3 u e a p B2 ltac:(rewrite !elem_of_cons; tauto)
    ltac:(rewrite !elem_of_cons; tauto) ltac:(exists e3, a3, p3; by apply K2, K1)).
  destruct (A3 t3 e3 a3 p3) as (B3 & R3 & M3 & S3 & _). set (s3 := sched_add t3 s2) in *.
  pose proof (fun u e a p => proj2 (proj2 (proj2 (proj2 (A3 u e a p))))) as K3.
  split; [exact B3 | split; [congruence | split; [congruence | split; [congruence |]]]].
  split; [by apply K3, K2, K1 | split; by apply K3, K2, K1].
Qed.

Context (G : sync_cfg) (HG : vars_apart (at_ G) width) (Htr : 0 <= trampoline C < 2 ^ 64).

Abbreviation apart := (globals_apart (at_ G) width).

Lemma is_thread_kept s s' t entry arg prio : thr s' t = thr s t -> entry <> 0 -> is_thread s t entry arg prio -> is_thread s' t entry arg prio.
Proof.
  unfold is_thread. intros E He (H1 & H2 & H3 & H4 & H5 & H6). rewrite E. repeat (split; [done |]). split; [| done].
  intros En. apply He. rewrite <- H1, <- E. unfold thr. by rewrite En.
Qed.

(** What a step of the set-up keeps of the state before it. *)
Record kept (s s' : kst) (free' live' : list Z) (n : Z) : Prop := {
  kp_booting : booting C s' free' live' [];
  kp_apart : apart s' free' live';
  kp_vars : forall x, rd G x s' = rd G x s;
  kp_objects : mutexes s' = mutexes s /\ sems s' = sems s;
  kp_heap : Kmem.cur (heap s') <= Kmem.cur (heap s) + n /\ kend (heap s') = kend (heap s)
}.

Lemma spawn_step s free live entry arg prio : booting C s free live [] -> apart s free live -> entry <> 0 -> 0 <= prio <= 31 ->
  Kmem.cur (heap s) + spawn_cost 16384 <= kend (heap s) ->
  exists t s' free', thread_create_prio C entry arg (16 * 1024) prio s = (t, s') /\ kept s s' free' (t :: live) (spawn_cost 16384) /\
    is_thread s' t entry arg prio /\ (t ∉ live) /\
    forall u e a p, e <> 0 -> u ∈ live -> is_thread s u e a p -> is_thread s' u e a p.
Proof.
  intros HB HA He Hp Hroom.
  destruct (spawn_globals C (at_ G) width s free entry arg 16384 prio live [] HB HA He) as (t & s' & free' & E & Hn & Hl & HB' & Hcr & Hk & Ht & (M & S & _) & HA' & HR & H1 & H2);
    [lia | lia | done | done |].
  exists t, s', free'. split; [exact E | split; [by split | split; [| split; [done |]]]].
  - destruct Hcr as (C1 & C2 & _ & _ & _ & C6 & C7 & _). repeat (split; [done |]). split; [| by split].
    rewrite C6. unfold clamp_priority, kMaxPriority. repeat bdestr; lia.
  - intros u e a p Hne Hu. apply is_thread_kept; [apply Ht; by intros -> | done].
Qed.

(** Setting a pointer of the set-up. *)
Lemma store_step s free live x v : booting C s free live [] -> apart s free live ->
  booting C (wr G x v s) free live [] /\ apart (wr G x v s) free live /\ mutexes (wr G x v s) = mutexes s /\ sems (wr G x v s) = sems s /\ heap (wr G x v s) = heap s /\
  (forall y, y <> x -> rd G y (wr G x v s) = rd G y s) /\ (0 <= v < 256 ^ Z.of_nat (width x) -> rd G x (wr G x v s) = v) /\
  (forall u e a p, is_thread s u e a p -> is_thread (wr G x v s) u e a p).
Proof.
  intros HB HA. split; [by apply booting_store |]. split; [done |]. repeat (split; [done |]). split; [| split; [| done]].
  - intros y Hy. unfold rd, wr. by rewrite load_store_var, decide_False by done.
  - intros Hv. unfold rd, wr. rewrite load_store_var, decide_True by done. by apply Z.mod_small.
Qed.

(** The objects the linker places. *)
Record objects_ok : Prop := {
  ob_entries : low_entry G <> 0 /\ medium_entry G <> 0 /\ high_entry G <> 0 /\ worker_entry G <> 0 /\ watchdog_entry G <> 0;
  ob_mutexes : g_lock G <> nullptr /\ g_dl_a G <> nullptr /\ g_dl_b G <> nullptr /\ g_dl_a G <> g_dl_b G;
  ob_sems : g_start G <> nullptr /\ g_hold_high G <> nullptr /\ g_dl_hold G <> nullptr /\ g_start G <> g_hold_high G
}.

Lemma set_pi_fresh m v s : m <> nullptr -> owner (mtx s m) = nullptr -> preempt_cnt (cpu s) = 0 -> need_resched (cpu s) = 0 ->
  mutex_set_pi_enabled C m v s = KDone () (upd_mtx m (set_pi_enabled (if negb (v =? 0) then 1 else 0)) s).
Proof.
  intros Hm Ho Hp Hn. unfold mutex_set_pi_enabled. rewrite (proj2 (Z.eqb_neq _ _) Hm). unfold modify, modify_opt, mbind, K_bind.
  rewrite disable_eq by done. cbn [kbind]. set (f := set_pi_enabled _).
  assert (Ho' : owner (mtx (upd_mtx m f (entered s)) m) = nullptr) by (by rewrite mtx_upd_eq).
  rewrite Ho'. cbn [Z.eqb negb kbind nullptr]. rewrite enable_quiet by done. f_equal.
  change (upd_cpu (set_preempt_cnt 0) (upd_mtx m f (entered s))) with (upd_mtx m f (upd_cpu (set_preempt_cnt 0) (entered s))).
  by rewrite leave_entered.
Qed.

Lemma mtx_same x y : mutexes x = mutexes y -> forall m, mtx x m = mtx y m.
Proof. intros E m. unfold mtx. by rewrite E. Qed.

Lemma sem_same x y : sems x = sems y -> forall a, sem x a = sem y a.
Proof. intros E a. unfold sem. by rewrite E. Qed.

Lemma reset_pi_spec s free : objects_ok -> booting C s free [] [] -> apart s free [] -> preempt_cnt (cpu s) = 0 -> need_resched (cpu s) = 0 ->
  exists s', reset_pi C G s = KDone () s' /\ booting C s' free [] [] /\ apart s' free [] /\ heap s' = heap s /\
    rd G g_pi_enabled s' = 0 /\ rd G g_high_done s' = 0 /\ mtx s' (g_lock G) = Mutex 0 0 0 0 /\
    sem s' (g_start G) = Semaphore 0 0 /\ sem s' (g_hold_high G) = Semaphore 0 0.
Proof.
  intros [_ (M1 & _) (S1 & S2 & _ & S3)] HB HA Hp Hn.
  destruct (store_step s free [] g_pi_enabled 0 HB HA) as (B1 & A1 & _ & _ & H1 & _ & R1 & _). specialize (R1 ltac:(cbn; lia)).
  set (s1 := wr G g_pi_enabled 0 s) in *. change (cpu s) with (cpu s1) in Hp, Hn.
  destruct (store_step s1 free [] g_high_done 0 B1 A1) as (B2 & A2 & _ & _ & H2 & R2 & R2' & _). specialize (R2' ltac:(cbn; lia)).
  rewrite <- (R2 g_pi_enabled ltac:(done)) in R1. set (s2 := wr G g_high_done 0 s1) in *. change (cpu s1) with (cpu s2) in Hp, Hn.
  set (s3 := mutex_init C (g_lock G) s2).
  assert (E3 : s3 = upd_mtx (g_lock G) (fun _ => Mutex nullptr nullptr nullptr (if cfg_mutex_pi C then 1 else 0)) s2).
  { unfold s3, mutex_init. by rewrite (proj2 (Z.eqb_neq _ _) M1). }
  set (s4 := upd_mtx (g_lock G) (set_pi_enabled 0) s3).
  exists (sem_init (g_hold_high G) 0 (sem_init (g_start G) 0 s4)).
  assert (E4 : sem_init (g_hold_high G) 0 (sem_init (g_start G) 0 s4) = upd_sem (g_hold_high G) (fun _ => Semaphore 0 nullptr) (upd_sem (g_start G) (fun _ => Semaphore 0 nullptr) s4)).
  { unfold sem_init. by rewrite (proj2 (Z.eqb_neq _ _) S1), (proj2 (Z.eqb_neq _ _) S2). }
  split.
  - unfold reset_pi, modify, mbind, K_bind. cbn [kbind]. fold s1. fold s2. fold s3.
    rewrite set_pi_fresh; [reflexivity | done | by rewrite E3, mtx_upd_eq | by rewrite E3 | by rewrite E3].
  - rewrite E4. unfold s4. rewrite E3. split; [by apply (booting_objects C s2) | split; [by apply (globals_apart_nil (at_ G) width s2) |]].
    split; [by rewrite <- H1, <- H2 | split; [exact R1 | split; [exact R2' | split; [| split]]]].
    + change (mtx (upd_sem ?a ?f (upd_sem ?b ?g ?x)) (g_lock G)) with (mtx x (g_lock G)). by rewrite !mtx_upd_eq.
    + rewrite !sem_upd, (proj2 (Z.eqb_neq (g_hold_high G) (g_start G))), Z.eqb_refl by congruence. done.
    + by rewrite sem_upd, Z.eqb_refl.
Qed.

Lemma setup_pi_spec s free : objects_ok -> booting C s free [] [] -> apart s free [] -> preempt_cnt (cpu s) = 0 -> need_resched (cpu s) = 0 ->
  Kmem.cur (heap s) + 3 * spawn_cost 16384 <= kend (heap s) ->
  exists lo mi hi s' free' k, setup_pi C G s = KDone () s' /\ booting C s' free' [hi; mi; lo] [lo; mi; hi] /\
    is_thread s' lo (low_entry G) nullptr 5 /\ is_thread s' mi (medium_entry G) nullptr 10 /\ is_thread s' hi (high_entry G) nullptr 20 /\
    rd G g_pi_enabled s' = 0 /\ rd G g_high_done s' = 0 /\ mtx s' (g_lock G) = Mutex 0 0 0 0 /\
    sem s' (g_start G) = Semaphore 0 0 /\ sem s' (g_hold_high G) = Semaphore 0 0 /\
    sched_start true s' = KSwitch nullptr hi (started hi s') k.
Proof.
  intros HO HB HA Hp Hn Hroom. destruct (reset_pi_spec (say "[sync-lab] setup" s) free HO) as (s0 & E0 & B0 & A0 & H0 & V1 & V2 & V3 & V4 & V5);
    [by apply booting_out | by apply (globals_apart_nil (at_ G) width s) | done | done |].
  change (heap (say "[sync-lab] setup" s)) with (heap s) in H0. rewrite <- H0 in Hroom.
  assert (S0 : 0 < spawn_cost 16384) by (unfold spawn_cost, thread_cost, sizeof_Thread, alignof_Thread; lia).
  destruct (ob_entries HO) as (N1 & N2 & N3 & _).
  destruct (spawn_step s0 free [] (low_entry G) nullptr 5 B0 A0 N1) as (lo & s1 & f1 & E1 & [B1 A1 R1 [M1 Q1] [H1 H1']] & T1 & _ & _); [lia | lia |].
  destruct (spawn_step s1 f1 [lo] (medium_entry G) nullptr 10 B1 A1 N2) as (mi & s2 & f2 & E2 & [B2 A2 R2 [M2 Q2] [H2 H2']] & T2 & L2 & K2); [lia | lia |].
  destruct (spawn_step s2 f2 [mi; lo] (high_entry G) nullptr 20 B2 A2 N3) as (hi & s3 & f3 & E3 & [B3 A3 R3 [M3 Q3] [H3 H3']] & T3 & L3 & K3); [lia | lia |].
  apply K2 in T1; [| done | by left]. apply K3 in T1, T2; [| done | by left | done | by right; left].
  destruct (queue_three s3 f3 lo mi hi (low_entry G) (medium_entry G) (high_entry G) nullptr nullptr nullptr 5 10 20 B3) as (B4 & R4 & M4 & Q4 & U1 & U2 & U3); [| exact T1 | exact T2 | exact T3 |].
  { apply NoDup_cons. split; [done |]. apply NoDup_cons. split; [done |]. apply NoDup_singleton. }
  set (s4 := sched_add hi (sched_add mi (sched_add lo s3))) in *.
  assert (RR : forall x, rd G x s4 = rd G x s0) by (intros x; rewrite <- R1, <- R2, <- R3; by apply load_var_ram).
  destruct (start_picks_best s4 f3 [hi; mi; lo] [lo; mi; hi] hi B4) as (b & k & Ek & Hb & Hbest); [rewrite !elem_of_cons; tauto |].
  assert (b = hi) as ->.
  { specialize (Hbest hi ltac:(rewrite !elem_of_cons; tauto)). destruct U1 as (_ & _ & U1 & _), U2 as (_ & _ & U2 & _), U3 as (_ & _ & U3 & _).
    rewrite !elem_of_cons in Hb. destruct Hb as [-> | [-> | [-> | Hb%not_elem_of_nil]]]; [rewrite U1, U3 in Hbest; lia | rewrite U2, U3 in Hbest; lia | done | done]. }
  exists lo, mi, hi, s4, f3, k. split; [| rewrite !RR, (mtx_same s4 s0), !(sem_same s4 s0) by congruence; by repeat (split; [done |])].
  unfold setup_pi, modify, mbind, K_bind. cbn [kbind]. rewrite E0. cbn [kbind]. unfold create_pi. rewrite E1, E2, E3.
  destruct T1 as (_ & _ & _ & _ & _ & X1), T2 as (_ & _ & _ & _ & _ & X2), T3 as (_ & _ & _ & _ & _ & X3).
  by rewrite (proj2 (Z.eqb_neq _ _) X1), (proj2 (Z.eqb_neq _ _) X2), (proj2 (Z.eqb_neq _ _) X3).
Qed.

Lemma pointer_fits s free live l t : booting C s free live l -> t ∈ live -> 0 <= t < 256 ^ 8.
Proof.
  intros HB Ht. destruct (ci_live _ _ _ (bt_create _ _ _ _ _ HB) t Ht) as (_ & H0 & H1). destruct (ci_heap _ _ _ (bt_create _ _ _ _ _ HB)) as [H2 H3].
  unfold sizeof_Thread in H1. change (256 ^ 8) with (2 ^ 64). lia.
Qed.

(** What [reset_dl] leaves. *)
Record dl_reset (mode : Z) (s : kst) : Prop := {
  dr_vars : rd G g_dl_mode s = mode /\ rd G g_dl_done s = 0 /\ rd G g_dl_ready s = 0;
  dr_mutexes : owner (mtx s (g_dl_a G)) = nullptr /\ owner (mtx s (g_dl_b G)) = nullptr /\
    waiters (mtx s (g_dl_a G)) = nullptr /\ waiters (mtx s (g_dl_b G)) = nullptr;
  dr_sem : sem s (g_dl_hold G) = Semaphore 0 nullptr
}.

Lemma dl_reset_kept mode s s' : dl_reset mode s -> mutexes s' = mutexes s -> sems s' = sems s ->
  (forall x, x <> g_dl_t1 -> x <> g_dl_t2 -> rd G x s' = rd G x s) -> dl_reset mode s'.
Proof.
  intros [V M S] Em Es R. pose proof (mtx_same s' s Em) as EM. split; rewrite ?R by done; rewrite ?EM, ?(sem_same s' s Es); done.
Qed.

Lemma reset_dl_spec mode s free : objects_ok -> 0 <= mode < 2 ^ 32 -> booting C s free [] [] -> apart s free [] ->
  let s' := reset_dl C G mode s in booting C s' free [] [] /\ apart s' free [] /\ heap s' = heap s /\ dl_reset mode s'.
Proof.
  intros [_ (_ & M1 & M2 & M3) (_ & _ & S1 & _)] Hmode HB HA. unfold reset_dl. cbv zeta.
  set (s1 := wr G g_dl_t2 nullptr (wr G g_dl_t1 nullptr (wr G g_dl_ready 0 (wr G g_dl_done 0 (wr G g_dl_mode mode s))))).
  assert (B1 : booting C s1 free [] []) by (unfold s1; repeat (apply booting_store; [| exact HA]); exact HB).
  assert (V : forall x, rd G x s1 = if decide (x = g_dl_mode) then mode else if decide (x = g_pi_enabled) then rd G x s else if decide (x = g_high_done) then rd G x s else 0).
  { intros x. unfold s1, rd, wr. rewrite !load_store_var by done. change 256 with (2 ^ 8). rewrite <- !Z.pow_mul_r by lia.
    destruct x; cbn [decide decide_rel]; repeat (rewrite decide_False by done); rewrite ?decide_True by done; try done. by apply Z.mod_small. }
  assert (H1 : heap s1 = heap s) by done. clearbody s1.
  unfold mutex_init, sem_init. rewrite (proj2 (Z.eqb_neq _ _) M1), (proj2 (Z.eqb_neq _ _) M2), (proj2 (Z.eqb_neq _ _) S1).
  set (s2 := upd_mtx (g_dl_b G) _ _).
  assert (X : forall m, mtx s2 m = if g_dl_b G =? m then Mutex nullptr nullptr nullptr (if cfg_mutex_pi C then 1 else 0)
    else if g_dl_a G =? m then Mutex nullptr nullptr nullptr (if cfg_mutex_pi C then 1 else 0) else mtx s1 m) by (intros m; unfold s2; by rewrite !mtx_upd).
  split; [by apply (booting_objects C s1) | split; [by apply (globals_apart_nil (at_ G) width s) | split; [done |]]].
  assert (R : forall x, rd G x (upd_sem (g_dl_hold G) (fun _ => Semaphore 0 nullptr) s2) = rd G x s1) by done.
  split; rewrite ?R, ?V; [done | | by rewrite sem_upd, Z.eqb_refl].
  change (mtx (upd_sem ?a ?f s2)) with (mtx s2). rewrite !X, !Z.eqb_refl, (proj2 (Z.eqb_neq (g_dl_b G) (g_dl_a G))) by congruence. done.
Qed.

(** The workers' pointers are set, the three threads queued. *)
Record dl_ready (mode : Z) (s : kst) (t1 t2 w : Z) (free : list Z) : Prop := {
  dy_booting : booting C s free [w; t2; t1] [t1; t2; w];
  dy_threads : is_thread s t1 (worker_entry G) 1 20 /\ is_thread s t2 (worker_entry G) 2 20 /\ is_thread s w (watchdog_entry G) nullptr 5;
  dy_pointers : rd G g_dl_t1 s = t1 /\ rd G g_dl_t2 s = t2;
  dy_reset : dl_reset mode s
}.

Lemma setup_deadlock_spec mode s free : objects_ok -> 0 <= mode < 2 ^ 32 -> booting C s free [] [] -> apart s free [] ->
  Kmem.cur (heap s) + 3 * spawn_cost 16384 <= kend (heap s) ->
  exists t1 t2 w s' free', setup_deadlock C G mode s = KDone () s' /\ dl_ready mode s' t1 t2 w free'.
Proof.
  intros HO Hmode HB HA Hroom.
  destruct (reset_dl_spec mode (say "[deadlock-lab] setup" s) free HO Hmode) as (B0 & A0 & H0 & D0);
    [by apply booting_out | by apply (globals_apart_nil (at_ G) width s) |].
  set (s0 := reset_dl C G mode (say "[deadlock-lab] setup" s)) in *. change (heap (say "[deadlock-lab] setup" s)) with (heap s) in H0. rewrite <- H0 in Hroom.
  assert (S0 : 0 < spawn_cost 16384) by (unfold spawn_cost, thread_cost, sizeof_Thread, alignof_Thread; lia).
  destruct (ob_entries HO) as (_ & _ & _ & N1 & N2).
  destruct (spawn_step s0 free [] (worker_entry G) 1 20 B0 A0 N1) as (t1 & s1 & f1 & E1 & [B1 A1 R1 [M1 Q1] [H1 H1']] & T1 & _ & _); [lia | lia |].
  destruct (store_step s1 f1 [t1] g_dl_t1 t1 B1 A1) as (C1 & D1 & M1' & Q1' & I1 & V1 & W1 & K1).
  assert (P1 : 0 <= t1 < 256 ^ Z.of_nat (width g_dl_t1)) by (by apply (pointer_fits s1 f1 [t1] []); [| left]).
  specialize (W1 P1). apply K1 in T1. set (s1' := wr G g_dl_t1 t1 s1) in *. rewrite <- I1 in H1, H1'.
  destruct (spawn_step s1' f1 [t1] (worker_entry G) 2 20 C1 D1 N1) as (t2 & s2 & f2 & E2 & [B2 A2 R2 [M2 Q2] [H2 H2']] & T2 & L2 & K2); [lia | lia |].
  apply K2 in T1; [| done | by left].
  destruct (store_step s2 f2 [t2; t1] g_dl_t2 t2 B2 A2) as (C2 & D2 & M2' & Q2' & I2 & V2 & W2 & K2').
  assert (P2 : 0 <= t2 < 256 ^ Z.of_nat (width g_dl_t2)) by (by apply (pointer_fits s2 f2 [t2; t1] []); [| left]).
  specialize (W2 P2). apply K2' in T1, T2. set (s2' := wr G g_dl_t2 t2 s2) in *. rewrite <- I2 in H2, H2'.
  destruct (spawn_step s2' f2 [t2; t1] (watchdog_entry G) nullptr 5 C2 D2 N2) as (w & s3 & f3 & E3 & [B3 A3 R3 [M3 Q3] [H3 H3']] & T3 & L3 & K3); [lia | lia |].
  apply K3 in T1, T2; [| done | by left | done | by right; left].
  assert (G1 : rd G g_dl_t1 s3 = t1) by (by rewrite R3, V2, R2).
  assert (G2 : rd G g_dl_t2 s3 = t2) by (by rewrite R3).
  destruct (queue_three s3 f3 t1 t2 w (worker_entry G) (worker_entry G) (watchdog_entry G) 1 2 nullptr 20 20 5 B3) as (B4 & R4 & M4 & Q4 & U1 & U2 & U3);
    [| exact T1 | exact T2 | exact T3 |].
  { apply NoDup_cons. split; [done |]. apply NoDup_cons. split; [done |]. apply NoDup_singleton. }
  set (s4 := sched_add w (sched_add t2 (sched_add t1 s3))) in *.
  assert (RR : forall x, rd G x s4 = rd G x s3) by (intros x; by apply load_var_ram).
  exists t1, t2, w, s4, f3. split; [| split; [done | done | by rewrite !RR |]].
  - unfold setup_deadlock. cbv zeta. fold s0. rewrite E1. fold s1'. rewrite E2. fold s2'. rewrite E3, G1, G2.
    destruct T1 as (_ & _ & _ & _ & _ & X1), T2 as (_ & _ & _ & _ & _ & X2), T3 as (_ & _ & _ & _ & _ & X3).
    by rewrite (proj2 (Z.eqb_neq _ _) X1), (proj2 (Z.eqb_neq _ _) X2), (proj2 (Z.eqb_neq _ _) X3).
  - apply (dl_reset_kept mode s0); [done | congruence | congruence |]. intros x Hx1 Hx2. by rewrite RR, R3, V2, R2, V1, R1.
Qed.

End Setup.

(** both demonstrations are set up as described.  Mode 1: the low, medium
    and high threads, of priorities 5, 10 and 20, are queued in that order, the
    mutex is free with inheritance off, both semaphores are empty, and the
    scheduler starts the high one.  Modes 2 to 5: two workers of priority 20 with
    arguments 1 and 2, known to the watchdog of priority 5, are queued, both
    mutexes free and the counters zero.  Any other mode stops. *)
Theorem sync_lab_setup_correct C G s free mode :
  sched_policy_prio C = true -> vars_apart (at_ G) width -> objects_ok G -> 0 <= trampoline C < 2 ^ 64 ->
  booting C s free [] [] -> globals_apart (at_ G) width s free [] -> preempt_cnt (cpu s) = 0 -> need_resched (cpu s) = 0 ->
  Kmem.cur (heap s) + 3 * spawn_cost 16384 <= kend (heap s) ->
  (mode = 1 -> exists lo mi hi s' free' k, sync_lab_setup C G mode s = KDone () s' /\ booting C s' free' [hi; mi; lo] [lo; mi; hi] /\
     is_thread s' lo (low_entry G) nullptr 5 /\ is_thread s' mi (medium_entry G) nullptr 10 /\ is_thread s' hi (high_entry G) nullptr 20 /\
     rd G g_pi_enabled s' = 0 /\ rd G g_high_done s' = 0 /\ mtx s' (g_lock G) = Mutex 0 0 0 0 /\
     sem s' (g_start G) = Semaphore 0 0 /\ sem s' (g_hold_high G) = Semaphore 0 0 /\
     sched_start (sched_policy_prio C) s' = KSwitch nullptr hi (started hi s') k) /\
  (2 <= mode <= 5 -> exists t1 t2 w s' free', sync_lab_setup C G mode s = KDone () s' /\ dl_ready C G mode s' t1 t2 w free') /\
  (mode < 1 \/ 5 < mode -> exists s', sync_lab_setup C G mode s = KHalt s').
Proof.
  intros HC HG HO Htr HB HA Hp Hn Hroom. unfold sync_lab_setup. split; [| split].
  - intros ->. rewrite HC. by apply (setup_pi_spec C G HG Htr s free).
  - intros Hm. rewrite (proj2 (Z.eqb_neq mode 1)), (proj2 (Z.leb_le 2 mode)), (proj2 (Z.leb_le mode 5)) by lia.
    apply (setup_deadlock_spec C G HG Htr mode s free HO); [lia | done ..].
  - intros Hm. rewrite (proj2 (Z.eqb_neq mode 1)) by lia.
    replace ((2 <=? mode) && (mode <=? 5)) with false; [by eexists |].
    symmetry. apply andb_false_iff. destruct Hm; [left | right]; apply Z.leb_gt; lia.
Qed.

(** ** Witnesses *)

Definition demo_sync : sync_cfg :=
  SyncCfg (fun x => match x with
    | g_pi_enabled => 0x40100100 | g_high_done => 0x40100104 | g_dl_ready => 0x40100108 | g_dl_done => 0x4010010C
    | g_dl_mode => 0x40100110 | g_dl_t1 => 0x40100118 | g_dl_t2 => 0x40100120
    end) 20480 20480 24576 28672 28736 28800 0x40080600 0x40080700 0x40080800 0x40080900 0x40080A00.

Lemma demo_sync_vars : vars_apart (at_ demo_sync) width.
Proof.
  split; [intros x; destruct x; reflexivity |].
  intros x y Hne. destruct x, y; try done; vm_compute; first [by left | by right].
Qed.

(** Another queued thread runs. *)
Lemma sync_inv_runs s l wqs sq own f : sync_inv s l wqs sq own -> current_thread (f (cpu s)) ∈ l -> sync_inv (upd_cpu f s) l wqs sq own.
Proof.
  intros [[G1 G2 G3 G4] H2 H3 H4 H5 H6 H7 H8] Hf. split; try done.
  - split; [by apply rq_rep_cpu | done | done |]. by intros _ _.
  - intros m. apply (wq_rep_ext s); [done | done | apply H2].
  - intros a. apply (wq_rep_ext s); [done | done | apply H3].
  - intros t Ht. apply (owned_rep_ext s); [done | done | done | by apply H7].
Qed.

(** The three threads of [Runq], 8192 running, and two free mutexes. *)
Definition demo_two (pi : Z) : kst := set_mutexes (<[ 24576 := Mutex 0 0 0 pi ]> {[ 20480 := Mutex 0 0 0 pi ]}) demo_run.

Definition none : Z -> list Z := fun _ => [].

Lemma demo_two_inv pi : sync_inv (demo_two pi) [4096; 8192; 12288] none none none.
Proof.
  apply sync_inv_idle; [| | done |].
  - by apply (sched_inv_same demo_run); [.. | exact demo_run_inv].
  - intros m. unfold mtx. cbn [mutexes set_mutexes demo_two]. rewrite lookup_insert, lookup_singleton. by repeat case_decide.
  - intros t. change (thr (demo_two pi) t) with (thr demo_run t). all_threads t.
Qed.

(** 4096 owns the first mutex. *)
Definition demo_one (pi : Z) : kst := take 4096 20480 (demo_two pi).

Definition own_one : Z -> list Z := fupd none 4096 [20480].

Lemma demo_one_inv pi : sync_inv (demo_one pi) [4096; 8192; 12288] none none own_one.
Proof. apply (take_inv (demo_two pi) _ _ _ none 4096 20480); [apply demo_two_inv | conc ..]. Qed.

Lemma demo_one_runs pi : runs (demo_one pi) 8192 [4096; 8192; 12288] none none own_one.
Proof. split; [apply demo_one_inv | by vm_compute | rewrite !elem_of_cons; tauto | by vm_compute]. Qed.

Lemma demo_one_in_order : in_order (demo_one 1).
Proof.
  intros t x _ _ Hw. exfalso. apply Hw. all_threads t.
Qed.

Lemma ordering_prevents_deadlock_witness :
  lockdep_would_deadlock 8192 20480 (demo_one 1) = false /\
  (exists s1 n k, mutex_block demo_cfg 8192 20480 (entered (demo_one 1)) = Some s1 /\ in_order s1 /\
     mutex_lock demo_cfg 5 20480 (demo_one 1) = KSwitch 8192 n (switched n (upd_cpu (set_preempt_cnt 0) s1)) k) /\
  mutex_lock demo_cfg 5 24576 (demo_one 1) = KDone () (take 8192 24576 (demo_one 1)) /\ in_order (take 8192 24576 (demo_one 1)).
Proof.
  pose proof (fun m => ordering_prevents_deadlock demo_cfg 4 (demo_one 1) 8192 m _ _ _ _ (demo_one_runs 1) demo_one_in_order ltac:(by intros x ?%not_elem_of_nil)) as H.
  destruct (H 20480 ltac:(done)) as (_ & _ & H1 & _ & H2). destruct (H 24576 ltac:(done)) as (_ & _ & _ & H3 & _).
  split; [exact H1 | split; [apply H2; conc | apply H3; conc]].
Defined.

Lemma backoff_holds_nothing_witness :
  let loop := backoff_loop demo_cfg (fun _ s => s) 4 in
  (exists s' own', runs s' 8192 [4096; 8192; 12288] none none own' /\ own' 8192 = [] /\ owner (mtx s' 24576) = nullptr /\
     loop 3%nat 0%nat 24576 20480 (demo_one 1) = kbind (thread_yield true s') (fun _ => loop 2%nat 1%nat 24576 20480)) /\
  (exists s' next r, loop 3%nat 0%nat 20480 24576 (demo_one 1) = KSwitch 8192 next s' r /\ forall x, owner (mtx s' x) <> 8192).
Proof.
  split.
  - destruct (backoff_holds_nothing demo_cfg (fun _ s => s) 3 2 0 (demo_one 1) 8192 24576 20480 _ _ _ _ (demo_one_runs 1)) as (_ & H & _); [conc .. |].
    apply H; conc.
  - destruct (backoff_holds_nothing demo_cfg (fun _ s => s) 3 2 0 (demo_one 1) 8192 20480 24576 _ _ _ _ (demo_one_runs 1)) as (_ & _ & H); [conc .. |].
    apply H; conc.
Defined.

(** The deadlock: 8192 owns the second mutex, 4096 has blocked on it and 8192
    runs again. *)
Definition demo_both : kst := upd_cpu (set_current_thread 4096) (take 8192 24576 (demo_one 1)).

Definition own_both : Z -> list Z := fupd own_one 8192 [24576].

Lemma demo_both_inv : sync_inv demo_both [4096; 8192; 12288] none none own_both.
Proof.
  apply sync_inv_runs; [| by left]. apply (take_inv (demo_one 1) _ _ _ own_one 8192 24576); [apply demo_one_inv | conc ..].
Qed.

Definition demo_waits : kst := default demo_both (mutex_block demo_cfg 4096 24576 demo_both).

Definition wqs_b : Z -> list Z := fupd none 24576 [4096].

Lemma demo_waits_inv : sync_inv demo_waits [8192; 12288] wqs_b none own_both.
Proof.
  destruct (mutex_block_spec demo_cfg demo_both [4096; 8192; 12288] none none own_both 24576) as (s' & E & Hinv & _); [exact demo_both_inv | conc .. |].
  unfold demo_waits. change 4096 with (cur demo_both) at 1. rewrite E. exact Hinv.
Qed.

Definition demo_vars (s : kst) : kst :=
  wr demo_sync g_dl_mode 2 (wr demo_sync g_dl_t2 8192 (wr demo_sync g_dl_t1 4096 (upd_cpu (fun c => set_need_resched 0 (set_current_thread 8192 c)) s))).

Definition demo_deadlock : kst := demo_vars demo_waits.

Lemma demo_vars_inv s l wqs sq own : sync_inv s l wqs sq own -> 8192 ∈ l -> sync_inv (demo_vars s) l wqs sq own.
Proof.
  intros H Hl. apply (sync_inv_same (upd_cpu (fun c => set_need_resched 0 (set_current_thread 8192 c)) s)); try done. by apply sync_inv_runs.
Qed.

Lemma demo_deadlock_abba : abba demo_sync demo_deadlock 4096 8192 [8192; 12288] wqs_b none own_both.
Proof.
  split.
  - apply demo_vars_inv; [exact demo_waits_inv | by left].
  - by vm_compute.
  - by vm_compute.
  - by vm_compute.
  - by vm_compute.
  - by vm_compute.
  - split; [by vm_compute | split; [by vm_compute | conc]].
  - by vm_compute.
  - by vm_compute.
Qed.


(** The inversion: 8192 has blocked on 4096's mutex, 12288 runs, of the same
    priority as 4096. *)
Definition demo_blocked : kst := default (demo_one 0) (mutex_block demo_cfg 8192 20480 (demo_one 0)).

Definition wqs_lock : Z -> list Z := fupd none 20480 [8192].

Lemma demo_parked_inv : sync_inv demo_blocked [4096; 12288] wqs_lock none own_one.
Proof.
  destruct (mutex_block_spec demo_cfg (demo_one 0) [4096; 8192; 12288] none none own_one 20480) as (s' & E & Hinv & _); [apply demo_one_inv | conc .. |].
  unfold demo_blocked. change 8192 with (cur (demo_one 0)) at 1. rewrite E. exact Hinv.
Qed.

Definition at_ten (x : Thread) : Thread := set_t_effective_priority 10 (set_t_base_priority 10 x).

Definition demo_inverted : kst :=
  upd_thr 12288 at_ten (upd_cpu (fun c => set_ticks 100 (set_need_resched 0 (set_current_thread 12288 c))) demo_blocked).

Lemma demo_inverted_ok : inverted demo_sync demo_inverted 4096 12288 8192 [4096; 12288] wqs_lock none own_one.
Proof.
  assert (H : sync_inv demo_inverted [4096; 12288] wqs_lock none own_one).
  { apply sync_inv_upd; [done | by vm_compute | by left | apply sync_inv_runs; [exact demo_parked_inv | right; by left]]. }
  split.
  - split; [exact H | by vm_compute | right; by left | by vm_compute].
  - split; [conc | split; [conc | by vm_compute]].
  - split; [done | split; [done | split; [by left | done]]].
  - done.
  - by vm_compute.
  - intros u [-> | ->%list_elem_of_singleton]%elem_of_cons; [done | by vm_compute].
Qed.

Lemma inversion_resolved_witness :
  exists s1 k1, medium_loop demo_cfg demo_sync (fun _ s => s) 4 0 50 false demo_inverted = KSwitch 12288 4096 s1 k1 /\ cur s1 = 4096 /\
    t_effective_priority (thr demo_inverted 8192) <= t_effective_priority (thr s1 4096) /\
    out s1 = out demo_inverted ++ observed_line false /\
    exists s2 k2, (pi_wait demo_sync (fun _ s => s) 4 0 ≫= fun _ => modify (say "[sync-lab] L unlocking") ≫= fun _ => mutex_unlock demo_cfg 20480) s1
        = KSwitch 4096 8192 s2 k2 /\
      cur s2 = 8192 /\ owner (mtx s2 20480) = 8192 /\ t_effective_priority (thr s2 4096) = t_base_priority (thr demo_inverted 4096).
Proof.
  apply (inversion_resolved demo_cfg demo_sync (fun _ s => s) 4 3 0 demo_inverted 4096 12288 8192 [4096; 12288] wqs_lock none own_one 50 false);
    [done | done | exact demo_sync_vars | done | by vm_compute | exact demo_inverted_ok | by vm_compute | by vm_compute].
Defined.

Lemma demo_sync_objects : objects_ok demo_sync.
Proof. by split. Qed.

Lemma demo_idle s : sched_init demo_boot = Some s -> preempt_cnt (cpu s) = 0 /\ need_resched (cpu s) = 0.
Proof.
  assert (B : option_map (fun s => (preempt_cnt (cpu s), need_resched (cpu s))) (sched_init demo_boot) = Some (0, 0)) by (vm_compute; reflexivity).
  intros E. rewrite E in B. by injection B.
Qed.

Lemma demo_sync_apart s free : sched_init demo_boot = Some s -> booting demo_kcfg s free [] [] -> 0x40200000 <= Kmem.cur (heap s) ->
  globals_apart (at_ demo_sync) width s free [].
Proof.
  intros E HB Hc x. pose proof (demo_pool_above s free E HB) as Hf.
  assert (X : at_ demo_sync x + Z.of_nat (width x) <= 0x40100128) by (destruct x; vm_compute; discriminate).
  split; [lia | split; [intros f Hff; left; specialize (Hf f Hff); lia | by intros t ?%not_elem_of_nil]].
Qed.

Lemma sync_lab_setup_correct_witness :
  let C := Config true true false (mmu_guard_page demo_layout) 0x40080200 0x40080300 in
  exists s, sched_init demo_boot = Some s /\
  (exists lo mi hi s' free' k, sync_lab_setup C demo_sync 1 s = KDone () s' /\ booting C s' free' [hi; mi; lo] [lo; mi; hi] /\
     t_effective_priority (thr s' hi) = 20 /\ sched_start true s' = KSwitch nullptr hi (started hi s') k) /\
  (exists t1 t2 w s' free', sync_lab_setup C demo_sync 4 s = KDone () s' /\ dl_ready C demo_sync 4 s' t1 t2 w free') /\
  exists s', sync_lab_setup C demo_sync 6 s = KHalt s'.
Proof.
  intros C. destruct demo_booting as (s & free & E & HB & HM & _ & Hc & Hk). exists s. split; [exact E |].
  assert (HB' : booting C s free [] []) by (destruct HB as [B1 B2 B3 B4 B5 _]; split; [done .. | by intros t ?%not_elem_of_nil]).
  destruct (demo_idle s E) as [Hp Hn]. pose proof (demo_sync_apart s free E HB ltac:(lia)) as HA.
  assert (Hroom : Kmem.cur (heap s) + 3 * spawn_cost 16384 <= kend (heap s)) by (rewrite Hk; change (spawn_cost 16384) with 25232; lia).
  pose proof (fun mode => sync_lab_setup_correct C demo_sync s free mode eq_refl demo_sync_vars demo_sync_objects ltac:(cbn; lia) HB' HA Hp Hn Hroom) as H.
  split; [| split].
  - destruct (H 1) as [H1 _]. destruct (H1 eq_refl) as (lo & mi & hi & s' & f & k & E1 & B & _ & _ & (_ & _ & P & _) & _ & _ & _ & _ & _ & K).
    exists lo, mi, hi, s', f, k. split; [exact E1 | split; [exact B | split; [exact P | exact K]]].
  - destruct (H 4) as (_ & H1 & _). apply H1. lia.
  - destruct (H 6) as (_ & _ & H1). apply H1. lia.
Defined.
