(* ===== verification/Boot.v ===== *)
(** * [src/src/kmain.cc]: the boot sequence

    [kmain] composes the components: platform and UART, page tables, the
    CPU-local block, the heap, the DMA self-test, the scheduler, the threads or
    the demonstration the build selects, interrupt controller and timer, and the
    switch to the first thread.  The two platforms are instances of one
    interface.  No interrupt is followed between the unmasking and the switch. *)

From Stdlib Require Import String.
From S2P Require Import Prelude Mem Kmem MemPool Pte Uart Kstate Runq Stack Sched Sync Thread Spawn Cache Dma Dev Irq Except.
From S2P Require Mmu MmuRpi4 DmaLab MemDemo SelfTest StackLab LockLab SyncLab SyncLabThms.

(** What the two platforms and their MMU back ends provide. *)
Class Platform := {
  platform_early_init : uart -> arch -> uart * arch;
  platform_irq_init : nat -> arch -> option arch;
  platform_full_kernel_supported : Z;
  platform_name : string;
  platform_mmu_init : mmu_layout -> bool -> bool -> mmu_st -> mmu_st
}.

Definition virt (answer : list ioev -> Z) (use_cntp : bool) : Platform := {|
  platform_early_init := virt_platform_early_init;
  platform_irq_init := virt_platform_irq_init answer use_cntp;
  platform_full_kernel_supported := virt_platform_full_kernel_supported;
  platform_name := virt_platform_name;
  platform_mmu_init := Mmu.mmu_init
|}.

Definition rpi4 (answer : list ioev -> Z) : Platform := {|
  platform_early_init := rpi4_platform_early_init answer;
  platform_irq_init := rpi4_platform_irq_init;
  platform_full_kernel_supported := rpi4_platform_full_kernel_supported;
  platform_name := rpi4_platform_name;
  platform_mmu_init := MmuRpi4.mmu_init
|}.

(** At most one of the demonstrations, with its mode. *)
Inductive lab_mode :=
| NoLab
| DMA_LAB_MODE (n : Z)
| SYNC_LAB_MODE (n : Z)
| MEM_LAB_MODE (n : Z)
| STACK_LAB_MODE (n : Z)
| LOCK_LAB_MODE (n : Z).

(** The build and the link: options, addresses, the demonstrations' globals, the
    system registers at reset, and the cache's geometry and noise. *)
Record build := Build {
  lab : lab_mode;
  conf : config;
  layout : mmu_layout;
  policy_nc : bool;
  timer_diag : bool;
  b_cntp : bool;
  b_date : string;
  b_time : string;
  heap_start : Z;
  heap_end : Z;
  irq_stack : Z;
  cpu0_addr : Z;
  cb_seen_addr : Z;
  a_entry : Z;
  b_entry : Z;
  sync_globals : SyncLab.sync_cfg;
  lock_globals : LockLab.lab_cfg;
  probe : StackLab.probe_code;
  reset_regs : Z * Z * Z;
  ctr : Z;
  cache_noise : nat -> list hwev
}.

(** ** Outcomes *)

(** [kmain] goes on, starts a thread, ends in a wait loop, or never gets past a
    loop. *)
Inductive bres (A : Type) : Type :=
| BDone (a : A) (s : irq_st)
| BRun (t : Z) (s : irq_st)
| BHalt (s : irq_st)
| BStuck.

Arguments BDone {A} a s.
Arguments BRun {A} t s.
Arguments BHalt {A} s.
Arguments BStuck {A}.

Definition B (A : Type) : Type := irq_st -> bres A.

#[export] Instance B_ret : MRet B := fun A a s => BDone a s.

#[export] Instance B_bind : MBind B := fun A A' f m s =>
  match m s with BDone a s => f a s | BRun t s => BRun t s | BHalt s => BHalt s | BStuck => BStuck end.

Definition kernel (f : kst -> kst) : B unit := fun s => BDone () (on_k f s).

Definition line (m : string) : B unit := kernel (puts (m ++ newline)).

Definition stop {A : Type} : B A := fun s => BHalt s.

(** Kernel code that may switch: only [sched_start] does, on this path. *)
Definition run_k {A : Type} (m : K A) : B A := fun s =>
  match m (ik s) with
  | KDone a k => BDone a (set_ik k s)
  | KSwitch _ n k _ => BRun n (set_ik k s)
  | KHalt k => BHalt (set_ik k s)
  | KStuck => BStuck
  end.

Definition device (f : arch -> option arch) : B unit := fun s =>
  let a := Arch (io (ia s)) (out (ik s)) (g_timer_diag_once (ia s)) (heartbeat (ia s)) in
  match f a with
  | Some a => BDone () (Irq (set_out (con a) (ik s)) (idma s) a (g_irq_diag_count s) (g_irq_entry_budget s) (g_irq_timer_budget s))
  | None => BStuck
  end.

Section Kmain.

Context `{P : Platform} (answer : list ioev -> Z) (D : build) (fuel : nat).

Abbreviation C := (conf D).
Abbreviation L := (layout D).

(** ** Reports *)

(** The three bits of SCTLR. *)
Definition report_bits (v : Z) (s : kst) : kst :=
  let bit i := if Z.land v (Z.shiftl 1 i) =? 0 then 48 else 49 in
  let s := putc (bit 2) (puts " (C=" s) in
  let s := putc (bit 12) (puts ", I=" s) in
  let s := putc (bit 0) (puts ", M=" s) in
  puts (")" ++ newline) s.

(** The last value written to a register, or its value at reset. *)
Definition register (is_it : sysop -> option Z) (reset : Z) (s : kst) : Z :=
  fold_left (fun v o => match is_it o with Some w => w | None => v end) (ops (mmu s)) reset.

Definition mmu_dump_state (s : kst) : kst :=
  let '(mair0, tcr0, ttbr0) := reset_regs D in
  let mair := register (fun o => match o with MSR_MAIR v => Some v | _ => None end) mair0 s in
  let tcr := register (fun o => match o with MSR_TCR v => Some v | _ => None end) tcr0 s in
  let ttbr0 := register (fun o => match o with MSR_TTBR0 v => Some v | _ => None end) ttbr0 s in
  let v := sctlr (mmu s) in
  let s := puts newline (kputhex 16 mair (puts "[mmu] mair_el1=0x" s)) in
  let s := puts newline (kputhex 16 tcr (puts "[mmu] tcr_el1 =0x" s)) in
  let s := puts newline (kputhex 16 ttbr0 (puts "[mmu] ttbr0_el1=0x" s)) in
  report_bits v (kputhex 16 v (puts "[mmu] sctlr=0x" s)).

Definition report_sctlr (s : kst) : kst := report_bits (sctlr (mmu s)) (kputhex 16 (sctlr (mmu s)) (puts "[mmu] enabled sctlr=0x" s)).

(** [DMA_WINDOW_POLICY_STR]. *)
Definition policy_str : string := if policy_nc D then "NONCACHEABLE" else "CACHEABLE".

(** ** The parts of the sequence *)

(** Memory as the DMA engine and the caches see it, under the tables in force. *)
Definition hw_now (s : kst) : hwcfg :=
  Hw (ctr D) (sctlr (mmu s))
    (fun va => match walk (pt (mmu s)) (g_l0 L) va with
               | Some l => (lf_pa l, lf_attr l =? kAttrIdxNormal) | None => (va, false) end)
    (cache_noise D).

Definition boot_mmu : B unit :=
  line "[BOOT] UART ready" ≫= fun _ =>
  line "[mmu] enabling..." ≫= fun _ =>
  kernel (fun s => set_mmu (platform_mmu_init L (policy_nc D) true (mmu s)) s) ≫= fun _ =>
  kernel report_sctlr ≫= fun _ =>
  kernel mmu_dump_state.

Definition boot_memory : B unit :=
  line "[diag] cpu_local_boot_init begin" ≫= fun _ =>
  (fun s => let init := cpu_local_boot_init (irq_stack D) (cpu0_addr D) in
            BDone () (on_k (set_cpu (init (ia s)).1) (with_arch (fun a => (init a).2) s))) ≫= fun _ =>
  line "[diag] cpu_local_boot_init end" ≫= fun _ =>
  line "[diag] kmem_init begin" ≫= fun _ =>
  kernel (set_heap (kmem_init (heap_start D) (heap_end D))) ≫= fun _ =>
  line "[diag] kmem_init end" ≫= fun _ =>
  kernel (fun s => puts newline (puts (b_time D) (puts " " (puts (b_date D) (puts "[build] " s))))) ≫= fun _ =>
  kernel (fun s => puts newline (puts policy_str (puts "[dma-policy] " s))).

(** The callback, its flag and the buffers are [SelfTest]'s. *)
Definition boot_selftest : B unit := fun s =>
  match SelfTest.dma_selftest (hw_now (ik s)) (policy_nc D) (dma_nc_start L) (dma_nc_end L) (heap_start D) (heap_end D) (cb_seen_addr D)
          fuel (heap (ik s)) (dma_in s) with
  | Some (h, d) => BDone () (on_k (set_heap h) (dma_back d s))
  | None => BStuck
  end.

Definition boot_dma_lab (n : Z) : B unit :=
  kernel (fun s => puts newline (print_u64 n (puts "[dma-lab] mode=" s))) ≫= fun _ =>
  (fun s => let '(_, r) := DmaLab.dma_lab_run (hw_now (ik s)) (policy_nc D) n (DmaLab.Lab (sys (idma s)) (heap (ik s)) (out (ik s))) in
            let d := dma_in s in
            BDone () (on_k (set_heap (DmaLab.lheap r)) (dma_back (set_sys (DmaLab.lsys r)
              (Dma (sys d) (descs d) (g_dma_desc_next d) (g_dma_buf_end d) (g_pending_head d) (g_pending_tail d)
                (prep_log_budget d) (comp_log_budget d) (dma_daif d) (DmaLab.lout r))) s))) ≫= fun _ =>
  line "[dma-lab] halting" ≫= fun _ => stop.

Definition boot_mem_lab (n : Z) : B unit :=
  kernel (fun s => puts newline (print_u64 n (puts "[mem-lab] mode=" s))) ≫= fun _ =>
  (fun s => match MemDemo.mem_lab_run n (heap (ik s)) (ram (ik s)) (out (ik s)) with
            | Some (h, m, o) => BDone () (on_k (fun k => set_out o (set_ram m (set_heap h k))) s)
            | None => BStuck
            end) ≫= fun _ =>
  line "[mem-lab] halting" ≫= fun _ => stop.

(** Threads [a] and [b], or the demonstration's threads. *)
Definition create_ab : K unit := fun s =>
  let '(ta, s) := thread_create C (a_entry D) 0xA (16 * 1024) (puts ("[diag] thread_create a" ++ newline) s) in
  let '(tb, s) := thread_create C (b_entry D) 0xB (16 * 1024) (puts ("[diag] thread_create b" ++ newline) s) in
  if (ta =? nullptr) || (tb =? nullptr) then halt (puts ("[sched] thread_create failed" ++ newline) s)
  else
    let s := sched_add ta (puts ("[diag] sched_add a" ++ newline) s) in
    KDone () (sched_add tb (puts ("[diag] sched_add b" ++ newline) s)).

Definition boot_threads : B unit :=
  match lab D with
  | SYNC_LAB_MODE n =>
      (if sched_policy_prio C then mret () else line "[sync-lab] requires SCHED_POLICY=PRIO" ≫= fun _ => stop) ≫= fun _ =>
      kernel (fun s => puts newline (print_u64 n (puts "[sync-lab] mode=" s))) ≫= fun _ =>
      run_k (SyncLab.sync_lab_setup C (sync_globals D) n)
  | LOCK_LAB_MODE n =>
      (if sched_policy_prio C then mret () else line "[lock-lab] requires SCHED_POLICY=PRIO" ≫= fun _ => stop) ≫= fun _ =>
      run_k (LockLab.lock_lab_setup C (lock_globals D) n)
  | STACK_LAB_MODE n =>
      kernel (fun s => puts newline (print_u64 n (puts "[stack-lab] mode=" s))) ≫= fun _ =>
      run_k (StackLab.stack_lab_setup C (probe D) n)
  | _ => run_k create_ab
  end.

Definition boot_interrupts : B unit :=
  line "[diag] gic_init" ≫= fun _ =>
  device (platform_irq_init fuel) ≫= fun _ =>
  line "[diag] timer_init_hz" ≫= fun _ =>
  device (fun a => Some (timer_init_hz answer (b_cntp D) (timer_diag D) 1000 a)) ≫= fun _ =>
  kernel (fun s => set_daif (Z.land (daif s) (Z.lnot 0x80)) s) ≫= fun _ =>
  line "[diag] IRQ enabled".

(** From the DMA self-test on. *)
Definition boot_kernel : B unit :=
  boot_selftest ≫= fun _ =>
  line "[diag] sched_init" ≫= fun _ =>
  run_k (modify_opt sched_init) ≫= fun _ =>
  boot_threads ≫= fun _ =>
  line "[sched] starting (coop)" ≫= fun _ =>
  boot_interrupts ≫= fun _ =>
  run_k (sched_start (sched_policy_prio C)) ≫= fun _ =>
  line "[BUG] returned to sched_start" ≫= fun _ => stop.

Definition kmain_body : B unit :=
  boot_mmu ≫= fun _ =>
  boot_memory ≫= fun _ =>
  match lab D with
  | DMA_LAB_MODE n => boot_dma_lab n
  | MEM_LAB_MODE n => boot_mem_lab n
  | _ =>
      if platform_full_kernel_supported =? 0 then
        kernel (fun s => puts (" bring-up: IRQ controller not enabled yet; halting" ++ newline)
                           (puts platform_name (puts "[platform] " s))) ≫= fun _ => stop
      else boot_kernel
  end.

(** [kmain]: the UART after its initialisation, and the outcome. *)
Definition kmain (u : uart) (s : irq_st) : uart * bres unit :=
  let '(u, a) := platform_early_init u (ia s) in
  (uart_init u, kmain_body (Irq (ik s) (idma s) a (g_irq_diag_count s) (g_irq_entry_budget s) (g_irq_timer_budget s))).

End Kmain.

(** ** The two threads of the plain build *)

Section Threads.

Context (prio : bool) (at_spin : nat -> kst -> kst).

(** [k] turns of the endless loop of [a]. *)
Fixpoint a_loop (k n : nat) : K unit :=
  match k with
  | O => fun _ => KStuck
  | Datatypes.S k' =>
      preempt_disable ≫= fun _ =>
      modify (puts "a") ≫= fun _ =>
      modify (at_spin n) ≫= fun _ =>
      preempt_enable prio ≫= fun _ =>
      modify (at_spin (Datatypes.S n)) ≫= fun _ =>
      a_loop k' (2 + n)
  end.

Definition a (k : nat) : K unit := modify (puts "A") ≫= fun _ => a_loop k 0.

Fixpoint b_loop (k n : nat) : K unit :=
  match k with
  | O => fun _ => KStuck
  | Datatypes.S k' => modify (puts "b") ≫= fun _ => modify (at_spin n) ≫= fun _ => b_loop k' (Datatypes.S n)
  end.

Definition b (k : nat) : K unit := modify (puts "B") ≫= fun _ => b_loop k 0.

End Threads.

(** ** Reasoning about the sequence *)

Lemma bind_done {A A'} (m : B A) (f : A -> B A') s a s' : m s = BDone a s' -> (m ≫= f) s = f a s'.
Proof. unfold mbind, B_bind. by intros ->. Qed.

(** A step that only prints. *)
Definition prints (f : kst -> kst) : Prop := forall k, exists o, f k = set_out o k.

Lemma prints_puts m : prints (puts m).
Proof. intros k. by eexists. Qed.

Lemma prints_putc c : prints (putc c).
Proof. intros k. by eexists. Qed.

Lemma prints_hex n v : prints (kputhex n v).
Proof. intros k. by eexists. Qed.

Lemma prints_u64 v : prints (print_u64 v).
Proof. intros k. by eexists. Qed.

Lemma prints_comp f g : prints f -> prints g -> prints (fun k => f (g k)).
Proof. intros Hf Hg k. destruct (Hg k) as [o ->]. destruct (Hf (set_out o k)) as [o' ->]. by exists o'. Qed.

(** The value printed may depend on the state. *)
Lemma prints_dep {A} (v : kst -> A) (f : A -> kst -> kst) : (forall x, prints (f x)) -> prints (fun k => f (v k) k).
Proof. intros H k. apply H. Qed.

Create HintDb prints.

#[local] Hint Resolve prints_puts prints_putc prints_hex prints_u64 prints_comp : prints.

Lemma prints_bits v : prints (report_bits v).
Proof. unfold report_bits. cbv zeta. auto 10 with prints. Qed.

#[local] Hint Resolve prints_bits : prints.

Lemma prints_sctlr : prints report_sctlr.
Proof. unfold report_sctlr. apply (prints_dep (fun k => sctlr (mmu k)) (fun v k => report_bits v (kputhex 16 v (puts "[mmu] enabled sctlr=0x" k)))). auto with prints. Qed.

Lemma prints_dump D : prints (mmu_dump_state D).
Proof.
  unfold mmu_dump_state. destruct (reset_regs D) as [[m0 t0] b0].
  apply (prints_dep
    (fun k => (register (fun o => match o with MSR_MAIR v => Some v | _ => None end) m0 k, register (fun o => match o with MSR_TCR v => Some v | _ => None end) t0 k,
               register (fun o => match o with MSR_TTBR0 v => Some v | _ => None end) b0 k, sctlr (mmu k)))
    (fun r k => let '(m, t, b, v) := r in report_bits v (kputhex 16 v (puts "[mmu] sctlr=0x" (puts newline (kputhex 16 b (puts "[mmu] ttbr0_el1=0x"
      (puts newline (kputhex 16 t (puts "[mmu] tcr_el1 =0x" (puts newline (kputhex 16 m (puts "[mmu] mair_el1=0x" k))))))))))))).
  intros [[[? ?] ?] ?]. auto 20 with prints.
Qed.

#[local] Hint Resolve prints_sctlr prints_dump : prints.

Lemma kernel_prints f s : prints f -> exists o, kernel f s = BDone () (on_k (set_out o) s).
Proof. intros H. destruct (H (ik s)) as [o E]. exists o. unfold kernel, on_k. by rewrite E. Qed.

Lemma then_prints {A} f (g : unit -> B A) s : prints f -> exists o, (kernel f ≫= g) s = g () (on_k (set_out o) s).
Proof. intros H. destruct (kernel_prints f s H) as [o E]. exists o. by apply bind_done. Qed.

Lemma out_twice o o' s : on_k (set_out o) (on_k (set_out o') s) = on_k (set_out o) s.
Proof. done. Qed.

(** Pass the printing steps at the head of the goal's sequence. *)
Ltac chat :=
  repeat match goal with
  | |- context [(line ?m ≫= ?g) ?s] => change (line m) with (kernel (puts (m ++ newline)))
  | |- context [(kernel ?f ≫= ?g) ?s] =>
      let o := fresh "o" in let E := fresh "E" in
      destruct (then_prints f g s ltac:(auto 10 with prints)) as [o E]; rewrite E; clear E; rewrite ?out_twice; cbv beta
  end.

Section Steps.

Context `{P : Platform} (answer : list ioev -> Z) (D : build) (fuel : nat).

Abbreviation C := (conf D).
Abbreviation L := (layout D).

Lemma boot_mmu_eq s : exists o, boot_mmu D s = BDone () (on_k (fun k => set_out o (set_mmu (platform_mmu_init L (policy_nc D) true (mmu k)) k)) s).
Proof.
  unfold boot_mmu. chat. rewrite (bind_done _ _ _ () (on_k (set_out o0) (on_k (fun k => set_mmu (platform_mmu_init L (policy_nc D) true (mmu k)) k) s))) by done.
  chat. destruct (kernel_prints (mmu_dump_state D) (on_k (set_out o1) (on_k (fun k => set_mmu (platform_mmu_init L (policy_nc D) true (mmu k)) k) s))) as [o2 ->]; [apply prints_dump |].
  exists o2. done.
Qed.

Lemma boot_memory_eq s : exists o a, boot_memory D s =
  BDone () (Irq (set_out o (set_heap (Kmem (heap_start D) (heap_end D)) (set_cpu (CpuLocal (irq_stack D) nullptr 0 0 0 0) (ik s)))) (idma s) a
    (g_irq_diag_count s) (g_irq_entry_budget s) (g_irq_timer_budget s)).
Proof.
  unfold boot_memory. chat. erewrite bind_done by done. chat. erewrite bind_done by done. chat.
  match goal with |- context [kernel ?f ?x] => destruct (kernel_prints f x ltac:(auto 10 with prints)) as [o9 ->] end. by eexists _, _.
Qed.

(** A device that wakes up lets the interrupt controller's set-up end. *)
Lemma wake_poll_some n s : (exists k, (k <= n)%nat /\ asleep answer (io s) k = false) -> exists s', wake_poll answer n s = Some s'.
Proof.
  revert s. induction n as [|n IH]; intros s (k & Hk & E); rewrite wake_poll_step.
  - assert (k = O) as -> by lia. rewrite E. by eexists.
  - destruct (asleep answer (io s) 0) eqn:E0; [| by eexists]. destruct k as [|k]; [congruence |].
    apply IH. exists k. split; [lia |]. cbn [emit io]. by rewrite asleep_later.
Qed.

End Steps.

(** ** The plain build on QEMU virt *)

(** The MMU and the data cache are on after [mmu_init]. *)
Lemma sctlr_on v : let w := Z.lor (Z.lor (Z.lor v 1) 4) 4096 in negb (Z.land w 1 =? 0) = true /\ negb (Z.land w (Z.shiftl 1 2) =? 0) = true.
Proof.
  intros w. unfold w. change 1 with (Z.shiftl 1 0) at 2. rewrite !land_pow2_eqb, !negb_involutive, !Z.lor_spec by lia.
  split; [change (Z.testbit 1 0) with true | change (Z.testbit 4 2) with true]; by rewrite ?orb_true_r.
Qed.

Section Virt.

Context (answer : list ioev -> Z) (D : build) (fuel : nat).

Abbreviation C := (conf D).
Abbreviation L := (layout D).
Abbreviation PV := (virt answer (b_cntp D)).

(** What the build, the linker and the reset state provide: the guard page of
    [mmu.cc], tables and DMA window in place, the MMU off, cache lines of at most
    a page, a heap in RAM with room for the self-test, the thread pool and two
    stacks, an idle DMA engine, a redistributor that wakes up. *)
Record boot_ok (s : irq_st) : Prop := {
  bo_lab : lab D = NoLab;
  bo_guard : guard_page C = Mmu.mmu_guard_page L;
  bo_layout : layout_ok L /\ window_ok L Mmu.kRamBase /\ dma_nc_start L mod 4096 = 0 /\ dma_nc_end L mod 4096 = 0;
  bo_off : mmu_enabled (mmu (ik s)) = 0;
  bo_line : forall sc xl nz, Cache.dcache_line_size (Hw (ctr D) sc xl nz) <= 4096;
  bo_heap : SelfTest.heap_ready (policy_nc D) (dma_nc_start L) (dma_nc_end L) (cb_seen_addr D) (Kmem (heap_start D) (heap_end D));
  bo_room : heap_start D + 0x2800 + 20512 + 2 * spawn_cost (16 * 1024) <= heap_end D;
  bo_entries : a_entry D <> 0 /\ b_entry D <> 0 /\ 0 <= trampoline C < 2 ^ 64;
  bo_dma : msys_bytes (sys (idma s)) /\ cache (sys (idma s)) = ∅ /\ window_wf (idma s) /\ dma_rep (idma s) [] /\ desc_addr (idma s) + sizeof_desc <= g_dma_buf_end (idma s);
  bo_fuel : (1 <= fuel)%nat;
  bo_wakes : forall l, exists k, (k <= fuel)%nat /\ asleep answer l k = false;
  bo_ram : mem_bytes (ram (ik s)) /\ threads (ik s) = ∅
}.

(** *** The self-test *)

Lemma boot_selftest_eq s :
  boot_ok s -> forall k, pt (mmu k) = pt (Mmu.build_identity_map L (policy_nc D) (mmu (ik s))) ->
  sctlr (mmu k) = Z.lor (Z.lor (Z.lor (sctlr (mmu (ik s))) 1) 4) 4096 -> heap k = Kmem (heap_start D) (heap_end D) ->
  forall s', ik s' = k -> idma s' = idma s ->
  exists h d, boot_selftest D fuel s' = BDone () (on_k (set_heap h) (dma_back d s')) /\ dma_rep d [] /\ kmem_wf h /\
    heap_start D <= Kmem.cur h <= heap_start D + 0x2800 /\ kend h = heap_end D.
Proof.
  intros [B1 B2 (L1 & L2 & L3 & L4) B4 B5 B6 B7 B8 (D1 & D2 & D3 & D4 & D5) B10 B11 B12] k Hp Hs Hh s' Ek Ed.
  destruct (sctlr_on (sctlr (mmu (ik s)))) as [S1 S2]. rewrite <- Hs in S1, S2.
  assert (HM : DmaMap (xlate (hw_now D k)) (policy_nc D) (dma_nc_start L) (dma_nc_end L)).
  { unfold hw_now. cbn [xlate]. rewrite Hp. by apply (virt_dma_map L (policy_nc D) (mmu (ik s))). }
  destruct (SelfTest.dma_selftest_spec (hw_now D k) (policy_nc D) (dma_nc_start L) (dma_nc_end L) S2 S1 (heap_start D) (heap_end D) (cb_seen_addr D) fuel
    (heap k) (dma_in s')) as (ok & h & d & o & E & _ & R & [W1 W2] & Hk & Hc & _).
  - apply B5.
  - by rewrite Hh.
  - unfold dma_in. cbn [sys]. by rewrite Ed.
  - intros l c. unfold dma_in. cbn [sys]. by rewrite Ed, D2, lookup_empty.
  - unfold dma_in, window_wf in *. cbn. by rewrite Ed.
  - rewrite <- Ed in D4. destruct D4. by split.
  - unfold dma_in, desc_addr in *. cbn [g_dma_desc_next g_dma_buf_end]. by rewrite Ed.
  - done.
  - rewrite Hh in *. cbn [Kmem.cur kend] in *. exists h, d. split; [unfold boot_selftest; by rewrite Ek, Hh, E |].
    pose proof B6 as [[F1 F2] _ F3 _]. cbn [Kmem.cur kend] in *. split; [done | split; [split; lia | split; [lia | done]]].
Qed.

(** *** The two threads *)

(** A thread queued behind its guard page. *)
Definition ready_thread (k : kst) (t entry arg : Z) : Prop :=
  t <> nullptr /\ t_entry (thr k t) = entry /\ t_arg (thr k t) = arg /\ t_effective_priority (thr k t) = kDefaultPriority /\
  StackLab.guarded L (mmu k) (t_stack_base (thr k t)) (16 * 1024).

(** Two stacks behind guard pages: the second guard page leaves the first stack
    as it was. *)
Lemma two_guards m ba bb :
  layout_ok L -> Mmu.mmu_inv L m -> mmu_enabled m = 1 -> g_l3_extra_next m = 0 -> ba mod 4096 = 0 -> bb mod 4096 = 0 ->
  Mmu.kRamBase <= ba - 4096 -> ba + 16384 <= bb - 4096 -> bb + 16384 <= Mmu.kRamLimit ->
  (forall va, ba - 4096 <= va < bb + 16384 -> walk (pt m) (g_l0 L) va <> None) ->
  let m1 := (Mmu.mmu_guard_page L (ba - 4096) m).2 in let m2 := (Mmu.mmu_guard_page L (bb - 4096) m1).2 in
  StackLab.guarded L m2 ba 16384 /\ StackLab.guarded L m2 bb 16384.
Proof.
  intros HL Hi Hon Hn Ha Hb Hlo Hab Hhi Hmap m1 m2. unfold Mmu.kRamBase, Mmu.kRamLimit in *.
  destruct (StackLab.guard_page_guards L m (ba - 4096) 16384) as (G1 & I1 & W1); unfold Mmu.kRamBase, Mmu.kRamLimit; try done; try lia; [zlia | intros va Hva; apply Hmap; lia |].
  fold m1 in G1, I1, W1. replace (ba - 4096 + 4096) with ba in G1 by lia.
  pose proof (StackLab.guard_page_next L (ba - 4096) m) as N1. fold m1 in N1.
  destruct (StackLab.guard_page_guards L m1 (bb - 4096) 16384) as (G2 & I2 & W2); unfold Mmu.kRamBase, Mmu.kRamLimit; try done; try lia; [apply G1 | zlia | |].
  { intros va Hva. rewrite W1 by lia. rewrite (proj2 (Z.eqb_neq _ _)); [apply Hmap; lia | zlia]. }
  fold m2 in G2, I2, W2. replace (bb - 4096 + 4096) with bb in G2 by lia. split; [| exact G2].
  pose proof G1 as [X1 X2 X3 X4]. split; [apply G2 | done | |]; intros va Hva; unfold StackLab.kGuardPageBytes in *; rewrite W2 by lia.
  - destruct (_ =? _); [done | by apply X3].
  - rewrite (proj2 (Z.eqb_neq _ _)); [by apply X4 | zlia].
Qed.

(** Queueing two threads after a message each. *)
Lemma queue_two s free ta tb ma mb :
  booting C s free [tb; ta] [] -> ta <> tb -> ta <> nullptr -> tb <> nullptr -> threads s !! ta <> None -> threads s !! tb <> None ->
  t_state (thr s ta) = kThreadReady -> t_state (thr s tb) = kThreadReady ->
  let s' := sched_add tb (puts mb (sched_add ta (puts ma s))) in
  booting C s' free [tb; ta] [ta; tb] /\ (forall u, exists v, thr s' u = set_t_next v (thr s u)) /\ mmu s' = mmu s /\ cpu s' = cpu s.
Proof.
  intros HB Hab Hna Hnb Hka Hkb Ra Rb s'. pose proof (booting_out C s free [tb; ta] [] (out s ++ puts_bytes (chars ma)) HB) as HB1.
  change (set_out _ s) with (puts ma s) in HB1. set (s1 := puts ma s) in *.
  destruct (sched_add_spec C s1 free [tb; ta] [] ta HB1) as (HB2 & nx & T2 & K2 & E2); [by right; left | apply not_elem_of_nil | done.. |].
  set (s2 := sched_add ta s1) in *. pose proof (booting_out C s2 free [tb; ta] [ta] (out s2 ++ puts_bytes (chars mb)) HB2) as HB3.
  change (set_out _ s2) with (puts mb s2) in HB3. set (s3 := puts mb s2) in *.
  destruct (sched_add_spec C s3 free [tb; ta] [ta] tb HB3) as (HB4 & nx' & T4 & K4 & E4);
    [by left | rewrite list_elem_of_singleton; congruence | done | by apply K2 | change (thr s3 tb) with (thr s2 tb); by rewrite T2 |].
  fold s' in HB4, T4, K4, E4. split; [exact HB4 | split].
  - intros u. exists (nx' u). rewrite T4. change (thr s3 u) with (thr s2 u). by rewrite T2.
  - rewrite E4. cbn [mmu cpu set_rq_tail set_rq_head set_threads]. change (mmu s3) with (mmu s2). change (cpu s3) with (cpu s2). by rewrite E2.
Qed.

Lemma create_ab_spec s free :
  booting C s free [] [] -> guard_page C = Mmu.mmu_guard_page L -> StackLab.heap_mapped L s -> g_l3_extra_next (mmu s) = 0 ->
  Kmem.cur (heap s) + 2 * spawn_cost (16 * 1024) <= kend (heap s) ->
  a_entry D <> 0 -> b_entry D <> 0 -> 0 <= trampoline C < 2 ^ 64 ->
  exists ta tb free' s', create_ab D s = KDone () s' /\ booting C s' free' [tb; ta] [ta; tb] /\ ta <> tb /\ cpu s' = cpu s /\
    ready_thread s' ta (a_entry D) 0xA /\ ready_thread s' tb (b_entry D) 0xB /\ mmu_enabled (mmu s') = 1.
Proof.
  intros HB HC [HL Hi Hon Hlo Hhi Hmap] Hn Hroom He1 He2 Htr. unfold create_ab, thread_create. change (16 * 1024) with 16384 in *.
  pose proof (booting_out C s free [] [] (out s ++ puts_bytes (chars ("[diag] thread_create a" ++ newline))) HB) as HB0.
  change (set_out _ s) with (puts ("[diag] thread_create a" ++ newline) s) in HB0. set (s0 := puts _ s) in *.
  assert (Hspawn : spawn_cost 16384 = 25232) by reflexivity.
  destruct (spawn_spec C s0 free [] [] (a_entry D) 0xA 16384 kDefaultPriority HB0 He1 ltac:(lia) ltac:(lia) Htr ltac:(change (heap s0) with (heap s); lia))
    as (ta & s1 & free1 & -> & Hna & _ & HB1 & Hcra & Hfra & _ & Hka & Hca & Hma & Hala & Hba & Hta & _).
  pose proof Hfra as (_ & _ & Cpu1 & _ & _ & _ & Ke1).
  pose proof (booting_out C s1 free1 [ta] [] (out s1 ++ puts_bytes (chars ("[diag] thread_create b" ++ newline))) HB1) as HB1'.
  change (set_out _ s1) with (puts ("[diag] thread_create b" ++ newline) s1) in HB1'. set (s1' := puts _ s1) in *.
  change (heap s0) with (heap s) in *. change (mmu s0) with (mmu s) in *. change (cpu s0) with (cpu s) in *.
  destruct (spawn_spec C s1' free1 [ta] [] (b_entry D) 0xB 16384 kDefaultPriority HB1' He2 ltac:(lia) ltac:(lia) Htr ltac:(change (heap s1') with (heap s1); lia))
    as (tb & s2 & free2 & -> & Hnb & Hnab & HB2 & Hcrb & Hfrb & Hthrb & Hkb & Hcb & Hmb & Halb & Hbb & Htb & _).
  pose proof Hfrb as (_ & _ & Cpu2 & _ & _ & _ & Ke2).
  change (heap s1') with (heap s1) in *. change (mmu s1') with (mmu s1) in *. change (cpu s1') with (cpu s1) in *.
  rewrite (proj2 (Z.eqb_neq _ _) Hna), (proj2 (Z.eqb_neq _ _) Hnb). cbn [orb].
  assert (Hab : ta <> tb) by (intros ->; apply Hnab; by left). specialize (Hthrb ta Hab). change (thr s1' ta) with (thr s1 ta) in Hthrb.
  assert (Hka2 : threads s2 !! ta <> None).
  { intros E. unfold thr in Hthrb. rewrite E in Hthrb. destruct Hcra as (X & _). unfold thr in X. rewrite <- Hthrb in X. by cbn in X. }
  destruct Hcra as (A1 & A2 & A3 & _ & _ & A6 & A7 & _), Hcrb as (Q1 & Q2 & Q3 & _ & _ & Q6 & Q7 & _).
  cbv zeta. pose proof (queue_two s2 free2 ta tb ("[diag] sched_add a" ++ newline) ("[diag] sched_add b" ++ newline) HB2 Hab Hna Hnb Hka2 Hkb ltac:(by rewrite Hthrb) Q7) as (HB4 & T & M & Cpu4).
  set (s4 := sched_add tb _) in *. clearbody s4.
  exists ta, tb, free2, s4. split; [done | split; [exact HB4 | split; [done | split; [congruence |]]]].
  pose proof (ci_heap _ _ _ (bt_create _ _ _ _ _ HB2)) as [_ Hend].
  destruct (two_guards (mmu s) (t_stack_base (thr s1 ta)) (t_stack_base (thr s2 tb))) as [G1 G2];
    unfold Mmu.kRamBase, Mmu.kRamLimit in *; try done; try lia; [intros va Hva; apply Hmap; lia |].
  rewrite <- HC, <- Hma, <- Hmb in G1, G2.
  split; [| split; [| rewrite M; apply G2]]; unfold ready_thread; [destruct (T ta) as [v ->] | destruct (T tb) as [v ->]];
    cbn [t_entry t_arg t_effective_priority t_stack_base set_t_next]; rewrite M.
  - rewrite Hthrb. by rewrite A6.
  - by rewrite Q6.
Qed.

(** *** Interrupts, and the first thread *)

Lemma boot_interrupts_eq s : (forall l, exists k, (k <= fuel)%nat /\ asleep answer l k = false) ->
  exists o a, boot_interrupts (P := PV) answer D fuel s =
    BDone () (Irq (set_out o (set_daif (Z.land (daif (ik s)) (Z.lnot 0x80)) (ik s))) (idma s) a (g_irq_diag_count s) (g_irq_entry_budget s) (g_irq_timer_budget s)).
Proof.
  intros Hw. unfold boot_interrupts. chat. set (s1 := on_k (set_out o) s).
  assert (E : exists a, device (platform_irq_init (Platform := PV) fuel) s1 =
    BDone () (Irq (set_out (con a) (ik s1)) (idma s1) a (g_irq_diag_count s1) (g_irq_entry_budget s1) (g_irq_timer_budget s1))).
  { unfold device. cbn [platform_irq_init virt]. unfold virt_platform_irq_init, gic_init.
    destruct (gicr_wake_eq answer fuel (Arch (io (ia s1)) (out (ik s1)) (g_timer_diag_once (ia s1)) (heartbeat (ia s1)))) as (a1 & _ & _ & ->).
    destruct (wake_poll_some answer fuel a1 (Hw _)) as [a2 ->]. cbn [mbind option_bind]. by eexists. }
  destruct E as [a1 E]. rewrite (bind_done _ _ _ _ _ E). clear E. chat.
  erewrite bind_done by (unfold device; reflexivity). erewrite bind_done by (unfold kernel; reflexivity).
  match goal with |- context [line ?m ?x] => destruct (kernel_prints (puts (m ++ newline)) x ltac:(auto with prints)) as [o9 E]; unfold line; rewrite E end.
  by eexists _, _.
Qed.

Lemma start_ab s free ta tb : booting C s free [tb; ta] [ta; tb] -> t_effective_priority (thr s ta) = kDefaultPriority -> t_effective_priority (thr s tb) = kDefaultPriority ->
  exists k, sched_start (sched_policy_prio C) s = KSwitch nullptr ta (started ta s) k.
Proof.
  intros HB Ha Hb. pose proof (bt_sched _ _ _ _ _ HB) as HS. pose proof (rq_nonnull _ _ (si_rep _ _ HS)) as Hnn.
  apply sched_start_spec; [| intros ->; apply Hnn; by left]. destruct (sched_policy_prio C); [| apply (rq_hd _ _ (si_rep _ _ HS))].
  apply (pick_first s ta [tb] kDefaultPriority (si_rep _ _ HS)); [| done]. intros u Hu. split; [by apply (sched_inv_ready s [ta; tb]) |].
  apply elem_of_cons in Hu as [-> | ->%list_elem_of_singleton]; done.
Qed.

Lemma started_ready t k u entry arg : ready_thread k u entry arg -> ready_thread (started t k) u entry arg.
Proof.
  unfold ready_thread. intros (H1 & H2 & H3 & H4 & H5). unfold started. change (thr (upd_cpu _ ?x) u) with (thr x u).
  rewrite thr_upd. destruct (t =? u); done.
Qed.

(** The tables of [mmu_init] cover the heap. *)
Lemma heap_mapped_boot m0 k :
  layout_ok L -> window_ok L Mmu.kRamBase -> mmu_enabled (mmu k) = 1 ->
  pt (mmu k) = pt (Mmu.build_identity_map L (policy_nc D) m0) -> g_l3_extra_next (mmu k) = 0 ->
  Mmu.kRamBase <= Kmem.cur (heap k) -> kend (heap k) <= Mmu.kRamLimit -> StackLab.heap_mapped L k.
Proof.
  intros L1 L2 Hon Hp Hn Hlo Hhi. destruct (Mmu.build_spec L L1 (policy_nc D) m0 L2) as ((U & own & R) & _ & _ & W).
  split; try done.
  - split; [by rewrite Hp | exists own]. rewrite Hp, Hn. exact R.
  - intros va Hva. unfold Mmu.kRamBase, Mmu.kRamLimit in *. rewrite Hp, W by lia. unfold Mmu.virt_map. repeat bdestr; done || lia.
Qed.

(** *** The sequence *)

(** After [boot_memory]: the reset state [s] with MMU, CPU-local block and heap
    set up. *)
Record memory_up (s s2 : irq_st) : Prop := {
  mu_mmu : mmu (ik s2) = Mmu.mmu_init L (policy_nc D) true (mmu (ik s));
  mu_heap : heap (ik s2) = Kmem (heap_start D) (heap_end D);
  mu_cpu : cpu (ik s2) = CpuLocal (irq_stack D) nullptr 0 0 0 0;
  mu_ram : ram (ik s2) = ram (ik s);
  mu_threads : threads (ik s2) = ∅;
  mu_dma : idma s2 = idma s
}.

(** Before the last part: both threads queued, nothing running. *)
Record threads_up (s5 : irq_st) (free : list Z) (ta tb : Z) : Prop := {
  tu_booting : booting C (ik s5) free [tb; ta] [ta; tb];
  tu_ne : ta <> tb;
  tu_a : ready_thread (ik s5) ta (a_entry D) 0xA;
  tu_b : ready_thread (ik s5) tb (b_entry D) 0xB;
  tu_cpu : cpu (ik s5) = CpuLocal (irq_stack D) nullptr 0 0 0 0;
  tu_mmu : mmu_enabled (mmu (ik s5)) = 1;
  tu_dma : dma_rep (idma s5) []
}.

(** What follows the threads' creation. *)
Definition last_part : B unit :=
  line "[sched] starting (coop)" ≫= fun _ =>
  boot_interrupts (P := PV) answer D fuel ≫= fun _ =>
  run_k (sched_start (sched_policy_prio C)) ≫= fun _ =>
  line "[BUG] returned to sched_start" ≫= fun _ => stop.

Lemma kernel_to_threads s s2 : boot_ok s -> memory_up s s2 ->
  exists s5 free ta tb, boot_kernel (P := PV) answer D fuel s2 = last_part s5 /\ threads_up s5 free ta tb.
Proof.
  intros HO [F1 F2 F3 F4 F5 F6]. pose proof HO as [B1 B2 (L1 & L2 & _ & _) B4 _ B6 B7 (Ea & Eb & Et) _ _ _ [B12 _]]. unfold boot_kernel.
  destruct (Mmu.build_spec L L1 (policy_nc D) (mmu (ik s)) L2) as (_ & Hops & Hsc & _).
  destruct (mmu_enable_spec L (Mmu.build_identity_map L (policy_nc D)) (mmu (ik s)) Hops Hsc) as (M1 & _ & M2).
  fold (Mmu.mmu_init L (policy_nc D) true) in M1, M2. rewrite <- F1 in M1, M2. destruct (M2 B4) as (M3 & _ & M4 & M5). clear M2 Hops Hsc.
  (* the self-test *)
  destruct (boot_selftest_eq s HO (ik s2) M4 M3 F2 s2 eq_refl F6) as (h & d & E & Hd & Hwf & Hh & Hk). rewrite (bind_done _ _ _ _ _ E). clear E.
  set (s3 := on_k (set_heap h) (dma_back d s2)). chat. set (s4 := on_k (set_out o) s3).
  assert (F : mmu (ik s4) = mmu (ik s2) /\ heap (ik s4) = h /\ cpu (ik s4) = cpu (ik s2) /\ ram (ik s4) = ram (ik s2) /\ threads (ik s4) = threads (ik s2) /\ idma s4 = d) by done.
  clearbody s4. clear s3 o. destruct F as (G1 & G2 & G3 & G4 & G5 & G6).
  (* the scheduler *)
  pose proof B6 as [[X1 X2] _ X3 _]. cbn [Kmem.cur kend] in X1, X2, X3. unfold spawn_cost in B7. change (thread_cost + 8192 + 16 * 1024) with 25232 in B7.
  destruct (booting_init C (ik s4)) as (k & free & E & HB & _ & _ & K1 & K2 & _ & _ & K3 & K4);
    [by rewrite G2 | by rewrite G5, F5 | unfold cur; by rewrite G3, F3 | by rewrite G4, F4 | rewrite G2, Hk; lia |].
  erewrite bind_done by (unfold run_k, modify_opt; by rewrite E). clear E. rewrite G2, ?Hk in K3, K4.
  assert (Ebt : boot_threads D (set_ik k s4) = run_k (create_ab D) (set_ik k s4)) by (unfold boot_threads; by rewrite B1).
  destruct (create_ab_spec k free HB B2) as (ta & tb & free' & k5 & E & HB5 & Hab & C5 & Ra & Rb & On5).
  { apply (heap_mapped_boot (mmu (ik s))); rewrite ?K2, ?G1; try done; [unfold Mmu.kRamBase; lia | unfold Mmu.kRamLimit; lia]. }
  { rewrite K2, G1, M5. done. }
  { change (spawn_cost (16 * 1024)) with 25232. rewrite K3. lia. }
  { done. }
  { done. }
  { done. }
  erewrite bind_done by (rewrite Ebt; unfold run_k; cbn [ik set_ik]; by rewrite E). clear E Ebt.
  exists (set_ik k5 s4), free', ta, tb. split; [reflexivity |].
  split; try done; [by rewrite <- F3, <- G3, <- K1 | cbn [idma set_ik]; by rewrite G6].
Qed.

Lemma last_part_spec s5 free ta tb : (forall l, exists k, (k <= fuel)%nat /\ asleep answer l k = false) -> threads_up s5 free ta tb ->
  exists s', last_part s5 = BRun ta s' /\ ready_thread (ik s') ta (a_entry D) 0xA /\ ready_thread (ik s') tb (b_entry D) 0xB /\
    unstarted C (ik s') free ta /\ unstarted C (ik s') free tb /\ sched_inv (ik s') [ta; tb] /\
    cpu (ik s') = CpuLocal (irq_stack D) ta 0 0 0 0 /\ Z.testbit (daif (ik s')) 7 = false /\
    mmu_enabled (mmu (ik s')) = 1 /\ dma_rep (idma s') [].
Proof.
  intros B11 [HB5 Hab Ra Rb C5 On5 Hd]. unfold last_part. set (k5 := ik s5) in *.
  chat. match goal with |- context [on_k (set_out ?o) ?x] => set (s6 := on_k (set_out o) x) end.
  destruct (boot_interrupts_eq s6 B11) as (o7 & a7 & E). rewrite (bind_done _ _ _ _ _ E). clear E.
  set (k7 := set_out o7 _).
  assert (HB7 : booting C k7 free [tb; ta] [ta; tb]).
  { apply (booting_frame C k5 _ _ _ _ _ HB5); try done; [apply (sched_inv_same k5); done || apply HB5 | apply HB5 |]. intros t [-> | ->%list_elem_of_singleton]%elem_of_cons; [right; left | left]. }
  destruct (start_ab k7 free ta tb HB7) as [kk E]; [apply Ra | apply Rb |].
  assert (Hs : run_k (sched_start (sched_policy_prio C)) (Irq k7 (idma s6) a7 (g_irq_diag_count s6) (g_irq_entry_budget s6) (g_irq_timer_budget s6)) =
    BRun ta (Irq (started ta k7) (idma s5) a7 (g_irq_diag_count s6) (g_irq_entry_budget s6) (g_irq_timer_budget s6))).
  { unfold run_k. cbn [ik]. rewrite E. done. }
  pose proof Ra as (Na & _). pose proof Rb as (Nb & _).
  destruct (started_spec C k7 free [tb; ta] [ta; tb] ta HB7 ltac:(by left) Na) as (S1 & _ & _ & S4).
  eexists. split; [unfold mbind at 1, B_bind at 1; rewrite Hs; reflexivity | cbn [ik idma]].
  split; [by apply started_ready | split; [by apply started_ready | split; [apply S4; [by right; left | done] | split; [apply S4; [by left | done] |]]]].
  split; [exact S1 | split; [| split; [| split; [exact On5 | exact Hd]]]].
  - change (cpu (started ta k7)) with (set_current_thread ta (cpu k5)). by rewrite C5.
  - change (daif (started ta k7)) with (Z.land (daif k5) (Z.lnot 0x80)). rewrite Z.land_spec. change (Z.testbit (Z.lnot 0x80) 7) with false. apply andb_false_r.
Qed.

(** C9: the plain kernel boots.  On QEMU virt, from any state in which the image
    and the machine provide what [boot_ok] lists, [kmain] passes the MMU set-up,
    the DMA self-test, [sched_init], both thread creations and the interrupt
    set-up, and hands the processor to thread [a] with [b] queued behind it.  At
    that moment the MMU is on, both stacks lie behind unmapped guard pages, their
    guard patterns and first frames are intact, the scheduler's invariant holds,
    interrupts are unmasked with clean CPU-local counters, and the DMA engine is
    idle. *)
Theorem kmain_boots u s : boot_ok s ->
  exists ta tb free s', (kmain (P := PV) answer D fuel u s).2 = BRun ta s' /\ ta <> tb /\
    ready_thread (ik s') ta (a_entry D) 0xA /\ ready_thread (ik s') tb (b_entry D) 0xB /\
    unstarted C (ik s') free ta /\ unstarted C (ik s') free tb /\ sched_inv (ik s') [ta; tb] /\
    cpu (ik s') = CpuLocal (irq_stack D) ta 0 0 0 0 /\ Z.testbit (daif (ik s')) 7 = false /\
    mmu_enabled (mmu (ik s')) = 1 /\ dma_rep (idma s') [].
Proof.
  intros HO. pose proof HO as [B1 _ _ _ _ _ _ _ _ _ B11 [_ B13]].
  unfold kmain. cbn [platform_early_init virt]. unfold virt_platform_early_init. cbn [snd]. unfold kmain_body.
  set (s0 := Irq (ik s) (idma s) (ia s) _ _ _).
  destruct (boot_mmu_eq (P := PV) D s0) as [o1 E]. rewrite (bind_done _ _ _ _ _ E). clear E. set (s1 := on_k _ s0).
  destruct (boot_memory_eq D s1) as (o2 & a2 & E). rewrite (bind_done _ _ _ _ _ E). clear E.
  rewrite B1. change (platform_full_kernel_supported (Platform := PV)) with 1. cbn [Z.eqb].
  set (s2 := Irq _ _ _ _ _ _). assert (HM : memory_up s s2) by (by split). clearbody s2.
  destruct (kernel_to_threads s s2 HO HM) as (s5 & free & ta & tb & -> & HT).
  destruct (last_part_spec s5 free ta tb B11 HT) as (s' & E & H). exists ta, tb, free, s'. split; [exact E | split; [apply HT | exact H]].
Qed.

End Virt.

(** ** The Raspberry Pi 4 bring-up *)

(** on the Raspberry Pi 4 the plain build stops before any kernel service
    exists: after the MMU set-up, the CPU-local block and the heap, [kmain] prints
    that the platform's interrupt controller is not enabled and halts.  No thread
    has been created, the run queue, the interrupt mask and the DMA engine are as
    they were at reset, and the heap is untouched. *)
Theorem rpi4_bring_up_halts answer D fuel u s :
  match lab D with DMA_LAB_MODE _ | MEM_LAB_MODE _ => False | _ => True end ->
  exists o s', (kmain (P := rpi4 answer) answer D fuel u s).2 = BHalt s' /\
    out (ik s') = o ++ puts_bytes (chars "rpi4") ++ puts_bytes (chars (" bring-up: IRQ controller not enabled yet; halting" ++ newline)%string) /\
    threads (ik s') = threads (ik s) /\ rq_head (ik s') = rq_head (ik s) /\ daif (ik s') = daif (ik s) /\ idma s' = idma s /\
    heap (ik s') = Kmem (heap_start D) (heap_end D) /\ mmu (ik s') = MmuRpi4.mmu_init (layout D) (policy_nc D) true (mmu (ik s)).
Proof.
  intros Hl. unfold kmain. cbn [platform_early_init rpi4]. destruct (rpi4_platform_early_init answer u (ia s)) as [u' a0]. cbn [snd]. unfold kmain_body.
  destruct (boot_mmu_eq (P := rpi4 answer) D (Irq (ik s) (idma s) a0 (g_irq_diag_count s) (g_irq_entry_budget s) (g_irq_timer_budget s))) as [o1 E].
  rewrite (bind_done _ _ _ _ _ E). clear E. set (s1 := on_k _ _).
  destruct (boot_memory_eq D s1) as (o2 & a2 & E). rewrite (bind_done _ _ _ _ _ E). clear E. set (s2 := Irq _ _ _ _ _ _).
  assert (F : mmu (ik s2) = MmuRpi4.mmu_init (layout D) (policy_nc D) true (mmu (ik s)) /\ heap (ik s2) = Kmem (heap_start D) (heap_end D) /\
    threads (ik s2) = threads (ik s) /\ rq_head (ik s2) = rq_head (ik s) /\ daif (ik s2) = daif (ik s) /\ idma s2 = idma s) by done.
  clearbody s2. clear s1 o1 o2 a2. destruct F as (F1 & F2 & F3 & F4 & F5 & F6).
  change (platform_full_kernel_supported (Platform := rpi4 answer)) with 0. cbn [Z.eqb]. change (platform_name (Platform := rpi4 answer)) with "rpi4"%string.
  set (tail := (" bring-up: IRQ controller not enabled yet; halting" ++ newline)%string).
  exists (out (ik s2) ++ puts_bytes (chars "[platform] ")), (on_k (fun k => puts tail (puts "rpi4" (puts "[platform] " k))) s2).
  split; [by destruct (lab D) | split; [| done]].
  change (out (ik (on_k ?f s2))) with (((out (ik s2) ++ puts_bytes (chars "[platform] ")) ++ puts_bytes (chars "rpi4")) ++ puts_bytes (chars tail)).
  by rewrite <- !app_assoc.
Qed.

(** ** A concrete image *)

Definition demo_build : build :=
  Build NoLab StackLab.demo_kcfg Mmu.demo_layout false true false "Jan  1 2025" "00:00:00" 0x40200000 0x40400000 0x40070000 0x40060000 0x40190000
    0x40080700 0x40080800 SyncLabThms.demo_sync LockLab.demo_lab StackLab.demo_probe (0, 0, 0) 0x80040000 (fun _ => []).

Definition demo_reset : irq_st :=
  Irq (boot_state (Kmem 0 0) ∅ Mmu.mmu_off) SelfTest.boot_dma (Arch [] [] false 0) 0 0 0.

Lemma demo_boot_ok : boot_ok (fun _ => 0) demo_build 1 demo_reset.
Proof.
  destruct (SelfTest.boot_dma_ready (SelfTest.flat_hw (fun _ => []))) as (_ & D1 & _ & D3 & D4 & D5). split; try done.
  - split; [exact Mmu.demo_layout_ok | split; [exact Mmu.demo_window_ok | done]].
  - intros l. exists O. split; [lia | done].
Qed.

Lemma kmain_boots_witness : exists ta tb free s', (kmain (P := virt (fun _ => 0) false) (fun _ => 0) demo_build 1 (Uart 0 0 [] []) demo_reset).2 = BRun ta s' /\ ta <> tb /\
  unstarted StackLab.demo_kcfg (ik s') free ta /\ sched_inv (ik s') [ta; tb] /\ Z.testbit (daif (ik s')) 7 = false.
Proof.
  destruct (kmain_boots (fun _ => 0) demo_build 1 (Uart 0 0 [] []) demo_reset demo_boot_ok)
    as (ta & tb & free & s' & E & Hne & _ & _ & Ha & _ & Hs & _ & Hd & _).
  exists ta, tb, free, s'. split; [exact E | split; [exact Hne | split; [exact Ha | split; [exact Hs | exact Hd]]]].
Defined.

Lemma rpi4_bring_up_halts_witness : exists s', (kmain (P := rpi4 (fun _ => 0)) (fun _ => 0) demo_build 1 (Uart 0 0 [] []) demo_reset).2 = BHalt s' /\
  threads (ik s') = ∅ /\ heap (ik s') = Kmem 0x40200000 0x40400000.
Proof.
  destruct (rpi4_bring_up_halts (fun _ => 0) demo_build 1 (Uart 0 0 [] []) demo_reset I) as (o & s' & E & _ & Ht & _ & _ & _ & Hh & _).
  exists s'. split; [exact E | split; [exact Ht | exact Hh]].
Defined.
